(* ===== verification/_CoqProject ===== *)
-Q . S2P
Prelude.v
GoStrings.v
GoHash.v
GoNet.v
GoUrl.v
GoFlag.v
Utils.v
LibvirtXML.v
Builders.v
Config.v
Api.v
GoMemory.v
DeepCopy.v
DeepCopySpec.v
RefMemory.v
Kube.v
Credentials.v
ProviderInterface.v
ClusterController.v
MachineController.v
Contract.v
Manager.v
History.v
Pattern.v
Schema.v
Maintains.v
Interleaving.v
Progress.v
Orphans.v
RefKube.v
Witnesses.v
RefApi.v
RefXML.v
MachineNetwork.v
Reservation.v
Libvirt.v
Host.v
Infra.v
OS.v
CloudInit.v
Volume.v
Domain.v
RefHost.v
HostSpec.v
Connect.v
Provider.v
ProviderSpec.v
Isolation.v
System.v
Footprint.v
Interference.v
Addresses.v
Leftovers.v
ProviderWitnesses.v
SystemWitnesses.v
HistoryWitnesses.v
IsolationWitnesses.v
