(* ===== verification/Prelude.v ===== *)
(** * cluster-api-provider-libvirt: a Rocq model of the infrastructure provider

    The program is a Cluster API infrastructure provider.  Two Kubernetes
    controllers watch LibvirtCluster and LibvirtMachine objects (src/api,
    src/internal/controller); they act on a libvirt host through a [provider]
    interface whose implementation (src/internal/libvirtclient) opens a
    connection per call, checks networks and storage pools, creates volumes and
    domains, builds a cloud-init image and keeps static DHCP reservations.

    ** How the code is represented

    A Go function with an error is a [result]; one that acts on the world is an
    [M W A], with the world [W] threaded explicitly ([defer], [wrap_err], [try],
    [ignore_err] below are the idioms of the source).  The controllers work on [W * T], the
    world and the object they may patch.  Code that is not in the repository is a
    type class: its operations are parameters, and its documented behaviour is a
    second class of laws that theorems name when they rely on it.  Every such
    class has a concrete instance, so the laws are known to hold together:

    - [LibvirtXML], the XML codec of libvirtxml: [RefXML];
    - [networkOperations] with [NetworkLaws], [Libvirt] with [HandleLaws] and
      [HostLaws], [OS] with [OSLaws], [CloudInitLib] with [FilesKeep] and
      [DisksKeep]: [RefHost], a libvirt host, a file system and an image library
      kept in memory, whose calls can fail ([DefineLaws], [CallFootprint], [UpdateAtomic] and
      [VolumeDeleteLaw], on failed calls, in HistoryWitnesses and IsolationWitnesses);
    - [KubeLib], [Getter], [Lister] with their laws (controller-runtime and the
      Cluster API utilities): [RefKube]; [Patcher], [ClusterAPIUtil] and the API
      server they work on, [ApiView] with [ApiLaws] and [PatchMerges]: [RefApi];
    - [Manager], the manager of controller-runtime, which is only told what to do
      and has no laws;
    - [CharCount] with [CharCountLaws], the number of characters of a UTF-8 string as
      the API server counts it: [RefApi];
    - [LibTypes] and [LibCopy] with [LibCopyLaws], the library types in memory and
      their deep copies: [RefMemory];
    - [provider] (an interface of the source) with its call history
      [ProviderTrace]: the mock of mock_provider.go, and [Provider_provider].

    The Go standard library is modelled, not assumed: strings (GoStrings), FNV-1a
    and SHA-256 (GoHash), IP addresses and CIDRs (GoNet), URLs and query strings
    (GoUrl), command-line flags (GoFlag), paths (OS).
    Integers keep their width where it matters: the address arithmetic of
    machine_network.go wraps at 32 bits and the hashes at 64.

    ** Files

    - Prelude: errors, results, the monad, [Keeps] and tactics.
    - GoStrings, GoHash, GoNet, GoUrl, GoFlag, OS: the standard library.
    - Utils: src/pkg/utils/ip.go.
    - LibvirtXML, Builders: libvirtxml documents and src/internal/libvirtclient/builders.
    - Config: config.go and the credential records of credentials.go.
    - MachineNetwork, Reservation: machine_network.go; its operations, and what a
      reservation guarantees under [NetworkLaws] ([reserve_step] and
      [release_step] are the abstract steps on a network's configuration).
    - Libvirt, Host: the libvirt calls; open handles; the state of a host and the
      effect of each call on it.
    - Infra, CloudInit, Volume, Domain, Connect, Provider: infra.go, cloudinit.go,
      volume.go, domain.go, credentials.go with [connect] of config.go, and
      provider.go, function by function.
    - HostSpec, ProviderSpec: what these do to a host's volumes, networks and
      domains.
    - Api, Kube: src/api/v1alpha1 and the Kubernetes and Cluster API operations.
    - GoMemory, DeepCopy, DeepCopySpec: memory with pointers and slices, the API types
      in it, zz_generated.deepcopy.go method by method, and what a copy is.
    - Credentials, ProviderInterface, ClusterController, MachineController:
      the files credentials.go, libvirt_provider.go and mock_provider.go,
      libvirtcluster_controller.go and libvirtmachine_controller.go of
      src/internal/controller.
    - Contract, System: what the controllers rely on of a provider
      ([ProviderContract]), the controllers on any provider that keeps it, and that
      the libvirt provider does.
    - Manager: src/cmd/main.go, the SetupWithManager methods of both controllers
      and the registration of the API types (groupversion_info.go and the init
      functions of src/api/v1alpha1).
    - Pattern, Schema: regular expressions, and with them the status part of the
      schema in src/config/crd/bases (patterns, lengths, enumerations), which the
      statuses written by the controllers fit.
    - History, Progress: whole histories.  [step] is a run of one of the [Reconcile]
      functions or a step of anybody else ([env_step]); History has the invariants of
      every history, Progress where histories without failures lead.
    - Maintains: an invariant of the world that every call keeps is kept by a run of
      either controller, wherever it stops.
    - Interleaving: runs that are interleaved call by call.  On the world [Shared] the
      controllers run as they are written while others change the world between any
      two calls; an [execution] has any number of workers, cut off or not, and others.
    - Orphans, Footprint: what the calls of an execution explain of what is on the
      host, for any provider with a [Footprint], and what the calls of the libvirt
      provider do to its domains, running or not, and to their definitions, failed
      calls included ([DefineLaws]).  Leftovers: the [Footprint] of that provider,
      with its volumes and DHCP entries ([VolumeDeleteLaw]).
    - Isolation, Interference: what the calls of the provider, and the runs of the
      controllers, leave alone on the host whatever fails in them.  Addresses: an
      invariant of the networks over whole executions.
    - RefXML, RefKube, RefApi, RefHost, RefMemory: the concrete instances; Witnesses,
      RefApi, ProviderWitnesses, SystemWitnesses, HistoryWitnesses and
      IsolationWitnesses run the program on them and apply the theorems to the runs.

    ** What is proved

    - The machine controller: a domain is created only behind every guard and at
      most once per run; every run refines an abstract controller; identity is
      stable; readiness follows the host's word, and an earlier one stays when the
      host cannot be asked; a lost domain is reported and never recreated;
      the finalizer goes only after a successful deletion; when a run is not requeued;
      domain names are DNS labels, and when they collide.
    - The cluster controller: readiness is sound, failures are reported with the
      right reason, the spec is framed, deletion only removes the finalizer.
    - Credentials: which Secret is read, how it is decoded, which clusters a Secret
      event wakes up; the connection URI, the files it points to, and their removal
      before [connect] returns, which only a failure of os.RemoveAll prevents
      ([removal_fails_leaks]).
    - Reservations: uniqueness of addresses, idempotence, release, round trip (on a
      network with at most one entry per MAC); other machines' entries stay as they are;
      allocation is the first usable candidate of the probe order; candidate ranges,
      with the one range on which the code never returns.
    - The provider on a host: EnsureInfra is sound; the postconditions of
      CreateMachine and DeleteMachine with their frames, and that the second undoes
      the first and what an earlier, failed creation left (but for a running domain
      of which libvirt could not say whether it was active, [unknown_activity_leaks]);
      state and address are read faithfully; uploads send the whole image;
      handles are given back on every path (and the one operation that leaks).
    - Histories: no domain is ever forgotten by the calls ([no_orphans_interleaved]),
      and nothing is left behind on the host itself, neither a domain, running or
      only defined, nor a volume nor a DHCP entry ([nothing_left_behind]).  This has
      two exceptions, both of which the code does leave behind: the disks and the
      entry of a machine whose pool or network was changed in the LibvirtCluster
      while it existed ([moved_pool_leaks]), and a running domain that a DeleteMachine
      undefined without stopping it because IsActive failed
      ([unknown_activity_leaks]).  A machine is provisioned once
      ([provisioned_once_interleaved]); it is provisioned after at most two runs in
      which no call fails, when all that the controller waits for is there
      ([machine_converges]).  The runs are interleaved call by call:
      between any two calls anything may happen that keeps the finalizers of the
      controller and the provider IDs under them, and a run may end at any call, as
      in a crash.  One object has one worker at a time, which the queue of
      controller-runtime guarantees.  Each call of the provider is one step; the
      controllers leave MaxConcurrentReconciles at one, so that calls that change the
      host do not overlap.  Reads see what the API server stores (a cache that lags
      behind it is outside the model); a patch is applied to what is stored when it
      arrives ([PatchMerges]), and one that fails may have been applied in part.  The
      domain is identified by its name: a LibvirtCluster whose URI is changed makes
      DeleteMachine work on another host, which these theorems do not see.
    - Interference: a call of the provider, and a run of a controller, touches on the
      host only what belongs to its machine, however it ends ([provider_isolated],
      [reconcile_isolated]); no address is ever reserved for two MACs
      ([addresses_stay_unique]).
    - Deep copies: every generated copy is equal to the original and shares no memory
      with it ([deepcopy_independent]), which is why the rest of the development may
      treat API objects as values.
    - The status written by every run fits the schema of the CRDs: patterns, lengths
      and enumerations of the conditions and of the addresses, as long as the errors
      and the address that the run quotes from elsewhere are short enough
      ([status_stays_valid]).
    - The start of the program: the order of the set-up and the exit code; flags are
      read back as given; HTTP/2 is off and metrics need authentication unless the
      flags say otherwise; every kind that is watched is registered.
    - The IP utilities: the first host of a subnet and the address predicates.
    - The whole: a machine is Ready only while its domain runs on the host, its
      finalizer goes only when its volumes and its persistent domain are gone from
      there, and a cluster becomes
      ready only on a host whose network and pools are active.

    ** Fuel

    [uint32_loop] has the fuel of the number of addresses of the range plus two:
    [uint32_loop_enough] shows every loop that ends fits in it, and
    [uint32_loop_diverges] that the other one ends for no fuel; [Diverge] stands for
    that outcome.  [parseIPv6_loop] has eight rounds, since each writes at least two of
    sixteen bytes; [digits] has the twenty digits of a 64-bit number.

    ** What is not modelled

    Log output and events.  The libraries:
    what the manager does with the watches and predicates it is given (which events
    wake a controller) is controller-runtime's and cluster-api's, as is the queue that
    gives one object to one worker at a time: an [execution] assumes it.  Caches that
    lag behind the API server, and calls of the provider that overlap.  Every function
    of the implementation is a definition; what is left out of src is tests, licences,
    imports and the markers of code generators. *)

From stdpp Require Import base gmap sets list strings.
From Stdlib Require Import ZArith Lia Ascii String.

(** ** Error values

    Go's [error] is an open interface; the constructors below are the dynamic
    types this program builds or tells apart. *)

(** The libvirt error codes the program compares against; every other code is
    [ERR_OTHER]. *)
Inductive ErrorNumber :=
  | ERR_NO_DOMAIN
  | ERR_NO_NETWORK
  | ERR_NO_STORAGE_POOL
  | ERR_NO_STORAGE_VOL
  | ERR_OTHER (n : Z).

#[global] Instance ErrorNumber_eq_dec : EqDecision ErrorNumber.
Proof. solve_decision. Defined.

(** A referenced libvirt resource does not exist. *)
Record ErrInfraMissing := mkErrInfraMissing {
  missing_Kind : string;
  missing_Name : string;
}.

(** A referenced libvirt resource exists but is not active. *)
Record ErrInfraInactive := mkErrInfraInactive {
  inactive_Kind : string;
  inactive_Name : string;
}.

(** - [ErrorString s]: [errors.New] and [fmt.Errorf] without [%w];
    - [WrapError p e]: [fmt.Errorf("p: %w", e)];
    - [JoinError a b]: [errors.Join(a, b)] of two errors that are not nil;
    - [LibvirtError c t]: a [*libvirt.Error] with code [c] whose [Error()] is [t];
    - [InfraMissing], [InfraInactive]: the two error types of infra.go;
    - [StatusError nf t]: an API error of the Kubernetes client, [nf] telling
      whether [apierrors.IsNotFound] holds of it. *)
Inductive error :=
  | ErrorString (s : string)
  | WrapError (prefix : string) (e : error)
  | JoinError (e1 e2 : error)
  | LibvirtError (code : ErrorNumber) (text : string)
  | InfraMissing (e : ErrInfraMissing)
  | InfraInactive (e : ErrInfraInactive)
  | StatusError (notFound : bool) (text : string).

#[global] Instance ErrInfraMissing_eq_dec : EqDecision ErrInfraMissing.
Proof. solve_decision. Defined.
#[global] Instance ErrInfraInactive_eq_dec : EqDecision ErrInfraInactive.
Proof. solve_decision. Defined.
#[global] Instance error_eq_dec : EqDecision error.
Proof. solve_decision. Defined.

(** [errors.As] for a target of one error type: a pre-order walk of the tree of
    wrapped errors, returning the first error the selector accepts. *)
Fixpoint errors_As {T : Type} (sel : error -> option T) (e : error) : option T :=
  match sel e with
  | Some t => Some t
  | None =>
      match e with
      | WrapError _ e' => errors_As sel e'
      | JoinError e1 e2 =>
          match errors_As sel e1 with
          | Some t => Some t
          | None => errors_As sel e2
          end
      | _ => None
      end
  end.

Definition sel_libvirt (e : error) : option ErrorNumber :=
  match e with LibvirtError c _ => Some c | _ => None end.
Definition sel_missing (e : error) : option ErrInfraMissing :=
  match e with InfraMissing m => Some m | _ => None end.
Definition sel_inactive (e : error) : option ErrInfraInactive :=
  match e with InfraInactive m => Some m | _ => None end.

(** [apierrors.IsNotFound]: looks through wrapped errors for a status error. *)
Definition apierrors_IsNotFound (e : error) : bool :=
  match errors_As (fun e => match e with StatusError b _ => Some b | _ => None end) e with
  | Some b => b
  | None => false
  end.

(** ** Results and the state-and-error monad

    A Go function [func f(...) (T, error)] becomes a [result T]; one that also
    acts on the outside world (the libvirt host, the API server, the file
    system) becomes an [M W T], with the world [W] threaded explicitly.
    [Diverge] is the outcome of a call that never returns: a loop whose fuel,
    chosen so that every run that ends fits in it, is used up. *)
Inductive result (A : Type) :=
  | Ok (a : A)
  | Err (e : error)
  | Diverge.
Arguments Ok {A} a.
Arguments Err {A} e.
Arguments Diverge {A}.

Definition M (W A : Type) : Type := W -> result A * W.

#[global] Instance result_ret : MRet result := fun A a => Ok a.
#[global] Instance result_bind : MBind result := fun A B f r =>
  match r with Ok a => f a | Err e => Err e | Diverge => Diverge end.
#[global] Instance M_ret W : MRet (M W) := fun A a w => (Ok a, w).
#[global] Instance M_bind W : MBind (M W) := fun A B f m w =>
  match m w with
  | (Ok a, w') => f a w'
  | (Err e, w') => (Err e, w')
  | (Diverge, w') => (Diverge, w')
  end.

Definition fail {W A} (e : error) : M W A := fun w => (Err e, w).
Definition lift {W A} (r : result A) : M W A := fun w => (r, w).

(** Run [m] and hand its outcome, a value or an error, to the continuation. *)
Definition try {W A} (m : M W A) : M W (error + A) := fun w =>
  match m w with
  | (Ok a, w') => (Ok (inr a), w')
  | (Err e, w') => (Ok (inl e), w')
  | (Diverge, w') => (Diverge, w')
  end.

(** [defer f()]: [f] runs when the rest [m] of the function has returned, and
    not at all when it never does. *)
Definition defer {W A} (f : W -> W) (m : M W A) : M W A := fun w =>
  match m w with
  | (Diverge, w') => (Diverge, w')
  | (r, w') => (r, f w')
  end.

(** [_ = m()], and [m()] under a [defer]: the call is made and its error ignored. *)
Definition ignore_err {W A} (m : M W A) (w : W) : W := (m w).2.

(** [if err != nil { return g(err) }] on the way out of a call. *)
Definition map_err {A} (g : error -> error) (r : result A) : result A :=
  match r with Ok a => Ok a | Err e => Err (g e) | Diverge => Diverge end.
Definition wrap_err {W A} (g : error -> error) (m : M W A) : M W A := fun w =>
  let '(r, w') := m w in (map_err g r, w').

Definition is_ok {A} (r : result A) : bool :=
  match r with Ok _ => true | _ => false end.

(** ** Running a computation

    What a step of the monad says about its parts; [go_inv] below uses these to
    take a run that returned a value apart. *)
Lemma bind_ok_inv {W A B} (f : A -> M W B) (m : M W A) w b w' :
  (m ≫= f) w = (Ok b, w') ->
  exists a w1, m w = (Ok a, w1) /\ f a w1 = (Ok b, w').
Proof.
  unfold mbind, M_bind. destruct (m w) as [[a|e|] w1]; try discriminate. eauto.
Qed.

Lemma bind_ok {W A B} (f : A -> M W B) (m : M W A) w a w1 :
  m w = (Ok a, w1) -> (m ≫= f) w = f a w1.
Proof. unfold mbind, M_bind. by intros ->. Qed.

Lemma bind_err {W A B} (f : A -> M W B) (m : M W A) w e w1 :
  m w = (Err e, w1) -> (m ≫= f) w = (Err e, w1).
Proof. unfold mbind, M_bind. by intros ->. Qed.

Lemma defer_ok_inv {W A} (f : W -> W) (m : M W A) w a w' :
  defer f m w = (Ok a, w') -> exists w1, m w = (Ok a, w1) /\ w' = f w1.
Proof. unfold defer. destruct (m w) as [[x|e|] w1]; intros [= <- <-]; eauto. Qed.

Lemma wrap_ok_inv {W A} g (m : M W A) w a w' :
  wrap_err g m w = (Ok a, w') -> m w = (Ok a, w').
Proof. unfold wrap_err. destruct (m w) as [[x|e|] w1]; by intros [= <- <-]. Qed.

Lemma wrap_ok {W A} g (m : M W A) w a w' :
  m w = (Ok a, w') -> wrap_err g m w = (Ok a, w').
Proof. unfold wrap_err. by intros ->. Qed.

Lemma try_ok_inv {W A} (m : M W A) w r w' :
  try m w = (Ok r, w') ->
  (exists a, m w = (Ok a, w') /\ r = inr a) \/ (exists e, m w = (Err e, w') /\ r = inl e).
Proof. unfold try. destruct (m w) as [[x|e|] w1]; intros [= <- <-]; eauto. Qed.

(** ** What a computation leaves alone

    [Keeps obs m]: whatever [m] returns, the observation [obs] of the world is
    what it was. *)
Definition Keeps {W X A} (obs : W -> X) (m : M W A) : Prop := forall w, obs (m w).2 = obs w.

Section Keeps.
Context {W X : Type} {obs : W -> X}.
Lemma keeps_ret {A} (a : A) : Keeps obs (mret a).
Proof. by intros w. Qed.
Lemma keeps_fail {A} e : Keeps obs (fail (A := A) e).
Proof. by intros w. Qed.
Lemma keeps_lift {A} (r : result A) : Keeps obs (lift r).
Proof. by intros w. Qed.
Lemma keeps_bind {A B} (m : M W A) (f : A -> M W B) :
  Keeps obs m -> (forall a, Keeps obs (f a)) -> Keeps obs (m ≫= f).
Proof.
  intros Hm Hf w. unfold mbind, M_bind. specialize (Hm w).
  destruct (m w) as [[a|e|] w1]; [|done..]. by rewrite Hf.
Qed.
Lemma keeps_wrap {A} g (m : M W A) : Keeps obs m -> Keeps obs (wrap_err g m).
Proof. intros Hm w. specialize (Hm w). unfold wrap_err. by destruct (m w). Qed.
Lemma keeps_try {A} (m : M W A) : Keeps obs m -> Keeps obs (try m).
Proof. intros Hm w. specialize (Hm w). unfold try. by destruct (m w) as [[] ?]. Qed.
Lemma keeps_ignore {A} (m : M W A) w : Keeps obs m -> obs (ignore_err m w) = obs w.
Proof. intros Hm. apply Hm. Qed.
Lemma keeps_defer {A} f (m : M W A) :
  (forall w, obs (f w) = obs w) -> Keeps obs m -> Keeps obs (defer f m).
Proof.
  intros Hf Hm w. specialize (Hm w). unfold defer.
  destruct (m w) as [[a|e|] w1]; cbn in *; by rewrite ?Hf.
Qed.
Lemma keeps_run {A} (m : M W A) w r w' : Keeps obs m -> m w = (r, w') -> obs w' = obs w.
Proof. intros Hm Hr. specialize (Hm w). by rewrite Hr in Hm. Qed.
End Keeps.

Create HintDb keeps.
#[export] Hint Resolve keeps_ret keeps_fail keeps_lift keeps_wrap keeps_try keeps_defer keeps_ignore : keeps.
#[export] Hint Extern 4 (Keeps _ (_ ≫= _)) => apply keeps_bind; [|intros ?] : keeps.
#[export] Hint Extern 5 (Keeps _ (match ?x with _ => _ end)) => destruct x : keeps.

(** ** Lists *)

Lemma filter_nil_iff {A} (P : A -> Prop) `{forall x, Decision (P x)} (l : list A) :
  filter P l = [] <-> Forall (fun x => ~ P x) l.
Proof.
  induction l as [|x l IH]; [done|]. rewrite Forall_cons. destruct (decide (P x)) as [Hx|Hx].
  - rewrite filter_cons_True by done. split; [done|]. by intros [].
  - rewrite filter_cons_False by done. rewrite IH. naive_solver.
Qed.

(** ** Tactics *)

(** Take [H : m w = (Ok b, w')] apart along the structure of [m]. *)
Ltac go_inv1 H :=
  lazymatch type of H with
  | (_ ≫= _) _ = (Ok _, _) =>
      let a := fresh "a" in let w := fresh "w" in let Hm := fresh "Hm" in
      apply bind_ok_inv in H as (a & w & Hm & H)
  | defer _ _ _ = (Ok _, _) =>
      let w := fresh "w" in let Hd := fresh "Hd" in
      apply defer_ok_inv in H as (w & H & Hd)
  | wrap_err _ _ _ = (Ok _, _) => apply wrap_ok_inv in H
  end.

(** Linear arithmetic with division and remainder by constants. *)
Ltac solve_div := Z.to_euclidean_division_equations; lia.
