(* ===== verification/GoStrings.v ===== *)
(** * Byte strings: the parts of Go's [strings], [encoding/hex] and [fmt] the
    program uses.

    A Go string is a sequence of bytes, and so is a Rocq [string]; [chars] and
    [str] move between a string and its list of bytes, and every operation below
    is defined on that list. *)

From stdpp Require Import base gmap sets list strings.
From Stdlib Require Import ZArith Lia Ascii.
From S2P Require Import Prelude.

Local Open Scope Z_scope.

(** ** Bytes and characters *)

Fixpoint chars (s : string) : list ascii :=
  match s with
  | EmptyString => []
  | String c s => c :: chars s
  end.

Fixpoint str (l : list ascii) : string :=
  match l with
  | [] => EmptyString
  | c :: l => String c (str l)
  end.

Definition byte_of (c : ascii) : Z := Z.of_N (N_of_ascii c).
Definition char_of (b : Z) : ascii := ascii_of_N (Z.to_N (b mod 256)).
Definition bytes_of (s : string) : list Z := map byte_of (chars s).

(** [len(s)] *)
Definition len (s : string) : Z := Z.of_nat (length (chars s)).

Lemma str_chars s : str (chars s) = s.
Proof. induction s; simpl; congruence. Qed.
Lemma chars_str l : chars (str l) = l.
Proof. induction l; simpl; congruence. Qed.
Lemma chars_inj s t : chars s = chars t -> s = t.
Proof. intros H. rewrite <- (str_chars s), <- (str_chars t). by f_equal. Qed.
Lemma str_inj l k : str l = str k -> l = k.
Proof. intros H. rewrite <- (chars_str l), <- (chars_str k). by f_equal. Qed.
Lemma chars_app s t : chars (s +:+ t) = chars s ++ chars t.
Proof. induction s; [done|]. by change (a :: chars (s +:+ t) = (a :: chars s) ++ chars t); rewrite IHs. Qed.
Lemma str_app l k : str (l ++ k) = str l +:+ str k.
Proof. apply chars_inj. by rewrite chars_app, !chars_str. Qed.
Lemma len_app s t : len (s +:+ t) = len s + len t.
Proof. unfold len. rewrite chars_app, length_app. lia. Qed.
Lemma len_nonneg s : 0 <= len s.
Proof. unfold len. lia. Qed.
Lemma len_zero s : len s = 0 -> s = "".
Proof. intros H. apply chars_inj. unfold len in H. destruct (chars s); [done|simpl in H; lia]. Qed.

Lemma byte_of_range c : 0 <= byte_of c < 256.
Proof.
  unfold byte_of. pose proof (N_ascii_bounded c). lia.
Qed.
Lemma char_of_byte_of c : char_of (byte_of c) = c.
Proof.
  unfold char_of. rewrite Z.mod_small by apply byte_of_range.
  unfold byte_of. rewrite N2Z.id. apply ascii_N_embedding.
Qed.
Lemma byte_of_char_of b : byte_of (char_of b) = b mod 256.
Proof.
  unfold byte_of, char_of. pose proof (Z.mod_pos_bound b 256 ltac:(lia)).
  rewrite N_ascii_embedding by lia. lia.
Qed.
Lemma byte_of_inj c d : byte_of c = byte_of d -> c = d.
Proof. intros H. rewrite <- (char_of_byte_of c), <- (char_of_byte_of d). by f_equal. Qed.

(** ** Package strings *)

(** [strings.ReplaceAll(s, old, new)] for a one-byte [old]. *)
Definition strings_ReplaceAll (s : string) (old : ascii) (new : string) : string :=
  str (concat (map (fun c => if decide (c = old) then chars new else [c]) (chars s))).

(** Drop the leading bytes that are in the cut set. *)
Fixpoint drop_set (cutset : list ascii) (l : list ascii) : list ascii :=
  match l with
  | [] => []
  | c :: k => if decide (c ∈ cutset) then drop_set cutset k else l
  end.

(** [strings.TrimRight(s, cutset)] *)
Definition strings_TrimRight (s cutset : string) : string :=
  str (rev (drop_set (chars cutset) (rev (chars s)))).

Fixpoint strip_prefix (p l : list ascii) : option (list ascii) :=
  match p, l with
  | [], _ => Some l
  | a :: p', b :: l' => if decide (a = b) then strip_prefix p' l' else None
  | _ :: _, [] => None
  end.

(** [strings.TrimPrefix(s, prefix)] *)
Definition strings_TrimPrefix (s prefix : string) : string :=
  match strip_prefix (chars prefix) (chars s) with
  | Some rest => str rest
  | None => s
  end.

(** [strings.HasPrefix(s, prefix)] *)
Definition strings_HasPrefix (s prefix : string) : bool :=
  match strip_prefix (chars prefix) (chars s) with Some _ => true | None => false end.

(** [strings.Cut(s, sep)] for a one-byte [sep]: the text before and after the
    first separator, or [None] when there is none. *)
Fixpoint cut_list (l : list ascii) (sep : ascii) : option (list ascii * list ascii) :=
  match l with
  | [] => None
  | c :: k =>
      if decide (c = sep) then Some ([], k)
      else match cut_list k sep with
           | Some (b, a) => Some (c :: b, a)
           | None => None
           end
  end.
Lemma cut_list_app sep l r : sep ∉ l -> cut_list (l ++ sep :: r) sep = Some (l, r).
Proof.
  induction l as [|c l IH]; intros Hl; cbn; [by rewrite decide_True|].
  apply not_elem_of_cons in Hl as [Hc Hl]. rewrite decide_False by congruence. by rewrite IH.
Qed.
Definition strings_Cut (s : string) (sep : ascii) : option (string * string) :=
  match cut_list (chars s) sep with
  | Some (b, a) => Some (str b, str a)
  | None => None
  end.

(** [strings.Join(elems, sep)] *)
Fixpoint strings_Join (elems : list string) (sep : string) : string :=
  match elems with
  | [] => ""
  | [s] => s
  | s :: rest => s +:+ sep +:+ strings_Join rest sep
  end.

(** ASCII lower case of one byte. *)
Definition lower (c : ascii) : ascii :=
  let b := byte_of c in
  if (65 <=? b) && (b <=? 90) then char_of (b + 32) else c.

(** [strings.EqualFold(s, t)] where one of the two operands is ASCII text with
    no letter [k] or [s]: on such text the Unicode simple case folding of Go is
    the ASCII one, and a byte outside ASCII matches nothing.  Every call of the
    program compares with a MAC address it derived (hexadecimal digits and
    colons) or with an IPv4 address it printed (digits and dots). *)
Definition strings_EqualFold (s t : string) : bool :=
  bool_decide (map lower (chars s) = map lower (chars t)).

Lemma EqualFold_refl s : strings_EqualFold s s = true.
Proof. by apply bool_decide_eq_true. Qed.
Lemma EqualFold_sym s t : strings_EqualFold s t = strings_EqualFold t s.
Proof. apply bool_decide_ext. split; congruence. Qed.
Lemma EqualFold_trans s t u :
  strings_EqualFold s t = true -> strings_EqualFold t u = true -> strings_EqualFold s u = true.
Proof. unfold strings_EqualFold. rewrite !bool_decide_eq_true. congruence. Qed.

Lemma strip_prefix_app p l : strip_prefix p (p ++ l) = Some l.
Proof. induction p; simpl; [done|]. by rewrite decide_True. Qed.
Lemma strip_prefix_Some p l rest : strip_prefix p l = Some rest -> l = p ++ rest.
Proof.
  revert l; induction p as [|a p IH]; intros [|b l]; simpl; try congruence.
  destruct (decide (a = b)) as [->|]; [|discriminate]. intros H. f_equal. by apply IH.
Qed.
Lemma TrimPrefix_app p s : strings_TrimPrefix (p +:+ s) p = s.
Proof. unfold strings_TrimPrefix. by rewrite chars_app, strip_prefix_app, str_chars. Qed.
Lemma HasPrefix_app p s : strings_HasPrefix (p +:+ s) p = true.
Proof. unfold strings_HasPrefix. by rewrite chars_app, strip_prefix_app. Qed.

Lemma cut_list_Some l sep b a :
  cut_list l sep = Some (b, a) -> l = b ++ sep :: a /\ sep ∉ b.
Proof.
  revert b; induction l as [|c l IH]; intros b; simpl; [discriminate|].
  destruct (decide (c = sep)) as [->|Hne].
  - intros [= <- <-]. split; [done|]. apply not_elem_of_nil.
  - destruct (cut_list l sep) as [[b' a']|] eqn:E; [|discriminate].
    intros [= <- <-]. destruct (IH b' eq_refl) as [-> Hni]. split; [done|].
    rewrite not_elem_of_cons. split; [congruence|done].
Qed.
Lemma cut_list_None l sep : cut_list l sep = None <-> sep ∉ l.
Proof.
  induction l as [|c l IH]; simpl.
  - split; [intros _; apply not_elem_of_nil|done].
  - rewrite not_elem_of_cons. destruct (decide (c = sep)) as [->|Hne].
    { split; [done|]. by intros [[] _]. }
    destruct (cut_list l sep) as [[b a]|].
    + split; [done|]. intros [_ Hni]. by apply IH in Hni.
    + split; [|done]. intros _. split; [congruence|]. by apply IH.
Qed.

(** ** Package encoding/hex and decimal printing *)

Definition hexdigit (d : Z) : ascii :=
  if d <? 10 then char_of (48 + d) else char_of (87 + d).

(** Two lower-case hexadecimal digits of one byte. *)
Definition hex2 (b : Z) : list ascii := [hexdigit (b / 16); hexdigit (b mod 16)].

Lemma byte_of_hexdigit d : 0 <= d < 16 -> byte_of (hexdigit d) = if d <? 10 then 48 + d else 87 + d.
Proof. intros Hd. unfold hexdigit. destruct (Z.ltb_spec d 10); rewrite byte_of_char_of; solve_div. Qed.

Lemma hexdigit_inj d e : 0 <= d < 16 -> 0 <= e < 16 -> hexdigit d = hexdigit e -> d = e.
Proof.
  intros Hd He H. apply (f_equal byte_of) in H. rewrite !byte_of_hexdigit in H by done.
  destruct (Z.ltb_spec d 10), (Z.ltb_spec e 10); lia.
Qed.

Lemma hex2_inj a b : 0 <= a < 256 -> 0 <= b < 256 -> hex2 a = hex2 b -> a = b.
Proof.
  unfold hex2. intros Ha Hb [= H1 H2].
  apply hexdigit_inj in H1; [|solve_div..]. apply hexdigit_inj in H2; solve_div.
Qed.

(** [hex.EncodeToString(bs)] *)
Definition hex_EncodeToString (bs : list Z) : string := str (concat (map hex2 bs)).

(** Decimal digits of a non-negative number, the least significant last.  The
    fuel is the number of digits allowed; [itoa] gives 20, enough for a
    [uint64]. *)
Fixpoint digits (fuel : nat) (n : Z) : list ascii :=
  match fuel with
  | O => []
  | S f => if n <? 10 then [char_of (48 + n)]
           else digits f (n / 10) ++ [char_of (48 + n mod 10)]
  end.
Definition itoa (n : Z) : string := str (digits 20 n).

(** [fmt]'s [%q] on text that is ASCII: a double-quoted Go literal.  Bytes above
    ASCII are kept as they are. *)
Definition quote_char (c : ascii) : list ascii :=
  let b := byte_of c in
  let bs := char_of 92 in
  if b =? 34 then [bs; c]
  else if b =? 92 then [bs; c]
  else if b =? 7 then [bs; "a"%char]
  else if b =? 8 then [bs; "b"%char]
  else if b =? 12 then [bs; "f"%char]
  else if b =? 10 then [bs; "n"%char]
  else if b =? 13 then [bs; "r"%char]
  else if b =? 9 then [bs; "t"%char]
  else if b =? 11 then [bs; "v"%char]
  else if (b <? 32) || (b =? 127) then bs :: "x"%char :: hex2 b
  else [c].
Definition quote (s : string) : string :=
  str (char_of 34 :: concat (map quote_char (chars s)) ++ [char_of 34]).

(** ** Rendering an error: the [Error()] method *)

Definition ErrInfraMissing_Error (m : ErrInfraMissing) : string :=
  missing_Kind m +:+ " '" +:+ missing_Name m +:+ "' not found".

Definition ErrInfraInactive_Error (m : ErrInfraInactive) : string :=
  inactive_Kind m +:+ " '" +:+ inactive_Name m +:+
  "' exists but is not active (start it out-of-band; the provider does not manage pool/network lifecycle)".

Fixpoint error_text (e : error) : string :=
  match e with
  | ErrorString s => s
  | WrapError p e' => p +:+ ": " +:+ error_text e'
  | JoinError a b => error_text a +:+ String (char_of 10) "" +:+ error_text b
  | LibvirtError _ t => t
  | InfraMissing m => ErrInfraMissing_Error m
  | InfraInactive m => ErrInfraInactive_Error m
  | StatusError _ t => t
  end.

(** [errors.Join(e1, e2)]: nil operands are dropped, and it is nil when both are. *)
Definition errors_Join (e1 e2 : option error) : option error :=
  match e1, e2 with
  | None, None => None
  | Some e, None => Some e
  | None, Some e => Some e
  | Some a, Some b => Some (JoinError a b)
  end.
