(* ===== verification/GoHash.v ===== *)
(** * Hash functions of the Go standard library used to derive names:
    FNV-1a (hash/fnv, 64 bit) and SHA-256 (crypto/sha256).

    Words are integers kept below their width with the wrap-around written out.
    The known-answer examples at the end of the file are published test
    vectors. *)

From stdpp Require Import base list strings.
From Stdlib Require Import ZArith Lia Ascii.
From S2P Require Import Prelude GoStrings.

Local Open Scope Z_scope.

(** ** Fixed-width words *)

Definition u32 (x : Z) : Z := x mod 2 ^ 32.
Definition u64 (x : Z) : Z := x mod 2 ^ 64.

Lemma u32_range x : 0 <= u32 x < 2 ^ 32.
Proof. unfold u32. apply Z.mod_pos_bound. lia. Qed.
Lemma u64_range x : 0 <= u64 x < 2 ^ 64.
Proof. unfold u64. apply Z.mod_pos_bound. lia. Qed.
Lemma u32_small x : 0 <= x < 2 ^ 32 -> u32 x = x.
Proof. apply Z.mod_small. Qed.
Lemma u64_small x : 0 <= x < 2 ^ 64 -> u64 x = x.
Proof. apply Z.mod_small. Qed.

(** Conversion to [byte]. *)
Definition u8 (x : Z) : Z := x mod 256.
Lemma u8_range x : 0 <= u8 x < 256.
Proof. unfold u8. apply Z.mod_pos_bound. lia. Qed.

(** ** FNV-1a, 64 bit *)

Definition fnv_offset64 : Z := 14695981039346656037.
Definition fnv_prime64 : Z := 1099511628211.

(** [h := fnv.New64a(); h.Write(bs); h.Sum64()] *)
Definition fnv64a (bs : list Z) : Z :=
  fold_left (fun h b => u64 (Z.lxor h b * fnv_prime64)) bs fnv_offset64.

Lemma fnv64a_range bs : 0 <= fnv64a bs < 2 ^ 64.
Proof.
  unfold fnv64a. assert (0 <= fnv_offset64 < 2 ^ 64) as H by (unfold fnv_offset64; lia).
  revert H. generalize fnv_offset64. induction bs as [|b bs IH]; simpl; [done|].
  intros h _. apply IH, u64_range.
Qed.

(** ** SHA-256 *)

Module Sha256.

(** The fractional parts of the cube roots of the first 64 primes. *)
Definition round_constants : list Z :=
  [1116352408; 1899447441; 3049323471; 3921009573; 961987163; 1508970993; 2453635748; 2870763221;
   3624381080; 310598401; 607225278; 1426881987; 1925078388; 2162078206; 2614888103; 3248222580;
   3835390401; 4022224774; 264347078; 604807628; 770255983; 1249150122; 1555081692; 1996064986;
   2554220882; 2821834349; 2952996808; 3210313671; 3336571891; 3584528711; 113926993; 338241895;
   666307205; 773529912; 1294757372; 1396182291; 1695183700; 1986661051; 2177026350; 2456956037;
   2730485921; 2820302411; 3259730800; 3345764771; 3516065817; 3600352804; 4094571909; 275423344;
   430227734; 506948616; 659060556; 883997877; 958139571; 1322822218; 1537002063; 1747873779;
   1955562222; 2024104815; 2227730452; 2361852424; 2428436474; 2756734187; 3204031479; 3329325298].

Record digest := Digest { hA : Z; hB : Z; hC : Z; hD : Z; hE : Z; hF : Z; hG : Z; hH : Z }.

(** The fractional parts of the square roots of the first eight primes. *)
Definition initial : digest :=
  Digest 1779033703 3144134277 1013904242 2773480762 1359893119 2600822924 528734635 1541459225.

(** [bits.RotateLeft32(x, -n)] *)
Definition rotr (n x : Z) : Z := Z.lor (Z.shiftr x n) (u32 (Z.shiftl x (32 - n))).
Definition not32 (x : Z) : Z := Z.lxor x (2 ^ 32 - 1).

Definition small_sigma0 (x : Z) : Z := Z.lxor (Z.lxor (rotr 7 x) (rotr 18 x)) (Z.shiftr x 3).
Definition small_sigma1 (x : Z) : Z := Z.lxor (Z.lxor (rotr 17 x) (rotr 19 x)) (Z.shiftr x 10).
Definition big_sigma0 (x : Z) : Z := Z.lxor (Z.lxor (rotr 2 x) (rotr 13 x)) (rotr 22 x).
Definition big_sigma1 (x : Z) : Z := Z.lxor (Z.lxor (rotr 6 x) (rotr 11 x)) (rotr 25 x).

(** Extend the schedule by [n] words; the schedule is kept newest word first. *)
Fixpoint schedule (n : nat) (ws : list Z) : list Z :=
  match n with
  | O => ws
  | S m =>
      let at_ i := nth i ws 0 in
      schedule m (u32 (small_sigma1 (at_ 1%nat) + at_ 6%nat + small_sigma0 (at_ 14%nat) + at_ 15%nat) :: ws)
  end.

Definition round (d : digest) (kw : Z * Z) : digest :=
  let '(Digest a b c d' e f g h) := d in
  let ch := Z.lxor (Z.land e f) (Z.land (not32 e) g) in
  let maj := Z.lxor (Z.lxor (Z.land a b) (Z.land a c)) (Z.land b c) in
  let t1 := h + big_sigma1 e + ch + fst kw + snd kw in
  let t2 := big_sigma0 a + maj in
  Digest (u32 (t1 + t2)) a b c (u32 (d' + t1)) e f g.

Definition block (d : digest) (words : list Z) : digest :=
  let ws := rev (schedule 48 (rev words)) in
  let r := fold_left round (zip round_constants ws) d in
  Digest (u32 (hA d + hA r)) (u32 (hB d + hB r)) (u32 (hC d + hC r)) (u32 (hD d + hD r))
         (u32 (hE d + hE r)) (u32 (hF d + hF r)) (u32 (hG d + hG r)) (u32 (hH d + hH r)).

(** Big-endian words of a byte list whose length is a multiple of four. *)
Fixpoint be_words (bs : list Z) : list Z :=
  match bs with
  | a :: b :: c :: d :: rest => (a * 2 ^ 24 + b * 2 ^ 16 + c * 2 ^ 8 + d) :: be_words rest
  | _ => []
  end.

Definition be_bytes (n : nat) (x : Z) : list Z :=
  map (fun i => u8 (Z.shiftr x (8 * Z.of_nat i))) (rev (seq 0 n)).

(** One [1] bit, zeros up to 56 modulo 64 bytes, the bit length in eight bytes. *)
Definition pad (bs : list Z) : list Z :=
  let n := Z.of_nat (length bs) in
  bs ++ 128 :: repeat 0 (Z.to_nat ((55 - n) mod 64)) ++ be_bytes 8 (8 * n).

(** [n] is the number of blocks left. *)
Fixpoint blocks (n : nat) (d : digest) (words : list Z) : digest :=
  match n with
  | O => d
  | S m => blocks m (block d (take 16 words)) (drop 16 words)
  end.

(** [sha256.Sum256(bs)] as 32 bytes. *)
Definition Sum256 (bs : list Z) : list Z :=
  let ws := be_words (pad bs) in
  let '(Digest a b c d e f g h) := blocks (length ws / 16)%nat initial ws in
  concat (map (be_bytes 4) [a; b; c; d; e; f; g; h]).

Lemma be_bytes_range n x : Forall (fun b => 0 <= b < 256) (be_bytes n x).
Proof. apply Forall_forall. intros b (i & -> & _)%list_elem_of_fmap. apply u8_range. Qed.

Lemma Sum256_range bs : Forall (fun b => 0 <= b < 256) (Sum256 bs).
Proof.
  unfold Sum256. destruct (blocks _ _ _) as [a b c d e f g h]. cbn [map concat].
  repeat (apply Forall_app; split; [apply be_bytes_range|]). by apply Forall_nil.
Qed.

Lemma length_Sum256 bs : length (Sum256 bs) = 32%nat.
Proof. unfold Sum256. by destruct (blocks _ _ _). Qed.

End Sha256.

(** ** Known answers *)

Example fnv64a_empty : fnv64a (bytes_of "") = 14695981039346656037.
Proof. reflexivity. Qed.
Example fnv64a_a : fnv64a (bytes_of "a") = 12638187200555641996.
Proof. reflexivity. Qed.
Example fnv64a_foobar : fnv64a (bytes_of "foobar") = 9625390261332436968.
Proof. reflexivity. Qed.

Example sha256_empty :
  hex_EncodeToString (Sha256.Sum256 (bytes_of ""))
  = "e3b0c44298fc1c149afbf4c8996fb92427ae41e4649b934ca495991b7852b855".
Proof. vm_compute. reflexivity. Qed.
Example sha256_abc :
  hex_EncodeToString (Sha256.Sum256 (bytes_of "abc"))
  = "ba7816bf8f01cfea414140de5dae2223b00361a396177a9cb410ff61f20015ad".
Proof. vm_compute. reflexivity. Qed.
Example sha256_two_blocks :
  hex_EncodeToString (Sha256.Sum256 (bytes_of "abcdbcdecdefdefgefghfghighijhijkijkljklmklmnlmnomnopnopq"))
  = "248d6a61d20638b8e5c026930c3e6039a33ce45964ff2167f6ecedd419db06c1".
Proof. vm_compute. reflexivity. Qed.
