(* ===== verification/GoNet.v ===== *)
(** * IP addresses: the parts of Go's [net], [net/netip] and [encoding/binary]
    the program uses.

    A [net.IP] is a list of 4 or 16 bytes and a nil IP is [None].  The text
    parsers follow the byte loops of [netip.ParseAddr], so they accept exactly
    the addresses Go accepts (no leading zeros in an octet, at most one [::],
    an embedded IPv4 tail, zones only on IPv6). *)

From stdpp Require Import base list strings.
From Stdlib Require Import ZArith Lia Ascii.
From S2P Require Import Prelude GoStrings GoHash.

Local Open Scope Z_scope.

Definition is_digit (c : ascii) : bool := (48 <=? byte_of c) && (byte_of c <=? 57).

(** ** netip.ParseAddr *)

(** [netip.Addr]: four bytes, or sixteen bytes and a zone. *)
Inductive Addr :=
  | Addr4 (b : list Z)
  | Addr6 (b : list Z) (zone : string).

(** The loop of [parseIPv4Fields]: [prev] is the byte before the current one
    ([None] at the start), [fields] the octets completed so far. *)
Fixpoint parseIPv4Fields (s : list ascii) (prev : option ascii) (val digLen : Z)
    (fields : list Z) : option (list Z) :=
  match s with
  | [] => if (length fields <? 3)%nat then None else Some (fields ++ [val])
  | c :: rest =>
      if is_digit c then
        if (digLen =? 1) && (val =? 0) then None
        else
          let val' := val * 10 + (byte_of c - 48) in
          if 255 <? val' then None
          else parseIPv4Fields rest (Some c) val' (digLen + 1) fields
      else if decide (c = "."%char) then
        if bool_decide (prev = None) || bool_decide (rest = []) || bool_decide (prev = Some "."%char)
        then None
        else if (length fields =? 3)%nat then None
        else parseIPv4Fields rest (Some c) 0 0 (fields ++ [val])
      else None
  end.

Definition parseIPv4 (s : list ascii) : option Addr :=
  Addr4 <$> parseIPv4Fields s None 0 0 [].

Definition hexval (c : ascii) : option Z :=
  let b := byte_of c in
  if (48 <=? b) && (b <=? 57) then Some (b - 48)
  else if (97 <=? b) && (b <=? 102) then Some (b - 87)
  else if (65 <=? b) && (b <=? 70) then Some (b - 55)
  else None.

(** One group of hexadecimal digits: its length, its value and what follows. *)
Fixpoint hex_group (s : list ascii) (off : nat) (acc : Z) : option (nat * Z * list ascii) :=
  match s with
  | [] => Some (off, acc, [])
  | c :: rest =>
      match hexval c with
      | None => Some (off, acc, s)
      | Some d =>
          let acc' := acc * 16 + d in
          if (3 <? off)%nat then None
          else if 65535 <? acc' then None
          else hex_group rest (S off) acc'
      end
  end.

(** The loop of [parseIPv6] from byte position [length ip] on.  Every round
    writes at least two of the sixteen bytes, so eight rounds of fuel are the
    loop condition [i < 16]. *)
Fixpoint parseIPv6_loop (fuel : nat) (s : list ascii) (ip : list Z) (ellipsis : option nat)
    : option (list ascii * list Z * option nat) :=
  match fuel with
  | O => Some (s, ip, ellipsis)
  | S fuel' =>
      match hex_group s 0 0 with
      | None => None
      | Some (off, acc, s') =>
          if (off =? 0)%nat then None
          else if bool_decide (head s' = Some "."%char) then
            if bool_decide (ellipsis = None) && negb (length ip =? 12)%nat then None
            else if (16 <? length ip + 4)%nat then None
            else match parseIPv4Fields s None 0 0 [] with
                 | None => None
                 | Some f4 => Some ([], ip ++ f4, ellipsis)
                 end
          else
            let ip' := ip ++ [Z.shiftr acc 8; acc mod 256] in
            match s' with
            | [] => Some ([], ip', ellipsis)
            | c :: s1 =>
                if decide (c = ":"%char) then
                  match s1 with
                  | [] => None
                  | c2 :: s2 =>
                      if decide (c2 = ":"%char) then
                        match ellipsis with
                        | Some _ => None
                        | None =>
                            match s2 with
                            | [] => Some ([], ip', Some (length ip'))
                            | _ => parseIPv6_loop fuel' s2 ip' (Some (length ip'))
                            end
                        end
                      else parseIPv6_loop fuel' s1 ip' ellipsis
                  end
                else None
            end
      end
  end.

Definition expand_ellipsis (ip : list Z) (ellipsis : option nat) : option (list Z) :=
  if (length ip <? 16)%nat then
    match ellipsis with
    | None => None
    | Some e => Some (take e ip ++ repeat 0 (16 - length ip) ++ drop e ip)
    end
  else match ellipsis with None => Some ip | Some _ => None end.

Definition parseIPv6_body (s : list ascii) : option (list Z) :=
  let '(s', ellipsis) :=
    match s with
    | ":"%char :: ":"%char :: rest => (rest, Some 0%nat)
    | _ => (s, None)
    end in
  match s', ellipsis with
  | [], Some _ => Some (repeat 0 16)
  | _, _ =>
      match parseIPv6_loop 8 s' [] ellipsis with
      | Some ([], ip, ell) => expand_ellipsis ip ell
      | _ => None
      end
  end.

Definition parseIPv6 (s : list ascii) : option Addr :=
  match cut_list s "%"%char with
  | Some (_, []) => None
  | Some (s', zone) => (fun b => Addr6 b (str zone)) <$> parseIPv6_body s'
  | None => (fun b => Addr6 b "") <$> parseIPv6_body s
  end.

(** [netip.ParseAddr]: the first of [.], [:] and [%] selects the parser. *)
Fixpoint ParseAddr_scan (all s : list ascii) : option Addr :=
  match s with
  | [] => None
  | c :: rest =>
      if decide (c = "."%char) then parseIPv4 all
      else if decide (c = ":"%char) then parseIPv6 all
      else if decide (c = "%"%char) then None
      else ParseAddr_scan all rest
  end.
Definition netip_ParseAddr (s : string) : option Addr := ParseAddr_scan (chars s) (chars s).

(** ** net.IP *)

Definition v4InV6Prefix : list Z := repeat 0 10 ++ [255; 255].

Definition As16 (a : Addr) : list Z :=
  match a with
  | Addr4 b => v4InV6Prefix ++ b
  | Addr6 b _ => b
  end.
Definition Zone (a : Addr) : string :=
  match a with Addr4 _ => "" | Addr6 _ z => z end.
Definition BitLen (a : Addr) : Z :=
  match a with Addr4 _ => 32 | Addr6 _ _ => 128 end.

(** [net.ParseIP(s)]: sixteen bytes, or nil. *)
Definition net_ParseIP (s : string) : option (list Z) :=
  match netip_ParseAddr s with
  | None => None
  | Some a => if decide (Zone a = "") then Some (As16 a) else None
  end.

(** [ip.To4()] *)
Definition To4 (ip : list Z) : option (list Z) :=
  if decide (length ip = 4%nat) then Some ip
  else if decide (length ip = 16%nat) then
    if decide (take 12 ip = v4InV6Prefix) then Some (drop 12 ip) else None
  else None.

(** [ip.String()] of four bytes. *)
Definition ip4_String (b : list Z) : string :=
  strings_Join (map itoa b) ".".

(** [ip.Mask(mask)]: nil when the lengths do not fit together. *)
Definition IP_Mask (ip mask : list Z) : option (list Z) :=
  let mask' :=
    if decide (length mask = 16%nat /\ length ip = 4%nat /\ take 12 mask = repeat 255 12)
    then drop 12 mask else mask in
  let ip' :=
    if decide (length mask' = 4%nat /\ length ip = 16%nat /\ take 12 ip = v4InV6Prefix)
    then drop 12 ip else ip in
  if decide (length ip' = length mask') then Some (zip_with Z.land ip' mask') else None.

(** [binary.BigEndian.Uint32] and [PutUint32]. *)
Definition be_Uint32 (b : list Z) : Z :=
  Z.lor (Z.lor (nth 3 b 0) (Z.shiftl (nth 2 b 0) 8))
        (Z.lor (Z.shiftl (nth 1 b 0) 16) (Z.shiftl (nth 0 b 0) 24)).
Definition be_PutUint32 (v : Z) : list Z :=
  [u8 (Z.shiftr v 24); u8 (Z.shiftr v 16); u8 (Z.shiftr v 8); u8 v].

(** ** Prefixes *)

(** [net.IPNet] *)
Record IPNet := mkIPNet { ipnet_IP : list Z; ipnet_Mask : list Z }.

(** The limit of [dtoi]: a larger number is refused. *)
Definition dtoi_big : Z := 16777215.
Fixpoint dtoi (s : list ascii) (n : Z) (i : nat) : option (Z * list ascii) :=
  match s with
  | c :: rest =>
      if is_digit c then
        let n' := n * 10 + (byte_of c - 48) in
        if dtoi_big <=? n' then None else dtoi rest n' (S i)
      else if (i =? 0)%nat then None else Some (n, s)
  | [] => if (i =? 0)%nat then None else Some (n, [])
  end.

(** [net.CIDRMask(ones, bits)]: byte [k] of the mask. *)
Definition CIDRMask (ones bits : Z) : list Z :=
  map (fun k => let m := Z.max 0 (Z.min 8 (ones - 8 * Z.of_nat k)) in 256 - 2 ^ (8 - m))
      (seq 0 (Z.to_nat (bits / 8))).

(** [net.ParseCIDR(s)]: the address and its network. *)
Definition net_ParseCIDR (s : string) : option (list Z * IPNet) :=
  match cut_list (chars s) "/"%char with
  | None => None
  | Some (addr, mask) =>
      match netip_ParseAddr (str addr) with
      | None => None
      | Some a =>
          if decide (Zone a = "") then
            match dtoi mask 0 0 with
            | Some (n, []) =>
                if (n <? 0) || (BitLen a <? n) then None
                else
                  let m := CIDRMask n (BitLen a) in
                  Some (As16 a, mkIPNet (default [] (IP_Mask (As16 a) m)) m)
            | _ => None
            end
          else None
      end
  end.

(** [simpleMaskLength]: the number of leading one bits of a mask that is a run
    of ones followed by zeros. *)
Fixpoint byte_ones (n : nat) (b : Z) : nat :=
  match n with
  | O => O
  | S k => if Z.testbit b (Z.of_nat k) then S (byte_ones k b) else O
  end.
Fixpoint simpleMaskLength (m : list Z) : option Z :=
  match m with
  | [] => Some 0
  | v :: rest =>
      if v =? 255 then (fun n => 8 + n) <$> simpleMaskLength rest
      else
        let n := byte_ones 8 v in
        if (v =? 256 - 2 ^ (8 - Z.of_nat n)) && forallb (Z.eqb 0) rest
        then Some (Z.of_nat n) else None
  end.

(** [ipnet.String()] for an IPv4 network: the mask is its length, or
    hexadecimal when it is not a run of ones. *)
Definition IPNet_String (n : IPNet) : string :=
  ip4_String (ipnet_IP n) +:+ "/" +:+
  match simpleMaskLength (ipnet_Mask n) with
  | Some l => itoa l
  | None => hex_EncodeToString (ipnet_Mask n)
  end.

(** ** Facts *)

Definition byte_range (b : Z) : Prop := 0 <= b < 256.

Lemma be_PutUint32_range v : Forall byte_range (be_PutUint32 v).
Proof. repeat (apply Forall_cons; split; [apply u8_range|]). by apply Forall_nil. Qed.

(** Bits that do not overlap add up. *)
Lemma lor_shiftl_add x y k :
  0 <= k -> 0 <= x < 2 ^ k -> Z.lor x (Z.shiftl y k) = x + y * 2 ^ k.
Proof.
  intros Hk Hx. assert (Z.land x (Z.shiftl y k) = 0) as Hz.
  { apply Z.bits_inj'. intros n Hn. rewrite Z.land_spec, Z.bits_0.
    destruct (Z.lt_ge_cases n k) as [Hlt|Hge].
    - rewrite Z.shiftl_spec_low by lia. apply andb_false_r.
    - assert (Z.testbit x n = false) as ->; [|done].
      destruct (decide (x = 0)) as [->|]; [apply Z.bits_0|].
      apply Z.bits_above_log2; [lia|]. apply Z.log2_lt_pow2; [lia|].
      eapply Z.lt_le_trans; [apply Hx|]. apply Z.pow_le_mono_r; lia. }
  rewrite <- Z.lxor_lor by done. rewrite <- Z.add_nocarry_lxor by done.
  by rewrite Z.shiftl_mul_pow2 by done.
Qed.

Lemma be_Uint32_add a b c d :
  byte_range a -> byte_range b -> byte_range c -> byte_range d ->
  be_Uint32 [a; b; c; d] = a * 2 ^ 24 + b * 2 ^ 16 + c * 2 ^ 8 + d.
Proof.
  unfold byte_range. intros Ha Hb Hc Hd. unfold be_Uint32. cbn [nth].
  rewrite (lor_shiftl_add d c 8) by lia.
  assert (Z.lor (Z.shiftl b 16) (Z.shiftl a 24) = Z.shiftl (b + a * 2 ^ 8) 16) as ->.
  { rewrite <- (lor_shiftl_add b a 8), Z.shiftl_lor, Z.shiftl_shiftl by lia. done. }
  rewrite lor_shiftl_add by lia. lia.
Qed.

Lemma be_Uint32_range a b c d :
  byte_range a -> byte_range b -> byte_range c -> byte_range d ->
  0 <= be_Uint32 [a; b; c; d] < 2 ^ 32.
Proof. intros. rewrite be_Uint32_add by done. unfold byte_range in *. lia. Qed.

Lemma be_PutUint32_Uint32 a b c d :
  byte_range a -> byte_range b -> byte_range c -> byte_range d ->
  be_PutUint32 (be_Uint32 [a; b; c; d]) = [a; b; c; d].
Proof.
  intros. rewrite be_Uint32_add by done. unfold be_PutUint32, u8, byte_range in *.
  rewrite !Z.shiftr_div_pow2 by lia. repeat f_equal; solve_div.
Qed.

Lemma be_Uint32_PutUint32 v : be_Uint32 (be_PutUint32 v) = u32 v.
Proof.
  unfold be_PutUint32. rewrite be_Uint32_add by apply u8_range.
  unfold u8, u32. rewrite !Z.shiftr_div_pow2 by lia. solve_div.
Qed.

(** *** Printing an IPv4 address and reading it back *)

Lemma digit_char d :
  0 <= d < 10 -> is_digit (char_of (48 + d)) = true /\ byte_of (char_of (48 + d)) = 48 + d.
Proof.
  intros Hd. unfold is_digit. rewrite byte_of_char_of, Z.mod_small by lia.
  split; [|done]. apply andb_true_iff. split; apply Z.leb_le; lia.
Qed.

Lemma parse_digit d rest prev val digLen fields :
  0 <= d < 10 -> (digLen = 1 -> val <> 0) -> val * 10 + d <= 255 ->
  parseIPv4Fields (char_of (48 + d) :: rest) prev val digLen fields
  = parseIPv4Fields rest (Some (char_of (48 + d))) (val * 10 + d) (digLen + 1) fields.
Proof.
  intros Hd Hz Hv. cbn [parseIPv4Fields]. destruct (digit_char d Hd) as [-> ->].
  replace ((digLen =? 1) && (val =? 0)) with false by
    (symmetry; apply andb_false_iff; rewrite !Z.eqb_neq; lia).
  replace (48 + d - 48) with d by lia.
  by replace (255 <? val * 10 + d) with false by (symmetry; apply Z.ltb_ge; lia).
Qed.

Lemma digit_not_dot d : 0 <= d < 10 -> char_of (48 + d) <> "."%char.
Proof. intros Hd E. destruct (digit_char d Hd) as [H _]. by rewrite E in H. Qed.

(** Reading one printed octet leaves the parser in the state of that octet. *)
Lemma parse_octet n rest prev fields :
  byte_range n ->
  exists p k, p <> "."%char /\
    parseIPv4Fields (chars (itoa n) ++ rest) prev 0 0 fields
    = parseIPv4Fields rest (Some p) n k fields.
Proof.
  unfold byte_range. intros Hn. unfold itoa. rewrite chars_str.
  exists (char_of (48 + n mod 10)), (if n <? 10 then 1 else if n <? 100 then 2 else 3).
  split; [apply digit_not_dot; solve_div|].
  cbn [digits]. destruct (Z.ltb_spec n 10).
  { cbn [app]. rewrite parse_digit by lia. by rewrite Z.mod_small by lia. }
  destruct (Z.ltb_spec (n / 10) 10); [|destruct (Z.ltb_spec (n / 10 / 10) 10); [|solve_div]].
  - cbn [app]. rewrite !parse_digit by solve_div.
    replace (n <? 100) with true by (symmetry; apply Z.ltb_lt; solve_div).
    f_equal; solve_div.
  - cbn [app]. rewrite !parse_digit by solve_div.
    replace (n <? 100) with false by (symmetry; apply Z.ltb_ge; solve_div).
    f_equal; solve_div.
Qed.

Lemma parse_dot p val k fields c rest :
  p <> "."%char -> length fields <> 3%nat ->
  parseIPv4Fields ("."%char :: c :: rest) (Some p) val k fields
  = parseIPv4Fields (c :: rest) (Some "."%char) 0 0 (fields ++ [val]).
Proof.
  intros Hp Hl. cbn [parseIPv4Fields]. change (is_digit ".") with false. cbn iota.
  rewrite decide_True by done. rewrite !bool_decide_eq_false_2 by congruence. cbn [orb].
  by apply Nat.eqb_neq in Hl as ->.
Qed.

Lemma itoa_cons n : byte_range n -> exists c r, chars (itoa n) = c :: r /\ is_digit c = true.
Proof.
  unfold byte_range. intros Hn. unfold itoa. rewrite chars_str. cbn [digits].
  destruct (Z.ltb_spec n 10); [eexists _, _; split; [done|]; apply digit_char; lia|].
  destruct (Z.ltb_spec (n / 10) 10); [eexists _, _; split; [done|]; apply digit_char; solve_div|].
  destruct (Z.ltb_spec (n / 10 / 10) 10); [|solve_div].
  eexists _, _; split; [done|]; apply digit_char; solve_div.
Qed.

Lemma parse_octet_dot n m rest prev fields :
  byte_range n -> byte_range m -> length fields <> 3%nat ->
  parseIPv4Fields (chars (itoa n) ++ "."%char :: chars (itoa m) ++ rest) prev 0 0 fields
  = parseIPv4Fields (chars (itoa m) ++ rest) (Some "."%char) 0 0 (fields ++ [n]).
Proof.
  intros Hn Hm Hl.
  destruct (parse_octet n ("."%char :: chars (itoa m) ++ rest) prev fields Hn) as (p & k & Hp & ->).
  destruct (itoa_cons m Hm) as (c & r & -> & _). cbn [app]. by apply parse_dot.
Qed.

Lemma chars_ip4_String a b c d :
  chars (ip4_String [a; b; c; d])
  = chars (itoa a) ++ "."%char :: chars (itoa b) ++ "."%char :: chars (itoa c)
      ++ "."%char :: chars (itoa d) ++ [].
Proof.
  unfold ip4_String. cbn [map strings_Join]. rewrite !chars_app. cbn [chars app].
  by rewrite app_nil_r.
Qed.

Lemma parseIPv4Fields_print a b c d :
  byte_range a -> byte_range b -> byte_range c -> byte_range d ->
  parseIPv4Fields (chars (ip4_String [a; b; c; d])) None 0 0 [] = Some [a; b; c; d].
Proof.
  intros Ha Hb Hc Hd. rewrite chars_ip4_String.
  rewrite !parse_octet_dot by done.
  destruct (parse_octet d [] (Some "."%char) [a; b; c] Hd) as (p & k & _ & E).
  cbn [app] in *. by rewrite E.
Qed.

Lemma digits_are_digits fuel n : 0 <= n -> Forall (fun c => is_digit c = true) (digits fuel n).
Proof.
  revert n. induction fuel as [|f IH]; intros n Hn; cbn [digits]; [by apply Forall_nil|].
  destruct (Z.ltb_spec n 10).
  - apply Forall_singleton, digit_char. lia.
  - apply Forall_app. split; [apply IH; solve_div|].
    apply Forall_singleton, digit_char. solve_div.
Qed.

Lemma scan_digits all l rest :
  Forall (fun c => is_digit c = true) l ->
  ParseAddr_scan all (l ++ "."%char :: rest) = parseIPv4 all.
Proof.
  induction 1 as [|c l Hc _ IH]; [done|]. cbn [app ParseAddr_scan].
  rewrite !decide_False by (intros ->; discriminate Hc). apply IH.
Qed.

Lemma ParseAddr_ip4_String a b c d :
  byte_range a -> byte_range b -> byte_range c -> byte_range d ->
  netip_ParseAddr (ip4_String [a; b; c; d]) = Some (Addr4 [a; b; c; d]).
Proof.
  intros Ha Hb Hc Hd. unfold netip_ParseAddr.
  rewrite chars_ip4_String at 2. rewrite scan_digits.
  - unfold parseIPv4. by rewrite parseIPv4Fields_print.
  - unfold itoa. rewrite chars_str. apply digits_are_digits. unfold byte_range in Ha. lia.
Qed.

(** [net.ParseIP(ip.String())] is the same address, in its sixteen-byte form. *)
Lemma ParseIP_ip4_String a b c d :
  byte_range a -> byte_range b -> byte_range c -> byte_range d ->
  net_ParseIP (ip4_String [a; b; c; d]) = Some (v4InV6Prefix ++ [a; b; c; d]).
Proof. intros Ha Hb Hc Hd. unfold net_ParseIP. by rewrite ParseAddr_ip4_String. Qed.

Lemma To4_v4InV6 b : length b = 4%nat -> To4 (v4InV6Prefix ++ b) = Some b.
Proof.
  intros Hb. destruct b as [|x [|y [|z [|t [|]]]]]; try discriminate Hb. reflexivity.
Qed.

Lemma ip4_String_inj a b c d a' b' c' d' :
  Forall byte_range [a; b; c; d] -> Forall byte_range [a'; b'; c'; d'] ->
  ip4_String [a; b; c; d] = ip4_String [a'; b'; c'; d'] -> [a; b; c; d] = [a'; b'; c'; d'].
Proof.
  rewrite !Forall_cons. intros (?&?&?&?&_) (?&?&?&?&_) E.
  apply (f_equal net_ParseIP) in E. rewrite !ParseIP_ip4_String in E by done.
  by apply Some_inj, app_inv_head in E.
Qed.

(** *** Shape of a parsed address: bytes, and four or sixteen of them *)

Lemma is_digit_range c : is_digit c = true -> 0 <= byte_of c - 48 <= 9.
Proof. unfold is_digit. rewrite andb_true_iff, !Z.leb_le. lia. Qed.

Lemma parseIPv4Fields_shape s prev val digLen fields l :
  Forall byte_range fields -> byte_range val -> (length fields <= 3)%nat ->
  parseIPv4Fields s prev val digLen fields = Some l ->
  Forall byte_range l /\ length l = 4%nat.
Proof.
  revert prev val digLen fields. induction s as [|c s IH]; intros prev val digLen fields Hf Hv Hl;
    cbn [parseIPv4Fields].
  - destruct (Nat.ltb_spec (length fields) 3); [discriminate|]. intros [= <-].
    rewrite Forall_app, Forall_singleton, length_app. cbn. split; [done|lia].
  - destruct (is_digit c) eqn:Hd.
    + destruct (_ && _); [discriminate|].
      destruct (Z.ltb_spec 255 (val * 10 + (byte_of c - 48))); [discriminate|].
      apply IH; [done| |done]. apply is_digit_range in Hd. unfold byte_range in *. lia.
    + destruct (decide _); [|discriminate]. destruct (_ || _); [discriminate|].
      destruct (Nat.eqb_spec (length fields) 3); [discriminate|].
      apply IH; [by apply Forall_app; split; [|apply Forall_singleton]|unfold byte_range; lia|].
      rewrite length_app. cbn. lia.
Qed.

Lemma hexval_range c d : hexval c = Some d -> 0 <= d < 16.
Proof.
  unfold hexval. pose proof (byte_of_range c).
  repeat match goal with |- context [if ?b then _ else _] => destruct b eqn:? end;
    intros [= <-]; rewrite ?andb_true_iff, ?Z.leb_le in *; lia.
Qed.

Lemma hex_group_range s off acc off' acc' s' :
  0 <= acc <= 65535 -> hex_group s off acc = Some (off', acc', s') -> 0 <= acc' <= 65535.
Proof.
  revert off acc. induction s as [|c s IH]; intros off acc Ha; cbn [hex_group]; [by intros [= _ <- _]|].
  destruct (hexval c) as [d|] eqn:Hd; [|by intros [= _ <- _]].
  destruct (_ <? _)%nat; [discriminate|]. apply hexval_range in Hd.
  destruct (Z.ltb_spec 65535 (acc * 16 + d)); [discriminate|]. apply IH. lia.
Qed.

Lemma parseIPv6_loop_shape fuel s ip ell s' ip' ell' :
  Forall byte_range ip -> (length ip + 2 * fuel <= 16)%nat ->
  parseIPv6_loop fuel s ip ell = Some (s', ip', ell') ->
  Forall byte_range ip' /\ (length ip' <= 16)%nat.
Proof.
  revert s ip ell. induction fuel as [|fuel IH]; intros s ip ell Hr Hl; cbn [parseIPv6_loop].
  { intros [= _ <- _]. split; [done|lia]. }
  destruct (hex_group s 0 0) as [[[off acc] s1]|] eqn:Hg; [|discriminate].
  apply hex_group_range in Hg; [|lia].
  destruct (off =? 0)%nat; [discriminate|]. destruct (bool_decide _).
  { destruct (_ && _); [discriminate|]. destruct (Nat.ltb_spec 16 (length ip + 4)); [discriminate|].
    destruct (parseIPv4Fields s None 0 0 []) as [f4|] eqn:H4; [|discriminate]. intros [= _ <- _].
    apply parseIPv4Fields_shape in H4 as [Hr4 Hl4]; [|done|unfold byte_range; lia|cbn; lia].
    rewrite Forall_app, length_app. split; [done|lia]. }
  assert (Forall byte_range (ip ++ [Z.shiftr acc 8; acc mod 256])) as Hr'.
  { apply Forall_app. split; [done|]. rewrite Z.shiftr_div_pow2 by lia. unfold byte_range.
    repeat (apply Forall_cons; split; [solve_div|]). by apply Forall_nil. }
  assert (length (ip ++ [Z.shiftr acc 8; acc mod 256]) = S (S (length ip))) as Hl'
    by (rewrite length_app; cbn; lia).
  revert Hr' Hl'. generalize (ip ++ [Z.shiftr acc 8; acc mod 256]) as ip2. intros ip2 Hr' Hl'.
  assert (length ip2 + 2 * fuel <= 16)%nat as Hf by lia.
  destruct s1 as [|c s1]; [intros [= _ <- _]; split; [done|lia]|].
  destruct (decide _); [|discriminate]. destruct s1 as [|c2 s2]; [discriminate|].
  destruct (decide _); [|by apply IH]. destruct ell; [discriminate|].
  destruct s2; [intros [= _ <- _]; split; [done|lia]|by apply IH].
Qed.

Lemma zeros_range n : Forall byte_range (repeat 0 n).
Proof. induction n; cbn; [done|]. apply Forall_cons; split; [unfold byte_range; lia|done]. Qed.

Lemma expand_ellipsis_shape ip ell l :
  Forall byte_range ip -> (length ip <= 16)%nat -> expand_ellipsis ip ell = Some l ->
  Forall byte_range l /\ length l = 16%nat.
Proof.
  intros Hr Hl. unfold expand_ellipsis. destruct (Nat.ltb_spec (length ip) 16).
  - destruct ell as [e|]; [|discriminate]. intros [= <-]. split.
    + apply Forall_app; split; [by apply Forall_take|].
      apply Forall_app; split; [apply zeros_range|by apply Forall_drop].
    + rewrite !length_app, repeat_length, length_take, length_drop. lia.
  - destruct ell; [discriminate|]. intros [= <-]. split; [done|lia].
Qed.

Lemma parseIPv6_body_shape s l :
  parseIPv6_body s = Some l -> Forall byte_range l /\ length l = 16%nat.
Proof.
  unfold parseIPv6_body.
  destruct (match s with ":"%char :: ":"%char :: rest => _ | _ => _ end) as [s' ell].
  assert (forall k, (match parseIPv6_loop 8 s' [] ell with
                     | Some ([], ip, ell) => expand_ellipsis ip ell | _ => None end) = Some k ->
                    Forall byte_range k /\ length k = 16%nat) as Hloop.
  { intros k. destruct (parseIPv6_loop 8 s' [] ell) as [[[[|] ip] ell']|] eqn:E; try discriminate.
    intros Hx. apply parseIPv6_loop_shape in E as [? ?]; [|done|cbn; lia].
    by eapply expand_ellipsis_shape. }
  destruct s', ell; try apply Hloop. intros [= <-]. split; [apply (zeros_range 16)|done].
Qed.

Lemma ParseIP_shape s ip : net_ParseIP s = Some ip -> Forall byte_range ip /\ length ip = 16%nat.
Proof.
  unfold net_ParseIP. destruct (netip_ParseAddr s) as [a|] eqn:Ha; [|discriminate].
  destruct (decide _); [|discriminate]. intros [= <-]. revert Ha. unfold netip_ParseAddr.
  generalize (chars s) at 2. induction l as [|c l IH]; cbn [ParseAddr_scan]; [discriminate|].
  destruct (decide (c = "."%char)).
  { unfold parseIPv4. destruct (parseIPv4Fields _ _ _ _ _) as [b|] eqn:E; [|discriminate].
    intros [= <-]. apply parseIPv4Fields_shape in E as [Hr Hl]; [|done|unfold byte_range; lia|cbn; lia].
    cbn [As16]. rewrite Forall_app, length_app, Hl. split; [split|]; [|done..].
    repeat (apply Forall_cons; split; [unfold byte_range; lia|]). by apply Forall_nil. }
  destruct (decide (c = ":"%char)).
  { unfold parseIPv6. intros H. apply parseIPv6_body_shape
      with (s := match cut_list (chars s) "%"%char with Some (s', _) => s' | None => chars s end).
    destruct (cut_list (chars s) "%"%char) as [[s1 [|z zs]]|]; [discriminate| |];
      destruct (parseIPv6_body _); simplify_eq/=; done. }
  destruct (decide _); [discriminate|apply IH].
Qed.

Lemma To4_shape ip b :
  Forall byte_range ip -> To4 ip = Some b -> Forall byte_range b /\ length b = 4%nat.
Proof.
  intros Hr. unfold To4. destruct (decide _); [by intros [= <-]|].
  destruct (decide (length ip = 16%nat)) as [Hl|]; [|discriminate].
  destruct (decide _); [|discriminate]. intros [= <-].
  split; [by apply Forall_drop|]. rewrite length_drop, Hl. done.
Qed.
