(* ===== verification/GoUrl.v ===== *)
(** * net/url: parsing and printing URLs and query strings

    [url.Parse], [URL.Query], [Values.Set], [Values.Encode] and [URL.String] of Go
    1.25, as the connection code uses them.  Text is a list of bytes. *)

From stdpp Require Import base gmap list strings sorting.
From Stdlib Require Import ZArith Lia Ascii.
From S2P Require Import Prelude GoStrings GoNet.

Local Open Scope Z_scope.

(** ** Escaping *)

Inductive encoding :=
  | encodePath | encodeHost | encodeZone | encodeUserPassword | encodeQueryComponent | encodeFragment.
#[global] Instance encoding_eq_dec : EqDecision encoding.
Proof. solve_decision. Defined.

Definition is_alnum (c : ascii) : bool :=
  let b := byte_of c in
  ((97 <=? b) && (b <=? 122)) || ((65 <=? b) && (b <=? 90)) || ((48 <=? b) && (b <=? 57)).

(** The members of a set of characters written as a string. *)
Definition one_of (set : string) (c : ascii) : bool := bool_decide (c ∈ chars set).
Definition dquote : ascii := char_of 34.
Definition squote : ascii := char_of 39.

Definition shouldEscape (c : ascii) (mode : encoding) : bool :=
  if is_alnum c then false
  else if bool_decide (mode = encodeHost \/ mode = encodeZone) &&
          (one_of "!$&()*+,;=:[]<>" c || bool_decide (c = squote) || bool_decide (c = dquote)) then false
  else if one_of "-_.~" c then false
  else if one_of "$&+,/:;=?@" c then
    match mode with
    | encodePath => bool_decide (c = "?"%char)
    | encodeUserPassword => one_of "@/?:" c
    | encodeQueryComponent => true
    | encodeFragment => false
    | encodeHost | encodeZone => true
    end
  else if bool_decide (mode = encodeFragment) && one_of "!()*" c then false
  else true.

Definition upperhex (d : Z) : ascii := if d <? 10 then char_of (48 + d) else char_of (55 + d).

Definition escape_char (mode : encoding) (c : ascii) : list ascii :=
  if shouldEscape c mode then
    if bool_decide (c = " "%char) && bool_decide (mode = encodeQueryComponent) then ["+"%char]
    else ["%"%char; upperhex (byte_of c / 16); upperhex (byte_of c mod 16)]
  else [c].
Definition escape (s : list ascii) (mode : encoding) : list ascii := concat (map (escape_char mode) s).

Definition EscapeError (s : list ascii) : error := ErrorString ("invalid URL escape " +:+ quote (str s)).
Definition InvalidHostError (c : ascii) : error :=
  ErrorString ("invalid character " +:+ quote (str [c]) +:+ " in host name").

Fixpoint unescape (s : list ascii) (mode : encoding) : result (list ascii) :=
  match s with
  | [] => Ok []
  | c :: rest =>
      if decide (c = "%"%char) then
        match rest with
        | a :: b :: rest' =>
            match hexval a, hexval b with
            | Some ha, Some hb =>
                let v := char_of (ha * 16 + hb) in
                let is25 := bool_decide (a = "2"%char) && bool_decide (b = "5"%char) in
                if bool_decide (mode = encodeHost) && (ha <? 8) && negb is25 then Err (EscapeError [c; a; b])
                else if bool_decide (mode = encodeZone) && negb is25 && negb (bool_decide (v = " "%char)) &&
                        shouldEscape v encodeHost then Err (EscapeError [c; a; b])
                else tl ← unescape rest' mode ; Ok (v :: tl)
            | _, _ => Err (EscapeError [c; a; b])
            end
        | _ => Err (EscapeError s)
        end
      else if decide (c = "+"%char) then
        tl ← unescape rest mode ;
        Ok ((if decide (mode = encodeQueryComponent) then " "%char else c) :: tl)
      else if bool_decide (mode = encodeHost \/ mode = encodeZone) && (byte_of c <? 128) && shouldEscape c mode
      then Err (InvalidHostError c)
      else tl ← unescape rest mode ; Ok (c :: tl)
  end.

(** ** The URL *)

Record Userinfo := mkUserinfo { ui_username : list ascii; ui_password : option (list ascii) }.

Record URL := mkURL {
  url_Scheme : list ascii;
  url_Opaque : list ascii;
  url_User : option Userinfo;
  url_Host : list ascii;
  url_Path : list ascii;
  url_RawPath : list ascii;
  url_OmitHost : bool;
  url_ForceQuery : bool;
  url_RawQuery : list ascii;
  url_Fragment : list ascii;
  url_RawFragment : list ascii;
}.

(** [strings.LastIndex(s, c)]: the text before and after the last [c]. *)
Fixpoint cut_last (l : list ascii) (c : ascii) : option (list ascii * list ascii) :=
  match l with
  | [] => None
  | x :: k =>
      match cut_last k c with
      | Some (b, a) => Some (x :: b, a)
      | None => if decide (x = c) then Some ([], k) else None
      end
  end.

Definition has_char (c : ascii) (l : list ascii) : bool := bool_decide (c ∈ l).

(** [getScheme]: the scheme and the rest. *)
Fixpoint getScheme_loop (all l seen : list ascii) : result (list ascii * list ascii) :=
  match l with
  | [] => Ok ([], all)
  | c :: rest =>
      let b := byte_of c in
      if ((97 <=? b) && (b <=? 122)) || ((65 <=? b) && (b <=? 90)) then getScheme_loop all rest (c :: seen)
      else if ((48 <=? b) && (b <=? 57)) || one_of "+-." c then
        match seen with [] => Ok ([], all) | _ => getScheme_loop all rest (c :: seen) end
      else if decide (c = ":"%char) then
        match seen with
        | [] => Err (ErrorString "missing protocol scheme")
        | _ => Ok (rev seen, rest)
        end
      else Ok ([], all)
  end.
Definition getScheme (rawURL : list ascii) : result (list ascii * list ascii) :=
  getScheme_loop rawURL rawURL [].

Definition validOptionalPort (port : list ascii) : bool :=
  match port with
  | [] => true
  | c :: rest => bool_decide (c = ":"%char) && forallb is_digit rest
  end.

Definition invalid_port (colonPort : list ascii) : error :=
  ErrorString ("invalid port " +:+ quote (str colonPort) +:+ " after host").

(** [strings.Index(s, sub)] for [%25]: the text before it, and from it on. *)
Fixpoint cut_zone (l : list ascii) : option (list ascii * list ascii) :=
  match l with
  | [] => None
  | c :: k =>
      match strip_prefix (chars "%25") l with
      | Some _ => Some ([], l)
      | None => match cut_zone k with Some (b, a) => Some (c :: b, a) | None => None end
      end
  end.

Definition parseHost (host : list ascii) : result (list ascii) :=
  match cut_last host "["%char with
  | Some (before, _) =>
      match cut_last host "]"%char with
      | None => Err (ErrorString "missing ']' in host")
      | Some (upto, colonPort) =>
          if negb (validOptionalPort colonPort) then Err (invalid_port colonPort)
          else
            unescapedColonPort ← unescape colonPort encodeHost ;
            let hostname := drop (length before + 1) upto in
            unescapedHostname ←
              match cut_zone hostname with
              | Some (h, z) =>
                  hostPart ← unescape h encodeHost ;
                  zonePart ← unescape z encodeZone ;
                  Ok (hostPart ++ zonePart)
              | None => unescape hostname encodeHost
              end ;
            match netip_ParseAddr (str unescapedHostname) with
            | None => Err (WrapError "invalid host" (ErrorString ("ParseAddr(" +:+
                        quote (str unescapedHostname) +:+ ")")))
            | Some addr =>
                if BitLen addr =? 32 then Err (ErrorString "invalid IP-literal")
                else Ok ("["%char :: unescapedHostname ++ "]"%char :: unescapedColonPort)
            end
      end
  | None =>
      match cut_last host ":"%char with
      | Some (_, port) =>
          if negb (validOptionalPort (":"%char :: port)) then Err (invalid_port (":"%char :: port))
          else unescape host encodeHost
      | None => unescape host encodeHost
      end
  end.

Definition validUserinfo (s : list ascii) : bool :=
  forallb (fun c => is_alnum c || one_of "-._:~!$&()*+,;=%@" c || bool_decide (c = squote)) s.

Definition parseAuthority (authority : list ascii) : result (option Userinfo * list ascii) :=
  match cut_last authority "@"%char with
  | None => host ← parseHost authority ; Ok (None, host)
  | Some (userinfo, h) =>
      host ← parseHost h ;
      if negb (validUserinfo userinfo) then Err (ErrorString "net/url: invalid userinfo")
      else
        match cut_list userinfo ":"%char with
        | None => u ← unescape userinfo encodeUserPassword ; Ok (Some (mkUserinfo u None), host)
        | Some (username, password) =>
            u ← unescape username encodeUserPassword ;
            p ← unescape password encodeUserPassword ;
            Ok (Some (mkUserinfo u (Some p)), host)
        end
  end.

Definition starts_with (p : string) (l : list ascii) : bool :=
  match strip_prefix (chars p) l with Some _ => true | None => false end.

(** The query part: [ForceQuery], [RawQuery] and what is before the question mark. *)
Definition split_query (rest : list ascii) : list ascii * bool * list ascii :=
  match cut_list rest "?"%char with
  | None => (rest, false, [])
  | Some (before, []) => (before, true, [])
  | Some (before, after) => (before, false, after)
  end.

(** [url.parse(rawURL, viaRequest = false)] *)
Definition parse (rawURL : list ascii) : result URL :=
  if existsb (fun c => (byte_of c <? 32) || (byte_of c =? 127)) rawURL then
    Err (ErrorString "net/url: invalid control character in URL")
  else if decide (rawURL = ["*"%char]) then Ok (mkURL [] [] None [] rawURL [] false false [] [] [])
  else
    '(scheme, rest) ← getScheme rawURL ;
    let scheme := map lower scheme in
    let '(rest, forceQuery, rawQuery) := split_query rest in
    let has_scheme := negb (bool_decide (scheme = [])) in
    if negb (starts_with "/" rest) && has_scheme then
      Ok (mkURL scheme rest None [] [] [] false forceQuery rawQuery [] [])
    else if negb (starts_with "/" rest) &&
            has_char ":" (match cut_list rest "/"%char with Some (s, _) => s | None => rest end) then
      Err (ErrorString "first path segment in URL cannot contain colon")
    else
      let with_authority := (has_scheme || negb (starts_with "///" rest)) && starts_with "//" rest in
      '(user, host, rest) ←
        (if with_authority then
           let authority := drop 2 rest in
           let '(authority, rest) :=
             match cut_list authority "/"%char with
             | Some (a, r) => (a, "/"%char :: r)
             | None => (authority, [])
             end in
           '(user, host) ← parseAuthority authority ; Ok (user, host, rest)
         else Ok (None, [], rest)) ;
      let omitHost := negb with_authority && has_scheme && starts_with "/" rest in
      path ← unescape rest encodePath ;
      let rawPath := if decide (rest = escape path encodePath) then [] else rest in
      Ok (mkURL scheme [] user host path rawPath omitHost forceQuery rawQuery [] []).

(** [url.Error]: [fmt.Sprintf("%s %q: %s", e.Op, e.URL, e.Err)] *)
Definition url_Error (u : list ascii) (e : error) : error := WrapError ("parse " +:+ quote (str u)) e.

Definition url_Parse (rawURL : string) : result URL :=
  let '(u, frag) :=
    match cut_list (chars rawURL) "#"%char with
    | Some (u, f) => (u, f)
    | None => (chars rawURL, [])
    end in
  match parse u with
  | Err e => Err (url_Error u e)
  | Diverge => Diverge
  | Ok url =>
      if decide (frag = []) then Ok url
      else
        match unescape frag encodeFragment with
        | Ok fragment =>
            let rawFragment := if decide (frag = escape fragment encodeFragment) then [] else frag in
            Ok (mkURL (url_Scheme url) (url_Opaque url) (url_User url) (url_Host url) (url_Path url)
                  (url_RawPath url) (url_OmitHost url) (url_ForceQuery url) (url_RawQuery url)
                  fragment rawFragment)
        | Err e => Err (url_Error (chars rawURL) e)
        | Diverge => Diverge
        end
  end.

(** ** Printing *)

Definition validEncoded (s : list ascii) (mode : encoding) : bool :=
  forallb (fun c => one_of "!$&()*+,;=:@[]%" c || bool_decide (c = squote) || negb (shouldEscape c mode)) s.

(** [EscapedPath] and [EscapedFragment]: the raw form when it is a valid encoding
    of the text, else the default one. *)
Definition escaped (raw text : list ascii) (mode : encoding) (dflt : list ascii) : list ascii :=
  match unescape raw mode with
  | Ok p =>
      if negb (bool_decide (raw = [])) && validEncoded raw mode && bool_decide (p = text) then raw else dflt
  | _ => dflt
  end.
Definition EscapedPath (u : URL) : list ascii :=
  escaped (url_RawPath u) (url_Path u) encodePath
    (if decide (url_Path u = ["*"%char]) then ["*"%char] else escape (url_Path u) encodePath).
Definition EscapedFragment (u : URL) : list ascii :=
  escaped (url_RawFragment u) (url_Fragment u) encodeFragment (escape (url_Fragment u) encodeFragment).

Definition Userinfo_String (ui : Userinfo) : list ascii :=
  if bool_decide (ui_username ui = []) && bool_decide (default [] (ui_password ui) = []) then []
  else escape (ui_username ui) encodeUserPassword ++
       match ui_password ui with
       | Some p => ":"%char :: escape p encodeUserPassword
       | None => []
       end.

Definition URL_String (u : URL) : string :=
  let scheme := match url_Scheme u with [] => [] | s => s ++ [":"%char] end in
  let body :=
    match url_Opaque u with
    | [] =>
        let has_host := negb (bool_decide (url_Host u = [])) in
        let has_user := bool_decide (is_Some (url_User u)) in
        let authority :=
          if negb (bool_decide (url_Scheme u = [])) || has_host || has_user then
            if url_OmitHost u && negb has_host && negb has_user then []
            else (if has_host || negb (bool_decide (url_Path u = [])) || has_user then chars "//" else []) ++
                 match url_User u with Some ui => Userinfo_String ui ++ ["@"%char] | None => [] end ++
                 escape (url_Host u) encodeHost
          else [] in
        let path := EscapedPath u in
        let slash := if negb (bool_decide (path = [])) && negb (starts_with "/" path) && has_host
                     then ["/"%char] else [] in
        let prefix := scheme ++ authority ++ slash in
        let dot := if bool_decide (prefix = []) &&
                      has_char ":" (match cut_list path "/"%char with Some (s, _) => s | None => path end)
                   then chars "./" else [] in
        authority ++ slash ++ dot ++ path
    | o => o
    end in
  let query := if url_ForceQuery u || negb (bool_decide (url_RawQuery u = []))
               then "?"%char :: url_RawQuery u else [] in
  let frag := match url_Fragment u with [] => [] | _ => "#"%char :: EscapedFragment u end in
  str (scheme ++ body ++ query ++ frag).

(** ** Query strings *)

Abbreviation Values := (gmap string (list string)).
Definition Values_Set (v : Values) (key value : string) : Values := <[key := [value]]> v.

Fixpoint split_on (c : ascii) (l cur : list ascii) : list (list ascii) :=
  match l with
  | [] => [rev cur]
  | x :: k => if decide (x = c) then rev cur :: split_on c k [] else split_on c k (x :: cur)
  end.

(** One [key=value] of a query: skipped when it is empty, has a semicolon or a bad
    escape. *)
Definition query_pair (s : list ascii) : option (string * string) :=
  if has_char ";" s then None
  else if decide (s = []) then None
  else
    let '(key, value) := match cut_list s "="%char with Some p => p | None => (s, []) end in
    match unescape key encodeQueryComponent, unescape value encodeQueryComponent with
    | Ok k, Ok v => Some (str k, str v)
    | _, _ => None
    end.

Definition add_value (m : Values) (kv : string * string) : Values :=
  <[kv.1 := default [] (m !! kv.1) ++ [kv.2]]> m.

(** The limit on the number of parameters. *)
Definition urlMaxQueryParams : Z := 10000.

(** [u.Query()]: malformed parameters are dropped. *)
Definition ParseQuery (query : list ascii) : Values :=
  let segments := split_on "&" query [] in
  if decide (urlMaxQueryParams < Z.of_nat (length segments)) then ∅
  else foldl add_value ∅ (omap query_pair segments).

(** Byte-wise order of strings, as Go compares them. *)
Definition string_le (a b : string) : Prop := String.leb a b = true.
#[global] Instance string_le_dec a b : Decision (string_le a b) := decide (String.leb a b = true).

Definition QueryEscape (s : string) : list ascii := escape (chars s) encodeQueryComponent.

(** [slices.Sorted(maps.Keys(v))] *)
Definition sorted_keys (v : Values) : list string := merge_sort string_le (map_to_list v).*1.

Definition encode_pair (kv : string * string) : list ascii :=
  QueryEscape kv.1 ++ "="%char :: QueryEscape kv.2.
Fixpoint join_amp (l : list (list ascii)) : list ascii :=
  match l with
  | [] => []
  | [x] => x
  | x :: rest => x ++ "&"%char :: join_amp rest
  end.
Definition pairs_of (v : Values) : list (string * string) :=
  k ← sorted_keys v ; pair k <$> default [] (v !! k).
Definition Values_Encode (v : Values) : list ascii := join_amp (map encode_pair (pairs_of v)).

Definition set_RawQuery (u : URL) (q : list ascii) : URL :=
  mkURL (url_Scheme u) (url_Opaque u) (url_User u) (url_Host u) (url_Path u) (url_RawPath u)
    (url_OmitHost u) (url_ForceQuery u) q (url_Fragment u) (url_RawFragment u).

Definition reparse (s : string) : result string :=
  match url_Parse s with Ok u => Ok (URL_String u) | Err e => Err e | Diverge => Diverge end.
Example url_ex1 : reparse "qemu+tls://libvirt.lab/system?no_verify=1" = Ok "qemu+tls://libvirt.lab/system?no_verify=1".
Proof. vm_compute. reflexivity. Qed.
Example url_ex2 : reparse "QEMU:///system" = Ok "qemu:///system".
Proof. vm_compute. reflexivity. Qed.
Example url_ex3 : reparse "qemu+libssh://capi@[fe80::1%25en0]:22/system" = Ok "qemu+libssh://capi@[fe80::1%25en0]:22/system".
Proof. vm_compute. reflexivity. Qed.
Example url_ex4 : is_ok (reparse "qemu+tls://host:port/system") = false.
Proof. vm_compute. reflexivity. Qed.
Example encode_ex :
  str (Values_Encode (Values_Set (ParseQuery (chars "no_verify=1&b=x+y&b=%26")) "pkipath" "/tmp/a b"))
  = "b=x+y&b=%26&no_verify=1&pkipath=%2Ftmp%2Fa+b".
Proof. vm_compute. reflexivity. Qed.

(** ** Encoding and parsing are inverse *)

(** Facts about one byte, by running through all of them. *)
Definition all_bytes (p : ascii -> bool) : Prop := forall c, p c = true.
Local Ltac each_byte := intros [[] [] [] [] [] [] [] []]; vm_compute; reflexivity.

Lemma escape_char_clean :
  all_bytes (fun c => forallb (fun x => negb (one_of "&=;" x)) (escape_char encodeQueryComponent c)).
Proof. each_byte. Qed.

Lemma kept_char_plain :
  all_bytes (fun c => shouldEscape c encodeQueryComponent || negb (one_of "%+" c)).
Proof. each_byte. Qed.

Lemma hexval_upperhex d : 0 <= d < 16 -> hexval (upperhex d) = Some d.
Proof.
  intros Hd. unfold hexval, upperhex.
  destruct (Z.ltb_spec d 10); rewrite byte_of_char_of, Z.mod_small by lia.
  - rewrite (proj2 (Z.leb_le _ _)), (proj2 (Z.leb_le _ _)) by lia. cbn [andb]. f_equal. lia.
  - rewrite (proj2 (Z.leb_gt (55 + d) 57)) by lia. rewrite andb_false_r.
    rewrite (proj2 (Z.leb_gt 97 (55 + d))) by lia. cbn [andb].
    rewrite (proj2 (Z.leb_le _ _)), (proj2 (Z.leb_le _ _)) by lia. cbn [andb]. f_equal. lia.
Qed.

Lemma unescape_escape_char c rest :
  unescape (escape_char encodeQueryComponent c ++ rest) encodeQueryComponent =
  (tl ← unescape rest encodeQueryComponent ; Ok (c :: tl)).
Proof.
  unfold escape_char. destruct (shouldEscape c encodeQueryComponent) eqn:Hs.
  - case_bool_decide as Hsp; cbn [andb].
    + subst c. rewrite bool_decide_eq_true_2 by done. cbn [app unescape].
      rewrite decide_False, decide_True, decide_True by done. done.
    + cbn [app unescape]. rewrite decide_True by done. pose proof (byte_of_range c).
      rewrite !hexval_upperhex by solve_div.
      replace (byte_of c / 16 * 16 + byte_of c mod 16) with (byte_of c) by solve_div.
      rewrite char_of_byte_of. done.
  - pose proof (kept_char_plain c) as Hk. cbn beta in Hk. rewrite Hs in Hk. cbn [orb] in Hk.
    apply negb_true_iff, bool_decide_eq_false in Hk. cbn [app unescape].
    rewrite decide_False by (intros ->; apply Hk, list_elem_of_here).
    rewrite decide_False by (intros ->; apply Hk; apply list_elem_of_further, list_elem_of_here).
    done.
Qed.

Lemma unescape_escape s : unescape (escape s encodeQueryComponent) encodeQueryComponent = Ok s.
Proof.
  induction s as [|c s IH]; [done|]. unfold escape. cbn [map concat].
  rewrite unescape_escape_char. fold (escape s encodeQueryComponent). by rewrite IH.
Qed.

Lemma escape_clean s : Forall (fun x => one_of "&=;" x = false) (escape s encodeQueryComponent).
Proof.
  induction s as [|c s IH]; [constructor|]. apply Forall_app. split; [|exact IH].
  pose proof (escape_char_clean c) as Hc. apply Forall_forall. intros x Hx.
  rewrite forallb_forall in Hc. apply list_elem_of_In in Hx. specialize (Hc x Hx).
  by apply negb_true_iff.
Qed.

Lemma clean_not_in x l : Forall (fun y => one_of "&=;" y = false) l -> one_of "&=;" x = true -> x ∉ l.
Proof. intros Hl Hx Hin. rewrite Forall_forall in Hl. specialize (Hl x Hin). congruence. Qed.

Lemma query_pair_encode kv : query_pair (encode_pair kv) = Some kv.
Proof.
  destruct kv as [k v]. unfold query_pair, encode_pair, QueryEscape. cbn [fst snd].
  pose proof (escape_clean (chars k)) as Hk. pose proof (escape_clean (chars v)) as Hv.
  unfold has_char. rewrite bool_decide_eq_false_2.
  2: { rewrite elem_of_app, elem_of_cons. intros [Hin|[Heq|Hin]]; [|discriminate Heq|].
       - by eapply clean_not_in in Hin.
       - by eapply clean_not_in in Hin. }
  rewrite decide_False by (intros Hnil; by apply app_nil in Hnil as [_ ?]).
  rewrite cut_list_app by (by apply clean_not_in). by rewrite !unescape_escape, !str_chars.
Qed.

Lemma split_on_app c l k cur : c ∉ l -> split_on c (l ++ c :: k) cur = (rev cur ++ l) :: split_on c k [].
Proof.
  revert cur. induction l as [|x l IH]; intros cur Hni; cbn.
  - rewrite decide_True by done. by rewrite app_nil_r.
  - apply not_elem_of_cons in Hni as [Hne Hni]. rewrite decide_False by congruence.
    rewrite IH by done. cbn. by rewrite <- app_assoc.
Qed.
Lemma split_on_last c l cur : c ∉ l -> split_on c l cur = [rev cur ++ l].
Proof.
  revert cur. induction l as [|x l IH]; intros cur Hni; cbn; [by rewrite app_nil_r|].
  apply not_elem_of_cons in Hni as [Hne Hni]. rewrite decide_False by congruence.
  rewrite IH by done. cbn. by rewrite <- app_assoc.
Qed.

Lemma split_join segs : segs <> [] -> Forall (fun s => "&"%char ∉ s) segs -> split_on "&" (join_amp segs) [] = segs.
Proof.
  induction segs as [|s segs IH]; [done|]. intros _ [Hs Hsegs]%Forall_cons.
  destruct segs as [|s' segs]; [by apply split_on_last|].
  change (join_amp (s :: s' :: segs)) with (s ++ "&"%char :: join_amp (s' :: segs)).
  rewrite split_on_app by done. cbn [rev app]. f_equal. by apply IH.
Qed.

Lemma encode_pair_clean kv : "&"%char ∉ encode_pair kv.
Proof.
  unfold encode_pair, QueryEscape. rewrite elem_of_app, elem_of_cons.
  intros [Hin|[Heq|Hin]]; [|discriminate Heq|]; by eapply clean_not_in in Hin; [|apply escape_clean|].
Qed.

Lemma foldl_add_value_one k vs m :
  vs <> [] -> foldl add_value m (pair k <$> vs) = <[k := default [] (m !! k) ++ vs]> m.
Proof.
  revert m. induction vs as [|v vs IH]; [done|]. intros m _. rewrite fmap_cons. cbn [foldl].
  change (add_value m (k, v)) with (<[k := default [] (m !! k) ++ [v]]> m).
  destruct vs as [|v' vs]; [done|]. rewrite IH by done.
  rewrite lookup_insert_eq, insert_insert_eq. cbn [from_option id]. by rewrite <- app_assoc.
Qed.

Lemma foldl_add_values (ks : list string) (f : string -> list string) m :
  NoDup ks -> (forall k, k ∈ ks -> m !! k = None /\ f k <> []) ->
  forall k, foldl add_value m (k ← ks ; pair k <$> f k) !! k =
    if decide (k ∈ ks) then Some (f k) else m !! k.
Proof.
  revert m. induction ks as [|k0 ks IH]; intros m Hnd Hm k; [by rewrite decide_False by apply not_elem_of_nil|].
  apply NoDup_cons in Hnd as [Hni Hnd]. cbn. rewrite foldl_app.
  destruct (Hm k0 (list_elem_of_here _ _)) as [Hk0 Hf0].
  rewrite foldl_add_value_one, Hk0 by done. cbn [default app]. rewrite IH; [|done|].
  - destruct (decide (k = k0)) as [->|Hne].
    + destruct (decide (k0 ∈ ks)) as [|_]; [done|].
      rewrite lookup_insert_eq, decide_True by apply list_elem_of_here. done.
    + rewrite lookup_insert_ne by done. destruct (decide (k ∈ ks)).
      * rewrite decide_True by (by apply list_elem_of_further). done.
      * rewrite decide_False by (rewrite not_elem_of_cons; done). done.
  - intros k' Hk'. rewrite lookup_insert_ne by (intros ->; done).
    apply Hm. by apply list_elem_of_further.
Qed.

Lemma sorted_keys_spec v : NoDup (sorted_keys v) /\ forall k, k ∈ sorted_keys v <-> is_Some (v !! k).
Proof.
  assert (sorted_keys v ≡ₚ (map_to_list v).*1) as Hp by apply merge_sort_Permutation. split.
  - rewrite Hp. apply NoDup_fst_map_to_list.
  - intros k. rewrite Hp, list_elem_of_fmap. split.
    + intros ([k' x] & -> & Hin). apply elem_of_map_to_list in Hin. eauto.
    + intros [x Hx]. exists (k, x). split; [done|]. by apply elem_of_map_to_list.
Qed.

(** Encoding a set of query parameters and parsing the result gives the same
    parameters, whatever bytes their names and values hold (every name has a
    value and there are at most as many parameters as the parser accepts). *)
Lemma query_roundtrip v :
  (forall k vs, v !! k = Some vs -> vs <> []) ->
  Z.of_nat (length (pairs_of v)) <= urlMaxQueryParams ->
  ParseQuery (Values_Encode v) = v.
Proof.
  intros Hne Hlen. destruct (sorted_keys_spec v) as [Hnd Hin]. unfold ParseQuery, Values_Encode.
  assert (omap query_pair (map encode_pair (pairs_of v)) = pairs_of v) as Homap.
  { clear. induction (pairs_of v) as [|kv l IH]; [done|]. cbn. rewrite query_pair_encode. by f_equal. }
  assert (foldl add_value ∅ (pairs_of v) = v) as Hfold.
  { apply map_eq. intros k. unfold pairs_of.
    rewrite (foldl_add_values _ (fun k => default [] (v !! k))); [|done|].
    - destruct (decide (k ∈ sorted_keys v)) as [Hk|Hk]; rewrite Hin in Hk.
      + destruct Hk as [vs Hvs]. by rewrite Hvs.
      + rewrite lookup_empty. destruct (v !! k); [exfalso; eauto|done].
    - intros k' [vs Hvs]%Hin. split; [apply lookup_empty|]. rewrite Hvs. cbn. eauto. }
  destruct (pairs_of v) as [|kv l] eqn:Epairs; [by rewrite decide_False by (vm_compute; discriminate)|].
  rewrite split_join; [|done|apply Forall_map, Forall_true; intros; apply encode_pair_clean].
  rewrite length_map, decide_False by lia. by rewrite Homap.
Qed.
