(* ===== verification/GoFlag.v ===== *)
(** * Go's flag package, as cmd/main.go uses it *)

From stdpp Require Import base list strings.
From Stdlib Require Import ZArith Ascii.
From S2P Require Import Prelude GoStrings.

Local Open Scope Z_scope.

(** A defined flag: the variable it sets is a part of [T]. *)
Record Flag (T : Type) := mkFlag {
  flag_Name : string;
  flag_IsBool : bool;
  flag_Set : string -> T -> option T;
}.
Arguments mkFlag {T}.
Arguments flag_Name {T}.
Arguments flag_IsBool {T}.
Arguments flag_Set {T}.

(** [strconv.ParseBool] *)
Definition strconv_ParseBool (s : string) : option bool :=
  if bool_decide (s ∈ ["1"; "t"; "T"; "TRUE"; "true"; "True"]) then Some true
  else if bool_decide (s ∈ ["0"; "f"; "F"; "FALSE"; "false"; "False"]) then Some false
  else None.

(** [flag.StringVar] and [flag.BoolVar] *)
Definition StringVar {T} (set : string -> T -> T) (name : string) : Flag T :=
  mkFlag name false (fun v t => Some (set v t)).
Definition BoolVar {T} (set : bool -> T -> T) (name : string) : Flag T :=
  mkFlag name true (fun v t => (fun b => set b t) <$> strconv_ParseBool v).

Inductive FlagError :=
  | ErrHelp
  | BadFlagSyntax (s : string)
  | FlagNotDefined (name : string)
  | FlagNeedsArgument (name : string)
  | InvalidFlagValue (name value : string).

(** [flag.CommandLine] exits on an error: 0 for a request for help, 2 otherwise. *)
Definition flag_exit (e : FlagError) : Z := match e with ErrHelp => 0 | _ => 2 end.

(** The name and the value of a flag given as [name=value] or as [name]. *)
Definition split_flag (body : list ascii) : string * option string :=
  match cut_list body "="%char with
  | Some (n, v) => (str n, Some (str v))
  | None => (str body, None)
  end.

Definition lookup_flag {T} (flags : list (Flag T)) (name : string) : option (Flag T) :=
  List.find (fun f => bool_decide (flag_Name f = name)) flags.

(** [flag.Parse]: flags until the first argument that is not one, or [--]. *)
Fixpoint flag_Parse {T} (flags : list (Flag T)) (args : list string) (t : T) : FlagError + T :=
  match args with
  | [] => inr t
  | s :: rest =>
      match chars s with
      | c1 :: c2 :: more =>
          if bool_decide (c1 <> "-"%char) then inr t
          else if bool_decide (c2 = "-"%char /\ more = []) then inr t
          else
            let body := if bool_decide (c2 = "-"%char) then more else c2 :: more in
            if match body with [] => true | c :: _ => bool_decide (c ∈ ["-"; "="]%char) end
            then inl (BadFlagSyntax s)
            else
              let '(name, value) := split_flag body in
              match lookup_flag flags name with
              | None =>
                  if bool_decide (name ∈ ["help"; "h"]) then inl ErrHelp else inl (FlagNotDefined name)
              | Some f =>
                  if flag_IsBool f then
                    match flag_Set f (default "true" value) t with
                    | Some t' => flag_Parse flags rest t'
                    | None => inl (InvalidFlagValue name (default "true" value))
                    end
                  else
                    match value, rest with
                    | Some v, _ =>
                        match flag_Set f v t with
                        | Some t' => flag_Parse flags rest t'
                        | None => inl (InvalidFlagValue name v)
                        end
                    | None, v :: rest' =>
                        match flag_Set f v t with
                        | Some t' => flag_Parse flags rest' t'
                        | None => inl (InvalidFlagValue name v)
                        end
                    | None, [] => inl (FlagNeedsArgument name)
                    end
              end
      | _ => inr t
      end
  end.

(** ** Facts *)

(** A flag written out. *)
Definition flag_arg (name value : string) : string := "--" +:+ name +:+ "=" +:+ value.

Definition strconv_FormatBool (b : bool) : string := if b then "true" else "false".
Lemma ParseBool_FormatBool b : strconv_ParseBool (strconv_FormatBool b) = Some b.
Proof. by destruct b. Qed.

(** A name flags can have: not empty, no dash in front, no equals sign. *)
Definition flag_name_ok (name : string) : bool :=
  match chars name with
  | [] => false
  | c :: _ => bool_decide (c <> "-"%char) && bool_decide ("="%char ∉ chars name)
  end.

Lemma flag_Parse_arg {T} (flags : list (Flag T)) f name value rest t :
  flag_name_ok name = true -> lookup_flag flags name = Some f ->
  flag_Parse flags (flag_arg name value :: rest) t =
    match flag_Set f value t with
    | Some t' => flag_Parse flags rest t'
    | None => inl (InvalidFlagValue name value)
    end.
Proof.
  unfold flag_name_ok, flag_arg. intros Hname Hf. cbn [flag_Parse].
  rewrite !chars_app. cbn [chars app].
  destruct (chars name) as [|c l] eqn:Hc; [discriminate|].
  apply andb_true_iff in Hname as [Hd%bool_decide_eq_true He%bool_decide_eq_true].
  assert (c <> "="%char) by (intros ->; apply He; by left).
  rewrite (bool_decide_eq_false_2 (_ <> _)) by naive_solver. cbn [app].
  rewrite (bool_decide_eq_false_2 (_ /\ _)) by naive_solver.
  rewrite (bool_decide_eq_true_2 ("-"%char = _)) by done.
  rewrite bool_decide_eq_false_2 by (rewrite !elem_of_cons, elem_of_nil; naive_solver).
  unfold split_flag. rewrite app_comm_cons, cut_list_app by done. rewrite <- Hc, !str_chars, Hf.
  cbn [default from_option]. by destruct (flag_IsBool f).
Qed.
