(* ===== verification/Utils.v ===== *)
(** * IP utilities (pkg/utils/ip.go) *)

From stdpp Require Import base list strings.
From Stdlib Require Import ZArith Lia Ascii.
From S2P Require Import Prelude GoStrings GoHash GoNet.

Local Open Scope Z_scope.

Definition IsIP (address : string) : bool :=
  match net_ParseIP address with None => false | Some _ => true end.

Definition IsIPv4 (address : string) : bool :=
  match net_ParseIP address with
  | None => false
  | Some ip => match To4 ip with Some _ => true | None => false end
  end.

Definition IsIPv6 (address : string) : bool :=
  match net_ParseIP address with
  | None => false
  | Some ip => match To4 ip with None => true | Some _ => false end
  end.

Definition IsIPv4CIDR (cidr : string) : bool :=
  match net_ParseCIDR cidr with
  | None => false
  | Some (ip, _) => match To4 ip with Some _ => true | None => false end
  end.

Definition IsIPv6CIDR (cidr : string) : bool :=
  match net_ParseCIDR cidr with
  | None => false
  | Some (ip, _) => match To4 ip with None => true | Some _ => false end
  end.

Definition StripCIDR (ip : string) : string :=
  match strings_Cut ip "/"%char with
  | Some (before, _) => before
  | None => ip
  end.

(** [m.Size()]: zero for a mask that is not a run of ones. *)
Definition Mask_Size (m : list Z) : Z * Z :=
  match simpleMaskLength m with
  | Some ones => (ones, 8 * Z.of_nat (length m))
  | None => (0, 0)
  end.

(** [net.ParseCIDR]'s error is a [net.ParseError]. *)
Definition FirstHostAndPrefix (cidr : string) : result (string * Z) :=
  match net_ParseCIDR cidr with
  | None => Err (WrapError ("parse CIDR " +:+ quote cidr) (ErrorString ("invalid CIDR address: " +:+ cidr)))
  | Some (_, ipnet) =>
      match To4 (ipnet_IP ipnet) with
      | None => Err (ErrorString ("CIDR " +:+ quote cidr +:+ " is not IPv4"))
      | Some ip4 =>
          let '(ones, _) := Mask_Size (ipnet_Mask ipnet) in
          if ones >? 30 then
            Err (ErrorString ("CIDR " +:+ quote cidr +:+ " has no usable host addresses"))
          else
            let first := u32 (be_Uint32 ip4 + 1) in
            if first =? 0 then
              Err (ErrorString ("CIDR " +:+ quote cidr +:+ " has no usable host addresses"))
            else
              Ok (ip4_String [u8 (Z.shiftr first 24); u8 (Z.shiftr first 16); u8 (Z.shiftr first 8); u8 first],
                  ones)
      end
  end.

(** ** Prefix lengths and masks

    There are 33 prefix lengths and 256 bytes: facts about them are checked by
    evaluation. *)

Lemma below_forall (P : Z -> bool) n x :
  forallb P (map Z.of_nat (seq 0 n)) = true -> 0 <= x < Z.of_nat n -> P x = true.
Proof.
  intros Hall Hx. rewrite forallb_forall in Hall. apply Hall, in_map_iff. exists (Z.to_nat x).
  split; [lia|]. apply in_seq. lia.
Qed.

Lemma dtoi_itoa n : 0 <= n < 33 -> dtoi (chars (itoa n)) 0 0 = Some (n, []).
Proof.
  intros Hn. pose proof (below_forall (fun n => bool_decide (dtoi (chars (itoa n)) 0 0 = Some (n, []))) 33 n) as H.
  by eapply bool_decide_eq_true_1, H; [vm_compute|].
Qed.
Lemma simpleMaskLength_CIDRMask n : 0 <= n < 33 -> simpleMaskLength (CIDRMask n 32) = Some n.
Proof.
  intros Hn. pose proof (below_forall (fun n => bool_decide (simpleMaskLength (CIDRMask n 32) = Some n)) 33 n) as H.
  by eapply bool_decide_eq_true_1, H; [vm_compute|].
Qed.

(** Masking a byte clears its low bits. *)
Lemma mask_byte a m : byte_range a -> 0 <= m < 9 -> Z.land a (256 - 2 ^ (8 - m)) = a / 2 ^ (8 - m) * 2 ^ (8 - m).
Proof.
  intros Ha Hm.
  pose proof (below_forall (fun a => forallb (fun m => Z.land a (256 - 2 ^ (8 - m)) =? a / 2 ^ (8 - m) * 2 ^ (8 - m))
    (map Z.of_nat (seq 0 9))) 256 a) as H.
  apply Z.eqb_eq, (below_forall (fun m => _ =? a / 2 ^ (8 - m) * 2 ^ (8 - m)) 9 m); [|done].
  by apply H; [vm_compute|].
Qed.


(** ** The network of a prefix *)

(** [x] with all but its first [n] bits cleared. *)
Definition network (x n : Z) : Z := x / 2 ^ (32 - n) * 2 ^ (32 - n).

Lemma mask_bytes n :
  CIDRMask n 32 = map (fun k => 256 - 2 ^ (8 - Z.max 0 (Z.min 8 (n - 8 * k)))) [0; 1; 2; 3].
Proof. done. Qed.

(** The byte [x] that the prefix ends in, [h] before and [r] after it. *)
Lemma network_split h x r s m :
  0 <= m <= 8 -> 0 <= s -> 0 <= r < 2 ^ s ->
  (h * 256 + x) * 2 ^ s + r - ((h * 256 + x) * 2 ^ s + r) mod 2 ^ (8 - m + s) =
  (h * 256 + x / 2 ^ (8 - m) * 2 ^ (8 - m)) * 2 ^ s.
Proof.
  intros Hm Hs Hr. rewrite Z.add_comm with (n := 8 - m), Z.pow_add_r, Z.rem_mul_r by lia.
  rewrite (Z.add_comm _ r), Z.mod_add, Z.mod_small, Z.div_add, Z.div_small by lia.
  assert (256 = 2 ^ m * 2 ^ (8 - m)) as H256 by (rewrite <- Z.pow_add_r by lia; by replace (m + (8 - m)) with 8 by lia).
  rewrite Z.add_0_l, H256, Z.mul_assoc, Z.add_comm with (n := h * _ * _), Z.mod_add by lia.
  pose proof (Z.div_mod x (2 ^ (8 - m))). lia.
Qed.

(** The four bytes of [X] when the prefix [n] ends in [x]; [ma] to [md] are the
    lengths of its parts in them. *)
Local Ltac network_case X h x r s n ma mb mc md :=
  let HX := fresh "HX" in
  pose proof (network_split h x r s (n - (24 - s))) as HX;
  replace ((h * 256 + x) * 2 ^ s + r) with X in HX by (unfold X; lia);
  replace (8 - (n - (24 - s)) + s) with (32 - n) in HX by lia;
  rewrite HX by lia;
  replace (Z.max 0 (Z.min 8 (n - 8 * 0))) with ma by lia;
  replace (Z.max 0 (Z.min 8 (n - 8 * 1))) with mb by lia;
  replace (Z.max 0 (Z.min 8 (n - 8 * 2))) with mc by lia;
  replace (Z.max 0 (Z.min 8 (n - 8 * 3))) with md by lia;
  first [replace (n - (24 - s)) with ma by lia | replace (n - (24 - s)) with mb by lia
        | replace (n - (24 - s)) with mc by lia | replace (n - (24 - s)) with md by lia].

Lemma mask_network a b c d n :
  Forall byte_range [a; b; c; d] -> 0 <= n <= 32 ->
  exists a' b' c' d', zip_with Z.land [a; b; c; d] (CIDRMask n 32) = [a'; b'; c'; d'] /\
    Forall byte_range [a'; b'; c'; d'] /\ be_Uint32 [a'; b'; c'; d'] = network (be_Uint32 [a; b; c; d]) n.
Proof.
  rewrite !Forall_cons. intros (Ha & Hb & Hc & Hd & _) Hn. rewrite mask_bytes. cbn [map zip_with].
  rewrite !mask_byte by (done || lia). do 4 eexists. split; [reflexivity|].
  assert (forall x m, byte_range x -> 0 <= m <= 8 -> byte_range (x / 2 ^ (8 - m) * 2 ^ (8 - m))) as Hr.
  { unfold byte_range. intros x m Hx Hm. pose proof (Z.pow_pos_nonneg 2 (8 - m)).
    pose proof (Z.mul_div_le x (2 ^ (8 - m))). pose proof (Z.div_pos x (2 ^ (8 - m))). nia. }
  split; [rewrite !Forall_cons; split_and!; try (apply Hr; [done|lia]); done|].
  rewrite !be_Uint32_add by (done || (apply Hr; [done|lia])). unfold network, byte_range in *.
  set (X := a * 2 ^ 24 + _ + _ + _). replace (X / _ * _) with (X - X mod 2 ^ (32 - n))
    by (rewrite Z.mod_eq by lia; lia).
  assert (forall x, x / 2 ^ (8 - 8) * 2 ^ (8 - 8) = x) as H8 by (intros x; cbn; solve_div).
  assert (forall x, 0 <= x < 256 -> x / 2 ^ (8 - 0) * 2 ^ (8 - 0) = 0) as H0 by (intros x Hx; cbn; solve_div).
  assert (n <= 8 \/ 8 <= n <= 16 \/ 16 <= n <= 24 \/ 24 <= n) as Hcase by lia.
  destruct Hcase as [?|[?|[?|?]]].
  - network_case X 0 a (b * 2 ^ 16 + c * 2 ^ 8 + d) 24 n n 0 0 0. rewrite !H0 by done. lia.
  - network_case X a b (c * 2 ^ 8 + d) 16 n 8 (n - 8) 0 0. rewrite H8, !H0 by done. lia.
  - network_case X (a * 256 + b) c d 8 n 8 8 (n - 16) 0. rewrite !H8, H0 by done. lia.
  - network_case X ((a * 256 + b) * 256 + c) d 0 0 n 8 8 8 (n - 24). rewrite !H8. lia.
Qed.

Lemma ip4_String_no_slash a b c d : Forall byte_range [a; b; c; d] -> "/"%char ∉ chars (ip4_String [a; b; c; d]).
Proof.
  assert (forall n, byte_range n -> "/"%char ∉ chars (itoa n)) as Hd.
  { unfold byte_range, itoa. intros n Hn Hin. rewrite chars_str in Hin.
    pose proof (digits_are_digits 20 n) as Hf. rewrite Forall_forall in Hf. by specialize (Hf ltac:(lia) _ Hin). }
  rewrite !Forall_cons, chars_ip4_String. intros (? & ? & ? & ? & _).
  repeat (rewrite elem_of_app || rewrite elem_of_cons). rewrite elem_of_nil.
  intros [Hin|[[=]|[Hin|[[=]|[Hin|[[=]|[Hin|[]]]]]]]]; revert Hin; by apply Hd.
Qed.

(** The notation of an IPv4 subnet. *)
Definition cidr_of (bytes : list Z) (n : Z) : string := ip4_String bytes +:+ "/" +:+ itoa n.

Lemma ParseCIDR_cidr_of a b c d n :
  Forall byte_range [a; b; c; d] -> 0 <= n <= 32 ->
  net_ParseCIDR (cidr_of [a; b; c; d] n) =
    Some (v4InV6Prefix ++ [a; b; c; d],
          mkIPNet (zip_with Z.land [a; b; c; d] (CIDRMask n 32)) (CIDRMask n 32)).
Proof.
  intros Hb Hn. unfold net_ParseCIDR, cidr_of. rewrite !chars_app. cbn [chars app].
  rewrite cut_list_app by by apply ip4_String_no_slash.
  rewrite str_chars. rewrite !Forall_cons in Hb. destruct Hb as (?&?&?&?&_). rewrite ParseAddr_ip4_String by done.
  cbn [Zone BitLen]. rewrite decide_True by done. rewrite dtoi_itoa by lia.
  replace ((n <? 0) || (32 <? n)) with false by (symmetry; apply orb_false_iff; rewrite !Z.ltb_ge; lia).
  done.
Qed.

Lemma network_bounds x n :
  0 <= x < 2 ^ 32 -> 0 <= n <= 30 ->
  0 <= network x n /\ network x n + 2 ^ (32 - n) <= 2 ^ 32 /\ 4 <= 2 ^ (32 - n).
Proof.
  intros Hx Hn. unfold network. assert (2 ^ 32 = 2 ^ n * 2 ^ (32 - n)) as H32
    by (rewrite <- Z.pow_add_r by lia; f_equal; lia).
  assert (2 ^ 2 <= 2 ^ (32 - n)) as H4 by (apply Z.pow_le_mono_r; lia).
  assert (x / 2 ^ (32 - n) < 2 ^ n) by (apply Z.div_lt_upper_bound; lia).
  pose proof (Z.div_pos x (2 ^ (32 - n))). nia.
Qed.

Lemma Mask_Size_nonneg m ones bits : Mask_Size m = (ones, bits) -> 0 <= ones.
Proof.
  unfold Mask_Size. enough (forall n, simpleMaskLength m = Some n -> 0 <= n) as Hm.
  { destruct (simpleMaskLength m); intros [= <- _]; [by apply Hm|lia]. }
  induction m as [|v m IH]; cbn; [by intros n [= <-]|]. intros n. destruct (v =? 255).
  - destruct (simpleMaskLength m) as [k|]; [|discriminate]. intros [= <-]. specialize (IH k eq_refl). lia.
  - destruct (_ && _); [|discriminate]. intros [= <-]. lia.
Qed.

(** C40: [FirstHostAndPrefix] on the notation of an IPv4 subnet: for a prefix of at
    most 30 bits the result is the address after the network address and the
    prefix length; that address lies strictly between the network address and
    the broadcast address, so nothing overflows; for a longer prefix it is an
    error.  On any other text, a result is still an IPv4 address and a prefix
    length of at most 30. *)
Theorem FirstHostAndPrefix_spec :
  (forall a b c d n, Forall byte_range [a; b; c; d] -> 0 <= n <= 32 ->
     let net := network (be_Uint32 [a; b; c; d]) n in
     if n <=? 30 then
       FirstHostAndPrefix (cidr_of [a; b; c; d] n) = Ok (ip4_String (be_PutUint32 (net + 1)), n) /\
       net < net + 1 < net + 2 ^ (32 - n) - 1 /\ net + 2 ^ (32 - n) <= 2 ^ 32
     else exists e, FirstHostAndPrefix (cidr_of [a; b; c; d] n) = Err e) /\
  (forall cidr host n, FirstHostAndPrefix cidr = Ok (host, n) -> IsIPv4 host = true /\ 0 <= n <= 30).
Proof.
  split.
  - intros a b c d n Hb Hn net. unfold FirstHostAndPrefix. rewrite ParseCIDR_cidr_of by done.
    destruct (mask_network a b c d n Hb Hn) as (a' & b' & c' & d' & Hm & Hb' & Hnet).
    cbn [ipnet_IP ipnet_Mask]. rewrite Hm. change (To4 [a'; b'; c'; d']) with (Some [a'; b'; c'; d']). cbv iota beta.
    unfold Mask_Size. rewrite simpleMaskLength_CIDRMask by lia. rewrite Z.gtb_ltb.
    destruct (Z.leb_spec n 30) as [Hle|Hgt].
    + replace (30 <? n) with false by (symmetry; apply Z.ltb_ge; lia). rewrite Hnet. fold net.
      assert (0 <= net /\ net + 2 ^ (32 - n) <= 2 ^ 32 /\ 4 <= 2 ^ (32 - n)) as (H0 & Hmax & H4).
      { apply network_bounds; [|lia]. rewrite !Forall_cons in Hb. destruct Hb as (?&?&?&?&_). by apply be_Uint32_range. }
      replace (u32 (net + 1)) with (net + 1) by (unfold u32; symmetry; apply Z.mod_small; lia).
      destruct (Z.eqb_spec (net + 1) 0); [lia|]. split; [done|]. lia.
    + replace (30 <? n) with true by (symmetry; apply Z.ltb_lt; lia). by eexists.
  - intros cidr host n. unfold FirstHostAndPrefix. destruct (net_ParseCIDR cidr) as [[ip ipnet]|]; [|discriminate].
    destruct (To4 _) as [ip4|]; [|discriminate]. destruct (Mask_Size _) as [ones bits] eqn:Hs.
    destruct (Z.gtb_spec ones 30); [discriminate|]. destruct (_ =? 0); [discriminate|].
    intros Hr. injection Hr as <- <-. split; [|split; [by eapply Mask_Size_nonneg|lia]].
    unfold IsIPv4. rewrite ParseIP_ip4_String by apply u8_range. by rewrite To4_v4InV6.
Qed.

Lemma FirstHostAndPrefix_witness : FirstHostAndPrefix "192.168.122.7/24" = Ok ("192.168.122.1", 24).
Proof.
  destruct FirstHostAndPrefix_spec as [Hspec _].
  destruct (Hspec 192 168 122 7 24) as [Hok _]; [|lia|exact Hok].
  rewrite !Forall_cons. unfold byte_range. split_and!; [lia..|by apply Forall_nil].
Defined.

(** The predicates agree with each other: an address is an IPv4 or an IPv6
    address and never both, likewise for a subnet; what is left of a subnet
    without its suffix is an address of the same family; and the notation of an
    IPv4 subnet is recognised, with its address as the rest. *)
Theorem ip_predicates_spec s :
  IsIP s = xorb (IsIPv4 s) (IsIPv6 s) /\ IsIPv4 s && IsIPv6 s = false /\
  (IsIPv4CIDR s = true -> IsIPv4 (StripCIDR s) = true) /\
  (IsIPv6CIDR s = true -> IsIPv6 (StripCIDR s) = true) /\
  (forall a b c d n, Forall byte_range [a; b; c; d] -> 0 <= n <= 32 -> s = cidr_of [a; b; c; d] n ->
     IsIPv4CIDR s = true /\ StripCIDR s = ip4_String [a; b; c; d]).
Proof.
  assert (forall ip net, net_ParseCIDR s = Some (ip, net) -> net_ParseIP (StripCIDR s) = Some ip) as Hparse.
  { intros ip net. unfold net_ParseCIDR, net_ParseIP, StripCIDR, strings_Cut.
    destruct (cut_list (chars s) "/"%char) as [[addr mask]|]; [|discriminate].
    destruct (netip_ParseAddr (str addr)) as [ad|]; [|discriminate]. destruct (decide (Zone ad = "")); [|discriminate].
    destruct (dtoi mask 0 0) as [[k [|]]|]; [|discriminate..]. by destruct (_ || _); intros [= <- _]. }
  split_and!.
  - unfold IsIP, IsIPv4, IsIPv6. destruct (net_ParseIP s) as [ip|]; [|done]. by destruct (To4 ip).
  - unfold IsIPv4, IsIPv6. destruct (net_ParseIP s) as [ip|]; [|done]. by destruct (To4 ip).
  - unfold IsIPv4CIDR, IsIPv4. destruct (net_ParseCIDR s) as [[ip net]|]; [|discriminate].
    by rewrite (Hparse ip net).
  - unfold IsIPv6CIDR, IsIPv6. destruct (net_ParseCIDR s) as [[ip net]|]; [|discriminate].
    by rewrite (Hparse ip net).
  - intros a b c d n Hb Hn ->. split.
    + unfold IsIPv4CIDR. rewrite ParseCIDR_cidr_of by done. by rewrite To4_v4InV6.
    + unfold StripCIDR, strings_Cut, cidr_of. rewrite !chars_app. cbn [chars app].
      rewrite cut_list_app by by apply ip4_String_no_slash. apply str_chars.
Qed.
