(* ===== verification/LibvirtXML.v ===== *)
(** * The libvirtxml documents the program reads and writes

    [libvirt.org/go/libvirtxml] is a library of plain structs with XML
    (un)marshalling.  The records hold the fields the program uses, under their
    library names; a pointer field is an [option].  Marshalling itself is the
    library's: class [LibvirtXML] has one operation for each call the program
    makes. *)

From stdpp Require Import base list strings.
From Stdlib Require Import ZArith.
From S2P Require Import Prelude.

(** ** Networks *)

Record NetworkDHCPHost := mkHost {
  host_MAC : string;
  host_Name : string;
  host_IP : string;
}.

Record NetworkDHCPRange := mkRange {
  range_Start : string;
  range_End : string;
}.

Record NetworkDHCP := mkDHCP {
  dhcp_Ranges : list NetworkDHCPRange;
  dhcp_Hosts : list NetworkDHCPHost;
}.

Record NetworkIP := mkNetworkIP {
  ip_Address : string;
  ip_Family : string;
  ip_Netmask : string;
  ip_DHCP : option NetworkDHCP;
}.

Record Network := mkNetwork {
  network_Name : string;
  network_IPs : list NetworkIP;
}.

(** A lease as [GetDHCPLeases] returns it. *)
Record NetworkDHCPLease := mkLease {
  lease_Mac : string;
  lease_IPaddr : string;
}.

(** ** Domains *)

Record DomainMemory := mkDomainMemory { memory_Value : Z; memory_Unit : string }.
Record DomainDisk := mkDomainDisk {
  disk_Device : string;
  disk_DriverName : string;
  disk_DriverType : string;
  disk_SourceFile : string;
  disk_TargetDev : string;
  disk_TargetBus : string;
  disk_ReadOnly : bool;
}.
Record DomainInterface := mkDomainInterface {
  iface_MAC : option string;
  iface_Network : string;
  iface_Model : string;
}.
Record DomainSerial := mkDomainSerial { serial_Port : Z }.
Record DomainConsole := mkDomainConsole { console_Type : string; console_Port : Z }.
Record DomainDeviceList := mkDeviceList {
  dev_Disks : list DomainDisk;
  dev_Interfaces : list DomainInterface;
  dev_Serials : list DomainSerial;
  dev_Consoles : list DomainConsole;
}.
Record Domain := mkDomain {
  dom_Type : string;
  dom_Name : string;
  dom_UUID : string;
  dom_Memory : DomainMemory;
  dom_VCPU : Z;
  dom_OSType : string;
  dom_OSArch : string;
  dom_BootDevices : list string;
  dom_Devices : DomainDeviceList;
}.

(** ** Storage volumes *)

Record StorageVolumeBackingStore := mkBackingStore {
  backing_Path : string;
  backing_Format : string;
}.
Record StorageVolume := mkStorageVolume {
  vol_Name : string;
  vol_Capacity : Z;
  vol_CapacityUnit : string;
  vol_Format : string;
  vol_BackingStore : option StorageVolumeBackingStore;
}.

(** ** Marshalling *)

Class LibvirtXML := {
  Network_Unmarshal : string -> result Network;
  NetworkDHCPHost_Marshal : NetworkDHCPHost -> result string;
  Domain_Marshal : Domain -> result string;
  StorageVolume_Marshal : StorageVolume -> result string;
}.

#[global] Instance NetworkDHCPHost_eq_dec : EqDecision NetworkDHCPHost.
Proof. solve_decision. Defined.
#[global] Instance NetworkDHCPRange_eq_dec : EqDecision NetworkDHCPRange.
Proof. solve_decision. Defined.
#[global] Instance NetworkDHCP_eq_dec : EqDecision NetworkDHCP.
Proof. solve_decision. Defined.
#[global] Instance NetworkIP_eq_dec : EqDecision NetworkIP.
Proof. solve_decision. Defined.
#[global] Instance Network_eq_dec : EqDecision Network.
Proof. solve_decision. Defined.
