(* ===== verification/Builders.v ===== *)
(** * XML builders (internal/libvirtclient/builders)

    A builder holds one document and each method updates it and returns the
    builder, so a chain of methods is a composition of functions on the
    document. *)

From stdpp Require Import base list strings.
From Stdlib Require Import ZArith.
From S2P Require Import Prelude LibvirtXML.

Local Open Scope Z_scope.

(** ** builders/domain.go *)

Definition DefaultDomainType : string := "kvm".
Definition DefaultMemoryMiB : Z := 1024.
Definition DefaultMemoryUnit : string := "MiB".
Definition DefaultCPU : Z := 1.
Definition DefaultOSType : string := "hvm".
Definition DefaultOSArch : string := "x86_64".
Definition DefaultDiskDriverName : string := "qemu".
Definition DefaultDiskFormat : string := "qcow2".
Definition DefaultDiskTarget : string := "vda".
Definition DefaultDiskBus : string := "virtio".
Definition DefaultNetworkName : string := "default".
Definition DefaultNetworkModel : string := "virtio".
Definition DefaultCloudInitDriverName : string := "qemu".
Definition DefaultCloudInitFormat : string := "raw".
Definition DefaultCloudInitBus : string := "sata".
Definition DefaultCloudInitTarget : string := "sda".
Definition DefaultBootDevHD : string := "hd".

Definition NewDomain (name : string) : Domain := {|
  dom_Type := DefaultDomainType;
  dom_Name := name;
  dom_UUID := "";
  dom_Memory := mkDomainMemory DefaultMemoryMiB DefaultMemoryUnit;
  dom_VCPU := DefaultCPU;
  dom_OSType := DefaultOSType;
  dom_OSArch := DefaultOSArch;
  dom_BootDevices := [DefaultBootDevHD];
  dom_Devices := mkDeviceList [] [] [] [];
|}.

Definition set_devices (f : DomainDeviceList -> DomainDeviceList) (b : Domain) : Domain :=
  mkDomain (dom_Type b) (dom_Name b) (dom_UUID b) (dom_Memory b) (dom_VCPU b) (dom_OSType b)
    (dom_OSArch b) (dom_BootDevices b) (f (dom_Devices b)).

Definition WithUUID (uuid : string) (b : Domain) : Domain :=
  mkDomain (dom_Type b) (dom_Name b) uuid (dom_Memory b) (dom_VCPU b) (dom_OSType b)
    (dom_OSArch b) (dom_BootDevices b) (dom_Devices b).

Definition WithMemoryMiB (memory : Z) (b : Domain) : Domain :=
  mkDomain (dom_Type b) (dom_Name b) (dom_UUID b) (mkDomainMemory memory DefaultMemoryUnit) (dom_VCPU b)
    (dom_OSType b) (dom_OSArch b) (dom_BootDevices b) (dom_Devices b).

Definition WithVCPU (vcpu : Z) (b : Domain) : Domain :=
  mkDomain (dom_Type b) (dom_Name b) (dom_UUID b) (dom_Memory b) vcpu (dom_OSType b)
    (dom_OSArch b) (dom_BootDevices b) (dom_Devices b).

Definition add_disk (d : DomainDisk) (l : DomainDeviceList) : DomainDeviceList :=
  mkDeviceList (dev_Disks l ++ [d]) (dev_Interfaces l) (dev_Serials l) (dev_Consoles l).

Definition WithDiskFile (path : string) : Domain -> Domain :=
  set_devices (add_disk {|
    disk_Device := "disk";
    disk_DriverName := DefaultDiskDriverName;
    disk_DriverType := DefaultDiskFormat;
    disk_SourceFile := path;
    disk_TargetDev := DefaultDiskTarget;
    disk_TargetBus := DefaultDiskBus;
    disk_ReadOnly := false;
  |}).

Definition WithCloudInitISO (path : string) : Domain -> Domain :=
  set_devices (add_disk {|
    disk_Device := "cdrom";
    disk_DriverName := DefaultCloudInitDriverName;
    disk_DriverType := DefaultCloudInitFormat;
    disk_SourceFile := path;
    disk_TargetDev := DefaultCloudInitTarget;
    disk_TargetBus := DefaultCloudInitBus;
    disk_ReadOnly := true;
  |}).

Definition WithNetwork (name mac : string) : Domain -> Domain :=
  set_devices (fun l =>
    let name' := if decide (name = "") then DefaultNetworkName else name in
    let iface := {|
      iface_MAC := if decide (mac = "") then None else Some mac;
      iface_Network := name';
      iface_Model := DefaultNetworkModel;
    |} in
    mkDeviceList (dev_Disks l) (dev_Interfaces l ++ [iface]) (dev_Serials l) (dev_Consoles l)).

Definition WithSerialConsole : Domain -> Domain :=
  set_devices (fun l =>
    let port := 0 in
    mkDeviceList (dev_Disks l) (dev_Interfaces l) (dev_Serials l ++ [mkDomainSerial port])
      (dev_Consoles l ++ [mkDomainConsole "serial" port])).

Definition DomainBuilder_Build (b : Domain) : Domain := b.
Definition DomainBuilder_Marshal `{LibvirtXML} (b : Domain) : result string := Domain_Marshal b.

(** ** builders/volume.go *)

Definition DefaultVolumeCapacityGiB : Z := 20.
Definition DefaultVolumeCapacityUnit : string := "G".
Definition DefaultVolumeFormat : string := "qcow2".
Definition RawVolumeFormat : string := "raw".

Definition NewVolume (name : string) : StorageVolume := {|
  vol_Name := name;
  vol_Capacity := DefaultVolumeCapacityGiB;
  vol_CapacityUnit := DefaultVolumeCapacityUnit;
  vol_Format := DefaultVolumeFormat;
  vol_BackingStore := None;
|}.

Definition WithRawType (b : StorageVolume) : StorageVolume :=
  mkStorageVolume (vol_Name b) (vol_Capacity b) (vol_CapacityUnit b) RawVolumeFormat (vol_BackingStore b).

Definition WithCapacity (size : Z) (unit : string) (b : StorageVolume) : StorageVolume :=
  mkStorageVolume (vol_Name b) size unit (vol_Format b) (vol_BackingStore b).

Definition WithBackingStore (path format : string) (b : StorageVolume) : StorageVolume :=
  mkStorageVolume (vol_Name b) (vol_Capacity b) (vol_CapacityUnit b) (vol_Format b)
    (Some (mkBackingStore path format)).

Definition VolumeBuilder_Build (b : StorageVolume) : StorageVolume := b.
Definition VolumeBuilder_Marshal `{LibvirtXML} (b : StorageVolume) : result string :=
  StorageVolume_Marshal b.
