(* ===== verification/Config.v ===== *)
(** * Connection and machine configuration (internal/libvirtclient/config.go,
    credential types of internal/libvirtclient/credentials.go)

    The configuration the controllers hand to the provider, and the names
    derived from it. *)

From stdpp Require Import base list strings.
From Stdlib Require Import ZArith Lia Ascii.
From S2P Require Import Prelude GoStrings Builders.

Local Open Scope Z_scope.

Record TLSCredentials := mkTLS {
  tls_CACert : string;
  tls_ClientCert : string;
  tls_ClientKey : string;
}.

Record SSHCredentials := mkSSH {
  ssh_PrivateKey : string;
  ssh_KnownHosts : string;
}.

Record Credentials := mkCredentials {
  creds_TLS : option TLSCredentials;
  creds_SSH : option SSHCredentials;
}.

Record InfraConfig := mkInfraConfig {
  infra_URI : string;
  infra_BasePool : string;
  infra_DomainPool : string;
  infra_Network : string;
  infra_Credentials : option Credentials;
}.

Record MachineConfig := mkMachineConfig {
  cfg_InfraConfig : InfraConfig;
  cfg_DomainName : string;
  cfg_DomainUUID : string;
  cfg_Hostname : string;
  cfg_BaseImage : string;
  cfg_MemoryMiB : Z;
  cfg_VCPU : Z;
  cfg_DiskSize : Z;
  cfg_UserData : string;
}.

#[global] Instance TLSCredentials_eq_dec : EqDecision TLSCredentials.
Proof. solve_decision. Defined.
#[global] Instance SSHCredentials_eq_dec : EqDecision SSHCredentials.
Proof. solve_decision. Defined.
#[global] Instance Credentials_eq_dec : EqDecision Credentials.
Proof. solve_decision. Defined.
#[global] Instance InfraConfig_eq_dec : EqDecision InfraConfig.
Proof. solve_decision. Defined.
#[global] Instance MachineConfig_eq_dec : EqDecision MachineConfig.
Proof. solve_decision. Defined.

(** The fields of the embedded [InfraConfig]. *)
Definition cfg_DomainPool (c : MachineConfig) : string := infra_DomainPool (cfg_InfraConfig c).
Definition cfg_BasePool (c : MachineConfig) : string := infra_BasePool (cfg_InfraConfig c).
Definition cfg_Network (c : MachineConfig) : string := infra_Network (cfg_InfraConfig c).

(** [cfg.Credentials = creds] and [cfg.UserData = data] *)
Definition set_Credentials (c : InfraConfig) (creds : option Credentials) : InfraConfig :=
  mkInfraConfig (infra_URI c) (infra_BasePool c) (infra_DomainPool c) (infra_Network c) creds.
Definition set_cfg_Credentials (c : MachineConfig) (creds : option Credentials) : MachineConfig :=
  mkMachineConfig (set_Credentials (cfg_InfraConfig c) creds) (cfg_DomainName c) (cfg_DomainUUID c)
    (cfg_Hostname c) (cfg_BaseImage c) (cfg_MemoryMiB c) (cfg_VCPU c) (cfg_DiskSize c) (cfg_UserData c).
Definition set_UserData (c : MachineConfig) (data : string) : MachineConfig :=
  mkMachineConfig (cfg_InfraConfig c) (cfg_DomainName c) (cfg_DomainUUID c)
    (cfg_Hostname c) (cfg_BaseImage c) (cfg_MemoryMiB c) (cfg_VCPU c) (cfg_DiskSize c) data.

(** ** Accessors of MachineConfig and InfraConfig *)

Definition MachineConfig_domainName (c : MachineConfig) : string := cfg_DomainName c.

Definition instanceID (c : MachineConfig) : string :=
  if decide (cfg_DomainUUID c = "") then cfg_DomainName c else cfg_DomainUUID c.

Definition hostname (c : MachineConfig) : string :=
  if decide (cfg_Hostname c = "") then cfg_DomainName c else cfg_Hostname c.

Definition domainDiskName (c : MachineConfig) : string := cfg_DomainName c +:+ ".qcow2".

Definition isoDiskName (c : MachineConfig) : string := "cloudinit-" +:+ cfg_DomainName c +:+ ".iso".

Definition memoryMiB (c : MachineConfig) : Z :=
  if cfg_MemoryMiB c =? 0 then DefaultMemoryMiB else cfg_MemoryMiB c.

Definition vCPU (c : MachineConfig) : Z :=
  if cfg_VCPU c =? 0 then DefaultCPU else cfg_VCPU c.

Definition diskSizeGiB (c : MachineConfig) : Z :=
  if cfg_DiskSize c =? 0 then DefaultVolumeCapacityGiB else cfg_DiskSize c.

Definition networkName (c : InfraConfig) : string := infra_Network c.
Definition basePoolName (c : InfraConfig) : string := infra_BasePool c.
Definition domainPoolName (c : InfraConfig) : string := infra_DomainPool c.

(** ** Volume names *)

Lemma app_inj_r s t u : s +:+ u = t +:+ u -> s = t.
Proof.
  intros H. apply (f_equal chars) in H. rewrite !chars_app in H.
  apply chars_inj. by apply app_inv_tail in H.
Qed.

Lemma root_iso_distinct c1 c2 : domainDiskName c1 <> isoDiskName c2.
Proof.
  unfold domainDiskName, isoDiskName. intros H.
  apply (f_equal (fun s => List.last (chars s) "0"%char)) in H.
  rewrite !chars_app in H. cbn [chars] in H.
  rewrite app_assoc in H.
  change ["."; "q"; "c"; "o"; "w"; "2"]%char with (["."; "q"; "c"; "o"; "w"]%char ++ ["2"%char]) in H.
  change ["."; "i"; "s"; "o"]%char with (["."; "i"; "s"]%char ++ ["o"%char]) in H.
  rewrite !app_assoc, !last_last in H. discriminate H.
Qed.

(** The two volumes of a machine never clash, not even with the volumes of
    another machine: a root disk name is never an ISO name, and each name
    determines the domain it belongs to. *)
Theorem volume_names_disjoint (c1 c2 : MachineConfig) :
  domainDiskName c1 <> isoDiskName c2 /\
  (domainDiskName c1 = domainDiskName c2 <-> cfg_DomainName c1 = cfg_DomainName c2) /\
  (isoDiskName c1 = isoDiskName c2 <-> cfg_DomainName c1 = cfg_DomainName c2).
Proof.
  split_and!; [apply root_iso_distinct|split; [|by intros H; unfold domainDiskName, isoDiskName; rewrite H]..].
  - apply app_inj_r.
  - unfold isoDiskName. intros H. apply (inj (String.app "cloudinit-")) in H. by apply app_inj_r in H.
Qed.
