(* ===== verification/Api.v ===== *)
(** * API objects (api/v1alpha1) and the Cluster API data the controllers read

    The records of api/v1alpha1 with the fields of the source, the condition and
    finalizer names of status.go, and, of the Kubernetes and Cluster API types,
    the fields the controllers use.  A Go pointer that may be nil is an
    [option]; a controller that mutates an object through its pointer is a
    function on the record, written with the setters below. *)

From stdpp Require Import base gmap list strings.
From Stdlib Require Import ZArith.
From S2P Require Import Prelude GoStrings.

Local Open Scope Z_scope.

(** ** Kubernetes metadata (k8s.io/apimachinery) *)

Record NamespacedName := mkNN { nn_Namespace : string; nn_Name : string }.
#[global] Instance NamespacedName_eq_dec : EqDecision NamespacedName.
Proof. solve_decision. Defined.
#[global] Instance NamespacedName_countable : Countable NamespacedName.
Proof.
  refine (inj_countable' (fun n => (nn_Namespace n, nn_Name n)) (fun p => mkNN p.1 p.2) _).
  by intros [].
Defined.
(** [NamespacedName.String()], which [%s] prints *)
Definition NamespacedName_String (n : NamespacedName) : string :=
  nn_Namespace n +:+ "/" +:+ nn_Name n.

Record OwnerReference := mkOwnerReference {
  owner_APIVersion : string;
  owner_Kind : string;
  owner_Name : string;
}.

(** [DeletionTimestamp] is a [*metav1.Time]; the time is counted from Go's zero
    time. *)
Record ObjectMeta := mkObjectMeta {
  meta_Name : string;
  meta_Namespace : string;
  meta_UID : string;
  meta_DeletionTimestamp : option Z;
  meta_Finalizers : list string;
  meta_Labels : gmap string string;
  meta_Annotations : gmap string string;
  meta_OwnerReferences : list OwnerReference;
}.

(** [(t *Time) IsZero()] *)
Definition Time_IsZero (t : option Z) : bool :=
  match t with None => true | Some x => x =? 0 end.

Inductive ConditionStatus := ConditionTrue | ConditionFalse | ConditionUnknown.
#[global] Instance ConditionStatus_eq_dec : EqDecision ConditionStatus.
Proof. solve_decision. Defined.

(** [metav1.Condition]; [cond_LastTransitionTime] is [None] for the zero time the
    controllers leave there. *)
Record Condition := mkCondition {
  cond_Type : string;
  cond_Status : ConditionStatus;
  cond_Reason : string;
  cond_Message : string;
  cond_LastTransitionTime : option Z;
}.
(** [metav1.Condition{Type: t, Status: s, Reason: r, Message: m}] *)
Definition newCondition (t : string) (s : ConditionStatus) (r m : string) : Condition :=
  mkCondition t s r m None.

(** ** Cluster API objects (sigs.k8s.io/cluster-api) *)

Record APIEndpoint := mkAPIEndpoint { endpoint_Host : string; endpoint_Port : Z }.
#[global] Instance APIEndpoint_eq_dec : EqDecision APIEndpoint.
Proof. solve_decision. Defined.

Record Cluster := mkCluster {
  cluster_ObjectMeta : ObjectMeta;
  cluster_Paused : option bool;
  cluster_ControlPlaneEndpoint : APIEndpoint;
  cluster_InfrastructureRefName : string;
  cluster_InfrastructureProvisioned : option bool;
}.

Record Machine := mkMachine {
  machine_ObjectMeta : ObjectMeta;
  machine_DataSecretName : option string;
}.

Inductive MachineAddressType := MachineInternalIP | MachineAddressOther (t : string).
Record MachineAddress := mkMachineAddress {
  addr_Type : MachineAddressType;
  addr_Address : string;
}.

(** ** status.go *)

Definition LibvirtClusterFinalizer : string := "libvirtcluster.infrastructure.cluster.x-k8s.io/finalizer".
Definition LibvirtMachineFinalizer : string := "libvirtmachine.infrastructure.cluster.x-k8s.io/finalizer".

Definition InfrastructureReadyCondition : string := "InfrastructureReady".
Definition InfrastructureProvisioningInProgressReason : string := "InfrastructureProvisioningInProgress".
Definition InfrastructureProvisioningFailedReason : string := "InfrastructureProvisioningFailed".
Definition InfrastructureReadyReason : string := "InfrastructureReady".
Definition InfrastructureMissingReason : string := "InfrastructureMissing".
Definition InfrastructureInactiveReason : string := "InfrastructureInactive".
Definition CredentialsUnavailableReason : string := "CredentialsUnavailable".

Definition ControlPlaneEndpointReadyCondition : string := "ControlPlaneEndpointReady".
Definition ControlPlaneEndpointReadyReason : string := "ControlPlaneEndpointReady".
Definition ControlPlaneEndpointMissingReason : string := "ControlPlaneEndpointMissing".

Definition MachineCreatedCondition : string := "MachineCreated".
Definition DomainProvisioningReadyCondition : string := "DomainProvisioningReady".
Definition DomainProvisioningInProgressReason : string := "DomainProvisioningInProgress".
Definition DomainProvisioningFailedReason : string := "DomainProvisioningFailed".
Definition DomainRunningCondition : string := "DomainRunning".
Definition DomainNotRunningReason : string := "DomainNotRunning".
Definition DomainNotFoundReason : string := "DomainNotFound".

(** ** libvirtcluster_types.go *)

Record CredentialsReference := mkCredentialsReference { credref_Name : string }.

Record LibvirtClusterSpec := mkLibvirtClusterSpec {
  cspec_URI : string;
  cspec_ControlPlaneEndpoint : APIEndpoint;
  cspec_BasePool : string;
  cspec_DomainPool : string;
  cspec_Network : string;
  cspec_CredentialsRef : option CredentialsReference;
}.

Record LibvirtClusterStatus := mkLibvirtClusterStatus {
  cstatus_Ready : bool;
  cstatus_Provisioned : bool;
  cstatus_Conditions : list Condition;
}.

Record LibvirtCluster := mkLibvirtCluster {
  lc_ObjectMeta : ObjectMeta;
  lc_Spec : LibvirtClusterSpec;
  lc_Status : LibvirtClusterStatus;
}.

Definition CredentialsCACertKey : string := "ca.crt".
Definition CredentialsKnownHostsKey : string := "known_hosts".

(** ** libvirtmachine_types.go *)

(** [VCPU], [MemoryMiB] and [DiskGiB] are [int32]. *)
Record LibvirtMachineSpec := mkLibvirtMachineSpec {
  mspec_ProviderID : option string;
  mspec_VCPU : Z;
  mspec_MemoryMiB : Z;
  mspec_DiskGiB : Z;
  mspec_Image : string;
}.

Record LibvirtMachineStatus := mkLibvirtMachineStatus {
  mstatus_Ready : bool;
  mstatus_Addresses : list MachineAddress;
  mstatus_Conditions : list Condition;
  mstatus_Provisioned : bool;
}.

Record LibvirtMachine := mkLibvirtMachine {
  lm_ObjectMeta : ObjectMeta;
  lm_Spec : LibvirtMachineSpec;
  lm_Status : LibvirtMachineStatus;
}.

(** ** Lists and templates

    The object lists of the API, without list metadata, and the templates of
    libvirtclustertemplate_types.go and libvirtmachinetemplate_types.go. *)
Record LibvirtClusterList := mkLibvirtClusterList { lcl_Items : list LibvirtCluster }.
Record LibvirtMachineList := mkLibvirtMachineList { lml_Items : list LibvirtMachine }.

(** [clusterv1.ObjectMeta]: the labels and annotations of the objects to make. *)
Record TemplateMeta := mkTemplateMeta {
  template_Labels : gmap string string;
  template_Annotations : gmap string string;
}.
Record LibvirtClusterTemplateResource := mkLibvirtClusterTemplateResource {
  lctr_ObjectMeta : TemplateMeta;
  lctr_Spec : LibvirtClusterSpec;
}.
Record LibvirtClusterTemplateSpec := mkLibvirtClusterTemplateSpec { lcts_Template : LibvirtClusterTemplateResource }.
Record LibvirtClusterTemplate := mkLibvirtClusterTemplate {
  lct_ObjectMeta : ObjectMeta;
  lct_Spec : LibvirtClusterTemplateSpec;
}.
Record LibvirtClusterTemplateList := mkLibvirtClusterTemplateList { lctl_Items : list LibvirtClusterTemplate }.
Record LibvirtMachineTemplateResource := mkLibvirtMachineTemplateResource {
  lmtr_ObjectMeta : TemplateMeta;
  lmtr_Spec : LibvirtMachineSpec;
}.
Record LibvirtMachineTemplateSpec := mkLibvirtMachineTemplateSpec { lmts_Template : LibvirtMachineTemplateResource }.
Record LibvirtMachineTemplate := mkLibvirtMachineTemplate {
  lmt_ObjectMeta : ObjectMeta;
  lmt_Spec : LibvirtMachineTemplateSpec;
}.
Record LibvirtMachineTemplateList := mkLibvirtMachineTemplateList { lmtl_Items : list LibvirtMachineTemplate }.

(** ** Objects with metadata and conditions

    The [client.Object] and [conditions.Setter] interfaces, as far as the
    controllers and the libraries they call need them. *)
Class Object (T : Type) := {
  GetObjectMeta : T -> ObjectMeta;
  SetObjectMeta : T -> ObjectMeta -> T;
}.
Class Setter (T : Type) := {
  GetConditions : T -> list Condition;
  SetConditions : T -> list Condition -> T;
}.

Definition LibvirtCluster_GetConditions (l : LibvirtCluster) : list Condition :=
  cstatus_Conditions (lc_Status l).
Definition LibvirtCluster_SetConditions (l : LibvirtCluster) (cs : list Condition) : LibvirtCluster :=
  mkLibvirtCluster (lc_ObjectMeta l) (lc_Spec l)
    (mkLibvirtClusterStatus (cstatus_Ready (lc_Status l)) (cstatus_Provisioned (lc_Status l)) cs).
#[global] Instance LibvirtCluster_Setter : Setter LibvirtCluster :=
  { GetConditions := LibvirtCluster_GetConditions; SetConditions := LibvirtCluster_SetConditions }.
#[global] Instance LibvirtCluster_Object : Object LibvirtCluster :=
  { GetObjectMeta := lc_ObjectMeta;
    SetObjectMeta l m := mkLibvirtCluster m (lc_Spec l) (lc_Status l) }.

Definition LibvirtMachine_GetConditions (l : LibvirtMachine) : list Condition :=
  mstatus_Conditions (lm_Status l).
Definition LibvirtMachine_SetConditions (l : LibvirtMachine) (cs : list Condition) : LibvirtMachine :=
  mkLibvirtMachine (lm_ObjectMeta l) (lm_Spec l)
    (mkLibvirtMachineStatus (mstatus_Ready (lm_Status l)) (mstatus_Addresses (lm_Status l)) cs
       (mstatus_Provisioned (lm_Status l))).
#[global] Instance LibvirtMachine_Setter : Setter LibvirtMachine :=
  { GetConditions := LibvirtMachine_GetConditions; SetConditions := LibvirtMachine_SetConditions }.
#[global] Instance LibvirtMachine_Object : Object LibvirtMachine :=
  { GetObjectMeta := lm_ObjectMeta;
    SetObjectMeta l m := mkLibvirtMachine m (lm_Spec l) (lm_Status l) }.

(** Assignments to one field of the status or spec. *)
Definition set_cReady (b : bool) (l : LibvirtCluster) : LibvirtCluster :=
  mkLibvirtCluster (lc_ObjectMeta l) (lc_Spec l)
    (mkLibvirtClusterStatus b (cstatus_Provisioned (lc_Status l)) (cstatus_Conditions (lc_Status l))).
Definition set_cProvisioned (b : bool) (l : LibvirtCluster) : LibvirtCluster :=
  mkLibvirtCluster (lc_ObjectMeta l) (lc_Spec l)
    (mkLibvirtClusterStatus (cstatus_Ready (lc_Status l)) b (cstatus_Conditions (lc_Status l))).

Definition set_mStatus (f : LibvirtMachineStatus -> LibvirtMachineStatus) (l : LibvirtMachine)
    : LibvirtMachine :=
  mkLibvirtMachine (lm_ObjectMeta l) (lm_Spec l) (f (lm_Status l)).
Definition set_mReady (b : bool) : LibvirtMachine -> LibvirtMachine :=
  set_mStatus (fun s => mkLibvirtMachineStatus b (mstatus_Addresses s) (mstatus_Conditions s)
                          (mstatus_Provisioned s)).
Definition set_mProvisioned (b : bool) : LibvirtMachine -> LibvirtMachine :=
  set_mStatus (fun s => mkLibvirtMachineStatus (mstatus_Ready s) (mstatus_Addresses s)
                          (mstatus_Conditions s) b).
Definition set_mAddresses (a : list MachineAddress) : LibvirtMachine -> LibvirtMachine :=
  set_mStatus (fun s => mkLibvirtMachineStatus (mstatus_Ready s) a (mstatus_Conditions s)
                          (mstatus_Provisioned s)).
Definition set_mProviderID (p : option string) (l : LibvirtMachine) : LibvirtMachine :=
  let s := lm_Spec l in
  mkLibvirtMachine (lm_ObjectMeta l)
    (mkLibvirtMachineSpec p (mspec_VCPU s) (mspec_MemoryMiB s) (mspec_DiskGiB s) (mspec_Image s))
    (lm_Status l).

(** [client.ObjectKeyFromObject(obj)] *)
Definition ObjectKeyFromObject {T} `{Object T} (o : T) : NamespacedName :=
  mkNN (meta_Namespace (GetObjectMeta o)) (meta_Name (GetObjectMeta o)).
