(* ===== verification/GoMemory.v ===== *)
(** * Go's memory: pointers, slices and what they lead to

    The rest of the development works on values.  Here memory is explicit, for the
    code whose point is which memory is shared: a memory maps addresses to blocks,
    and a block is an array of values of one Go type ([new(T)] makes a block of one
    value, [make([]T, n)] one of [n]).  The Go types are a parameter ([GoTypes]).

    [Mem] is code that reads and writes memory; [None] is a panic (a nil pointer, an
    index out of range).  [View] reads what a value stands for, following its
    pointers, together with the addresses it followed, its footprint. *)

From stdpp Require Import base gmap sets list.
From Stdlib Require Import Lia.
From S2P Require Import Prelude.

Class GoTypes := {
  Ty : Type;
  Ty_eq_dec :: EqDecision Ty;
  interp : Ty -> Type;
  (** The zero value of each type. *)
  zero : forall t, interp t;
}.

Definition addr := nat.

(** ** Memory *)

Section Memory.
Context {G : GoTypes}.

Inductive Block := mkBlock (t : Ty) (vs : list (interp t)).
Abbreviation Heap := (gmap addr Block).

(** The values of a block, if it has the type asked for. *)
Definition block_values (t : Ty) (b : Block) : option (list (interp t)) :=
  let '(mkBlock t' vs) := b in
  match decide (t' = t) with
  | left E => Some (eq_rect t' (fun t => list (interp t)) vs t E)
  | right _ => None
  end.

Lemma block_values_same t vs : block_values t (mkBlock t vs) = Some vs.
Proof. unfold block_values. by rewrite (decide_True_pi eq_refl). Qed.

Definition Mem (A : Type) : Type := Heap -> option (A * Heap).
#[export] Instance Mem_ret : MRet Mem := fun A a h => Some (a, h).
#[export] Instance Mem_bind : MBind Mem := fun A B f m h =>
  match m h with Some (a, h') => f a h' | None => None end.

(** [new] and [make] take an address that is not in use. *)
Definition alloc (t : Ty) (vs : list (interp t)) : Mem addr := fun h =>
  let a := fresh (dom h) in Some (a, <[a := mkBlock t vs]> h).
Definition new (t : Ty) : Mem addr := alloc t [zero t].

(** [a[i]] for the block at [a]; [*a] is [a[0]]. *)
Definition load (t : Ty) (a : addr) (i : nat) : Mem (interp t) := fun h =>
  b ← h !! a ; vs ← block_values t b ; v ← vs !! i ; Some (v, h).
Definition store (t : Ty) (a : addr) (i : nat) (v : interp t) : Mem unit := fun h =>
  b ← h !! a ; vs ← block_values t b ;
  if decide (i < length vs) then Some (tt, <[a := mkBlock t (<[i := v]> vs)]> h) else None.

(** A slice that is not nil: a window on the array at [sl_array]. *)
Record SliceHeader := mkSlice { sl_array : addr; sl_off : nat; sl_len : nat }.
Definition make (t : Ty) (n : nat) : Mem SliceHeader :=
  a ← alloc t (replicate n (zero t)) ; mret (mkSlice a 0 n).
Definition load_slice (t : Ty) (s : SliceHeader) (i : nat) : Mem (interp t) :=
  if decide (i < sl_len s) then load t (sl_array s) (sl_off s + i) else fun _ => None.
Definition store_slice (t : Ty) (s : SliceHeader) (i : nat) (v : interp t) : Mem unit :=
  if decide (i < sl_len s) then store t (sl_array s) (sl_off s + i) v else fun _ => None.

(** [for i := range n { body }] *)
Fixpoint for_range (idx : list nat) (body : nat -> Mem unit) : Mem unit :=
  match idx with [] => mret tt | i :: idx => body i ;; for_range idx body end.

(** The built-in [copy(dst, src)]. *)
Definition copy (t : Ty) (dst src : SliceHeader) : Mem unit :=
  for_range (seq 0 (sl_len dst `min` sl_len src)) (fun i => v ← load_slice t src i ; store_slice t dst i v).

(** The idioms of generated copies: [if in == nil { return nil }; out := new(T);
    in.DeepCopyInto(out); return out], and, for a slice that is not nil, [make] and a
    loop or the built-in [copy].  An argument [out *T] is the value to leave there. *)
Definition copy_ptr (t : Ty) (into : interp t -> Mem (interp t)) (p : option addr) : Mem (option addr) :=
  match p with
  | None => mret None
  | Some p => out ← new t ; v ← load t p 0 ; v ← into v ; store t out 0 v ;; mret (Some out)
  end.
Definition copy_each (t : Ty) (into : interp t -> Mem (interp t)) (s : option SliceHeader)
    : Mem (option SliceHeader) :=
  match s with
  | None => mret None
  | Some s =>
      out ← make t (sl_len s) ;
      for_range (seq 0 (sl_len s)) (fun i => v ← load_slice t s i ; v ← into v ; store_slice t out i v) ;;
      mret (Some out)
  end.
Definition copy_slice (t : Ty) (s : option SliceHeader) : Mem (option SliceHeader) :=
  match s with
  | None => mret None
  | Some s => out ← make t (sl_len s) ; copy t out s ;; mret (Some out)
  end.

(** ** What a value stands for *)

Definition View (A : Type) : Type := Heap -> option (A * gset addr).
#[export] Instance View_ret : MRet View := fun A a h => Some (a, ∅).
#[export] Instance View_bind : MBind View := fun A B f m h =>
  match m h with
  | Some (a, D) => match f a h with Some (b, D') => Some (b, D ∪ D') | None => None end
  | None => None
  end.

Definition look (t : Ty) (a : addr) (i : nat) : View (interp t) := fun h =>
  '(v, _) ← load t a i h ; Some (v, {[a]}).

(** What a pointer leads to, and what the elements of a slice are; nil is
    told apart from an empty slice. *)
Definition view_ptr {C} (t : Ty) (vw : interp t -> View C) (p : option addr) : View (option C) :=
  match p with None => mret None | Some a => v ← look t a 0 ; x ← vw v ; mret (Some x) end.
Fixpoint view_elems {C} (t : Ty) (vw : interp t -> View C) (a : addr) (idx : list nat) : View (list C) :=
  match idx with
  | [] => mret []
  | i :: idx => v ← look t a i ; x ← vw v ; xs ← view_elems t vw a idx ; mret (x :: xs)
  end.
Definition view_slice {C} (t : Ty) (vw : interp t -> View C) (s : option SliceHeader) : View (option (list C)) :=
  match s with
  | None => mret None
  | Some s => xs ← view_elems t vw (sl_array s) (seq (sl_off s) (sl_len s)) ; mret (Some xs)
  end.

(** ** Views depend on their footprint only *)

Definition agree (D : gset addr) (h h' : Heap) : Prop := forall a, a ∈ D -> h' !! a = h !! a.

Definition Local {A} (m : View A) : Prop := forall h x D,
  m h = Some (x, D) -> D ⊆ dom h /\ forall h', agree D h h' -> m h' = Some (x, D).

Lemma agree_union D1 D2 h h' : agree (D1 ∪ D2) h h' <-> agree D1 h h' /\ agree D2 h h'.
Proof. unfold agree. set_solver. Qed.
Lemma agree_sub D h h' : D ⊆ dom h -> h ⊆ h' -> agree D h h'.
Proof.
  intros HD Hs a Ha%HD. apply elem_of_dom in Ha as [b Hb]. rewrite Hb. by eapply lookup_weaken.
Qed.

Lemma view_bind_inv {A B} (m : View A) (f : A -> View B) h y D :
  (m ≫= f) h = Some (y, D) ->
  exists x D1 D2, m h = Some (x, D1) /\ f x h = Some (y, D2) /\ D = D1 ∪ D2.
Proof.
  unfold mbind, View_bind. destruct (m h) as [[x D1]|]; [|done].
  destruct (f x h) as [[y' D2]|] eqn:E; [|done]. intros [= <- <-]. eauto 8.
Qed.
Lemma view_bind {A B} (m : View A) (f : A -> View B) h x D1 y D2 :
  m h = Some (x, D1) -> f x h = Some (y, D2) -> (m ≫= f) h = Some (y, D1 ∪ D2).
Proof. unfold mbind, View_bind. by intros -> ->. Qed.

Lemma local_ret {A} (x : A) : Local (mret x).
Proof. intros h y D [= <- <-]. split; [set_solver|done]. Qed.
Lemma local_bind {A B} (m : View A) (f : A -> View B) :
  Local m -> (forall x, Local (f x)) -> Local (m ≫= f).
Proof.
  intros Hm Hf h y D (x & D1 & D2 & H1 & H2 & ->)%view_bind_inv.
  destruct (Hm _ _ _ H1) as [Hd1 Hl1], (Hf x _ _ _ H2) as [Hd2 Hl2].
  split; [set_solver|]. intros h' [Ha1 Ha2]%agree_union. eapply view_bind; auto.
Qed.
Lemma look_inv t a i h v D :
  look t a i h = Some (v, D) <->
  (exists vs, h !! a = Some (mkBlock t vs) /\ vs !! i = Some v) /\ D = {[a]}.
Proof.
  unfold look, load. split.
  - destruct (h !! a) as [[t' vs]|]; [|done]. simpl. destruct (decide (t' = t)) as [->|]; [|done].
    simpl. destruct (vs !! i) eqn:E; [|done]. intros [= <- <-]. eauto.
  - intros [(vs & -> & Hv) ->]. cbn [mbind option_bind]. rewrite block_values_same. simpl. by rewrite Hv.
Qed.
Lemma local_look t a i : Local (look t a i).
Proof.
  intros h v D [(vs & Ha & Hv) ->]%look_inv. split.
  - apply singleton_subseteq_l, elem_of_dom. eauto.
  - intros h' Hag. apply look_inv. split; [|done]. exists vs. split; [|done].
    rewrite Hag; [done|set_solver].
Qed.

Lemma local_ext {A} (m : View A) h h' x D :
  Local m -> m h = Some (x, D) -> h ⊆ h' -> m h' = Some (x, D).
Proof. intros Hm H Hs. destruct (Hm _ _ _ H) as [Hd Hl]. by apply Hl, agree_sub. Qed.
Lemma local_dom {A} (m : View A) h x D : Local m -> m h = Some (x, D) -> D ⊆ dom h.
Proof. intros Hm H. by destruct (Hm _ _ _ H). Qed.
End Memory.

Abbreviation Heap := (gmap addr Block).

Create HintDb local.
#[export] Hint Resolve local_ret local_look : local.
#[export] Hint Extern 4 (Local (_ ≫= _)) => apply local_bind; [|intros ?] : local.
#[export] Hint Extern 5 (Local (match ?x with _ => _ end)) => destruct x : local.

Section Copies.
Context {G : GoTypes}.

Lemma local_ptr {C} t (vw : interp t -> View C) p : (forall v, Local (vw v)) -> Local (view_ptr t vw p).
Proof. unfold view_ptr. auto with local. Qed.
Lemma local_elems {C} t (vw : interp t -> View C) a idx :
  (forall v, Local (vw v)) -> Local (view_elems t vw a idx).
Proof. intros Hvw. induction idx; simpl; auto 6 with local. Qed.
Lemma local_slice {C} t (vw : interp t -> View C) s : (forall v, Local (vw v)) -> Local (view_slice t vw s).
Proof. intros Hvw. unfold view_slice. destruct s; auto using local_elems with local. Qed.

(** ** Copies

    [Copies vw cp]: copying a value that stands for [x] returns, without touching
    what was there, a value that stands for [x] too and whose footprint is new. *)
Definition Copies {T C} (vw : T -> View C) (cp : T -> Mem T) : Prop := forall h v x D,
  vw v h = Some (x, D) ->
  exists v' h' D', cp v h = Some (v', h') /\ h ⊆ h' /\ vw v' h' = Some (x, D') /\ D' ## dom h.

Lemma mem_bind {A B} (m : Mem A) (f : A -> Mem B) h a h' : m h = Some (a, h') -> (m ≫= f) h = f a h'.
Proof. unfold mbind, Mem_bind. by intros ->. Qed.

Lemma alloc_spec t vs h : exists a, alloc t vs h = Some (a, <[a := mkBlock t vs]> h) /\ a ∉ dom h.
Proof. eexists. split; [reflexivity|apply is_fresh]. Qed.
Lemma load_spec t a i h vs v :
  h !! a = Some (mkBlock t vs) -> vs !! i = Some v -> load t a i h = Some (v, h).
Proof.
  intros Ha Hv. unfold load. rewrite Ha. cbn [mbind option_bind]. rewrite block_values_same.
  simpl. by rewrite Hv.
Qed.
Lemma store_spec t a i v h vs :
  h !! a = Some (mkBlock t vs) -> i < length vs ->
  store t a i v h = Some (tt, <[a := mkBlock t (<[i := v]> vs)]> h).
Proof.
  intros Ha Hi. unfold store. rewrite Ha. cbn [mbind option_bind]. rewrite block_values_same.
  simpl. by rewrite decide_True.
Qed.
Lemma fresh_sub (h h1 : Heap) a b : a ∉ dom h -> h ⊆ h1 -> h ⊆ <[a := b]> h1.
Proof. intros Ha Hs. apply insert_subseteq_r; [|done]. by apply not_elem_of_dom. Qed.
Lemma copies_ret {T C} (vw : T -> View C) : (forall v, exists x, vw v = mret x) -> Copies vw mret.
Proof.
  intros Hp h v x D. destruct (Hp v) as [y Hy]. rewrite Hy. intros [= <- <-].
  exists v, h, ∅. rewrite Hy. split_and!; [done..|set_solver].
Qed.

Section Block.
Context {C : Type} (t : Ty) (vw : interp t -> View C) (into : interp t -> Mem (interp t)).
Hypothesis (Hlocal : forall v, Local (vw v)) (Hinto : Copies vw into).

(** A value whose footprint does not meet the block at [q] survives a store there. *)
Lemma view_store h v x D q b : vw v h = Some (x, D) -> q ∉ D -> vw v (<[q := b]> h) = Some (x, D).
Proof.
  intros Hv Hq. destruct (Hlocal v _ _ _ Hv) as [_ Hl]. apply Hl. intros a Ha.
  rewrite lookup_insert_ne; [done|]. by intros ->.
Qed.

Lemma copies_ptr : Copies (view_ptr t vw) (copy_ptr t into).
Proof.
  intros h [a|] x D Hv; simpl in Hv.
  2: { injection Hv as <- <-. exists None, h, ∅. split_and!; [done..|set_solver]. }
  apply view_bind_inv in Hv as (v & D1 & D2 & [(vs & Ha & Hv0) ->]%look_inv & Hv & ->).
  apply view_bind_inv in Hv as (y & D3 & D4 & Hv & [= <- <-] & ->).
  destruct (alloc_spec t [zero t] h) as (q & Hnew & Hq).
  assert (Hs1 : h ⊆ <[q := mkBlock t [zero t]]> h) by by apply fresh_sub.
  destruct (Hinto _ v y D3 (local_ext _ _ _ _ _ (Hlocal v) Hv Hs1)) as (v' & h2 & D' & Hi & Hs2 & Hv' & HD').
  assert (Hq2 : h2 !! q = Some (mkBlock t [zero t])) by (eapply lookup_weaken, Hs2; by rewrite lookup_insert_eq).
  exists (Some q), (<[q := mkBlock t [v']]> h2), ({[q]} ∪ (D' ∪ ∅)). split_and!.
  - unfold copy_ptr, new. erewrite mem_bind by exact Hnew.
    erewrite mem_bind by (eapply load_spec; [eapply lookup_weaken|]; eassumption).
    erewrite mem_bind by exact Hi. by erewrite mem_bind by (apply (store_spec _ _ _ _ _ [zero t]); [done|simpl; lia]).
  - apply fresh_sub; [done|]. by etrans.
  - eapply view_bind; [|eapply view_bind; [|done]].
    + apply look_inv. split; [|done]. exists [v']. by rewrite lookup_insert_eq.
    + apply view_store; [done|]. set_solver.
  - rewrite dom_insert_L in HD'. set_solver.
Qed.
Lemma view_elems_inv a idx h xs D :
  view_elems t vw a idx h = Some (xs, D) ->
  Forall2 (fun i x => exists v E, look t a i h = Some (v, {[a]}) /\ vw v h = Some (x, E)) idx xs.
Proof.
  revert xs D. induction idx as [|i idx IH]; intros xs D Hv; [by injection Hv as <- <-|].
  apply view_bind_inv in Hv as (v & D1 & D2 & Hl & Hv & ->).
  pose proof Hl as [_ ->]%look_inv.
  apply view_bind_inv in Hv as (x & D3 & D4 & Hx & Hv & ->).
  apply view_bind_inv in Hv as (ys & D5 & D6 & Hys & [= <- <-] & ->). constructor; eauto.
Qed.
Lemma view_elems_intro a idx h xs S :
  a ∉ S ->
  Forall2 (fun i x => exists v E, look t a i h = Some (v, {[a]}) /\ vw v h = Some (x, E) /\ E ## S) idx xs ->
  exists D, view_elems t vw a idx h = Some (xs, D) /\ D ## S.
Proof.
  intros Ha. induction 1 as [|i x idx xs (v & E & Hl & Hx & HE) _ (D & HD & HS)]; simpl.
  - exists ∅. split; [done|set_solver].
  - eexists. split; [eapply view_bind, view_bind, view_bind; done|]. set_solver.
Qed.

(** Memory kept everywhere but at [q]. *)
Definition ext (q : addr) (h h' : Heap) : Prop := forall a b, a <> q -> h !! a = Some b -> h' !! a = Some b.
Lemma ext_view q h h' v x D : ext q h h' -> vw v h = Some (x, D) -> q ∉ D -> vw v h' = Some (x, D).
Proof.
  intros He Hv Hq. destruct (Hlocal v _ _ _ Hv) as [Hd Hl]. apply Hl. intros a Ha.
  pose proof (Hd _ Ha) as [b Hb]%elem_of_dom. rewrite Hb. apply He; [by intros ->|done].
Qed.
Lemma ext_trans q h1 h2 h3 : ext q h1 h2 -> ext q h2 h3 -> ext q h1 h3.
Proof. unfold ext. auto. Qed.
Lemma ext_store q (h h' : Heap) b : h ⊆ h' -> ext q h (<[q := b]> h').
Proof. intros Hs a c Ha Hc. rewrite lookup_insert_ne by done. by eapply lookup_weaken. Qed.
Lemma ext_sub q h h' : q ∉ dom h -> ext q h h' <-> h ⊆ h'.
Proof.
  intros Hq. rewrite map_subseteq_spec. split; intros He a b; [|auto].
  intros Hb. apply He; [|done]. intros ->. by apply Hq, elem_of_dom.
Qed.

Definition copy_body (s d : SliceHeader) (i : nat) : Mem unit :=
  v ← load_slice t s i ; v ← into v ; store_slice t d i v.

(** The loop from index [k] on, into the array at [q]. *)
Lemma copy_loop s q h0 xs : q ∉ dom h0 -> forall k h vs,
  h0 ⊆ h -> h !! q = Some (mkBlock t vs) -> length vs = sl_len s -> k + length xs = length vs ->
  Forall2 (fun i x => exists v E, look t (sl_array s) i h0 = Some (v, {[sl_array s]}) /\ vw v h0 = Some (x, E))
    (seq (sl_off s + k) (length xs)) xs ->
  exists h' vs', for_range (seq k (length xs)) (copy_body s (mkSlice q 0 (sl_len s))) h = Some (tt, h') /\
    ext q h h' /\ h' !! q = Some (mkBlock t vs') /\ (forall j, j < k -> vs' !! j = vs !! j) /\
    Forall2 (fun i x => exists v E, vs' !! i = Some v /\ vw v h' = Some (x, E) /\ E ## dom h0)
      (seq k (length xs)) xs.
Proof.
  intros Hq. induction xs as [|x xs IH]; intros k h vs Hs Hvs Hlen Hk Hsrc.
  { exists h, vs. split_and!; [done|by intros ?|done|done|constructor]. }
  simpl in *. apply Forall2_cons in Hsrc as [(v & E & Hl & Hx) Hrest].
  apply look_inv in Hl as [(ws & Ha & Hw) _].
  destruct (Hinto h v x E) as (v' & h2 & E' & Hi & Hs2 & Hv' & HE'); [by eapply local_ext|].
  assert (Hq2 : h2 !! q = Some (mkBlock t vs)) by by eapply lookup_weaken.
  assert (HqE : q ∉ E') by (intros ?; eapply HE'; [done|]; by apply elem_of_dom).
  set (h3 := <[q := mkBlock t (<[k := v']> vs)]> h2).
  destruct (IH (S k) h3 (<[k := v']> vs)) as (h' & vs' & Hrun & Hext & Hq' & Hkeep & Hall).
  - apply fresh_sub; [done|]. by etrans.
  - apply lookup_insert_eq.
  - by rewrite length_insert.
  - rewrite length_insert. lia.
  - by rewrite <- Nat.add_succ_r in Hrest.
  - exists h', vs'. split_and!; [| |done| |].
    + assert (Hb : copy_body s (mkSlice q 0 (sl_len s)) k h = Some (tt, h3)).
      { unfold copy_body, load_slice, store_slice. rewrite decide_True by lia. simpl.
        erewrite mem_bind by (eapply load_spec, Hw; by eapply lookup_weaken).
        erewrite mem_bind by exact Hi. rewrite decide_True by lia. apply store_spec; [done|lia]. }
      by erewrite mem_bind by exact Hb.
    + eapply ext_trans, Hext. by apply ext_store.
    + intros j Hj. rewrite Hkeep by lia. by rewrite list_lookup_insert_ne by lia.
    + constructor; [|done]. exists v', E'. split_and!.
      * rewrite Hkeep by lia. by rewrite list_lookup_insert_eq by lia.
      * eapply ext_view; [exact Hext| |done]. by apply view_store.
      * apply subseteq_dom in Hs. set_solver.
Qed.
Lemma copies_each : Copies (view_slice t vw) (copy_each t into).
Proof.
  intros h [s|] x D Hv; simpl in Hv.
  2: { injection Hv as <- <-. exists None, h, ∅. split_and!; [done..|set_solver]. }
  apply view_bind_inv in Hv as (xs & D1 & D2 & Hxs%view_elems_inv & [= <- <-] & ->).
  pose proof (Forall2_length _ _ _ Hxs) as Hn. rewrite length_seq in Hn.
  destruct (alloc_spec t (replicate (sl_len s) (zero t)) h) as (q & Hnew & Hq).
  edestruct (copy_loop s q h xs Hq 0) as (h' & vs' & Hrun & Hext & Hq' & _ & Hall).
  - by apply fresh_sub.
  - apply lookup_insert_eq.
  - by rewrite length_replicate.
  - by rewrite length_replicate.
  - by rewrite Nat.add_0_r, <- Hn.
  - destruct (view_elems_intro q (seq 0 (length xs)) h' xs (dom h)) as (D & HD & HS); [done| |].
    { eapply Forall2_impl; [exact Hall|]. intros i x (v & E & Hi & Hx & HE). exists v, E.
      split_and!; [|done..]. apply look_inv. eauto. }
    exists (Some (mkSlice q 0 (sl_len s))), h', (D ∪ ∅). split_and!.
    + unfold copy_each, make. erewrite mem_bind by (by erewrite mem_bind by exact Hnew).
      rewrite Hn. rewrite Hn in Hrun. by erewrite mem_bind by exact Hrun.
    + apply (ext_sub q); [done|]. eapply ext_trans, Hext. by apply ext_store.
    + simpl. eapply view_bind; [|done]. by rewrite Hn.
    + set_solver.
Qed.
End Block.

(** [copy] is the loop whose body only assigns. *)
Lemma copies_slice {C} t (vw : interp t -> View C) :
  (forall v, exists x, vw v = mret x) -> Copies (view_slice t vw) (copy_slice t).
Proof.
  intros Hp.
  assert (Hl : forall v, Local (vw v)) by (intros v; destruct (Hp v) as [x ->]; auto with local).
  intros h v x D Hv. destruct (copies_each t vw mret Hl (copies_ret vw Hp) h v x D Hv) as (v' & h' & D' & He & Hr).
  exists v', h', D'. split; [|done]. rewrite <- He. destruct v as [s|]; [|done].
  unfold copy_slice, copy_each, make.
  destruct (alloc_spec t (replicate (sl_len s) (zero t)) h) as (q & Hnew & _).
  do 2 (erewrite mem_bind by (by erewrite mem_bind by exact Hnew); symmetry).
  unfold copy. simpl. by rewrite Nat.min_id.
Qed.

(** ** Copying a struct field by field

    [CopyRun h0 h m vw x]: [m], run at [h], which extends the memory [h0] the copy
    started from, leaves a value that stands for [x] outside [h0]. *)
Definition CopyRun {T C} (h0 h : Heap) (m : Mem T) (vw : T -> View C) (x : C) : Prop :=
  exists v' h' D', m h = Some (v', h') /\ h ⊆ h' /\ vw v' h' = Some (x, D') /\ D' ## dom h0.

Lemma copies_run {T C} (vw : T -> View C) cp :
  (forall h v x D, vw v h = Some (x, D) -> CopyRun h h (cp v) vw x) -> Copies vw cp.
Proof. auto. Qed.
Lemma copyrun_field {P Y T C} (vwP : P -> View Y) (cp : P -> Mem P) (k : P -> Mem T) (vw : T -> View C) h0 h p y D x :
  vwP p h0 = Some (y, D) -> Copies vwP cp -> (forall v, Local (vwP v)) -> h0 ⊆ h ->
  (forall p' h1 D1, h ⊆ h1 -> vwP p' h1 = Some (y, D1) -> D1 ## dom h0 -> CopyRun h0 h1 (k p') vw x) ->
  CopyRun h0 h (cp p ≫= k) vw x.
Proof.
  intros Hp Hcp Hl Hs Hk.
  destruct (Hcp h p y D) as (p' & h1 & D1 & Hrun & Hs1 & Hp' & HD); [by eapply local_ext|].
  destruct (Hk p' h1 D1) as (v' & h2 & D2 & Hrun2 & Hs2 & Hv' & HD2); [done..| |].
  { apply subseteq_dom in Hs. set_solver. }
  exists v', h2, D2. split_and!; [|by etrans|done|done]. by erewrite mem_bind by exact Hrun.
Qed.
Lemma copyrun_ret {T C} (h0 h : Heap) (v : T) (vw : T -> View C) x D :
  vw v h = Some (x, D) -> D ## dom h0 -> CopyRun h0 h (mret v) vw x.
Proof. intros Hv HD. by exists v, h, D. Qed.
End Copies.
#[export] Hint Resolve local_elems : local.
#[export] Hint Extern 1 (Local (view_ptr _ _ _)) => apply local_ptr; intros ? : local.
#[export] Hint Extern 1 (Local (view_slice _ _ _)) => apply local_slice; intros ? : local.

(** [copies_struct]: the copy of a struct is good when the copies of its fields are;
    the facts on the fields are in the databases [copies] and [local]. *)
Create HintDb copies.
#[export] Hint Extern 2 (Copies (view_ptr _ _) _) => apply copies_ptr; [intros ?; auto with local|] : copies.
#[export] Hint Extern 2 (Copies (view_slice _ _) _) => apply copies_each; [intros ?; auto with local|] : copies.
Ltac view_inv H :=
  lazymatch type of H with
  | (_ ≫= _) _ = Some _ =>
      let E := fresh "Hf" in apply view_bind_inv in H as (? & ? & ? & E & H & ->); view_inv H
  | mret _ _ = Some _ => injection H as <- <-
  end.
(** The view of a struct at [h] from the views of its fields at memories before it. *)
Ltac view_fields :=
  lazymatch goal with
  | |- (_ ≫= _) ?h = Some _ =>
      eapply view_bind;
      [ eapply local_ext;
        [ solve [auto with local]
        | match goal with H : _ _ _ = Some (_, _) |- _ => exact H end
        | repeat (first [done | etrans; [eassumption|]]) ]
      | view_fields ]
  | |- mret _ _ = Some _ => reflexivity
  end.
Ltac copies_struct :=
  refine (copies_run _ _ _); let Hv := fresh "Hv" in intros h v x D Hv; cbv beta in Hv |- *; view_inv Hv;
  repeat (eapply copyrun_field;
    [ eassumption | solve [eauto with copies local] | solve [intros ?; auto with local]
    | repeat (first [done | etrans; [eassumption|]]) | intros ?p' ?h1 ?D1 ?Hs ?Hf ?Hd ]);
  eapply copyrun_ret; [cbv beta; view_fields | set_solver].
