(* ===== verification/DeepCopy.v ===== *)
(** * The API types in memory, and their deep copies (zz_generated.deepcopy.go)

    Elsewhere an API object is a value.  Here it is what Go keeps: structs with
    pointers and slices.  Each struct of api/v1alpha1 is written once, for two ways
    of reading its pointers (a [Mode]): in [memory] a pointer is an address and a
    slice a window on an array; a [value] has the contents in their place.

    [metav1.ObjectMeta], [metav1.ListMeta], [metav1.Condition] and Cluster API's
    [ObjectMeta] belong to libraries: their layout in memory, what it stands for and
    their own [DeepCopyInto] are parameters ([LibTypes], [LibCopy]), and that the
    latter are deep copies is a law ([LibCopyLaws]). *)

From stdpp Require Import base gmap sets list strings.
From Stdlib Require Import ZArith.
From S2P Require Import Prelude Api GoMemory.

Local Open Scope Z_scope.

(** ** The structs *)

Record Mode := mkMode {
  Ptr : Type -> Type;
  Slice : Type -> Type;
  MObjectMeta : Type;
  MListMeta : Type;
  MTemplateMeta : Type;
  MCondition : Type;
}.

Record TypeMeta := mkTypeMeta { tm_Kind : string; tm_APIVersion : string }.
Record GoLibvirtClusterInitializationStatus := mkGoClusterInit { gci_Provisioned : bool }.
Record GoLibvirtMachineInitializationStatus := mkGoMachineInit { gmi_Provisioned : bool }.

Set Implicit Arguments.
Section Structs.
Context (K : Mode).

Record GoLibvirtClusterSpec := mkGoClusterSpec {
  gcs_URI : string;
  gcs_ControlPlaneEndpoint : APIEndpoint;
  gcs_BasePool : string;
  gcs_DomainPool : string;
  gcs_Network : string;
  gcs_CredentialsRef : Ptr K CredentialsReference;
}.
Record GoLibvirtClusterStatus := mkGoClusterStatus {
  gct_Ready : bool;
  gct_Initialization : GoLibvirtClusterInitializationStatus;
  gct_Conditions : Slice K (MCondition K);
}.
Record GoLibvirtCluster := mkGoCluster {
  gc_TypeMeta : TypeMeta;
  gc_ObjectMeta : MObjectMeta K;
  gc_Spec : GoLibvirtClusterSpec;
  gc_Status : GoLibvirtClusterStatus;
}.
Record GoLibvirtClusterList := mkGoClusterList {
  gcl_TypeMeta : TypeMeta;
  gcl_ListMeta : MListMeta K;
  gcl_Items : Slice K GoLibvirtCluster;
}.
Record GoLibvirtClusterTemplateResource := mkGoClusterTemplateResource {
  gctr_ObjectMeta : MTemplateMeta K;
  gctr_Spec : GoLibvirtClusterSpec;
}.
Record GoLibvirtClusterTemplateSpec := mkGoClusterTemplateSpec {
  gcts_Template : GoLibvirtClusterTemplateResource;
}.
Record GoLibvirtClusterTemplate := mkGoClusterTemplate {
  gctm_TypeMeta : TypeMeta;
  gctm_ObjectMeta : MObjectMeta K;
  gctm_Spec : GoLibvirtClusterTemplateSpec;
}.
Record GoLibvirtClusterTemplateList := mkGoClusterTemplateList {
  gctl_TypeMeta : TypeMeta;
  gctl_ListMeta : MListMeta K;
  gctl_Items : Slice K GoLibvirtClusterTemplate;
}.

(** [VCPU], [MemoryMiB] and [DiskGiB] are [int32]. *)
Record GoLibvirtMachineSpec := mkGoMachineSpec {
  gms_ProviderID : Ptr K string;
  gms_VCPU : Z;
  gms_MemoryMiB : Z;
  gms_DiskGiB : Z;
  gms_Image : string;
}.
Record GoLibvirtMachineStatus := mkGoMachineStatus {
  gmt_Ready : bool;
  gmt_Addresses : Slice K MachineAddress;
  gmt_Conditions : Slice K (MCondition K);
  gmt_Initialization : GoLibvirtMachineInitializationStatus;
}.
Record GoLibvirtMachine := mkGoMachine {
  gm_TypeMeta : TypeMeta;
  gm_ObjectMeta : MObjectMeta K;
  gm_Spec : GoLibvirtMachineSpec;
  gm_Status : GoLibvirtMachineStatus;
}.
Record GoLibvirtMachineList := mkGoMachineList {
  gml_TypeMeta : TypeMeta;
  gml_ListMeta : MListMeta K;
  gml_Items : Slice K GoLibvirtMachine;
}.
Record GoLibvirtMachineTemplateResource := mkGoMachineTemplateResource {
  gmtr_ObjectMeta : MTemplateMeta K;
  gmtr_Spec : GoLibvirtMachineSpec;
}.
Record GoLibvirtMachineTemplateSpec := mkGoMachineTemplateSpec {
  gmts_Template : GoLibvirtMachineTemplateResource;
}.
Record GoLibvirtMachineTemplate := mkGoMachineTemplate {
  gmtm_TypeMeta : TypeMeta;
  gmtm_ObjectMeta : MObjectMeta K;
  gmtm_Spec : GoLibvirtMachineTemplateSpec;
}.
Record GoLibvirtMachineTemplateList := mkGoMachineTemplateList {
  gmtl_TypeMeta : TypeMeta;
  gmtl_ListMeta : MListMeta K;
  gmtl_Items : Slice K GoLibvirtMachineTemplate;
}.
End Structs.
Unset Implicit Arguments.

(** ** The types in memory *)

(** The types with generated methods. *)
Inductive StructTy :=
  | SCredentialsReference
  | SLibvirtCluster | SLibvirtClusterInitializationStatus | SLibvirtClusterList | SLibvirtClusterSpec
  | SLibvirtClusterStatus | SLibvirtClusterTemplate | SLibvirtClusterTemplateList
  | SLibvirtClusterTemplateResource | SLibvirtClusterTemplateSpec
  | SLibvirtMachine | SLibvirtMachineInitializationStatus | SLibvirtMachineList | SLibvirtMachineSpec
  | SLibvirtMachineStatus | SLibvirtMachineTemplate | SLibvirtMachineTemplateList
  | SLibvirtMachineTemplateResource | SLibvirtMachineTemplateSpec.
#[global] Instance StructTy_eq_dec : EqDecision StructTy.
Proof. solve_decision. Defined.

Definition struct (K : Mode) (s : StructTy) : Type :=
  match s with
  | SCredentialsReference => CredentialsReference
  | SLibvirtCluster => GoLibvirtCluster K
  | SLibvirtClusterInitializationStatus => GoLibvirtClusterInitializationStatus
  | SLibvirtClusterList => GoLibvirtClusterList K
  | SLibvirtClusterSpec => GoLibvirtClusterSpec K
  | SLibvirtClusterStatus => GoLibvirtClusterStatus K
  | SLibvirtClusterTemplate => GoLibvirtClusterTemplate K
  | SLibvirtClusterTemplateList => GoLibvirtClusterTemplateList K
  | SLibvirtClusterTemplateResource => GoLibvirtClusterTemplateResource K
  | SLibvirtClusterTemplateSpec => GoLibvirtClusterTemplateSpec K
  | SLibvirtMachine => GoLibvirtMachine K
  | SLibvirtMachineInitializationStatus => GoLibvirtMachineInitializationStatus
  | SLibvirtMachineList => GoLibvirtMachineList K
  | SLibvirtMachineSpec => GoLibvirtMachineSpec K
  | SLibvirtMachineStatus => GoLibvirtMachineStatus K
  | SLibvirtMachineTemplate => GoLibvirtMachineTemplate K
  | SLibvirtMachineTemplateList => GoLibvirtMachineTemplateList K
  | SLibvirtMachineTemplateResource => GoLibvirtMachineTemplateResource K
  | SLibvirtMachineTemplateSpec => GoLibvirtMachineTemplateSpec K
  end.

(** The library types: in memory ([L], with their zero values) and as values ([V]).
    [LibCell] is what else the libraries keep in memory. *)
Class LibTypes := {
  LObjectMeta : Type; zero_ObjectMeta : LObjectMeta; VObjectMeta : Type;
  LListMeta : Type; zero_ListMeta : LListMeta; VListMeta : Type;
  LTemplateMeta : Type; zero_TemplateMeta : LTemplateMeta; VTemplateMeta : Type;
  LCondition : Type; zero_Condition : LCondition; VCondition : Type;
  LibCell : Type; zero_LibCell : LibCell;
}.

Inductive GoTy := TStruct (s : StructTy) | TString | TMachineAddress | TCondition | TLib.
#[global] Instance GoTy_eq_dec : EqDecision GoTy.
Proof. solve_decision. Defined.

Section Layout.
Context {L : LibTypes}.

Definition memory : Mode := {|
  Ptr _ := option addr; Slice _ := option SliceHeader;
  MObjectMeta := LObjectMeta; MListMeta := LListMeta; MTemplateMeta := LTemplateMeta; MCondition := LCondition |}.
Definition value : Mode := {|
  Ptr A := option A; Slice A := option (list A);
  MObjectMeta := VObjectMeta; MListMeta := VListMeta; MTemplateMeta := VTemplateMeta; MCondition := VCondition |}.

Definition go_interp (t : GoTy) : Type :=
  match t with
  | TStruct s => struct memory s
  | TString => string
  | TMachineAddress => MachineAddress
  | TCondition => LCondition
  | TLib => LibCell
  end.

Definition zero_ClusterSpec : GoLibvirtClusterSpec memory := @mkGoClusterSpec memory "" (mkAPIEndpoint "" 0) "" "" "" None.
Definition zero_ClusterStatus : GoLibvirtClusterStatus memory := @mkGoClusterStatus memory false (mkGoClusterInit false) None.
Definition zero_Cluster : GoLibvirtCluster memory :=
  @mkGoCluster memory (mkTypeMeta "" "") zero_ObjectMeta zero_ClusterSpec zero_ClusterStatus.
Definition zero_MachineSpec : GoLibvirtMachineSpec memory := @mkGoMachineSpec memory None 0 0 0 "".
Definition zero_MachineStatus : GoLibvirtMachineStatus memory :=
  @mkGoMachineStatus memory false None None (mkGoMachineInit false).
Definition zero_Machine : GoLibvirtMachine memory :=
  @mkGoMachine memory (mkTypeMeta "" "") zero_ObjectMeta zero_MachineSpec zero_MachineStatus.
Definition zero_ClusterTemplateResource : GoLibvirtClusterTemplateResource memory :=
  @mkGoClusterTemplateResource memory zero_TemplateMeta zero_ClusterSpec.
Definition zero_MachineTemplateResource : GoLibvirtMachineTemplateResource memory :=
  @mkGoMachineTemplateResource memory zero_TemplateMeta zero_MachineSpec.

Definition zero_struct (s : StructTy) : struct memory s :=
  let tm := mkTypeMeta "" "" in
  match s with
  | SCredentialsReference => mkCredentialsReference ""
  | SLibvirtCluster => zero_Cluster
  | SLibvirtClusterInitializationStatus => mkGoClusterInit false
  | SLibvirtClusterList => @mkGoClusterList memory tm zero_ListMeta None
  | SLibvirtClusterSpec => zero_ClusterSpec
  | SLibvirtClusterStatus => zero_ClusterStatus
  | SLibvirtClusterTemplate =>
      @mkGoClusterTemplate memory tm zero_ObjectMeta (mkGoClusterTemplateSpec zero_ClusterTemplateResource)
  | SLibvirtClusterTemplateList => @mkGoClusterTemplateList memory tm zero_ListMeta None
  | SLibvirtClusterTemplateResource => zero_ClusterTemplateResource
  | SLibvirtClusterTemplateSpec => mkGoClusterTemplateSpec zero_ClusterTemplateResource
  | SLibvirtMachine => zero_Machine
  | SLibvirtMachineInitializationStatus => mkGoMachineInit false
  | SLibvirtMachineList => @mkGoMachineList memory tm zero_ListMeta None
  | SLibvirtMachineSpec => zero_MachineSpec
  | SLibvirtMachineStatus => zero_MachineStatus
  | SLibvirtMachineTemplate =>
      @mkGoMachineTemplate memory tm zero_ObjectMeta (mkGoMachineTemplateSpec zero_MachineTemplateResource)
  | SLibvirtMachineTemplateList => @mkGoMachineTemplateList memory tm zero_ListMeta None
  | SLibvirtMachineTemplateResource => zero_MachineTemplateResource
  | SLibvirtMachineTemplateSpec => mkGoMachineTemplateSpec zero_MachineTemplateResource
  end.
Definition go_zero (t : GoTy) : go_interp t :=
  match t with
  | TStruct s => zero_struct s
  | TString => ""
  | TMachineAddress => mkMachineAddress (MachineAddressOther "") ""
  | TCondition => zero_Condition
  | TLib => zero_LibCell
  end.
#[export] Instance go_types : GoTypes := {| Ty := GoTy; interp := go_interp; zero := go_zero |}.
End Layout.

(** ** The libraries' copies *)

Class LibCopy `{LibTypes} := {
  view_ObjectMeta : LObjectMeta -> View VObjectMeta;
  ObjectMeta_DeepCopyInto : LObjectMeta -> Mem LObjectMeta;
  view_ListMeta : LListMeta -> View VListMeta;
  ListMeta_DeepCopyInto : LListMeta -> Mem LListMeta;
  view_TemplateMeta : LTemplateMeta -> View VTemplateMeta;
  TemplateMeta_DeepCopyInto : LTemplateMeta -> Mem LTemplateMeta;
  view_Condition : LCondition -> View VCondition;
  Condition_DeepCopyInto : LCondition -> Mem LCondition;
}.

(** They are deep copies: of the same value, in memory of its own. *)
Class LibCopyLaws `{LibCopy} : Prop := {
  local_ObjectMeta v : Local (view_ObjectMeta v);
  copies_ObjectMeta : Copies view_ObjectMeta ObjectMeta_DeepCopyInto;
  local_ListMeta v : Local (view_ListMeta v);
  copies_ListMeta : Copies view_ListMeta ListMeta_DeepCopyInto;
  local_TemplateMeta v : Local (view_TemplateMeta v);
  copies_TemplateMeta : Copies view_TemplateMeta TemplateMeta_DeepCopyInto;
  local_Condition v : Local (view_Condition v);
  copies_Condition : Copies view_Condition Condition_DeepCopyInto;
}.
(** ** The generated methods

    [DeepCopyInto(out)] is a function from [*in] to what it leaves in [*out]; it
    starts with [*out = *in], so a field that is not copied below is that of [in].
    [in] and [out] are different memory, as in every call of the program. *)

Section Generated.
Context {L : LibTypes} {LC : LibCopy}.

Definition CredentialsReference_DeepCopyInto (c : CredentialsReference) : Mem CredentialsReference := mret c.
Definition CredentialsReference_DeepCopy : option addr -> Mem (option addr) :=
  copy_ptr (TStruct SCredentialsReference) CredentialsReference_DeepCopyInto.
Definition LibvirtClusterInitializationStatus_DeepCopyInto (s : GoLibvirtClusterInitializationStatus) : Mem GoLibvirtClusterInitializationStatus := mret s.
Definition LibvirtClusterInitializationStatus_DeepCopy : option addr -> Mem (option addr) :=
  copy_ptr (TStruct SLibvirtClusterInitializationStatus) LibvirtClusterInitializationStatus_DeepCopyInto.
(** [**out = **in] is a copy that only assigns. *)
Definition LibvirtClusterSpec_DeepCopyInto (s : GoLibvirtClusterSpec memory) : Mem (GoLibvirtClusterSpec memory) :=
  ref ← copy_ptr (TStruct SCredentialsReference) mret (gcs_CredentialsRef s) ;
  mret (@mkGoClusterSpec memory (gcs_URI s) (gcs_ControlPlaneEndpoint s) (gcs_BasePool s) (gcs_DomainPool s)
          (gcs_Network s) ref).
Definition LibvirtClusterSpec_DeepCopy : option addr -> Mem (option addr) :=
  copy_ptr (TStruct SLibvirtClusterSpec) LibvirtClusterSpec_DeepCopyInto.
Definition LibvirtClusterStatus_DeepCopyInto (s : GoLibvirtClusterStatus memory) : Mem (GoLibvirtClusterStatus memory) :=
  conds ← copy_each TCondition Condition_DeepCopyInto (gct_Conditions s) ;
  mret (@mkGoClusterStatus memory (gct_Ready s) (gct_Initialization s) conds).
Definition LibvirtClusterStatus_DeepCopy : option addr -> Mem (option addr) :=
  copy_ptr (TStruct SLibvirtClusterStatus) LibvirtClusterStatus_DeepCopyInto.

Definition LibvirtCluster_DeepCopyInto (o : GoLibvirtCluster memory) : Mem (GoLibvirtCluster memory) :=
  meta ← ObjectMeta_DeepCopyInto (gc_ObjectMeta o) ;
  spec ← LibvirtClusterSpec_DeepCopyInto (gc_Spec o) ;
  status ← LibvirtClusterStatus_DeepCopyInto (gc_Status o) ;
  mret (@mkGoCluster memory (gc_TypeMeta o) meta spec status).
Definition LibvirtCluster_DeepCopy : option addr -> Mem (option addr) :=
  copy_ptr (TStruct SLibvirtCluster) LibvirtCluster_DeepCopyInto.
Definition LibvirtClusterList_DeepCopyInto (l : GoLibvirtClusterList memory) : Mem (GoLibvirtClusterList memory) :=
  meta ← ListMeta_DeepCopyInto (gcl_ListMeta l) ;
  items ← copy_each (TStruct SLibvirtCluster) LibvirtCluster_DeepCopyInto (gcl_Items l) ;
  mret (@mkGoClusterList memory (gcl_TypeMeta l) meta items).
Definition LibvirtClusterList_DeepCopy : option addr -> Mem (option addr) :=
  copy_ptr (TStruct SLibvirtClusterList) LibvirtClusterList_DeepCopyInto.

Definition LibvirtClusterTemplateResource_DeepCopyInto (r : GoLibvirtClusterTemplateResource memory)
    : Mem (GoLibvirtClusterTemplateResource memory) :=
  meta ← TemplateMeta_DeepCopyInto (gctr_ObjectMeta r) ;
  spec ← LibvirtClusterSpec_DeepCopyInto (gctr_Spec r) ;
  mret (@mkGoClusterTemplateResource memory meta spec).
Definition LibvirtClusterTemplateResource_DeepCopy : option addr -> Mem (option addr) :=
  copy_ptr (TStruct SLibvirtClusterTemplateResource) LibvirtClusterTemplateResource_DeepCopyInto.
Definition LibvirtClusterTemplateSpec_DeepCopyInto (s : GoLibvirtClusterTemplateSpec memory) : Mem (GoLibvirtClusterTemplateSpec memory) :=
  template ← LibvirtClusterTemplateResource_DeepCopyInto (gcts_Template s) ;
  mret (mkGoClusterTemplateSpec template).
Definition LibvirtClusterTemplateSpec_DeepCopy : option addr -> Mem (option addr) :=
  copy_ptr (TStruct SLibvirtClusterTemplateSpec) LibvirtClusterTemplateSpec_DeepCopyInto.
Definition LibvirtClusterTemplate_DeepCopyInto (o : GoLibvirtClusterTemplate memory) : Mem (GoLibvirtClusterTemplate memory) :=
  meta ← ObjectMeta_DeepCopyInto (gctm_ObjectMeta o) ;
  spec ← LibvirtClusterTemplateSpec_DeepCopyInto (gctm_Spec o) ;
  mret (@mkGoClusterTemplate memory (gctm_TypeMeta o) meta spec).
Definition LibvirtClusterTemplate_DeepCopy : option addr -> Mem (option addr) :=
  copy_ptr (TStruct SLibvirtClusterTemplate) LibvirtClusterTemplate_DeepCopyInto.
Definition LibvirtClusterTemplateList_DeepCopyInto (l : GoLibvirtClusterTemplateList memory) : Mem (GoLibvirtClusterTemplateList memory) :=
  meta ← ListMeta_DeepCopyInto (gctl_ListMeta l) ;
  items ← copy_each (TStruct SLibvirtClusterTemplate) LibvirtClusterTemplate_DeepCopyInto (gctl_Items l) ;
  mret (@mkGoClusterTemplateList memory (gctl_TypeMeta l) meta items).
Definition LibvirtClusterTemplateList_DeepCopy : option addr -> Mem (option addr) :=
  copy_ptr (TStruct SLibvirtClusterTemplateList) LibvirtClusterTemplateList_DeepCopyInto.

Definition LibvirtMachineInitializationStatus_DeepCopyInto (s : GoLibvirtMachineInitializationStatus) : Mem GoLibvirtMachineInitializationStatus := mret s.
Definition LibvirtMachineInitializationStatus_DeepCopy : option addr -> Mem (option addr) :=
  copy_ptr (TStruct SLibvirtMachineInitializationStatus) LibvirtMachineInitializationStatus_DeepCopyInto.
Definition LibvirtMachineSpec_DeepCopyInto (s : GoLibvirtMachineSpec memory) : Mem (GoLibvirtMachineSpec memory) :=
  id ← copy_ptr TString mret (gms_ProviderID s) ;
  mret (@mkGoMachineSpec memory id (gms_VCPU s) (gms_MemoryMiB s) (gms_DiskGiB s) (gms_Image s)).
Definition LibvirtMachineSpec_DeepCopy : option addr -> Mem (option addr) :=
  copy_ptr (TStruct SLibvirtMachineSpec) LibvirtMachineSpec_DeepCopyInto.
Definition LibvirtMachineStatus_DeepCopyInto (s : GoLibvirtMachineStatus memory) : Mem (GoLibvirtMachineStatus memory) :=
  addrs ← copy_slice TMachineAddress (gmt_Addresses s) ;
  conds ← copy_each TCondition Condition_DeepCopyInto (gmt_Conditions s) ;
  mret (@mkGoMachineStatus memory (gmt_Ready s) addrs conds (gmt_Initialization s)).
Definition LibvirtMachineStatus_DeepCopy : option addr -> Mem (option addr) :=
  copy_ptr (TStruct SLibvirtMachineStatus) LibvirtMachineStatus_DeepCopyInto.

Definition LibvirtMachine_DeepCopyInto (o : GoLibvirtMachine memory) : Mem (GoLibvirtMachine memory) :=
  meta ← ObjectMeta_DeepCopyInto (gm_ObjectMeta o) ;
  spec ← LibvirtMachineSpec_DeepCopyInto (gm_Spec o) ;
  status ← LibvirtMachineStatus_DeepCopyInto (gm_Status o) ;
  mret (@mkGoMachine memory (gm_TypeMeta o) meta spec status).
Definition LibvirtMachine_DeepCopy : option addr -> Mem (option addr) :=
  copy_ptr (TStruct SLibvirtMachine) LibvirtMachine_DeepCopyInto.
Definition LibvirtMachineList_DeepCopyInto (l : GoLibvirtMachineList memory) : Mem (GoLibvirtMachineList memory) :=
  meta ← ListMeta_DeepCopyInto (gml_ListMeta l) ;
  items ← copy_each (TStruct SLibvirtMachine) LibvirtMachine_DeepCopyInto (gml_Items l) ;
  mret (@mkGoMachineList memory (gml_TypeMeta l) meta items).
Definition LibvirtMachineList_DeepCopy : option addr -> Mem (option addr) :=
  copy_ptr (TStruct SLibvirtMachineList) LibvirtMachineList_DeepCopyInto.

Definition LibvirtMachineTemplateResource_DeepCopyInto (r : GoLibvirtMachineTemplateResource memory)
    : Mem (GoLibvirtMachineTemplateResource memory) :=
  meta ← TemplateMeta_DeepCopyInto (gmtr_ObjectMeta r) ;
  spec ← LibvirtMachineSpec_DeepCopyInto (gmtr_Spec r) ;
  mret (@mkGoMachineTemplateResource memory meta spec).
Definition LibvirtMachineTemplateResource_DeepCopy : option addr -> Mem (option addr) :=
  copy_ptr (TStruct SLibvirtMachineTemplateResource) LibvirtMachineTemplateResource_DeepCopyInto.
Definition LibvirtMachineTemplateSpec_DeepCopyInto (s : GoLibvirtMachineTemplateSpec memory) : Mem (GoLibvirtMachineTemplateSpec memory) :=
  template ← LibvirtMachineTemplateResource_DeepCopyInto (gmts_Template s) ;
  mret (mkGoMachineTemplateSpec template).
Definition LibvirtMachineTemplateSpec_DeepCopy : option addr -> Mem (option addr) :=
  copy_ptr (TStruct SLibvirtMachineTemplateSpec) LibvirtMachineTemplateSpec_DeepCopyInto.
Definition LibvirtMachineTemplate_DeepCopyInto (o : GoLibvirtMachineTemplate memory) : Mem (GoLibvirtMachineTemplate memory) :=
  meta ← ObjectMeta_DeepCopyInto (gmtm_ObjectMeta o) ;
  spec ← LibvirtMachineTemplateSpec_DeepCopyInto (gmtm_Spec o) ;
  mret (@mkGoMachineTemplate memory (gmtm_TypeMeta o) meta spec).
Definition LibvirtMachineTemplate_DeepCopy : option addr -> Mem (option addr) :=
  copy_ptr (TStruct SLibvirtMachineTemplate) LibvirtMachineTemplate_DeepCopyInto.
Definition LibvirtMachineTemplateList_DeepCopyInto (l : GoLibvirtMachineTemplateList memory) : Mem (GoLibvirtMachineTemplateList memory) :=
  meta ← ListMeta_DeepCopyInto (gmtl_ListMeta l) ;
  items ← copy_each (TStruct SLibvirtMachineTemplate) LibvirtMachineTemplate_DeepCopyInto (gmtl_Items l) ;
  mret (@mkGoMachineTemplateList memory (gmtl_TypeMeta l) meta items).
Definition LibvirtMachineTemplateList_DeepCopy : option addr -> Mem (option addr) :=
  copy_ptr (TStruct SLibvirtMachineTemplateList) LibvirtMachineTemplateList_DeepCopyInto.

(** A [runtime.Object] is nil or a pointer with its type; a nil pointer with a type
    would be an object that is not nil. *)
Definition runtime_Object := option (StructTy * option addr).
Definition DeepCopyObject_of (s : StructTy) (deepcopy : option addr -> Mem (option addr)) (p : option addr)
    : Mem runtime_Object :=
  c ← deepcopy p ;
  match c with Some c => mret (Some (s, Some c)) | None => mret None end.
Definition LibvirtCluster_DeepCopyObject : option addr -> Mem runtime_Object :=
  DeepCopyObject_of SLibvirtCluster LibvirtCluster_DeepCopy.
Definition LibvirtClusterList_DeepCopyObject : option addr -> Mem runtime_Object :=
  DeepCopyObject_of SLibvirtClusterList LibvirtClusterList_DeepCopy.
Definition LibvirtClusterTemplate_DeepCopyObject : option addr -> Mem runtime_Object :=
  DeepCopyObject_of SLibvirtClusterTemplate LibvirtClusterTemplate_DeepCopy.
Definition LibvirtClusterTemplateList_DeepCopyObject : option addr -> Mem runtime_Object :=
  DeepCopyObject_of SLibvirtClusterTemplateList LibvirtClusterTemplateList_DeepCopy.
Definition LibvirtMachine_DeepCopyObject : option addr -> Mem runtime_Object :=
  DeepCopyObject_of SLibvirtMachine LibvirtMachine_DeepCopy.
Definition LibvirtMachineList_DeepCopyObject : option addr -> Mem runtime_Object :=
  DeepCopyObject_of SLibvirtMachineList LibvirtMachineList_DeepCopy.
Definition LibvirtMachineTemplate_DeepCopyObject : option addr -> Mem runtime_Object :=
  DeepCopyObject_of SLibvirtMachineTemplate LibvirtMachineTemplate_DeepCopy.
Definition LibvirtMachineTemplateList_DeepCopyObject : option addr -> Mem runtime_Object :=
  DeepCopyObject_of SLibvirtMachineTemplateList LibvirtMachineTemplateList_DeepCopy.

(** The method of each type. *)
Definition DeepCopyInto (s : StructTy) : struct memory s -> Mem (struct memory s) :=
  match s with
  | SCredentialsReference => CredentialsReference_DeepCopyInto
  | SLibvirtCluster => LibvirtCluster_DeepCopyInto
  | SLibvirtClusterInitializationStatus => LibvirtClusterInitializationStatus_DeepCopyInto
  | SLibvirtClusterList => LibvirtClusterList_DeepCopyInto
  | SLibvirtClusterSpec => LibvirtClusterSpec_DeepCopyInto
  | SLibvirtClusterStatus => LibvirtClusterStatus_DeepCopyInto
  | SLibvirtClusterTemplate => LibvirtClusterTemplate_DeepCopyInto
  | SLibvirtClusterTemplateList => LibvirtClusterTemplateList_DeepCopyInto
  | SLibvirtClusterTemplateResource => LibvirtClusterTemplateResource_DeepCopyInto
  | SLibvirtClusterTemplateSpec => LibvirtClusterTemplateSpec_DeepCopyInto
  | SLibvirtMachine => LibvirtMachine_DeepCopyInto
  | SLibvirtMachineInitializationStatus => LibvirtMachineInitializationStatus_DeepCopyInto
  | SLibvirtMachineList => LibvirtMachineList_DeepCopyInto
  | SLibvirtMachineSpec => LibvirtMachineSpec_DeepCopyInto
  | SLibvirtMachineStatus => LibvirtMachineStatus_DeepCopyInto
  | SLibvirtMachineTemplate => LibvirtMachineTemplate_DeepCopyInto
  | SLibvirtMachineTemplateList => LibvirtMachineTemplateList_DeepCopyInto
  | SLibvirtMachineTemplateResource => LibvirtMachineTemplateResource_DeepCopyInto
  | SLibvirtMachineTemplateSpec => LibvirtMachineTemplateSpec_DeepCopyInto
  end.
Definition DeepCopy (s : StructTy) : option addr -> Mem (option addr) :=
  match s with
  | SCredentialsReference => CredentialsReference_DeepCopy
  | SLibvirtCluster => LibvirtCluster_DeepCopy
  | SLibvirtClusterInitializationStatus => LibvirtClusterInitializationStatus_DeepCopy
  | SLibvirtClusterList => LibvirtClusterList_DeepCopy
  | SLibvirtClusterSpec => LibvirtClusterSpec_DeepCopy
  | SLibvirtClusterStatus => LibvirtClusterStatus_DeepCopy
  | SLibvirtClusterTemplate => LibvirtClusterTemplate_DeepCopy
  | SLibvirtClusterTemplateList => LibvirtClusterTemplateList_DeepCopy
  | SLibvirtClusterTemplateResource => LibvirtClusterTemplateResource_DeepCopy
  | SLibvirtClusterTemplateSpec => LibvirtClusterTemplateSpec_DeepCopy
  | SLibvirtMachine => LibvirtMachine_DeepCopy
  | SLibvirtMachineInitializationStatus => LibvirtMachineInitializationStatus_DeepCopy
  | SLibvirtMachineList => LibvirtMachineList_DeepCopy
  | SLibvirtMachineSpec => LibvirtMachineSpec_DeepCopy
  | SLibvirtMachineStatus => LibvirtMachineStatus_DeepCopy
  | SLibvirtMachineTemplate => LibvirtMachineTemplate_DeepCopy
  | SLibvirtMachineTemplateList => LibvirtMachineTemplateList_DeepCopy
  | SLibvirtMachineTemplateResource => LibvirtMachineTemplateResource_DeepCopy
  | SLibvirtMachineTemplateSpec => LibvirtMachineTemplateSpec_DeepCopy
  end.
(** The types that are a [runtime.Object]. *)
Definition DeepCopyObject (s : StructTy) : option (option addr -> Mem runtime_Object) :=
  match s with
  | SLibvirtCluster => Some LibvirtCluster_DeepCopyObject
  | SLibvirtClusterList => Some LibvirtClusterList_DeepCopyObject
  | SLibvirtClusterTemplate => Some LibvirtClusterTemplate_DeepCopyObject
  | SLibvirtClusterTemplateList => Some LibvirtClusterTemplateList_DeepCopyObject
  | SLibvirtMachine => Some LibvirtMachine_DeepCopyObject
  | SLibvirtMachineList => Some LibvirtMachineList_DeepCopyObject
  | SLibvirtMachineTemplate => Some LibvirtMachineTemplate_DeepCopyObject
  | SLibvirtMachineTemplateList => Some LibvirtMachineTemplateList_DeepCopyObject
  | _ => None
  end.

(** ** What the structs stand for *)

Definition view_plain {T} (v : T) : View T := mret v.
Definition view_ClusterSpec (s : GoLibvirtClusterSpec memory) : View (GoLibvirtClusterSpec value) :=
  ref ← view_ptr (TStruct SCredentialsReference) view_plain (gcs_CredentialsRef s) ;
  mret (@mkGoClusterSpec value (gcs_URI s) (gcs_ControlPlaneEndpoint s) (gcs_BasePool s) (gcs_DomainPool s)
          (gcs_Network s) ref).
Definition view_ClusterStatus (s : GoLibvirtClusterStatus memory) : View (GoLibvirtClusterStatus value) :=
  conds ← view_slice TCondition view_Condition (gct_Conditions s) ;
  mret (@mkGoClusterStatus value (gct_Ready s) (gct_Initialization s) conds).
Definition view_MachineSpec (s : GoLibvirtMachineSpec memory) : View (GoLibvirtMachineSpec value) :=
  id ← view_ptr TString view_plain (gms_ProviderID s) ;
  mret (@mkGoMachineSpec value id (gms_VCPU s) (gms_MemoryMiB s) (gms_DiskGiB s) (gms_Image s)).
Definition view_MachineStatus (s : GoLibvirtMachineStatus memory) : View (GoLibvirtMachineStatus value) :=
  addrs ← view_slice TMachineAddress view_plain (gmt_Addresses s) ;
  conds ← view_slice TCondition view_Condition (gmt_Conditions s) ;
  mret (@mkGoMachineStatus value (gmt_Ready s) addrs conds (gmt_Initialization s)).

Definition view_Cluster (o : GoLibvirtCluster memory) : View (GoLibvirtCluster value) :=
  meta ← view_ObjectMeta (gc_ObjectMeta o) ;
  spec ← view_ClusterSpec (gc_Spec o) ;
  status ← view_ClusterStatus (gc_Status o) ;
  mret (@mkGoCluster value (gc_TypeMeta o) meta spec status).
Definition view_ClusterList (l : GoLibvirtClusterList memory) : View (GoLibvirtClusterList value) :=
  meta ← view_ListMeta (gcl_ListMeta l) ;
  items ← view_slice (TStruct SLibvirtCluster) view_Cluster (gcl_Items l) ;
  mret (@mkGoClusterList value (gcl_TypeMeta l) meta items).
Definition view_ClusterTemplateResource (r : GoLibvirtClusterTemplateResource memory) : View (GoLibvirtClusterTemplateResource value) :=
  meta ← view_TemplateMeta (gctr_ObjectMeta r) ;
  spec ← view_ClusterSpec (gctr_Spec r) ;
  mret (@mkGoClusterTemplateResource value meta spec).
Definition view_ClusterTemplateSpec (s : GoLibvirtClusterTemplateSpec memory) : View (GoLibvirtClusterTemplateSpec value) :=
  template ← view_ClusterTemplateResource (gcts_Template s) ;
  mret (mkGoClusterTemplateSpec template).
Definition view_ClusterTemplate (o : GoLibvirtClusterTemplate memory) : View (GoLibvirtClusterTemplate value) :=
  meta ← view_ObjectMeta (gctm_ObjectMeta o) ;
  spec ← view_ClusterTemplateSpec (gctm_Spec o) ;
  mret (@mkGoClusterTemplate value (gctm_TypeMeta o) meta spec).
Definition view_ClusterTemplateList (l : GoLibvirtClusterTemplateList memory) : View (GoLibvirtClusterTemplateList value) :=
  meta ← view_ListMeta (gctl_ListMeta l) ;
  items ← view_slice (TStruct SLibvirtClusterTemplate) view_ClusterTemplate (gctl_Items l) ;
  mret (@mkGoClusterTemplateList value (gctl_TypeMeta l) meta items).

Definition view_Machine (o : GoLibvirtMachine memory) : View (GoLibvirtMachine value) :=
  meta ← view_ObjectMeta (gm_ObjectMeta o) ;
  spec ← view_MachineSpec (gm_Spec o) ;
  status ← view_MachineStatus (gm_Status o) ;
  mret (@mkGoMachine value (gm_TypeMeta o) meta spec status).
Definition view_MachineList (l : GoLibvirtMachineList memory) : View (GoLibvirtMachineList value) :=
  meta ← view_ListMeta (gml_ListMeta l) ;
  items ← view_slice (TStruct SLibvirtMachine) view_Machine (gml_Items l) ;
  mret (@mkGoMachineList value (gml_TypeMeta l) meta items).
Definition view_MachineTemplateResource (r : GoLibvirtMachineTemplateResource memory) : View (GoLibvirtMachineTemplateResource value) :=
  meta ← view_TemplateMeta (gmtr_ObjectMeta r) ;
  spec ← view_MachineSpec (gmtr_Spec r) ;
  mret (@mkGoMachineTemplateResource value meta spec).
Definition view_MachineTemplateSpec (s : GoLibvirtMachineTemplateSpec memory) : View (GoLibvirtMachineTemplateSpec value) :=
  template ← view_MachineTemplateResource (gmts_Template s) ;
  mret (mkGoMachineTemplateSpec template).
Definition view_MachineTemplate (o : GoLibvirtMachineTemplate memory) : View (GoLibvirtMachineTemplate value) :=
  meta ← view_ObjectMeta (gmtm_ObjectMeta o) ;
  spec ← view_MachineTemplateSpec (gmtm_Spec o) ;
  mret (@mkGoMachineTemplate value (gmtm_TypeMeta o) meta spec).
Definition view_MachineTemplateList (l : GoLibvirtMachineTemplateList memory) : View (GoLibvirtMachineTemplateList value) :=
  meta ← view_ListMeta (gmtl_ListMeta l) ;
  items ← view_slice (TStruct SLibvirtMachineTemplate) view_MachineTemplate (gmtl_Items l) ;
  mret (@mkGoMachineTemplateList value (gmtl_TypeMeta l) meta items).

Definition view (s : StructTy) : struct memory s -> View (struct value s) :=
  match s with
  | SCredentialsReference => view_plain
  | SLibvirtCluster => view_Cluster
  | SLibvirtClusterInitializationStatus => view_plain
  | SLibvirtClusterList => view_ClusterList
  | SLibvirtClusterSpec => view_ClusterSpec
  | SLibvirtClusterStatus => view_ClusterStatus
  | SLibvirtClusterTemplate => view_ClusterTemplate
  | SLibvirtClusterTemplateList => view_ClusterTemplateList
  | SLibvirtClusterTemplateResource => view_ClusterTemplateResource
  | SLibvirtClusterTemplateSpec => view_ClusterTemplateSpec
  | SLibvirtMachine => view_Machine
  | SLibvirtMachineInitializationStatus => view_plain
  | SLibvirtMachineList => view_MachineList
  | SLibvirtMachineSpec => view_MachineSpec
  | SLibvirtMachineStatus => view_MachineStatus
  | SLibvirtMachineTemplate => view_MachineTemplate
  | SLibvirtMachineTemplateList => view_MachineTemplateList
  | SLibvirtMachineTemplateResource => view_MachineTemplateResource
  | SLibvirtMachineTemplateSpec => view_MachineTemplateSpec
  end.
End Generated.
