(* ===== verification/DeepCopySpec.v ===== *)
(** * Deep copies share nothing

    Every generated method of DeepCopy makes a copy that reads the same and lives in
    memory of its own, for any libraries whose copies do. *)

From stdpp Require Import base gmap sets list strings.
From S2P Require Import Prelude Api GoMemory DeepCopy.

Section Views.
Context {L : LibTypes} {LC : LibCopy} {Laws : LibCopyLaws}.

(** ** Views are local *)

Lemma local_plain {T} (v : T) : Local (view_plain v).
Proof. apply local_ret. Qed.
#[local] Hint Resolve local_plain : local.
#[local] Hint Extern 1 (Local (view_ObjectMeta _)) => apply local_ObjectMeta : local.
#[local] Hint Extern 1 (Local (view_ListMeta _)) => apply local_ListMeta : local.
#[local] Hint Extern 1 (Local (view_TemplateMeta _)) => apply local_TemplateMeta : local.
#[local] Hint Extern 1 (Local (view_Condition _)) => apply local_Condition : local.

Lemma local_ClusterSpec v : Local (view_ClusterSpec v).
Proof. unfold view_ClusterSpec. auto 8 with local. Qed.
#[local] Hint Resolve local_ClusterSpec : local.
Lemma local_ClusterStatus v : Local (view_ClusterStatus v).
Proof. unfold view_ClusterStatus. auto 8 with local. Qed.
#[local] Hint Resolve local_ClusterStatus : local.
Lemma local_Cluster v : Local (view_Cluster v).
Proof. unfold view_Cluster. auto 8 with local. Qed.
#[local] Hint Resolve local_Cluster : local.
Lemma local_ClusterList v : Local (view_ClusterList v).
Proof. unfold view_ClusterList. auto 8 with local. Qed.
#[local] Hint Resolve local_ClusterList : local.
Lemma local_ClusterTemplateResource v : Local (view_ClusterTemplateResource v).
Proof. unfold view_ClusterTemplateResource. auto 8 with local. Qed.
#[local] Hint Resolve local_ClusterTemplateResource : local.
Lemma local_ClusterTemplateSpec v : Local (view_ClusterTemplateSpec v).
Proof. unfold view_ClusterTemplateSpec. auto 8 with local. Qed.
#[local] Hint Resolve local_ClusterTemplateSpec : local.
Lemma local_ClusterTemplate v : Local (view_ClusterTemplate v).
Proof. unfold view_ClusterTemplate. auto 8 with local. Qed.
#[local] Hint Resolve local_ClusterTemplate : local.
Lemma local_ClusterTemplateList v : Local (view_ClusterTemplateList v).
Proof. unfold view_ClusterTemplateList. auto 8 with local. Qed.
#[local] Hint Resolve local_ClusterTemplateList : local.
Lemma local_MachineSpec v : Local (view_MachineSpec v).
Proof. unfold view_MachineSpec. auto 8 with local. Qed.
#[local] Hint Resolve local_MachineSpec : local.
Lemma local_MachineStatus v : Local (view_MachineStatus v).
Proof. unfold view_MachineStatus. auto 8 with local. Qed.
#[local] Hint Resolve local_MachineStatus : local.
Lemma local_Machine v : Local (view_Machine v).
Proof. unfold view_Machine. auto 8 with local. Qed.
#[local] Hint Resolve local_Machine : local.
Lemma local_MachineList v : Local (view_MachineList v).
Proof. unfold view_MachineList. auto 8 with local. Qed.
#[local] Hint Resolve local_MachineList : local.
Lemma local_MachineTemplateResource v : Local (view_MachineTemplateResource v).
Proof. unfold view_MachineTemplateResource. auto 8 with local. Qed.
#[local] Hint Resolve local_MachineTemplateResource : local.
Lemma local_MachineTemplateSpec v : Local (view_MachineTemplateSpec v).
Proof. unfold view_MachineTemplateSpec. auto 8 with local. Qed.
#[local] Hint Resolve local_MachineTemplateSpec : local.
Lemma local_MachineTemplate v : Local (view_MachineTemplate v).
Proof. unfold view_MachineTemplate. auto 8 with local. Qed.
#[local] Hint Resolve local_MachineTemplate : local.
Lemma local_MachineTemplateList v : Local (view_MachineTemplateList v).
Proof. unfold view_MachineTemplateList. auto 8 with local. Qed.
#[local] Hint Resolve local_MachineTemplateList : local.

Lemma local_view s v : Local (view s v).
Proof. destruct s; simpl; auto with local. Qed.

(** ** Copies are copies *)

Lemma copies_plain {T} : Copies (view_plain (T := T)) mret.
Proof. apply copies_ret. by eexists. Qed.
Lemma copies_addresses : Copies (view_slice TMachineAddress view_plain) (copy_slice TMachineAddress).
Proof. apply copies_slice. by eexists. Qed.
#[local] Hint Resolve copies_plain copies_addresses : copies.
#[local] Hint Extern 1 (Copies view_ObjectMeta _) => apply copies_ObjectMeta : copies.
#[local] Hint Extern 1 (Copies view_ListMeta _) => apply copies_ListMeta : copies.
#[local] Hint Extern 1 (Copies view_TemplateMeta _) => apply copies_TemplateMeta : copies.
#[local] Hint Extern 1 (Copies view_Condition _) => apply copies_Condition : copies.

Lemma copies_ClusterSpec : Copies view_ClusterSpec LibvirtClusterSpec_DeepCopyInto.
Proof. unfold view_ClusterSpec, LibvirtClusterSpec_DeepCopyInto. copies_struct. Qed.
#[local] Hint Resolve copies_ClusterSpec : copies.
Lemma copies_ClusterStatus : Copies view_ClusterStatus LibvirtClusterStatus_DeepCopyInto.
Proof. unfold view_ClusterStatus, LibvirtClusterStatus_DeepCopyInto. copies_struct. Qed.
#[local] Hint Resolve copies_ClusterStatus : copies.
Lemma copies_Cluster : Copies view_Cluster LibvirtCluster_DeepCopyInto.
Proof. unfold view_Cluster, LibvirtCluster_DeepCopyInto. copies_struct. Qed.
#[local] Hint Resolve copies_Cluster : copies.
Lemma copies_ClusterList : Copies view_ClusterList LibvirtClusterList_DeepCopyInto.
Proof. unfold view_ClusterList, LibvirtClusterList_DeepCopyInto. copies_struct. Qed.
#[local] Hint Resolve copies_ClusterList : copies.
Lemma copies_ClusterTemplateResource : Copies view_ClusterTemplateResource LibvirtClusterTemplateResource_DeepCopyInto.
Proof. unfold view_ClusterTemplateResource, LibvirtClusterTemplateResource_DeepCopyInto. copies_struct. Qed.
#[local] Hint Resolve copies_ClusterTemplateResource : copies.
Lemma copies_ClusterTemplateSpec : Copies view_ClusterTemplateSpec LibvirtClusterTemplateSpec_DeepCopyInto.
Proof. unfold view_ClusterTemplateSpec, LibvirtClusterTemplateSpec_DeepCopyInto. copies_struct. Qed.
#[local] Hint Resolve copies_ClusterTemplateSpec : copies.
Lemma copies_ClusterTemplate : Copies view_ClusterTemplate LibvirtClusterTemplate_DeepCopyInto.
Proof. unfold view_ClusterTemplate, LibvirtClusterTemplate_DeepCopyInto. copies_struct. Qed.
#[local] Hint Resolve copies_ClusterTemplate : copies.
Lemma copies_ClusterTemplateList : Copies view_ClusterTemplateList LibvirtClusterTemplateList_DeepCopyInto.
Proof. unfold view_ClusterTemplateList, LibvirtClusterTemplateList_DeepCopyInto. copies_struct. Qed.
#[local] Hint Resolve copies_ClusterTemplateList : copies.
Lemma copies_MachineSpec : Copies view_MachineSpec LibvirtMachineSpec_DeepCopyInto.
Proof. unfold view_MachineSpec, LibvirtMachineSpec_DeepCopyInto. copies_struct. Qed.
#[local] Hint Resolve copies_MachineSpec : copies.
Lemma copies_MachineStatus : Copies view_MachineStatus LibvirtMachineStatus_DeepCopyInto.
Proof. unfold view_MachineStatus, LibvirtMachineStatus_DeepCopyInto. copies_struct. Qed.
#[local] Hint Resolve copies_MachineStatus : copies.
Lemma copies_Machine : Copies view_Machine LibvirtMachine_DeepCopyInto.
Proof. unfold view_Machine, LibvirtMachine_DeepCopyInto. copies_struct. Qed.
#[local] Hint Resolve copies_Machine : copies.
Lemma copies_MachineList : Copies view_MachineList LibvirtMachineList_DeepCopyInto.
Proof. unfold view_MachineList, LibvirtMachineList_DeepCopyInto. copies_struct. Qed.
#[local] Hint Resolve copies_MachineList : copies.
Lemma copies_MachineTemplateResource : Copies view_MachineTemplateResource LibvirtMachineTemplateResource_DeepCopyInto.
Proof. unfold view_MachineTemplateResource, LibvirtMachineTemplateResource_DeepCopyInto. copies_struct. Qed.
#[local] Hint Resolve copies_MachineTemplateResource : copies.
Lemma copies_MachineTemplateSpec : Copies view_MachineTemplateSpec LibvirtMachineTemplateSpec_DeepCopyInto.
Proof. unfold view_MachineTemplateSpec, LibvirtMachineTemplateSpec_DeepCopyInto. copies_struct. Qed.
#[local] Hint Resolve copies_MachineTemplateSpec : copies.
Lemma copies_MachineTemplate : Copies view_MachineTemplate LibvirtMachineTemplate_DeepCopyInto.
Proof. unfold view_MachineTemplate, LibvirtMachineTemplate_DeepCopyInto. copies_struct. Qed.
#[local] Hint Resolve copies_MachineTemplate : copies.
Lemma copies_MachineTemplateList : Copies view_MachineTemplateList LibvirtMachineTemplateList_DeepCopyInto.
Proof. unfold view_MachineTemplateList, LibvirtMachineTemplateList_DeepCopyInto. copies_struct. Qed.
#[local] Hint Resolve copies_MachineTemplateList : copies.

Lemma copies_view s : Copies (view s) (DeepCopyInto s).
Proof. destruct s; simpl; auto with copies. Qed.

(** ** Every generated type *)

(** What a pointer to a struct of type [s] leads to. *)
Definition view_at (s : StructTy) (p : addr) : View (option (struct value s)) :=
  view_ptr (TStruct s) (view s) (Some p).
Lemma local_view_at s p : Local (view_at s p).
Proof. exact (local_ptr (G := go_types) (TStruct s) (view s) (Some p) (local_view s)). Qed.

Lemma DeepCopy_eq s p : DeepCopy s p = copy_ptr (TStruct s) (DeepCopyInto s) p.
Proof. by destruct s. Qed.
Lemma DeepCopyObject_eq s f p : DeepCopyObject s = Some f -> f p = DeepCopyObject_of s (DeepCopy s) p.
Proof. destruct s; by intros [= <-]. Qed.
Lemma DeepCopy_nil s h : DeepCopy s None h = Some (None, h).
Proof. by rewrite DeepCopy_eq. Qed.
Lemma DeepCopy_spec s p h x D :
  view_at s p h = Some (x, D) ->
  exists q h' D', DeepCopy s (Some p) h = Some (Some q, h') /\ h ⊆ h' /\
    view_at s q h' = Some (x, D') /\ D' ## dom h.
Proof.
  intros Hv. rewrite DeepCopy_eq. pose proof Hv as Hx.
  destruct (copies_ptr (G := go_types) (TStruct s) (view s) (DeepCopyInto s) (local_view s) (copies_view s) _ _ _ _ Hv)
    as (q & h' & D' & Hrun & Hs & Hq & HD).
  destruct q as [q|]; [exists q; eauto 8|]. injection Hq as <- <-.
  apply view_bind_inv in Hx as (? & ? & ? & _ & Hx & _). by apply view_bind_inv in Hx as (? & ? & ? & _ & Hx & _).
Qed.

(** C24: for every generated type, [DeepCopy] of a pointer to a readable value neither
    panics nor writes to memory in use; it returns a pointer to an equal value that
    shares nothing with the original: no change to memory that was in use before the
    call can be seen through the copy, and no change to the memory the call took can
    be seen through the original.  Nil is copied to nil, and [DeepCopyObject] returns
    the copy under its own type, or an interface that is nil itself. *)
Theorem deepcopy_independent s p h x D :
  view_at s p h = Some (Some x, D) ->
  DeepCopy s None h = Some (None, h) /\
  exists q h' D', DeepCopy s (Some p) h = Some (Some q, h') /\ h ⊆ h' /\
    (forall h2, (forall a, a ∉ dom h -> h2 !! a = h' !! a) -> view_at s q h2 = Some (Some x, D')) /\
    (forall h2, (forall a, a ∈ dom h -> h2 !! a = h' !! a) -> view_at s p h2 = Some (Some x, D)) /\
    forall f, DeepCopyObject s = Some f ->
      f None h = Some (None, h) /\ f (Some p) h = Some (Some (s, Some q), h').
Proof.
  intros Hv. split; [apply DeepCopy_nil|].
  destruct (DeepCopy_spec s p h _ D Hv) as (q & h' & D' & Hrun & Hs & Hq & HD).
  destruct (local_view_at s p _ _ _ Hv) as [Hd Hl].
  destruct (local_view_at s q _ _ _ Hq) as [_ Hl'].
  exists q, h', D'. split_and!; [done..| | |].
  - intros h2 H2. apply Hl'. intros a Ha. apply H2. set_solver.
  - intros h2 H2. apply Hl. intros a Ha. rewrite H2 by auto. by apply agree_sub with D.
  - intros f Hf. rewrite !(DeepCopyObject_eq s f _ Hf). unfold DeepCopyObject_of. split.
    + by erewrite mem_bind by apply DeepCopy_nil.
    + by erewrite mem_bind by exact Hrun.
Qed.
End Views.
