(* ===== verification/RefMemory.v ===== *)
(** * Concrete library types in memory

    An instance of [LibCopy]: metadata with a pointer to what it lists (finalizers,
    or labels), the rest by value; and the deep copies of a list of machines that
    share memory. *)

From stdpp Require Import base gmap sets list strings.
From Stdlib Require Import ZArith.
From S2P Require Import Prelude Api GoMemory DeepCopy DeepCopySpec.

Local Open Scope Z_scope.

Inductive RefCell := Strings (l : list string) | Labels (l : list (string * string)).
Record RefObjectMeta := mkRefMeta { rm_Name : string; rm_Finalizers : option addr }.

#[export] Instance RefLib : LibTypes := {|
  LObjectMeta := RefObjectMeta; zero_ObjectMeta := mkRefMeta "" None; VObjectMeta := string * option RefCell;
  LListMeta := string; zero_ListMeta := ""; VListMeta := string;
  LTemplateMeta := option addr; zero_TemplateMeta := None; VTemplateMeta := option RefCell;
  LCondition := Condition; zero_Condition := newCondition "" ConditionUnknown "" ""; VCondition := Condition;
  LibCell := RefCell; zero_LibCell := Strings [];
|}.

Definition view_refs (p : option addr) : View (option RefCell) := view_ptr TLib view_plain p.
Definition view_refmeta (m : RefObjectMeta) : View (string * option RefCell) :=
  fs ← view_refs (rm_Finalizers m) ; mret (rm_Name m, fs).
Definition copy_refs (p : option addr) : Mem (option addr) := copy_ptr TLib mret p.
Definition copy_refmeta (m : RefObjectMeta) : Mem RefObjectMeta :=
  fs ← copy_refs (rm_Finalizers m) ; mret (mkRefMeta (rm_Name m) fs).

#[export] Instance RefCopy : LibCopy := {|
  view_ObjectMeta := view_refmeta; ObjectMeta_DeepCopyInto := copy_refmeta;
  view_ListMeta := view_plain; ListMeta_DeepCopyInto := mret;
  view_TemplateMeta := view_refs; TemplateMeta_DeepCopyInto := copy_refs;
  view_Condition := view_plain; Condition_DeepCopyInto := mret;
|}.

Lemma local_refs p : Local (view_refs p).
Proof. apply local_ptr. intros. apply local_plain. Qed.
Lemma copies_refs : Copies view_refs copy_refs.
Proof. apply copies_ptr; [intros; apply local_plain|apply copies_plain]. Qed.
#[local] Hint Resolve local_refs : local.
#[local] Hint Resolve copies_refs : copies.

#[export] Instance RefCopyLaws : LibCopyLaws.
Proof.
  constructor; simpl; try (intros; apply local_plain); try apply copies_plain;
    try apply local_refs; try apply copies_refs.
  - intros v. unfold view_refmeta. auto with local.
  - unfold view_refmeta, copy_refmeta. copies_struct.
Qed.

(** ** A list of two machines that share their provider ID and their conditions *)

Definition ref_machine (name : string) (fin : addr) : GoLibvirtMachine memory :=
  @mkGoMachine memory (mkTypeMeta "LibvirtMachine" "v1alpha1") (mkRefMeta name (Some fin))
    (@mkGoMachineSpec memory (Some 1%nat) 2 4096 20 "image.qcow2")
    (@mkGoMachineStatus memory true None (Some (mkSlice 2 1 1)%nat) (mkGoMachineInit true)).
Definition ref_heap : Heap := list_to_map [
  (0%nat, mkBlock (G := go_types) (TStruct SLibvirtMachineList)
     [@mkGoMachineList memory (mkTypeMeta "LibvirtMachineList" "v1alpha1") "42" (Some (mkSlice 5 0 2)%nat)]);
  (1%nat, mkBlock (G := go_types) TString ["libvirt:///default/a"]);
  (2%nat, mkBlock (G := go_types) TCondition
     [newCondition "Other" ConditionFalse "No" ""; newCondition "DomainRunning" ConditionTrue "DomainRunning" ""]);
  (3%nat, mkBlock (G := go_types) TLib [Strings [LibvirtMachineFinalizer]]);
  (5%nat, mkBlock (G := go_types) (TStruct SLibvirtMachine) [ref_machine "a" 3%nat; ref_machine "b" 3%nat])].

(** Deleting every cell the original uses leaves the copy readable. *)
Lemma deepcopy_independent_witness :
  exists x D q h' D', view_at SLibvirtMachineList 0%nat ref_heap = Some (Some x, D) /\
    DeepCopy SLibvirtMachineList (Some 0%nat) ref_heap = Some (Some q, h') /\
    view_at SLibvirtMachineList q (h' ∖ ref_heap) = Some (Some x, D').
Proof.
  edestruct (deepcopy_independent SLibvirtMachineList 0%nat ref_heap)
    as (_ & q & h' & D' & Hrun & _ & Hcopy & _); [vm_compute; reflexivity|].
  do 2 eexists. exists q, h', D'. split; [vm_compute; reflexivity|]. split; [exact Hrun|].
  apply Hcopy. intros a Ha. apply not_elem_of_dom in Ha. by rewrite lookup_difference, Ha.
Defined.
