(* ===== verification/Kube.v ===== *)
(** * The Kubernetes libraries the controllers call, and the reconcile state

    controller-runtime, apimachinery and cluster-api are third-party: each
    function the controllers call is an operation of a class, and what its
    documentation promises is a law of a second class.  The world [W] holds the
    API server, the libvirt host and the clock.

    A reconciler works on one API object through a pointer shared with the
    deferred patch: its code runs in [M (W * T)], where the second component is
    that object, so that what was written before an error is still there when
    the patch runs. *)

From stdpp Require Import base gmap list strings.
From Stdlib Require Import ZArith.
From S2P Require Import Prelude GoStrings Api.

Local Open Scope Z_scope.

(** ** Library functions on metadata and conditions *)

Class KubeLib (W : Type) := {
  ContainsFinalizer : ObjectMeta -> string -> bool;
  AddFinalizer : ObjectMeta -> string -> ObjectMeta;
  RemoveFinalizer : ObjectMeta -> string -> ObjectMeta * bool;
  annotations_IsPaused : Cluster -> ObjectMeta -> bool;
  APIEndpoint_IsValid : APIEndpoint -> bool;
  (** The world is read for the current time only. *)
  conditions_Set : W -> list Condition -> Condition -> list Condition;
}.

(** The condition of type [t], without its transition time. *)
Definition condition_of (t : string) (cs : list Condition) : option (ConditionStatus * string * string) :=
  (fun c => (cond_Status c, cond_Reason c, cond_Message c)) <$>
    List.find (fun c => bool_decide (cond_Type c = t)) cs.

Definition with_finalizers (m : ObjectMeta) (fs : list string) : ObjectMeta :=
  mkObjectMeta (meta_Name m) (meta_Namespace m) (meta_UID m) (meta_DeletionTimestamp m) fs
    (meta_Labels m) (meta_Annotations m) (meta_OwnerReferences m).

Class KubeLibLaws (W : Type) `{KubeLib W} : Prop := {
  ContainsFinalizer_iff m f : ContainsFinalizer m f = true <-> f ∈ meta_Finalizers m;
  (** "adds the provided finalizer if not present" *)
  AddFinalizer_law m f :
    AddFinalizer m f =
      if bool_decide (f ∈ meta_Finalizers m) then m else with_finalizers m (meta_Finalizers m ++ [f]);
  (** "removes the provided finalizer if present; returns whether it updated the list" *)
  RemoveFinalizer_law m f :
    RemoveFinalizer m f =
      (with_finalizers m (filter (.≠ f) (meta_Finalizers m)), bool_decide (f ∈ meta_Finalizers m));
  (** "true if the Cluster or the object has the paused field or annotation" *)
  IsPaused_cluster c m : cluster_Paused c = Some true -> annotations_IsPaused c m = true;
  (** "true if both host and port are non-zero values" *)
  APIEndpoint_IsValid_law e :
    APIEndpoint_IsValid e = true <-> endpoint_Host e <> "" /\ endpoint_Port e <> 0;
  (** setting a condition replaces the one of its type and keeps the others *)
  conditions_Set_same w cs c :
    condition_of (cond_Type c) (conditions_Set w cs c) =
      Some (cond_Status c, cond_Reason c, cond_Message c);
  conditions_Set_nodup w cs c :
    NoDup (map cond_Type cs) -> NoDup (map cond_Type (conditions_Set w cs c));
  conditions_Set_other w cs c t :
    NoDup (map cond_Type cs) -> t <> cond_Type c ->
    condition_of t (conditions_Set w cs c) = condition_of t cs;
  (** it is stamped with the time of its last transition *)
  conditions_Set_elem w cs c x :
    x ∈ conditions_Set w cs c -> x ∈ cs \/
    cond_Type x = cond_Type c /\ cond_Status x = cond_Status c /\ cond_Reason x = cond_Reason c /\
    cond_Message x = cond_Message c /\
    (Forall (fun y => is_Some (cond_LastTransitionTime y)) cs -> is_Some (cond_LastTransitionTime x));
}.

(** ** The API client, the owner lookups and the patch helper *)

Record Secret := mkSecret { secret_ObjectMeta : ObjectMeta; secret_Data : gmap string string }.
#[global] Instance Secret_Object : Object Secret :=
  { GetObjectMeta := secret_ObjectMeta; SetObjectMeta s m := mkSecret m (secret_Data s) }.

Inductive ListOption :=
  | InNamespace (ns : string)
  | MatchingFields (field value : string).

(** [Client.Get] and [Client.List] for one kind of object. *)
Class Getter (W T : Type) := Get : NamespacedName -> M W T.
Class Lister (W T : Type) := client_List : list ListOption -> M W (list T).

(** cluster-api's [util] package. *)
Class ClusterAPIUtil (W : Type) := {
  GetOwnerCluster : ObjectMeta -> M W (option Cluster);
  GetOwnerMachine : ObjectMeta -> M W (option Machine);
  GetClusterFromMetadata : ObjectMeta -> M W (option Cluster);
}.

(** cluster-api's [patch] package: a helper remembers the object it was created
    with and sends the differences. *)
Class Patcher (W T : Type) := {
  Helper : Type;
  NewHelper : T -> M W Helper;
  Patch : Helper -> T -> M W unit;
}.

(** ** The reconcile state *)

Record Result := mkResult { RequeueAfter : Z }.
#[global] Instance Result_eq_dec : EqDecision Result.
Proof. solve_decision. Defined.
(** [ctrl.Result{}] *)
Definition noRequeue : Result := mkResult 0.

(** [time.Duration], in nanoseconds *)
Definition Second : Z := 1000000000.
Definition Minute : Z := 60 * Second.

Section ReconcileState.
Context {W T : Type}.

(** A call that does not touch the object. *)
Definition call {A} (m : M W A) : M (W * T) A := fun s =>
  match m s.1 with (r, w) => (r, (w, s.2)) end.

(** The object behind the pointer, and an assignment through it. *)
Definition object : M (W * T) T := fun s => (Ok s.2, s).
Definition update (f : T -> T) : M (W * T) unit := fun s => (Ok tt, (s.1, f s.2)).

(** [conditions.Set(obj, c)] *)
Definition set_condition `{KubeLib W} `{Setter T} (c : Condition) : M (W * T) unit := fun s =>
  (Ok tt, (s.1, SetConditions s.2 (conditions_Set s.1 (GetConditions s.2) c))).

(** [defer func() { if patchErr := helper.Patch(ctx, obj); patchErr != nil {
    ... if rerr == nil { rerr = patchErr } } }()] around the rest of a Reconcile
    that works on the object [obj]. *)
Definition deferred_patch `{Patcher W T} {A} (helper : Helper) (obj : T) (body : M (W * T) A) : M W A :=
  fun w =>
    match body (w, obj) with
    | (Diverge, s) => (Diverge, s.1)
    | (rerr, s) =>
        match Patch helper s.2 s.1 with
        | (Diverge, w') => (Diverge, w')
        | (Err patchErr, w') => (match rerr with Ok _ => Err patchErr | _ => rerr end, w')
        | (Ok _, w') => (rerr, w')
        end
    end.
End ReconcileState.

(** ** What a reconcile leaves alone

    An observation of the world is kept by a reconcile whose calls keep it: the
    steps on the object do not touch the world. *)
Section KeepsObject.
Context {W T X : Type} {obs : W -> X}.
Lemma keeps_call {A} (m : M W A) : Keeps obs m -> Keeps (fun s : W * T => obs s.1) (call m).
Proof. intros Hm [w t]. specialize (Hm w). unfold call. cbn. by destruct (m w). Qed.
Lemma keeps_object : Keeps (fun s : W * T => obs s.1) object.
Proof. by intros s. Qed.
Lemma keeps_update f : Keeps (fun s : W * T => obs s.1) (update f).
Proof. by intros s. Qed.
Lemma keeps_set_condition `{KubeLib W} `{Setter T} c : Keeps (fun s : W * T => obs s.1) (set_condition c).
Proof. by intros s. Qed.
End KeepsObject.
#[export] Hint Resolve keeps_object keeps_update keeps_set_condition : keeps.
#[export] Hint Extern 3 (Keeps _ (call _)) => refine (keeps_call (obs := _) _ _) : keeps.
