(* ===== verification/Credentials.v ===== *)
(** * Loading libvirt credentials (internal/controller/credentials.go) *)

From stdpp Require Import base gmap list strings.
From Stdlib Require Import ZArith.
From S2P Require Import Prelude GoStrings Config Api Kube.

Local Open Scope Z_scope.

(** Keys of [corev1.SecretTypeTLS] and [corev1.SecretTypeSSHAuth] Secrets. *)
Definition TLSCertKey : string := "tls.crt".
Definition TLSPrivateKeyKey : string := "tls.key".
Definition SSHAuthPrivateKey : string := "ssh-privatekey".

Definition credentialsRefNameField : string := ".spec.credentialsRef.name".

Definition tlsSecretKeys : list string := [CredentialsCACertKey; TLSCertKey; TLSPrivateKeyKey].
Definition sshSecretKeys : list string := [SSHAuthPrivateKey; CredentialsKnownHostsKey].

(** [data[key]]: a missing key reads as nil. *)
Definition data_at (data : gmap string string) (key : string) : string := default "" (data !! key).

Definition hasAnyKey (data : gmap string string) (keys : list string) : bool :=
  existsb (fun key => 0 <? len (data_at data key)) keys.

Fixpoint missing_keys (data : gmap string string) (keys : list string) : list string :=
  match keys with
  | [] => []
  | key :: rest =>
      if len (data_at data key) =? 0 then key :: missing_keys data rest else missing_keys data rest
  end.

Definition requireKeys (data : gmap string string) (keys : list string) : result unit :=
  let missing := missing_keys data keys in
  if 0 <? Z.of_nat (length missing)
  then Err (ErrorString ("missing keys: " +:+ strings_Join missing ", "))
  else Ok tt.

Definition credentialsFromSecret (data : gmap string string) : result (option Credentials) :=
  tls ← (if hasAnyKey data tlsSecretKeys
         then requireKeys data tlsSecretKeys ;;
              mret (Some (mkTLS (data_at data CredentialsCACertKey) (data_at data TLSCertKey)
                            (data_at data TLSPrivateKeyKey)))
         else mret None) ;
  ssh ← (if hasAnyKey data sshSecretKeys
         then requireKeys data sshSecretKeys ;;
              mret (Some (mkSSH (data_at data SSHAuthPrivateKey) (data_at data CredentialsKnownHostsKey)))
         else mret None) ;
  match tls, ssh with
  | None, None => Ok None
  | _, _ => Ok (Some (mkCredentials tls ssh))
  end.

(** The loader; its client is the world's. *)
Record CredentialsLoader := mkLoader { DefaultSecret : NamespacedName }.

(** The type switch of [credentialsRefName] is on [*LibvirtCluster], the only
    type it is registered for. *)
Definition credentialsRefName (libvirtCluster : LibvirtCluster) : list string :=
  match cspec_CredentialsRef (lc_Spec libvirtCluster) with
  | None => []
  | Some ref => [credref_Name ref]
  end.

(** cmd/main.go *)
Definition newCredentialsLoader (name namespace : string) : CredentialsLoader :=
  if bool_decide (name = "") || bool_decide (namespace = "")
  then mkLoader (mkNN "" "")
  else mkLoader (mkNN namespace name).

Section Loader.
Context {W : Type} `{!Getter W Secret} `{!Lister W LibvirtCluster}.

Definition loadRef (libvirtCluster : LibvirtCluster) (ref : CredentialsReference) : M W (option Credentials) :=
  let key := mkNN (meta_Namespace (lc_ObjectMeta libvirtCluster)) (credref_Name ref) in
  let prefix := "credentials secret " +:+ NamespacedName_String key in
  secret ← wrap_err (WrapError ("get " +:+ prefix)) (Get (T := Secret) key) ;
  creds ← wrap_err (WrapError prefix) (lift (credentialsFromSecret (secret_Data secret))) ;
  match creds with
  | None => fail (ErrorString (prefix +:+ ": no TLS keys (" +:+ strings_Join tlsSecretKeys ", " +:+
                    ") or SSH keys (" +:+ strings_Join sshSecretKeys ", " +:+ ") found"))
  | Some c => mret (Some c)
  end.

Definition Load (l : CredentialsLoader) (libvirtCluster : LibvirtCluster) : M W (option Credentials) :=
  match cspec_CredentialsRef (lc_Spec libvirtCluster) with
  | Some ref => loadRef libvirtCluster ref
  | None =>
      if bool_decide (nn_Name (DefaultSecret l) = "") then mret None
      else
        let prefix := "default credentials secret " +:+ NamespacedName_String (DefaultSecret l) in
        got ← try (Get (T := Secret) (DefaultSecret l)) ;
        match got with
        | inl err =>
            if apierrors_IsNotFound err then mret None
            else fail (WrapError ("get " +:+ prefix) err)
        | inr secret => wrap_err (WrapError prefix) (lift (credentialsFromSecret (secret_Data secret)))
        end
  end.

Definition secretToLibvirtClusters (l : CredentialsLoader) (secret : Secret) : M W (list NamespacedName) :=
  let opts :=
    if bool_decide (ObjectKeyFromObject secret = DefaultSecret l) then []
    else [InNamespace (meta_Namespace (GetObjectMeta secret));
          MatchingFields credentialsRefNameField (meta_Name (GetObjectMeta secret))] in
  listed ← try (client_List (T := LibvirtCluster) opts) ;
  match listed with
  | inl _ => mret []
  | inr items => mret (map ObjectKeyFromObject items)
  end.
End Loader.

(** ** Reading a Secret *)

Lemma hasAnyKey_true data keys :
  hasAnyKey data keys = true <-> Exists (fun k => data_at data k <> "") keys.
Proof.
  unfold hasAnyKey. rewrite existsb_exists, Exists_exists. setoid_rewrite list_elem_of_In.
  split; intros (k & Hin & Hk); exists k; (split; [done|]).
  - intros Hz. rewrite Hz in Hk. discriminate.
  - pose proof (len_nonneg (data_at data k)).
    apply Z.ltb_lt. destruct (Z.eq_dec (len (data_at data k)) 0) as [Hz|]; [|lia].
    by apply len_zero in Hz.
Qed.

Lemma missing_keys_spec data keys :
  missing_keys data keys = filter (fun k => data_at data k = "") keys.
Proof.
  induction keys as [|k keys IH]; [done|]. cbn [missing_keys].
  destruct (Z.eqb_spec (len (data_at data k)) 0) as [Hz|Hnz].
  - apply len_zero in Hz. by rewrite filter_cons_True, IH.
  - rewrite filter_cons_False, IH; [done|]. intros Hz. by rewrite Hz in Hnz.
Qed.

Lemma requireKeys_ok data keys :
  requireKeys data keys = Ok tt <-> Forall (fun k => data_at data k <> "") keys.
Proof.
  unfold requireKeys. rewrite missing_keys_spec.
  assert (filter (fun k => data_at data k = "") keys = [] <-> Forall (fun k => data_at data k <> "") keys)
    as Hiff by apply filter_nil_iff.
  destruct (filter _ keys) as [|k l] eqn:E; cbn.
  - split; [|done]. intros _. by apply Hiff.
  - split; [done|]. intros Hf. by apply Hiff in Hf.
Qed.

Lemma requireKeys_cases data keys :
  (Forall (fun k => data_at data k <> "") keys /\ requireKeys data keys = Ok tt) \/
  (~ Forall (fun k => data_at data k <> "") keys /\
   requireKeys data keys =
     Err (ErrorString ("missing keys: " +:+ strings_Join (filter (fun k => data_at data k = "") keys) ", "))).
Proof.
  destruct (decide (Forall (fun k => data_at data k <> "") keys)) as [Hf|Hf].
  - left. split; [done|]. by apply requireKeys_ok.
  - right. split; [done|]. rewrite <- requireKeys_ok in Hf. revert Hf.
    unfold requireKeys. rewrite missing_keys_spec. by destruct (0 <? _).
Qed.

Lemma hasAnyKey_false data keys :
  hasAnyKey data keys = false <-> Forall (fun k => data_at data k = "") keys.
Proof.
  unfold hasAnyKey. induction keys as [|k keys IH]; [done|]. cbn [existsb].
  rewrite orb_false_iff, Forall_cons, IH, Z.ltb_ge.
  pose proof (len_nonneg (data_at data k)). split; intros [Hk Hr]; (split; [|done]).
  - apply len_zero. lia.
  - by rewrite Hk.
Qed.

(** A group of keys is usable when it is empty or complete. *)
Definition group_ok (data : gmap string string) (keys : list string) : Prop :=
  Forall (fun k => data_at data k = "") keys \/ Forall (fun k => data_at data k <> "") keys.

(** C32: a Secret gives credentials exactly when its TLS keys and its SSH keys are
    each all set or all empty; no key set at all gives no credentials; the
    credentials that are returned hold the bytes of the Secret, all of them
    non-empty, for every group that is set and nothing for the others; and a
    partial group is refused with an error naming exactly its empty keys. *)
Theorem credentialsFromSecret_spec data :
  (is_ok (credentialsFromSecret data) = true <-> group_ok data tlsSecretKeys /\ group_ok data sshSecretKeys) /\
  (credentialsFromSecret data = Ok None <->
     Forall (fun k => data_at data k = "") (tlsSecretKeys ++ sshSecretKeys)) /\
  (forall c, credentialsFromSecret data = Ok (Some c) ->
     (creds_TLS c <> None \/ creds_SSH c <> None) /\
     match creds_TLS c with
     | None => Forall (fun k => data_at data k = "") tlsSecretKeys
     | Some t => [tls_CACert t; tls_ClientCert t; tls_ClientKey t] = map (data_at data) tlsSecretKeys /\
                 Forall (fun k => data_at data k <> "") tlsSecretKeys
     end /\
     match creds_SSH c with
     | None => Forall (fun k => data_at data k = "") sshSecretKeys
     | Some s => [ssh_PrivateKey s; ssh_KnownHosts s] = map (data_at data) sshSecretKeys /\
                 Forall (fun k => data_at data k <> "") sshSecretKeys
     end) /\
  (forall e, credentialsFromSecret data = Err e -> exists keys,
     keys ∈ [tlsSecretKeys; sshSecretKeys] /\ ~ group_ok data keys /\
     e = ErrorString ("missing keys: " +:+ strings_Join (filter (fun k => data_at data k = "") keys) ", ")).
Proof.
  assert (forall keys, hasAnyKey data keys = true -> Forall (fun k => data_at data k = "") keys -> False)
    as Hclash by (intros keys Ha Hf; apply hasAnyKey_false in Hf; congruence).
  unfold credentialsFromSecret, group_ok. rewrite Forall_app.
  destruct (hasAnyKey data tlsSecretKeys) eqn:Ht;
    [destruct (requireKeys_cases data tlsSecretKeys) as [[Hrt ->]|[Hrt ->]]
    |apply hasAnyKey_false in Ht];
  (destruct (hasAnyKey data sshSecretKeys) eqn:Hs;
    [destruct (requireKeys_cases data sshSecretKeys) as [[Hrs ->]|[Hrs ->]]
    |apply hasAnyKey_false in Hs]); cbn [mbind result_bind mret result_ret is_ok].
  all: try (pose proof (Hclash _ Ht)); try (pose proof (Hclash _ Hs)).
  all: split_and!; [tauto || (split; [done|tauto]) |tauto || (split; [done|tauto]) | |].
  all: intros x Hx; try discriminate Hx; injection Hx as <-.
  all: cbn [creds_TLS creds_SSH].
  all: try (split_and!; first [done | by left | by right]).
  all: first [exists tlsSecretKeys; split_and!; [set_solver|tauto|done]
             |exists sshSecretKeys; split_and!; [set_solver|tauto|done]].
Qed.

(** ** Which Secret a cluster uses *)

(** The Secret that holds the credentials of a cluster: the referenced one, in
    the cluster's own namespace, else the controller-wide one when it is on. *)
Definition credentialsKey (l : CredentialsLoader) (lc : LibvirtCluster) : option NamespacedName :=
  match cspec_CredentialsRef (lc_Spec lc) with
  | Some ref => Some (mkNN (meta_Namespace (lc_ObjectMeta lc)) (credref_Name ref))
  | None => if bool_decide (nn_Name (DefaultSecret l) = "") then None else Some (DefaultSecret l)
  end.

(** What the Client's List is documented to return: the stored objects that match
    every option; a field selector goes through the registered index function. *)
Class StoredClusters (W : Type) := stored_clusters : W -> list LibvirtCluster.
Definition option_matches (lc : LibvirtCluster) (o : ListOption) : Prop :=
  match o with
  | InNamespace ns => ns = "" \/ meta_Namespace (lc_ObjectMeta lc) = ns
  | MatchingFields field value => field = credentialsRefNameField -> value ∈ credentialsRefName lc
  end.
Class ClusterListLaws (W : Type) `{!Lister W LibvirtCluster} `{!StoredClusters W} : Prop := {
  List_law opts w items w' :
    client_List opts w = (Ok items, w') ->
    forall lc, lc ∈ items <-> lc ∈ stored_clusters w /\ Forall (option_matches lc) opts;
}.

Section LoaderSpec.
Context {W : Type} `{!Getter W Secret} `{!Lister W LibvirtCluster}.

(** One outcome of the controller-wide lookup, against one expected result. *)
Local Ltac load_default :=
  split;
  [ intros Heq; simplify_eq; eauto 10
  | first [ intros (k & s' & Hk & HG & HC)
          | intros (_ & [[Hn ->]|(Hn & [(e' & HG & HN)|(s' & HG & HC)])]) ]; congruence ].

(** C33: [Load] returns credentials exactly when the Secret the cluster uses can be
    read and holds a usable set of keys, and it returns them unchanged.  It falls
    back to a plain connection (nil) only for a cluster without credentialsRef,
    when the controller-wide Secret is off, does not exist or holds no keys: a
    missing or empty referenced Secret is always an error. *)
Theorem Load_spec l lc w r w' :
  Load l lc w = (Ok r, w') <->
  match r with
  | Some c => exists k s, credentialsKey l lc = Some k /\ Get k w = (Ok s, w') /\
                credentialsFromSecret (secret_Data s) = Ok (Some c)
  | None => cspec_CredentialsRef (lc_Spec lc) = None /\
      (nn_Name (DefaultSecret l) = "" /\ w' = w \/
       nn_Name (DefaultSecret l) <> "" /\
       ((exists e, Get (T := Secret) (DefaultSecret l) w = (Err e, w') /\ apierrors_IsNotFound e = true) \/
        (exists s, Get (T := Secret) (DefaultSecret l) w = (Ok s, w') /\
                   credentialsFromSecret (secret_Data s) = Ok None)))
  end.
Proof.
  unfold Load, loadRef, credentialsKey. destruct (cspec_CredentialsRef (lc_Spec lc)) as [ref|].
  - unfold mbind, M_bind, wrap_err, lift.
    set (k := mkNN _ _). destruct (Get k w) as [[s|e|] w1] eqn:EG; cbn [map_err].
    2,3: destruct r; [|split; [discriminate|by intros [[=]]]]; split; [discriminate|];
         intros (k' & s & [= <-] & HG & _); congruence.
    destruct (credentialsFromSecret (secret_Data s)) as [[c|]|e|] eqn:EC; cbn [map_err];
      unfold fail, mret, M_ret.
    all: destruct r as [c'|]; [|split; [discriminate|by intros [[=]]]].
    all: split; [intros [= <- <-]; eauto|intros (k' & s' & [= <-] & HG & HC)]; congruence.
  - case_bool_decide as Hname.
    { unfold mret, M_ret. destruct r; load_default. }
    unfold mbind, M_bind, try, wrap_err, lift.
    destruct (Get (DefaultSecret l) w) as [[s|e|] w1] eqn:EG.
    + destruct (credentialsFromSecret (secret_Data s)) as [[c|]|e|] eqn:EC; cbn [map_err];
        destruct r as [c'|]; load_default.
    + destruct (apierrors_IsNotFound e) eqn:EN; unfold mret, M_ret, fail;
        destruct r as [c'|]; load_default.
    + destruct r as [c'|]; load_default.
Qed.

Context `{!StoredClusters W} `{!ClusterListLaws W}.

(** C34: the Secret watch agrees with the loader: when a Secret changes and the
    clusters can be listed, every stored LibvirtCluster whose credentials come from it is enqueued; for a Secret
    other than the controller-wide one nothing else is, and for the controller-wide
    one exactly all stored clusters are, those with credentials of their own too. *)
Theorem secretToLibvirtClusters_spec l secret w reqs w' :
  meta_Namespace (secret_ObjectMeta secret) <> "" ->
  (forall opts, is_ok (client_List (T := LibvirtCluster) opts w).1 = true) ->
  secretToLibvirtClusters l secret w = (Ok reqs, w') ->
  (forall lc, lc ∈ stored_clusters w ->
     credentialsKey l lc = Some (ObjectKeyFromObject secret) -> ObjectKeyFromObject lc ∈ reqs) /\
  (ObjectKeyFromObject secret <> DefaultSecret l ->
   forall k, k ∈ reqs -> exists lc, lc ∈ stored_clusters w /\ ObjectKeyFromObject lc = k /\
     credentialsKey l lc = Some (ObjectKeyFromObject secret)) /\
  (ObjectKeyFromObject secret = DefaultSecret l ->
   forall k, k ∈ reqs <-> exists lc, lc ∈ stored_clusters w /\ ObjectKeyFromObject lc = k).
Proof.
  intros Hns Hok. unfold secretToLibvirtClusters.
  set (opts := if bool_decide _ then _ else _).
  unfold mbind, M_bind, try, mret, M_ret. specialize (Hok opts).
  destruct (client_List opts w) as [[items|e|] w1] eqn:EL; try discriminate Hok.
  intros [= <- <-]. pose proof (List_law _ _ _ _ EL) as Hlaw.
  assert (forall lc, lc ∈ items -> ObjectKeyFromObject secret <> DefaultSecret l ->
            meta_Namespace (lc_ObjectMeta lc) = meta_Namespace (secret_ObjectMeta secret) /\
            meta_Name (secret_ObjectMeta secret) ∈ credentialsRefName lc) as Hnon.
  { intros lc [_ Hm]%Hlaw Hne. subst opts. rewrite bool_decide_eq_false_2 in Hm by done.
    apply Forall_cons in Hm as [[Hns'|Hns'] [Hname _]%Forall_cons]; [done|]. split; [done|].
    by apply Hname. }
  split_and!.
  - intros lc Hst Hkey. apply list_elem_of_fmap. exists lc. split; [done|]. apply Hlaw. split; [done|].
    subst opts. case_bool_decide as Hdef; [constructor|].
    unfold credentialsKey, credentialsRefName in *. unfold ObjectKeyFromObject in *.
    destruct (cspec_CredentialsRef (lc_Spec lc)) as [ref|] eqn:Href.
    + injection Hkey as Hn Hm. cbn in Hn, Hm.
      apply Forall_cons; split; [by right|]. apply Forall_cons; split; [|constructor].
      intros _. cbn. unfold credentialsRefName. rewrite Href, <- Hm. apply list_elem_of_singleton. done.
    + case_bool_decide; [done|]. congruence.
  - intros Hne k Hk. apply list_elem_of_fmap in Hk as (lc & -> & Hin).
    destruct (Hnon lc Hin Hne) as [Hn Hm]. exists lc. split; [by apply Hlaw|]. split; [done|].
    unfold credentialsKey, credentialsRefName in *.
    destruct (cspec_CredentialsRef (lc_Spec lc)) as [ref|]; [|set_solver].
    apply list_elem_of_singleton in Hm. unfold ObjectKeyFromObject. cbn. by rewrite Hn, Hm.
  - intros Hdef k. rewrite list_elem_of_fmap. setoid_rewrite Hlaw. subst opts. rewrite bool_decide_eq_true_2 by done.
    split; [intros (lc & -> & Hst & _); by exists lc|]. intros (lc & Hst & <-). by exists lc.
Qed.
End LoaderSpec.
