(* ===== verification/ProviderInterface.v ===== *)
(** * The provider interface (internal/controller/libvirt_provider.go), its mock
    (internal/controller/mock_provider.go), and the history of its calls *)

From stdpp Require Import base gmap list strings.
From Stdlib Require Import ZArith.
From S2P Require Import Prelude Config Api Kube Credentials.

(** [DomainState] is a string type with four named values; the switch of the
    machine controller has no default case for any other. *)
Definition DomainState : Type := string.
Definition DomainStateNotFound : DomainState := "NotFound".
Definition DomainStateRunning : DomainState := "Running".
Definition DomainStateStopped : DomainState := "Stopped".
Definition DomainStateUnknown : DomainState := "Unknown".

(** The interface the controllers are written against. *)
Class provider (W : Type) := {
  EnsureInfra : InfraConfig -> M W unit;
  GetMachineState : MachineConfig -> M W DomainState;
  CreateMachine : MachineConfig -> M W unit;
  StartMachine : MachineConfig -> M W unit;
  DeleteMachine : MachineConfig -> M W unit;
  GetMachineAddress : MachineConfig -> M W string;
}.

(** ** The mock *)

(** The fields of [MockProvider] but its mutex: a method holds it from start to
    end, so the methods are atomic. *)
Record MockProvider := mkMock {
  EnsureInfraErr : option error;
  GetMachineStateErr : option error;
  CreateMachineErr : option error;
  StartMachineErr : option error;
  DeleteMachineErr : option error;
  MockMachineAddress : string;
  GetMachineAddressErr : option error;
  MockMachineState : DomainState;
  CreatedMachineConfig : option MachineConfig;
  EnsuredInfraConfig : option InfraConfig;
}.

Definition return_err {A} (v : A) (e : option error) : result A :=
  match e with None => Ok v | Some e => Err e end.

Definition Mock_EnsureInfra (cfg : InfraConfig) : M MockProvider unit := fun m =>
  (return_err tt (EnsureInfraErr m),
   mkMock (EnsureInfraErr m) (GetMachineStateErr m) (CreateMachineErr m) (StartMachineErr m)
     (DeleteMachineErr m) (MockMachineAddress m) (GetMachineAddressErr m) (MockMachineState m)
     (CreatedMachineConfig m) (Some cfg)).
Definition Mock_GetMachineState (cfg : MachineConfig) : M MockProvider DomainState := fun m =>
  (return_err (MockMachineState m) (GetMachineStateErr m), m).
Definition Mock_CreateMachine (cfg : MachineConfig) : M MockProvider unit := fun m =>
  (return_err tt (CreateMachineErr m),
   mkMock (EnsureInfraErr m) (GetMachineStateErr m) (CreateMachineErr m) (StartMachineErr m)
     (DeleteMachineErr m) (MockMachineAddress m) (GetMachineAddressErr m) (MockMachineState m)
     (Some cfg) (EnsuredInfraConfig m)).
Definition Mock_StartMachine (cfg : MachineConfig) : M MockProvider unit := fun m =>
  (return_err tt (StartMachineErr m), m).
Definition Mock_DeleteMachine (cfg : MachineConfig) : M MockProvider unit := fun m =>
  (return_err tt (DeleteMachineErr m), m).
Definition Mock_GetMachineAddress (cfg : MachineConfig) : M MockProvider string := fun m =>
  (return_err (MockMachineAddress m) (GetMachineAddressErr m), m).

(** The methods with which tests script the mock and read what it recorded. *)
Definition Mock_SetEnsureInfraErr (err : option error) : M MockProvider unit := fun m =>
  (Ok tt, mkMock err (GetMachineStateErr m) (CreateMachineErr m) (StartMachineErr m) (DeleteMachineErr m)
     (MockMachineAddress m) (GetMachineAddressErr m) (MockMachineState m) (CreatedMachineConfig m) (EnsuredInfraConfig m)).
Definition Mock_GetEnsuredInfraConfig : M MockProvider (option InfraConfig) := fun m =>
  (Ok (EnsuredInfraConfig m), m).
Definition Mock_SetGetMachineStateErr (err : option error) : M MockProvider unit := fun m =>
  (Ok tt, mkMock (EnsureInfraErr m) err (CreateMachineErr m) (StartMachineErr m) (DeleteMachineErr m)
     (MockMachineAddress m) (GetMachineAddressErr m) (MockMachineState m) (CreatedMachineConfig m) (EnsuredInfraConfig m)).
Definition Mock_SetMachineState (state : DomainState) : M MockProvider unit := fun m =>
  (Ok tt, mkMock (EnsureInfraErr m) (GetMachineStateErr m) (CreateMachineErr m) (StartMachineErr m) (DeleteMachineErr m)
     (MockMachineAddress m) (GetMachineAddressErr m) state (CreatedMachineConfig m) (EnsuredInfraConfig m)).
Definition Mock_SetCreateMachineErr (err : option error) : M MockProvider unit := fun m =>
  (Ok tt, mkMock (EnsureInfraErr m) (GetMachineStateErr m) err (StartMachineErr m) (DeleteMachineErr m)
     (MockMachineAddress m) (GetMachineAddressErr m) (MockMachineState m) (CreatedMachineConfig m) (EnsuredInfraConfig m)).
Definition Mock_SetStartMachineErr (err : option error) : M MockProvider unit := fun m =>
  (Ok tt, mkMock (EnsureInfraErr m) (GetMachineStateErr m) (CreateMachineErr m) err (DeleteMachineErr m)
     (MockMachineAddress m) (GetMachineAddressErr m) (MockMachineState m) (CreatedMachineConfig m) (EnsuredInfraConfig m)).
Definition Mock_SetDeleteMachineErr (err : option error) : M MockProvider unit := fun m =>
  (Ok tt, mkMock (EnsureInfraErr m) (GetMachineStateErr m) (CreateMachineErr m) (StartMachineErr m) err
     (MockMachineAddress m) (GetMachineAddressErr m) (MockMachineState m) (CreatedMachineConfig m) (EnsuredInfraConfig m)).
Definition Mock_GetCreatedMachineConfig : M MockProvider (option MachineConfig) := fun m =>
  (Ok (CreatedMachineConfig m), m).
Definition Mock_SetGetMachineAddressErr (err : option error) : M MockProvider unit := fun m =>
  (Ok tt, mkMock (EnsureInfraErr m) (GetMachineStateErr m) (CreateMachineErr m) (StartMachineErr m) (DeleteMachineErr m)
     (MockMachineAddress m) err (MockMachineState m) (CreatedMachineConfig m) (EnsuredInfraConfig m)).
Definition Mock_SetMachineAddress (address : string) : M MockProvider unit := fun m =>
  (Ok tt, mkMock (EnsureInfraErr m) (GetMachineStateErr m) (CreateMachineErr m) (StartMachineErr m) (DeleteMachineErr m)
     address (GetMachineAddressErr m) (MockMachineState m) (CreatedMachineConfig m) (EnsuredInfraConfig m)).

#[global] Instance MockProvider_provider : provider MockProvider := {
  EnsureInfra := Mock_EnsureInfra;
  GetMachineState := Mock_GetMachineState;
  CreateMachine := Mock_CreateMachine;
  StartMachine := Mock_StartMachine;
  DeleteMachine := Mock_DeleteMachine;
  GetMachineAddress := Mock_GetMachineAddress;
}.

(** ** The history of provider calls

    What a controller asks of its provider, and what it was answered, is the
    list of calls it made.  [provider_trace] reads that list off the world; the
    laws say that a provider call adds itself and that nothing else does. *)
Inductive ProviderCall :=
  | CallEnsureInfra (cfg : InfraConfig) (r : result unit)
  | CallGetMachineState (cfg : MachineConfig) (r : result DomainState)
  | CallCreateMachine (cfg : MachineConfig) (r : result unit)
  | CallStartMachine (cfg : MachineConfig) (r : result unit)
  | CallDeleteMachine (cfg : MachineConfig) (r : result unit)
  | CallGetMachineAddress (cfg : MachineConfig) (r : result string).

Class ProviderTrace (W : Type) := provider_trace : W -> list ProviderCall.

(** [m] adds the call [c r] to the history, [r] being its outcome. *)
Definition Records {W A} `{ProviderTrace W} (c : result A -> ProviderCall) (m : M W A) : Prop :=
  forall w, provider_trace (m w).2 = provider_trace w ++ [c (m w).1].
(** [m] leaves the history as it is. *)
Definition Quiet {W A} `{ProviderTrace W} (m : M W A) : Prop :=
  forall w, provider_trace (m w).2 = provider_trace w.

Class ProviderTraceLaws (W : Type) `{provider W} `{ProviderTrace W} : Prop := {
  EnsureInfra_records cfg : Records (CallEnsureInfra cfg) (EnsureInfra cfg);
  GetMachineState_records cfg : Records (CallGetMachineState cfg) (GetMachineState cfg);
  CreateMachine_records cfg : Records (CallCreateMachine cfg) (CreateMachine cfg);
  StartMachine_records cfg : Records (CallStartMachine cfg) (StartMachine cfg);
  DeleteMachine_records cfg : Records (CallDeleteMachine cfg) (DeleteMachine cfg);
  GetMachineAddress_records cfg : Records (CallGetMachineAddress cfg) (GetMachineAddress cfg);
}.
Class GetSecretQuiet (W : Type) `{ProviderTrace W} `{!Getter W Secret} : Prop :=
  GetSecret_quiet k : Quiet (Get (T := Secret) k).

(** Every provider and every API server can be observed this way: add the
    history to the world. *)
Section Traced.
Context {W : Type}.
Definition Traced : Type := W * list ProviderCall.
Definition record {A} (c : result A -> ProviderCall) (m : M W A) : M Traced A := fun s =>
  match m s.1 with (r, w) => (r, (w, s.2 ++ [c r])) end.
#[global] Instance Traced_trace : ProviderTrace Traced := snd.
#[global] Instance Traced_provider `{provider W} : provider Traced := {
  EnsureInfra cfg := record (CallEnsureInfra cfg) (EnsureInfra cfg);
  GetMachineState cfg := record (CallGetMachineState cfg) (GetMachineState cfg);
  CreateMachine cfg := record (CallCreateMachine cfg) (CreateMachine cfg);
  StartMachine cfg := record (CallStartMachine cfg) (StartMachine cfg);
  DeleteMachine cfg := record (CallDeleteMachine cfg) (DeleteMachine cfg);
  GetMachineAddress cfg := record (CallGetMachineAddress cfg) (GetMachineAddress cfg);
}.
#[global] Instance Traced_Getter `{!Getter W T} : Getter Traced T := fun k => call (Get k).

Lemma record_records {A} (c : result A -> ProviderCall) (m : M W A) : Records c (record c m).
Proof. intros [w t]. unfold record, provider_trace, Traced_trace. cbn. by destruct (m w). Qed.
Lemma call_quiet {A} (m : M W A) : Quiet (W := Traced) (call m).
Proof. intros [w t]. unfold call, provider_trace, Traced_trace. cbn. by destruct (m w). Qed.

#[global] Instance Traced_laws `{provider W} : ProviderTraceLaws Traced.
Proof. split; intros cfg; apply record_records. Qed.
#[global] Instance Traced_secret_quiet `{!Getter W Secret} : GetSecretQuiet Traced.
Proof. intros k. apply call_quiet. Qed.
End Traced.
Arguments Traced W : clear implicits.

(** ** Quiet computations

    The combinators keep the history when their parts do; the hints let
    [auto with quiet] follow the structure of a computation. *)
Section QuietLemmas.
Context {W : Type} `{ProviderTrace W}.
Lemma quiet_ret {A} (a : A) : Quiet (W := W) (mret a).
Proof. by intros w. Qed.
Lemma quiet_fail {A} e : Quiet (W := W) (fail (A := A) e).
Proof. by intros w. Qed.
Lemma quiet_lift {A} (r : result A) : Quiet (W := W) (lift r).
Proof. by intros w. Qed.
Lemma quiet_bind {A B} (m : M W A) (f : A -> M W B) :
  Quiet m -> (forall a, Quiet (f a)) -> Quiet (m ≫= f).
Proof.
  intros Hm Hf w. unfold mbind, M_bind. specialize (Hm w).
  destruct (m w) as [[a|e|] w1]; [|done..]. by rewrite Hf.
Qed.
Lemma quiet_wrap {A} g (m : M W A) : Quiet m -> Quiet (wrap_err g m).
Proof. intros Hm w. specialize (Hm w). unfold wrap_err. by destruct (m w). Qed.
Lemma quiet_try {A} (m : M W A) : Quiet m -> Quiet (try m).
Proof. intros Hm w. specialize (Hm w). unfold try. by destruct (m w) as [[] ?]. Qed.
End QuietLemmas.

Create HintDb quiet.
#[export] Hint Resolve quiet_ret quiet_fail quiet_lift quiet_wrap quiet_try GetSecret_quiet : quiet.
#[export] Hint Extern 2 (Quiet (_ ≫= _)) => apply quiet_bind; [|intros ?] : quiet.
#[export] Hint Extern 3 (Quiet (match ?x with _ => _ end)) => destruct x : quiet.

(** Loading credentials asks nothing of the provider. *)
Lemma Load_quiet {W} `{ProviderTrace W} `{!Getter W Secret} `{!GetSecretQuiet W} l lc :
  Quiet (Load (W := W) l lc).
Proof. unfold Load, loadRef. auto 10 with quiet. Qed.
#[export] Hint Resolve Load_quiet : quiet.
