(* ===== verification/ClusterController.v ===== *)
(** * The LibvirtCluster controller (internal/controller/libvirtcluster_controller.go) *)

From stdpp Require Import base gmap list strings.
From Stdlib Require Import ZArith.
From S2P Require Import Prelude GoStrings Config Api Kube Credentials ProviderInterface.

Local Open Scope Z_scope.

Definition requeueTimeShort : Z := 30 * Second.
Definition requeueTimeMedium : Z := 3 * Minute.
Definition requeueTimeLong : Z := 5 * Minute.

(** [ClusterScope] without the context and the LibvirtCluster pointer, which is
    the object of the reconcile state. *)
Record ClusterScope := mkClusterScope {
  scope_Cluster : Cluster;
  scope_InfraConfig : InfraConfig;
}.

Definition newInfraConfig (libvirtCluster : LibvirtCluster) : InfraConfig := {|
  infra_URI := cspec_URI (lc_Spec libvirtCluster);
  infra_BasePool := cspec_BasePool (lc_Spec libvirtCluster);
  infra_DomainPool := cspec_DomainPool (lc_Spec libvirtCluster);
  infra_Network := cspec_Network (lc_Spec libvirtCluster);
  infra_Credentials := None;
|}.

Definition getInfraError (err : error) : string :=
  match errors_As sel_missing err with
  | Some _ => InfrastructureMissingReason
  | None =>
      match errors_As sel_inactive err with
      | Some _ => InfrastructureInactiveReason
      | None => InfrastructureProvisioningFailedReason
      end
  end.

Section Reconciler.
Context {W : Type} `{!KubeLib W} `{!provider W}.
Context `{!Getter W LibvirtCluster} `{!Getter W Secret} `{!ClusterAPIUtil W} `{!Patcher W LibvirtCluster}.

Definition hasControlPlaneEndpoint (scope : ClusterScope) (libvirtCluster : LibvirtCluster) : bool :=
  APIEndpoint_IsValid (cspec_ControlPlaneEndpoint (lc_Spec libvirtCluster)) ||
  APIEndpoint_IsValid (cluster_ControlPlaneEndpoint (scope_Cluster scope)).

Definition reconcileNormal (l : CredentialsLoader) (scope : ClusterScope) : M (W * LibvirtCluster) Result :=
  libvirtCluster ← object ;
  if annotations_IsPaused (scope_Cluster scope) (lc_ObjectMeta libvirtCluster) then mret noRequeue
  else if negb (ContainsFinalizer (lc_ObjectMeta libvirtCluster) LibvirtClusterFinalizer) then
    update (fun lc => SetObjectMeta lc (AddFinalizer (lc_ObjectMeta lc) LibvirtClusterFinalizer)) ;;
    mret noRequeue
  else if negb (hasControlPlaneEndpoint scope libvirtCluster) then
    set_condition (newCondition ControlPlaneEndpointReadyCondition ConditionFalse
      ControlPlaneEndpointMissingReason
      "Set spec.controlPlaneEndpoint on the LibvirtCluster or the Cluster") ;;
    update (set_cReady false) ;;
    update (set_cProvisioned false) ;;
    mret noRequeue
  else
    set_condition (newCondition ControlPlaneEndpointReadyCondition ConditionTrue
      ControlPlaneEndpointReadyReason "") ;;
    set_condition (newCondition InfrastructureReadyCondition ConditionFalse
      InfrastructureProvisioningInProgressReason "Infrastructure provisioning in progress") ;;
    libvirtCluster ← object ;
    loaded ← try (call (Load l libvirtCluster)) ;
    match loaded with
    | inl err =>
        set_condition (newCondition InfrastructureReadyCondition ConditionFalse
          CredentialsUnavailableReason (error_text err)) ;;
        mret (mkResult requeueTimeShort)
    | inr creds =>
        ensured ← try (call (EnsureInfra (set_Credentials (scope_InfraConfig scope) creds))) ;
        match ensured with
        | inl err =>
            let reason := getInfraError err in
            set_condition (newCondition InfrastructureReadyCondition ConditionFalse
              reason (error_text err)) ;;
            mret (mkResult requeueTimeShort)
        | inr _ =>
            set_condition (newCondition InfrastructureReadyCondition ConditionTrue
              InfrastructureReadyCondition "All infrastructure components are ready") ;;
            update (set_cReady true) ;;
            update (set_cProvisioned true) ;;
            mret noRequeue
        end
    end.

Definition reconcileDelete (scope : ClusterScope) : M (W * LibvirtCluster) Result :=
  libvirtCluster ← object ;
  let '(meta, ok) := RemoveFinalizer (lc_ObjectMeta libvirtCluster) LibvirtClusterFinalizer in
  update (fun lc => SetObjectMeta lc meta) ;;
  if negb ok then
    fail (ErrorString ("unable to remove finalizer " +:+ LibvirtClusterFinalizer +:+
      " from LibvirtCluster  " +:+ meta_Namespace (cluster_ObjectMeta (scope_Cluster scope)) +:+ "/" +:+
      meta_Name (cluster_ObjectMeta (scope_Cluster scope))))
  else mret noRequeue.

Definition Reconcile (l : CredentialsLoader) (req : NamespacedName) : M W Result :=
  got ← try (Get req) ;
  match got with
  | inl err => if apierrors_IsNotFound err then mret noRequeue else fail err
  | inr libvirtCluster =>
      clusterOwner ← GetOwnerCluster (lc_ObjectMeta libvirtCluster) ;
      helper ← NewHelper libvirtCluster ;
      deferred_patch helper libvirtCluster
        match clusterOwner with
        | None => mret noRequeue
        | Some clusterOwner =>
            let scope := mkClusterScope clusterOwner (newInfraConfig libvirtCluster) in
            if negb (Time_IsZero (meta_DeletionTimestamp (lc_ObjectMeta libvirtCluster)))
            then reconcileDelete scope
            else reconcileNormal l scope
        end
  end.
End Reconciler.

(** ** Classifying provider errors *)

(** [x] is [e] itself or an error it wraps, the tree [errors.As] walks. *)
Inductive Wraps : error -> error -> Prop :=
  | wraps_here e : Wraps e e
  | wraps_wrap p e x : Wraps e x -> Wraps (WrapError p e) x
  | wraps_join_l e1 e2 x : Wraps e1 x -> Wraps (JoinError e1 e2) x
  | wraps_join_r e1 e2 x : Wraps e2 x -> Wraps (JoinError e1 e2) x.

Lemma errors_As_Some {T} (sel : error -> option T) e t :
  errors_As sel e = Some t -> exists x, Wraps e x /\ sel x = Some t.
Proof.
  induction e; cbn; destruct (sel _) eqn:Hs; intros Hr; simplify_eq; eauto using Wraps.
  - destruct (IHe Hr) as (x & Hx & Hsx). eauto using Wraps.
  - destruct (errors_As sel e1) eqn:E1; simplify_eq.
    + destruct (IHe1 eq_refl) as (x & Hx & Hsx). eauto using Wraps.
    + destruct (IHe2 Hr) as (x & Hx & Hsx). eauto using Wraps.
Qed.

Lemma errors_As_None {T} (sel : error -> option T) e x :
  errors_As sel e = None -> Wraps e x -> sel x = None.
Proof.
  intros Hn Hw. induction Hw as [e|p e x Hw IH|e1 e2 x Hw IH|e1 e2 x Hw IH].
  - destruct e; cbn in Hn; by destruct (sel _).
  - cbn in Hn. destruct (sel _); [done|]. auto.
  - cbn in Hn. destruct (sel _); [done|]. destruct (errors_As sel e1); [done|]. auto.
  - cbn in Hn. destruct (sel _); [done|]. destruct (errors_As sel e1); [done|]. auto.
Qed.

Lemma errors_As_iff {T} (sel : error -> option T) e :
  (exists t, errors_As sel e = Some t) <-> exists x t, Wraps e x /\ sel x = Some t.
Proof.
  split.
  - intros [t Ht]. destruct (errors_As_Some _ _ _ Ht) as (x & ? & ?). eauto.
  - intros (x & t & Hx & Hs). destruct (errors_As sel e) eqn:E; [eauto|].
    rewrite (errors_As_None _ _ _ E Hx) in Hs. done.
Qed.

(** The condition reason of a failed infrastructure check depends only on
    which infrastructure errors the error wraps, however deep: Missing when a
    missing resource is among them, else Inactive when an inactive one is, else
    the generic failure. *)
Theorem getInfraError_spec e :
  (getInfraError e = InfrastructureMissingReason <-> exists m, Wraps e (InfraMissing m)) /\
  (getInfraError e = InfrastructureInactiveReason <->
     (~ exists m, Wraps e (InfraMissing m)) /\ exists m, Wraps e (InfraInactive m)) /\
  (getInfraError e = InfrastructureProvisioningFailedReason <->
     (~ exists m, Wraps e (InfraMissing m)) /\ ~ exists m, Wraps e (InfraInactive m)).
Proof.
  assert ((exists m, Wraps e (InfraMissing m)) <-> exists t, errors_As sel_missing e = Some t) as ->.
  { rewrite errors_As_iff. split; [intros [m Hm]; by exists (InfraMissing m), m|].
    intros ([] & t & Hx & [=]); eauto. }
  assert ((exists m, Wraps e (InfraInactive m)) <-> exists t, errors_As sel_inactive e = Some t) as ->.
  { rewrite errors_As_iff. split; [intros [m Hm]; by exists (InfraInactive m), m|].
    intros ([] & t & Hx & [=]); eauto. }
  unfold getInfraError.
  destruct (errors_As sel_missing e) as [m|]; [|destruct (errors_As sel_inactive e) as [m|]].
  all: split_and!; split; intros H; try done; eauto;
    repeat match goal with
           | H : _ /\ _ |- _ => destruct H
           | H : exists _, None = Some _ |- _ => destruct H as [? [=]]
           | H : ~ _ |- _ => exfalso; apply H; by eauto
           end.
  all: try (split; [intros [? [=]]|]; eauto); try (intros [? [=]]).
Qed.

(** ** Reconciling a cluster that is not being deleted *)

(** Run [reconcileNormal] symbolically: one goal for each way through it. *)
Ltac run_cluster H :=
  unfold reconcileNormal, mbind, M_bind, object, update, set_condition, call, try, mret, M_ret in H;
  cbn [fst snd] in H;
  let paused := fresh "Hpaused" in let fin := fresh "Hfin" in let cp := fresh "Hcp" in
  let load := fresh "Hload" in let ensure := fresh "Hensure" in
  destruct (annotations_IsPaused _ _) eqn:paused in H;
  [ injection H as <- <- <-
  | destruct (ContainsFinalizer _ _) eqn:fin in H; cbn [negb] in H;
    [ destruct (hasControlPlaneEndpoint _ _) eqn:cp in H; cbn [negb] in H;
      [ destruct (Load _ _ _) as [[?creds|?err|] ?w1] eqn:load in H; cbn [fst snd] in H, load;
        [ destruct (EnsureInfra _ _) as [[[]|?err|] ?w2] eqn:ensure in H; cbn [fst snd] in H | | ]
      | ]
    | ];
    injection H as <- <- <- ].

Section ReconcilerSpec.
Context {W : Type} `{!KubeLib W} `{!provider W} `{!Getter W Secret} `{!ProviderTrace W}.
Context `{!KubeLibLaws W} `{!ProviderTraceLaws W} `{!GetSecretQuiet W}.

(** The finalizer is on the object, the cluster is not paused and an endpoint is
    known: what has to hold before the provider is asked. *)
Definition infra_checked (scope : ClusterScope) (lc : LibvirtCluster) : Prop :=
  annotations_IsPaused (scope_Cluster scope) (lc_ObjectMeta lc) = false /\
  LibvirtClusterFinalizer ∈ meta_Finalizers (lc_ObjectMeta lc) /\
  hasControlPlaneEndpoint scope lc = true.

Definition infra_condition (lc : LibvirtCluster) : option (ConditionStatus * string * string) :=
  condition_of InfrastructureReadyCondition (GetConditions lc).

Lemma Load_trace l lc w r w1 : Load l lc w = (r, w1) -> provider_trace w1 = provider_trace w.
Proof. intros H. pose proof (Load_quiet l lc w) as Hq. by rewrite H in Hq. Qed.

Lemma EnsureInfra_trace cfg w r w1 :
  EnsureInfra cfg w = (r, w1) -> provider_trace w1 = provider_trace w ++ [CallEnsureInfra cfg r].
Proof. intros H. pose proof (EnsureInfra_records cfg w) as Hq. by rewrite H in Hq. Qed.

Lemma infra_condition_cReady b lc : infra_condition (set_cReady b lc) = infra_condition lc.
Proof. done. Qed.
Lemma infra_condition_cProvisioned b lc : infra_condition (set_cProvisioned b lc) = infra_condition lc.
Proof. done. Qed.
Lemma infra_condition_set w lc cs s r m :
  infra_condition (SetConditions lc (conditions_Set w cs (newCondition InfrastructureReadyCondition s r m)))
  = Some (s, r, m).
Proof. apply (conditions_Set_same w cs (newCondition InfrastructureReadyCondition s r m)). Qed.
Lemma infra_condition_other w lc t s r m :
  NoDup (map cond_Type (GetConditions lc)) -> t <> InfrastructureReadyCondition ->
  infra_condition (SetConditions lc (conditions_Set w (GetConditions lc) (newCondition t s r m)))
  = infra_condition lc.
Proof.
  intros Hnd Ht.
  apply (conditions_Set_other w (GetConditions lc) (newCondition t s r m) InfrastructureReadyCondition Hnd).
  cbn. congruence.
Qed.
Create Rewrite HintDb infra.
#[local] Hint Rewrite infra_condition_cReady infra_condition_cProvisioned infra_condition_set : infra.

(** C23: the provider is asked at most once, and only for a cluster that is not
    paused, carries the finalizer and has an endpoint, with the configuration of
    the spec and the loaded credentials; Ready and Provisioned become true only
    when that check succeeded, and when it succeeds both are true, the
    InfrastructureReady condition is True and nothing is requeued. *)
Theorem cluster_ready_sound l scope w lc r w' lc' :
  reconcileNormal l scope (w, lc) = (r, (w', lc')) ->
  exists calls, provider_trace w' = provider_trace w ++ calls /\
    (calls = [] \/
     exists creds w1 res, infra_checked scope lc /\ Load l lc w = (Ok creds, w1) /\
       calls = [CallEnsureInfra (set_Credentials (scope_InfraConfig scope) creds) res]) /\
    (cstatus_Ready (lc_Status lc') = true ->
       cstatus_Ready (lc_Status lc) = true \/ exists cfg, calls = [CallEnsureInfra cfg (Ok tt)]) /\
    (cstatus_Provisioned (lc_Status lc') = true ->
       cstatus_Provisioned (lc_Status lc) = true \/ exists cfg, calls = [CallEnsureInfra cfg (Ok tt)]) /\
    (forall cfg, calls = [CallEnsureInfra cfg (Ok tt)] ->
       r = Ok noRequeue /\ cstatus_Ready (lc_Status lc') = true /\
       cstatus_Provisioned (lc_Status lc') = true /\
       infra_condition lc' =
         Some (ConditionTrue, InfrastructureReadyReason, "All infrastructure components are ready")).
Proof.
  intros H. run_cluster H.
  all: try (apply ContainsFinalizer_iff in Hfin).
  all: try (change (Load l _ w) with (Load l lc w) in Hload; pose proof (Load_trace _ _ _ _ _ Hload) as Htr).
  all: try (pose proof (EnsureInfra_trace _ _ _ _ Hensure) as Htr'; rewrite Htr in Htr').
  all: try (exists []; rewrite app_nil_r; split_and!; by auto).
  all: eexists; (split; [eassumption|]).
  all: split_and!; [right; eexists _, _, _; split_and!; [done..|reflexivity]
                   |intros Hr; by eauto|intros Hr; by eauto|try (intros cfg [=])].
  split_and!; [done..|]. by autorewrite with infra.
Qed.

Definition same_readiness (lc lc' : LibvirtCluster) : Prop :=
  cstatus_Ready (lc_Status lc') = cstatus_Ready (lc_Status lc) /\
  cstatus_Provisioned (lc_Status lc') = cstatus_Provisioned (lc_Status lc).

(** C36: a failure is reported, never lost: when the credentials cannot be loaded
    or the infrastructure check fails, the reconcile still succeeds, asks to be
    run again after 30 seconds and leaves the InfrastructureReady condition
    False with the reason and the text of that error, while the ready and
    provisioned flags keep the values they had; a cluster without an endpoint is
    marked not ready. *)
Theorem cluster_failure_reported l scope w lc :
  NoDup (map cond_Type (GetConditions lc)) ->
  annotations_IsPaused (scope_Cluster scope) (lc_ObjectMeta lc) = false ->
  LibvirtClusterFinalizer ∈ meta_Finalizers (lc_ObjectMeta lc) ->
  let '(r, (w', lc')) := reconcileNormal l scope (w, lc) in
  (hasControlPlaneEndpoint scope lc = false ->
     r = Ok noRequeue /\ w' = w /\
     cstatus_Ready (lc_Status lc') = false /\ cstatus_Provisioned (lc_Status lc') = false /\
     infra_condition lc' = infra_condition lc) /\
  (hasControlPlaneEndpoint scope lc = true ->
     (forall e w1, Load l lc w = (Err e, w1) ->
        r = Ok (mkResult requeueTimeShort) /\ w' = w1 /\
        infra_condition lc' = Some (ConditionFalse, CredentialsUnavailableReason, error_text e) /\
        same_readiness lc lc') /\
     (forall creds w1 e w2,
        Load l lc w = (Ok creds, w1) ->
        EnsureInfra (set_Credentials (scope_InfraConfig scope) creds) w1 = (Err e, w2) ->
        r = Ok (mkResult requeueTimeShort) /\ w' = w2 /\
        infra_condition lc' = Some (ConditionFalse, getInfraError e, error_text e) /\
        same_readiness lc lc')).
Proof.
  intros Hnd Hp Hf. apply ContainsFinalizer_iff in Hf.
  destruct (reconcileNormal l scope (w, lc)) as [r [w' lc']] eqn:H. run_cluster H; try congruence.
  all: try (change (Load l _ w) with (Load l lc w) in Hload).
  all: split; [intros Hcp'; try congruence|intros Hcp'; split; [intros e' w1' Hl|intros creds' w1' e' w2' Hl He]; try congruence].
  all: try rewrite Hload in Hl; simplify_eq; try (rewrite Hensure in He; simplify_eq).
  all: split_and!; try done; autorewrite with infra; try done.
  by apply infra_condition_other.
Qed.

(** Reconciling never changes the spec, and of the metadata only the
    finalizer list, which only grows, by the controller's own finalizer; without
    that finalizer nothing else happens: no status is written and the provider
    is not asked. *)
Theorem cluster_reconcile_frame l scope w lc r w' lc' :
  reconcileNormal l scope (w, lc) = (r, (w', lc')) ->
  lc_Spec lc' = lc_Spec lc /\
  (lc_ObjectMeta lc' = lc_ObjectMeta lc \/
   LibvirtClusterFinalizer ∉ meta_Finalizers (lc_ObjectMeta lc) /\
   lc_ObjectMeta lc' = with_finalizers (lc_ObjectMeta lc)
     (meta_Finalizers (lc_ObjectMeta lc) ++ [LibvirtClusterFinalizer])) /\
  (LibvirtClusterFinalizer ∉ meta_Finalizers (lc_ObjectMeta lc) ->
     r = Ok noRequeue /\ w' = w /\ lc_Status lc' = lc_Status lc).
Proof.
  intros H. run_cluster H; (split; [done|]).
  all: try (apply ContainsFinalizer_iff in Hfin).
  all: try (split; [by left|]; done).
  assert (LibvirtClusterFinalizer ∉ meta_Finalizers (lc_ObjectMeta lc)) as Hni.
  { rewrite <- ContainsFinalizer_iff. by rewrite Hfin. }
  split; [right|done]. split; [done|]. cbn [lc_ObjectMeta SetObjectMeta LibvirtCluster_Object].
  rewrite AddFinalizer_law. by rewrite bool_decide_eq_false_2.
Qed.

(** Deleting a cluster asks nothing of the libvirt host: it removes the
    controller's finalizer from the object and keeps everything else, and fails
    exactly when that finalizer was not there. *)
Theorem cluster_delete_spec scope w lc r w' lc' :
  reconcileDelete scope (w, lc) = (r, (w', lc')) ->
  w' = w /\ lc_Spec lc' = lc_Spec lc /\ lc_Status lc' = lc_Status lc /\
  LibvirtClusterFinalizer ∉ meta_Finalizers (lc_ObjectMeta lc') /\
  (forall f, f <> LibvirtClusterFinalizer ->
     f ∈ meta_Finalizers (lc_ObjectMeta lc') <-> f ∈ meta_Finalizers (lc_ObjectMeta lc)) /\
  (is_ok r = true <-> LibvirtClusterFinalizer ∈ meta_Finalizers (lc_ObjectMeta lc)).
Proof.
  unfold reconcileDelete, mbind, M_bind, object, update, mret, M_ret, fail. cbn [fst snd].
  rewrite RemoveFinalizer_law. set (b := bool_decide _).
  assert (b = true <-> LibvirtClusterFinalizer ∈ meta_Finalizers (lc_ObjectMeta lc)) as Hb
    by apply bool_decide_eq_true.
  intros H. destruct b; cbn [negb] in H; injection H as <- <- <-;
    cbn [lc_ObjectMeta lc_Spec lc_Status SetObjectMeta LibvirtCluster_Object with_finalizers
         meta_Finalizers is_ok].
  all: split_and!; try done; try (intros f Hf); rewrite ?list_elem_of_filter; tauto.
Qed.
End ReconcilerSpec.
