(* ===== verification/MachineController.v ===== *)
(** * The LibvirtMachine controller (internal/controller/libvirtmachine_controller.go) *)

From stdpp Require Import base gmap list strings.
From Stdlib Require Import ZArith Lia Ascii.
From S2P Require Import Prelude GoStrings GoHash Config Api Kube Credentials ProviderInterface.
From S2P Require Import ClusterController.

Local Open Scope Z_scope.

Definition providerIDPrefix : string := "libvirt://".
Definition domainNameMaxLength : Z := 63.
Definition domainNameHashLength : Z := 6.
Definition domainNameSeparator : string := "-".
Definition domainStateCheckInterval : Z := 1 * Minute.

(** ** Identity of a machine *)

(** [s[:n]] for a string at least [n] bytes long *)
Definition str_prefix (n : Z) (s : string) : string := str (take (Z.to_nat n) (chars s)).

Definition domainName (libvirtMachine : LibvirtMachine) : string :=
  let namespace := meta_Namespace (lm_ObjectMeta libvirtMachine) in
  let name := meta_Name (lm_ObjectMeta libvirtMachine) in
  let sum := Sha256.Sum256 (bytes_of (namespace +:+ "/" +:+ name)) in
  let hash := str_prefix domainNameHashLength (hex_EncodeToString sum) in
  let name := strings_ReplaceAll name "." domainNameSeparator in
  let prefix := namespace +:+ domainNameSeparator +:+ name in
  let maxPrefixLength := domainNameMaxLength - len domainNameSeparator - domainNameHashLength in
  let prefix :=
    if len prefix >? maxPrefixLength
    then strings_TrimRight (str_prefix maxPrefixLength prefix) domainNameSeparator
    else prefix in
  prefix +:+ domainNameSeparator +:+ hash.

Definition domainUUID (libvirtMachine : LibvirtMachine) : string :=
  match mspec_ProviderID (lm_Spec libvirtMachine) with
  | None => meta_UID (lm_ObjectMeta libvirtMachine)
  | Some providerID => strings_TrimPrefix providerID providerIDPrefix
  end.

Definition setProviderID (libvirtMachine : LibvirtMachine) : LibvirtMachine :=
  match mspec_ProviderID (lm_Spec libvirtMachine) with
  | Some _ => libvirtMachine
  | None => set_mProviderID (Some (providerIDPrefix +:+ domainUUID libvirtMachine)) libvirtMachine
  end.

(** The conversions [uint(x)] and [uint64(x)] of an [int32], on a 64-bit target. *)
Definition uint_of_int32 (x : Z) : Z := x mod 2 ^ 64.

Definition newMachineConfig (libvirtMachine : LibvirtMachine) (libvirtCluster : LibvirtCluster)
    : MachineConfig := {|
  cfg_InfraConfig := {|
    infra_URI := cspec_URI (lc_Spec libvirtCluster);
    infra_BasePool := cspec_BasePool (lc_Spec libvirtCluster);
    infra_DomainPool := cspec_DomainPool (lc_Spec libvirtCluster);
    infra_Network := cspec_Network (lc_Spec libvirtCluster);
    infra_Credentials := None;
  |};
  cfg_DomainName := domainName libvirtMachine;
  cfg_DomainUUID := domainUUID libvirtMachine;
  cfg_Hostname := meta_Name (lm_ObjectMeta libvirtMachine);
  cfg_BaseImage := mspec_Image (lm_Spec libvirtMachine);
  cfg_MemoryMiB := uint_of_int32 (mspec_MemoryMiB (lm_Spec libvirtMachine));
  cfg_VCPU := uint_of_int32 (mspec_VCPU (lm_Spec libvirtMachine));
  cfg_DiskSize := uint_of_int32 (mspec_DiskGiB (lm_Spec libvirtMachine));
  cfg_UserData := "";
|}.

(** ** The reconciler *)

(** [MachineScope] without the context, the client and the LibvirtMachine
    pointer, which is the object of the reconcile state. *)
Record MachineScope := mkMachineScope {
  mscope_Cluster : Cluster;
  mscope_Machine : Machine;
  mscope_LibvirtCluster : LibvirtCluster;
  mscope_MachineConfig : MachineConfig;
}.

Section Reconciler.
Context {W : Type} `{!KubeLib W} `{!provider W}.
Context `{!Getter W LibvirtCluster} `{!Getter W LibvirtMachine} `{!Getter W Secret}.
Context `{!ClusterAPIUtil W} `{!Patcher W LibvirtMachine}.

(** [dataSecretName] is the pointer the caller found not to be nil. *)
Definition getCloudInitData (scope : MachineScope) (dataSecretName : string) : M W string :=
  let dataSecretNamespacedName :=
    mkNN (meta_Namespace (machine_ObjectMeta (mscope_Machine scope))) dataSecretName in
  dataSecret ← Get (T := Secret) dataSecretNamespacedName ;
  match secret_Data dataSecret !! "value" with
  | None => fail (ErrorString ("no userData key found in secret " +:+
                    NamespacedName_String dataSecretNamespacedName))
  | Some userData => mret userData
  end.

Definition observeMachineAddress (scope : MachineScope) : M (W * LibvirtMachine) Result :=
  got ← try (call (GetMachineAddress (mscope_MachineConfig scope))) ;
  match got with
  | inl _ => mret (mkResult requeueTimeShort)
  | inr address =>
      if bool_decide (address = "") then mret (mkResult requeueTimeShort)
      else
        update (set_mAddresses [mkMachineAddress MachineInternalIP address]) ;;
        mret (mkResult domainStateCheckInterval)
  end.

Definition reconcileLostDomain (scope : MachineScope) : M (W * LibvirtMachine) Result :=
  update (set_mReady false) ;;
  update (set_mAddresses []) ;;
  set_condition (newCondition DomainRunningCondition ConditionFalse DomainNotFoundReason
    ("Domain " +:+ cfg_DomainName (mscope_MachineConfig scope) +:+
     " was deleted on the libvirt host, delete the Machine to replace it")) ;;
  mret (mkResult domainStateCheckInterval).

(** The [missing] case of the switch in [reconcileNormal] for a machine that has
    no provider ID yet. *)
Definition createMissingDomain (scope : MachineScope) : M (W * LibvirtMachine) Result :=
  update (set_mReady false) ;;
  update (set_mProvisioned false) ;;
  set_condition (newCondition DomainProvisioningReadyCondition ConditionFalse
    DomainProvisioningInProgressReason "Domain provisioning in progress") ;;
  match machine_DataSecretName (mscope_Machine scope) with
  | None =>
      update (set_mReady false) ;;
      mret (mkResult (1 * Minute))
  | Some dataSecretName =>
      cloudInitUserData ←
        wrap_err (WrapError "error during getting cloud init user data")
          (call (getCloudInitData scope dataSecretName)) ;
      let cfg := set_UserData (mscope_MachineConfig scope) cloudInitUserData in
      created ← try (call (CreateMachine cfg)) ;
      match created with
      | inl err =>
          set_condition (newCondition DomainProvisioningReadyCondition ConditionFalse
            DomainProvisioningFailedReason ("Failed to create Domain: " +:+ error_text err)) ;;
          fail err
      | inr _ =>
          update setProviderID ;;
          set_condition (newCondition MachineCreatedCondition ConditionTrue MachineCreatedCondition "") ;;
          update (set_mReady true) ;;
          update (set_mProvisioned true) ;;
          mret noRequeue
      end
  end.

(** The [stopped] case. *)
Definition startStoppedDomain (scope : MachineScope) : M (W * LibvirtMachine) Result :=
  update (set_mReady false) ;;
  set_condition (newCondition DomainRunningCondition ConditionFalse DomainNotRunningReason
    "Domain is stopped, starting it") ;;
  started ← try (call (StartMachine (mscope_MachineConfig scope))) ;
  match started with
  | inl err =>
      set_condition (newCondition DomainRunningCondition ConditionFalse DomainNotRunningReason
        ("Failed start Domain: " +:+ error_text err)) ;;
      fail err
  | inr _ =>
      update setProviderID ;;
      update (set_mReady true) ;;
      update (set_mProvisioned true) ;;
      mret (mkResult requeueTimeShort)
  end.

(** The [running] case. *)
Definition observeRunningDomain (scope : MachineScope) : M (W * LibvirtMachine) Result :=
  set_condition (newCondition DomainRunningCondition ConditionTrue DomainRunningCondition
    "Domain is running") ;;
  update setProviderID ;;
  update (set_mReady true) ;;
  update (set_mProvisioned true) ;;
  observeMachineAddress scope.

Definition reconcileNormal (scope : MachineScope) : M (W * LibvirtMachine) Result :=
  libvirtMachine ← object ;
  if annotations_IsPaused (mscope_Cluster scope) (lm_ObjectMeta libvirtMachine) then
    update (set_mReady false) ;;
    update (set_mProvisioned false) ;;
    mret noRequeue
  else if negb (ContainsFinalizer (lm_ObjectMeta libvirtMachine) LibvirtMachineFinalizer) &&
          Time_IsZero (meta_DeletionTimestamp (lm_ObjectMeta libvirtMachine)) then
    update (fun lm => SetObjectMeta lm (AddFinalizer (lm_ObjectMeta lm) LibvirtMachineFinalizer)) ;;
    update (set_mReady false) ;;
    update (set_mProvisioned false) ;;
    mret noRequeue
  else if match cluster_InfrastructureProvisioned (mscope_Cluster scope) with
          | None => true
          | Some b => negb b
          end then
    update (set_mReady false) ;;
    update (set_mProvisioned false) ;;
    set_condition (newCondition InfrastructureReadyCondition ConditionFalse
      InfrastructureProvisioningInProgressReason "Waiting for cluster infrastructure to be ready") ;;
    mret (mkResult requeueTimeShort)
  else
    set_condition (newCondition InfrastructureReadyCondition ConditionTrue
      InfrastructureReadyReason "Cluster infrastructure is ready") ;;
    state ← call (GetMachineState (mscope_MachineConfig scope)) ;
    if bool_decide (state = DomainStateNotFound) then
      libvirtMachine ← object ;
      match mspec_ProviderID (lm_Spec libvirtMachine) with
      | Some _ => reconcileLostDomain scope
      | None => createMissingDomain scope
      end
    else if bool_decide (state = DomainStateStopped) then startStoppedDomain scope
    else if bool_decide (state = DomainStateRunning) then observeRunningDomain scope
    else if bool_decide (state = DomainStateUnknown) then
      update (set_mReady false) ;;
      update (set_mProvisioned false) ;;
      mret (mkResult requeueTimeShort)
    else mret noRequeue.

Definition reconcileDelete (scope : MachineScope) : M (W * LibvirtMachine) Result :=
  call (DeleteMachine (mscope_MachineConfig scope)) ;;
  libvirtMachine ← object ;
  let '(meta, ok) := RemoveFinalizer (lm_ObjectMeta libvirtMachine) LibvirtMachineFinalizer in
  update (fun lm => SetObjectMeta lm meta) ;;
  if negb ok then
    fail (ErrorString ("unable to remove finalizer " +:+ LibvirtMachineFinalizer +:+
      " from LibvirtMachine  " +:+ meta_Namespace (machine_ObjectMeta (mscope_Machine scope)) +:+ "/" +:+
      meta_Name (machine_ObjectMeta (mscope_Machine scope))))
  else mret noRequeue.

(** The part of [Reconcile] that runs under the deferred patch. *)
Definition reconcileOwned (l : CredentialsLoader) (libvirtMachine : LibvirtMachine)
    : M (W * LibvirtMachine) Result :=
  ownerMachine ← call (GetOwnerMachine (lm_ObjectMeta libvirtMachine)) ;
  match ownerMachine with
  | None => mret (mkResult requeueTimeShort)
  | Some ownerMachine =>
      ownerCluster ← call (GetClusterFromMetadata (machine_ObjectMeta ownerMachine)) ;
      match ownerCluster with
      | None => mret noRequeue
      | Some ownerCluster =>
          let libvirtClusterKey :=
            mkNN (meta_Namespace (cluster_ObjectMeta ownerCluster))
              (cluster_InfrastructureRefName ownerCluster) in
          libvirtCluster ← call (Get (T := LibvirtCluster) libvirtClusterKey) ;
          creds ← call (Load l libvirtCluster) ;
          let machineConfig :=
            set_cfg_Credentials (newMachineConfig libvirtMachine libvirtCluster) creds in
          let scope := mkMachineScope ownerCluster ownerMachine libvirtCluster machineConfig in
          if negb (Time_IsZero (meta_DeletionTimestamp (lm_ObjectMeta libvirtMachine)))
          then reconcileDelete scope
          else reconcileNormal scope
      end
  end.

Definition Reconcile (l : CredentialsLoader) (req : NamespacedName) : M W Result :=
  got ← try (Get req) ;
  match got with
  | inl err => if apierrors_IsNotFound err then mret noRequeue else fail err
  | inr libvirtMachine =>
      helper ← NewHelper libvirtMachine ;
      deferred_patch helper libvirtMachine (reconcileOwned l libvirtMachine)
  end.
End Reconciler.

(** ** The domain name *)

Definition is_lower_alnum (c : ascii) : Prop :=
  97 <= byte_of c <= 122 \/ 48 <= byte_of c <= 57.
Definition is_label_char (c : ascii) : Prop := is_lower_alnum c \/ c = "-"%char.

(** RFC 1123: the names Kubernetes accepts for namespaces (labels) and for
    objects (subdomains, of which only the characters and the first one matter
    here). *)
Definition dns_label (s : string) : Prop :=
  0 < len s <= 63 /\ Forall is_label_char (chars s) /\
  (forall c, head (chars s) = Some c -> is_lower_alnum c) /\
  (forall c, last (chars s) = Some c -> is_lower_alnum c).
Definition dns_subdomain_chars (s : string) : Prop :=
  Forall (fun c => is_label_char c \/ c = "."%char) (chars s).

Lemma drop_set_suffix cut l : exists k, l = k ++ drop_set cut l.
Proof.
  induction l as [|c l [k IH]]; [by exists []|]. cbn. case_decide; [|by exists []].
  exists (c :: k). cbn. by rewrite <- IH.
Qed.

Lemma drop_set_nil cut l : drop_set cut l = [] -> Forall (.∈ cut) l.
Proof. induction l as [|c l IH]; [done|]. cbn. case_decide; [|done]. intros H'. constructor; auto. Qed.

(** Trimming on the right leaves a prefix; it only empties a string of cut characters. *)
Lemma TrimRight_prefix s cut : exists k, chars s = chars (strings_TrimRight s cut) ++ k.
Proof.
  unfold strings_TrimRight. rewrite chars_str.
  destruct (drop_set_suffix (chars cut) (rev (chars s))) as [k Hk]. exists (rev k).
  rewrite <- rev_app_distr, <- Hk. by rewrite rev_involutive.
Qed.
Lemma TrimRight_nil s cut : chars (strings_TrimRight s cut) = [] -> Forall (.∈ chars cut) (chars s).
Proof.
  unfold strings_TrimRight. rewrite chars_str. intros H.
  assert (drop_set (chars cut) (rev (chars s)) = []) as Hd.
  { rewrite <- (rev_involutive (drop_set _ _)). by rewrite H. }
  apply drop_set_nil in Hd. rewrite <- (rev_involutive (chars s)). by apply Forall_rev.
Qed.

Lemma hexdigit_alnum d : 0 <= d < 16 -> is_lower_alnum (hexdigit d).
Proof.
  intros Hd. unfold is_lower_alnum, hexdigit.
  destruct (Z.ltb_spec d 10); rewrite byte_of_char_of, Z.mod_small by lia; lia.
Qed.

(** The hash suffix: the first three bytes of the digest, in hexadecimal. *)
Lemma hash_suffix bs :
  length bs = 32%nat -> Forall (fun b => 0 <= b < 256) bs ->
  exists a b c, take 3 bs = [a; b; c] /\ 0 <= a < 256 /\ 0 <= b < 256 /\ 0 <= c < 256 /\
    chars (str_prefix domainNameHashLength (hex_EncodeToString bs)) = hex2 a ++ hex2 b ++ hex2 c.
Proof.
  intros Hlen Hr. destruct bs as [|a [|b [|c bs]]]; try discriminate Hlen.
  repeat (apply Forall_cons in Hr as [? Hr]). exists a, b, c. split_and!; [done|lia..|].
  unfold str_prefix, hex_EncodeToString. by rewrite !chars_str.
Qed.

Lemma hex2_alnum b : 0 <= b < 256 -> Forall is_lower_alnum (hex2 b).
Proof.
  intros Hb. apply Forall_cons; split; [|apply Forall_cons; split; [|done]]; apply hexdigit_alnum; solve_div.
Qed.

(** The part of the domain name before the hash. *)
Definition domainName_prefix (lm : LibvirtMachine) : string :=
  let full := meta_Namespace (lm_ObjectMeta lm) +:+ domainNameSeparator +:+
              strings_ReplaceAll (meta_Name (lm_ObjectMeta lm)) "." domainNameSeparator in
  if len full >? 56 then strings_TrimRight (str_prefix 56 full) domainNameSeparator else full.
Definition machine_digest (lm : LibvirtMachine) : list Z :=
  Sha256.Sum256 (bytes_of (meta_Namespace (lm_ObjectMeta lm) +:+ "/" +:+ meta_Name (lm_ObjectMeta lm))).

Lemma domainName_eq lm : exists a b c,
  take 3 (machine_digest lm) = [a; b; c] /\ 0 <= a < 256 /\ 0 <= b < 256 /\ 0 <= c < 256 /\
  chars (domainName lm) = chars (domainName_prefix lm) ++ "-"%char :: hex2 a ++ hex2 b ++ hex2 c.
Proof.
  destruct (hash_suffix (machine_digest lm)) as (a & b & c & H3 & Ha & Hb & Hc & Hh).
  { apply Sha256.length_Sum256. } { apply Sha256.Sum256_range. }
  exists a, b, c. split_and!; [done|lia..|].
  unfold domainName. rewrite !chars_app. fold (machine_digest lm). rewrite Hh. done.
Qed.

Lemma ReplaceAll_label name :
  dns_subdomain_chars name -> Forall is_label_char (chars (strings_ReplaceAll name "." "-")).
Proof.
  unfold dns_subdomain_chars, strings_ReplaceAll. rewrite chars_str.
  induction 1 as [|c l Hc Hl IH]; [constructor|]. cbn [map concat]. apply Forall_app. split; [|done].
  case_decide as Hdot; [apply Forall_singleton; by right|]. apply Forall_singleton. tauto.
Qed.

Lemma domainName_prefix_spec lm :
  dns_label (meta_Namespace (lm_ObjectMeta lm)) ->
  dns_subdomain_chars (meta_Name (lm_ObjectMeta lm)) ->
  Forall is_label_char (chars (domainName_prefix lm)) /\ len (domainName_prefix lm) <= 56 /\
  exists c, head (chars (domainName_prefix lm)) = Some c /\ is_lower_alnum c.
Proof.
  intros (Hlen & Hchars & Hhead & _) Hname. unfold domainName_prefix. set (full := _ +:+ _).
  assert (Forall is_label_char (chars full)) as Hfull.
  { unfold full. rewrite !chars_app. rewrite !Forall_app. split_and!; [done| |by apply ReplaceAll_label].
    apply Forall_singleton. by right. }
  destruct (chars (meta_Namespace (lm_ObjectMeta lm))) as [|c0 ns] eqn:Ens.
  { unfold len in Hlen. rewrite Ens in Hlen. cbn in Hlen. lia. }
  specialize (Hhead c0 eq_refl).
  assert (exists rest, chars full = c0 :: rest) as [rest Hc0].
  { unfold full. rewrite chars_app, Ens. by eexists. }
  destruct (Z.gtb_spec (len full) 56) as [Hgt|Hle].
  2: { split_and!; [done|lia|]. rewrite Hc0. eauto. }
  destruct (TrimRight_prefix (str_prefix 56 full) domainNameSeparator) as [k Hk].
  unfold str_prefix in Hk at 1. rewrite chars_str in Hk.
  assert (Forall is_label_char (take (Z.to_nat 56) (chars full))) as Htake by (by apply Forall_take).
  rewrite Hk in Htake. apply Forall_app in Htake as [Hpre _].
  split; [done|]. apply (f_equal length) in Hk as Hl. rewrite length_app, length_take in Hl.
  split; [unfold len; lia|].
  destruct (chars (strings_TrimRight (str_prefix 56 full) domainNameSeparator)) as [|c l] eqn:Et.
  - apply TrimRight_nil in Et. unfold str_prefix in Et. rewrite chars_str, Hc0 in Et.
    apply Forall_cons in Et as [Hdash _]. apply list_elem_of_singleton in Hdash as ->.
    unfold is_lower_alnum in Hhead. vm_compute in Hhead. destruct Hhead as [[[] _]|[[] _]]; done.
  - rewrite Hc0 in Hk. change (Z.to_nat 56) with (S 55) in Hk. injection Hk as -> _. eauto.
Qed.

(** C37: the libvirt domain name of a machine is always a valid DNS label (at most
    63 lower-case alphanumerics and dashes, alphanumeric at both ends), whatever
    the lengths of its namespace and name and whether the name has dots, so it
    can be used as the DHCP host name. *)
Theorem domainName_dns_label lm :
  dns_label (meta_Namespace (lm_ObjectMeta lm)) ->
  dns_subdomain_chars (meta_Name (lm_ObjectMeta lm)) ->
  dns_label (domainName lm).
Proof.
  intros Hns Hname. destruct (domainName_prefix_spec lm Hns Hname) as (Hp & Hlen & c0 & Hc0 & Hal).
  destruct (domainName_eq lm) as (a & b & c & _ & Ha & Hb & Hc & Heq).
  assert (Forall is_lower_alnum (hex2 a ++ hex2 b ++ hex2 c)) as Hhex.
  { rewrite !Forall_app. auto using hex2_alnum. }
  unfold dns_label, len in *. rewrite Heq. rewrite length_app. cbn [length hex2 app].
  split_and!; [lia|lia| | |].
  - apply Forall_app. split; [done|]. apply Forall_cons. split; [by right|].
    eapply Forall_impl; [exact Hhex|]. by left.
  - intros c' Hc'. destruct (chars (domainName_prefix lm)); [done|]. cbn in Hc', Hc0. congruence.
  - intros c' Hc'. rewrite last_app in Hc'. cbn [last] in Hc'. injection Hc' as <-.
    apply hexdigit_alnum. solve_div.
Qed.

(** Two machines get the same domain name exactly when the readable prefixes
    agree and the first 24 bits of the SHA-256 digests of their namespaced names
    do; the readable part alone never makes two machines share a domain. *)
Theorem domainName_collision lm1 lm2 :
  domainName lm1 = domainName lm2 <->
  domainName_prefix lm1 = domainName_prefix lm2 /\
  take 3 (machine_digest lm1) = take 3 (machine_digest lm2).
Proof.
  destruct (domainName_eq lm1) as (a & b & c & H3 & Ha & Hb & Hc & Heq).
  destruct (domainName_eq lm2) as (a' & b' & c' & H3' & Ha' & Hb' & Hc' & Heq').
  rewrite H3, H3'. split.
  - intros H. apply (f_equal chars) in H. rewrite Heq, Heq' in H.
    apply app_inj_2 in H as [Hp H]; [|done]. injection H as Ha1 Ha2 Hb1 Hb2 Hc1 Hc2.
    split; [by apply chars_inj|]. repeat f_equal; apply hex2_inj; try done; unfold hex2; congruence.
  - intros [Hp [= -> -> ->]]. apply chars_inj. by rewrite Heq, Heq', Hp.
Qed.

(** ** Reconciling a machine that is not being deleted *)

Lemma domainUUID_setProviderID lm : domainUUID (setProviderID lm) = domainUUID lm.
Proof.
  unfold setProviderID, domainUUID. destruct (mspec_ProviderID (lm_Spec lm)) eqn:E; [by rewrite E|].
  apply TrimPrefix_app.
Qed.

(** One step of a symbolic run of [reconcileNormal]: the next test or call. *)
Ltac machine_step H :=
  match type of H with
  | context [annotations_IsPaused ?c ?m] => destruct (annotations_IsPaused c m) eqn:Hpaused
  | context [ContainsFinalizer ?m ?f] => destruct (ContainsFinalizer m f) eqn:Hfin
  | context [Time_IsZero ?t] => destruct (Time_IsZero t) eqn:Hzero
  | context [cluster_InfrastructureProvisioned ?c] =>
      destruct (cluster_InfrastructureProvisioned c) as [[]|] eqn:Hinfra
  | context [GetMachineState ?c ?w] => destruct (GetMachineState c w) as [[state|?err|] ?w1] eqn:Hstate
  | context [bool_decide (?s = ?d)] => destruct (bool_decide_reflect (s = d)) as [?Hst|?Hst]
  | context [match mspec_ProviderID ?s with _ => _ end] => destruct (mspec_ProviderID s) eqn:Hid
  | context [machine_DataSecretName ?m] => destruct (machine_DataSecretName m) as [?name|] eqn:Hname
  | context [getCloudInitData ?s ?n ?w] =>
      destruct (getCloudInitData s n w) as [[data|?err|] ?w2] eqn:Hdata
  | context [CreateMachine ?c ?w] => destruct (CreateMachine c w) as [[[]|?err|] ?w3] eqn:Hcreate
  | context [StartMachine ?c ?w] => destruct (StartMachine c w) as [[[]|?err|] ?w3] eqn:Hstart
  | context [GetMachineAddress ?c ?w] => destruct (GetMachineAddress c w) as [[addr|?err|] ?w3] eqn:Haddr
  end; cbn [fst snd negb andb map_err] in *.
Ltac run_machine H :=
  unfold reconcileNormal, reconcileLostDomain, createMissingDomain, startStoppedDomain,
    observeRunningDomain, observeMachineAddress, mbind, M_bind, object, update, set_condition, call,
    try, wrap_err, mret, M_ret, fail in H;
  cbn [fst snd] in H;
  repeat machine_step H; injection H as <- <- <-.

Section ReconcilerSpec.
Context {W : Type} `{!KubeLib W} `{!provider W} `{!Getter W Secret} `{!ProviderTrace W}.
Context `{!KubeLibLaws W} `{!ProviderTraceLaws W} `{!GetSecretQuiet W}.

Lemma records_run {A} (c : result A -> ProviderCall) (m : M W A) w r w' :
  Records c m -> m w = (r, w') -> provider_trace w' = provider_trace w ++ [c r].
Proof. intros Hm H. specialize (Hm w). by rewrite H in Hm. Qed.
Lemma quiet_run {A} (m : M W A) w r w' : Quiet m -> m w = (r, w') -> provider_trace w' = provider_trace w.
Proof. intros Hm H. specialize (Hm w). by rewrite H in Hm. Qed.

Lemma getCloudInitData_quiet scope n : Quiet (W := W) (getCloudInitData scope n).
Proof. unfold getCloudInitData. auto 10 with quiet. Qed.

Lemma getCloudInitData_ok scope name (w : W) data w' :
  getCloudInitData scope name w = (Ok data, w') ->
  exists secret, Get (mkNN (meta_Namespace (machine_ObjectMeta (mscope_Machine scope))) name) w
    = (Ok secret, w') /\ secret_Data secret !! "value" = Some data.
Proof.
  unfold getCloudInitData, mbind, M_bind. destruct (Get _ w) as [[secret|e|] w3] eqn:HG; try discriminate.
  destruct (secret_Data secret !! "value") eqn:Hv; intros [= <- <-]. eauto.
Qed.

(** *** The abstract controller

    What a user sees of a machine, and the runs the controller may make: it waits
    behind its gates, or asks for the state of the domain and then does at most
    one thing that fits the answer. *)
Record MachineView := mkView {
  view_Ready : bool;
  view_Provisioned : bool;
  view_ProviderID : option string;
  view_Addresses : list MachineAddress;
}.
Definition machine_view (lm : LibvirtMachine) : MachineView := {|
  view_Ready := mstatus_Ready (lm_Status lm);
  view_Provisioned := mstatus_Provisioned (lm_Status lm);
  view_ProviderID := mspec_ProviderID (lm_Spec lm);
  view_Addresses := mstatus_Addresses (lm_Status lm);
|}.

Definition gates_open (scope : MachineScope) (lm : LibvirtMachine) : Prop :=
  annotations_IsPaused (mscope_Cluster scope) (lm_ObjectMeta lm) = false /\
  LibvirtMachineFinalizer ∈ meta_Finalizers (lm_ObjectMeta lm) /\
  cluster_InfrastructureProvisioned (mscope_Cluster scope) = Some true.

(** The provider ID of a provisioned machine: the old one, else one made from its UID. *)
Definition assigned_id (lm : LibvirtMachine) : string :=
  default (providerIDPrefix +:+ meta_UID (lm_ObjectMeta lm)) (mspec_ProviderID (lm_Spec lm)).

(** A call that did not return a value, as the outcome of its caller. *)
Definition unsuccessful {A B} (r : result A) (r' : result B) : Prop :=
  match r with Ok _ => False | Err e => exists e', r' = Err e' /\ Wraps e' e | Diverge => r' = Diverge end.

Inductive normal_run (scope : MachineScope) (lm : LibvirtMachine)
  : list ProviderCall -> result Result -> MachineView -> Prop :=
  | run_gated res :
      ~ gates_open scope lm -> RequeueAfter res = 0 \/ RequeueAfter res = requeueTimeShort ->
      normal_run scope lm [] (Ok res)
        (mkView false false (mspec_ProviderID (lm_Spec lm)) (mstatus_Addresses (lm_Status lm)))
  | run_state_failed sres r :
      gates_open scope lm -> unsuccessful sres r ->
      normal_run scope lm [CallGetMachineState (mscope_MachineConfig scope) sres] r (machine_view lm)
  | run_lost id :
      gates_open scope lm -> mspec_ProviderID (lm_Spec lm) = Some id ->
      normal_run scope lm [CallGetMachineState (mscope_MachineConfig scope) (Ok DomainStateNotFound)]
        (Ok (mkResult domainStateCheckInterval))
        (mkView false (mstatus_Provisioned (lm_Status lm)) (Some id) [])
  | run_no_bootstrap :
      gates_open scope lm -> mspec_ProviderID (lm_Spec lm) = None ->
      machine_DataSecretName (mscope_Machine scope) = None ->
      normal_run scope lm [CallGetMachineState (mscope_MachineConfig scope) (Ok DomainStateNotFound)]
        (Ok (mkResult (1 * Minute))) (mkView false false None (mstatus_Addresses (lm_Status lm)))
  | run_bootstrap_failed name w1 dres w2 r :
      gates_open scope lm -> mspec_ProviderID (lm_Spec lm) = None ->
      machine_DataSecretName (mscope_Machine scope) = Some name ->
      getCloudInitData scope name w1 = (dres, w2) -> unsuccessful dres r ->
      normal_run scope lm [CallGetMachineState (mscope_MachineConfig scope) (Ok DomainStateNotFound)]
        r (mkView false false None (mstatus_Addresses (lm_Status lm)))
  | run_create name w1 data w2 cres r v :
      gates_open scope lm -> mspec_ProviderID (lm_Spec lm) = None ->
      machine_DataSecretName (mscope_Machine scope) = Some name ->
      getCloudInitData scope name w1 = (Ok data, w2) ->
      (cres = Ok tt /\ r = Ok noRequeue /\
         v = mkView true true (Some (assigned_id lm)) (mstatus_Addresses (lm_Status lm)) \/
       unsuccessful cres r /\ v = mkView false false None (mstatus_Addresses (lm_Status lm))) ->
      normal_run scope lm
        [CallGetMachineState (mscope_MachineConfig scope) (Ok DomainStateNotFound);
         CallCreateMachine (set_UserData (mscope_MachineConfig scope) data) cres] r v
  | run_start sres r v :
      gates_open scope lm ->
      (sres = Ok tt /\ r = Ok (mkResult requeueTimeShort) /\
         v = mkView true true (Some (assigned_id lm)) (mstatus_Addresses (lm_Status lm)) \/
       unsuccessful sres r /\ v = mkView false (mstatus_Provisioned (lm_Status lm))
         (mspec_ProviderID (lm_Spec lm)) (mstatus_Addresses (lm_Status lm))) ->
      normal_run scope lm
        [CallGetMachineState (mscope_MachineConfig scope) (Ok DomainStateStopped);
         CallStartMachine (mscope_MachineConfig scope) sres] r v
  | run_running ares r addrs :
      gates_open scope lm ->
      match ares with
      | Ok a => (a <> "" /\ r = Ok (mkResult domainStateCheckInterval) /\
                   addrs = [mkMachineAddress MachineInternalIP a]) \/
                (a = "" /\ r = Ok (mkResult requeueTimeShort) /\ addrs = mstatus_Addresses (lm_Status lm))
      | Err _ => r = Ok (mkResult requeueTimeShort) /\ addrs = mstatus_Addresses (lm_Status lm)
      | Diverge => r = Diverge /\ addrs = mstatus_Addresses (lm_Status lm)
      end ->
      normal_run scope lm
        [CallGetMachineState (mscope_MachineConfig scope) (Ok DomainStateRunning);
         CallGetMachineAddress (mscope_MachineConfig scope) ares]
        r (mkView true true (Some (assigned_id lm)) addrs)
  | run_unknown :
      gates_open scope lm ->
      normal_run scope lm [CallGetMachineState (mscope_MachineConfig scope) (Ok DomainStateUnknown)]
        (Ok (mkResult requeueTimeShort))
        (mkView false false (mspec_ProviderID (lm_Spec lm)) (mstatus_Addresses (lm_Status lm)))
  | run_unexpected state :
      gates_open scope lm ->
      state ∉ [DomainStateNotFound; DomainStateStopped; DomainStateRunning; DomainStateUnknown] ->
      normal_run scope lm [CallGetMachineState (mscope_MachineConfig scope) (Ok state)]
        (Ok noRequeue) (machine_view lm).

Lemma view_conditions lm cs : machine_view (SetConditions lm cs) = machine_view lm.
Proof. done. Qed.
Lemma view_meta lm m : machine_view (SetObjectMeta lm m) = machine_view lm.
Proof. done. Qed.
Lemma view_mReady b lm : machine_view (set_mReady b lm) =
  let v := machine_view lm in mkView b (view_Provisioned v) (view_ProviderID v) (view_Addresses v).
Proof. done. Qed.
Lemma view_mProvisioned b lm : machine_view (set_mProvisioned b lm) =
  let v := machine_view lm in mkView (view_Ready v) b (view_ProviderID v) (view_Addresses v).
Proof. done. Qed.
Lemma view_mAddresses l lm : machine_view (set_mAddresses l lm) =
  let v := machine_view lm in mkView (view_Ready v) (view_Provisioned v) (view_ProviderID v) l.
Proof. done. Qed.
Lemma view_setProviderID lm : machine_view (setProviderID lm) =
  let v := machine_view lm in
  mkView (view_Ready v) (view_Provisioned v) (Some (assigned_id lm)) (view_Addresses v).
Proof.
  unfold setProviderID, assigned_id, domainUUID, machine_view. cbn.
  by destruct (mspec_ProviderID (lm_Spec lm)) eqn:E; cbn; rewrite ?E.
Qed.
Lemma assigned_id_conditions lm cs : assigned_id (SetConditions lm cs) = assigned_id lm.
Proof. done. Qed.
Lemma assigned_id_mReady b lm : assigned_id (set_mReady b lm) = assigned_id lm.
Proof. done. Qed.
Lemma assigned_id_mProvisioned b lm : assigned_id (set_mProvisioned b lm) = assigned_id lm.
Proof. done. Qed.
Create Rewrite HintDb machine_view.
#[local] Hint Rewrite view_conditions view_meta view_mReady view_mProvisioned view_mAddresses
  view_setProviderID assigned_id_conditions assigned_id_mReady assigned_id_mProvisioned : machine_view.

(** The history after a run, from the laws of the calls it made. *)
Local Ltac trace_facts :=
  repeat match goal with
  | H : GetMachineState ?c ?w = (_, ?w1) |- _ =>
      lazymatch goal with _ : provider_trace w1 = _ |- _ => fail | _ => idtac end;
      pose proof (records_run _ _ _ _ _ (GetMachineState_records c) H)
  | H : CreateMachine ?c ?w = (_, ?w1) |- _ =>
      lazymatch goal with _ : provider_trace w1 = _ |- _ => fail | _ => idtac end;
      pose proof (records_run _ _ _ _ _ (CreateMachine_records c) H)
  | H : StartMachine ?c ?w = (_, ?w1) |- _ =>
      lazymatch goal with _ : provider_trace w1 = _ |- _ => fail | _ => idtac end;
      pose proof (records_run _ _ _ _ _ (StartMachine_records c) H)
  | H : GetMachineAddress ?c ?w = (_, ?w1) |- _ =>
      lazymatch goal with _ : provider_trace w1 = _ |- _ => fail | _ => idtac end;
      pose proof (records_run _ _ _ _ _ (GetMachineAddress_records c) H)
  | H : getCloudInitData ?s ?n ?w = (_, ?w1) |- _ =>
      lazymatch goal with _ : provider_trace w1 = _ |- _ => fail | _ => idtac end;
      pose proof (quiet_run _ _ _ _ (getCloudInitData_quiet s n) H)
  end.
Local Ltac solve_trace :=
  trace_facts;
  repeat match goal with H : provider_trace ?x = _ |- context [provider_trace ?x] => rewrite H end;
  rewrite <- ?app_assoc; cbn [app]; first [reflexivity | symmetry; apply app_nil_r].

Lemma unsuccessful_err {A B} e e' : Wraps e' e -> unsuccessful (A := A) (B := B) (Err e) (Err e').
Proof. intros Hw. exists e'. done. Qed.
Lemma unsuccessful_not_ok {A B} (r : result A) (r' : result B) a : unsuccessful r r' -> r <> Ok a.
Proof. by intros Hu ->. Qed.
Lemma unsuccessful_diverge {A B} : unsuccessful (A := A) (B := B) Diverge Diverge.
Proof. done. Qed.
Create HintDb machine_run.
#[local] Hint Resolve unsuccessful_err unsuccessful_diverge wraps_here wraps_wrap : machine_run.

Lemma gates_closed scope lm :
  annotations_IsPaused (mscope_Cluster scope) (lm_ObjectMeta lm) = true \/
  ContainsFinalizer (lm_ObjectMeta lm) LibvirtMachineFinalizer = false \/
  cluster_InfrastructureProvisioned (mscope_Cluster scope) <> Some true -> ~ gates_open scope lm.
Proof.
  intros [H|[H|H]] (Hp & Hf & Hi); [congruence| |done].
  apply ContainsFinalizer_iff in Hf. congruence.
Qed.

Lemma reconcileNormal_run scope w lm r w' lm' :
  Time_IsZero (meta_DeletionTimestamp (lm_ObjectMeta lm)) = true ->
  reconcileNormal scope (w, lm) = (r, (w', lm')) ->
  exists calls, provider_trace w' = provider_trace w ++ calls /\
    normal_run scope lm calls r (machine_view lm').
Proof.
  intros Hz H. run_machine H; try congruence.
  all: eexists; (split; [solve_trace|]); autorewrite with machine_view.
  all: try (apply run_gated; [apply gates_closed; first [by left|by right; left|right; right; congruence]
                             |first [by left|by right]]).
  all: assert (gates_open scope lm) as Hgates
    by (split_and!; [done|by apply ContainsFinalizer_iff|done]).
  all: try (match type of Hid with _ = ?id => change (mspec_ProviderID (lm_Spec lm) = id) in Hid end).
  all: try (subst state); unfold machine_view;
    cbn [view_Ready view_Provisioned view_ProviderID view_Addresses]; rewrite ?Hid.
  all: first
    [ apply run_state_failed; [done|by auto with machine_run]
    | apply (run_lost _ _ _ Hgates Hid)
    | apply (run_no_bootstrap _ _ Hgates Hid Hname)
    | apply (run_bootstrap_failed _ _ _ _ _ _ _ Hgates Hid Hname Hdata); by auto with machine_run
    | apply (run_create _ _ _ _ _ _ _ _ _ Hgates Hid Hname Hdata);
      first [by left|right; by auto with machine_run]
    | apply run_start; [done|first [by left|right; by auto with machine_run]]
    | apply run_running; [done|first [done|by left|by right]]
    | by apply run_unknown
    | apply run_unexpected; [done|rewrite !not_elem_of_cons; split_and!; by auto using not_elem_of_nil] ].
Qed.

(** Everything but the status, the provider ID and the controller's finalizer. *)
Definition same_but_status (lm lm' : LibvirtMachine) : Prop :=
  (lm_ObjectMeta lm' = lm_ObjectMeta lm \/
   lm_ObjectMeta lm' = AddFinalizer (lm_ObjectMeta lm) LibvirtMachineFinalizer) /\
  mspec_VCPU (lm_Spec lm') = mspec_VCPU (lm_Spec lm) /\
  mspec_MemoryMiB (lm_Spec lm') = mspec_MemoryMiB (lm_Spec lm) /\
  mspec_DiskGiB (lm_Spec lm') = mspec_DiskGiB (lm_Spec lm) /\
  mspec_Image (lm_Spec lm') = mspec_Image (lm_Spec lm).

Lemma reconcileNormal_frame scope w lm r w' lm' :
  reconcileNormal scope (w, lm) = (r, (w', lm')) -> same_but_status lm lm'.
Proof.
  intros H. run_machine H.
  all: unfold setProviderID; repeat match goal with
    | |- context [match mspec_ProviderID ?s with _ => _ end] => destruct (mspec_ProviderID s)
    end.
  all: split; [first [by left|by right]|done].
Qed.

Lemma same_meta lm lm' : same_but_status lm lm' ->
  meta_UID (lm_ObjectMeta lm') = meta_UID (lm_ObjectMeta lm) /\
  meta_Name (lm_ObjectMeta lm') = meta_Name (lm_ObjectMeta lm) /\
  meta_Namespace (lm_ObjectMeta lm') = meta_Namespace (lm_ObjectMeta lm).
Proof. intros [[->| ->] _]; [done|]. rewrite AddFinalizer_law. by case_bool_decide. Qed.

Lemma run_provider_id scope lm calls r v :
  normal_run scope lm calls r v ->
  view_ProviderID v = mspec_ProviderID (lm_Spec lm) \/ view_ProviderID v = Some (assigned_id lm).
Proof.
  destruct 1; cbn [view_ProviderID machine_view]; try (by left); try (by right); try (left; congruence).
  - destruct_or?; destruct_and?; subst v; cbn; [by right|left; congruence].
  - destruct_or?; destruct_and?; subst v; cbn; [by right|by left].
Qed.

(** C2: every run of [reconcileNormal] is a run of the abstract controller: the
    calls it makes, the result it returns and what it leaves in the status and
    the provider ID are those of one of the abstract runs; the rest of the spec
    and of the metadata does not change, the added finalizer apart. *)
Theorem reconcileNormal_refines scope w lm r w' lm' :
  Time_IsZero (meta_DeletionTimestamp (lm_ObjectMeta lm)) = true ->
  reconcileNormal scope (w, lm) = (r, (w', lm')) ->
  same_but_status lm lm' /\
  exists calls, provider_trace w' = provider_trace w ++ calls /\
    normal_run scope lm calls r (machine_view lm').
Proof. intros Hz H. eauto using reconcileNormal_run, reconcileNormal_frame. Qed.

(** C1: a domain is created only for a machine that never had one: when
    [CreateMachine] is called, the finalizer is already on the object, the
    cluster is neither paused nor unprovisioned, the host was asked in the same
    run and answered that the domain does not exist, no provider ID was ever
    assigned, and the user data is the [value] of the bootstrap Secret; it is
    called at most once, as the last call. *)
Theorem machine_create_guard scope w lm r w' lm' calls cfg res :
  Time_IsZero (meta_DeletionTimestamp (lm_ObjectMeta lm)) = true ->
  reconcileNormal scope (w, lm) = (r, (w', lm')) ->
  provider_trace w' = provider_trace w ++ calls ->
  CallCreateMachine cfg res ∈ calls ->
  gates_open scope lm /\ mspec_ProviderID (lm_Spec lm) = None /\
  exists name w1 w2 secret data,
    machine_DataSecretName (mscope_Machine scope) = Some name /\
    Get (mkNN (meta_Namespace (machine_ObjectMeta (mscope_Machine scope))) name) w1 = (Ok secret, w2) /\
    secret_Data secret !! "value" = Some data /\
    cfg = set_UserData (mscope_MachineConfig scope) data /\
    calls = [CallGetMachineState (mscope_MachineConfig scope) (Ok DomainStateNotFound);
             CallCreateMachine cfg res].
Proof.
  intros Hz H Htr Hin. destruct (reconcileNormal_run _ _ _ _ _ _ Hz H) as (calls' & Htr' & Hrun).
  rewrite Htr in Htr'. apply app_inv_head in Htr' as ->.
  destruct Hrun; rewrite ?elem_of_cons, ?elem_of_nil in Hin;
    repeat (destruct Hin as [Hin|Hin]; try discriminate Hin); try done.
  injection Hin as -> ->. split; [done|]. split; [done|].
  match goal with H : getCloudInitData _ _ _ = _ |- _ =>
    apply getCloudInitData_ok in H as (secret & HG & Hv) end.
  eauto 10.
Qed.

(** C20: the identity of a machine is fixed by its first provisioning: a provider
    ID, once set, is never changed, a new one is [libvirt://] followed by the UID
    of the object, and the UUID and the name of the domain the controller works
    on are the same before and after every run, failed ones included. *)
Theorem machine_identity_stable scope w lm r w' lm' :
  Time_IsZero (meta_DeletionTimestamp (lm_ObjectMeta lm)) = true ->
  reconcileNormal scope (w, lm) = (r, (w', lm')) ->
  (forall id, mspec_ProviderID (lm_Spec lm) = Some id -> mspec_ProviderID (lm_Spec lm') = Some id) /\
  (forall id, mspec_ProviderID (lm_Spec lm) = None -> mspec_ProviderID (lm_Spec lm') = Some id ->
     id = "libvirt://" +:+ meta_UID (lm_ObjectMeta lm)) /\
  domainUUID lm' = domainUUID lm /\ domainName lm' = domainName lm.
Proof.
  intros Hz H. destruct (reconcileNormal_run _ _ _ _ _ _ Hz H) as (calls & _ & Hrun).
  apply run_provider_id in Hrun. change (view_ProviderID _) with (mspec_ProviderID (lm_Spec lm')) in Hrun.
  destruct (same_meta _ _ (reconcileNormal_frame _ _ _ _ _ _ H)) as (Huid & Hname & Hns).
  split_and!.
  - intros id Hid. unfold assigned_id in Hrun. rewrite Hid in Hrun. cbn in Hrun. by destruct Hrun.
  - intros id Hid Hid'. unfold assigned_id in Hrun. rewrite Hid, Hid' in Hrun. cbn in Hrun.
    by destruct Hrun as [|[= ->]].
  - unfold domainUUID, assigned_id in *. rewrite Huid.
    destruct Hrun as [->|Hrun]; [done|]. rewrite Hrun.
    destruct (mspec_ProviderID (lm_Spec lm)); [done|]. apply TrimPrefix_app.
  - unfold domainName. by rewrite Hname, Hns.
Qed.

(** The host confirmed the domain: it reported it running, or created or started it. *)
Definition confirms (c : ProviderCall) : bool :=
  match c with
  | CallGetMachineState _ (Ok state) => bool_decide (state = DomainStateRunning)
  | CallCreateMachine _ (Ok _) | CallStartMachine _ (Ok _) => true
  | _ => false
  end.
Definition domain_confirmed (calls : list ProviderCall) : bool := existsb confirms calls.

(** C21: a machine is reported ready only on the word of the host: after a run
    that leaves Ready true the host has confirmed the domain in this run, and
    then Provisioned is true and a provider ID is set; or Ready was already true
    and the state of the domain could not be determined.  In the other
    direction, a run in which the host confirmed the domain leaves it ready. *)
Theorem machine_ready_sound scope w lm r w' lm' calls :
  Time_IsZero (meta_DeletionTimestamp (lm_ObjectMeta lm)) = true ->
  reconcileNormal scope (w, lm) = (r, (w', lm')) ->
  provider_trace w' = provider_trace w ++ calls ->
  (mstatus_Ready (lm_Status lm') = true ->
     domain_confirmed calls = true \/
     mstatus_Ready (lm_Status lm) = true /\
     exists sres, calls = [CallGetMachineState (mscope_MachineConfig scope) sres] /\
       forall state, sres = Ok state ->
         state ∉ [DomainStateNotFound; DomainStateStopped; DomainStateRunning; DomainStateUnknown]) /\
  (domain_confirmed calls = true ->
     mstatus_Ready (lm_Status lm') = true /\ mstatus_Provisioned (lm_Status lm') = true /\
     is_Some (mspec_ProviderID (lm_Spec lm'))).
Proof.
  intros Hz H Htr. destruct (reconcileNormal_run _ _ _ _ _ _ Hz H) as (calls' & Htr' & Hrun).
  rewrite Htr in Htr'. apply app_inv_head in Htr' as <-. unfold domain_confirmed.
  change (mstatus_Ready (lm_Status lm')) with (view_Ready (machine_view lm')).
  change (mstatus_Provisioned (lm_Status lm')) with (view_Provisioned (machine_view lm')).
  change (mspec_ProviderID (lm_Spec lm')) with (view_ProviderID (machine_view lm')).
  destruct Hrun as [ |sres r Hg Hu| | | | name w1 data w2 cres r v Hg Hid Hn Hd Hc|sres r v Hg Hs| | |state Hg Hst];
    try (by auto); try (by eauto); cbn.
  - destruct sres as [state|e|]; [done| |]; (split; [intros Hr; right|done]; split; [done|]; eexists;
      split; [reflexivity|]; intros state [=]).
  - destruct Hc as [(-> & -> & ->)|[Hu ->]]; [by eauto|]. by destruct cres.
  - destruct Hs as [(-> & -> & ->)|[Hu ->]]; [by eauto|]. by destruct sres.
  - split.
    + intros Hr. right. split; [done|]. eexists. split; [reflexivity|]. by intros state' [= <-].
    + rewrite orb_false_r. intros ->%bool_decide_eq_true. set_solver.
Qed.

(** C22: a domain deleted on the host is never recreated: for a machine that has a
    provider ID, a run in which the host reports no domain makes no further call,
    marks the machine not ready, drops its addresses, keeps its identity and
    comes back in a minute; the DomainRunning condition says the domain is gone. *)
Theorem machine_lost_domain scope w lm w1 id :
  gates_open scope lm -> mspec_ProviderID (lm_Spec lm) = Some id ->
  GetMachineState (mscope_MachineConfig scope) w = (Ok DomainStateNotFound, w1) ->
  exists lm', reconcileNormal scope (w, lm) = (Ok (mkResult domainStateCheckInterval), (w1, lm')) /\
    machine_view lm' = mkView false (mstatus_Provisioned (lm_Status lm)) (Some id) [] /\
    condition_of DomainRunningCondition (GetConditions lm') =
      Some (ConditionFalse, DomainNotFoundReason,
            "Domain " +:+ cfg_DomainName (mscope_MachineConfig scope) +:+
            " was deleted on the libvirt host, delete the Machine to replace it").
Proof.
  intros (Hp & Hf & Hi) Hid Hst. apply ContainsFinalizer_iff in Hf.
  unfold reconcileNormal, reconcileLostDomain, mbind, M_bind, object, update, set_condition, call, mret, M_ret.
  cbn [fst snd]. rewrite Hp, Hf, Hi. cbn [negb andb fst snd]. rewrite Hst. cbn [fst snd].
  rewrite bool_decide_eq_true_2 by done. cbn. rewrite Hid. eexists. split; [reflexivity|]. split.
  - unfold machine_view. cbn. by rewrite Hid.
  - apply (conditions_Set_same w1 _ (newCondition DomainRunningCondition ConditionFalse _ _)).
Qed.

(** The controller always comes back: a run that neither fails nor asks to be
    run again is one that waits for a change of the object itself (paused, or the
    finalizer was just added), has just created the domain, or got a state
    outside the interface from the provider. *)
Theorem machine_requeue_spec scope w lm r w' lm' calls :
  Time_IsZero (meta_DeletionTimestamp (lm_ObjectMeta lm)) = true ->
  reconcileNormal scope (w, lm) = (r, (w', lm')) ->
  provider_trace w' = provider_trace w ++ calls ->
  r = Ok noRequeue ->
  calls = [] /\ ~ gates_open scope lm \/
  (exists cfg, last calls = Some (CallCreateMachine cfg (Ok tt))) \/
  (exists cfg state, calls = [CallGetMachineState cfg (Ok state)] /\
     state ∉ [DomainStateNotFound; DomainStateStopped; DomainStateRunning; DomainStateUnknown]).
Proof.
  intros Hz H Htr Hr. destruct (reconcileNormal_run _ _ _ _ _ _ Hz H) as (calls' & Htr' & Hrun).
  rewrite Htr in Htr'. apply app_inv_head in Htr' as <-.
  destruct Hrun as [ |sres r Hg Hu| | |name w1 dres w2 r Hg Hid Hn Hd Hu
                   |name w1 data w2 cres r v Hg Hid Hn Hd Hc|sres r v Hg Hs
                   |ares r addrs Hg Ha| |state Hg Hst]; subst; try done; eauto 6.
  - destruct sres as [|e|]; [done|destruct Hu as (? & [=] & _)|done].
  - destruct dres as [|e|]; [done|destruct Hu as (? & [=] & _)|done].
  - destruct Hc as [(-> & _ & _)|[Hu _]]; [by eauto|].
    destruct cres as [|e|]; [done|destruct Hu as (? & [=] & _)|done].
  - destruct Hs as [(-> & [=] & _)|[Hu _]].
    destruct sres as [|e|]; [done|destruct Hu as (? & [=] & _)|done].
  - destruct ares as [a|e|]; [destruct Ha as [(_ & [=] & _)|(_ & [=] & _)]|by destruct Ha as [[=] _]..].
Qed.

(** ** Deleting a machine *)

(** C11: the finalizer that keeps the object alive is removed only after the host
    confirmed that the domain, its volumes and its reservation are gone: when
    [DeleteMachine] fails the object is unchanged and the error is returned;
    when it succeeds the finalizer is gone and nothing else changed.  No other
    provider call is made, and pausing does not hold deletion back. *)
Theorem machine_delete_spec scope w lm :
  let '(res, w1) := DeleteMachine (mscope_MachineConfig scope) w in
  exists lm', (reconcileDelete scope (w, lm)).2 = (w1, lm') /\
  lm_Spec lm' = lm_Spec lm /\ lm_Status lm' = lm_Status lm /\
  match res with
  | Ok _ =>
      lm_ObjectMeta lm' = with_finalizers (lm_ObjectMeta lm)
        (filter (.≠ LibvirtMachineFinalizer) (meta_Finalizers (lm_ObjectMeta lm))) /\
      ((reconcileDelete scope (w, lm)).1 = Ok noRequeue <->
         LibvirtMachineFinalizer ∈ meta_Finalizers (lm_ObjectMeta lm))
  | Err e => lm' = lm /\ (reconcileDelete scope (w, lm)).1 = Err e
  | Diverge => lm' = lm /\ (reconcileDelete scope (w, lm)).1 = Diverge
  end.
Proof.
  destruct (DeleteMachine (mscope_MachineConfig scope) w) as [res w1] eqn:Hd.
  unfold reconcileDelete, mbind, M_bind, call, object, update, mret, M_ret, fail. cbn [fst snd].
  rewrite Hd. destruct res as [[]|e|]; cbn [fst snd]; [|exists lm; by split_and!..].
  rewrite RemoveFinalizer_law. cbn [fst snd].
  case_bool_decide as Hin; cbn [negb fst snd]; eexists; split_and!; try reflexivity; by split.
Qed.
End ReconcilerSpec.
