(* ===== verification/Contract.v ===== *)
(** * What the provider promises the controllers

    The controllers see the libvirt host only through the [provider] interface.
    [ProviderContract] states what they rely on of an implementation, in terms of
    three facts about the world: the infrastructure is ready, a machine runs, a
    machine is gone.  The lemmas here are about the controllers on any provider
    that keeps the contract; System shows that the libvirt provider does. *)

From stdpp Require Import base gmap list strings.
From Stdlib Require Import ZArith.
From S2P Require Import Prelude Config Api Kube Credentials ProviderInterface.
From S2P Require Import ClusterController MachineController.

Class MachineFacts (W : Type) := {
  infra_ready : W -> InfraConfig -> Prop;
  machine_running : W -> MachineConfig -> Prop;
  machine_removed : W -> MachineConfig -> Prop;
}.

Class ProviderContract (W : Type) `{!provider W} `{!MachineFacts W} : Prop := {
  contract_EnsureInfra cfg w w' : EnsureInfra cfg w = (Ok tt, w') -> infra_ready w' cfg;
  contract_GetMachineState cfg w st w' :
    GetMachineState cfg w = (Ok st, w') ->
    st ∈ [DomainStateNotFound; DomainStateRunning; DomainStateStopped; DomainStateUnknown] /\
    (st = DomainStateRunning -> machine_running w' cfg);
  contract_CreateMachine cfg w w' : CreateMachine cfg w = (Ok tt, w') -> machine_running w' cfg;
  contract_StartMachine cfg w w' : StartMachine cfg w = (Ok tt, w') -> machine_running w' cfg;
  contract_DeleteMachine cfg w w' : DeleteMachine cfg w = (Ok tt, w') -> machine_removed w' cfg;
  contract_GetMachineAddress cfg cfg' w r w' :
    GetMachineAddress cfg w = (r, w') -> machine_running w cfg' -> machine_running w' cfg';
  (** The user data and the credentials do not matter once the machine exists. *)
  contract_UserData cfg data w : machine_running w (set_UserData cfg data) -> machine_running w cfg;
  contract_Credentials cfg creds w : infra_ready w (set_Credentials cfg creds) -> infra_ready w cfg;
}.

Section Clients.
Context {W : Type} {KL : KubeLib W} {P : provider W} {GS : Getter W Secret}.
Context {KLaws : KubeLibLaws W} {MF : MachineFacts W} {PC : ProviderContract W}.

Lemma machine_ready_runs scope w lm res w' lm' :
  MachineController.reconcileNormal scope (w, lm) = (Ok res, (w', lm')) ->
  Time_IsZero (meta_DeletionTimestamp (lm_ObjectMeta lm)) = true ->
  mstatus_Ready (lm_Status lm') = true ->
  machine_running w' (mscope_MachineConfig scope).
Proof.
  intros H Hz. remember (Ok res) as r eqn:Er. run_machine H; try discriminate Er; try congruence.
  all: intros Hr; try discriminate Hr.
  all: try (by eapply contract_UserData, contract_CreateMachine).
  all: try (by eapply contract_StartMachine).
  all: try (eapply contract_GetMachineAddress; [eassumption|];
            apply contract_GetMachineState in Hstate as [_ Hrun]; by apply Hrun).
  exfalso. apply contract_GetMachineState in Hstate as [Hin _].
  rewrite !elem_of_cons, elem_of_nil in Hin. tauto.
Qed.

Lemma finalizer_removed scope w lm r w' lm' :
  MachineController.reconcileDelete scope (w, lm) = (r, (w', lm')) ->
  LibvirtMachineFinalizer ∈ meta_Finalizers (lm_ObjectMeta lm) ->
  LibvirtMachineFinalizer ∉ meta_Finalizers (lm_ObjectMeta lm') ->
  machine_removed w' (mscope_MachineConfig scope).
Proof.
  unfold MachineController.reconcileDelete, mbind, M_bind, call, object, update, mret, M_ret, fail.
  cbn [fst snd]. intros H Hin Hnot.
  destruct (DeleteMachine (mscope_MachineConfig scope) w) as [[[]|e|] w1] eqn:Hd; cbn [fst snd] in H;
    [|by injection H as <- <- <-..].
  rewrite RemoveFinalizer_law in H. cbn [fst snd] in H.
  apply contract_DeleteMachine in Hd. case_bool_decide; cbn [negb] in H; by injection H as <- <- <-.
Qed.

Lemma cluster_ready_infra l scope w lc r w' lc' :
  ClusterController.reconcileNormal l scope (w, lc) = (r, (w', lc')) ->
  cstatus_Ready (lc_Status lc) = false -> cstatus_Ready (lc_Status lc') = true ->
  infra_ready w' (scope_InfraConfig scope).
Proof.
  intros H Hf Ht. run_cluster H; cbn in Hf, Ht; try congruence.
  by eapply contract_Credentials, contract_EnsureInfra.
Qed.
End Clients.
