(* ===== verification/Manager.v ===== *)
(** * The manager: how the controllers are set up (cmd/main.go and the
    [SetupWithManager] methods of internal/controller)

    The manager and the controller builder are controller-runtime's: what is asked
    of them is the data type [ManagerCall], and [perform] does it. *)

From stdpp Require Import base gmap list strings.
From Stdlib Require Import ZArith.
From S2P Require Import Prelude GoStrings GoFlag Config Api Kube Credentials ProviderInterface.
From S2P Require Import ClusterController MachineController.

Local Open Scope Z_scope.

(** ** What a controller watches *)

Record GroupVersion := mkGV { gv_Group : string; gv_Version : string }.
Definition SchemeGroupVersion : GroupVersion := mkGV "infrastructure.cluster.x-k8s.io" "v1alpha1".
Record GroupVersionKind := mkGVK { gvk_GroupVersion : GroupVersion; gvk_Kind : string }.
Definition WithKind (gv : GroupVersion) (kind : string) : GroupVersionKind := mkGVK gv kind.

(** The Go types handed to the manager and those registered with the scheme; of
    the other API groups, the ones the program uses. *)
Inductive Kind :=
  | KindLibvirtCluster | KindLibvirtClusterList | KindLibvirtClusterTemplate | KindLibvirtClusterTemplateList
  | KindLibvirtMachine | KindLibvirtMachineList | KindLibvirtMachineTemplate | KindLibvirtMachineTemplateList
  | KindSecret | KindCluster | KindMachine.

(** The kinds of the program's own API group. *)
Definition own_kind (k : Kind) : bool := match k with KindSecret | KindCluster | KindMachine => false | _ => true end.

(** ** The scheme *)

(** [SchemeBuilder.Register], called by the init function of each file of types;
    the Go runtime runs them in the order of the file names. *)
Definition Register (ks : list Kind) (builder : list Kind) : list Kind := builder ++ ks.
Definition libvirtcluster_init : list Kind -> list Kind := Register [KindLibvirtCluster; KindLibvirtClusterList].
Definition libvirtclustertemplate_init : list Kind -> list Kind :=
  Register [KindLibvirtClusterTemplate; KindLibvirtClusterTemplateList].
Definition libvirtmachine_init : list Kind -> list Kind := Register [KindLibvirtMachine; KindLibvirtMachineList].
Definition libvirtmachinetemplate_init : list Kind -> list Kind :=
  Register [KindLibvirtMachineTemplate; KindLibvirtMachineTemplateList].
Definition SchemeBuilder : list Kind :=
  libvirtmachinetemplate_init (libvirtmachine_init (libvirtclustertemplate_init (libvirtcluster_init []))).

(** The init function of main: the kinds of client-go and of cluster-api are those
    of the libraries. *)
Definition main_scheme (clientgo clusterv1 : list Kind) : list Kind := clientgo ++ SchemeBuilder ++ clusterv1.

(** cluster-api's predicates. *)
Inductive Predicate := ClusterUnpaused | ResourceNotPaused.

Section Manager.
Context {W : Type}.

(** From a changed object to the requests it causes: a function of the program,
    or one of cluster-api's. *)
Inductive MapFunc :=
  | SecretMapFunc (f : Secret -> M W (list NamespacedName))
  | ClusterToInfrastructureMapFunc (gvk : GroupVersionKind) (infra : Kind)
  | MachineToInfrastructureMapFunc (gvk : GroupVersionKind)
  | ClusterToTypedObjects (listKind : Kind).

Record Watch := mkWatch { watch_Kind : Kind; watch_Map : MapFunc; watch_Predicates : list Predicate }.
Record Builder := mkBuilder { builder_For : option Kind; builder_Watches : list Watch; builder_Name : string }.

Definition NewControllerManagedBy : Builder := mkBuilder None [] "".
Definition For (k : Kind) (b : Builder) : Builder := mkBuilder (Some k) (builder_Watches b) (builder_Name b).
Definition Watches (k : Kind) (f : MapFunc) (ps : list Predicate) (b : Builder) : Builder :=
  mkBuilder (builder_For b) (builder_Watches b ++ [mkWatch k f ps]) (builder_Name b).
Definition Named (n : string) (b : Builder) : Builder := mkBuilder (builder_For b) (builder_Watches b) n.

(** ** Options of the servers *)

(** The part of [tls.Config] the program changes. *)
Record tls_Config := mkTLSConfig { NextProtos : list string }.
Definition TLSOpt : Type := tls_Config -> tls_Config.

Record WebhookOptions := mkWebhookOptions {
  webhook_TLSOpts : list TLSOpt;
  webhook_CertDir : string;
  webhook_CertName : string;
  webhook_KeyName : string;
}.
(** [metrics_Filter]: requests are authenticated and authorized. *)
Record MetricsOptions := mkMetricsOptions {
  metrics_BindAddress : string;
  metrics_SecureServing : bool;
  metrics_TLSOpts : list TLSOpt;
  metrics_Filter : bool;
  metrics_CertDir : string;
  metrics_CertName : string;
  metrics_KeyName : string;
}.
Record ManagerOptions := mkManagerOptions {
  options_Metrics : MetricsOptions;
  options_Webhook : WebhookOptions;
  options_HealthProbeBindAddress : string;
  options_LeaderElection : bool;
  options_LeaderElectionID : string;
}.

(** ** The manager *)

Inductive ManagerCall :=
  | GetConfigOrDie
  | NewManager (o : ManagerOptions)
  | IndexField (k : Kind) (field : string) (f : LibvirtCluster -> list string)
  | ClusterToTypedObjectsMapper (k : Kind)
  | Complete (b : Builder) (reconcile : NamespacedName -> M W Result)
  | AddHealthzCheck (name : string)
  | AddReadyzCheck (name : string)
  | Start.
End Manager.
Arguments MapFunc : clear implicits.
Arguments Watch : clear implicits.
Arguments Builder : clear implicits.
Arguments ManagerCall : clear implicits.

Class Manager (W : Type) := perform : ManagerCall W -> M W unit.

(** ** Flags *)

Record Flags := mkFlags {
  metricsAddr : string;
  metricsCertPath : string;
  metricsCertName : string;
  metricsCertKey : string;
  webhookCertPath : string;
  webhookCertName : string;
  webhookCertKey : string;
  enableLeaderElection : bool;
  probeAddr : string;
  secureMetrics : bool;
  enableHTTP2 : bool;
  credentialsSecretName : string;
  credentialsSecretNamespace : string;
}.

Definition defaultCredentialsSecretName : string := "cluster-api-provider-libvirt-credentials".
Definition envPodNamespace : string := "POD_NAMESPACE".

(** The defaults; [getenv] is [os.Getenv]. *)
Definition default_flags (getenv : string -> string) : Flags := {|
  metricsAddr := "0";
  metricsCertPath := "";
  metricsCertName := "tls.crt";
  metricsCertKey := "tls.key";
  webhookCertPath := "";
  webhookCertName := "tls.crt";
  webhookCertKey := "tls.key";
  enableLeaderElection := false;
  probeAddr := ":8081";
  secureMetrics := true;
  enableHTTP2 := false;
  credentialsSecretName := defaultCredentialsSecretName;
  credentialsSecretNamespace := getenv envPodNamespace;
|}.

(** The variables the flags set. *)
Definition set_metricsAddr (x : string) (f : Flags) : Flags :=
  mkFlags x (metricsCertPath f) (metricsCertName f) (metricsCertKey f) (webhookCertPath f)
    (webhookCertName f) (webhookCertKey f) (enableLeaderElection f) (probeAddr f) (secureMetrics f)
    (enableHTTP2 f) (credentialsSecretName f) (credentialsSecretNamespace f).
Definition set_metricsCertPath (x : string) (f : Flags) : Flags :=
  mkFlags (metricsAddr f) x (metricsCertName f) (metricsCertKey f) (webhookCertPath f)
    (webhookCertName f) (webhookCertKey f) (enableLeaderElection f) (probeAddr f) (secureMetrics f)
    (enableHTTP2 f) (credentialsSecretName f) (credentialsSecretNamespace f).
Definition set_metricsCertName (x : string) (f : Flags) : Flags :=
  mkFlags (metricsAddr f) (metricsCertPath f) x (metricsCertKey f) (webhookCertPath f)
    (webhookCertName f) (webhookCertKey f) (enableLeaderElection f) (probeAddr f) (secureMetrics f)
    (enableHTTP2 f) (credentialsSecretName f) (credentialsSecretNamespace f).
Definition set_metricsCertKey (x : string) (f : Flags) : Flags :=
  mkFlags (metricsAddr f) (metricsCertPath f) (metricsCertName f) x (webhookCertPath f)
    (webhookCertName f) (webhookCertKey f) (enableLeaderElection f) (probeAddr f) (secureMetrics f)
    (enableHTTP2 f) (credentialsSecretName f) (credentialsSecretNamespace f).
Definition set_webhookCertPath (x : string) (f : Flags) : Flags :=
  mkFlags (metricsAddr f) (metricsCertPath f) (metricsCertName f) (metricsCertKey f) x
    (webhookCertName f) (webhookCertKey f) (enableLeaderElection f) (probeAddr f) (secureMetrics f)
    (enableHTTP2 f) (credentialsSecretName f) (credentialsSecretNamespace f).
Definition set_webhookCertName (x : string) (f : Flags) : Flags :=
  mkFlags (metricsAddr f) (metricsCertPath f) (metricsCertName f) (metricsCertKey f)
    (webhookCertPath f) x (webhookCertKey f) (enableLeaderElection f) (probeAddr f) (secureMetrics
    f) (enableHTTP2 f) (credentialsSecretName f) (credentialsSecretNamespace f).
Definition set_webhookCertKey (x : string) (f : Flags) : Flags :=
  mkFlags (metricsAddr f) (metricsCertPath f) (metricsCertName f) (metricsCertKey f)
    (webhookCertPath f) (webhookCertName f) x (enableLeaderElection f) (probeAddr f) (secureMetrics
    f) (enableHTTP2 f) (credentialsSecretName f) (credentialsSecretNamespace f).
Definition set_enableLeaderElection (x : bool) (f : Flags) : Flags :=
  mkFlags (metricsAddr f) (metricsCertPath f) (metricsCertName f) (metricsCertKey f)
    (webhookCertPath f) (webhookCertName f) (webhookCertKey f) x (probeAddr f) (secureMetrics f)
    (enableHTTP2 f) (credentialsSecretName f) (credentialsSecretNamespace f).
Definition set_probeAddr (x : string) (f : Flags) : Flags :=
  mkFlags (metricsAddr f) (metricsCertPath f) (metricsCertName f) (metricsCertKey f)
    (webhookCertPath f) (webhookCertName f) (webhookCertKey f) (enableLeaderElection f) x
    (secureMetrics f) (enableHTTP2 f) (credentialsSecretName f) (credentialsSecretNamespace f).
Definition set_secureMetrics (x : bool) (f : Flags) : Flags :=
  mkFlags (metricsAddr f) (metricsCertPath f) (metricsCertName f) (metricsCertKey f)
    (webhookCertPath f) (webhookCertName f) (webhookCertKey f) (enableLeaderElection f) (probeAddr
    f) x (enableHTTP2 f) (credentialsSecretName f) (credentialsSecretNamespace f).
Definition set_enableHTTP2 (x : bool) (f : Flags) : Flags :=
  mkFlags (metricsAddr f) (metricsCertPath f) (metricsCertName f) (metricsCertKey f)
    (webhookCertPath f) (webhookCertName f) (webhookCertKey f) (enableLeaderElection f) (probeAddr
    f) (secureMetrics f) x (credentialsSecretName f) (credentialsSecretNamespace f).
Definition set_credentialsSecretName (x : string) (f : Flags) : Flags :=
  mkFlags (metricsAddr f) (metricsCertPath f) (metricsCertName f) (metricsCertKey f)
    (webhookCertPath f) (webhookCertName f) (webhookCertKey f) (enableLeaderElection f) (probeAddr
    f) (secureMetrics f) (enableHTTP2 f) x (credentialsSecretNamespace f).
Definition set_credentialsSecretNamespace (x : string) (f : Flags) : Flags :=
  mkFlags (metricsAddr f) (metricsCertPath f) (metricsCertName f) (metricsCertKey f)
    (webhookCertPath f) (webhookCertName f) (webhookCertKey f) (enableLeaderElection f) (probeAddr
    f) (secureMetrics f) (enableHTTP2 f) (credentialsSecretName f) x.

(** The flags of main. *)
Definition main_flags : list (Flag Flags) := [
  StringVar set_metricsAddr "metrics-bind-address";
  StringVar set_probeAddr "health-probe-bind-address";
  BoolVar set_enableLeaderElection "leader-elect";
  BoolVar set_secureMetrics "metrics-secure";
  StringVar set_webhookCertPath "webhook-cert-path";
  StringVar set_webhookCertName "webhook-cert-name";
  StringVar set_webhookCertKey "webhook-cert-key";
  StringVar set_metricsCertPath "metrics-cert-path";
  StringVar set_metricsCertName "metrics-cert-name";
  StringVar set_metricsCertKey "metrics-cert-key";
  BoolVar set_enableHTTP2 "enable-http2";
  StringVar set_credentialsSecretName "credentials-secret-name";
  StringVar set_credentialsSecretNamespace "credentials-secret-namespace"
].

(** All flags of the command line: libraries define some on variables of their
    own ([opts.BindFlags] and the client configuration of controller-runtime). *)
Definition on_fst {A B} (f : Flag A) : Flag (A * B) :=
  mkFlag (flag_Name f) (flag_IsBool f) (fun v ab => (fun a => (a, ab.2)) <$> flag_Set f v ab.1).
Definition on_snd {A B} (f : Flag B) : Flag (A * B) :=
  mkFlag (flag_Name f) (flag_IsBool f) (fun v ab => (fun b => (ab.1, b)) <$> flag_Set f v ab.2).
Definition command_line {L} (library : list (Flag L)) : list (Flag (Flags * L)) :=
  map on_fst main_flags ++ map on_snd library.

(** ** Setting up the controllers *)

Section Setup.
Context {W : Type} `{!Manager W} `{!KubeLib W} `{!provider W}.
Context `{!Getter W LibvirtCluster} `{!Getter W LibvirtMachine} `{!Getter W Secret} `{!Lister W LibvirtCluster}.
Context `{!ClusterAPIUtil W} `{!Patcher W LibvirtMachine} `{!Patcher W LibvirtCluster}.

(** [LibvirtClusterReconciler.SetupWithManager]; of the reconciler's fields the
    client, the scheme and the provider are the instances in scope. *)
Definition cluster_SetupWithManager (Credentials : CredentialsLoader) : M W unit :=
  wrap_err (WrapError ("index LibvirtCluster by " +:+ credentialsRefNameField))
    (perform (IndexField KindLibvirtCluster credentialsRefNameField credentialsRefName)) ;;
  perform (Complete
    (Named "libvirtcluster"
      (Watches KindCluster
        (ClusterToInfrastructureMapFunc (WithKind SchemeGroupVersion "LibvirtCluster") KindLibvirtCluster)
        [ClusterUnpaused]
      (Watches KindSecret (SecretMapFunc (secretToLibvirtClusters Credentials)) []
      (For KindLibvirtCluster NewControllerManagedBy))))
    (ClusterController.Reconcile Credentials)).

(** [LibvirtMachineReconciler.SetupWithManager] *)
Definition machine_SetupWithManager (Credentials : CredentialsLoader) : M W unit :=
  perform (ClusterToTypedObjectsMapper KindLibvirtMachineList) ;;
  perform (Complete
    (Named "libvirtmachine"
      (Watches KindCluster (ClusterToTypedObjects KindLibvirtMachineList) [ClusterUnpaused]
      (Watches KindMachine
        (MachineToInfrastructureMapFunc (WithKind SchemeGroupVersion "LibvirtMachine"))
        [ResourceNotPaused]
      (For KindLibvirtMachine NewControllerManagedBy))))
    (MachineController.Reconcile Credentials)).

(** [if err := m; err != nil { ... os.Exit(1) }], and then the rest of main, which
    ends in the exit code of the process. *)
Definition or_exit (m : M W unit) (rest : M W Z) : M W Z :=
  done ← try m ;
  match done with
  | inl _ => mret 1
  | inr _ => rest
  end.

Definition disableHTTP2 : TLSOpt := fun c => mkTLSConfig ["http/1.1"].

(** The variables of main between the flags and the manager. *)
Definition tlsOpts (f : Flags) : list TLSOpt := if negb (enableHTTP2 f) then [disableHTTP2] else [].
Definition webhookServerOptions (f : Flags) : WebhookOptions :=
  let webhookTLSOpts := tlsOpts f in
  if 0 <? len (webhookCertPath f)
  then mkWebhookOptions webhookTLSOpts (webhookCertPath f) (webhookCertName f) (webhookCertKey f)
  else mkWebhookOptions webhookTLSOpts "" "" "".
Definition metricsServerOptions (f : Flags) : MetricsOptions :=
  let filter := secureMetrics f in
  if 0 <? len (metricsCertPath f)
  then mkMetricsOptions (metricsAddr f) (secureMetrics f) (tlsOpts f) filter
         (metricsCertPath f) (metricsCertName f) (metricsCertKey f)
  else mkMetricsOptions (metricsAddr f) (secureMetrics f) (tlsOpts f) filter "" "" "".
Definition manager_options (f : Flags) : ManagerOptions := {|
  options_Metrics := metricsServerOptions f;
  options_Webhook := webhookServerOptions f;
  options_HealthProbeBindAddress := probeAddr f;
  options_LeaderElection := enableLeaderElection f;
  options_LeaderElectionID := "12f9358c.cluster.x-k8s.io";
|}.

(** [main], as a function of the command line and the environment. *)
Definition main {L} (library : list (Flag L)) (l0 : L) (getenv : string -> string) (args : list string) : M W Z :=
  match flag_Parse (command_line library) args (default_flags getenv, l0) with
  | inl e => mret (flag_exit e)
  | inr (f, _) =>
      or_exit (perform GetConfigOrDie) (
      or_exit (perform (NewManager (manager_options f))) (
      let credentials := newCredentialsLoader (credentialsSecretName f) (credentialsSecretNamespace f) in
      or_exit (cluster_SetupWithManager credentials) (
      or_exit (machine_SetupWithManager credentials) (
      or_exit (perform (AddHealthzCheck "healthz")) (
      or_exit (perform (AddReadyzCheck "readyz")) (
      or_exit (perform Start) (
      mret 0)))))))
  end.

(** ** The calls of a start, in order *)

Definition setup_calls (f : Flags) : list (ManagerCall W) :=
  let credentials := newCredentialsLoader (credentialsSecretName f) (credentialsSecretNamespace f) in
  [ GetConfigOrDie;
    NewManager (manager_options f);
    IndexField KindLibvirtCluster credentialsRefNameField credentialsRefName;
    Complete
      (mkBuilder (Some KindLibvirtCluster)
        [mkWatch KindSecret (SecretMapFunc (secretToLibvirtClusters credentials)) [];
         mkWatch KindCluster
           (ClusterToInfrastructureMapFunc (mkGVK SchemeGroupVersion "LibvirtCluster") KindLibvirtCluster)
           [ClusterUnpaused]] "libvirtcluster")
      (ClusterController.Reconcile credentials);
    ClusterToTypedObjectsMapper KindLibvirtMachineList;
    Complete
      (mkBuilder (Some KindLibvirtMachine)
        [mkWatch KindMachine
           (MachineToInfrastructureMapFunc (mkGVK SchemeGroupVersion "LibvirtMachine")) [ResourceNotPaused];
         mkWatch KindCluster (ClusterToTypedObjects KindLibvirtMachineList) [ClusterUnpaused]] "libvirtmachine")
      (MachineController.Reconcile credentials);
    AddHealthzCheck "healthz"; AddReadyzCheck "readyz"; Start ].

(** The calls are made one after the other and all succeed. *)
Inductive performed : list (ManagerCall W) -> W -> W -> Prop :=
  | performed_nil w : performed [] w w
  | performed_cons c cs w w1 w2 :
      perform c w = (Ok tt, w1) -> performed cs w1 w2 -> performed (c :: cs) w w2.

(** The outcome of a list of calls: the exit code 0 when all succeed, 1 at the
    first that fails, none when one does not return. *)
Definition start_outcome (cs : list (ManagerCall W)) (w : W) (r : result Z) (w' : W) : Prop :=
  r = Ok 0 /\ performed cs w w' \/
  exists before c after w1, cs = before ++ c :: after /\ performed before w w1 /\
    ((exists e, perform c w1 = (Err e, w')) /\ r = Ok 1 \/ perform c w1 = (Diverge, w') /\ r = Diverge).

Definition starts (cs : list (ManagerCall W)) (m : M W Z) : Prop :=
  forall w, start_outcome cs w (m w).1 (m w).2.

Lemma starts_ret : starts [] (mret 0).
Proof. intros w. left. split; [done|constructor]. Qed.

Lemma starts_exit c cs rest : starts cs rest -> starts (c :: cs) (or_exit (perform c) rest).
Proof.
  intros Hr w. unfold or_exit, mbind, M_bind, try. destruct (perform c w) as [[[]|e|] w1] eqn:Hc.
  - destruct (Hr w1) as [[-> Hp]|(before & c' & after & w2 & -> & Hp & Hout)]; [left|right].
    + split; [done|]. by econstructor.
    + exists (c :: before), c', after, w2. split_and!; [done|by econstructor|done].
  - right. exists [], c, cs, w. split_and!; [done|constructor|]. left. by split; [exists e|].
  - right. exists [], c, cs, w. split_and!; [done|constructor|]. by right.
Qed.

Lemma or_exit_bind (m1 m2 : M W unit) rest w : or_exit (m1 ;; m2) rest w = or_exit m1 (or_exit m2 rest) w.
Proof. unfold or_exit, mbind, M_bind, try. by destruct (m1 w) as [[[]|e|] w1]. Qed.
Lemma or_exit_wrap g (m : M W unit) rest w : or_exit (wrap_err g m) rest w = or_exit m rest w.
Proof. unfold or_exit, mbind, M_bind, try, wrap_err. by destruct (m w) as [[[]|e|] w1]. Qed.
Lemma starts_ext cs m m' : (forall w, m w = m' w) -> starts cs m' -> starts cs m.
Proof. intros Heq Hs w. rewrite Heq. apply Hs. Qed.

Lemma starts_setup1 g c1 c2 cs rest :
  starts cs rest -> starts (c1 :: c2 :: cs) (or_exit (wrap_err g (perform c1) ;; perform c2) rest).
Proof.
  intros Hs. eapply starts_ext; [intros w; by rewrite or_exit_bind, or_exit_wrap|]. by apply starts_exit, starts_exit.
Qed.
Lemma starts_setup2 c1 c2 cs rest :
  starts cs rest -> starts (c1 :: c2 :: cs) (or_exit (perform c1 ;; perform c2) rest).
Proof. intros Hs. eapply starts_ext; [intros w; by rewrite or_exit_bind|]. by apply starts_exit, starts_exit. Qed.

(** C26: a start of the program: a command line that does not parse ends it with
    code 2 (0 for a request for help) before anything is done; otherwise the
    calls of [setup_calls] are made in that order, each only after the ones
    before it succeeded, and the exit code is 1 at the first that fails and 0
    when the manager stopped without an error.  Both controllers are registered
    with the same credentials loader, the index the Secret watch needs exists
    before the controller that uses it, and the manager runs last. *)
Theorem main_spec {L} (library : list (Flag L)) l0 getenv args w :
  match flag_Parse (command_line library) args (default_flags getenv, l0) with
  | inl e => main library l0 getenv args w = (Ok (match e with ErrHelp => 0 | _ => 2 end), w)
  | inr (f, _) =>
      start_outcome (setup_calls f) w (main library l0 getenv args w).1 (main library l0 getenv args w).2
  end.
Proof.
  unfold main. destruct (flag_Parse _ _ _) as [e|[f l]]; [done|].
  enough (starts (setup_calls f) _) as Hs by apply Hs. unfold setup_calls.
  do 2 apply starts_exit. apply starts_setup1, starts_setup2. do 3 apply starts_exit. apply starts_ret.
Qed.
End Setup.

(** The kinds a call needs the scheme to know. *)
Definition call_kinds {W} (c : ManagerCall W) : list Kind :=
  match c with
  | IndexField k _ _ | ClusterToTypedObjectsMapper k => [k]
  | Complete b _ =>
      match builder_For b with Some k => [k] | None => [] end ++
      flat_map (fun w => watch_Kind w ::
        match watch_Map w with
        | ClusterToInfrastructureMapFunc _ k | ClusterToTypedObjects k => [k]
        | _ => []
        end) (builder_Watches b)
  | _ => []
  end.

(** Every kind the manager is asked for is registered, once for the program's own,
    given that client-go registers Secrets and cluster-api Clusters and Machines. *)
Lemma setup_kinds_registered {W} `{!KubeLib W} `{!provider W}
    `{!Getter W LibvirtCluster} `{!Getter W LibvirtMachine} `{!Getter W Secret} `{!Lister W LibvirtCluster}
    `{!ClusterAPIUtil W} `{!Patcher W LibvirtMachine} `{!Patcher W LibvirtCluster} f clientgo clusterv1 :
  KindSecret ∈ clientgo -> KindCluster ∈ clusterv1 -> KindMachine ∈ clusterv1 ->
  Forall (.∈ main_scheme clientgo clusterv1) (flat_map call_kinds (setup_calls (W := W) f)) /\
  NoDup SchemeBuilder /\ (forall k, own_kind k = true <-> k ∈ SchemeBuilder).
Proof.
  intros Hs Hc Hm. split_and!.
  - cbn. unfold main_scheme. repeat (apply Forall_cons; split); [..|done]; rewrite !elem_of_app;
      first [by left|by right; right|right; left; apply list_elem_of_In; cbn; tauto].
  - vm_compute. repeat (apply NoDup_cons; split; [rewrite ?elem_of_cons, elem_of_nil; naive_solver|]). apply NoDup_nil_2.
  - intros k. rewrite list_elem_of_In. destruct k; cbn; split; intros H; try done; try tauto; by destruct_or?.
Qed.

(** ** What the flags mean *)

(** The command line that spells every flag out. *)
Definition flag_args (f : Flags) : list string := [
  flag_arg "metrics-bind-address" (metricsAddr f);
  flag_arg "health-probe-bind-address" (probeAddr f);
  flag_arg "leader-elect" (strconv_FormatBool (enableLeaderElection f));
  flag_arg "metrics-secure" (strconv_FormatBool (secureMetrics f));
  flag_arg "webhook-cert-path" (webhookCertPath f);
  flag_arg "webhook-cert-name" (webhookCertName f);
  flag_arg "webhook-cert-key" (webhookCertKey f);
  flag_arg "metrics-cert-path" (metricsCertPath f);
  flag_arg "metrics-cert-name" (metricsCertName f);
  flag_arg "metrics-cert-key" (metricsCertKey f);
  flag_arg "enable-http2" (strconv_FormatBool (enableHTTP2 f));
  flag_arg "credentials-secret-name" (credentialsSecretName f);
  flag_arg "credentials-secret-namespace" (credentialsSecretNamespace f) ].

(** Every configuration can be given on the command line and is read back as
    it was given, whatever text its values are and whatever flags the libraries
    define: parsing the flags of [f], followed by other arguments, sets the
    variables of main to [f] and leaves those of the libraries to the rest. *)
Theorem flags_roundtrip {L} (library : list (Flag L)) getenv l0 (f : Flags) :
  flag_Parse (command_line library) (flag_args f) (default_flags getenv, l0) = inr (f, l0) /\
  forall rest, flag_Parse (command_line library) (flag_args f ++ rest) (default_flags getenv, l0) =
    flag_Parse (command_line library) rest (f, l0).
Proof.
  enough (forall rest, flag_Parse (command_line library) (flag_args f ++ rest) (default_flags getenv, l0) =
    flag_Parse (command_line library) rest (f, l0)) as Hrest.
  { split; [|done]. rewrite <- (app_nil_r (flag_args f)). by rewrite Hrest. }
  intros rest. unfold flag_args. cbn [app].
  repeat (erewrite flag_Parse_arg by reflexivity; cbn [flag_Set on_fst StringVar BoolVar];
          rewrite ?ParseBool_FormatBool; cbn [fmap option_fmap option_map fst snd]).
  by destruct f.
Qed.

(** What the servers may do without being told: HTTP/2 is off unless
    enable-http2 is set, on the webhook and on the metrics server alike (their
    TLS configuration ends with HTTP/1.1 as the only protocol); metrics served
    over TLS are served only to authenticated and authorized clients; the
    certificate files are used only with the directory that was given; and with
    no flags at all HTTP/2 is off, metrics are off and would be secure, and there
    is no leader election. *)
Theorem server_options_spec (f : Flags) getenv (c : tls_Config) :
  let protos opts := NextProtos (foldl (fun c (o : TLSOpt) => o c) c opts) in
  let o := manager_options f in
  let d := manager_options (default_flags getenv) in
  (protos (webhook_TLSOpts (options_Webhook o)) = if enableHTTP2 f then NextProtos c else ["http/1.1"]) /\
  (protos (metrics_TLSOpts (options_Metrics o)) = if enableHTTP2 f then NextProtos c else ["http/1.1"]) /\
  (metrics_SecureServing (options_Metrics o) = true -> metrics_Filter (options_Metrics o) = true) /\
  (webhookCertPath f = "" -> webhook_CertDir (options_Webhook o) = "" /\ webhook_KeyName (options_Webhook o) = "") /\
  (metricsCertPath f = "" -> metrics_CertDir (options_Metrics o) = "" /\ metrics_KeyName (options_Metrics o) = "") /\
  protos (metrics_TLSOpts (options_Metrics d)) = ["http/1.1"] /\
  metrics_BindAddress (options_Metrics d) = "0" /\ metrics_SecureServing (options_Metrics d) = true /\
  options_LeaderElection d = false.
Proof.
  cbn zeta. unfold manager_options. cbn [options_Webhook options_Metrics].
  unfold webhookServerOptions, metricsServerOptions, tlsOpts. split_and!; try done.
  1,2: by destruct (enableHTTP2 f), (0 <? _).
  - by destruct (0 <? _).
  - by intros ->.
  - by intros ->.
Qed.
