(* ===== verification/History.v ===== *)
(** * Histories: reconciliations, failures and the rest of the world

    Both controllers, the API server and everything else that happens (users,
    other controllers, the host) as the steps of one system, and what holds of
    every history.

    The API server is seen through the LibvirtMachines it stores.  [ApiLaws] says
    what the controllers rely on: reads return what is stored, a patch that
    succeeds stores the object, one that fails may have been applied in part, and
    an object marked for deletion disappears with its last finalizer.  A run of
    [Reconcile] is one step here: no other writer touches the object while it runs.
    Interleaving proves the same without that restriction. *)

From stdpp Require Import base gmap list strings relations.
From Stdlib Require Import ZArith.
From S2P Require Import Prelude GoStrings Config Api Kube Credentials ProviderInterface.
From S2P Require Import ClusterController MachineController.

(** ** The API server *)

(** What the API server keeps of an object written to it. *)
Definition persist (lm : LibvirtMachine) : option LibvirtMachine :=
  if negb (Time_IsZero (meta_DeletionTimestamp (lm_ObjectMeta lm))) &&
     bool_decide (meta_Finalizers (lm_ObjectMeta lm) = [])
  then None else Some lm.

(** Metadata and spec of [x] are those of [old] or those of [new]. *)
Definition written (old new x : LibvirtMachine) : Prop :=
  (lm_ObjectMeta x = lm_ObjectMeta old /\ lm_Spec x = lm_Spec old) \/
  (lm_ObjectMeta x = lm_ObjectMeta new /\ lm_Spec x = lm_Spec new).

Section History.
Context {W : Type} {KL : KubeLib W} {P : provider W}.
Context {GC : Getter W LibvirtCluster} {GM : Getter W LibvirtMachine} {GS : Getter W Secret}.
Context {CU : ClusterAPIUtil W} {PM : Patcher W LibvirtMachine} {PCl : Patcher W LibvirtCluster}.

(** The reads of the controllers leave [obs] alone. *)
Class ReadsKeep {X} (obs : W -> X) : Prop := {
  Get_cluster_keeps k : Keeps obs (Get (T := LibvirtCluster) k);
  Get_machine_keeps k : Keeps obs (Get (T := LibvirtMachine) k);
  Get_secret_keeps k : Keeps obs (Get (T := Secret) k);
  GetOwnerCluster_keeps m : Keeps obs (GetOwnerCluster m);
  GetOwnerMachine_keeps m : Keeps obs (GetOwnerMachine m);
  GetClusterFromMetadata_keeps m : Keeps obs (GetClusterFromMetadata m);
  NewHelper_machine_keeps o : Keeps obs (NewHelper (T := LibvirtMachine) o);
  NewHelper_cluster_keeps o : Keeps obs (NewHelper (T := LibvirtCluster) o);
  Patch_cluster_keeps h o : Keeps obs (Patch (T := LibvirtCluster) h o);
}.
Class ProviderKeeps {X} (obs : W -> X) : Prop := {
  EnsureInfra_keeps cfg : Keeps obs (EnsureInfra cfg);
  GetMachineState_keeps cfg : Keeps obs (GetMachineState cfg);
  CreateMachine_keeps cfg : Keeps obs (CreateMachine cfg);
  StartMachine_keeps cfg : Keeps obs (StartMachine cfg);
  DeleteMachine_keeps cfg : Keeps obs (DeleteMachine cfg);
  GetMachineAddress_keeps cfg : Keeps obs (GetMachineAddress cfg);
}.

Class ApiView := {
  stored_machines : W -> gmap NamespacedName LibvirtMachine;
  helper_object : Helper (W := W) (T := LibvirtMachine) -> LibvirtMachine;
}.
Class ApiLaws `{!ApiView} `{!ProviderTrace W} : Prop := {
  reads_keep_stored :: ReadsKeep stored_machines;
  reads_keep_trace :: ReadsKeep provider_trace;
  provider_keeps_stored :: ProviderKeeps stored_machines;
  stored_key w k lm : stored_machines w !! k = Some lm -> ObjectKeyFromObject lm = k;
  Get_machine_stored k w lm w' : Get k w = (Ok lm, w') -> stored_machines w !! k = Some lm;
  NewHelper_remembers o w h w' :
    NewHelper (T := LibvirtMachine) o w = (Ok h, w') -> helper_object h = o;
  Patch_machine_trace h o : Keeps provider_trace (Patch (T := LibvirtMachine) h o);
  Patch_machine_law h o w r w' :
    Patch (T := LibvirtMachine) h o w = (r, w') ->
    let k := ObjectKeyFromObject o in
    stored_machines w !! k = Some (helper_object h) ->
    exists x, written (helper_object h) o x /\ (r = Ok tt -> x = o) /\
      stored_machines w' = partial_alter (fun _ => persist x) k (stored_machines w);
}.
End History.
Ltac keeps_law :=
  first [ apply Get_cluster_keeps | apply Get_machine_keeps | apply Get_secret_keeps
        | apply GetOwnerCluster_keeps | apply GetOwnerMachine_keeps | apply GetClusterFromMetadata_keeps
        | apply NewHelper_machine_keeps | apply NewHelper_cluster_keeps | apply Patch_cluster_keeps
        | apply EnsureInfra_keeps | apply GetMachineState_keeps | apply CreateMachine_keeps
        | apply StartMachine_keeps | apply DeleteMachine_keeps | apply GetMachineAddress_keeps ].
#[export] Hint Extern 1 (Keeps _ _) => solve [keeps_law] : keeps.

(** ** Calls made by a computation *)

(** [m] adds calls that satisfy [Q] to the history of provider calls. *)
Definition Adds {W A} `{!ProviderTrace W} (Q : ProviderCall -> Prop) (m : M W A) : Prop :=
  forall w, exists calls, provider_trace (m w).2 = provider_trace w ++ calls /\ Forall Q calls.

Section Adds.
Context {W : Type} `{!ProviderTrace W} {Q : ProviderCall -> Prop}.
Lemma adds_keeps {A} (m : M W A) : Keeps provider_trace m -> Adds Q m.
Proof. intros Hm w. exists []. rewrite app_nil_r. by split. Qed.
Lemma adds_records {A} c (m : M W A) : Records c m -> (forall r, Q (c r)) -> Adds Q m.
Proof. intros Hm Hc w. exists [c (m w).1]. split; [apply Hm|by apply Forall_singleton]. Qed.
Lemma adds_bind {A B} (m : M W A) (f : A -> M W B) : Adds Q m -> (forall a, Adds Q (f a)) -> Adds Q (m ≫= f).
Proof.
  intros Hm Hf w. unfold mbind, M_bind. destruct (Hm w) as (c1 & Ht & Hc).
  destruct (m w) as [[a|e|] w1]; cbn in *; [|by exists c1..].
  destruct (Hf a w1) as (c2 & Ht2 & Hc2). exists (c1 ++ c2). rewrite Ht2, Ht, app_assoc.
  split; [done|by apply Forall_app].
Qed.
Lemma adds_try {A} (m : M W A) : Adds Q m -> Adds Q (try m).
Proof. intros Hm w. specialize (Hm w). unfold try. by destruct (m w) as [[] ?]. Qed.
End Adds.

(** The same on a reconcile state, where the world is the first component. *)
#[global] Instance object_trace {W T} `{!ProviderTrace W} : ProviderTrace (W * T) | 50 := fun s => provider_trace s.1.
Lemma adds_call {W T A} `{!ProviderTrace W} Q (m : M W A) : Adds Q m -> Adds (W := W * T) Q (call m).
Proof.
  intros Hm [w t]. destruct (Hm w) as (c & Ht & Hc). exists c. unfold call. cbn.
  destruct (m w). by split.
Qed.
Create HintDb adds.
#[export] Hint Resolve adds_try adds_call : adds.
#[export] Hint Extern 4 (Adds _ (_ ≫= _)) => apply adds_bind; [|intros ?] : adds.
#[export] Hint Extern 5 (Adds _ (match ?x with _ => _ end)) => destruct x : adds.

Section Runs.
Context {W : Type} {KL : KubeLib W} {P : provider W}.
Context {GC : Getter W LibvirtCluster} {GM : Getter W LibvirtMachine} {GS : Getter W Secret}.
Context {CU : ClusterAPIUtil W} {PM : Patcher W LibvirtMachine} {PCl : Patcher W LibvirtCluster}.
Context {PT : ProviderTrace W}.
Context {KLaws : KubeLibLaws W} {PTLaws : ProviderTraceLaws W} {RT : ReadsKeep (W := W) provider_trace}.

#[local] Instance api_secret_quiet : GetSecretQuiet W.
Proof. intros k. apply Get_secret_keeps. Qed.

Lemma Load_keeps {X} (obs : W -> X) {RK : ReadsKeep obs} l lc : Keeps obs (Load l lc).
Proof. unfold Load, loadRef. auto 12 with keeps. Qed.
#[local] Hint Extern 1 (Keeps _ (Load _ _)) => apply Load_keeps; apply _ : keeps.

(** *** The cluster controller asks for the infrastructure and nothing else *)

Definition is_ensure (c : ProviderCall) : Prop := if c is CallEnsureInfra _ _ then True else False.

Lemma deferred_patch_adds {T A} `{!Patcher W T} Q h (o : T) (body : M (W * T) A) :
  (forall h o, Keeps provider_trace (Patch (T := T) h o)) ->
  Adds (W := W * T) Q body -> Adds Q (deferred_patch h o body).
Proof.
  intros Hp Hb w. destruct (Hb (w, o)) as (c & Ht & Hc). exists c. split; [|done]. unfold deferred_patch.
  destruct (body (w, o)) as [r [w1 o1]]. cbn in *. unfold provider_trace, object_trace in Ht. cbn in Ht.
  destruct r as [a|e|]; cbn; [| |done]; specialize (Hp h o1 w1);
    destruct (Patch h o1 w1) as [[u|e'|] w2]; cbn in *; congruence.
Qed.

Lemma cluster_Reconcile_adds l req : Adds is_ensure (ClusterController.Reconcile (W := W) l req).
Proof.
  assert (forall {A} (m : M (W * LibvirtCluster) A), Keeps (fun s => provider_trace s.1) m ->
            Adds (W := W * LibvirtCluster) is_ensure m) as Hk.
  { intros A m Hm. by apply adds_keeps. }
  unfold ClusterController.Reconcile. apply adds_bind; [apply adds_keeps; auto with keeps|intros [e|lc]].
  { apply adds_keeps. auto with keeps. }
  apply adds_bind; [apply adds_keeps; auto with keeps|intros owner].
  apply adds_bind; [apply adds_keeps; auto with keeps|intros h].
  apply deferred_patch_adds; [apply Patch_cluster_keeps|]. destruct owner as [c|]; [|apply Hk; auto with keeps].
  destruct (Time_IsZero _); cbn [negb].
  2: { apply Hk. unfold ClusterController.reconcileDelete. apply keeps_bind; [auto with keeps|intros o].
       destruct (RemoveFinalizer _ _) as [m ok]. auto 8 with keeps. }
  unfold ClusterController.reconcileNormal. apply adds_bind; [apply Hk; auto with keeps|intros o].
  destruct (annotations_IsPaused _ _); [apply Hk; auto with keeps|].
  destruct (ContainsFinalizer _ _); cbn [negb]; [|apply Hk; auto 8 with keeps].
  destruct (hasControlPlaneEndpoint _ _); cbn [negb]; [|apply Hk; auto 12 with keeps].
  do 2 (apply adds_bind; [apply Hk; auto with keeps|intros _]).
  apply adds_bind; [apply Hk; auto with keeps|intros o']. apply adds_bind; [apply Hk; auto with keeps|].
  intros [e|creds]; [apply Hk; auto 8 with keeps|]. apply adds_bind.
  - apply adds_try, adds_call. eapply adds_records; [apply EnsureInfra_records|by intros r].
  - intros [e|u]; apply Hk; auto 12 with keeps.
Qed.

(** *** What a run of the machine controller does to its object *)

Definition protected (lm : LibvirtMachine) : Prop :=
  LibvirtMachineFinalizer ∈ meta_Finalizers (lm_ObjectMeta lm).
#[global] Instance protected_dec lm : Decision (protected lm) := _.

(** A domain name was given up: [DeleteMachine] for it succeeded. *)
Definition deletes (name : string) (c : ProviderCall) : Prop :=
  exists cfg, c = CallDeleteMachine cfg (Ok tt) /\ cfg_DomainName cfg = name.

(** The object of a run that found it as [lm], made [calls] and left it as [lm']. *)
Record owned_run (lm : LibvirtMachine) (calls : list ProviderCall) (lm' : LibvirtMachine) : Prop := {
  owned_key : ObjectKeyFromObject lm' = ObjectKeyFromObject lm;
  owned_id id : mspec_ProviderID (lm_Spec lm) = Some id -> mspec_ProviderID (lm_Spec lm') = Some id;
  owned_create cfg res : CallCreateMachine cfg res ∈ calls ->
    cfg_DomainName cfg = domainName lm /\ mspec_ProviderID (lm_Spec lm) = None /\
    protected lm /\ lm_ObjectMeta lm' = lm_ObjectMeta lm;
  owned_finalizers : meta_Finalizers (lm_ObjectMeta lm') = meta_Finalizers (lm_ObjectMeta lm) \/
    protected lm' \/ Exists (deletes (domainName lm)) calls;
}.
Lemma owned_protected lm calls lm' :
  owned_run lm calls lm' -> protected lm -> protected lm' \/ Exists (deletes (domainName lm)) calls.
Proof.
  intros Hrun Hp. destruct (owned_finalizers _ _ _ Hrun) as [Hf|[|]]; [left|by left|by right].
  unfold protected. by rewrite Hf.
Qed.

Lemma domainName_key lm lm' : ObjectKeyFromObject lm' = ObjectKeyFromObject lm -> domainName lm' = domainName lm.
Proof. unfold ObjectKeyFromObject, domainName. cbn. by intros [= -> ->]. Qed.

Lemma owned_refl lm calls : (forall cfg res, CallCreateMachine cfg res ∉ calls) -> owned_run lm calls lm.
Proof. intros Hc. split; [done|done| |by left]. intros cfg res Hin. by destruct (Hc cfg res). Qed.

Lemma owned_none w lm : exists calls, provider_trace w = provider_trace w ++ calls /\ owned_run lm calls lm.
Proof. exists []. split; [by rewrite app_nil_r|]. apply owned_refl. by intros ?? ?%elem_of_nil. Qed.

Lemma owned_call {A B} (m : M W A) (f : A -> M (W * LibvirtMachine) B) lm w r w' lm' :
  Keeps provider_trace m ->
  (call m ≫= f) (w, lm) = (r, (w', lm')) ->
  (forall a w1, f a (w1, lm) = (r, (w', lm')) ->
     exists calls, provider_trace w' = provider_trace w1 ++ calls /\ owned_run lm calls lm') ->
  exists calls, provider_trace w' = provider_trace w ++ calls /\ owned_run lm calls lm'.
Proof.
  intros Hm. specialize (Hm w). unfold mbind, M_bind, call. cbn [fst snd].
  destruct (m w) as [[a|e|] w1]; cbn [snd] in Hm; rewrite <- Hm; [by eauto|..];
    intros [= <- <- <-] _; apply owned_none.
Qed.

Lemma reconcileDelete_owned scope w lm r w' lm' :
  cfg_DomainName (mscope_MachineConfig scope) = domainName lm ->
  MachineController.reconcileDelete scope (w, lm) = (r, (w', lm')) ->
  exists calls, provider_trace w' = provider_trace w ++ calls /\ owned_run lm calls lm'.
Proof.
  intros Hname. unfold MachineController.reconcileDelete, mbind, M_bind, call, object, update, mret, M_ret, fail.
  cbn [fst snd]. pose proof (DeleteMachine_records (mscope_MachineConfig scope) w) as Ht.
  destruct (DeleteMachine _ w) as [res w1] eqn:Hd. cbn [fst snd] in Ht.
  assert (forall cfg cres, CallCreateMachine cfg cres ∉ [CallDeleteMachine (mscope_MachineConfig scope) res]) as Hn
    by (intros cfg cres [=]%list_elem_of_singleton).
  intros H. exists [CallDeleteMachine (mscope_MachineConfig scope) res].
  destruct res as [[]|e|]; [|by injection H as <- <- <-; split; [|apply owned_refl]..].
  rewrite RemoveFinalizer_law in H. cbn [fst snd] in H.
  assert (w' = w1 /\ lm' = SetObjectMeta lm (with_finalizers (lm_ObjectMeta lm)
    (filter (.≠ LibvirtMachineFinalizer) (meta_Finalizers (lm_ObjectMeta lm))))) as [-> ->]
    by (case_bool_decide; cbn [negb] in H; by injection H as <- <- <-).
  split; [done|]. split; [done|done| |].
  - intros cfg cres Hin. by destruct (Hn cfg cres).
  - right; right. apply Exists_cons_hd. by eexists.
Qed.

Lemma reconcileNormal_owned scope w lm r w' lm' :
  cfg_DomainName (mscope_MachineConfig scope) = domainName lm ->
  Time_IsZero (meta_DeletionTimestamp (lm_ObjectMeta lm)) = true ->
  MachineController.reconcileNormal scope (w, lm) = (r, (w', lm')) ->
  exists calls, provider_trace w' = provider_trace w ++ calls /\ owned_run lm calls lm'.
Proof.
  intros Hname Hz H. destruct (reconcileNormal_run _ _ _ _ _ _ Hz H) as (calls & Htr & Hrun).
  exists calls. split; [done|]. pose proof (reconcileNormal_frame _ _ _ _ _ _ H) as Hsame.
  destruct (same_meta _ _ Hsame) as (_ & Hn & Hns). destruct Hsame as [Hmeta _]. split.
  - unfold ObjectKeyFromObject. cbn. by rewrite Hn, Hns.
  - intros id Hid. apply run_provider_id in Hrun.
    change (view_ProviderID _) with (mspec_ProviderID (lm_Spec lm')) in Hrun.
    unfold assigned_id in Hrun. rewrite Hid in Hrun. by destruct Hrun.
  - intros cfg res Hin. destruct Hrun; rewrite ?elem_of_cons, ?elem_of_nil in Hin;
      repeat (destruct Hin as [Hin|Hin]; try discriminate Hin); try done.
    injection Hin as -> ->. match goal with H : gates_open _ _ |- _ => destruct H as (_ & Hf & _) end.
    split_and!; [done..|]. destruct Hmeta as [->|Hm]; [done|]. rewrite Hm, AddFinalizer_law.
    by rewrite bool_decide_eq_true_2.
  - destruct Hmeta as [->|Hm]; [by left|]. right; left. unfold protected. rewrite Hm, AddFinalizer_law.
    case_bool_decide; [done|]. cbn. rewrite elem_of_app, list_elem_of_singleton. by right.
Qed.

Lemma reconcileOwned_run l lm w r w' lm' :
  reconcileOwned l lm (w, lm) = (r, (w', lm')) ->
  exists calls, provider_trace w' = provider_trace w ++ calls /\ owned_run lm calls lm'.
Proof.
  unfold reconcileOwned. intros H. eapply owned_call; [|exact H|clear H]; [auto with keeps|].
  intros [machine|] w1 H; [|injection H as <- <- <-; apply owned_none].
  eapply owned_call; [|exact H|clear H]; [auto with keeps|]. intros [cluster|] w2 H; [|injection H as <- <- <-; apply owned_none].
  eapply owned_call; [|exact H|clear H]; [auto with keeps|]. intros lc w3 H.
  eapply owned_call; [|exact H|clear H]; [auto with keeps|]. intros creds w4 H.
  destruct (Time_IsZero _) eqn:Hz; cbn [negb] in H.
  - by eapply reconcileNormal_owned in H.
  - by eapply reconcileDelete_owned in H.
Qed.

End Runs.

Section Histories.
Context {W : Type} {KL : KubeLib W} {P : provider W}.
Context {GC : Getter W LibvirtCluster} {GM : Getter W LibvirtMachine} {GS : Getter W Secret}.
Context {CU : ClusterAPIUtil W} {PM : Patcher W LibvirtMachine} {PCl : Patcher W LibvirtCluster}.
Context {AV : ApiView (W := W)} {PT : ProviderTrace W}.
Context {KLaws : KubeLibLaws W} {PTLaws : ProviderTraceLaws W} {ALaws : ApiLaws (W := W)}.
#[local] Hint Extern 1 (Keeps _ (Load _ _)) => apply Load_keeps; apply _ : keeps.

Lemma reconcileOwned_keeps l lm : Keeps (fun s => stored_machines s.1) (reconcileOwned (W := W) l lm).
Proof.
  assert (forall scope n, Keeps stored_machines (getCloudInitData scope n)) as Hdata.
  { intros scope n. unfold getCloudInitData. auto 8 with keeps. }
  unfold reconcileOwned. apply keeps_bind; [auto with keeps|intros [machine|]]; [|auto with keeps].
  apply keeps_bind; [auto with keeps|intros [cluster|]]; [|auto with keeps].
  do 2 (apply keeps_bind; [auto with keeps|intros ?]). destruct (Time_IsZero _); cbn [negb].
  - unfold MachineController.reconcileNormal, reconcileLostDomain, createMissingDomain, startStoppedDomain,
      observeRunningDomain, observeMachineAddress.
    auto 30 with keeps.
  - unfold MachineController.reconcileDelete. do 2 (apply keeps_bind; [auto with keeps|intros ?]).
    destruct (RemoveFinalizer _ _). auto 8 with keeps.
Qed.

(** One run of the machine controller: it makes the calls of [owned_run] and
    stores what it left of its object, in whole or in part, or not at all. *)
Lemma machine_Reconcile_run l k w r w' :
  MachineController.Reconcile l k w = (r, w') ->
  provider_trace w' = provider_trace w /\ stored_machines w' = stored_machines w \/
  exists lm calls lm', stored_machines w !! k = Some lm /\
    provider_trace w' = provider_trace w ++ calls /\ owned_run lm calls lm' /\
    (stored_machines w' = stored_machines w \/
     exists x, written lm lm' x /\
       stored_machines w' = partial_alter (fun _ => persist x) k (stored_machines w)).
Proof.
  unfold MachineController.Reconcile, mbind, M_bind, try.
  pose proof (Get_machine_keeps (obs := stored_machines) k w) as Hs1.
  pose proof (Get_machine_keeps (obs := provider_trace) k w) as Ht1.
  destruct (Get k w) as [[lm|e|] w1] eqn:Hget; cbn [snd] in Hs1, Ht1.
  2: destruct (apierrors_IsNotFound e); intros [= <- <-]; by left.
  2: intros [= <- <-]; by left.
  apply Get_machine_stored in Hget as Hlm. pose proof (stored_key _ _ _ Hlm) as Hkey.
  pose proof (NewHelper_machine_keeps (obs := stored_machines) lm w1) as Hs2.
  pose proof (NewHelper_machine_keeps (obs := provider_trace) lm w1) as Ht2.
  destruct (NewHelper lm w1) as [[h|e|] w2] eqn:Hnew; cbn [snd] in Hs2, Ht2.
  2,3: intros [= <- <-]; left; split; congruence.
  apply NewHelper_remembers in Hnew. unfold deferred_patch.
  destruct (reconcileOwned l lm (w2, lm)) as [rb [w3 lm']] eqn:Hbody. cbn [fst snd].
  pose proof (keeps_run _ _ _ _ (reconcileOwned_keeps l lm) Hbody) as Hs3. cbn [fst] in Hs3.
  destruct (reconcileOwned_run _ _ _ _ _ _ Hbody) as (calls & Ht3 & Hrun).
  intros H. right. exists lm, calls, lm'. split; [done|].
  assert (rb = Diverge /\ w' = w3 \/ exists rp, Patch h lm' w3 = (rp, w')) as [[_ ->]|[rp Hp]].
  { destruct rb; [right|right|left; by injection H as <- <-];
      destruct (Patch h lm' w3) as [[u|e'|] w4]; injection H as <- <-; eauto. }
  { split; [by rewrite Ht3, Ht2, Ht1|]. split; [done|]. left. by rewrite Hs3, Hs2, Hs1. }
  pose proof (Patch_machine_trace h lm' w3) as Ht4. rewrite Hp in Ht4. cbn [snd] in Ht4.
  apply Patch_machine_law in Hp as (x & Hx & _ & Hst).
  2: { rewrite (owned_key _ _ _ Hrun), Hkey, Hnew, Hs3, Hs2, Hs1. done. }
  split; [by rewrite Ht4, Ht3, Ht2, Ht1|]. split; [done|]. right. exists x. rewrite Hnew in Hx.
  split; [done|]. by rewrite Hst, (owned_key _ _ _ Hrun), Hkey, Hs3, Hs2, Hs1.
Qed.

Lemma deferred_patch_keeps {T A X} `{!Patcher W T} (obs : W -> X) h (o : T) (body : M (W * T) A) :
  (forall h o, Keeps obs (Patch (T := T) h o)) -> Keeps (fun s => obs s.1) body ->
  Keeps obs (deferred_patch h o body).
Proof.
  intros Hp Hb w. specialize (Hb (w, o)). unfold deferred_patch.
  destruct (body (w, o)) as [r [w1 o1]]. cbn in Hb. specialize (Hp h o1 w1).
  destruct r; cbn; [| |done]; destruct (Patch h o1 w1) as [[u|e'|] w2]; cbn in *; congruence.
Qed.

Lemma cluster_Reconcile_keeps l req : Keeps stored_machines (ClusterController.Reconcile (W := W) l req).
Proof.
  unfold ClusterController.Reconcile. apply keeps_bind; [auto with keeps|intros [e|lc]]; [auto with keeps|].
  do 2 (apply keeps_bind; [auto with keeps|intros ?]). apply deferred_patch_keeps; [apply Patch_cluster_keeps|].
  destruct a as [c|]; [|auto with keeps]. destruct (Time_IsZero _); cbn [negb].
  - unfold ClusterController.reconcileNormal. auto 30 with keeps.
  - unfold ClusterController.reconcileDelete. apply keeps_bind; [auto with keeps|intros ?].
    destruct (RemoveFinalizer _ _). auto 8 with keeps.
Qed.

(** ** Histories *)

(** Whatever else happens between two runs: users create, change and delete
    objects, other controllers write, the host fails.  Nobody but the machine
    controller removes its finalizer or changes a provider ID it protects. *)
Record env_step (w w' : W) : Prop := {
  env_trace : provider_trace w' = provider_trace w;
  env_protected k lm : stored_machines w !! k = Some lm -> protected lm ->
    exists lm', stored_machines w' !! k = Some lm' /\ protected lm' /\
      forall id, mspec_ProviderID (lm_Spec lm) = Some id -> mspec_ProviderID (lm_Spec lm') = Some id;
}.

Inductive step (l : CredentialsLoader) (w : W) : W -> Prop :=
  | step_machine k r w' : MachineController.Reconcile l k w = (r, w') -> step l w w'
  | step_cluster k r w' : ClusterController.Reconcile l k w = (r, w') -> step l w w'
  | step_env w' : env_step w w' -> step l w w'.

(** The name is held: a protected object has it. *)
Definition held (w : W) (name : string) : Prop :=
  exists k lm, stored_machines w !! k = Some lm /\ protected lm /\ domainName lm = name.

(** Every [CreateMachine] of the history, failed ones included, is for a name that
    is still held or was given up later. *)
Definition accounted (w : W) : Prop := forall before cfg res after,
  provider_trace w = before ++ CallCreateMachine cfg res :: after ->
  held w (cfg_DomainName cfg) \/ Exists (deletes (cfg_DomainName cfg)) after.

Lemma written_protected lm lm' x : written lm lm' x -> protected lm -> protected lm' -> protected x.
Proof. unfold protected. by intros [[-> _]|[-> _]]. Qed.
Lemma written_key lm lm' x : written lm lm' x -> ObjectKeyFromObject lm' = ObjectKeyFromObject lm ->
  ObjectKeyFromObject x = ObjectKeyFromObject lm.
Proof. unfold ObjectKeyFromObject. cbn. by intros [[-> _]|[-> _]]. Qed.
Lemma persist_protected lm : protected lm -> persist lm = Some lm.
Proof.
  unfold protected, persist. intros Hp. rewrite (bool_decide_eq_false_2 (_ = [])), andb_false_r; [done|].
  intros Hn. rewrite Hn in Hp. by apply elem_of_nil in Hp.
Qed.

(** A protected object outlives a step unless the step gives its name up. *)
Lemma step_protected l w w' k lm :
  step l w w' -> stored_machines w !! k = Some lm -> protected lm ->
  exists calls, provider_trace w' = provider_trace w ++ calls /\
    ((exists lm', stored_machines w' !! k = Some lm' /\ protected lm' /\ domainName lm' = domainName lm /\
        forall id, mspec_ProviderID (lm_Spec lm) = Some id -> mspec_ProviderID (lm_Spec lm') = Some id) \/
     Exists (deletes (domainName lm)) calls).
Proof.
  intros Hstep Hk Hp. destruct Hstep as [k1 r w' H|k1 r w' H|w' [Htr Hp']].
  - destruct (machine_Reconcile_run _ _ _ _ _ H) as [[Htr Hst]|(lm1 & calls & lm1' & Hk1 & Htr & Hrun & Hst)].
    { exists []. split; [by rewrite app_nil_r|]. left. exists lm. by rewrite Hst. }
    exists calls. split; [done|]. destruct Hst as [Hst|(x & Hx & Hst)].
    { left. exists lm. by rewrite Hst. }
    destruct (decide (k1 = k)) as [->|Hne].
    2: { left. exists lm. by rewrite Hst, lookup_partial_alter_ne. }
    rewrite Hk in Hk1. injection Hk1 as <-.
    destruct (owned_protected _ _ _ Hrun Hp) as [Hp'|Hd]; [left|by right].
    pose proof (written_protected _ _ _ Hx Hp Hp') as Hpx. exists x.
    rewrite Hst, lookup_partial_alter_eq, persist_protected by done. split_and!; [done..| |].
    + apply domainName_key. by apply (written_key _ _ _ Hx), (owned_key _ _ _ Hrun).
    + intros id Hid. destruct Hx as [[_ ->]|[_ ->]]; [done|]. by apply (owned_id _ _ _ Hrun).
  - destruct (cluster_Reconcile_adds l k1 w) as (calls & Htr & _).
    pose proof (cluster_Reconcile_keeps l k1 w) as Hst. rewrite H in Htr, Hst. cbn [snd] in Htr, Hst.
    exists calls. split; [done|]. left. exists lm. by rewrite Hst.
  - exists []. split; [by rewrite app_nil_r|]. left. destruct (Hp' _ _ Hk Hp) as (lm' & Hk' & Hpr & Hid).
    exists lm'. split_and!; [done..| |done]. apply domainName_key.
    by rewrite (stored_key _ _ _ Hk'), (stored_key _ _ _ Hk).
Qed.

(** The domains a step creates have names that are held when it ends. *)
Lemma step_creates l w w' :
  step l w w' ->
  exists calls, provider_trace w' = provider_trace w ++ calls /\
    forall cfg res, CallCreateMachine cfg res ∈ calls -> held w' (cfg_DomainName cfg).
Proof.
  intros [k r w1 H|k r w1 H|w1 [Htr _]].
  - destruct (machine_Reconcile_run _ _ _ _ _ H) as [[Htr _]|(lm & calls & lm' & Hk & Htr & Hrun & Hst)].
    { exists []. split; [by rewrite app_nil_r|]. by intros ?? ?%elem_of_nil. }
    exists calls. split; [done|]. intros cfg res Hin.
    destruct (owned_create _ _ _ Hrun _ _ Hin) as (-> & _ & Hp & Hmeta). exists k.
    destruct Hst as [Hst|(x & Hx & Hst)]; [exists lm; by rewrite Hst|].
    assert (lm_ObjectMeta x = lm_ObjectMeta lm) as Hmx by (destruct Hx as [[-> _]|[-> _]]; congruence).
    assert (protected x) as Hpx by (unfold protected; by rewrite Hmx).
    exists x. rewrite Hst, lookup_partial_alter_eq, persist_protected by done. split_and!; [done..|].
    unfold domainName. by rewrite Hmx.
  - destruct (cluster_Reconcile_adds l k w) as (calls & Htr & Hall). rewrite H in Htr. exists calls.
    split; [done|]. intros cfg res Hin. rewrite Forall_forall in Hall. by destruct (Hall _ Hin).
  - exists []. split; [by rewrite app_nil_r|]. by intros ?? ?%elem_of_nil.
Qed.

Lemma step_accounted l w w' : step l w w' -> accounted w -> accounted w'.
Proof.
  intros Hstep Ha before cfg res after Htr'.
  destruct (step_creates _ _ _ Hstep) as (calls & Htr & Hnew). rewrite Htr in Htr'.
  apply app_eq_inv in Htr' as [(k & Ht & Hk)|(k & _ & Hc)].
  2: { left. apply (Hnew cfg res). rewrite Hc, elem_of_app. right. by left. }
  destruct k as [|c k]; cbn in Hk; [left; apply (Hnew cfg res); rewrite <- Hk; by left|]. injection Hk as <- ->.
  destruct (Ha _ _ _ _ Ht) as [(k1 & lm & Hk1 & Hp & Hname)|Hd]; [|right; apply Exists_app; by left].
  destruct (step_protected _ _ _ _ _ Hstep Hk1 Hp) as (calls' & Htr' & Hout).
  rewrite Htr in Htr'. apply app_inv_head in Htr' as <-. rewrite Hname in Hout.
  destruct Hout as [(lm' & Hk' & Hp' & Hn' & _)|Hd]; [|right; apply Exists_app; by right].
  left. by exists k1, lm'.
Qed.

Lemma steps_accounted l w w' : provider_trace w = [] -> rtc (step l) w w' -> accounted w'.
Proof.
  intros Hinit Hsteps. assert (accounted w) as Ha.
  { intros before cfg res after Htr. rewrite Hinit in Htr. by destruct before. }
  clear Hinit. induction Hsteps; eauto using step_accounted.
Qed.

(** No domain is forgotten: after any history of reconciliations of both
    controllers and of other writers, with host, API and patch failures at any
    point, every [CreateMachine] the controllers ever called, whether or not it
    succeeded, is for a domain name that a stored LibvirtMachine with the
    controller's finalizer still has, or that a later [DeleteMachine] gave up
    successfully. *)
Theorem no_orphans l w w' :
  provider_trace w = [] -> rtc (step l) w w' -> accounted w'.
Proof. apply steps_accounted. Qed.

Lemma steps_trace l w w' : rtc (step l) w w' -> exists more, provider_trace w' = provider_trace w ++ more.
Proof.
  intros Hsteps. induction Hsteps as [w|w w1 w2 Hstep _ (more & IH)]; [exists []; by rewrite app_nil_r|].
  destruct (step_creates _ _ _ Hstep) as (calls & Htr & _). exists (calls ++ more).
  by rewrite IH, Htr, app_assoc.
Qed.

(** A protected object and its provider ID, along a history. *)
Lemma steps_protected l w w' k lm id :
  rtc (step l) w w' -> stored_machines w !! k = Some lm -> protected lm ->
  mspec_ProviderID (lm_Spec lm) = Some id ->
  exists calls, provider_trace w' = provider_trace w ++ calls /\
    (Exists (deletes (domainName lm)) calls \/
     exists lm', stored_machines w' !! k = Some lm' /\ protected lm' /\ mspec_ProviderID (lm_Spec lm') = Some id).
Proof.
  intros Hsteps. revert lm. induction Hsteps as [w|w w1 w2 Hstep Hsteps IH]; intros lm Hk Hp Hid.
  { exists []. split; [by rewrite app_nil_r|]. right. by exists lm. }
  destruct (step_protected _ _ _ _ _ Hstep Hk Hp) as (calls & Htr & Hout).
  destruct (steps_trace _ _ _ Hsteps) as [more Hmore].
  destruct Hout as [(lm1 & Hk1 & Hp1 & Hn1 & Hid1)|Hd].
  - destruct (IH lm1 Hk1 Hp1 (Hid1 _ Hid)) as (calls2 & Htr2 & Hout). exists (calls ++ calls2).
    rewrite Htr2, Htr, app_assoc. split; [done|]. rewrite Hn1 in Hout.
    destruct Hout as [Hd|Hout]; [left; apply Exists_app; by right|by right].
  - exists (calls ++ more). rewrite Hmore, Htr, app_assoc. split; [done|]. left. apply Exists_app. by left.
Qed.

(** A machine is provisioned once: from the moment a LibvirtMachine is stored
    with the finalizer and a provider ID, through any later history, it stays
    stored with the finalizer and that provider ID, and a reconciliation of it
    asks for no new domain, whatever the host reports; unless its domain was
    deleted successfully in between. *)
Theorem provisioned_once l w w' k lm id :
  rtc (step l) w w' -> stored_machines w !! k = Some lm -> protected lm ->
  mspec_ProviderID (lm_Spec lm) = Some id ->
  exists calls, provider_trace w' = provider_trace w ++ calls /\
    (Exists (deletes (domainName lm)) calls \/
     (exists lm', stored_machines w' !! k = Some lm' /\ protected lm' /\
        mspec_ProviderID (lm_Spec lm') = Some id) /\
     forall r w'', MachineController.Reconcile l k w' = (r, w'') ->
       exists new, provider_trace w'' = provider_trace w' ++ new /\
         forall cfg res, CallCreateMachine cfg res ∉ new).
Proof.
  intros Hsteps Hk Hp Hid. destruct (steps_protected _ _ _ _ _ _ Hsteps Hk Hp Hid) as (calls & Htr & Hout).
  exists calls. split; [done|]. destruct Hout as [Hd|(lm' & Hk' & Hp' & Hid')]; [by left|right].
  split; [by exists lm'|]. intros r w'' H.
  destruct (machine_Reconcile_run _ _ _ _ _ H) as [[Ht _]|(lm1 & new & lm1' & Hk1 & Ht & Hrun & _)].
  - exists []. split; [by rewrite app_nil_r|]. by intros ?? ?%elem_of_nil.
  - exists new. split; [done|]. intros cfg res Hin. rewrite Hk' in Hk1. injection Hk1 as <-.
    destruct (owned_create _ _ _ Hrun _ _ Hin) as (_ & Hnone & _). congruence.
Qed.
End Histories.
