(* ===== verification/Pattern.v ===== *)
(** * Patterns of a schema

    The regular expressions that occur as [pattern] in a schema, matched from the
    first character to the last (both ends of every pattern are anchored), with the
    strings they stand for as specification. *)

From stdpp Require Import base list strings.
From Stdlib Require Import Ascii.
From S2P Require Import Prelude GoStrings.

Inductive pattern : Type :=
  | PNone
  | PEmpty
  | PClass (p : ascii -> bool)
  | PSeq (r s : pattern)
  | POr (r s : pattern)
  | PStar (r : pattern).
(** [(r)?] *)
Definition POpt (r : pattern) : pattern := POr PEmpty r.

Inductive Matches : pattern -> list ascii -> Prop :=
  | matches_empty : Matches PEmpty []
  | matches_class p c : p c = true -> Matches (PClass p) [c]
  | matches_seq r s x y : Matches r x -> Matches s y -> Matches (PSeq r s) (x ++ y)
  | matches_left r s x : Matches r x -> Matches (POr r s) x
  | matches_right r s x : Matches s x -> Matches (POr r s) x
  | matches_stop r : Matches (PStar r) []
  | matches_more r x y : Matches r x -> Matches (PStar r) y -> Matches (PStar r) (x ++ y).
#[local] Hint Constructors Matches : core.

(** ** Matching, one character after the other *)

Fixpoint nullable (r : pattern) : bool :=
  match r with
  | PNone | PClass _ => false
  | PEmpty | PStar _ => true
  | PSeq r s => nullable r && nullable s
  | POr r s => nullable r || nullable s
  end.

(** Sequence and choice, simplified so that what is left of a pattern stays small. *)
Definition pseq (r s : pattern) : pattern :=
  match r with PNone => PNone | PEmpty => s | _ => PSeq r s end.
Definition por (r s : pattern) : pattern :=
  match r, s with PNone, _ => s | _, PNone => r | _, _ => POr r s end.

(** What has to match the rest of a string that begins with [c]. *)
Fixpoint rest_after (c : ascii) (r : pattern) : pattern :=
  match r with
  | PNone | PEmpty => PNone
  | PClass p => if p c then PEmpty else PNone
  | PSeq r s =>
      let first := pseq (rest_after c r) s in
      if nullable r then por first (rest_after c s) else first
  | POr r s => por (rest_after c r) (rest_after c s)
  | PStar r => pseq (rest_after c r) (PStar r)
  end.
Definition matches (r : pattern) (s : string) : bool :=
  nullable (foldl (fun r c => rest_after c r) r (chars s)).

(** ** It finds exactly the strings of the pattern *)

Lemma Matches_seq r s l : Matches (PSeq r s) l <-> exists x y, l = x ++ y /\ Matches r x /\ Matches s y.
Proof. split; [intros H; inversion H; eauto|]. intros (x & y & -> & ? & ?). by constructor. Qed.
Lemma Matches_or r s l : Matches (POr r s) l <-> Matches r l \/ Matches s l.
Proof. split; [intros H; inversion H; auto|]. intros []; auto. Qed.
Lemma Matches_none l : ~ Matches PNone l.
Proof. intros H. inversion H. Qed.
Lemma Matches_empty l : Matches PEmpty l <-> l = [].
Proof. split; [intros H; by inversion H|]. by intros ->. Qed.

Lemma pseq_spec r s l : Matches (pseq r s) l <-> Matches (PSeq r s) l.
Proof.
  destruct r; try done; rewrite Matches_seq; cbn [pseq].
  - split; [by intros ?%Matches_none|]. by intros (x & y & _ & ?%Matches_none & _).
  - split; [by exists [], l|]. by intros (x & y & -> & ->%Matches_empty & Hy).
Qed.
Lemma por_spec r s l : Matches (por r s) l <-> Matches (POr r s) l.
Proof.
  rewrite Matches_or. pose proof (Matches_none l). unfold por.
  destruct r, s; rewrite ?Matches_or; tauto.
Qed.

Lemma nullable_spec r : nullable r = true <-> Matches r [].
Proof.
  induction r as [| |p|r IHr s IHs|r IHr s IHs|r IHr]; cbn [nullable].
  - split; [done|]. by intros ?%Matches_none.
  - by split.
  - split; [done|]. intros H. inversion H.
  - rewrite andb_true_iff, IHr, IHs, Matches_seq. split; [intros [? ?]; by exists [], []|].
    by intros (x & y & [-> ->]%eq_sym%app_eq_nil & ? & ?).
  - by rewrite orb_true_iff, IHr, IHs, Matches_or.
  - by split.
Qed.

(** The first character of a repetition is that of one of its parts. *)
Lemma Matches_star_cons r c l :
  Matches (PStar r) (c :: l) -> exists x y, l = x ++ y /\ Matches r (c :: x) /\ Matches (PStar r) y.
Proof.
  intros H. remember (PStar r) as p eqn:Hp. remember (c :: l) as k eqn:Hk. revert l Hk.
  induction H as [| | | | | |r' x y Hx _ Hy IH]; intros l Hk; try discriminate. injection Hp as ->.
  destruct x as [|c' x]; cbn in Hk; [by apply IH|]. injection Hk as -> <-. by exists x, y.
Qed.

Lemma rest_after_spec c r l : Matches (rest_after c r) l <-> Matches r (c :: l).
Proof.
  revert l. induction r as [| |p|r IHr s IHs|r IHr s IHs|r IHr]; intros l; cbn [rest_after].
  - split; by intros ?%Matches_none.
  - split; [by intros ?%Matches_none|]. intros H. inversion H.
  - destruct (p c) eqn:Hc; [rewrite Matches_empty|].
    + split; [intros ->; auto|]. intros H. by inversion H.
    + split; [by intros ?%Matches_none|]. intros H. inversion H. congruence.
  - assert (Matches (pseq (rest_after c r) s) l <->
            exists x y, l = x ++ y /\ Matches r (c :: x) /\ Matches s y) as Hfirst.
    { rewrite pseq_spec, Matches_seq. by setoid_rewrite IHr. }
    rewrite Matches_seq. destruct (nullable r) eqn:Hn.
    + apply nullable_spec in Hn. rewrite por_spec, Matches_or, Hfirst, IHs. split.
      * intros [(x & y & -> & Hx & Hy)|Hs]; [by exists (c :: x), y|by exists [], (c :: l)].
      * intros ([|c' x] & y & Hl & Hx & Hy); cbn in Hl; [right; by subst|left]. injection Hl as <- ->. by exists x, y.
    + rewrite Hfirst. split.
      * intros (x & y & -> & Hx & Hy). by exists (c :: x), y.
      * intros ([|c' x] & y & Hl & Hx & Hy); cbn in Hl; [apply nullable_spec in Hx; congruence|].
        injection Hl as <- ->. by exists x, y.
  - rewrite por_spec, !Matches_or. by rewrite IHr, IHs.
  - rewrite pseq_spec, Matches_seq. setoid_rewrite IHr. split.
    + intros (x & y & -> & Hx & Hy). by apply (matches_more r (c :: x) y).
    + apply Matches_star_cons.
Qed.

Lemma matches_spec r s : matches r s = true <-> Matches r (chars s).
Proof.
  unfold matches. generalize (chars s) as l. intros l. revert r.
  induction l as [|c l IH]; intros r; cbn [foldl]; [apply nullable_spec|]. by rewrite IH, rest_after_spec.
Qed.
