(* ===== verification/Schema.v ===== *)
(** * What the controllers write is what the API server accepts

    The schema the API server checks a status against, as config/crd/bases has it
    (made from the types of api/v1alpha1, [metav1.Condition] and
    [clusterv1.MachineAddress]): the patterns, lengths and enumerations of
    conditions and addresses, and the time every condition must have.  A status
    that breaks it makes the deferred patch fail on every run.  What else the schema
    says of a status, the types of its fields, is said by their types here; the
    controllers leave [observedGeneration] unset.

    Two of the bounds are on texts that come from elsewhere: a message may quote an
    error, and an address is what the host reports.  [short_call] says that those of
    a run fit. *)

From stdpp Require Import base gmap list strings.
From Stdlib Require Import ZArith Lia Ascii.
From S2P Require Import Prelude GoStrings Config Api Kube Credentials ProviderInterface.
From S2P Require Import ClusterController MachineController History Pattern.

Local Open Scope Z_scope.

(** ** The schema *)

(** The number of characters of a string, as the API server counts them for
    [minLength] and [maxLength]: a character takes one or more bytes. *)
Class CharCount := char_count : string -> Z.
Class CharCountLaws `{CharCount} : Prop := {
  char_count_le s : char_count s <= len s;
  char_count_pos s : s <> "" -> 0 < char_count s;
}.

Definition between (lo hi : Z) (c : ascii) : bool := (lo <=? byte_of c) && (byte_of c <=? hi).
Definition lower_alnum (c : ascii) : bool := between 97 122 c || between 48 57 c.
Definition alpha (c : ascii) : bool := between 65 90 c || between 97 122 c.
Definition alnum (c : ascii) : bool := alpha c || between 48 57 c.
Definition one_of (cs : list ascii) (c : ascii) : bool := bool_decide (c ∈ cs).
Definition PChar (c : ascii) : pattern := PClass (one_of [c]).

(** [^[A-Za-z]([A-Za-z0-9_,:]*[A-Za-z0-9_])?$] *)
Definition reason_pattern : pattern :=
  PSeq (PClass alpha)
    (POpt (PSeq (PStar (PClass (fun c => alnum c || one_of ["_"; ","; ":"]%char c)))
                (PClass (fun c => alnum c || one_of ["_"]%char c)))).

(** [[a-z0-9]([-a-z0-9]*[a-z0-9])?], a label of the pattern for types *)
Definition label_pattern : pattern :=
  PSeq (PClass lower_alnum)
    (POpt (PSeq (PStar (PClass (fun c => lower_alnum c || one_of ["-"]%char c))) (PClass lower_alnum))).
(** [^(label(\.label)*/)?(([A-Za-z0-9][-A-Za-z0-9_.]* )?[A-Za-z0-9])$], the blank apart *)
Definition type_pattern : pattern :=
  PSeq (POpt (PSeq label_pattern (PSeq (PStar (PSeq (PChar ".") label_pattern)) (PChar "/"))))
    (PSeq (POpt (PSeq (PClass alnum) (PStar (PClass (fun c => alnum c || one_of ["-"; "_"; "."]%char c)))))
          (PClass alnum)).

Definition status_text (s : ConditionStatus) : string :=
  match s with ConditionTrue => "True" | ConditionFalse => "False" | ConditionUnknown => "Unknown" end.
Definition address_type_text (t : MachineAddressType) : string :=
  match t with MachineInternalIP => "InternalIP" | MachineAddressOther t => t end.

Section Valid.
Context {CC : CharCount}.

(** The fields the controllers give a condition. *)
Definition condition_fits (c : Condition) : Prop :=
  matches type_pattern (cond_Type c) = true /\ char_count (cond_Type c) <= 316 /\
  status_text (cond_Status c) ∈ ["True"; "False"; "Unknown"] /\
  matches reason_pattern (cond_Reason c) = true /\ 1 <= char_count (cond_Reason c) <= 1024 /\
  char_count (cond_Message c) <= 32768.
Definition condition_valid (c : Condition) : Prop :=
  condition_fits c /\ is_Some (cond_LastTransitionTime c).
Definition address_valid (a : MachineAddress) : Prop :=
  address_type_text (addr_Type a) ∈ ["Hostname"; "ExternalIP"; "InternalIP"; "ExternalDNS"; "InternalDNS"] /\
  1 <= char_count (addr_Address a) <= 256.

Definition machine_status_valid (lm : LibvirtMachine) : Prop :=
  Forall condition_valid (GetConditions lm) /\ Forall address_valid (mstatus_Addresses (lm_Status lm)).
Definition cluster_status_valid (lc : LibvirtCluster) : Prop := Forall condition_valid (GetConditions lc).

(** The texts of a call of the provider that get into a status fit there. *)
Definition short_call (c : ProviderCall) : Prop :=
  match c with
  | CallCreateMachine _ (Err e) => char_count ("Failed to create Domain: " +:+ error_text e) <= 32768
  | CallStartMachine _ (Err e) => char_count ("Failed start Domain: " +:+ error_text e) <= 32768
  | CallEnsureInfra _ (Err e) => char_count (error_text e) <= 32768
  | CallGetMachineAddress _ (Ok a) => char_count a <= 256
  | _ => True
  end.

Context {CL : CharCountLaws}.

(** Fields that are computed from the source alone. *)
Definition fields_fit (c : Condition) : bool :=
  matches type_pattern (cond_Type c) && (len (cond_Type c) <=? 316) &&
  matches reason_pattern (cond_Reason c) && (1 <=? len (cond_Reason c)) && (len (cond_Reason c) <=? 1024).
Lemma fields_fit_ok c : fields_fit c = true -> char_count (cond_Message c) <= 32768 -> condition_fits c.
Proof.
  unfold fields_fit. rewrite !andb_true_iff, !Z.leb_le. intros [[[[Ht Htl] Hr] Hr1] Hr2] Hm.
  pose proof (char_count_le (cond_Type c)). pose proof (char_count_le (cond_Reason c)).
  assert (0 < char_count (cond_Reason c)) by (apply char_count_pos; intros Hz; rewrite Hz in Hr1; by cbn in Hr1).
  split_and!; try done; try lia. destruct (cond_Status c); set_solver.
Qed.
Lemma short_text s : len s <= 32768 -> char_count s <= 32768.
Proof. pose proof (char_count_le s). lia. Qed.

Lemma conditions_Set_valid {W} `{!KubeLib W} `{!KubeLibLaws W} (w : W) cs c :
  condition_fits c -> Forall condition_valid cs -> Forall condition_valid (conditions_Set w cs c).
Proof.
  intros Hc Hcs. apply Forall_forall. intros x [Hin|(Ht & Hs & Hr & Hm & Htime)]%conditions_Set_elem.
  - rewrite Forall_forall in Hcs. by apply Hcs.
  - split; [unfold condition_fits in *; by rewrite Ht, Hs, Hr, Hm|]. apply Htime.
    eapply Forall_impl; [exact Hcs|]. by intros y [_ Hy].
Qed.
End Valid.

(** ** The machine controller

    [Writes P m Q]: if the texts of the calls that [m] makes fit and [P] holds, it
    keeps the status valid and returns values that satisfy [Q]. *)

Section Schema.
Context {W : Type} {KL : KubeLib W} {P : provider W}.
Context {GC : Getter W LibvirtCluster} {GM : Getter W LibvirtMachine} {GS : Getter W Secret}.
Context {CU : ClusterAPIUtil W} {PM : Patcher W LibvirtMachine} {PCl : Patcher W LibvirtCluster}.
Context {PT : ProviderTrace W} {KLaws : KubeLibLaws W} {PTLaws : ProviderTraceLaws W}.
Context {RK : ReadsKeep (W := W) provider_trace} {CC : CharCount} {CL : CharCountLaws}.

Definition Writes {A} (H : Prop) (m : M (W * LibvirtMachine) A) (Q : A -> Prop) : Prop :=
  forall s, exists calls, provider_trace (m s).2.1 = provider_trace s.1 ++ calls /\
    (Forall short_call calls -> H -> machine_status_valid s.2 ->
     machine_status_valid (m s).2.2 /\ forall a, (m s).1 = Ok a -> Q a).
#[local] Abbreviation any := (fun _ => True).

Lemma writes_bind {A B} H (m : M _ A) (f : A -> M _ B) Q R :
  Writes H m Q -> (forall a, Writes (H /\ Q a) (f a) R) -> Writes H (m ≫= f) R.
Proof.
  intros Hm Hf s. destruct (Hm s) as (c1 & Ht1 & H1). unfold mbind, M_bind.
  destruct (m s) as [[a|e|] s1]; cbn [fst snd] in *.
  2,3: exists c1; split; [done|]; intros Hc HH Hv; split; [by apply H1|by intros].
  destruct (Hf a s1) as (c2 & Ht2 & H2). exists (c1 ++ c2). rewrite Ht2, Ht1, app_assoc. split; [done|].
  intros [Hc1 Hc2]%Forall_app HH Hv. destruct (H1 Hc1 HH Hv) as [Hv1 Hq]. apply H2; auto.
Qed.
Lemma writes_weaken {A} (H H' : Prop) (m : M _ A) Q : (H' -> H) -> Writes H m Q -> Writes H' m Q.
Proof. intros Hi Hm s. destruct (Hm s) as (c & Ht & Hc). exists c. split; [done|]. auto. Qed.
Lemma writes_then {A B} H (m : M _ A) (f : A -> M _ B) R :
  Writes H m any -> (forall a, Writes H (f a) R) -> Writes H (m ≫= f) R.
Proof. intros Hm Hf. eapply writes_bind; [exact Hm|]. intros a. by apply (writes_weaken H); [intros []|]. Qed.

(** A computation that calls nobody. *)
Lemma writes_local {A} H (m : M (W * LibvirtMachine) A) :
  (forall s, (m s).2.1 = s.1) -> (forall s, H -> machine_status_valid s.2 -> machine_status_valid (m s).2.2) ->
  Writes H m any.
Proof. intros Hw Hv s. exists []. rewrite app_nil_r, Hw. split; [done|]. intros _ HH Hs. split; [by apply Hv|done]. Qed.
Lemma writes_ret {A} H (a : A) : Writes H (mret a) any.
Proof. by apply writes_local. Qed.
Lemma writes_fail {A} H e : Writes H (fail (A := A) e) any.
Proof. by apply writes_local. Qed.
Lemma writes_object H : Writes H object any.
Proof. by apply writes_local. Qed.
Lemma writes_update H f :
  (forall lm, machine_status_valid lm -> machine_status_valid (f lm)) -> Writes H (update f) any.
Proof. intros Hf. apply writes_local; [done|]. intros s _. apply Hf. Qed.
Lemma writes_condition (H : Prop) c : (H -> condition_fits c) -> Writes H (set_condition c) any.
Proof. intros Hc. apply writes_local; [done|]. intros [w lm] HH [Hv Ha]. split; [apply conditions_Set_valid; auto|done]. Qed.

(** A call. *)
Lemma writes_quiet {A} H (m : M W A) : Keeps provider_trace m -> Writes H (call m) any.
Proof.
  intros Hm s. exists []. rewrite app_nil_r. specialize (Hm s.1). unfold call.
  destruct (m s.1) as [r w1]. cbn [fst snd] in *. by split.
Qed.
Lemma writes_records {A} H c (m : M W A) : Records c m -> Writes H (call m) any.
Proof.
  intros Hm s. exists [c (m s.1).1]. specialize (Hm s.1). unfold call.
  destruct (m s.1) as [r w1]. cbn [fst snd] in *. by split.
Qed.
Lemma writes_try {A} H c (m : M W A) :
  Records c m ->
  Writes H (try (call m)) (fun x => match x with inl e => short_call (c (Err e)) | inr a => short_call (c (Ok a)) end).
Proof.
  intros Hm s. exists [c (m s.1).1]. specialize (Hm s.1). unfold try, call.
  destruct (m s.1) as [r w1]. cbn [fst snd] in *.
  destruct r as [a|e|]; (split; [done|]); intros [Hc _]%Forall_cons _ Hv; (split; [done|]); by intros x [= <-].
Qed.
Lemma writes_wrap {A} H g (m : M (W * LibvirtMachine) A) : Writes H m any -> Writes H (wrap_err g m) any.
Proof.
  intros Hm s. destruct (Hm s) as (c & Ht & Hc). exists c. unfold wrap_err. destruct (m s) as [r s1]. split; [done|].
  intros Hs HH Hv. by destruct (Hc Hs HH Hv).
Qed.

Create HintDb writes.
#[local] Hint Resolve writes_ret writes_fail writes_object writes_wrap : writes.
#[local] Hint Extern 4 (Writes _ (_ ≫= _) _) => apply writes_then; [|intros ?] : writes.
#[local] Hint Extern 5 (Writes _ (match ?x with _ => _ end) _) => destruct x : writes.
#[local] Hint Extern 3 (Writes _ (update _) _) => by apply writes_update : writes.
#[local] Hint Extern 3 (Writes _ (set_condition _) _) =>
  apply writes_condition; intros ?; apply fields_fit_ok; [vm_compute; reflexivity|apply short_text; vm_compute; discriminate] : writes.
#[local] Hint Extern 3 (Writes _ (call _) _) =>
  first [ eapply writes_records; first [ apply GetMachineState_records | apply DeleteMachine_records ]
        | apply writes_quiet; first [ apply GetOwnerMachine_keeps | apply GetClusterFromMetadata_keeps
                                    | apply Get_cluster_keeps | apply Load_keeps ] ] : writes.

Lemma no_addresses_valid lm : machine_status_valid lm -> machine_status_valid (set_mAddresses [] lm).
Proof. intros [Hc _]. by split. Qed.
Lemma setProviderID_valid lm : machine_status_valid lm -> machine_status_valid (setProviderID lm).
Proof. unfold setProviderID. by destruct (mspec_ProviderID _). Qed.
#[local] Hint Extern 2 (Writes _ (update setProviderID) _) => apply writes_update, setProviderID_valid : writes.
#[local] Hint Extern 2 (Writes _ (update (set_mAddresses [])) _) => apply writes_update, no_addresses_valid : writes.

Lemma getCloudInitData_keeps scope name : Keeps (W := W) provider_trace (getCloudInitData scope name).
Proof.
  unfold getCloudInitData. apply keeps_bind; [apply Get_secret_keeps|intros s]. destruct (_ !! _); auto with keeps.
Qed.
#[local] Hint Extern 2 (Writes _ (call (getCloudInitData _ _)) _) => apply writes_quiet, getCloudInitData_keeps : writes.

Lemma createMissingDomain_writes H scope : Writes H (createMissingDomain scope) any.
Proof.
  unfold createMissingDomain. do 3 (apply writes_then; [auto with writes|intros _]).
  destruct (machine_DataSecretName _) as [name|]; [|auto with writes].
  apply writes_then; [auto with writes|intros data].
  eapply writes_bind; [apply writes_try, CreateMachine_records|intros [e|[]]]; [|auto 10 with writes].
  apply writes_then; [|auto with writes]. apply writes_condition. intros [_ Hs]. by apply fields_fit_ok.
Qed.
Lemma startStoppedDomain_writes H scope : Writes H (startStoppedDomain scope) any.
Proof.
  unfold startStoppedDomain. do 2 (apply writes_then; [auto with writes|intros _]).
  eapply writes_bind; [apply writes_try, StartMachine_records|intros [e|[]]]; [|auto 10 with writes].
  apply writes_then; [|auto with writes]. apply writes_condition. intros [_ Hs]. by apply fields_fit_ok.
Qed.
Lemma observeMachineAddress_writes H scope : Writes H (observeMachineAddress scope) any.
Proof.
  unfold observeMachineAddress. eapply writes_bind; [apply writes_try, GetMachineAddress_records|intros [e|a]];
    [auto with writes|]. case_bool_decide as Ha; [auto with writes|]. apply writes_then; [|auto with writes].
  apply writes_local; [done|]. intros s [_ Hs] [Hc _]. split; [done|]. apply Forall_singleton. split; [set_solver|].
  pose proof (char_count_pos a Ha). cbn in Hs |- *. lia.
Qed.
#[local] Hint Resolve createMissingDomain_writes startStoppedDomain_writes observeMachineAddress_writes : writes.

Lemma reconcileLostDomain_writes scope :
  Writes (len (cfg_DomainName (mscope_MachineConfig scope)) <= 63) (reconcileLostDomain scope) any.
Proof.
  unfold reconcileLostDomain. do 2 (apply writes_then; [auto with writes|intros _]). apply writes_then; [|auto with writes].
  apply writes_condition. intros Hn. apply fields_fit_ok; [vm_compute; reflexivity|]. apply short_text. cbn [cond_Message newCondition].
  rewrite !len_app. change (len "Domain ") with 7.
  change (len " was deleted on the libvirt host, delete the Machine to replace it") with 66. lia.
Qed.
#[local] Hint Resolve reconcileLostDomain_writes : writes.

Lemma machine_reconcileNormal_writes scope :
  Writes (len (cfg_DomainName (mscope_MachineConfig scope)) <= 63) (MachineController.reconcileNormal scope) any.
Proof. unfold MachineController.reconcileNormal, observeRunningDomain. auto 30 with writes. Qed.
Lemma machine_reconcileDelete_writes H scope : Writes H (MachineController.reconcileDelete scope) any.
Proof.
  unfold MachineController.reconcileDelete. do 2 (apply writes_then; [auto with writes|intros ?]).
  destruct (RemoveFinalizer _ _). auto 8 with writes.
Qed.

Lemma domainName_short lm : len (domainName lm) <= 63.
Proof.
  destruct (domainName_eq lm) as (a & b & c & _ & _ & _ & _ & Heq). unfold len. rewrite Heq.
  enough (len (domainName_prefix lm) <= 56) as Hp by (unfold len in Hp; rewrite length_app; cbn [length hex2 app]; lia).
  unfold domainName_prefix. set (full := _ +:+ _). destruct (len full >? 56) eqn:Hl; [|by rewrite Z.gtb_ltb in Hl; apply Z.ltb_ge in Hl].
  destruct (TrimRight_prefix (str_prefix 56 full) domainNameSeparator) as [k Hk]. apply (f_equal length) in Hk.
  unfold str_prefix in Hk at 1. rewrite chars_str, length_app, length_take in Hk. unfold len. lia.
Qed.

Lemma reconcileOwned_writes l lm : Writes True (reconcileOwned l lm) any.
Proof.
  unfold reconcileOwned. apply writes_then; [auto with writes|intros [machine|]]; [|auto with writes].
  apply writes_then; [auto with writes|intros [cluster|]]; [|auto with writes].
  apply writes_then; [auto with writes|intros lc]. apply writes_then; [auto with writes|intros creds].
  destruct (negb _); [apply machine_reconcileDelete_writes|].
  eapply writes_weaken; [|apply machine_reconcileNormal_writes]. intros _. apply domainName_short.
Qed.

(** ** The cluster controller *)

Lemma getInfraError_reason e :
  getInfraError e ∈ [InfrastructureMissingReason; InfrastructureInactiveReason; InfrastructureProvisioningFailedReason].
Proof. unfold getInfraError. destruct (errors_As _ e); [set_solver|]. destruct (errors_As _ e); set_solver. Qed.

Local Ltac fits := apply fields_fit_ok; [vm_compute; reflexivity|apply short_text; vm_compute; discriminate].

Lemma cluster_reconcileNormal_valid l scope (w : W) lc calls :
  let s := (ClusterController.reconcileNormal l scope (w, lc)).2 in
  provider_trace s.1 = provider_trace w ++ calls -> Forall short_call calls ->
  (forall e, (Load l lc w).1 = Err e -> char_count (error_text e) <= 32768) ->
  cluster_status_valid lc -> cluster_status_valid s.2.
Proof.
  cbv zeta. destruct (ClusterController.reconcileNormal l scope (w, lc)) as [r [w' lc']] eqn:H. cbn [fst snd].
  intros Ht Hs Hl Hv. run_cluster H; try done; unfold cluster_status_valid; cbn -[conditions_Set newCondition].
  all: repeat (apply conditions_Set_valid; [try fits|]); try exact Hv.
  - change (Load l lc w = (Ok creds, w1)) in Hload.
    rewrite <- (keeps_run _ _ _ _ (Load_keeps provider_trace l lc) Hload) in Ht.
    pose proof (EnsureInfra_records (set_Credentials (scope_InfraConfig scope) creds) w1) as He. rewrite Hensure in He.
    cbn [fst snd] in He. rewrite He in Ht. apply app_inv_head in Ht as <-. apply Forall_cons in Hs as [Hs _].
    apply fields_fit_ok; [|exact Hs]. pose proof (getInfraError_reason err) as Hr. unfold fields_fit. cbn [cond_Type cond_Reason newCondition].
    rewrite !elem_of_cons, elem_of_nil in Hr. destruct Hr as [->|[->|[->|[]]]]; vm_compute; reflexivity.
  - apply fields_fit_ok; [vm_compute; reflexivity|]. apply (Hl err). change (Load l lc w = (Err err, w1)) in Hload. by rewrite Hload.
Qed.
Lemma cluster_reconcileDelete_valid scope (w : W) lc :
  cluster_status_valid lc -> cluster_status_valid (ClusterController.reconcileDelete scope (w, lc)).2.2.
Proof.
  unfold ClusterController.reconcileDelete, mbind, M_bind, object, update. cbn [fst snd].
  destruct (RemoveFinalizer _ _) as [meta []]; done.
Qed.

(** C25: the status the controllers leave fits the schema of the CRDs whenever the
    one they found did, on every path, failed runs included: types and reasons of
    conditions match their patterns, lengths and enumerations are kept, every
    condition has a time.  The messages that quote an error, and the address the
    host reports, are the only texts that are not the controllers' own; that those
    of this run fit their bounds (32768 and 256 characters) is a hypothesis. *)
Theorem status_stays_valid l scope lm0 (w : W) lm lc :
  (let s := (reconcileOwned l lm0 (w, lm)).2 in
   forall calls, provider_trace s.1 = provider_trace w ++ calls -> Forall short_call calls ->
     machine_status_valid lm -> machine_status_valid s.2) /\
  (let s := (ClusterController.reconcileNormal l scope (w, lc)).2 in
   forall calls, provider_trace s.1 = provider_trace w ++ calls -> Forall short_call calls ->
     (forall e, (Load l lc w).1 = Err e -> char_count (error_text e) <= 32768) ->
     cluster_status_valid lc -> cluster_status_valid s.2) /\
  (cluster_status_valid lc -> cluster_status_valid (ClusterController.reconcileDelete scope (w, lc)).2.2).
Proof.
  split_and!.
  - cbv zeta. intros calls Ht Hs Hv. destruct (reconcileOwned_writes l lm0 (w, lm)) as (calls' & Ht' & Hw).
    rewrite Ht in Ht'. apply app_inv_head in Ht' as <-. by destruct (Hw Hs I Hv).
  - intros s calls. apply cluster_reconcileNormal_valid.
  - apply cluster_reconcileDelete_valid.
Qed.
End Schema.
