(* ===== verification/Maintains.v ===== *)
(** * Invariants of the world through a run

    A computation maintains an invariant of the world when its calls do, whatever
    they return; this is followed through both controllers once and for all.  The
    invariant is a predicate [J]; what a run needs of the API client and of the
    provider are the classes [ReadsMaintain] and [ProviderMaintains]. *)

From stdpp Require Import base gmap list strings.
From Stdlib Require Import ZArith.
From S2P Require Import Prelude GoStrings Config Api Kube Credentials ProviderInterface.
From S2P Require Import ClusterController MachineController History.

(** ** Computations that do not lose an invariant of the world *)

Definition Maintains {W A} (J : W -> Prop) (m : M W A) : Prop := forall w, J w -> J (m w).2.

Section Maintains.
Context {W : Type} {J : W -> Prop}.
Lemma maintains_ret {A} (a : A) : Maintains J (mret a).
Proof. by intros w. Qed.
Lemma maintains_fail {A} e : Maintains J (fail (A := A) e).
Proof. by intros w. Qed.
Lemma maintains_lift {A} (r : result A) : Maintains J (lift r).
Proof. by intros w. Qed.
Lemma maintains_bind {A B} (m : M W A) (f : A -> M W B) :
  Maintains J m -> (forall a, Maintains J (f a)) -> Maintains J (m ≫= f).
Proof.
  intros Hm Hf w Hw. specialize (Hm w Hw). unfold mbind, M_bind. destruct (m w) as [[a|e|] w1]; [|done..].
  by apply Hf.
Qed.
Lemma maintains_try {A} (m : M W A) : Maintains J m -> Maintains J (try m).
Proof. intros Hm w Hw. specialize (Hm w Hw). unfold try. by destruct (m w) as [[] ?]. Qed.
Lemma maintains_wrap {A} g (m : M W A) : Maintains J m -> Maintains J (wrap_err g m).
Proof. intros Hm w Hw. specialize (Hm w Hw). unfold wrap_err. by destruct (m w) as [[] ?]. Qed.
(** On a reconcile state. *)
Lemma maintains_call {T A} (m : M W A) : Maintains J m -> Maintains (fun s : W * T => J s.1) (call m).
Proof. intros Hm [w t] Hw. specialize (Hm w Hw). unfold call. cbn in *. by destruct (m w). Qed.
Lemma maintains_object {T} : Maintains (fun s : W * T => J s.1) object.
Proof. by intros s. Qed.
Lemma maintains_update {T} f : Maintains (fun s : W * T => J s.1) (update f).
Proof. by intros s. Qed.
Lemma maintains_set_condition {T} `{KubeLib W} `{Setter T} c : Maintains (fun s : W * T => J s.1) (set_condition c).
Proof. by intros s. Qed.
Lemma maintains_deferred_patch {T A} `{!Patcher W T} h (o : T) (body : M (W * T) A) :
  (forall h o, Maintains J (Patch (T := T) h o)) -> Maintains (fun s => J s.1) body ->
  Maintains J (deferred_patch h o body).
Proof.
  intros Hp Hb w Hw. specialize (Hb (w, o) Hw). unfold deferred_patch.
  destruct (body (w, o)) as [r [w1 o1]]. cbn in Hb. specialize (Hp h o1 w1 Hb).
  destruct r; cbn; [| |done]; by destruct (Patch h o1 w1) as [[u|e'|] w2].
Qed.
End Maintains.

Create HintDb maintains.
#[export] Hint Resolve maintains_ret maintains_fail maintains_lift maintains_try maintains_wrap maintains_object maintains_update
  maintains_set_condition : maintains.
#[export] Hint Extern 3 (Maintains _ (call _)) => refine (maintains_call (J := _) _ _) : maintains.
#[export] Hint Extern 4 (Maintains _ (_ ≫= _)) => apply maintains_bind; [|intros ?] : maintains.
#[export] Hint Extern 5 (Maintains _ (match ?x with _ => _ end)) => destruct x : maintains.

(** ** The controllers *)

Section Classes.
Context {W : Type} {P : provider W}.
Context {GC : Getter W LibvirtCluster} {GM : Getter W LibvirtMachine} {GS : Getter W Secret}.
Context {CU : ClusterAPIUtil W} {PM : Patcher W LibvirtMachine} {PCl : Patcher W LibvirtCluster}.

Class ReadsMaintain (J : W -> Prop) : Prop := {
  Get_cluster_maintains k : Maintains J (Get (T := LibvirtCluster) k);
  Get_machine_maintains k : Maintains J (Get (T := LibvirtMachine) k);
  Get_secret_maintains k : Maintains J (Get (T := Secret) k);
  GetOwnerCluster_maintains m : Maintains J (GetOwnerCluster m);
  GetOwnerMachine_maintains m : Maintains J (GetOwnerMachine m);
  GetClusterFromMetadata_maintains m : Maintains J (GetClusterFromMetadata m);
  NewHelper_machine_maintains o : Maintains J (NewHelper (T := LibvirtMachine) o);
  NewHelper_cluster_maintains o : Maintains J (NewHelper (T := LibvirtCluster) o);
  Patch_cluster_maintains h o : Maintains J (Patch (T := LibvirtCluster) h o);
}.
Class ProviderMaintains (J : W -> Prop) : Prop := {
  EnsureInfra_maintains cfg : Maintains J (EnsureInfra cfg);
  GetMachineState_maintains cfg : Maintains J (GetMachineState cfg);
  CreateMachine_maintains cfg : Maintains J (CreateMachine cfg);
  StartMachine_maintains cfg : Maintains J (StartMachine cfg);
  DeleteMachine_maintains cfg : Maintains J (DeleteMachine cfg);
  GetMachineAddress_maintains cfg : Maintains J (GetMachineAddress cfg);
}.

Lemma maintains_keeps {X A} (obs : W -> X) (I : X -> Prop) (m : M W A) :
  Keeps obs m -> Maintains (fun w => I (obs w)) m.
Proof. intros Hm w Hw. by rewrite (Hm w). Qed.
(** What is not touched is maintained. *)
Lemma reads_keep_maintain {X} (obs : W -> X) (I : X -> Prop) :
  ReadsKeep obs -> ReadsMaintain (fun w => I (obs w)).
Proof. intros RK. split; intros; apply maintains_keeps; keeps_law. Qed.
End Classes.

Section Controllers.
Context {W : Type} {KL : KubeLib W} {P : provider W}.
Context {GC : Getter W LibvirtCluster} {GM : Getter W LibvirtMachine} {GS : Getter W Secret}.
Context {CU : ClusterAPIUtil W} {PM : Patcher W LibvirtMachine} {PCl : Patcher W LibvirtCluster}.
Context {J : W -> Prop} {RM : ReadsMaintain J}.

Local Ltac maintains_law :=
  first [ apply Get_cluster_maintains | apply Get_machine_maintains | apply Get_secret_maintains
        | apply GetOwnerCluster_maintains | apply GetOwnerMachine_maintains | apply GetClusterFromMetadata_maintains
        | apply NewHelper_machine_maintains | apply NewHelper_cluster_maintains | apply Patch_cluster_maintains
        | apply EnsureInfra_maintains | apply GetMachineState_maintains | apply CreateMachine_maintains
        | apply StartMachine_maintains | apply DeleteMachine_maintains | apply GetMachineAddress_maintains
        | assumption ].
#[local] Hint Extern 1 (Maintains J _) => solve [maintains_law] : maintains.

Lemma Load_maintains l lc : Maintains J (Load (W := W) l lc).
Proof. unfold Load, loadRef. auto 12 with maintains. Qed.
#[local] Hint Resolve Load_maintains : maintains.

(** The cluster controller makes one call of the provider. *)
Lemma cluster_Reconcile_maintains l k :
  (forall cfg, Maintains J (EnsureInfra cfg)) -> Maintains J (ClusterController.Reconcile (W := W) l k).
Proof.
  intros He. unfold ClusterController.Reconcile.
  apply maintains_bind; [auto with maintains|intros [e|lc]]; [auto with maintains|].
  do 2 (apply maintains_bind; [auto with maintains|intros ?]). apply maintains_deferred_patch; [auto with maintains|].
  destruct a as [c|]; [|auto with maintains]. destruct (Time_IsZero _); cbn [negb].
  - unfold ClusterController.reconcileNormal. auto 30 with maintains.
  - unfold ClusterController.reconcileDelete. apply maintains_bind; [auto with maintains|intros ?].
    destruct (RemoveFinalizer _ _). auto 8 with maintains.
Qed.

Context {PrM : ProviderMaintains J}.

(** The machine controller, up to the patch. *)
Lemma reconcileOwned_maintains l lm : Maintains (fun s => J s.1) (reconcileOwned (W := W) l lm).
Proof.
  assert (forall scope n, Maintains J (getCloudInitData (W := W) scope n)) as Hdata.
  { intros scope n. unfold getCloudInitData. auto 8 with maintains. }
  unfold reconcileOwned. apply maintains_bind; [auto with maintains|intros [machine|]]; [|auto with maintains].
  apply maintains_bind; [auto with maintains|intros [cluster|]]; [|auto with maintains].
  do 2 (apply maintains_bind; [auto with maintains|intros ?]). destruct (Time_IsZero _); cbn [negb].
  - unfold MachineController.reconcileNormal, reconcileLostDomain, createMissingDomain, startStoppedDomain,
      observeRunningDomain, observeMachineAddress.
    auto 30 with maintains.
  - unfold MachineController.reconcileDelete. do 2 (apply maintains_bind; [auto with maintains|intros ?]).
    destruct (RemoveFinalizer _ _). auto 8 with maintains.
Qed.

Lemma machine_Reconcile_maintains l k :
  (forall h o, Maintains J (Patch (T := LibvirtMachine) h o)) ->
  Maintains J (MachineController.Reconcile (W := W) l k).
Proof.
  intros Hp. unfold MachineController.Reconcile.
  apply maintains_bind; [auto with maintains|intros [e|lm]]; [auto with maintains|].
  apply maintains_bind; [auto with maintains|intros h]. apply maintains_deferred_patch; [done|].
  apply reconcileOwned_maintains.
Qed.
End Controllers.
