(* ===== verification/Interleaving.v ===== *)
(** * Runs that are interleaved call by call

    In History a run of [Reconcile] is one step.  Here it is not: between any two
    calls of a run, of the API server or of the provider, the world may change in
    any way others change it, and several runs are under way at the same time.

    [Shared] is a world for a run that is not alone.  Its script says what the world
    is when the next call is made, and its log keeps the world before and after
    each call.  [Reconcile] runs on it as it is written.  An [execution] is a
    sequence of changes of one world, each by a worker or by someone outside, in
    which the changes of each worker are those of a run of one of the controllers,
    from its beginning up to some call: a run that was cut off is one that makes no
    more calls.  One object is never worked on by two machine workers at a time,
    which is what controller-runtime's queue guarantees. *)

From stdpp Require Import base gmap list strings relations.
From Stdlib Require Import ZArith Lia.
From S2P Require Import Prelude GoStrings Config Api Kube Credentials ProviderInterface.
From S2P Require Import ClusterController MachineController History Maintains.

(** ** A world for a run that is not alone *)

Record Shared (W : Type) := mkShared {
  sh_world : W;
  sh_script : list W;
  sh_log : list (W * W);
}.
Arguments mkShared {W} _ _ _.
Arguments sh_world {W} _.
Arguments sh_script {W} _.
Arguments sh_log {W} _.

(** The world the next call is made in. *)
Definition sh_now {W} (s : Shared W) : W := hd (sh_world s) (sh_script s).
Definition interleaved {W A} (m : M W A) : M (Shared W) A := fun s =>
  let '(r, w') := m (sh_now s) in
  (r, mkShared w' (tail (sh_script s)) (sh_log s ++ [(sh_now s, w')])).

Section Instances.
Context {W : Type}.
#[export] Instance Shared_kube `{!KubeLib W} : KubeLib (Shared W) := {
  ContainsFinalizer := ContainsFinalizer (W := W);
  AddFinalizer := AddFinalizer (W := W);
  RemoveFinalizer := RemoveFinalizer (W := W);
  annotations_IsPaused := annotations_IsPaused (W := W);
  APIEndpoint_IsValid := APIEndpoint_IsValid (W := W);
  conditions_Set s := conditions_Set (sh_now s);
}.
#[export] Instance Shared_kube_laws `{!KubeLib W} `{!KubeLibLaws W} : KubeLibLaws (Shared W).
Proof.
  split; cbn.
  - apply ContainsFinalizer_iff.
  - apply AddFinalizer_law.
  - apply RemoveFinalizer_law.
  - apply IsPaused_cluster.
  - apply APIEndpoint_IsValid_law.
  - intros s. apply conditions_Set_same.
  - intros s. apply conditions_Set_nodup.
  - intros s. apply conditions_Set_other.
  - intros s. apply conditions_Set_elem.
Qed.
#[export] Instance Shared_provider `{!provider W} : provider (Shared W) := {
  EnsureInfra cfg := interleaved (EnsureInfra cfg);
  GetMachineState cfg := interleaved (GetMachineState cfg);
  CreateMachine cfg := interleaved (CreateMachine cfg);
  StartMachine cfg := interleaved (StartMachine cfg);
  DeleteMachine cfg := interleaved (DeleteMachine cfg);
  GetMachineAddress cfg := interleaved (GetMachineAddress cfg);
}.
#[export] Instance Shared_get {T} `{!Getter W T} : Getter (Shared W) T := fun k => interleaved (Get k).
#[export] Instance Shared_util `{!ClusterAPIUtil W} : ClusterAPIUtil (Shared W) := {
  GetOwnerCluster m := interleaved (GetOwnerCluster m);
  GetOwnerMachine m := interleaved (GetOwnerMachine m);
  GetClusterFromMetadata m := interleaved (GetClusterFromMetadata m);
}.
#[export] Instance Shared_patcher {T} `{!Patcher W T} : Patcher (Shared W) T := {
  Helper := Helper (W := W) (T := T);
  NewHelper o := interleaved (NewHelper o);
  Patch h o := interleaved (Patch h o);
}.
End Instances.

(** ** The calls of a log *)

Section Log.
Context {W : Type} {PT : ProviderTrace W}.
Implicit Types (log : list (W * W)) (t : W * W) (s : Shared W).

(** What was added to the history of calls between two worlds. *)
Definition calls_of t : list ProviderCall := drop (length (provider_trace t.1)) (provider_trace t.2).
Definition own_calls log : list ProviderCall := log ≫= calls_of.

Lemma own_calls_app l k : own_calls (l ++ k) = own_calls l ++ own_calls k.
Proof. apply bind_app. Qed.
Lemma own_calls_cons t l : own_calls (t :: l) = calls_of t ++ own_calls l.
Proof. done. Qed.
Lemma calls_of_grown w w' c : provider_trace w' = provider_trace w ++ c -> calls_of (w, w') = c.
Proof. intros Ht. unfold calls_of. cbn. by rewrite Ht, drop_app_length. Qed.

#[export] Instance Shared_trace : ProviderTrace (Shared W) := fun s => own_calls (sh_log s).

Lemma interleaved_trace {A} (m : M W A) s :
  provider_trace (interleaved m s).2 = provider_trace s ++ calls_of (sh_now s, (m (sh_now s)).2).
Proof.
  unfold interleaved, provider_trace at 1, Shared_trace at 1. destruct (m (sh_now s)) as [r w'].
  cbn [snd sh_log]. rewrite own_calls_app. unfold own_calls at 2. cbn [mbind list_bind]. by rewrite app_nil_r.
Qed.
Lemma interleaved_records {A} c (m : M W A) : Records c m -> Records c (interleaved m).
Proof.
  intros Hm s. rewrite interleaved_trace, (calls_of_grown _ _ _ (Hm (sh_now s))). unfold interleaved.
  by destruct (m (sh_now s)).
Qed.
Lemma interleaved_quiet {A} (m : M W A) : Keeps provider_trace m -> Keeps provider_trace (interleaved m).
Proof.
  intros Hm s. rewrite interleaved_trace, (calls_of_grown _ _ []); [by rewrite app_nil_r|].
  by rewrite app_nil_r, (Hm (sh_now s)).
Qed.

(** A log that was [log] and went on with steps that satisfy [Q]. *)
Definition logged (Q : W -> W -> Prop) log s : Prop :=
  exists more, sh_log s = log ++ more /\ Forall (fun t => Q t.1 t.2) more.
Lemma logged_here Q s : logged Q (sh_log s) s.
Proof. exists []. by rewrite app_nil_r. Qed.
Lemma interleaved_logged {A} Q log (m : M W A) :
  (forall w, Q w (m w).2) -> Maintains (logged Q log) (interleaved m).
Proof.
  intros Hm s (more & Hlog & Hq). specialize (Hm (sh_now s)). unfold interleaved.
  destruct (m (sh_now s)) as [r w']. exists (more ++ [(sh_now s, w')]). cbn [snd sh_log].
  rewrite Hlog, app_assoc. split; [done|]. apply Forall_app. split; [done|]. by apply Forall_singleton.
Qed.
End Log.

(** ** The steps of a run *)

Section Steps.
Context {W : Type} {KL : KubeLib W} {P : provider W}.
Context {GC : Getter W LibvirtCluster} {GM : Getter W LibvirtMachine} {GS : Getter W Secret}.
Context {CU : ClusterAPIUtil W} {PM : Patcher W LibvirtMachine} {PCl : Patcher W LibvirtCluster}.
Context {AV : ApiView (W := W)} {PT : ProviderTrace W}.
Context {KLaws : KubeLibLaws W} {PTLaws : ProviderTraceLaws W} {ALaws : ApiLaws (W := W)}.

(** A patch is sent as the differences from the object the helper was created
    with, and is applied to the object that is stored when it arrives: the list of
    finalizers is replaced when the differences have one and is left alone
    otherwise, and so is the provider ID.  Nothing is said of the rest of the
    object, and a patch that fails may have been applied or not. *)
Class PatchMerges : Prop :=
  Patch_machine_merges h o w r w' :
    Patch (T := LibvirtMachine) h o w = (r, w') ->
    let k := ObjectKeyFromObject o in
    (forall k', k' <> k -> stored_machines w' !! k' = stored_machines w !! k') /\
    forall cur, stored_machines w !! k = Some cur ->
      exists x, stored_machines w' !! k = persist x /\
        (meta_Finalizers (lm_ObjectMeta x) = meta_Finalizers (lm_ObjectMeta cur) \/
         meta_Finalizers (lm_ObjectMeta x) = meta_Finalizers (lm_ObjectMeta o) /\
         meta_Finalizers (lm_ObjectMeta o) <> meta_Finalizers (lm_ObjectMeta (helper_object h))) /\
        (mspec_ProviderID (lm_Spec x) = mspec_ProviderID (lm_Spec cur) \/
         mspec_ProviderID (lm_Spec x) = mspec_ProviderID (lm_Spec o) /\
         mspec_ProviderID (lm_Spec o) <> mspec_ProviderID (lm_Spec (helper_object h))).
Context {PMg : PatchMerges}.

#[export] Instance Shared_laws : ProviderTraceLaws (Shared W).
Proof.
  split; intros cfg; apply interleaved_records;
    first [ apply EnsureInfra_records | apply GetMachineState_records | apply CreateMachine_records
          | apply StartMachine_records | apply DeleteMachine_records | apply GetMachineAddress_records ].
Qed.
Local Ltac shared_law :=
  first [ keeps_law | exact (NewHelper_machine_keeps _) | exact (NewHelper_cluster_keeps _) ].
#[export] Instance Shared_reads : ReadsKeep (W := Shared W) provider_trace.
Proof. split; intros; apply interleaved_quiet; shared_law. Qed.

(** A step that stores no LibvirtMachine and makes calls that satisfy [Q]. *)
Definition calm (Q : ProviderCall -> Prop) (w w' : W) : Prop :=
  stored_machines w' = stored_machines w /\
  exists c, provider_trace w' = provider_trace w ++ c /\ Forall Q c.

Lemma calm_read {A} Q (m : M W A) :
  Keeps stored_machines m -> Keeps provider_trace m -> forall w, calm Q w (m w).2.
Proof. intros Hs Ht w. split; [apply Hs|]. exists []. by rewrite app_nil_r, (Ht w). Qed.
Lemma calm_records {A} (Q : ProviderCall -> Prop) c (m : M W A) :
  Keeps stored_machines m -> Records c m -> (forall r, Q (c r)) -> forall w, calm Q w (m w).2.
Proof. intros Hs Hc Hq w. split; [apply Hs|]. exists [c (m w).1]. split; [apply Hc|]. by apply Forall_singleton. Qed.

#[local] Instance calm_reads Q log : ReadsMaintain (W := Shared W) (logged (calm Q) log).
Proof. split; intros; apply interleaved_logged, calm_read; shared_law. Qed.
#[local] Instance calm_provider log : ProviderMaintains (W := Shared W) (logged (calm (fun _ => True)) log).
Proof.
  split; intros; apply interleaved_logged; eapply calm_records; try done; try keeps_law;
    first [ apply EnsureInfra_records | apply GetMachineState_records | apply CreateMachine_records
          | apply StartMachine_records | apply DeleteMachine_records | apply GetMachineAddress_records ].
Qed.

Lemma cluster_log l k (s : Shared W) : logged (calm is_ensure) (sh_log s) (ClusterController.Reconcile l k s).2.
Proof.
  apply (cluster_Reconcile_maintains (J := logged (calm is_ensure) (sh_log s))); [|apply logged_here].
  intros cfg. apply interleaved_logged. eapply calm_records; [keeps_law|apply EnsureInfra_records|by intros r].
Qed.

(** *** The machine controller *)

(** The object with key [k] is protected, has the domain name [n] and, if [o] is a
    provider ID, has that. *)
Definition holds (k : NamespacedName) (n : string) (o : option string) (w : W) : Prop :=
  exists lm, stored_machines w !! k = Some lm /\ protected lm /\ domainName lm = n /\
    forall id, o = Some id -> mspec_ProviderID (lm_Spec lm) = Some id.
(** It has some provider ID. *)
Definition assigned (k : NamespacedName) (w : W) : Prop :=
  exists lm, stored_machines w !! k = Some lm /\ mspec_ProviderID (lm_Spec lm) <> None.

Lemma stored_name w w' k lm lm' :
  stored_machines w !! k = Some lm -> stored_machines w' !! k = Some lm' -> domainName lm' = domainName lm.
Proof. intros Hk Hk'. apply domainName_key. by rewrite (stored_key _ _ _ Hk), (stored_key _ _ _ Hk'). Qed.
Lemma holds_same k n o w w' : stored_machines w' !! k = stored_machines w !! k -> holds k n o w -> holds k n o w'.
Proof. intros Hk. unfold holds. by rewrite Hk. Qed.

Definition creates_none (calls : list ProviderCall) : Prop := forall cfg res, CallCreateMachine cfg res ∉ calls.

(** The patch at the end of a run that read its object in [w0] and made [calls]. *)
Definition patch_step (k : NamespacedName) (w0 : W) (calls : list ProviderCall) (t : W * W) : Prop :=
  provider_trace t.2 = provider_trace t.1 /\
  (forall k', k' <> k -> stored_machines t.2 !! k' = stored_machines t.1 !! k') /\
  forall n o, holds k n o t.1 -> o = None \/ assigned k w0 ->
    holds k n o t.2 \/ Exists (deletes n) calls /\ creates_none calls.

(** A run for [k]: a read, steps that store nothing, and perhaps the patch; a
    domain is created only if the object that was read is protected and has no
    provider ID. *)
Inductive run_log (k : NamespacedName) : list (W * W) -> Prop :=
  | run_log_intro g body last :
      calm (fun _ => False) g.1 g.2 ->
      Forall (fun t => calm (fun _ => True) t.1 t.2) body ->
      (forall cfg res, CallCreateMachine cfg res ∈ own_calls body ->
         holds k (cfg_DomainName cfg) None g.1 /\ ~ assigned k g.1) ->
      last = [] \/ (exists p, last = [p] /\ patch_step k g.1 (own_calls body) p) ->
      run_log k (g :: body ++ last).

Lemma run_log_quiet k g body :
  calm (fun _ => False) g.1 g.2 -> Forall (fun t => calm (fun _ => False) t.1 t.2) body -> run_log k (g :: body).
Proof.
  intros Hg Hb. rewrite <- (app_nil_r body). apply run_log_intro; [done| | |by left].
  - eapply Forall_impl; [exact Hb|]. intros t (Hs & c & Ht & Hc). split; [done|]. exists c. split; [done|].
    eapply Forall_impl; [exact Hc|]. done.
  - intros cfg res Hin. exfalso. apply list_elem_of_bind in Hin as ([u u'] & Hin & Hbody).
    rewrite Forall_forall in Hb. destruct (Hb _ Hbody) as (_ & c & Ht & Hc). cbn in Ht.
    rewrite (calls_of_grown _ _ _ Ht) in Hin. rewrite Forall_forall in Hc. by apply (Hc _ Hin).
Qed.

(** The patch of a run that found its object as [lm] and left it as [lm']. *)
Lemma owned_patch k w0 h lm calls lm' w r w' :
  stored_machines w0 !! k = Some lm -> helper_object h = lm -> owned_run lm calls lm' ->
  Patch h lm' w = (r, w') -> patch_step k w0 calls (w, w').
Proof.
  intros Hk0 Hh Hrun Hp. pose proof (owned_key _ _ _ Hrun) as Hkey. rewrite (stored_key _ _ _ Hk0) in Hkey.
  split; [exact (keeps_run _ _ _ _ (Patch_machine_trace h lm') Hp)|].
  apply Patch_machine_merges in Hp as [Hothers Hcur]. rewrite Hkey in Hothers, Hcur. rewrite Hh in Hcur.
  split; [exact Hothers|]. cbn [fst snd]. intros n o (cur & Hk & Hpc & Hn & Ho) Hread.
  destruct (Hcur cur Hk) as (x & Hx & Hfin & Hid).
  assert (protected x -> holds k n o w') as Hheld.
  { intros Hpx. rewrite persist_protected in Hx by done. exists x. split_and!; [done..| |].
    - rewrite <- Hn. by eapply stored_name.
    - intros id Hi. rewrite <- (Ho id Hi). destruct Hid as [|[_ Hne]]; [done|]. destruct Hne.
      destruct Hread as [->|(lm1 & Hk1 & Hid1)]; [done|]. rewrite Hk0 in Hk1. injection Hk1 as <-.
      destruct (mspec_ProviderID (lm_Spec lm)) as [id1|] eqn:E; [|done]. by apply (owned_id _ _ _ Hrun). }
  destruct Hfin as [Hfin|[Hfin Hne]]; [left; apply Hheld; unfold protected; by rewrite Hfin|].
  destruct (owned_finalizers _ _ _ Hrun) as [Heq|[Hp|Hd]]; [done|left; apply Hheld; unfold protected; by rewrite Hfin|].
  right. split; [rewrite <- Hn, (stored_name _ _ _ _ _ Hk0 Hk); exact Hd|].
  intros cfg res Hin. destruct (owned_create _ _ _ Hrun _ _ Hin) as (_ & _ & _ & Hmeta). by rewrite Hmeta in Hne.
Qed.

Lemma calm_quiet_calls t : calm (fun _ => False) t.1 t.2 -> calls_of t = [].
Proof.
  destruct t as [u u']. intros (_ & c & Ht & Hc). cbn [fst snd] in Ht. rewrite (calls_of_grown _ _ _ Ht).
  destruct c as [|x c]; [done|]. by apply Forall_cons in Hc as [[] _].
Qed.
Lemma calm_weaken Q w w' : calm (fun _ => False) w w' -> calm Q w w'.
Proof.
  intros (Hs & c & Ht & Hc). split; [done|]. exists c. split; [done|]. eapply Forall_impl; [exact Hc|]. done.
Qed.

(** A step of a run: it stores nothing, and creates a domain only after a read of a
    protected object with no provider ID; or it is the patch, and the last step. *)
Lemma run_log_step k pre x post :
  run_log k (pre ++ x :: post) ->
  calm (fun _ => True) x.1 x.2 /\
    (forall cfg res, CallCreateMachine cfg res ∈ calls_of x ->
       exists g, g ∈ pre /\ stored_machines g.2 = stored_machines g.1 /\
         holds k (cfg_DomainName cfg) None g.1 /\ ~ assigned k g.1) \/
  (exists g, g ∈ pre /\ patch_step k g.1 (own_calls pre) x) /\ post = [].
Proof.
  intros Hrun. inversion Hrun as [g body last Hg Hbody Hcreate Hlast Hlog].
  pose proof (calm_quiet_calls g Hg) as Hgc. destruct pre as [|g' pre]; cbn [app] in Hlog.
  { injection Hlog as -> _. left. split; [by apply calm_weaken|]. intros cfg res. rewrite Hgc. by intros ?%elem_of_nil. }
  injection Hlog as -> Hlog. apply app_eq_inv in Hlog as [(m & -> & Hm)|(m & -> & Hlast')].
  - destruct m as [|y m].
    + cbn [app] in Hm. rewrite app_nil_r in *. destruct Hlast as [->|(p & -> & Hp)]; [done|].
      injection Hm as -> Hpost. right. split; [|done]. exists g'. split; [by left|]. by rewrite own_calls_cons, Hgc.
    + injection Hm as <- _. left. apply Forall_app in Hbody as [_ [Hx _]%Forall_cons]. split; [done|].
      intros cfg res Hin. exists g'. split; [by left|]. split; [apply Hg|]. eapply Hcreate.
      rewrite own_calls_app, own_calls_cons, !elem_of_app. right; left. exact Hin.
  - destruct Hlast as [->|(p & -> & Hp)]; [by destruct m|].
    destruct m as [|y m]; [|by destruct m]. cbn [app] in Hlast'. injection Hlast' as -> Hpost.
    rewrite app_nil_r. right. split; [|done]. exists g'. split; [by left|]. by rewrite own_calls_cons, Hgc.
Qed.

(** The part of a run between the read and the patch. *)
Lemma owned_log l lm (s : Shared W) r s' lm' :
  reconcileOwned l lm (s, lm) = (r, (s', lm')) ->
  exists body, sh_log s' = sh_log s ++ body /\ Forall (fun t => calm (fun _ => True) t.1 t.2) body /\
    owned_run lm (own_calls body) lm'.
Proof.
  intros H. pose proof (reconcileOwned_maintains (J := logged (calm (fun _ => True)) (sh_log s)) l lm (s, lm)
    (logged_here _ s)) as Hl. rewrite H in Hl. destruct Hl as (body & Hlog & Hcalm). exists body. split_and!; [done..|].
  destruct (reconcileOwned_run _ _ _ _ _ _ H) as (calls & Ht & Hrun).
  unfold provider_trace, Shared_trace in Ht. cbn [fst snd] in Hlog. rewrite Hlog, own_calls_app in Ht.
  by apply app_inv_head in Ht as ->.
Qed.

Lemma machine_log l k (s : Shared W) :
  exists more, sh_log (MachineController.Reconcile l k s).2 = sh_log s ++ more /\ run_log k more.
Proof.
  unfold MachineController.Reconcile. unfold mbind at 1, M_bind at 1, try at 1.
  unfold Get at 1, Shared_get at 1, interleaved at 1.
  pose proof (calm_read (fun _ => False) (Get k) (Get_machine_keeps k) (Get_machine_keeps k) (sh_now s)) as Hg.
  destruct (Get k (sh_now s)) as [rg u1] eqn:Hget. set (g := (sh_now s, u1)) in *. cbn [snd] in Hg.
  set (s1 := mkShared u1 _ _).
  assert (exists more, sh_log s1 = sh_log s ++ more /\ run_log k more) as Hfailed.
  { exists [g]. split; [done|]. by apply run_log_quiet. }
  destruct rg as [lm|e|]; cbn [snd]; [|by destruct (apierrors_IsNotFound e)|done]. clear Hfailed.
  apply Get_machine_stored in Hget as Hlm.
  unfold mbind, M_bind, NewHelper, Shared_patcher, interleaved at 1.
  pose proof (calm_read (fun _ => False) (NewHelper lm) (NewHelper_machine_keeps lm) (NewHelper_machine_keeps lm) (sh_now s1)) as Hn.
  destruct (NewHelper lm (sh_now s1)) as [rh u2] eqn:Hnew. set (t := (sh_now s1, u2)) in *. cbn [snd] in Hn.
  set (s2 := mkShared u2 _ _).
  assert (sh_log s2 = sh_log s ++ [g; t]) as Hs2 by (cbn; by rewrite <- app_assoc).
  destruct rh as [h|e|]; cbn [snd]; [|exists [g; t]; (split; [done|]); by apply run_log_quiet; [|apply Forall_singleton]..].
  apply NewHelper_remembers in Hnew. unfold deferred_patch.
  destruct (reconcileOwned l lm (s2, lm)) as [rb [s3 lm']] eqn:Hbody. cbn [fst snd].
  destruct (owned_log _ _ _ _ _ _ Hbody) as (body & Hs3 & Hcalm & Hrun).
  assert (forall last, last = [] \/ (exists p, last = [p] /\ patch_step k g.1 (own_calls body) p) ->
    run_log k (g :: (t :: body) ++ last)) as Hlog.
  { intros last Hlast. assert (own_calls (t :: body) = own_calls body) as Hc.
    { by rewrite own_calls_cons, (calm_quiet_calls t Hn). }
    apply run_log_intro; [done|constructor; [by apply calm_weaken|done]|rewrite Hc..]; [|done].
    intros cfg res Hin. destruct (owned_create _ _ _ Hrun _ _ Hin) as (-> & Hid & Hp & _).
    split; [by exists lm|]. intros (lm1 & Hk1 & Hid1). cbn in Hk1. rewrite Hlm in Hk1. by injection Hk1 as <-. }
  assert (forall m, sh_log (interleaved m s3 : result unit * _).2 =
    sh_log s ++ g :: (t :: body) ++ [(sh_now s3, (m (sh_now s3)).2)]) as Hlast.
  { intros m. unfold interleaved. destruct (m (sh_now s3)). cbn [snd sh_log]. by rewrite Hs3, Hs2, <- !app_assoc. }
  assert (patch_step k g.1 (own_calls body) (sh_now s3, (Patch h lm' (sh_now s3)).2)) as Hpatch.
  { eapply owned_patch; [exact Hlm|done|done|apply surjective_pairing]. }
  specialize (Hlast (Patch h lm')). specialize (Hlog [(sh_now s3, (Patch h lm' (sh_now s3)).2)]) as Hlog1.
  destruct rb.
  3: { exists (g :: (t :: body) ++ []). split; [cbn [fst snd]; by rewrite app_nil_r, Hs3, Hs2, <- app_assoc|]. apply Hlog. by left. }
  all: exists (g :: (t :: body) ++ [(sh_now s3, (Patch h lm' (sh_now s3)).2)]);
    (split; [|apply Hlog1; right; by eexists]); rewrite <- Hlast; cbn [Patch Shared_patcher];
    by destruct (interleaved (Patch h lm') s3) as [[] ?].
Qed.
End Steps.

(** ** Executions *)

(** One run of a controller. *)
Inductive Job : Type :=
  | MachineJob (k : NamespacedName)
  | ClusterJob (k : NamespacedName).
Inductive Actor : Type :=
  | Worker (i : nat)
  | Outside.
#[global] Instance Actor_eq_dec : EqDecision Actor.
Proof. solve_decision. Defined.

Section Executions.
Context {W : Type} {KL : KubeLib W} {P : provider W}.
Context {GC : Getter W LibvirtCluster} {GM : Getter W LibvirtMachine} {GS : Getter W Secret}.
Context {CU : ClusterAPIUtil W} {PM : Patcher W LibvirtMachine} {PCl : Patcher W LibvirtCluster}.
Context {AV : ApiView (W := W)} {PT : ProviderTrace W}.
Context {KLaws : KubeLibLaws W} {PTLaws : ProviderTraceLaws W} {ALaws : ApiLaws (W := W)} {PMg : PatchMerges (W := W)}.

(** Who changed the world, from what and to what. *)
#[local] Abbreviation Transition := (Actor * (W * W))%type.
Implicit Types (tr : list Transition) (jobs : nat -> Job).

Definition run (l : CredentialsLoader) (j : Job) : M (Shared W) Result :=
  match j with
  | MachineJob k => MachineController.Reconcile l k
  | ClusterJob k => ClusterController.Reconcile l k
  end.

Fixpoint chained (w : W) tr (w' : W) : Prop :=
  match tr with
  | [] => w' = w
  | (_, (u, u')) :: rest => u = w /\ chained u' rest w'
  end.
Definition own (i : nat) tr : list (W * W) := (filter (fun t => t.1 = Worker i) tr).*2.

(** Worker [i] makes the run [jobs i], up to some call; those outside keep to the
    rule [R]; two runs for one LibvirtMachine do not overlap. *)
Record execution (R : relation W) (l : CredentialsLoader) jobs (w : W) tr (w' : W) : Prop := {
  ex_chained : chained w tr w';
  ex_worker i : exists script rest, sh_log (run l (jobs i) (mkShared w script [])).2 = own i tr ++ rest;
  ex_outside u u' : (Outside, (u, u')) ∈ tr -> R u u';
  ex_exclusive i j k a b c x y z :
    jobs i = MachineJob k -> jobs j = MachineJob k -> (a < b < c)%nat ->
    tr !! a = Some (Worker i, x) -> tr !! b = Some (Worker j, y) -> tr !! c = Some (Worker i, z) -> i = j;
}.

Lemma own_app i tr1 tr2 : own i (tr1 ++ tr2) = own i tr1 ++ own i tr2.
Proof. unfold own. by rewrite filter_app, fmap_app. Qed.
Lemma own_worker i x tr : own i ((Worker i, x) :: tr) = x :: own i tr.
Proof. unfold own. by rewrite filter_cons_True. Qed.
Lemma elem_of_own i x tr : x ∈ own i tr <-> (Worker i, x) ∈ tr.
Proof.
  unfold own. rewrite list_elem_of_fmap. setoid_rewrite list_elem_of_filter. split.
  - intros ([a y] & -> & Ha & Hin). cbn in *. by subst.
  - intros Hin. by exists (Worker i, x).
Qed.
Lemma elem_of_own_calls i tr c : c ∈ own_calls (own i tr) <-> exists x, (Worker i, x) ∈ tr /\ c ∈ calls_of x.
Proof. unfold own_calls. rewrite list_elem_of_bind. setoid_rewrite elem_of_own. split; intros (x & ? & ?); eauto. Qed.
Lemma chained_app w tr1 tr2 w' : chained w (tr1 ++ tr2) w' <-> exists u, chained w tr1 u /\ chained u tr2 w'.
Proof.
  revert w. induction tr1 as [|[a [u u']] tr1 IH]; intros w; cbn.
  - split; [intros H; by exists w|]. by intros (u & -> & H).
  - rewrite IH. split; [intros (-> & v & H1 & H2); by exists v|]. intros (v & [-> H1] & H2). eauto.
Qed.

(** *** Building executions *)

Lemma own_none i tr : own i tr = [] -> forall n x, tr !! n <> Some (Worker i, x).
Proof. intros Ho n x Hn%list_elem_of_lookup_2. apply elem_of_own in Hn. rewrite Ho in Hn. by apply elem_of_nil in Hn. Qed.
Lemma worker_idle l j w i tr :
  own i tr = [] -> exists script rest, sh_log (run l j (mkShared w script [])).2 = own i tr ++ rest.
Proof. intros ->. by exists [], (sh_log (run l j (mkShared w [] [])).2). Qed.
Lemma own_others i tr : (forall t, t ∈ tr -> t.1 <> Worker i) -> own i tr = [].
Proof.
  intros Ht. destruct (own i tr) as [|x log] eqn:Ho; [done|]. destruct (Ht (Worker i, x)); [|done].
  apply elem_of_own. rewrite Ho. by left.
Qed.
Lemma own_map i log : own i (map (pair (Worker i)) log) = log.
Proof. induction log as [|x log IH]; [done|]. cbn [map]. by rewrite own_worker, IH. Qed.
Lemma own_map_ne i j log : i <> j -> own i (map (pair (Worker j)) log) = [].
Proof. intros Hne. unfold own. induction log as [|x log IH]; [done|]. cbn [map]. by rewrite filter_cons_False by (cbn; congruence). Qed.

Lemma execution_nil R l jobs w : execution R l jobs w [] w.
Proof. split; [done| |by intros ?? ?%elem_of_nil|done]. intros i. by apply worker_idle. Qed.

(** One more run, alone: worker [i] starts in [w'] and nobody disturbs it. *)
Lemma alone_chained l j w w' i :
  let s := (run l j (mkShared w [w'] [])).2 in
  sh_log s = [] \/ chained w' (map (pair (Worker i)) (sh_log s)) (sh_world s).
Proof.
  cbn. set (J := fun s : Shared W => sh_log s = [] /\ sh_script s = [w'] \/
    sh_script s = [] /\ chained w' (map (pair (Worker i)) (sh_log s)) (sh_world s)).
  assert (forall A (m : M W A), Maintains J (interleaved m)) as HJ.
  { intros A m s Hs. unfold interleaved. destruct (m (sh_now s)) as [r u] eqn:Hm. right. cbn. unfold sh_now in *.
    destruct Hs as [[-> ->]|[-> Hc]]; cbn; [done|]. split; [done|]. rewrite map_app. apply chained_app.
    by exists (sh_world s). }
  assert (ReadsMaintain (W := Shared W) J) by (split; intros; apply HJ).
  assert (ProviderMaintains (W := Shared W) J) by (split; intros; apply HJ).
  enough (J (run l j (mkShared w [w'] [])).2) as [[Hl _]|[_ Hc]]; [by left|by right|].
  destruct j as [k|k]; cbn [run]; [apply machine_Reconcile_maintains|apply cluster_Reconcile_maintains]; try (by left);
    intros; apply HJ.
Qed.

Lemma execution_alone R l jobs w tr w' i :
  let s := (run l (jobs i) (mkShared w [w'] [])).2 in
  execution R l jobs w tr w' -> own i tr = [] -> sh_log s <> [] ->
  execution R l jobs w (tr ++ map (pair (Worker i)) (sh_log s)) (sh_world s).
Proof.
  cbn. intros Hex Hi Hlog. destruct (alone_chained l (jobs i) w w' i) as [|Hc]; [done|]. split.
  - apply chained_app. exists w'. split; [apply Hex|done].
  - intros i'. rewrite own_app. destruct (decide (i' = i)) as [->|Hne].
    + rewrite Hi, own_map. exists [w'], []. by rewrite app_nil_r.
    + rewrite own_map_ne, app_nil_r by done. apply (ex_worker _ _ _ _ _ _ Hex).
  - intros u u' [Hin|(x & [=] & _)%list_elem_of_fmap]%elem_of_app. by apply (ex_outside _ _ _ _ _ _ Hex).
  - intros i1 j k a b c x y z Hi1 Hj Hlt Ha Hb Hz.
    assert (forall n t, (length tr <= n)%nat -> (tr ++ map (pair (Worker i)) (sh_log (run l (jobs i) (mkShared w [w'] [])).2)) !! n = Some t ->
      t.1 = Worker i) as Htail.
    { intros n t Hn Ht. rewrite lookup_app_r in Ht by done. apply list_elem_of_lookup_2, list_elem_of_fmap in Ht.
      by destruct Ht as (? & -> & _). }
    destruct (decide (c < length tr)%nat) as [Hc'|Hc'].
    + rewrite lookup_app_l in Ha, Hb, Hz by lia. by apply (ex_exclusive _ _ _ _ _ _ Hex i1 j k a b c x y z).
    + apply Htail in Hz; [|lia]. injection Hz as ->.
      destruct (decide (a < length tr)%nat) as [Ha'|Ha'].
      { rewrite lookup_app_l in Ha by lia. by apply own_none in Ha. }
      apply Htail in Hb; [|lia]. by injection Hb as ->.
Qed.

(** Machine runs for one object, one after the other. *)
Fixpoint in_turn (l : CredentialsLoader) (k : NamespacedName) (w : W) (n : nat) : W :=
  match n with
  | O => w
  | S m => sh_world (run l (MachineJob k) (mkShared w [in_turn l k w m] [])).2
  end.
Lemma execution_in_turn R l k w n :
  exists tr, execution R l (fun _ => MachineJob k) w tr (in_turn l k w n) /\ forall i, (n <= i)%nat -> own i tr = [].
Proof.
  induction n as [|n (tr & Hex & Hown)]; [exists []; split; [apply execution_nil|done]|]. eexists. split.
  - apply (execution_alone R l _ w tr _ n Hex); [by apply Hown|].
    destruct (machine_log l k (mkShared w [in_turn l k w n] [])) as (log & Hlog & Hrun). cbn [run sh_log app] in *.
    rewrite Hlog. by destruct Hrun.
  - intros i Hi. rewrite own_app, Hown, own_map_ne by lia. done.
Qed.

(** One run that is disturbed once: after its first call the world becomes [e]. *)
Lemma disturbed_chained l j w e i :
  let s := (run l j (mkShared w [w; e] [])).2 in
  match sh_log s with
  | [] => True
  | g :: rest => g.1 = w /\ (rest = [] \/ chained e (map (pair (Worker i)) rest) (sh_world s))
  end.
Proof.
  cbn. set (J := fun s : Shared W => match sh_log s with
    | [] => sh_script s = [w; e]
    | [g] => g.1 = w /\ sh_script s = [e]
    | g :: rest => g.1 = w /\ sh_script s = [] /\ chained e (map (pair (Worker i)) rest) (sh_world s)
    end).
  assert (forall A (m : M W A), Maintains J (interleaved m)) as HJ.
  { intros A m s. unfold J, interleaved, sh_now. destruct (sh_log s) as [|g [|t rest]]; cbn [app].
    - intros ->. cbn. by destruct (m w).
    - intros [Hg ->]. cbn. by destruct (m e).
    - intros (Hg & -> & Hc). cbn [hd tail]. destruct (m (sh_world s)) as [r u]. cbn [snd sh_log sh_script sh_world].
      split_and!; [done..|]. rewrite app_comm_cons, map_app. apply chained_app. by exists (sh_world s). }
  assert (ReadsMaintain (W := Shared W) J) by (split; intros; apply HJ).
  assert (ProviderMaintains (W := Shared W) J) by (split; intros; apply HJ).
  assert (J (run l j (mkShared w [w; e] [])).2) as HJs.
  { destruct j as [k|k]; cbn [run]; [apply machine_Reconcile_maintains|apply cluster_Reconcile_maintains]; try done;
      intros; apply HJ. }
  unfold J in HJs. destruct (sh_log _) as [|g [|t rest]]; [done|naive_solver|naive_solver].
Qed.

Lemma execution_disturbed (R : relation W) l jobs w e i g t rest :
  let s := (run l (jobs i) (mkShared w [w; e] [])).2 in
  sh_log s = g :: t :: rest -> R g.2 e ->
  execution R l jobs w ((Worker i, g) :: (Outside, (g.2, e)) :: map (pair (Worker i)) (t :: rest)) (sh_world s).
Proof.
  cbv zeta. intros Hlog Hout. pose proof (disturbed_chained l (jobs i) w e i) as Hd. cbv zeta in Hd. rewrite Hlog in Hd.
  destruct Hd as [Hg [[=]|Hc]]. destruct g as [g g']. cbn [fst snd] in *. subst g.
  assert (forall a x, (a, x) ∈ (Worker i, (w, g')) :: (Outside, (g', e)) :: map (pair (Worker i)) (t :: rest) ->
    a = Worker i \/ a = Outside /\ x = (g', e)) as Hwho.
  { intros a x. rewrite !elem_of_cons. intros [[= -> ->]|[[= -> ->]|(y & [= -> ->] & _)%list_elem_of_fmap]]; auto. }
  split.
  - by split_and!.
  - intros j. destruct (decide (j = i)) as [->|Hne].
    + exists [w; e], []. rewrite Hlog, own_worker, app_nil_r. unfold own. rewrite filter_cons_False by done.
      by rewrite <- (own_map i (t :: rest)) at 1.
    + apply worker_idle, own_others. intros [a x] Hin. cbn. destruct (Hwho _ _ Hin) as [->|[-> _]]; congruence.
  - intros u u' Hin. destruct (Hwho _ _ Hin) as [[=]|[_ [= -> ->]]]. done.
  - intros i1 j k a b c x y z _ _ _ Ha%list_elem_of_lookup_2 Hb%list_elem_of_lookup_2 _.
    destruct (Hwho _ _ Ha) as [[= ->]|[[=] _]], (Hwho _ _ Hb) as [[= ->]|[[=] _]]. done.
Qed.

(** *** What holds of every call

    If a relation holds of the worlds before and after every call, then it holds of
    every step of a worker. *)
Section Logged.
Context (Q : relation W).
Context {QR : forall log, ReadsMaintain (W := Shared W) (logged Q log)}.
Context {QM : forall log, ProviderMaintains (W := Shared W) (logged Q log)}.
Context (QPatch : forall log h o, Maintains (logged Q log) (Patch (W := Shared W) (T := LibvirtMachine) h o)).

Lemma run_logged l j (s : Shared W) : logged Q (sh_log s) (run l j s).2.
Proof.
  destruct j as [k|k]; cbn [run].
  - apply machine_Reconcile_maintains; [apply QPatch|apply logged_here].
  - apply cluster_Reconcile_maintains; [apply EnsureInfra_maintains|apply logged_here].
Qed.
Lemma worker_step R l jobs w tr w' i u u' :
  execution R l jobs w tr w' -> (Worker i, (u, u')) ∈ tr -> Q u u'.
Proof.
  intros Hex Hin. destruct (ex_worker _ _ _ _ _ _ Hex i) as (script & rest & Hlog).
  destruct (run_logged l (jobs i) (mkShared w script [])) as (more & Hmore & Hq). cbn [sh_log app] in Hmore.
  rewrite Hmore in Hlog. subst more. apply Forall_app in Hq as [Hq _]. rewrite Forall_forall in Hq.
  apply (Hq (u, u')). by apply elem_of_own.
Qed.
End Logged.

(** Relations that every call and every step from outside keep relate the ends of an
    execution. *)
Section Related.
Context (Q : relation W) {QP : PreOrder Q}.
Context {QR : forall u, ReadsMaintain (W := W) (Q u)} {QM : forall u, ProviderMaintains (W := W) (Q u)}.
Context (QPatch : forall u h o, Maintains (Q u) (Patch (T := LibvirtMachine) h o)).

Lemma related_logged {A} log (m : M W A) : (forall u, Maintains (Q u) m) -> Maintains (logged Q log) (interleaved m).
Proof. intros Hm. apply interleaved_logged. intros w. apply Hm. reflexivity. Qed.

Lemma execution_related R l jobs w tr w' :
  subrelation R Q -> execution R l jobs w tr w' -> Q w w'.
Proof.
  intros HR Hex. assert (forall a u u', (a, (u, u')) ∈ tr -> Q u u') as Hall.
  { intros [i|] u u'; [|intros Hin; by apply HR, (ex_outside _ _ _ _ _ _ Hex)]. eapply worker_step; [| | |exact Hex].
    - intros log. split; intros; apply related_logged; intros; apply QR.
    - intros log. split; intros; apply related_logged; intros; apply QM.
    - intros log h o. by apply related_logged. }
  pose proof (ex_chained _ _ _ _ _ _ Hex) as Hc. clear Hex. revert w Hc.
  induction tr as [|[a [u u']] tr IH]; intros w Hc; cbn in Hc; [by subst|]. destruct Hc as [-> Hc].
  transitivity u'; [eapply Hall; by left|]. apply IH; [|done]. intros a' v v' Hin. apply (Hall a'). by right.
Qed.
End Related.

Section Execution.
Context {l : CredentialsLoader} {jobs : nat -> Job} {w w' : W} {tr : list Transition}.
Context {R : relation W} (HR : subrelation R env_step) (Hex : execution R l jobs w tr w').

Lemma exclusive_split i j k a x b y c z d :
  jobs i = MachineJob k -> jobs j = MachineJob k ->
  tr = a ++ (Worker i, x) :: b ++ (Worker j, y) :: c ++ (Worker i, z) :: d -> i = j.
Proof.
  intros Hi Hj Htr. set (a2 := a ++ (Worker i, x) :: b). set (a3 := a2 ++ (Worker j, y) :: c).
  assert (tr = a2 ++ (Worker j, y) :: c ++ (Worker i, z) :: d) as Htr2 by (by rewrite Htr; unfold a2; rewrite <- app_assoc).
  assert (tr = a3 ++ (Worker i, z) :: d) as Htr3 by (by rewrite Htr2; unfold a3; rewrite <- app_assoc).
  apply (ex_exclusive _ _ _ _ _ _ Hex i j k (length a) (length a2) (length a3) x y z Hi Hj).
  - unfold a3, a2. rewrite !length_app. cbn [length]. lia.
  - rewrite Htr. by apply list_lookup_middle.
  - rewrite Htr2. by apply list_lookup_middle.
  - rewrite Htr3. by apply list_lookup_middle.
Qed.

(** The steps a worker makes, as steps of its run. *)
Lemma worker_cluster i k tr1 x tr2 :
  jobs i = ClusterJob k -> tr = tr1 ++ (Worker i, x) :: tr2 -> calm is_ensure x.1 x.2.
Proof.
  intros Hj Htr. destruct (ex_worker _ _ _ _ _ _ Hex i) as (script & rest & Hlog). rewrite Hj in Hlog.
  destruct (cluster_log l k (mkShared w script [])) as (more & Hmore & Hcalm). cbn [run sh_log app] in *.
  rewrite Hmore, Htr, own_app, own_worker, <- app_assoc in Hlog. subst more.
  apply Forall_app in Hcalm as [_ Hcalm]. by apply Forall_cons in Hcalm as [? _].
Qed.

Lemma worker_machine i k tr1 x tr2 :
  jobs i = MachineJob k -> tr = tr1 ++ (Worker i, x) :: tr2 ->
  calm (fun _ => True) x.1 x.2 /\
    (forall cfg res, CallCreateMachine cfg res ∈ calls_of x ->
       exists g, (Worker i, g) ∈ tr1 /\ stored_machines g.2 = stored_machines g.1 /\
         holds k (cfg_DomainName cfg) None g.1 /\ ~ assigned k g.1) \/
  (exists g, (Worker i, g) ∈ tr1 /\ patch_step k g.1 (own_calls (own i tr1)) x) /\ own i tr2 = [].
Proof.
  intros Hj Htr. destruct (ex_worker _ _ _ _ _ _ Hex i) as (script & rest & Hlog). rewrite Hj in Hlog.
  destruct (machine_log l k (mkShared w script [])) as (more & Hmore & Hrun). cbn [run sh_log app] in *.
  rewrite Hmore, Htr, own_app, own_worker, <- app_assoc in Hlog. cbn [app] in Hlog. subst more.
  destruct (run_log_step _ _ _ _ Hrun) as [[Hc Hcr]|[(g & Hg & Hp) [Ho _]%app_eq_nil]].
  - left. split; [done|]. intros cfg res Hin. destruct (Hcr cfg res Hin) as (g & Hg & Hrest).
    exists g. split; [by apply elem_of_own|done].
  - right. split; [|done]. exists g. split; [by apply elem_of_own|done].
Qed.

(** Every step adds to the history of calls. *)
Lemma step_grows t : t ∈ tr -> provider_trace t.2.2 = provider_trace t.2.1 ++ calls_of t.2.
Proof.
  intros (tr1 & tr2 & Htr)%list_elem_of_split. destruct t as [[i|] [u u']]; cbn [fst snd] in *.
  - assert (exists c, provider_trace u' = provider_trace u ++ c) as [c Hc]; [|by rewrite (calls_of_grown _ _ _ Hc)].
    destruct (jobs i) as [k|k] eqn:Hj.
    + destruct (worker_machine i k tr1 (u, u') tr2 Hj Htr) as [[(_ & c & Hc & _) _]|[(g & _ & Ht & _) _]]; [by exists c|].
      exists []. by rewrite app_nil_r.
    + destruct (worker_cluster i k tr1 (u, u') tr2 Hj Htr) as (_ & c & Hc & _). by exists c.
  - assert (env_step u u') as [Ht _]; [apply HR, (ex_outside _ _ _ _ _ _ Hex); rewrite Htr, elem_of_app, elem_of_cons; tauto|].
    rewrite (calls_of_grown _ _ []); by rewrite app_nil_r.
Qed.

(** A protected object stays protected through a step, and keeps a provider ID that
    every run for it has read, unless the step is the patch of a run for this object
    that gave the domain name up. *)
Lemma step_holds k n o tr1 a x tr2 :
  tr = tr1 ++ (a, x) :: tr2 -> holds k n o x.1 ->
  o = None \/ (forall i g, (Worker i, g) ∈ tr1 -> assigned k g.1) ->
  holds k n o x.2 \/
  exists i, a = Worker i /\ jobs i = MachineJob k /\ own i tr2 = [] /\
    Exists (deletes n) (own_calls (own i tr1)) /\ creates_none (own_calls (own i tr1)).
Proof.
  intros Htr Hh Hread. destruct a as [i|].
  - destruct (jobs i) as [k'|k'] eqn:Hj.
    + destruct (worker_machine i k' tr1 x tr2 Hj Htr) as [[[Hs _] _]|[(g & Hg & _ & Ho & Hp) Hlast]].
      { left. eapply holds_same, Hh. by rewrite Hs. }
      destruct (decide (k = k')) as [<-|Hne]; [|left; eapply holds_same, Hh; by apply Ho].
      destruct (Hp n o Hh) as [|[Hd Hn]]; [|by left|right; by exists i].
      destruct Hread as [|Hread]; [by left|right; by eapply Hread].
    + left. destruct (worker_cluster i k' tr1 x tr2 Hj Htr) as [Hs _]. eapply holds_same, Hh. by rewrite Hs.
  - left. destruct x as [u u']. destruct Hh as (lm & Hk & Hp & Hn & Hid).
    assert (env_step u u') as [_ Henv]; [apply HR, (ex_outside _ _ _ _ _ _ Hex); rewrite Htr, elem_of_app, elem_of_cons; tauto|].
    destruct (Henv k lm Hk Hp) as (lm' & Hk' & Hp' & Hid'). exists lm'. split_and!; [done..| |].
    + rewrite <- Hn. by eapply stored_name.
    + intros id Ho. by apply Hid', Hid.
Qed.

(** The same along a segment of the execution. *)
Lemma segment_holds k n seg : forall pre post u v,
  tr = pre ++ seg ++ post -> chained u seg v -> holds k n None u ->
  holds k n None v \/
  exists s1 i x s2, seg = s1 ++ (Worker i, x) :: s2 /\ jobs i = MachineJob k /\ own i (s2 ++ post) = [] /\
    Exists (deletes n) (own_calls (own i (pre ++ s1))) /\ creates_none (own_calls (own i (pre ++ s1))).
Proof.
  induction seg as [|[a [u1 v1]] seg IH]; intros pre post u v Htr Hc Hh; cbn in Hc; [left; by subst|].
  destruct Hc as [-> Hc]. destruct (step_holds k n None pre a (u, v1) (seg ++ post) Htr Hh (or_introl eq_refl)) as [Hh1|(i & -> & Hj & Ho & Hd & Hn)].
  - destruct (IH (pre ++ [(a, (u, v1))]) post v1 v) as [|(s1 & i & x & s2 & -> & Hj & Ho & Hd & Hn)]; [|done..|by left|right].
    { rewrite Htr, <- app_assoc. done. }
    exists ((a, (u, v1)) :: s1), i, x, s2. rewrite <- app_assoc in Hd, Hn. done.
  - right. exists [], i, (u, v1), seg. rewrite app_nil_r. done.
Qed.

(** A domain is created by a run whose object is protected at that moment. *)
Lemma create_holds tr1 a x tr2 cfg res :
  tr = tr1 ++ (a, x) :: tr2 -> CallCreateMachine cfg res ∈ calls_of x ->
  exists i k, a = Worker i /\ jobs i = MachineJob k /\ holds k (cfg_DomainName cfg) None x.2.
Proof.
  intros Htr Hin. destruct x as [u u']. destruct a as [i|].
  2: { assert (env_step u u') as [Ht _]; [apply HR, (ex_outside _ _ _ _ _ _ Hex); rewrite Htr, elem_of_app, elem_of_cons; tauto|].
       rewrite (calls_of_grown u u' []) in Hin by (by rewrite app_nil_r). by apply elem_of_nil in Hin. }
  exists i. destruct (jobs i) as [k|k] eqn:Hj.
  2: { destruct (worker_cluster i k tr1 (u, u') tr2 Hj Htr) as (_ & c & Hc & Hens).
       cbn [fst snd] in Hc. rewrite (calls_of_grown _ _ _ Hc) in Hin.
       rewrite Forall_forall in Hens. by apply Hens in Hin. }
  exists k. split_and!; [done..|].
  destruct (worker_machine i k tr1 (u, u') tr2 Hj Htr) as [[[Hs _] Hcr]|[(g & _ & Ht & _) _]].
  2: { rewrite (calls_of_grown u u' []) in Hin by (by rewrite app_nil_r). by apply elem_of_nil in Hin. }
  destruct (Hcr cfg res Hin) as (g & (b & c & ->)%list_elem_of_split & Hg & Hh & _). cbn [fst snd] in *.
  pose proof (ex_chained _ _ _ _ _ _ Hex) as Hc. rewrite Htr in Hc. apply chained_app in Hc as (v & Hc & Hv & _).
  subst v. destruct g as [g g']. apply chained_app in Hc as (v & _ & -> & Hc).
  destruct (segment_holds k (cfg_DomainName cfg) c (b ++ [(Worker i, (v, g'))]) ((Worker i, (u, u')) :: tr2) g' u)
    as [Hu|(s1 & j & x & s2 & -> & Hj' & Ho & _)]; [by rewrite Htr, <- !app_assoc|done| | |].
  - eapply holds_same, Hh. cbn in Hg. by rewrite Hg.
  - eapply holds_same, Hu. cbn in Hs. by rewrite Hs.
  - exfalso. assert (i = j) as <-.
    { eapply (exclusive_split i j k b _ s1 x s2 _ tr2 Hj Hj'). rewrite Htr, <- app_assoc. cbn [app].
      by rewrite <- app_assoc. }
    rewrite own_app, own_worker in Ho. by destruct (own i s2).
Qed.

(** The history of calls, step by step. *)
Lemma chained_calls u seg v :
  chained u seg v -> (forall t, t ∈ seg -> t ∈ tr) -> provider_trace v = provider_trace u ++ own_calls seg.*2.
Proof.
  revert u. induction seg as [|[a [u1 v1]] seg IH]; intros u Hc Hin; cbn in Hc; [by rewrite Hc, app_nil_r|].
  destruct Hc as [-> Hc]. rewrite (IH v1 Hc) by (intros t Ht; apply Hin; by right).
  pose proof (step_grows (a, (u, v1)) (Hin _ (list_elem_of_here _ _))) as Hg. cbn [fst snd] in Hg. rewrite Hg.
  cbn [snd fmap list_fmap].
  by rewrite own_calls_cons, app_assoc.
Qed.

(** A provider ID is read by every run, and kept, as long as the name is not given up. *)
Lemma prefix_keeps_id k n id pre : forall post v,
  tr = pre ++ post -> chained w pre v -> holds k n (Some id) w ->
  Exists (deletes n) (own_calls pre.*2) \/
  holds k n (Some id) v /\ forall a x, (a, x) ∈ pre -> holds k n (Some id) x.1.
Proof.
  induction pre as [|[a x] pre IH] using rev_ind; intros post v Htr Hc Hw.
  { right. cbn in Hc. subst v. split; [done|]. by intros a x ?%elem_of_nil. }
  apply chained_app in Hc as (u & Hpre & Hx). rewrite <- app_assoc in Htr. cbn [app] in Htr.
  destruct (IH _ u Htr Hpre Hw) as [Hd|[Hu Hall]].
  { left. rewrite fmap_app, own_calls_app. apply Exists_app. by left. }
  destruct x as [u1 v1]. cbn in Hx. destruct Hx as [-> ->].
  destruct (step_holds k n (Some id) pre a (u, v1) post Htr Hu) as [Hv|(i & -> & _ & _ & Hd & _)].
  - right. intros j g (lm & Hk & _ & _ & Hid)%Hall. exists lm. split; [done|]. by rewrite (Hid id eq_refl).
  - right. split; [done|]. intros b y. rewrite elem_of_app, list_elem_of_singleton.
    intros [Hin|[= -> ->]]; [by apply (Hall b)|done].
  - left. rewrite fmap_app, own_calls_app. apply Exists_app. left.
    apply Exists_exists in Hd as (c & (z & Hz & Hcz)%elem_of_own_calls & Hd). apply Exists_exists. exists c.
    split; [|done]. apply list_elem_of_bind. exists z. split; [done|]. apply (list_elem_of_fmap_2 snd _ (Worker i, z)), Hz.
Qed.
End Execution.

Lemma own_calls_split log before c after :
  own_calls log = before ++ c :: after ->
  exists l1 x l2, log = l1 ++ x :: l2 /\ c ∈ calls_of x /\ (forall c', c' ∈ own_calls l2 -> c' ∈ after).
Proof.
  revert before. induction log as [|x log IH]; intros before H; [by destruct before|].
  rewrite own_calls_cons in H. apply app_eq_inv in H as [(m & Hx & Hm)|(m & -> & Hm)].
  - destruct m as [|y m].
    + cbn in Hm. destruct (IH [] (eq_sym Hm)) as (l1 & x' & l2 & -> & Hin & Hl). by exists (x :: l1), x', l2.
    + injection Hm as <- ->. exists [], x, log. split_and!; [done| |].
      * rewrite Hx, elem_of_app, elem_of_cons. tauto.
      * intros c' Hc'. rewrite elem_of_app. by right.
  - destruct (IH m Hm) as (l1 & x' & l2 & -> & Hin & Hl). by exists (x :: l1), x', l2.
Qed.

Lemma execution_accounted R l jobs w tr w' :
  subrelation R env_step -> provider_trace w = [] -> execution R l jobs w tr w' -> accounted w'.
Proof.
  intros HR Hinit Hex before cfg res after Htrace. pose proof (ex_chained _ _ _ _ _ _ Hex) as Hc.
  rewrite (chained_calls HR Hex w tr w' Hc (fun _ H => H)), Hinit in Htrace. cbn [app] in Htrace.
  apply own_calls_split in Htrace as (l1 & x & l2 & Htr & Hin & Hafter).
  apply fmap_app_inv in Htr as (tr1 & tr2 & -> & Htr2 & ->).
  destruct tr2 as [|[a x'] tr2]; cbn in Htr2; [done|]. injection Htr2 as -> ->.
  destruct (create_holds HR Hex tr1 a x' tr2 cfg res eq_refl Hin) as (i & k & -> & Hj & Hh).
  apply chained_app in Hc as (u & _ & Hc). destruct x' as [u' v]. cbn [fst snd] in *. destruct Hc as [-> Hc].
  destruct (segment_holds HR Hex k (cfg_DomainName cfg) tr2 (tr1 ++ [(Worker i, (u, v))]) [] v w')
    as [Hw|(s1 & j & y & s2 & -> & Hj' & _ & Hd & Hn)]; [by rewrite app_nil_r, <- app_assoc|done..| |].
  { left. destruct Hw as (lm & ? & ? & ? & _). by exists k, lm. }
  right. destruct (decide (i = j)) as [<-|Hne].
  - exfalso. apply (Hn cfg res). rewrite !own_app, own_worker, !own_calls_app, own_calls_cons, !elem_of_app. tauto.
  - apply Exists_exists in Hd as (c & Hc' & Hd). apply Exists_exists. exists c. split; [|done]. apply Hafter.
    apply elem_of_own_calls in Hc' as (z & Hz & Hcz). rewrite <- app_assoc, elem_of_app in Hz.
    destruct Hz as [(b & d & ->)%list_elem_of_split|Hz].
    + destruct Hne. symmetry. eapply (exclusive_split Hex j i k b z d _ s1 y s2 Hj' Hj).
      by rewrite <- app_assoc.
    + cbn [app] in Hz. rewrite elem_of_cons in Hz. destruct Hz as [[=]|Hz]; [by subst|].
      apply list_elem_of_bind. exists z. split; [done|]. apply (list_elem_of_fmap_2 snd _ (Worker j, z)).
      rewrite elem_of_app. by left.
Qed.

(** C4: no domain is forgotten when runs are interleaved call by call: in any
    execution of workers of both controllers, some cut off, and of others that
    change the world between any two calls, every [CreateMachine] that was ever
    called, whether or not it succeeded, is for a domain name that a stored
    LibvirtMachine with the controller's finalizer still has, or that a later
    [DeleteMachine] gave up successfully. *)
Theorem no_orphans_interleaved l jobs w tr w' :
  provider_trace w = [] -> execution env_step l jobs w tr w' -> accounted w'.
Proof. by apply execution_accounted. Qed.

(** C5: a machine is provisioned once, also when runs are interleaved call by call:
    from the moment a LibvirtMachine is stored with the finalizer and a provider ID,
    through any later execution of workers of both controllers and of others, it
    stays stored with the finalizer and that provider ID, and no run for it asks for
    a new domain; unless its domain was deleted successfully in between. *)
Theorem provisioned_once_interleaved l jobs w tr w' k lm id :
  execution env_step l jobs w tr w' -> stored_machines w !! k = Some lm -> protected lm ->
  mspec_ProviderID (lm_Spec lm) = Some id ->
  exists calls, provider_trace w' = provider_trace w ++ calls /\
    (Exists (deletes (domainName lm)) calls \/
     (exists lm', stored_machines w' !! k = Some lm' /\ protected lm' /\ mspec_ProviderID (lm_Spec lm') = Some id) /\
     forall i cfg res, jobs i = MachineJob k -> CallCreateMachine cfg res ∉ own_calls (own i tr)).
Proof.
  intros Hex Hk Hp Hid. assert (subrelation (env_step (W := W)) env_step) as HR by done.
  pose proof (ex_chained _ _ _ _ _ _ Hex) as Hc.
  exists (own_calls tr.*2). split; [by apply (chained_calls HR Hex w tr w' Hc)|].
  destruct (prefix_keeps_id HR Hex k (domainName lm) id tr [] w') as [Hd|[(lm' & Hk' & Hp' & _ & Hid') Hall]];
    [by rewrite app_nil_r|done| |by left|right].
  { exists lm. split_and!; [done..|]. by intros ? [= <-]. }
  split; [exists lm'; eauto|]. intros i cfg res Hj (x & (tr1 & tr2 & Htr)%list_elem_of_split & Hin)%elem_of_own_calls.
  destruct (worker_machine Hex i k tr1 x tr2 Hj Htr) as [[_ Hcr]|[(g & _ & Ht & _) _]].
  - destruct (Hcr cfg res Hin) as (g & Hg & _ & _ & Hna). apply Hna. destruct (Hall (Worker i) g) as (lm1 & Hk1 & _ & _ & Hid1).
    { rewrite Htr, elem_of_app. by left. }
    exists lm1. split; [done|]. by rewrite (Hid1 id eq_refl).
  - destruct x as [u u']. rewrite (calls_of_grown u u' []) in Hin by (by rewrite app_nil_r). by apply elem_of_nil in Hin.
Qed.
End Executions.
