(* ===== verification/Progress.v ===== *)
(** * Progress: a machine is provisioned in at most two runs

    Failures are answered by running again; this file shows where that leads once
    they are over.  While what a machine waits for is there (its owner, a
    provisioned cluster, credentials, bootstrap data), the host knows the state of
    its domain and every call the controller makes succeeds, the first run puts the
    finalizer on the object and the next one brings the domain up and stores the
    result. *)

From stdpp Require Import base gmap list strings.
From Stdlib Require Import ZArith Lia.
From S2P Require Import Prelude GoStrings Config Api Kube Credentials ProviderInterface.
From S2P Require Import ClusterController MachineController History.

Local Open Scope Z_scope.

Section Progress.
Context {W : Type} {KL : KubeLib W} {P : provider W}.
Context {GC : Getter W LibvirtCluster} {GM : Getter W LibvirtMachine} {GS : Getter W Secret}.
Context {CU : ClusterAPIUtil W} {PM : Patcher W LibvirtMachine} {PCl : Patcher W LibvirtCluster}.
Context {AV : ApiView (W := W)} {PT : ProviderTrace W}.
Context {KLaws : KubeLibLaws W} {PTLaws : ProviderTraceLaws W} {ALaws : ApiLaws (W := W)}.

(** While the world is [Up], [m] returns a value that satisfies [Q] and leaves it [Up]. *)
Definition Succeeds {A} (Up : W -> Prop) (Q : A -> Prop) (m : M W A) : Prop :=
  forall w, Up w -> exists a w', m w = (Ok a, w') /\ Q a /\ Up w'.

(** What the controller waits for, and more than that every call succeeds: the
    LibvirtMachine has an owner Machine and that a Cluster, whose infrastructure is
    provisioned; the LibvirtCluster is there and its credentials load; the bootstrap
    Secret is named and has its data; and the host says of the domain that it is
    missing, stopped or running (not [DomainStateUnknown], on which the controller
    only waits). *)
Record healthy (Up : W -> Prop) (l : CredentialsLoader) (k : NamespacedName) (cluster : Cluster) : Prop := {
  healthy_Get w lm : Up w -> stored_machines w !! k = Some lm -> exists w', Get k w = (Ok lm, w') /\ Up w';
  healthy_NewHelper (o : LibvirtMachine) : Succeeds Up (fun _ => True) (NewHelper o);
  healthy_Patch h (o : LibvirtMachine) : Succeeds Up (fun _ => True) (Patch h o);
  healthy_owner m : Succeeds Up (fun om => exists machine, om = Some machine /\
    Succeeds Up (fun oc => oc = Some cluster) (GetClusterFromMetadata (machine_ObjectMeta machine)) /\
    exists name, machine_DataSecretName machine = Some name /\
      Succeeds Up (fun s => is_Some (secret_Data s !! "value"))
        (Get (T := Secret) (mkNN (meta_Namespace (machine_ObjectMeta machine)) name)))
    (GetOwnerMachine m);
  healthy_cluster : cluster_InfrastructureProvisioned cluster = Some true;
  healthy_LibvirtCluster :
    Succeeds Up (fun lc => Succeeds Up (fun _ => True) (Load l lc))
      (Get (mkNN (meta_Namespace (cluster_ObjectMeta cluster)) (cluster_InfrastructureRefName cluster)));
  healthy_state cfg : Succeeds Up (fun st => st ∈ [DomainStateNotFound; DomainStateStopped; DomainStateRunning])
    (GetMachineState cfg);
  healthy_create cfg : Succeeds Up (fun _ => True) (CreateMachine cfg);
  healthy_start cfg : Succeeds Up (fun _ => True) (StartMachine cfg);
  healthy_address cfg : Succeeds Up (fun _ => True) (GetMachineAddress cfg);
}.

(** Not being deleted, not paused, which only its annotations and the cluster tell. *)
Definition active (cluster : Cluster) (lm : LibvirtMachine) : Prop :=
  Time_IsZero (meta_DeletionTimestamp (lm_ObjectMeta lm)) = true /\
  forall m, meta_Annotations m = meta_Annotations (lm_ObjectMeta lm) -> annotations_IsPaused cluster m = false.

(** The machine as its users wait for it. *)
Definition provisioned (lm lm' : LibvirtMachine) : Prop :=
  mstatus_Ready (lm_Status lm') = true /\ mstatus_Provisioned (lm_Status lm') = true /\
  mspec_ProviderID (lm_Spec lm') = Some ("libvirt://" +:+ meta_UID (lm_ObjectMeta lm)).

Lemma Succeeds_bind {A} Up (Q : A -> Prop) (m : M W A) w (lm : LibvirtMachine) :
  Succeeds Up Q m -> Up w -> exists a w', Q a /\ Up w' /\
    forall B (f : A -> M (W * LibvirtMachine) B), (call m ≫= f) (w, lm) = f a (w', lm).
Proof.
  intros Hm Hw. destruct (Hm w Hw) as (a & w' & Hr & Ha & Hw'). exists a, w'. split_and!; [done..|]. intros B f.
  unfold mbind, M_bind, call. cbn [fst snd]. by rewrite Hr.
Qed.

Context {Up : W -> Prop} {l : CredentialsLoader} {k : NamespacedName} {cluster : Cluster}.
Context (Hh : healthy Up l k cluster).

Lemma healthy_scope w lm :
  Up w -> active cluster lm ->
  exists scope w', mscope_Cluster scope = cluster /\ Up w' /\
    (exists name, machine_DataSecretName (mscope_Machine scope) = Some name /\
      Succeeds Up (fun s => is_Some (secret_Data s !! "value"))
        (Get (T := Secret) (mkNN (meta_Namespace (machine_ObjectMeta (mscope_Machine scope))) name))) /\
    reconcileOwned l lm (w, lm) = MachineController.reconcileNormal scope (w', lm).
Proof.
  intros Hup [Hz _]. unfold reconcileOwned.
  destruct (Succeeds_bind _ _ _ w lm (healthy_owner _ _ _ _ Hh (lm_ObjectMeta lm)) Hup)
    as (om & w1 & (machine & -> & Hc & Hd) & Hup1 & ->).
  destruct (Succeeds_bind _ _ _ w1 lm Hc Hup1) as (oc & w2 & -> & Hup2 & ->).
  destruct (Succeeds_bind _ _ _ w2 lm (healthy_LibvirtCluster _ _ _ _ Hh) Hup2) as (lc & w3 & Hl & Hup3 & ->).
  destruct (Succeeds_bind _ _ _ w3 lm Hl Hup3) as (creds & w4 & _ & Hup4 & ->).
  rewrite Hz. cbn [negb]. eexists (mkMachineScope _ _ _ _), w4. split_and!; [reflexivity|done|exact Hd|reflexivity].
Qed.

Local Ltac solve_provisioned Hid := unfold provisioned, setProviderID, domainUUID; cbn; rewrite Hid; cbn; rewrite ?Hid.

(** A run on an object with the finalizer. *)
Lemma healthy_run w lm :
  Up w -> active cluster lm -> protected lm -> mspec_ProviderID (lm_Spec lm) = None ->
  exists res w' lm', reconcileOwned l lm (w, lm) = (Ok res, (w', lm')) /\ Up w' /\
    lm_ObjectMeta lm' = lm_ObjectMeta lm /\ provisioned lm lm'.
Proof.
  intros Hup Hact Hp Hid. destruct (healthy_scope w lm Hup Hact) as (scope & w1 & Hcl & Hup1 & (name & Hname & Hdata) & ->).
  destruct Hact as [Hz Hpaused]. pose proof (healthy_cluster _ _ _ _ Hh) as Hi.
  apply ContainsFinalizer_iff in Hp.
  unfold MachineController.reconcileNormal, reconcileLostDomain, createMissingDomain, startStoppedDomain,
    observeRunningDomain, observeMachineAddress, getCloudInitData, mbind, M_bind, object, update, set_condition,
    call, try, wrap_err, mret, M_ret.
  cbn [fst snd]. rewrite Hcl, (Hpaused _ eq_refl), Hp, Hi. cbn [negb andb fst snd].
  destruct (healthy_state _ _ _ _ Hh (mscope_MachineConfig scope) w1 Hup1) as (st & w2 & Hst & Hin & Hup2).
  rewrite Hst. cbn [fst snd]. rewrite !elem_of_cons, elem_of_nil in Hin.
  destruct Hin as [->|[->|[->|[]]]].
  - rewrite bool_decide_eq_true_2 by done. cbn [fst snd]. cbn. rewrite Hid, Hname. cbn.
    destruct (Hdata w2 Hup2) as (s & w3 & Hs & [data Hv] & Hup3). rewrite Hs, Hv. cbn.
    destruct (healthy_create _ _ _ _ Hh (set_UserData (mscope_MachineConfig scope) data) w3 Hup3)
      as ([] & w4 & Hc & _ & Hup4).
    rewrite Hc. cbn. do 3 eexists. split; [reflexivity|]. split; [done|]. by solve_provisioned Hid.
  - rewrite bool_decide_eq_false_2, bool_decide_eq_true_2 by done. cbn.
    destruct (healthy_start _ _ _ _ Hh (mscope_MachineConfig scope) w2 Hup2) as ([] & w3 & Hs & _ & Hup3).
    rewrite Hs. cbn. do 3 eexists. split; [reflexivity|]. split; [done|]. by solve_provisioned Hid.
  - rewrite !bool_decide_eq_false_2, bool_decide_eq_true_2 by done. cbn.
    destruct (healthy_address _ _ _ _ Hh (mscope_MachineConfig scope) w2 Hup2) as (a & w3 & Ha & _ & Hup3).
    rewrite Ha. cbn. case_bool_decide; do 3 eexists; (split; [reflexivity|]); (split; [done|]); by solve_provisioned Hid.
Qed.

(** A run of [Reconcile] whose body returns stores the object. *)
Lemma healthy_store (Q : LibvirtMachine -> Prop) w lm :
  Up w -> stored_machines w !! k = Some lm ->
  (forall w1, Up w1 -> exists res w2 lm', reconcileOwned l lm (w1, lm) = (Ok res, (w2, lm')) /\ Up w2 /\
     Time_IsZero (meta_DeletionTimestamp (lm_ObjectMeta lm')) = true /\ Q lm') ->
  Up (MachineController.Reconcile l k w).2 /\
  exists lm', stored_machines (MachineController.Reconcile l k w).2 !! k = Some lm' /\ Q lm'.
Proof.
  intros Hup Hk Hbody. destruct (healthy_Get _ _ _ _ Hh _ _ Hup Hk) as (w1 & Hget & Hup1).
  pose proof (keeps_run _ _ _ _ (Get_machine_keeps (obs := stored_machines) k) Hget) as Hs1.
  destruct (healthy_NewHelper _ _ _ _ Hh lm w1 Hup1) as (h & w2 & Hnew & _ & Hup2).
  pose proof (keeps_run _ _ _ _ (NewHelper_machine_keeps (obs := stored_machines) lm) Hnew) as Hs2.
  destruct (Hbody w2 Hup2) as (res & w3 & lm' & Hrun & Hup3 & Hz & HQ).
  pose proof (keeps_run _ _ _ _ (reconcileOwned_keeps l lm) Hrun) as Hs3. cbn [fst] in Hs3.
  destruct (healthy_Patch _ _ _ _ Hh h lm' w3 Hup3) as ([] & w4 & Hp & _ & Hup4).
  destruct (reconcileOwned_run _ _ _ _ _ _ Hrun) as (calls & _ & Hown).
  apply owned_key in Hown as Hkey. rewrite (stored_key _ _ _ Hk) in Hkey.
  unfold MachineController.Reconcile, deferred_patch, mbind, M_bind, try.
  rewrite Hget, Hnew, Hrun. cbn [fst snd]. rewrite Hp. cbn [snd]. split; [done|]. exists lm'. split; [|done].
  apply Patch_machine_law in Hp as (x & _ & Hx & ->).
  - rewrite Hkey, lookup_partial_alter_eq, (Hx eq_refl). unfold persist. by rewrite Hz.
  - rewrite Hkey, (NewHelper_remembers _ _ _ _ Hnew). by rewrite Hs3, Hs2, Hs1.
Qed.

Lemma active_meta lm lm' : active cluster lm ->
  meta_DeletionTimestamp (lm_ObjectMeta lm') = meta_DeletionTimestamp (lm_ObjectMeta lm) ->
  meta_Annotations (lm_ObjectMeta lm') = meta_Annotations (lm_ObjectMeta lm) -> active cluster lm'.
Proof. intros [Hz Hp] Hd Ha. split; [by rewrite Hd|]. intros m Hm. apply Hp. congruence. Qed.

(** A run on an object without the finalizer adds it. *)
Lemma healthy_first_run w lm :
  Up w -> active cluster lm -> ~ protected lm ->
  exists res w' lm', reconcileOwned l lm (w, lm) = (Ok res, (w', lm')) /\ Up w' /\
    lm_ObjectMeta lm' = with_finalizers (lm_ObjectMeta lm)
      (meta_Finalizers (lm_ObjectMeta lm) ++ [LibvirtMachineFinalizer]) /\
    lm_Spec lm' = lm_Spec lm.
Proof.
  intros Hup Hact Hp. destruct (healthy_scope w lm Hup Hact) as (scope & w1 & Hcl & Hup1 & _ & ->).
  destruct Hact as [Hz Hpaused].
  unfold MachineController.reconcileNormal, mbind, M_bind, object, update. cbn [fst snd].
  rewrite Hcl, (Hpaused _ eq_refl), Hz.
  destruct (ContainsFinalizer _ _) eqn:Hf; [by apply ContainsFinalizer_iff in Hf|]. cbn.
  do 3 eexists. split; [reflexivity|]. split; [done|]. cbn. by rewrite AddFinalizer_law, bool_decide_eq_false_2.
Qed.

(** C6: a machine is provisioned.  Suppose its owner Machine and Cluster, the
    LibvirtCluster, loadable credentials and the bootstrap data exist, the Cluster's
    infrastructure is provisioned, the host reports the domain as missing, stopped
    or running (never in an unknown state), and every call succeeds ([healthy]).
    Then a LibvirtMachine that is neither paused nor being deleted and has no
    provider ID is stored as ready and provisioned, with the provider ID made from
    its UID, after at most two runs of its reconciliation: one for the finalizer
    when it is missing, one that creates the domain, starts it or finds it
    running. *)
Theorem machine_converges w lm :
  Up w -> stored_machines w !! k = Some lm -> active cluster lm -> mspec_ProviderID (lm_Spec lm) = None ->
  exists n lm', (1 <= n <= 2)%nat /\
    stored_machines (Nat.iter n (fun w => (MachineController.Reconcile l k w).2) w) !! k = Some lm' /\
    provisioned lm lm'.
Proof.
  intros Hup Hk Hact Hid. destruct (decide (protected lm)) as [Hp|Hp].
  - exists 1%nat. destruct (healthy_store (provisioned lm) w lm Hup Hk) as (_ & lm' & Hk' & Hpr);
      [|exists lm'; split_and!; [lia..|done|done]].
    intros w1 Hup1. destruct (healthy_run w1 lm Hup1 Hact Hp Hid) as (res & w2 & lm' & Hrun & Hup2 & Hm & Hpr).
    exists res, w2, lm'. split_and!; [done..| |done]. rewrite Hm. apply Hact.
  - exists 2%nat. destruct (healthy_store (fun lm1 => lm_ObjectMeta lm1 = with_finalizers (lm_ObjectMeta lm)
      (meta_Finalizers (lm_ObjectMeta lm) ++ [LibvirtMachineFinalizer]) /\ lm_Spec lm1 = lm_Spec lm) w lm Hup Hk)
      as (Hup1 & lm1 & Hk1 & Hm1 & Hs1).
    { intros w1 Hup1. destruct (healthy_first_run w1 lm Hup1 Hact Hp) as (res & w2 & lm' & Hrun & Hup2 & Hm & Hs).
      exists res, w2, lm'. split_and!; [done..| |done|done]. rewrite Hm. apply Hact. }
    assert (active cluster lm1) as Hact1 by (apply (active_meta lm); [done|by rewrite Hm1..]).
    assert (protected lm1) as Hp1 by (unfold protected; rewrite Hm1; apply elem_of_app; right; by left).
    destruct (healthy_store (provisioned lm) _ lm1 Hup1 Hk1) as (_ & lm' & Hk' & Hpr);
      [|exists lm'; split_and!; [lia..|done|done]].
    intros w1 Hup2. destruct (healthy_run w1 lm1 Hup2 Hact1 Hp1) as (res & w2 & lm' & Hrun & Hup3 & Hm & Hpr);
      [by rewrite Hs1|].
    exists res, w2, lm'. split_and!; [done..|rewrite Hm; apply Hact1|].
    unfold provisioned in *. by rewrite Hm1 in Hpr.
Qed.
End Progress.
