(* ===== verification/Orphans.v ===== *)
(** * No orphans on the host

    [no_orphans_interleaved] is about the calls of the provider; here the same is
    said of what the calls leave on the libvirt host: domains, volumes, DHCP reservations.  A
    kind of resource is given by the set of keys that are in use on the host, and
    by the keys a machine's configuration has.  [Footprint] is what the history
    needs to know of a provider, failed calls included: only [CreateMachine] brings
    a key into use, and only the machine's; after a successful [DeleteMachine] none
    of them is in use any more, but for those that the call may spare. *)

From stdpp Require Import base gmap propset list strings relations.
From Stdlib Require Import ZArith.
From S2P Require Import Prelude GoStrings Config Api Kube Credentials ProviderInterface.
From S2P Require Import ClusterController MachineController History Maintains Interleaving.

(** ** The interface *)

(** What is counted on a host: the keys in use, an invariant of the host without
    which the count is not kept, and the keys of a machine. *)
Record Inventory (X K : Type) := mkInventory {
  used : X -> propset K;
  sound : X -> Prop;
  keys : MachineConfig -> propset K;
}.
Arguments mkInventory {X K} _ _ _.
Arguments used {X K} _ _.
Arguments sound {X K} _ _.
Arguments keys {X K} _ _.

(** From [x] to [x'] only keys of [D] came into use. *)
Definition uses {X K} (I : Inventory X K) (D : propset K) (x x' : X) : Prop :=
  sound I x -> sound I x' /\ used I x' ⊆ D ∪ used I x.

#[export] Instance uses_pre {X K} (I : Inventory X K) D : PreOrder (uses I D).
Proof.
  split; [intros x Hx; set_solver|]. intros x y z Hxy Hyz Hx. destruct (Hxy Hx) as [Hy Hu].
  destruct (Hyz Hy) as [Hz Hu']. split; [done|]. set_solver.
Qed.

(** [spared cfg w]: what a call of [DeleteMachine] that begins in [w] may leave in
    use although it succeeds. *)
Class Footprint {W X K : Type} `{!provider W} (obs : W -> X) (I : Inventory X K)
    (spared : MachineConfig -> W -> propset K) : Prop := {
  EnsureInfra_uses cfg w : uses I ∅ (obs w) (obs (EnsureInfra cfg w).2);
  GetMachineState_uses cfg w : uses I ∅ (obs w) (obs (GetMachineState cfg w).2);
  CreateMachine_uses cfg w : uses I (keys I cfg) (obs w) (obs (CreateMachine cfg w).2);
  StartMachine_uses cfg w : uses I ∅ (obs w) (obs (StartMachine cfg w).2);
  DeleteMachine_uses cfg w : uses I ∅ (obs w) (obs (DeleteMachine cfg w).2);
  DeleteMachine_frees cfg w w' :
    sound I (obs w) -> DeleteMachine cfg w = (Ok tt, w') ->
    forall k, k ∈ used I (obs w') -> k ∉ keys I cfg \/ k ∈ keys I cfg /\ k ∈ spared cfg w;
  GetMachineAddress_uses cfg w : uses I ∅ (obs w) (obs (GetMachineAddress cfg w).2);
}.

(** ** What the calls explain *)

Section Explained.
Context {X K : Type} (I : Inventory X K).
Implicit Types (D F : propset K) (k : K).

(** The keys that may be in use after a call, given those before it. *)
Definition after D (c : ProviderCall) : propset K :=
  match c with
  | CallCreateMachine cfg _ => keys I cfg ∪ D
  | CallDeleteMachine cfg (Ok _) => {[ k | k ∈ D /\ k ∉ keys I cfg ]}
  | _ => D
  end.

Lemma after_mono D D' c : D ⊆ D' -> after D c ⊆ after D' c.
Proof. intros HD. destruct c as [| |? r|? r|? r|? r]; try done; cbn; [set_solver|]. destruct r; set_solver. Qed.
Lemma foldl_after_mono cs D D' : D ⊆ D' -> foldl after D cs ⊆ foldl after D' cs.
Proof. revert D D'. induction cs as [|c cs IH]; intros D D' HD; [done|]. cbn. by apply IH, after_mono. Qed.
Lemma foldl_after_union cs D F : foldl after (D ∪ F) cs ⊆ foldl after D cs ∪ F.
Proof.
  revert D. induction cs as [|c cs IH]; intros D; [done|]. cbn. etrans; [|apply IH]. apply foldl_after_mono.
  destruct c as [| |? r|? r|? r|? r]; cbn; try done; [set_solver|]. destruct r; set_solver.
Qed.

(** The call gave the key up. *)
Definition frees k (c : ProviderCall) : Prop :=
  exists cfg, c = CallDeleteMachine cfg (Ok tt) /\ k ∈ keys I cfg.

(** A key was in use before and not given up, or was created and not given up since. *)
Definition explained D (cs : list ProviderCall) k : Prop :=
  (k ∈ D /\ ~ Exists (frees k) cs) \/
  exists before cfg res rest, cs = before ++ CallCreateMachine cfg res :: rest /\
    k ∈ keys I cfg /\ ~ Exists (frees k) rest.

Lemma explained_snoc D cs c k : explained D cs k -> ~ frees k c -> explained D (cs ++ [c]) k.
Proof.
  intros [[HD Hd]|(b & cfg & res & rest & -> & Hname & Hd)] Hc; [left|right].
  - split; [done|]. rewrite Exists_app, Exists_cons, Exists_nil. tauto.
  - exists b, cfg, res, (rest ++ [c]). rewrite <- app_assoc. split_and!; [done..|].
    rewrite Exists_app, Exists_cons, Exists_nil. tauto.
Qed.

Lemma foldl_after_elem cs D k : k ∈ foldl after D cs -> explained D cs k.
Proof.
  induction cs as [|c cs IH] using rev_ind; [left; split; [done|by intros ?%Exists_nil]|].
  rewrite foldl_app. cbn [foldl]. intros Hn.
  destruct c as [ | |cfg r| |cfg r| ]; try (apply explained_snoc; [by apply IH|by intros (? & [=] & _)]).
  - cbn in Hn. apply elem_of_union in Hn as [Hn|Hn]; [right|].
    + exists cs, cfg, r, []. split_and!; [done..|by intros ?%Exists_nil].
    + apply explained_snoc; [by apply IH|by intros (? & [=] & _)].
  - destruct r as [u|e|]; cbn in Hn; [|apply explained_snoc; [by apply IH|by intros (? & [=] & _)]..].
    destruct Hn as [Hn Hne]. apply explained_snoc; [by apply IH|].
    by intros (cfg' & [= <- _] & Hname).
Qed.
End Explained.

(** ** Executions whose calls explain the keys they leave in use *)

(** Through [calls], and what others do, the keys went from those of [x] to those
    of [x']; others use keys of [F]. *)
Definition tracks {X K} (I : Inventory X K) (F : propset K) (x : X) (calls : list ProviderCall) (x' : X) : Prop :=
  sound I x -> sound I x' /\ used I x' ⊆ foldl (after I) (used I x) calls ∪ F.

Section Tracks.
Context {X K : Type} (I : Inventory X K) (F : propset K).
Lemma tracks_uses D x x' calls :
  uses I D x x' -> (forall E, D ∪ E ⊆ foldl (after I) E calls ∪ F) -> tracks I F x calls x'.
Proof. intros Hu Hf Hx. destruct (Hu Hx) as [Hx' Hs]. split; [done|]. by etrans. Qed.
Lemma tracks_mono F' x calls x' : F' ⊆ F -> tracks I F' x calls x' -> tracks I F x calls x'.
Proof. intros HF Ht Hx. destruct (Ht Hx) as [Hx' Hu]. split; [done|]. set_solver. Qed.
Lemma tracks_refl x : tracks I F x [] x.
Proof. intros Hx. split; [done|]. set_solver. Qed.
Lemma tracks_app x y z c1 c2 : tracks I F x c1 y -> tracks I F y c2 z -> tracks I F x (c1 ++ c2) z.
Proof.
  intros Hxy Hyz Hx. destruct (Hxy Hx) as [Hy Hu]. destruct (Hyz Hy) as [Hz Hu']. split; [done|].
  rewrite foldl_app. pose proof (foldl_after_mono I c2 _ _ Hu).
  pose proof (foldl_after_union I c2 (foldl (after I) (used I x) c1) F). set_solver.
Qed.
End Tracks.

Section Orphans.
Context {W : Type} {KL : KubeLib W} {P : provider W}.
Context {GC : Getter W LibvirtCluster} {GM : Getter W LibvirtMachine} {GS : Getter W Secret}.
Context {CU : ClusterAPIUtil W} {PM : Patcher W LibvirtMachine} {PCl : Patcher W LibvirtCluster}.
Context {AV : ApiView (W := W)} {PT : ProviderTrace W}.
Context {KLaws : KubeLibLaws W} {PTLaws : ProviderTraceLaws W} {ALaws : ApiLaws (W := W)} {PMg : PatchMerges (W := W)}.
Context {X K : Type} (obs : W -> X) (I : Inventory X K) (spared : MachineConfig -> W -> propset K).
Context {FP : Footprint obs I spared}.
(** The API server is not the libvirt host. *)
Context {RD : ReadsKeep (W := W) obs}.
Context (Patch_machine_obs : forall h o, Keeps obs (Patch (T := LibvirtMachine) h o)).

(** The keys that the deletions among [calls], begun in [w], spared. *)
Definition spares (w : W) (calls : list ProviderCall) : propset K :=
  {[ k | exists cfg, CallDeleteMachine cfg (Ok tt) ∈ calls /\ k ∈ keys I cfg /\ k ∈ spared cfg w ]}.

(** From [w] to [w'] calls were made that explain the keys in use. *)
Definition tracked (w w' : W) : Prop :=
  exists calls, provider_trace w' = provider_trace w ++ calls /\ tracks I (spares w calls) (obs w) calls (obs w').

Lemma tracked_keeps {A} (m : M W A) : Keeps provider_trace m -> Keeps obs m -> forall w, tracked w (m w).2.
Proof. intros Ht Ho w. exists []. rewrite app_nil_r, (Ho w). split; [apply Ht|apply tracks_refl]. Qed.
Lemma tracked_records {A} c (m : M W A) :
  Records c m -> (forall w, tracks I (spares w [c (m w).1]) (obs w) [c (m w).1] (obs (m w).2)) ->
  forall w, tracked w (m w).2.
Proof. intros Hm Hd w. exists [c (m w).1]. split; [apply Hm|]. apply Hd. Qed.

#[local] Instance tracked_reads log : ReadsMaintain (W := Shared W) (logged tracked log).
Proof. split; intros; apply interleaved_logged, tracked_keeps;
  first [ keeps_law | exact (NewHelper_machine_keeps _) | exact (NewHelper_cluster_keeps _) ]. Qed.
#[local] Instance tracked_provider log : ProviderMaintains (W := Shared W) (logged tracked log).
Proof.
  split; intros cfg; apply interleaved_logged; (eapply tracked_records;
    [first [ apply EnsureInfra_records | apply GetMachineState_records | apply CreateMachine_records
           | apply StartMachine_records | apply DeleteMachine_records | apply GetMachineAddress_records ]|]).
  1,2,4,6: intros w; eapply tracks_uses; [first [ apply EnsureInfra_uses | apply GetMachineState_uses
             | apply StartMachine_uses | apply GetMachineAddress_uses ]|intros E; cbn; set_solver].
  - intros w. eapply tracks_uses; [apply CreateMachine_uses|]. intros E. cbn. set_solver.
  - intros w Hw. destruct (DeleteMachine_uses cfg w Hw) as [Hs Hd]. pose proof (DeleteMachine_frees cfg w) as Hu.
    destruct (DeleteMachine cfg w) as [[[]|e|] w1]; cbn in *; (split; [done|]); [|set_solver..].
    intros k Hk. apply elem_of_union. destruct (Hu w1 Hw eq_refl k Hk) as [Hni|Hin]; [left; set_solver|right].
    exists cfg. split; [by left|done].
Qed.

Lemma tracked_patch log h o : Maintains (logged tracked log) (Patch (W := Shared W) (T := LibvirtMachine) h o).
Proof.
  refine (interleaved_logged tracked log (Patch (W := W) (T := LibvirtMachine) h o) _). apply tracked_keeps; [apply Patch_machine_trace|apply Patch_machine_obs].
Qed.

(** Others keep to the rules of History and bring keys from [F] into use only. *)
Definition outside_uses (F : propset K) (w w' : W) : Prop := env_step w w' /\ uses I F (obs w) (obs w').

(** The keys that some deletion in the execution spared. *)
Definition left_by (tr : list (Actor * (W * W))) : propset K :=
  {[ k | exists a u u', (a, (u, u')) ∈ tr /\ k ∈ spares u (calls_of (u, u')) ]}.

Lemma host_tracked F l jobs w tr w' :
  execution (outside_uses F) l jobs w tr w' ->
  exists calls, provider_trace w' = provider_trace w ++ calls /\ tracks I (F ∪ left_by tr) (obs w) calls (obs w').
Proof.
  intros Hex. assert (forall a u u', (a, (u, u')) ∈ tr ->
    exists calls, provider_trace u' = provider_trace u ++ calls /\ tracks I (F ∪ left_by tr) (obs u) calls (obs u')) as Hall.
  { intros [i|] u u' Hin.
    - destruct (worker_step tracked tracked_patch _ _ _ _ _ _ _ _ _ Hex Hin) as (calls & Ht & Hc).
      exists calls. split; [done|]. eapply tracks_mono, Hc. intros k Hk. apply elem_of_union. right.
      exists (Worker i), u, u'. split; [done|]. by rewrite (calls_of_grown _ _ _ Ht).
    - destruct (ex_outside _ _ _ _ _ _ Hex _ _ Hin) as [[Ht _] Hu]. exists []. rewrite app_nil_r. split; [done|].
      eapply tracks_uses; [done|]. intros E. cbn. set_solver. }
  pose proof (ex_chained _ _ _ _ _ _ Hex) as Hc. clear Hex. revert w Hc. generalize (F ∪ left_by tr) as G, Hall.
  clear Hall. induction tr as [|[a [u u']] tr IH]; intros G Hall w Hc; cbn in Hc.
  { subst. exists []. rewrite app_nil_r. split; [done|apply tracks_refl]. }
  destruct Hc as [-> Hc]. destruct (Hall a w u') as (c1 & Ht1 & Hc1); [by left|].
  destruct (IH G) with (w := u') as (c2 & Ht2 & Hc2); [intros b v v' Hin; apply (Hall b); by right|done|].
  exists (c1 ++ c2). rewrite Ht2, Ht1, app_assoc. split; [done|]. by eapply tracks_app.
Qed.

(** A key in use is an old one or one of others, or a deletion spared it, or it
    belongs to a machine whose object is stored with the finalizer, or to one that
    was deleted under a configuration that the key is not of. *)
Lemma host_orphans F l jobs w tr w' k :
  provider_trace w = [] -> sound I (obs w) -> execution (outside_uses F) l jobs w tr w' -> k ∈ used I (obs w') ->
  k ∈ used I (obs w) \/ k ∈ F \/ k ∈ left_by tr \/
  exists cfg res, CallCreateMachine cfg res ∈ provider_trace w' /\ k ∈ keys I cfg /\
    (held w' (cfg_DomainName cfg) \/
     exists cfg', CallDeleteMachine cfg' (Ok tt) ∈ provider_trace w' /\
       cfg_DomainName cfg' = cfg_DomainName cfg /\ k ∉ keys I cfg').
Proof.
  intros Hinit Hw Hex Hn. assert (accounted w') as Ha by (eapply execution_accounted; [|done|exact Hex]; by intros ?? []).
  destruct (host_tracked _ _ _ _ _ _ Hex) as (calls & Htr & Hd). rewrite Hinit in Htr. cbn in Htr.
  apply (proj2 (Hd Hw)), elem_of_union in Hn as [Hn|Hn]; [|apply elem_of_union in Hn; tauto].
  destruct (foldl_after_elem _ _ _ _ Hn) as [[HD _]|(before & cfg & res & rest & Hc & Hkey & Hno)]; [by left|].
  do 3 right. exists cfg, res. rewrite Hc in Htr. rewrite Htr, elem_of_app, elem_of_cons. split_and!; [by right; left|done|].
  destruct (Ha _ _ _ _ Htr) as [Hheld|(c & Hin & cfg' & -> & Hname)%Exists_exists]; [by left|right].
  exists cfg'. split_and!; [|done|].
  - rewrite elem_of_app, elem_of_cons. by right; right.
  - intros Hkey'. apply Hno, Exists_exists. eexists. split; [exact Hin|]. by exists cfg'.
Qed.
End Orphans.
