(* ===== verification/RefKube.v ===== *)
(** * A reference API server, and the controllers run on it

    A small implementation of the Kubernetes operations the controllers use: the
    stored objects are finite maps, the libraries do what their documentation
    says.  It shows that the laws of [Kube] and [ProviderInterface] can hold
    together, and gives the controllers' theorems concrete runs: the provider is
    the mock of mock_provider.go. *)

From stdpp Require Import base gmap list strings.
From Stdlib Require Import ZArith Lia.
From S2P Require Import Prelude GoStrings Config Api Kube Credentials ProviderInterface.
From S2P Require Import ClusterController MachineController.

Local Open Scope Z_scope.

(** ** Library functions *)

Definition ref_stamp (c : Condition) : Condition :=
  mkCondition (cond_Type c) (cond_Status c) (cond_Reason c) (cond_Message c) (Some 1).
Fixpoint ref_set (cs : list Condition) (c : Condition) : list Condition :=
  match cs with
  | [] => [ref_stamp c]
  | x :: rest => if bool_decide (cond_Type x = cond_Type c) then ref_stamp c :: rest else x :: ref_set rest c
  end.

#[global] Instance RefKubeLib (W : Type) : KubeLib W := {
  ContainsFinalizer m f := bool_decide (f ∈ meta_Finalizers m);
  AddFinalizer m f :=
    if bool_decide (f ∈ meta_Finalizers m) then m else with_finalizers m (meta_Finalizers m ++ [f]);
  RemoveFinalizer m f :=
    (with_finalizers m (filter (.≠ f) (meta_Finalizers m)), bool_decide (f ∈ meta_Finalizers m));
  annotations_IsPaused c m :=
    bool_decide (cluster_Paused c = Some true) ||
    bool_decide (is_Some (meta_Annotations m !! "cluster.x-k8s.io/paused"));
  APIEndpoint_IsValid e := negb (bool_decide (endpoint_Host e = "")) && negb (endpoint_Port e =? 0);
  conditions_Set _ cs c := ref_set cs c;
}.

Lemma ref_set_types cs c :
  map cond_Type (ref_set cs c) = map cond_Type cs \/
  cond_Type c ∉ map cond_Type cs /\ map cond_Type (ref_set cs c) = map cond_Type cs ++ [cond_Type c].
Proof.
  induction cs as [|x cs IH]; cbn; [right; by split; [apply not_elem_of_nil|]|].
  case_bool_decide as Hx; cbn; [left; by rewrite Hx|].
  destruct IH as [IH|[Hni IH]]; [left|right]; rewrite IH; [done|]. split; [|done].
  rewrite not_elem_of_cons. split; [congruence|done].
Qed.

Lemma ref_set_same cs c :
  condition_of (cond_Type c) (ref_set cs c) = Some (cond_Status c, cond_Reason c, cond_Message c).
Proof.
  unfold condition_of. induction cs as [|x cs IH]; cbn; [by rewrite bool_decide_eq_true_2|].
  case_bool_decide as Hx; cbn; [by rewrite bool_decide_eq_true_2|]. by rewrite bool_decide_eq_false_2.
Qed.

Lemma ref_set_other cs c t : t <> cond_Type c -> condition_of t (ref_set cs c) = condition_of t cs.
Proof.
  intros Ht. unfold condition_of. induction cs as [|x cs IH]; cbn.
  - rewrite bool_decide_eq_false_2 by (cbn; congruence). done.
  - case_bool_decide as Hx; cbn; [|case_bool_decide; [done|exact IH]].
    rewrite (bool_decide_eq_false_2 (cond_Type c = t)) by congruence.
    by rewrite bool_decide_eq_false_2 by congruence.
Qed.

Lemma ref_set_elem cs c x :
  x ∈ ref_set cs c -> x ∈ cs \/
  cond_Type x = cond_Type c /\ cond_Status x = cond_Status c /\ cond_Reason x = cond_Reason c /\
  cond_Message x = cond_Message c /\
  (Forall (fun y => is_Some (cond_LastTransitionTime y)) cs -> is_Some (cond_LastTransitionTime x)).
Proof.
  assert (is_Some (cond_LastTransitionTime (ref_stamp c))) as Hstamp by (by eexists).
  induction cs as [|y cs IH]; cbn [ref_set]; [intros ->%list_elem_of_singleton; by right|].
  case_bool_decide; rewrite !elem_of_cons.
  - intros [->|Hin]; [by right|by auto].
  - intros [->|[Hin|(? & ? & ? & ? & Ht)]%IH]; [by auto..|]. right. split_and!; [done..|].
    intros [_ Hall]%Forall_cons. by apply Ht.
Qed.

#[global] Instance RefKubeLib_laws (W : Type) : KubeLibLaws W.
Proof.
  split; cbn.
  - intros m f. apply bool_decide_eq_true.
  - done.
  - done.
  - intros c m ->. done.
  - intros e. rewrite andb_true_iff, !negb_true_iff, bool_decide_eq_false, Z.eqb_neq. done.
  - intros _. apply ref_set_same.
  - intros _ cs c Hnd. destruct (ref_set_types cs c) as [->|[Hni ->]]; [done|].
    apply NoDup_app. split_and!; [done|set_solver|apply NoDup_singleton].
  - intros _ cs c t _ Ht. by apply ref_set_other.
  - intros _ cs c x. apply ref_set_elem.
Qed.

(** ** The world *)

Record RefWorld := mkRefWorld {
  rw_clusters : gmap NamespacedName LibvirtCluster;
  rw_machines : gmap NamespacedName LibvirtMachine;
  rw_secrets : gmap NamespacedName Secret;
  rw_cluster : option Cluster;
  rw_machine : option Machine;
  rw_provider : MockProvider;
}.

Definition ref_get {T} (m : RefWorld -> gmap NamespacedName T) (k : NamespacedName) : M RefWorld T := fun w =>
  match m w !! k with
  | Some x => (Ok x, w)
  | None => (Err (StatusError true (NamespacedName_String k +:+ " not found")), w)
  end.
#[global] Instance RefWorld_clusters : Getter RefWorld LibvirtCluster := ref_get rw_clusters.
(** The LibvirtMachines stored under their own names. *)
Definition ref_machines (w : RefWorld) : gmap NamespacedName LibvirtMachine :=
  filter (fun kv => ObjectKeyFromObject kv.2 = kv.1) (rw_machines w).
#[global] Instance RefWorld_machines : Getter RefWorld LibvirtMachine := ref_get ref_machines.
#[global] Instance RefWorld_secrets : Getter RefWorld Secret := ref_get rw_secrets.

Definition ref_matches (lc : LibvirtCluster) (o : ListOption) : bool :=
  match o with
  | InNamespace ns => bool_decide (ns = "" \/ meta_Namespace (lc_ObjectMeta lc) = ns)
  | MatchingFields field value =>
      negb (bool_decide (field = credentialsRefNameField)) || bool_decide (value ∈ credentialsRefName lc)
  end.
Definition ref_all (w : RefWorld) : list LibvirtCluster := (map_to_list (rw_clusters w)).*2.
#[global] Instance RefWorld_stored : StoredClusters RefWorld := ref_all.
#[global] Instance RefWorld_list : Lister RefWorld LibvirtCluster := fun opts w =>
  (Ok (List.filter (fun lc => forallb (ref_matches lc) opts) (ref_all w)), w).

#[global] Instance RefWorld_list_laws : ClusterListLaws RefWorld.
Proof.
  split. intros opts w items w' [= <- <-] lc.
  rewrite !list_elem_of_In, filter_In, forallb_forall, <- !list_elem_of_In.
  unfold stored_clusters, RefWorld_stored. rewrite Forall_forall. f_equiv.
  split; intros Hall o Ho; [apply list_elem_of_In in Ho|apply list_elem_of_In in Ho]; specialize (Hall o Ho);
    destruct o as [ns|field value]; cbn in *.
  - by apply bool_decide_eq_true in Hall.
  - intros ->. by rewrite bool_decide_eq_true_2, orb_false_l, bool_decide_eq_true in Hall.
  - by apply bool_decide_eq_true.
  - case_bool_decide; cbn; [|done]. apply bool_decide_eq_true. auto.
Qed.

(** The mock provider inside the world. *)
Definition on_provider {A} (m : M MockProvider A) : M RefWorld A := fun w =>
  let '(r, p) := m (rw_provider w) in
  (r, mkRefWorld (rw_clusters w) (rw_machines w) (rw_secrets w) (rw_cluster w) (rw_machine w) p).
#[global] Instance RefWorld_provider : provider RefWorld := {
  EnsureInfra cfg := on_provider (EnsureInfra cfg);
  GetMachineState cfg := on_provider (GetMachineState cfg);
  CreateMachine cfg := on_provider (CreateMachine cfg);
  StartMachine cfg := on_provider (StartMachine cfg);
  DeleteMachine cfg := on_provider (DeleteMachine cfg);
  GetMachineAddress cfg := on_provider (GetMachineAddress cfg);
}.
