(* ===== verification/Witnesses.v ===== *)
(** * Concrete runs of the controllers

    Each lemma applies one of the controllers' theorems to a run on the reference
    API server with the mock provider. *)

From stdpp Require Import base gmap list strings.
From Stdlib Require Import ZArith Lia Ascii.
From S2P Require Import Prelude GoStrings Config Api Kube Credentials ProviderInterface.
From S2P Require Import ClusterController MachineController RefKube.

Local Open Scope Z_scope.

Definition example_meta (name uid : string) (finalizers : list string) : ObjectMeta :=
  mkObjectMeta name "default" uid None finalizers ∅ ∅ [].

Definition example_Cluster : Cluster :=
  mkCluster (example_meta "c1" "u-cluster" []) None (mkAPIEndpoint "192.168.122.10" 6443) "lc1" (Some true).
Definition example_Machine : Machine := mkMachine (example_meta "m1" "u-machine" []) (Some "m1-bootstrap").

Definition example_LibvirtCluster : LibvirtCluster :=
  mkLibvirtCluster (example_meta "lc1" "u-lc" [LibvirtClusterFinalizer])
    (mkLibvirtClusterSpec "qemu+tls://host/system" (mkAPIEndpoint "" 0) "base" "vms" "default"
       (Some (mkCredentialsReference "creds")))
    (mkLibvirtClusterStatus false false []).

Definition example_LibvirtMachine (id : option string) : LibvirtMachine :=
  mkLibvirtMachine (example_meta "m1.example" "3f1c0a52-6b3e-4c51-9a0e-8d7f4e2b1c90" [LibvirtMachineFinalizer])
    (mkLibvirtMachineSpec id 2 2048 20 "jammy.qcow2")
    (mkLibvirtMachineStatus false [] [] false).

Definition example_creds : Secret :=
  mkSecret (example_meta "creds" "u-s" [])
    (list_to_map [("ca.crt", "CA"); ("tls.crt", "CERT"); ("tls.key", "KEY")]).
Definition example_bootstrap : Secret :=
  mkSecret (example_meta "m1-bootstrap" "u-b" []) {[ "value" := "#cloud-config" ]}.

Definition example_mock (state : DomainState) : MockProvider :=
  mkMock None None None None None "192.168.122.50" None state None None.

Definition example_world (p : MockProvider) : Traced RefWorld :=
  (mkRefWorld {[ mkNN "default" "lc1" := example_LibvirtCluster ]} ∅
     (list_to_map [(mkNN "default" "creds", example_creds); (mkNN "default" "m1-bootstrap", example_bootstrap)])
     (Some example_Cluster) (Some example_Machine) p, []).

Definition example_loader : CredentialsLoader := mkLoader (mkNN "capl-system" "libvirt-credentials").
Definition example_cscope : ClusterScope := mkClusterScope example_Cluster (newInfraConfig example_LibvirtCluster).
Definition example_mscope (id : option string) : MachineScope :=
  mkMachineScope example_Cluster example_Machine example_LibvirtCluster
    (newMachineConfig (example_LibvirtMachine id) example_LibvirtCluster).

Lemma run_eta {A B C} (x : A * (B * C)) : x = (x.1, (x.2.1, x.2.2)).
Proof. by destruct x as [? []]. Qed.

(** ** Credentials *)

(** Next to the cluster that names its Secret, one that names none. *)
Definition plain_LibvirtCluster : LibvirtCluster :=
  mkLibvirtCluster (example_meta "lc2" "u-lc2" [])
    (mkLibvirtClusterSpec "qemu+tls://host/system" (mkAPIEndpoint "" 0) "base" "vms" "default" None)
    (mkLibvirtClusterStatus false false []).
Definition two_clusters : RefWorld :=
  mkRefWorld (list_to_map [(mkNN "default" "lc1", example_LibvirtCluster); (mkNN "default" "lc2", plain_LibvirtCluster)])
    ∅ ∅ None None (example_mock "").
Definition default_creds : Secret :=
  mkSecret (mkObjectMeta "libvirt-credentials" "capl-system" "u-d" None [] ∅ ∅ []) ∅.
Definition woken (secret : Secret) : list NamespacedName :=
  match (secretToLibvirtClusters example_loader secret two_clusters).1 with Ok reqs => reqs | _ => [] end.
Lemma woken_run secret :
  secretToLibvirtClusters example_loader secret two_clusters = (Ok (woken secret), two_clusters).
Proof. reflexivity. Qed.
Lemma two_clusters_stored : stored_clusters two_clusters = [example_LibvirtCluster; plain_LibvirtCluster].
Proof. vm_compute. reflexivity. Qed.
#[local] Opaque woken two_clusters.

(** Its own Secret wakes the first cluster, and only one that reads it; the
    controller-wide one wakes the other, which reads it, and the first, which does
    not. *)
Lemma secretToLibvirtClusters_witness :
  ObjectKeyFromObject example_LibvirtCluster ∈ woken example_creds /\
  ObjectKeyFromObject plain_LibvirtCluster ∉ woken example_creds /\
  (forall lc, lc ∈ [example_LibvirtCluster; plain_LibvirtCluster] -> ObjectKeyFromObject lc ∈ woken default_creds).
Proof.
  destruct (secretToLibvirtClusters_spec (W := RefWorld) example_loader example_creds two_clusters
              (woken example_creds) two_clusters) as (Hown & Hother & _); [discriminate|intros; reflexivity|apply woken_run|].
  destruct (secretToLibvirtClusters_spec (W := RefWorld) example_loader default_creds two_clusters
              (woken default_creds) two_clusters) as (_ & _ & Hall); [discriminate|intros; reflexivity|apply woken_run|].
  rewrite two_clusters_stored in Hown, Hother, Hall.
  split_and!.
  - exact (Hown example_LibvirtCluster (list_elem_of_here _ _) eq_refl).
  - intros Hin. destruct (Hother ltac:(discriminate) _ Hin) as (lc & Hlc & Hk & Hc).
    rewrite !elem_of_cons, elem_of_nil in Hlc. destruct Hlc as [->|[->|[]]]; discriminate.
  - intros lc Hlc. apply (Hall eq_refl). exists lc. split; [exact Hlc|reflexivity].
Defined.

(** ** The cluster controller *)

Definition cluster_run := ClusterController.reconcileNormal (W := Traced RefWorld)
  example_loader example_cscope (example_world (example_mock ""), example_LibvirtCluster).

Lemma cluster_ready_sound_witness :
  cstatus_Ready (lc_Status cluster_run.2.2) = true /\
  exists creds, provider_trace cluster_run.2.1 =
    [CallEnsureInfra (set_Credentials (scope_InfraConfig example_cscope) creds) (Ok tt)].
Proof.
  destruct (cluster_ready_sound example_loader example_cscope (example_world (example_mock ""))
              example_LibvirtCluster cluster_run.1 cluster_run.2.1 cluster_run.2.2 (run_eta cluster_run))
    as (calls & Htr & _ & _ & _ & Hok).
  assert (exists creds, calls = [CallEnsureInfra (set_Credentials (scope_InfraConfig example_cscope) creds) (Ok tt)])
    as [creds Hc].
  { exists (Some (mkCredentials (Some (mkTLS "CA" "CERT" "KEY")) None)). vm_compute in Htr. vm_compute.
    by symmetry. }
  split; [by apply (Hok _ Hc)|]. exists creds. rewrite Htr, Hc. reflexivity.
Defined.

Definition no_creds_world : Traced RefWorld :=
  (mkRefWorld ∅ ∅ ∅ (Some example_Cluster) (Some example_Machine) (example_mock ""), []).

Lemma cluster_failure_reported_witness :
  infra_condition (ClusterController.reconcileNormal (W := Traced RefWorld) example_loader example_cscope
                     (no_creds_world, example_LibvirtCluster)).2.2
  = Some (ConditionFalse, CredentialsUnavailableReason,
          "get credentials secret default/creds: default/creds not found").
Proof.
  pose proof (cluster_failure_reported example_loader example_cscope no_creds_world example_LibvirtCluster
                (NoDup_nil_2) eq_refl (list_elem_of_here _ _)) as H.
  destruct (ClusterController.reconcileNormal _ _ _) as [r [w' lc']] in H |- *. cbn [snd].
  destruct H as [_ H]. destruct (H eq_refl) as [HL _].
  destruct (HL (WrapError "get credentials secret default/creds" (StatusError true "default/creds not found"))
              no_creds_world eq_refl) as (_ & _ & Hc & _).
  exact Hc.
Defined.

Definition fresh_LibvirtCluster : LibvirtCluster :=
  SetObjectMeta example_LibvirtCluster (example_meta "lc1" "u-lc" []).
Definition fresh_cluster_run := ClusterController.reconcileNormal (W := Traced RefWorld)
  example_loader example_cscope (example_world (example_mock ""), fresh_LibvirtCluster).

Lemma cluster_reconcile_frame_witness :
  lc_Status fresh_cluster_run.2.2 = lc_Status fresh_LibvirtCluster.
Proof.
  destruct (cluster_reconcile_frame example_loader example_cscope (example_world (example_mock ""))
              fresh_LibvirtCluster fresh_cluster_run.1 fresh_cluster_run.2.1 fresh_cluster_run.2.2 (run_eta fresh_cluster_run)) as (_ & _ & H).
  apply H. apply not_elem_of_nil.
Defined.

Definition cluster_delete_run := ClusterController.reconcileDelete (W := Traced RefWorld)
  example_cscope (example_world (example_mock ""), example_LibvirtCluster).

Lemma cluster_delete_spec_witness : is_ok cluster_delete_run.1 = true.
Proof.
  destruct (cluster_delete_spec (W := Traced RefWorld) (KubeLib0 := RefKubeLib _) example_cscope (example_world (example_mock "")) example_LibvirtCluster
              cluster_delete_run.1 cluster_delete_run.2.1 cluster_delete_run.2.2 (run_eta cluster_delete_run)) as (_ & _ & _ & _ & _ & H).
  apply H. apply list_elem_of_here.
Defined.

(** ** The machine controller *)

Lemma domainName_dns_label_witness : dns_label (domainName (example_LibvirtMachine None)).
Proof.
  apply domainName_dns_label.
  - split; [vm_compute; by split|]. split; [|split].
    + repeat (apply Forall_cons; split; [left; left; vm_compute; by split|]). constructor.
    + intros c [= <-]. left. vm_compute. by split.
    + intros c [= <-]. left. vm_compute. by split.
  - repeat (apply Forall_cons; split;
            [first [right; reflexivity|left; left; left; vm_compute; by split|left; left; right; vm_compute; by split]|]).
    constructor.
Defined.

(** A new machine whose domain does not exist yet. *)
Definition create_run := MachineController.reconcileNormal (W := Traced RefWorld)
  (example_mscope None) (example_world (example_mock DomainStateNotFound), example_LibvirtMachine None).

Definition create_cfg : MachineConfig := mscope_MachineConfig (example_mscope None).
Lemma create_trace : provider_trace create_run.2.1 =
  [CallGetMachineState create_cfg (Ok DomainStateNotFound);
   CallCreateMachine (set_UserData create_cfg "#cloud-config") (Ok tt)].
Proof. vm_compute. reflexivity. Qed.
Lemma create_trace_new : provider_trace create_run.2.1 =
  provider_trace (example_world (example_mock DomainStateNotFound)) ++ provider_trace create_run.2.1.
Proof. symmetry. apply app_nil_l. Qed.
Lemma create_result : create_run.1 = Ok noRequeue.
Proof. vm_compute. reflexivity. Qed.

Lemma reconcileNormal_refines_witness :
  exists calls, provider_trace create_run.2.1 = calls /\
    normal_run (W := Traced RefWorld) (example_mscope None) (example_LibvirtMachine None) calls create_run.1
      (machine_view create_run.2.2).
Proof.
  destruct (reconcileNormal_refines (example_mscope None)
              (example_world (example_mock DomainStateNotFound)) (example_LibvirtMachine None) create_run.1 create_run.2.1 create_run.2.2 eq_refl (run_eta create_run))
    as (_ & calls & Htr & Hrun).
  exists calls. split; [|exact Hrun]. rewrite Htr. reflexivity.
Defined.

Lemma machine_create_guard_witness :
  exists secret w1 w2, Get (W := Traced RefWorld) (mkNN "default" "m1-bootstrap") w1 = (Ok secret, w2) /\
    secret_Data secret !! "value" = Some "#cloud-config".
Proof.
  destruct (machine_create_guard (example_mscope None) (example_world (example_mock DomainStateNotFound)) (example_LibvirtMachine None) create_run.1 create_run.2.1 create_run.2.2
              (provider_trace create_run.2.1)
              (set_UserData (mscope_MachineConfig (example_mscope None)) "#cloud-config") (Ok tt)
              eq_refl (run_eta create_run) create_trace_new)
    as (_ & _ & name & w1 & w2 & secret & data & Hname & HG & Hv & Hcfg & _).
  - rewrite create_trace. apply list_elem_of_further, list_elem_of_here.
  - exists secret, w1, w2. injection Hname as <-. split; [exact HG|]. rewrite Hv.
    apply (f_equal cfg_UserData) in Hcfg. cbn in Hcfg. by rewrite Hcfg.
Defined.

Lemma machine_identity_stable_witness :
  mspec_ProviderID (lm_Spec create_run.2.2) = Some "libvirt://3f1c0a52-6b3e-4c51-9a0e-8d7f4e2b1c90" /\
  domainUUID create_run.2.2 = "3f1c0a52-6b3e-4c51-9a0e-8d7f4e2b1c90".
Proof.
  destruct (machine_identity_stable (example_mscope None)
              (example_world (example_mock DomainStateNotFound)) (example_LibvirtMachine None) create_run.1 create_run.2.1 create_run.2.2 eq_refl (run_eta create_run))
    as (_ & _ & Huuid & _).
  split; [vm_compute; reflexivity|]. rewrite Huuid. reflexivity.
Defined.

Lemma machine_ready_sound_witness : mstatus_Ready (lm_Status create_run.2.2) = true.
Proof.
  destruct (machine_ready_sound (example_mscope None)
              (example_world (example_mock DomainStateNotFound)) (example_LibvirtMachine None) create_run.1 create_run.2.1 create_run.2.2 (provider_trace create_run.2.1)
              eq_refl (run_eta create_run) create_trace_new) as (_ & H).
  apply H. rewrite create_trace. reflexivity.
Defined.

Lemma machine_requeue_spec_witness :
  exists cfg, last (provider_trace create_run.2.1) = Some (CallCreateMachine cfg (Ok tt)).
Proof.
  destruct (machine_requeue_spec (example_mscope None)
              (example_world (example_mock DomainStateNotFound)) (example_LibvirtMachine None) create_run.1 create_run.2.1 create_run.2.2 (provider_trace create_run.2.1)
              eq_refl (run_eta create_run) create_trace_new create_result) as [[H _]|[H|(cfg & state & H & _)]].
  - rewrite create_trace in H. discriminate H.
  - exact H.
  - rewrite create_trace in H. discriminate H.
Defined.

(** A provisioned machine whose domain was deleted on the host. *)
Definition lost_machine : LibvirtMachine := example_LibvirtMachine (Some "libvirt://u1").
Lemma machine_lost_domain_witness :
  exists w1 lm', MachineController.reconcileNormal (W := Traced RefWorld) (example_mscope (Some "libvirt://u1"))
    (example_world (example_mock DomainStateNotFound), lost_machine)
    = (Ok (mkResult (60 * Second)), (w1, lm')) /\ mspec_ProviderID (lm_Spec lm') = Some "libvirt://u1".
Proof.
  destruct (machine_lost_domain (example_mscope (Some "libvirt://u1"))
              (example_world (example_mock DomainStateNotFound)) lost_machine
              ((example_world (example_mock DomainStateNotFound)).1,
               [CallGetMachineState (mscope_MachineConfig (example_mscope (Some "libvirt://u1")))
                  (Ok DomainStateNotFound)]) "libvirt://u1") as (lm' & Hrun & Hview & _).
  - split; [reflexivity|]. split; [apply list_elem_of_here|reflexivity].
  - reflexivity.
  - reflexivity.
  - eexists _, lm'. split; [exact Hrun|]. apply (f_equal view_ProviderID) in Hview. exact Hview.
Defined.

Lemma machine_delete_spec_witness :
  (MachineController.reconcileDelete (W := Traced RefWorld) (example_mscope None)
     (example_world (example_mock DomainStateRunning), example_LibvirtMachine None)).1 = Ok noRequeue.
Proof.
  destruct (machine_delete_spec (W := Traced RefWorld) (example_mscope None)
              (example_world (example_mock DomainStateRunning)) (example_LibvirtMachine None))
    as (lm' & _ & _ & _ & _ & H).
  apply H. apply list_elem_of_here.
Defined.
