(* ===== verification/RefApi.v ===== *)
(** * Histories on the reference API server

    The owner lookups and the patch helper on the reference world of RefKube, the
    laws of [ApiLaws] and [PatchMerges] for it, and concrete histories for the
    theorems of History, Interleaving, Progress and Schema. *)

From stdpp Require Import base gmap list strings relations.
From Stdlib Require Import ZArith Lia.
From S2P Require Import Prelude GoStrings Config Api Kube Credentials ProviderInterface.
From S2P Require Import ClusterController MachineController History Pattern Schema Maintains Interleaving Progress RefKube Witnesses.

Local Open Scope Z_scope.

(** ** Owner lookups and patches *)

#[global] Instance RefWorld_util : ClusterAPIUtil RefWorld := {
  GetOwnerCluster _ := fun w => (Ok (rw_cluster w), w);
  GetOwnerMachine _ := fun w => (Ok (rw_machine w), w);
  GetClusterFromMetadata _ := fun w => (Ok (rw_cluster w), w);
}.

(** A helper is the object it was created with; a patch stores the new one, with the
    finalizers and the provider ID that are stored if the run did not change its own. *)
Definition merge_field {A} `{!EqDecision A} (old new cur : A) : A := if decide (new = old) then cur else new.
Definition merged (h o cur : LibvirtMachine) : LibvirtMachine :=
  let o' := SetObjectMeta o (with_finalizers (lm_ObjectMeta o)
              (merge_field (meta_Finalizers (lm_ObjectMeta h)) (meta_Finalizers (lm_ObjectMeta o))
                 (meta_Finalizers (lm_ObjectMeta cur)))) in
  set_mProviderID (merge_field (mspec_ProviderID (lm_Spec h)) (mspec_ProviderID (lm_Spec o))
                     (mspec_ProviderID (lm_Spec cur))) o'.
#[global] Instance RefWorld_patch_machine : Patcher RefWorld LibvirtMachine := {
  Helper := LibvirtMachine;
  NewHelper o := fun w => (Ok o, w);
  Patch h o := fun w =>
    (Ok tt, mkRefWorld (rw_clusters w)
              (partial_alter (fun old => old ≫= fun cur => persist (merged h o cur)) (ObjectKeyFromObject o) (rw_machines w))
              (rw_secrets w) (rw_cluster w) (rw_machine w) (rw_provider w));
}.
#[global] Instance RefWorld_patch_cluster : Patcher RefWorld LibvirtCluster := {
  Helper := LibvirtCluster;
  NewHelper o := fun w => (Ok o, w);
  Patch _ o := fun w =>
    (Ok tt, mkRefWorld (<[ObjectKeyFromObject o := o]> (rw_clusters w)) (rw_machines w)
              (rw_secrets w) (rw_cluster w) (rw_machine w) (rw_provider w));
}.

Section TracedApi.
Context {W : Type}.
#[global] Instance Traced_util `{!ClusterAPIUtil W} : ClusterAPIUtil (Traced W) := {
  GetOwnerCluster m := call (GetOwnerCluster m);
  GetOwnerMachine m := call (GetOwnerMachine m);
  GetClusterFromMetadata m := call (GetClusterFromMetadata m);
}.
#[global] Instance Traced_Patcher `{!Patcher W T} : Patcher (Traced W) T := {
  Helper := Helper (W := W) (T := T);
  NewHelper o := call (NewHelper o);
  Patch h o := call (Patch h o);
}.
End TracedApi.

(** ** The laws *)

#[global] Instance RefApi_view : ApiView (W := Traced RefWorld) := {
  stored_machines w := ref_machines w.1;
  helper_object h := h;
}.

Lemma ref_get_keeps {T X} (m : RefWorld -> gmap NamespacedName T) (obs : RefWorld -> X) k : Keeps obs (ref_get m k).
Proof. intros w. unfold ref_get. by destruct (m w !! k). Qed.

Lemma RefApi_reads {X} (obs : Traced RefWorld -> X) :
  (forall cs w t, obs (mkRefWorld cs (rw_machines w) (rw_secrets w) (rw_cluster w) (rw_machine w)
                         (rw_provider w), t) = obs (w, t)) ->
  ReadsKeep obs.
Proof.
  intros Hc. split.
  1,2,3: intros k [w t]; unfold Get, Traced_Getter, call; cbn [fst snd];
         match goal with |- context [match ?g w with _ => _ end] => destruct (g w) as [r w'] eqn:Hg end;
         cbn [fst snd]; assert (w' = w) as -> by exact (keeps_run _ _ _ _ (ref_get_keeps _ id k) Hg); done.
  all: try by intros ? [w t].
  intros h o [w t]. apply Hc.
Qed.

Lemma merged_key h o cur : ObjectKeyFromObject (merged h o cur) = ObjectKeyFromObject o.
Proof. done. Qed.
Lemma merge_field_same {A} `{!EqDecision A} (old new : A) : merge_field old new old = new.
Proof. unfold merge_field. by case_decide. Qed.
Lemma merge_field_cases {A} `{!EqDecision A} (old new cur : A) :
  merge_field old new cur = cur \/ merge_field old new cur = new /\ new <> old.
Proof. unfold merge_field. case_decide; [by left|by right]. Qed.
Lemma merged_same h o : merged h o h = o.
Proof. unfold merged. rewrite !merge_field_same. by destruct o as [[] [] ?]. Qed.

Lemma ref_machines_patch (h o : LibvirtMachine) (w : RefWorld) k :
  ref_machines (Patch (W := RefWorld) (T := LibvirtMachine) h o w).2 !! k =
    if decide (k = ObjectKeyFromObject o)
    then rw_machines w !! k ≫= fun cur => persist (merged h o cur)
    else ref_machines w !! k.
Proof.
  unfold ref_machines. cbn [snd Patch RefWorld_patch_machine rw_machines]. case_decide as Hk.
  - subst k. apply option_eq. intros x. rewrite map_lookup_filter_Some, lookup_partial_alter_eq.
    split; [by intros []|]. intros Hx. split; [done|]. cbn.
    destruct (rw_machines w !! _) as [cur|]; [|done]. cbn in Hx. unfold persist in Hx. destruct (_ && _); [done|].
    injection Hx as <-. apply merged_key.
  - apply option_eq. intros x. by rewrite !map_lookup_filter_Some, lookup_partial_alter_ne by done.
Qed.
Lemma ref_machines_raw w k lm : ref_machines w !! k = Some lm -> rw_machines w !! k = Some lm.
Proof. by intros [? _]%map_lookup_filter_Some. Qed.

(** A patch of the object the helper was created with, and of another one. *)
Lemma ref_patch_law (h o : LibvirtMachine) (w : RefWorld) :
  ref_machines w !! ObjectKeyFromObject o = Some h ->
  ref_machines (Patch (W := RefWorld) (T := LibvirtMachine) h o w).2 =
    partial_alter (fun _ => persist o) (ObjectKeyFromObject o) (ref_machines w).
Proof.
  intros Hk. apply map_eq. intros k. rewrite ref_machines_patch. case_decide as Hd.
  - subst k. by rewrite lookup_partial_alter_eq, (ref_machines_raw _ _ _ Hk), <- (merged_same h o) at 1.
  - by rewrite lookup_partial_alter_ne.
Qed.
Lemma ref_patch_merges (h o : LibvirtMachine) (w : RefWorld) :
  let k := ObjectKeyFromObject o in let w' := (Patch (W := RefWorld) (T := LibvirtMachine) h o w).2 in
  (forall k', k' <> k -> ref_machines w' !! k' = ref_machines w !! k') /\
  forall cur, ref_machines w !! k = Some cur ->
    exists x, ref_machines w' !! k = persist x /\
      (meta_Finalizers (lm_ObjectMeta x) = meta_Finalizers (lm_ObjectMeta cur) \/
       meta_Finalizers (lm_ObjectMeta x) = meta_Finalizers (lm_ObjectMeta o) /\
       meta_Finalizers (lm_ObjectMeta o) <> meta_Finalizers (lm_ObjectMeta h)) /\
      (mspec_ProviderID (lm_Spec x) = mspec_ProviderID (lm_Spec cur) \/
       mspec_ProviderID (lm_Spec x) = mspec_ProviderID (lm_Spec o) /\
       mspec_ProviderID (lm_Spec o) <> mspec_ProviderID (lm_Spec h)).
Proof.
  cbv zeta. split; [intros k' Hk; by rewrite ref_machines_patch, decide_False|].
  intros cur Hk. exists (merged h o cur). rewrite ref_machines_patch, decide_True, (ref_machines_raw _ _ _ Hk) by done.
  split; [done|]. split; apply merge_field_cases.
Qed.

#[global] Instance RefApi_laws : ApiLaws (W := Traced RefWorld).
Proof.
  split.
  - by apply RefApi_reads.
  - by apply RefApi_reads.
  - split; intros cfg [w t]; done.
  - intros [w t] k lm Hk. by apply map_lookup_filter_Some in Hk as [_ Hk].
  - intros k [w t] lm w'. unfold Get, Traced_Getter, call, Get, RefWorld_machines, ref_get.
    cbn [fst snd stored_machines RefApi_view].
    destruct (ref_machines w !! k) eqn:Hk; intros [= <- _]. done.
  - by intros o [w t] h w' [= <- <-].
  - by intros h o [w t].
  - intros h o [w t] r w' H k Hk. exists o. split; [by right|]. split; [done|].
    injection H as <- <-. by apply ref_patch_law.
Qed.
#[global] Instance RefApi_merges : PatchMerges (W := Traced RefWorld).
Proof. intros h o [w t] r w' H. injection H as _ <-. apply ref_patch_merges. Qed.

(** ** A machine from its creation to its domain *)

Definition fresh_LibvirtMachine : LibvirtMachine :=
  SetObjectMeta (example_LibvirtMachine None)
    (example_meta "m1.example" "3f1c0a52-6b3e-4c51-9a0e-8d7f4e2b1c90" []).
Definition machine_req : NamespacedName := mkNN "default" "m1.example".
Definition api_world : Traced RefWorld :=
  (mkRefWorld {[ mkNN "default" "lc1" := example_LibvirtCluster ]}
     {[ machine_req := fresh_LibvirtMachine ]}
     (list_to_map [(mkNN "default" "creds", example_creds); (mkNN "default" "m1-bootstrap", example_bootstrap)])
     (Some example_Cluster) (Some example_Machine) (example_mock DomainStateNotFound), []).
(** The finalizer is added, then the domain is created. *)
Definition api_world1 := (MachineController.Reconcile example_loader machine_req api_world).2.
Definition api_world2 := (MachineController.Reconcile example_loader machine_req api_world1).2.

Lemma reconcile_step l k (w : Traced RefWorld) : step l w (MachineController.Reconcile l k w).2.
Proof. eapply step_machine. apply surjective_pairing. Qed.
Lemma api_history : rtc (step example_loader) api_world api_world2.
Proof. eapply rtc_l; [apply reconcile_step|]. eapply rtc_l; [apply reconcile_step|]. apply rtc_refl. Qed.

Definition creates_ok (c : ProviderCall) : bool :=
  match c with CallCreateMachine _ (Ok _) => true | _ => false end.

Lemma no_orphans_witness : accounted api_world2 /\ List.map creates_ok (provider_trace api_world2) = [false; true].
Proof. split; [apply (no_orphans example_loader api_world); [reflexivity|apply api_history]|vm_compute; reflexivity]. Defined.

(** *** Interleaved with a user

    After the read of the run that creates the domain, someone adds a finalizer of
    their own; the run goes on with what it read, and both finalizers are stored. *)
Definition add_foreign (lm : LibvirtMachine) : LibvirtMachine :=
  SetObjectMeta lm (with_finalizers (lm_ObjectMeta lm) (meta_Finalizers (lm_ObjectMeta lm) ++ ["example.com/backup"])).
Definition user_edit (s : Traced RefWorld) : Traced RefWorld :=
  let w := s.1 in
  (mkRefWorld (rw_clusters w) (alter add_foreign machine_req (rw_machines w)) (rw_secrets w) (rw_cluster w)
     (rw_machine w) (rw_provider w), s.2).

Lemma user_edit_step s : env_step s (user_edit s).
Proof.
  split; [done|]. destruct s as [w t]. intros k lm. cbn. unfold ref_machines. cbn. intros [Hk Hkey]%map_lookup_filter_Some Hp.
  destruct (decide (k = machine_req)) as [->|Hne].
  - exists (add_foreign lm). rewrite map_lookup_filter_Some, lookup_alter_eq, Hk. split_and!; [done..| |done].
    unfold protected in *. cbn [lm_ObjectMeta add_foreign SetObjectMeta LibvirtMachine_Object meta_Finalizers with_finalizers].
    rewrite elem_of_app. by left.
  - exists lm. by rewrite map_lookup_filter_Some, lookup_alter_ne by done.
Qed.

Definition user_jobs (i : nat) : Job := MachineJob machine_req.
(** The run, which is disturbed before its second call. *)
Definition user_run : Shared (Traced RefWorld) :=
  (run example_loader (MachineJob machine_req) (mkShared api_world1 [api_world1; user_edit api_world1] [])).2.
Definition user_world : Traced RefWorld := sh_world user_run.
Lemma user_calls : length (sh_log user_run) = 10%nat.
Proof. vm_compute. reflexivity. Qed.
Lemma user_start : provider_trace api_world1 = [].
Proof. vm_compute. reflexivity. Qed.
#[local] Opaque api_world1.

Lemma user_execution :
  exists tr, execution env_step example_loader user_jobs api_world1 tr user_world.
Proof.
  destruct (machine_log example_loader machine_req (mkShared api_world1 [api_world1; user_edit api_world1] []))
    as (log & Hlog & Hrun). cbn [sh_log app] in Hlog. pose proof user_calls as Hn. unfold user_run in Hn. cbn [run] in Hn.
  rewrite Hlog in Hn. destruct Hrun as [g body last (Hs & c & Ht & Hc) _ _ _].
  destruct (body ++ last) as [|t rest]; [discriminate Hn|]. destruct c as [|x c]; [|by apply Forall_cons in Hc as [[] _]].
  rewrite app_nil_r in Ht. pose proof (disturbed_chained example_loader (user_jobs 0) api_world1 (user_edit api_world1) 0) as Hd.
  cbn [run user_jobs] in Hd. rewrite Hlog in Hd. destruct Hd as [Hg _]. rewrite Hg in Hs, Ht.
  eexists. apply (execution_disturbed env_step example_loader user_jobs api_world1 (user_edit api_world1) 0 g t rest Hlog).
  destruct (user_edit_step api_world1) as [Htr Hp]. split; [by rewrite Ht|]. intros k lm. rewrite Hs. apply Hp.
Qed.

Lemma no_orphans_interleaved_witness : accounted user_world.
Proof.
  destruct user_execution as [tr Htr].
  exact (no_orphans_interleaved example_loader user_jobs api_world1 tr user_world user_start Htr).
Defined.
(** The domain was created, the provider ID is stored and both finalizers are. *)
#[local] Transparent api_world1.
Example user_world_stored :
  (creates_ok <$> provider_trace user_world,
   (fun lm => (meta_Finalizers (lm_ObjectMeta lm), bool_decide (mspec_ProviderID (lm_Spec lm) = None))) <$>
     (stored_machines user_world !! machine_req)) =
  ([false; true], Some ([LibvirtMachineFinalizer; "example.com/backup"], false)).
Proof. vm_compute. reflexivity. Qed.

Definition provisioned_LibvirtMachine : LibvirtMachine :=
  default fresh_LibvirtMachine (stored_machines api_world2 !! machine_req).

Lemma provisioned_once_witness :
  exists calls, provider_trace (MachineController.Reconcile example_loader machine_req api_world2).2
    = provider_trace api_world2 ++ calls /\ List.map creates_ok calls = [false].
Proof.
  destruct (provisioned_once example_loader api_world2
              (MachineController.Reconcile example_loader machine_req api_world2).2 machine_req
              provisioned_LibvirtMachine "libvirt://3f1c0a52-6b3e-4c51-9a0e-8d7f4e2b1c90") as (calls & Htr & _).
  - eapply rtc_l; [apply reconcile_step|]. apply rtc_refl.
  - vm_compute. reflexivity.
  - apply list_elem_of_In. vm_compute. by left.
  - vm_compute. reflexivity.
  - exists calls. split; [done|]. vm_compute in Htr. by repeat (injection Htr as <- || injection Htr as Htr).
Defined.

Lemma provisioned_once_interleaved_witness :
  exists calls, provider_trace (in_turn example_loader machine_req api_world2 2) = provider_trace api_world2 ++ calls /\
    List.map creates_ok calls = [false; false].
Proof.
  destruct (execution_in_turn env_step example_loader machine_req api_world2 2) as (tr & Hex & _).
  destruct (provisioned_once_interleaved example_loader _ api_world2 tr _ machine_req provisioned_LibvirtMachine
              "libvirt://3f1c0a52-6b3e-4c51-9a0e-8d7f4e2b1c90" Hex) as (calls & Htr & _).
  - vm_compute. reflexivity.
  - apply list_elem_of_In. vm_compute. by left.
  - vm_compute. reflexivity.
  - exists calls. split; [done|]. vm_compute in Htr. by repeat (injection Htr as <- || injection Htr as Htr).
Defined.

(** ** A healthy world *)

(** The objects the machine belongs to are there and the mock fails no call. *)
Definition api_up (w : Traced RefWorld) : Prop :=
  let p := rw_provider w.1 in
  rw_clusters w.1 = rw_clusters api_world.1 /\ rw_secrets w.1 = rw_secrets api_world.1 /\
  rw_cluster w.1 = Some example_Cluster /\ rw_machine w.1 = Some example_Machine /\
  GetMachineStateErr p = None /\ CreateMachineErr p = None /\ StartMachineErr p = None /\
  GetMachineAddressErr p = None /\ MockMachineState p = DomainStateNotFound.


Lemma api_get_ok {T} (m : RefWorld -> gmap NamespacedName T) k x (w : Traced RefWorld) :
  m w.1 !! k = Some x -> call (T := list ProviderCall) (ref_get m k) w = (Ok x, w).
Proof. intros Hk. unfold call, ref_get. rewrite Hk. by destruct w. Qed.

Lemma example_creds_ok :
  credentialsFromSecret (secret_Data example_creds) = Ok (Some (mkCredentials (Some (mkTLS "CA" "CERT" "KEY")) None)).
Proof. vm_compute. reflexivity. Qed.
Lemma api_secret k s w : api_up w -> rw_secrets api_world.1 !! k = Some s -> Get (T := Secret) k w = (Ok s, w).
Proof. intros (_ & Hs & _) Hk. apply api_get_ok. by rewrite Hs. Qed.

Lemma api_load : Succeeds api_up (fun _ => True) (Load example_loader example_LibvirtCluster).
Proof.
  intros w Hup. do 2 eexists. split; [|by split]. unfold Load, loadRef.
  cbn [cspec_CredentialsRef lc_Spec example_LibvirtCluster].
  erewrite bind_ok by (apply wrap_ok, (api_secret _ example_creds); [done|vm_compute; reflexivity]).
  erewrite bind_ok by (apply wrap_ok; unfold lift; by rewrite example_creds_ok). reflexivity.
Qed.

(** A call of the mock in such a world. *)
Ltac api_provider w Hup :=
  destruct w as [? ? ? ? ? [? ? ? ? ? ? ? ? ? ?]];
  unfold api_up in Hup; cbn [fst rw_clusters rw_secrets rw_cluster rw_machine rw_provider GetMachineStateErr
    CreateMachineErr StartMachineErr GetMachineAddressErr MockMachineState] in Hup;
  destruct Hup as (-> & -> & -> & -> & -> & -> & -> & -> & ->);
  do 2 eexists; (split; [reflexivity|]); (split; [|by split_and!]).

Lemma api_healthy : healthy api_up example_loader machine_req example_Cluster.
Proof.
  split.
  - intros w lm Hup Hk. exists w. split; [by apply api_get_ok|done].
  - intros o [w t] Hup. by exists o, (w, t).
  - intros h o [w t] Hup. by do 2 eexists.
  - intros m [w t] Hup. exists (Some example_Machine), (w, t). pose proof Hup as (_ & _ & _ & Hm & _).
    split; [unfold GetOwnerMachine, Traced_util, call; cbn in *; by rewrite Hm|]. split; [|done].
    exists example_Machine. split; [done|]. split; [|exists "m1-bootstrap"; split; [done|]].
    + intros [w1 t1] Hup1. exists (Some example_Cluster), (w1, t1). pose proof Hup1 as (_ & _ & Hcl & _).
      split; [unfold GetClusterFromMetadata, Traced_util, call; cbn in *; by rewrite Hcl|done].
    + intros w1 Hup1. exists example_bootstrap, w1. split; [apply api_secret; [done|vm_compute; reflexivity]|].
      split; [by exists "#cloud-config"|done].
  - done.
  - intros w Hup. exists example_LibvirtCluster, w. split; [|split; [apply api_load|done]].
    apply api_get_ok. destruct Hup as (Hc & _). rewrite Hc. vm_compute. reflexivity.
  - intros cfg [w t] Hup. api_provider w Hup. by left.
  - intros cfg [w t] Hup. by api_provider w Hup.
  - intros cfg [w t] Hup. by api_provider w Hup.
  - intros cfg [w t] Hup. by api_provider w Hup.
Qed.

Lemma machine_converges_witness :
  exists n lm', (1 <= n <= 2)%nat /\
    stored_machines (Nat.iter n (fun w => (MachineController.Reconcile example_loader machine_req w).2) api_world)
      !! machine_req = Some lm' /\ mstatus_Ready (lm_Status lm') = true.
Proof.
  destruct (machine_converges api_healthy api_world fresh_LibvirtMachine) as (n & lm' & Hn & Hk & Hr & _).
  - repeat split.
  - vm_compute. reflexivity.
  - split; [reflexivity|]. intros m Hm. cbn in Hm |- *. by rewrite Hm.
  - reflexivity.
  - exists n, lm'. auto.
Defined.

(** ** Statuses *)

(** The texts are ASCII: a character is a byte. *)
#[global] Instance RefCharCount : CharCount := len.
#[global] Instance RefCharCount_laws : CharCountLaws.
Proof.
  split; intros s; [done|]. intros Hs. pose proof (len_nonneg s). unfold char_count, RefCharCount.
  destruct (Z.eq_dec (len s) 0) as [Hz|]; [by apply len_zero in Hz|lia].
Qed.

(** A call that puts no text into a status. *)
Definition textless (c : ProviderCall) : bool :=
  match c with
  | CallCreateMachine _ (Err _) | CallStartMachine _ (Err _) | CallEnsureInfra _ (Err _)
  | CallGetMachineAddress _ (Ok _) => false
  | _ => true
  end.
Lemma textless_short calls : forallb textless calls = true -> Forall short_call calls.
Proof.
  intros Hc. apply Forall_forall. intros c Hin%list_elem_of_In. rewrite forallb_forall in Hc. specialize (Hc c Hin).
  by destruct c as [? []|? []|? []|? []|? []|? []].
Qed.

(** The run that creates the domain. *)
Definition protected_LibvirtMachine : LibvirtMachine :=
  default fresh_LibvirtMachine (stored_machines api_world1 !! machine_req).
Definition creation_run := reconcileOwned (W := Traced RefWorld) example_loader protected_LibvirtMachine
  (api_world1, protected_LibvirtMachine).
Lemma creation_calls : forallb textless (provider_trace creation_run.2.1) = true.
Proof. vm_compute. reflexivity. Qed.
Lemma protected_conditions : GetConditions protected_LibvirtMachine = [].
Proof. vm_compute. reflexivity. Qed.
Lemma protected_addresses : mstatus_Addresses (lm_Status protected_LibvirtMachine) = [].
Proof. vm_compute. reflexivity. Qed.
Lemma protected_valid : machine_status_valid protected_LibvirtMachine.
Proof.
  unfold machine_status_valid. rewrite protected_conditions, protected_addresses.
  split; apply Forall_nil_2.
Qed.

Lemma status_stays_valid_witness :
  machine_status_valid creation_run.2.2 /\ length (GetConditions creation_run.2.2) = 3%nat.
Proof.
  split; [|vm_compute; reflexivity].
  destruct (status_stays_valid (W := Traced RefWorld) example_loader example_cscope protected_LibvirtMachine api_world1
              protected_LibvirtMachine example_LibvirtCluster) as [Hm _].
  apply (Hm (provider_trace creation_run.2.1)).
  - rewrite user_start. reflexivity.
  - apply textless_short, creation_calls.
  - apply protected_valid.
Defined.

(** A reason, a type without a prefix and one with, and texts that are none. *)
Example patterns_match :
  matches reason_pattern DomainProvisioningInProgressReason && matches type_pattern DomainRunningCondition &&
  matches type_pattern "example.com/Backup" && negb (matches reason_pattern "1st") &&
  negb (matches reason_pattern "a,") && negb (matches type_pattern "Example.com/x") && negb (matches type_pattern "") = true.
Proof. vm_compute. reflexivity. Qed.
