(* ===== verification/RefXML.v ===== *)
(** * A reference codec for the libvirtxml documents

    A concrete instance of [LibvirtXML] used by the examples that show the laws
    of the libvirt interfaces can hold: documents are written as their [Countable]
    code in binary digits, so that reading back what was written gives the same
    document. *)

From stdpp Require Import base countable list strings.
From Stdlib Require Import ZArith Ascii.
From S2P Require Import Prelude LibvirtXML.

(** ** Binary text *)

Fixpoint pos_text (p : positive) : string :=
  match p with
  | xH => ""
  | xO q => String "0"%char (pos_text q)
  | xI q => String "1"%char (pos_text q)
  end.

Fixpoint text_pos (s : string) : positive :=
  match s with
  | EmptyString => xH
  | String c r => if decide (c = "0"%char) then xO (text_pos r) else xI (text_pos r)
  end.

Lemma text_pos_text p : text_pos (pos_text p) = p.
Proof. induction p as [p IH|p IH|]; cbn; by rewrite ?IH. Qed.

Definition write_doc {A} `{Countable A} (a : A) : string := pos_text (encode a).
Definition read_doc {A} `{Countable A} (s : string) : option A := decode (text_pos s).

Lemma read_write_doc {A} `{Countable A} (a : A) : read_doc (write_doc a) = Some a.
Proof. unfold read_doc, write_doc. by rewrite text_pos_text, decode_encode. Qed.

(** ** The documents are countable *)

#[global] Instance NetworkDHCPHost_countable : Countable NetworkDHCPHost.
Proof.
  apply (inj_countable' (fun h => (host_MAC h, host_Name h, host_IP h))
           (fun '(a, b, c) => mkHost a b c)). by intros [].
Defined.
#[global] Instance NetworkDHCPRange_countable : Countable NetworkDHCPRange.
Proof.
  apply (inj_countable' (fun r => (range_Start r, range_End r)) (fun '(a, b) => mkRange a b)). by intros [].
Defined.
#[global] Instance NetworkDHCP_countable : Countable NetworkDHCP.
Proof.
  apply (inj_countable' (fun d => (dhcp_Ranges d, dhcp_Hosts d)) (fun '(a, b) => mkDHCP a b)). by intros [].
Defined.
#[global] Instance NetworkIP_countable : Countable NetworkIP.
Proof.
  apply (inj_countable' (fun i => (ip_Address i, ip_Family i, ip_Netmask i, ip_DHCP i))
           (fun '(a, b, c, d) => mkNetworkIP a b c d)). by intros [].
Defined.
#[global] Instance Network_countable : Countable Network.
Proof.
  apply (inj_countable' (fun n => (network_Name n, network_IPs n)) (fun '(a, b) => mkNetwork a b)).
  by intros [].
Defined.

#[global] Instance DomainMemory_eq_dec : EqDecision DomainMemory.
Proof. solve_decision. Defined.
#[global] Instance DomainDisk_eq_dec : EqDecision DomainDisk.
Proof. solve_decision. Defined.
#[global] Instance DomainInterface_eq_dec : EqDecision DomainInterface.
Proof. solve_decision. Defined.
#[global] Instance DomainSerial_eq_dec : EqDecision DomainSerial.
Proof. solve_decision. Defined.
#[global] Instance DomainConsole_eq_dec : EqDecision DomainConsole.
Proof. solve_decision. Defined.
#[global] Instance DomainDeviceList_eq_dec : EqDecision DomainDeviceList.
Proof. solve_decision. Defined.
#[global] Instance Domain_eq_dec : EqDecision Domain.
Proof. solve_decision. Defined.
#[global] Instance StorageVolumeBackingStore_eq_dec : EqDecision StorageVolumeBackingStore.
Proof. solve_decision. Defined.
#[global] Instance StorageVolume_eq_dec : EqDecision StorageVolume.
Proof. solve_decision. Defined.

#[global] Instance DomainMemory_countable : Countable DomainMemory.
Proof.
  apply (inj_countable' (fun m => (memory_Value m, memory_Unit m)) (fun '(a, b) => mkDomainMemory a b)).
  by intros [].
Defined.
#[global] Instance DomainDisk_countable : Countable DomainDisk.
Proof.
  apply (inj_countable'
           (fun d => (disk_Device d, disk_DriverName d, disk_DriverType d, disk_SourceFile d,
                      disk_TargetDev d, disk_TargetBus d, disk_ReadOnly d))
           (fun '(a, b, c, d, e, f, g) => mkDomainDisk a b c d e f g)). by intros [].
Defined.
#[global] Instance DomainInterface_countable : Countable DomainInterface.
Proof.
  apply (inj_countable' (fun i => (iface_MAC i, iface_Network i, iface_Model i))
           (fun '(a, b, c) => mkDomainInterface a b c)). by intros [].
Defined.
#[global] Instance DomainSerial_countable : Countable DomainSerial.
Proof. apply (inj_countable' serial_Port mkDomainSerial). by intros []. Defined.
#[global] Instance DomainConsole_countable : Countable DomainConsole.
Proof.
  apply (inj_countable' (fun c => (console_Type c, console_Port c)) (fun '(a, b) => mkDomainConsole a b)).
  by intros [].
Defined.
#[global] Instance DomainDeviceList_countable : Countable DomainDeviceList.
Proof.
  apply (inj_countable' (fun d => (dev_Disks d, dev_Interfaces d, dev_Serials d, dev_Consoles d))
           (fun '(a, b, c, d) => mkDeviceList a b c d)). by intros [].
Defined.
#[global] Instance Domain_countable : Countable Domain.
Proof.
  apply (inj_countable'
           (fun d => (dom_Type d, dom_Name d, dom_UUID d, dom_Memory d, dom_VCPU d, dom_OSType d,
                      dom_OSArch d, dom_BootDevices d, dom_Devices d))
           (fun '(a, b, c, d, e, f, g, h, i) => mkDomain a b c d e f g h i)). by intros [].
Defined.
#[global] Instance StorageVolumeBackingStore_countable : Countable StorageVolumeBackingStore.
Proof.
  apply (inj_countable' (fun b => (backing_Path b, backing_Format b)) (fun '(a, b) => mkBackingStore a b)).
  by intros [].
Defined.
#[global] Instance StorageVolume_countable : Countable StorageVolume.
Proof.
  apply (inj_countable'
           (fun v => (vol_Name v, vol_Capacity v, vol_CapacityUnit v, vol_Format v, vol_BackingStore v))
           (fun '(a, b, c, d, e) => mkStorageVolume a b c d e)). by intros [].
Defined.

(** ** The instance *)

Definition RefXML : LibvirtXML := {|
  Network_Unmarshal s :=
    match read_doc s with Some n => Ok n | None => Err (ErrorString "EOF") end;
  NetworkDHCPHost_Marshal h := Ok (write_doc h);
  Domain_Marshal d := Ok (write_doc d);
  StorageVolume_Marshal v := Ok (write_doc v);
|}.
