(* ===== verification/MachineNetwork.v ===== *)
(** * Machine networking: MAC addresses, static DHCP reservations and leases
    (internal/libvirtclient/machine_network.go)

    The pure allocation logic works on a parsed network; the wrappers talk to a
    libvirt network through the interface [networkOperations]. *)

From stdpp Require Import base gmap list strings.
From Stdlib Require Import ZArith Lia Ascii.
From S2P Require Import Prelude GoStrings GoHash GoNet LibvirtXML.

Local Open Scope Z_scope.

(** ** Interface *)

Inductive NetworkUpdateCommand :=
  | NETWORK_UPDATE_COMMAND_NONE
  | NETWORK_UPDATE_COMMAND_MODIFY
  | NETWORK_UPDATE_COMMAND_DELETE
  | NETWORK_UPDATE_COMMAND_ADD_LAST.

Inductive NetworkUpdateSection :=
  | NETWORK_SECTION_IP_DHCP_HOST
  | NETWORK_SECTION_OTHER (n : Z).

#[global] Instance NetworkUpdateCommand_eq_dec : EqDecision NetworkUpdateCommand.
Proof. solve_decision. Defined.

(** The narrow surface of a libvirt network handle [N] in a world [W]; the
    integer arguments are the flags and the parent index. *)
Class networkOperations (W N : Type) := {
  GetXMLDesc : N -> Z -> M W string;
  Update : N -> NetworkUpdateCommand -> NetworkUpdateSection -> Z -> string -> Z -> M W unit;
  GetDHCPLeases : N -> M W (list NetworkDHCPLease);
}.

(** ** Names *)

Definition machineReservationBlockSize : Z := 200.

(** [net.HardwareAddr(b).String()] *)
Definition HardwareAddr_String (b : list Z) : string :=
  strings_Join (map (fun x => str (hex2 x)) b) ":".

Definition hashDomainName (domainName : string) : Z := fnv64a (bytes_of domainName).

Definition deriveDomainMAC (domainName : string) : string :=
  let sum := fnv64a (bytes_of domainName) in
  HardwareAddr_String [82; 84; 0; u8 sum; u8 (Z.shiftr sum 8); u8 (Z.shiftr sum 16)].

(** ** Reading the network *)

Definition dhcp_hosts (ip : NetworkIP) : list NetworkDHCPHost :=
  match ip_DHCP ip with None => [] | Some d => dhcp_Hosts d end.

(** The two nested loops of the source visit the hosts in this order. *)
Definition all_hosts (network : Network) : list NetworkDHCPHost :=
  concat (map dhcp_hosts (network_IPs network)).

Fixpoint find_host (hosts : list NetworkDHCPHost) (mac : string) : option NetworkDHCPHost :=
  match hosts with
  | [] => None
  | host :: rest => if strings_EqualFold (host_MAC host) mac then Some host else find_host rest mac
  end.

Definition hostEntryInNetwork (network : Network) (mac : string) : option NetworkDHCPHost :=
  find_host (all_hosts network) mac.

Fixpoint add_hosts (hosts : list NetworkDHCPHost) (set : gmap string string) : gmap string string :=
  match hosts with
  | [] => set
  | host :: rest =>
      if decide (host_IP host = "") then add_hosts rest set
      else add_hosts rest (<[host_IP host := host_MAC host]> set)
  end.

Definition hostIPSet (network : Network) : gmap string string := add_hosts (all_hosts network) ∅.

Fixpoint leaseAddressForMac (leases : list NetworkDHCPLease) (mac : string) : string :=
  match leases with
  | [] => ""
  | lease :: rest =>
      if strings_EqualFold (lease_Mac lease) mac && negb (bool_decide (lease_IPaddr lease = ""))
      then lease_IPaddr lease
      else leaseAddressForMac rest mac
  end.

(** ** Candidate addresses *)

(** [for i := first; i <= last; i++ { block = append(block, i) }] on [uint32].
    [None]: the fuel ran out. *)
Fixpoint uint32_loop (fuel : nat) (i last : Z) : option (list Z) :=
  match fuel with
  | O => None
  | S f => if i <=? last then cons i <$> uint32_loop f (u32 (i + 1)) last else Some []
  end.

(** The loop with the fuel that covers every run that ends
    ([uint32_loop_enough] and [uint32_loop_diverges] below). *)
Definition uint32_range (first last : Z) : result (list Z) :=
  match uint32_loop (Z.to_nat (last - first + 2)) first last with
  | Some block => Ok block
  | None => Diverge
  end.

Definition rangeCandidates (start end_ : Z) : result (list Z) :=
  if end_ <? start then Err (ErrorString "DHCP range end is below start")
  else uint32_range start end_.

Definition subnetTailCandidates (ipNet : IPNet) (size : Z) : result (list Z) :=
  match To4 (ipnet_IP ipNet) with
  | None => Err (ErrorString ("network subnet " +:+ ip4_String (ipnet_IP ipNet) +:+ " is not IPv4"))
  | Some ip4 =>
      let hostMask := Z.lxor (be_Uint32 (ipnet_Mask ipNet)) (2 ^ 32 - 1) in
      let hostCount := u32 (hostMask + 1) in
      if hostCount <=? 2 then
        Err (ErrorString ("subnet " +:+ IPNet_String ipNet +:+ " has no usable host addresses"))
      else
        let usableCount := hostCount - 2 in
        let n := Z.min size usableCount in
        let networkNum := be_Uint32 ip4 in
        let lastHost := u32 (networkNum + u32 usableCount) in
        let first := u32 (lastHost - u32 (n - 1)) in
        uint32_range first lastHost
  end.

Definition parseSubnet (address netmask : string) : result IPNet :=
  match net_ParseIP address with
  | None => Err (ErrorString ("parse network address " +:+ quote address +:+ ": invalid IP"))
  | Some ip =>
      match net_ParseIP netmask with
      | None => Err (ErrorString ("parse netmask " +:+ quote netmask +:+ ": invalid IP"))
      | Some maskIP =>
          match To4 ip, To4 maskIP with
          | Some ip4, Some mask4 => Ok (mkIPNet (default [] (IP_Mask ip4 mask4)) mask4)
          | _, _ => Err (ErrorString ("network address " +:+ quote address +:+ " or netmask "
                                      +:+ quote netmask +:+ " is not IPv4"))
          end
      end
  end.

Fixpoint firstDHCPRange (ranges : list NetworkDHCPRange) : option (Z * Z) :=
  match ranges with
  | [] => None
  | rng :: rest =>
      match net_ParseIP (range_Start rng), net_ParseIP (range_End rng) with
      | Some s, Some e =>
          match To4 s, To4 e with
          | Some s4, Some e4 => Some (be_Uint32 s4, be_Uint32 e4)
          | _, _ => firstDHCPRange rest
          end
      | _, _ => firstDHCPRange rest
      end
  end.

(** The first subnet of family inet. *)
Fixpoint first_inet (ips : list NetworkIP) : option NetworkIP :=
  match ips with
  | [] => None
  | ip :: rest => if decide (ip_Family ip = "inet") then Some ip else first_inet rest
  end.

Definition allocationCandidates (network : Network) : result (list Z) :=
  match first_inet (network_IPs network) with
  | None => Err (ErrorString "network has no IPv4 subnet")
  | Some ip =>
      ipNet ← parseSubnet (ip_Address ip) (ip_Netmask ip);
      match ip_DHCP ip with
      | Some dhcp =>
          match firstDHCPRange (dhcp_Ranges dhcp) with
          | Some (start, end_) => rangeCandidates start end_
          | None => subnetTailCandidates ipNet machineReservationBlockSize
          end
      | None => subnetTailCandidates ipNet machineReservationBlockSize
      end
  end.

(** ** Allocation *)

Definition formatIPv4 (ipNum : Z) : string := ip4_String (be_PutUint32 ipNum).

(** The address is free for [mac]: nobody has it, or [mac] itself does. *)
Definition usable (taken : gmap string string) (mac ip : string) : bool :=
  match taken !! ip with
  | None => true
  | Some owner => strings_EqualFold owner mac
  end.

(** Round [i] of the search, for [i] in [rounds]. *)
Fixpoint probe (candidates : list Z) (taken : gmap string string) (mac : string)
    (offset : Z) (rounds : list nat) : option string :=
  match rounds with
  | [] => None
  | i :: rest =>
      let cand := nth (Z.to_nat ((offset + Z.of_nat i) mod Z.of_nat (length candidates))) candidates 0 in
      let ip := formatIPv4 cand in
      if usable taken mac ip then Some ip else probe candidates taken mac offset rest
  end.

Definition allocateMachineIPIn (network : Network) (domainName mac : string) : result string :=
  candidates ← allocationCandidates network;
  if (length candidates =? 0)%nat then
    Err (ErrorString "network has no usable addresses for machine reservation")
  else
    let taken := hostIPSet network in
    let offset := hashDomainName domainName mod Z.of_nat (length candidates) in
    match probe candidates taken mac offset (seq 0 (length candidates)) with
    | Some ip => Ok ip
    | None => Err (ErrorString ("no free address in the machine reservation block of the network (name "
                                +:+ domainName +:+ ")"))
    end.

(** ** Planning and performing the update *)

Record HostPlan := mkPlan {
  plan_ip : string;
  plan_xml : string;
  plan_cmd : NetworkUpdateCommand;
  plan_doUpdate : bool;
}.

Section Reservation.
  Context `{LX : LibvirtXML}.

Definition machineHostXML (domainName mac ip : string) : result string :=
  NetworkDHCPHost_Marshal (mkHost mac domainName ip).

Definition planHostUpdate (network : Network) (domainName mac : string) : result HostPlan :=
  ip ← allocateMachineIPIn network domainName mac;
  let existing := hostEntryInNetwork network mac in
  let same :=
    match existing with
    | Some e => negb (bool_decide (host_IP e = "")) && strings_EqualFold (host_IP e) ip
    | None => false
    end in
  if same then Ok (mkPlan ip "" NETWORK_UPDATE_COMMAND_NONE false)
  else
    xml ← map_err (WrapError ("marshal DHCP host entry for " +:+ domainName))
            (machineHostXML domainName mac ip);
    let cmd :=
      match existing with
      | Some _ => NETWORK_UPDATE_COMMAND_MODIFY
      | None => NETWORK_UPDATE_COMMAND_ADD_LAST
      end in
    Ok (mkPlan ip xml cmd true).

Context {W N : Type} `{NO : networkOperations W N}.

Definition networkXML (n : N) : M W Network :=
  xmlDesc ← wrap_err (WrapError "get network XML") (GetXMLDesc n 0);
  lift (map_err (WrapError "parse network XML") (Network_Unmarshal xmlDesc)).

Definition reserveMachineIP (n : N) (netName domainName mac : string) : M W string :=
  network ← networkXML n;
  plan ← lift (planHostUpdate network domainName mac);
  if negb (plan_doUpdate plan) then mret (plan_ip plan)
  else
    wrap_err (WrapError ("update DHCP host entry for " +:+ domainName +:+ " on network " +:+ netName))
      (Update n (plan_cmd plan) NETWORK_SECTION_IP_DHCP_HOST 0 (plan_xml plan) 0) ;;
    mret (plan_ip plan).

Definition releaseMachineIP (n : N) (netName domainName mac : string) : M W unit :=
  network ← networkXML n;
  match hostEntryInNetwork network mac with
  | None => mret tt
  | Some existing =>
      xml ← lift (map_err (WrapError ("marshal DHCP host entry for " +:+ domainName))
                    (machineHostXML domainName mac (host_IP existing)));
      wrap_err (WrapError ("remove DHCP host entry for " +:+ domainName +:+ " on network " +:+ netName))
        (Update n NETWORK_UPDATE_COMMAND_DELETE NETWORK_SECTION_IP_DHCP_HOST 0 xml 0)
  end.

Definition machineAddress (n : N) (netName mac : string) : M W string :=
  leases ← wrap_err (WrapError ("get DHCP leases of network " +:+ netName)) (GetDHCPLeases n);
  mret (leaseAddressForMac leases mac).

End Reservation.

(** ** The address loops *)

(** A run of the loop that stays below the largest [uint32]. *)
Lemma uint32_loop_enough fuel first last :
  0 <= first -> first <= last + 1 -> last < 2 ^ 32 - 1 ->
  (Z.to_nat (last - first + 1) < fuel)%nat ->
  uint32_loop fuel first last = Some (seqZ first (last - first + 1)).
Proof.
  revert first. induction fuel as [|fuel IH]; intros first H0 Hle Hlast Hf; [lia|].
  cbn [uint32_loop]. destruct (Z.leb_spec first last) as [Hin|Hout].
  - rewrite u32_small, IH by lia. cbn [fmap option_fmap option_map].
    rewrite (seqZ_cons first) by lia. by replace (last - (first + 1) + 1) with (Z.pred (last - first + 1)) by lia.
  - rewrite seqZ_nil by lia. done.
Qed.

(** When the last address is the largest [uint32] the counter wraps around and
    the loop never ends. *)
Lemma uint32_loop_diverges fuel first :
  0 <= first < 2 ^ 32 -> uint32_loop fuel first (2 ^ 32 - 1) = None.
Proof.
  revert first. induction fuel as [|fuel IH]; intros first Hf; [done|].
  cbn [uint32_loop]. replace (first <=? 2 ^ 32 - 1) with true by (symmetry; apply Z.leb_le; lia).
  rewrite IH by apply u32_range. done.
Qed.

Lemma uint32_range_ok first last :
  0 <= first -> first <= last + 1 -> last < 2 ^ 32 - 1 ->
  uint32_range first last = Ok (seqZ first (last - first + 1)).
Proof. intros. unfold uint32_range. rewrite uint32_loop_enough by lia. done. Qed.

(** C38: the candidates of a DHCP range are exactly its addresses, in order; a
    range whose end is below its start is refused; and a range that ends at
    255.255.255.255 makes the [uint32] counter wrap, so that the call never
    returns whatever number of rounds it is given. *)
Theorem rangeCandidates_spec start end_ :
  0 <= start < 2 ^ 32 -> 0 <= end_ < 2 ^ 32 ->
  (end_ < start -> rangeCandidates start end_ = Err (ErrorString "DHCP range end is below start")) /\
  (start <= end_ -> end_ < 2 ^ 32 - 1 ->
     rangeCandidates start end_ = Ok (seqZ start (end_ - start + 1))) /\
  (end_ = 2 ^ 32 - 1 ->
     rangeCandidates start end_ = Diverge /\ forall fuel, uint32_loop fuel start end_ = None).
Proof.
  intros Hs He. unfold rangeCandidates. split; [|split].
  - intros Hlt. by apply Z.ltb_lt in Hlt as ->.
  - intros Hle Hmax. replace (end_ <? start) with false by (symmetry; apply Z.ltb_ge; lia).
    apply uint32_range_ok; lia.
  - intros ->. split; [|intros; by apply uint32_loop_diverges].
    replace (2 ^ 32 - 1 <? start) with false by (symmetry; apply Z.ltb_ge; lia).
    unfold uint32_range. by rewrite uint32_loop_diverges.
Qed.

Lemma rangeCandidates_witness :
  rangeCandidates 3232266762 3232266764 = Ok [3232266762; 3232266763; 3232266764].
Proof.
  change [3232266762; 3232266763; 3232266764] with (seqZ 3232266762 (3232266764 - 3232266762 + 1)).
  apply (rangeCandidates_spec 3232266762 3232266764); lia.
Defined.

(** ** Subnets *)

Lemma parseSubnet_shape address netmask ipNet :
  parseSubnet address netmask = Ok ipNet ->
  exists a b c d p q r s,
    Forall byte_range [a; b; c; d] /\ Forall byte_range [p; q; r; s] /\
    ipNet = mkIPNet [Z.land a p; Z.land b q; Z.land c r; Z.land d s] [p; q; r; s].
Proof.
  unfold parseSubnet. destruct (net_ParseIP address) as [ip|] eqn:Ha; [|discriminate].
  destruct (net_ParseIP netmask) as [m|] eqn:Hm; [|discriminate].
  apply ParseIP_shape in Ha as [Hra _], Hm as [Hrm _].
  destruct (To4 ip) as [ip4|] eqn:Hi; [|discriminate].
  destruct (To4 m) as [m4|] eqn:Hk; [|discriminate].
  apply To4_shape in Hi as [Hri Hli]; [|done]. apply To4_shape in Hk as [Hrk Hlk]; [|done].
  destruct ip4 as [|a [|b [|c [|d [|]]]]]; try discriminate Hli.
  destruct m4 as [|p [|q [|r [|s [|]]]]]; try discriminate Hlk.
  intros [= <-]. by exists a, b, c, d, p, q, r, s.
Qed.

Lemma lxor_ones x : 0 <= x < 2 ^ 32 -> Z.lxor x (2 ^ 32 - 1) = 2 ^ 32 - 1 - x.
Proof.
  intros Hx. replace (2 ^ 32 - 1) with (Z.ones 32) by done.
  assert (forall n, 32 <= n -> Z.testbit x n = false) as Hhigh.
  { intros n Hn. rewrite <- (Z.mod_small x (2 ^ 32)) by lia. apply Z.mod_pow2_bits_high. lia. }
  assert (Z.ldiff x (Z.ones 32) = 0) as Hd.
  { apply Z.bits_inj'. intros n Hn. rewrite Z.ldiff_spec, Z.bits_0.
    destruct (Z.lt_ge_cases n 32).
    - rewrite Z.ones_spec_low by lia. apply andb_false_r.
    - by rewrite Hhigh. }
  rewrite (Z.sub_nocarry_ldiff _ _ Hd). apply Z.bits_inj'. intros n Hn.
  rewrite Z.lxor_spec, Z.ldiff_spec. destruct (Z.lt_ge_cases n 32).
  - rewrite Z.ones_spec_low by lia. by destruct (Z.testbit x n).
  - rewrite Hhigh, Z.ones_spec_high by lia. done.
Qed.

Lemma land_byte a p : byte_range a -> byte_range p -> byte_range (Z.land a p) /\ Z.land a p <= p.
Proof.
  unfold byte_range. intros Ha Hp.
  rewrite <- (Z2N.id a), <- (Z2N.id p) by lia. rewrite <- N2Z.inj_land.
  pose proof (N.land_le_r (Z.to_N a) (Z.to_N p)). lia.
Qed.

(** The network address and the host part of the mask fit into 32 bits
    together: their sum is the broadcast address. *)
Lemma parseSubnet_bounds address netmask ipNet :
  parseSubnet address netmask = Ok ipNet ->
  let net := be_Uint32 (ipnet_IP ipNet) in
  let mask := be_Uint32 (ipnet_Mask ipNet) in
  To4 (ipnet_IP ipNet) = Some (ipnet_IP ipNet) /\
  0 <= mask < 2 ^ 32 /\ 0 <= net <= mask.
Proof.
  intros H. apply parseSubnet_shape in H as (a&b&c&d&p&q&r&s&Ha&Hp&->). cbn [ipnet_IP ipnet_Mask].
  rewrite !Forall_cons in Ha, Hp. destruct Ha as (Ha&Hb&Hc&Hd&_), Hp as (Hp&Hq&Hr&Hs&_).
  destruct (land_byte a p Ha Hp), (land_byte b q Hb Hq), (land_byte c r Hc Hr), (land_byte d s Hd Hs).
  split; [done|]. split; [by apply be_Uint32_range|].
  split; [by apply be_Uint32_range|]. rewrite !be_Uint32_add by done. lia.
Qed.

(** C39: without a DHCP range, the candidates are the highest [size] host
    addresses of the subnet (all of them when there are fewer), in increasing
    order, strictly between the network address and the broadcast address, and
    no 32-bit computation wraps.  A subnet with fewer than two host bits, and the
    mask 0.0.0.0, whose host count overflows [uint32], are refused. *)
Theorem subnetTailCandidates_spec address netmask ipNet size :
  parseSubnet address netmask = Ok ipNet -> 1 <= size ->
  let net := be_Uint32 (ipnet_IP ipNet) in
  let broadcast := net + (2 ^ 32 - 1 - be_Uint32 (ipnet_Mask ipNet)) in
  (broadcast - net <= 1 \/ broadcast - net = 2 ^ 32 - 1 ->
     exists text, subnetTailCandidates ipNet size = Err (ErrorString text)) /\
  (2 <= broadcast - net < 2 ^ 32 - 1 ->
     let n := Z.min size (broadcast - net - 1) in
     subnetTailCandidates ipNet size = Ok (seqZ (broadcast - n) n) /\
     Forall (fun cand => net < cand < broadcast /\ 0 <= cand < 2 ^ 32) (seqZ (broadcast - n) n)).
Proof.
  intros Hp Hs. apply parseSubnet_bounds in Hp as (Ht & Hm & Hn). cbv zeta.
  unfold subnetTailCandidates. rewrite Ht, lxor_ones by done.
  generalize dependent (be_Uint32 (ipnet_IP ipNet)). intros net Hn.
  generalize dependent (be_Uint32 (ipnet_Mask ipNet)). intros mask Hm Hn.
  split.
  - intros Hsmall. replace (u32 (2 ^ 32 - 1 - mask + 1) <=? 2) with true; [eauto|].
    symmetry. apply Z.leb_le. unfold u32. solve_div.
  - intros Hbig. rewrite (u32_small (2 ^ 32 - 1 - mask + 1)) by lia.
    replace (2 ^ 32 - 1 - mask + 1 <=? 2) with false by (symmetry; apply Z.leb_gt; lia).
    assert (1 <= Z.min size (net + (2 ^ 32 - 1 - mask) - net - 1) <= net + (2 ^ 32 - 1 - mask) - net - 1)
      as Hmin by lia.
    replace (2 ^ 32 - 1 - mask + 1 - 2) with (net + (2 ^ 32 - 1 - mask) - net - 1) by lia.
    generalize dependent (Z.min size (net + (2 ^ 32 - 1 - mask) - net - 1)). intros n Hmin. split.
    + rewrite (u32_small (net + (2 ^ 32 - 1 - mask) - net - 1)) by lia.
      rewrite (u32_small (n - 1)) by lia.
      rewrite (u32_small (net + _)) by lia. rewrite (u32_small (_ - (n - 1))) by lia.
      rewrite uint32_range_ok by lia. f_equal. f_equal; lia.
    + apply Forall_seqZ. lia.
Qed.

Lemma subnetTailCandidates_witness :
  subnetTailCandidates (mkIPNet [192; 168; 122; 0] [255; 255; 255; 252]) 200
  = Ok [3232266753; 3232266754].
Proof.
  apply (subnetTailCandidates_spec "192.168.122.1" "255.255.255.252"
           (mkIPNet [192; 168; 122; 0] [255; 255; 255; 252]) 200);
    [vm_compute; reflexivity|lia|vm_compute; split; [discriminate|reflexivity]].
Defined.

(** ** Allocation is a search for the first usable address *)

Lemma probe_find candidates taken mac offset rounds :
  probe candidates taken mac offset rounds
  = List.find (usable taken mac)
      (map (fun i => formatIPv4
              (nth (Z.to_nat ((offset + Z.of_nat i) mod Z.of_nat (length candidates))) candidates 0)) rounds).
Proof. induction rounds as [|i rounds IH]; cbn; [done|]. by destruct (usable _ _ _). Qed.

(** Round after round, the search visits the candidates rotated to the offset. *)
Lemma probe_order (candidates : list Z) (k : nat) :
  (k < length candidates)%nat ->
  map (fun i => nth (Z.to_nat ((Z.of_nat k + Z.of_nat i) mod Z.of_nat (length candidates))) candidates 0)
      (seq 0 (length candidates))
  = rotate k candidates.
Proof.
  intros Hk. apply list_eq. intros i.
  destruct (decide (i < length candidates)%nat) as [Hi|Hi].
  - rewrite lookup_rotate_r by done. rewrite list_lookup_fmap, lookup_seq_lt by done.
    cbn [fmap option_fmap option_map]. cbn [Nat.add].
    replace (Z.to_nat ((Z.of_nat k + Z.of_nat i) mod Z.of_nat (length candidates)))
      with (rotate_nat_add k i (length candidates)) by (unfold rotate_nat_add; f_equal; f_equal; lia).
    assert (rotate_nat_add k i (length candidates) < length candidates)%nat as Hlt
      by (apply rotate_nat_add_lt; lia).
    by destruct (nth_lookup_or_length candidates (rotate_nat_add k i (length candidates)) 0); [|lia].
  - rewrite !lookup_ge_None_2; [done| |]; rewrite ?length_rotate, ?length_map, ?length_seq; lia.
Qed.

(** The order in which [allocateMachineIPIn] tries the addresses. *)
Definition search_order (candidates : list Z) (domainName : string) : list string :=
  map formatIPv4
    (rotate (Z.to_nat (hashDomainName domainName mod Z.of_nat (length candidates))) candidates).

Lemma allocate_find network domainName mac candidates :
  allocationCandidates network = Ok candidates -> candidates <> [] ->
  allocateMachineIPIn network domainName mac
  = match List.find (usable (hostIPSet network) mac) (search_order candidates domainName) with
    | Some ip => Ok ip
    | None => Err (ErrorString ("no free address in the machine reservation block of the network (name "
                                +:+ domainName +:+ ")"))
    end.
Proof.
  intros Hc Hne. unfold allocateMachineIPIn, search_order. rewrite Hc.
  cbn [mbind result_bind]. destruct (Nat.eqb_spec (length candidates) 0) as [H0|H0];
    [by apply length_zero_iff_nil in H0|].
  set (off := hashDomainName domainName mod Z.of_nat (length candidates)).
  assert (0 <= off < Z.of_nat (length candidates)) as Hoff by (apply Z.mod_pos_bound; lia).
  rewrite probe_find. rewrite <- (probe_order candidates (Z.to_nat off)) by lia.
  rewrite map_map. by replace (Z.of_nat (Z.to_nat off)) with off by lia.
Qed.

(** ** The set of taken addresses *)

(** No address is bound to two different MACs. *)
Definition ips_unique (hosts : list NetworkDHCPHost) : Prop :=
  forall h1 h2, h1 ∈ hosts -> h2 ∈ hosts ->
    host_IP h1 = host_IP h2 -> host_IP h1 <> "" ->
    strings_EqualFold (host_MAC h1) (host_MAC h2) = true.

Lemma add_hosts_Some hosts set ip m :
  add_hosts hosts set !! ip = Some m ->
  (exists h, h ∈ hosts /\ host_IP h = ip /\ host_MAC h = m /\ ip <> "") \/ set !! ip = Some m.
Proof.
  revert set. induction hosts as [|h hosts IH]; intros set; cbn [add_hosts]; [by right|].
  destruct (decide (host_IP h = "")) as [He|He]; intros H; apply IH in H as [(h' & Hin & ?)|H].
  - left. exists h'. split; [by apply list_elem_of_further|done].
  - by right.
  - left. exists h'. split; [by apply list_elem_of_further|done].
  - apply lookup_insert_Some in H as [[<- <-]|[_ H]]; [|by right].
    left. exists h. split; [apply list_elem_of_here|done].
Qed.

Lemma add_hosts_mono hosts set ip : is_Some (set !! ip) -> is_Some (add_hosts hosts set !! ip).
Proof.
  revert set. induction hosts as [|h hosts IH]; intros set Hs; cbn [add_hosts]; [done|].
  destruct (decide _); apply IH; [done|]. apply lookup_insert_is_Some. destruct (decide (host_IP h = ip)); eauto.
Qed.

Lemma add_hosts_bound hosts set h :
  h ∈ hosts -> host_IP h <> "" -> is_Some (add_hosts hosts set !! host_IP h).
Proof.
  revert set. induction hosts as [|h' hosts IH]; intros set Hin Hne; [by apply not_elem_of_nil in Hin|].
  cbn [add_hosts]. apply elem_of_cons in Hin as [->|Hin]; [|destruct (decide _); by apply IH].
  rewrite decide_False by done. apply add_hosts_mono. rewrite lookup_insert_eq. eauto.
Qed.

(** With unique addresses, an address is usable for a MAC exactly when every
    entry that binds it belongs to that MAC. *)
Lemma usable_spec network mac ip :
  ips_unique (all_hosts network) -> ip <> "" ->
  usable (hostIPSet network) mac ip = true <->
  (forall h, h ∈ all_hosts network -> host_IP h = ip -> strings_EqualFold (host_MAC h) mac = true).
Proof.
  intros Hu Hne. unfold usable, hostIPSet.
  destruct (add_hosts (all_hosts network) ∅ !! ip) as [owner|] eqn:E.
  - apply add_hosts_Some in E as [(h & Hin & Hip & <- & _)|E]; [|by rewrite lookup_empty in E].
    split.
    + intros Hm h' Hin' Hip'. eapply EqualFold_trans; [|exact Hm]. apply Hu; congruence.
    + intros Hall. by apply Hall.
  - split; [|done]. intros _ h Hin Hip.
    destruct (add_hosts_bound (all_hosts network) ∅ h Hin) as [x Hx]; [by rewrite Hip|].
    rewrite Hip in Hx. congruence.
Qed.

Lemma elem_of_search_order candidates domainName ip :
  ip ∈ search_order candidates domainName <-> exists c, c ∈ candidates /\ ip = formatIPv4 c.
Proof.
  unfold search_order. rewrite list_elem_of_fmap. setoid_rewrite elem_of_rotate. naive_solver.
Qed.

(** C31: the allocator is complete and safe.  It returns an address exactly when
    the search order (the candidates rotated to the hash of the domain name)
    holds an address that is usable for the MAC, and then it returns the first
    such one: a printed candidate that no other MAC is bound to in the network. *)
Theorem allocateMachineIPIn_spec network domainName mac candidates :
  allocationCandidates network = Ok candidates -> candidates <> [] ->
  (forall ip, allocateMachineIPIn network domainName mac = Ok ip <->
     List.find (usable (hostIPSet network) mac) (search_order candidates domainName) = Some ip) /\
  ((exists ip, allocateMachineIPIn network domainName mac = Ok ip) <->
     exists c, c ∈ candidates /\ usable (hostIPSet network) mac (formatIPv4 c) = true) /\
  (forall ip, allocateMachineIPIn network domainName mac = Ok ip ->
     (exists c, c ∈ candidates /\ ip = formatIPv4 c) /\
     match hostIPSet network !! ip with
     | None => True
     | Some owner => strings_EqualFold owner mac = true
     end).
Proof.
  intros Hc Hne. rewrite (allocate_find _ _ _ _ Hc Hne).
  destruct (List.find _ _) as [ip|] eqn:E.
  - split; [naive_solver|]. apply find_some in E as [Hin Hu].
    apply list_elem_of_In, elem_of_search_order in Hin as (c & Hin & ->).
    split; [naive_solver|]. intros ip [= <-]. split; [eauto|].
    unfold usable in Hu. by destruct (_ !! _).
  - split; [naive_solver|]. split; [|naive_solver]. split; [naive_solver|].
    intros (c & Hin & Hu). eapply find_none in E; [|apply list_elem_of_In, elem_of_search_order; eauto].
    congruence.
Qed.

Definition example_network : Network :=
  mkNetwork "default"
    [mkNetworkIP "192.168.122.1" "inet" "255.255.255.0"
       (Some (mkDHCP [mkRange "192.168.122.10" "192.168.122.12"]
                     [mkHost "52:54:00:00:00:01" "other" "192.168.122.10"]))].

Lemma allocateMachineIPIn_witness :
  exists ip, allocateMachineIPIn example_network "machine-a" (deriveDomainMAC "machine-a") = Ok ip.
Proof.
  apply (allocateMachineIPIn_spec example_network "machine-a" (deriveDomainMAC "machine-a")
           [3232266762; 3232266763; 3232266764]);
    [vm_compute; reflexivity|discriminate|].
  exists 3232266763. split; [|vm_compute; reflexivity].
  apply list_elem_of_In. cbn. tauto.
Defined.

(** ** MAC and IP text *)

Lemma chars_mac3 a b c :
  chars (HardwareAddr_String [82; 84; 0; a; b; c])
  = chars "52:54:00:" ++ hex2 a ++ ":"%char :: hex2 b ++ ":"%char :: hex2 c.
Proof.
  unfold HardwareAddr_String. cbn [map strings_Join]. rewrite !chars_app, !chars_str. done.
Qed.

Lemma u8_shift_mod24 x y :
  u8 x = u8 y /\ u8 (Z.shiftr x 8) = u8 (Z.shiftr y 8) /\ u8 (Z.shiftr x 16) = u8 (Z.shiftr y 16)
  <-> x mod 2 ^ 24 = y mod 2 ^ 24.
Proof. unfold u8. rewrite !Z.shiftr_div_pow2 by lia. split; solve_div. Qed.

(** The MAC of a domain is seventeen characters long, starts with libvirt's
    locally administered prefix 52:54:00, and two domain names have the same MAC
    exactly when the low 24 bits of their FNV-1a hashes agree. *)
Theorem deriveDomainMAC_spec d1 d2 :
  len (deriveDomainMAC d1) = 17 /\
  strings_HasPrefix (deriveDomainMAC d1) "52:54:00:" = true /\
  (deriveDomainMAC d1 = deriveDomainMAC d2 <->
   hashDomainName d1 mod 2 ^ 24 = hashDomainName d2 mod 2 ^ 24).
Proof.
  unfold deriveDomainMAC, hashDomainName.
  generalize (fnv64a (bytes_of d1)) (fnv64a (bytes_of d2)). intros x y. split; [|split].
  - unfold len. rewrite chars_mac3. done.
  - unfold strings_HasPrefix. by rewrite chars_mac3, strip_prefix_app.
  - rewrite <- u8_shift_mod24. split; [|by intros (-> & -> & ->)].
    intros H. apply (f_equal chars) in H. rewrite !chars_mac3 in H. apply app_inv_head in H.
    unfold hex2 in H. cbn [app] in H. injection H as H1 H2 H3 H4 H5 H6.
    repeat split; (apply hex2_inj; [apply u8_range..|]); unfold hex2; congruence.
Qed.

(** Printing a candidate and parsing the text gives the candidate back, so
    different candidates have different addresses. *)
Theorem formatIPv4_roundtrip v :
  0 <= v < 2 ^ 32 ->
  exists ip ip4, net_ParseIP (formatIPv4 v) = Some ip /\ To4 ip = Some ip4 /\ be_Uint32 ip4 = v.
Proof.
  intros Hv. unfold formatIPv4, be_PutUint32.
  eexists _, _. rewrite ParseIP_ip4_String by apply u8_range.
  split; [done|]. rewrite To4_v4InV6 by done. split; [done|].
  etransitivity; [apply be_Uint32_PutUint32|]. by apply u32_small.
Qed.

Lemma formatIPv4_roundtrip_witness :
  exists ip ip4, net_ParseIP (formatIPv4 3232266753) = Some ip /\ To4 ip = Some ip4 /\
    be_Uint32 ip4 = 3232266753.
Proof. apply (formatIPv4_roundtrip 3232266753). lia. Defined.

Lemma formatIPv4_nonempty v : formatIPv4 v <> "".
Proof.
  unfold formatIPv4, be_PutUint32. intros H. apply (f_equal net_ParseIP) in H.
  rewrite ParseIP_ip4_String in H by apply u8_range. discriminate H.
Qed.

Lemma lower_fixed c d : lower c = d -> byte_of d < 97 -> c = d.
Proof.
  unfold lower. destruct ((65 <=? byte_of c) && (byte_of c <=? 90)) eqn:E; [|done].
  apply andb_true_iff in E. rewrite !Z.leb_le in E. intros <-.
  rewrite byte_of_char_of, Z.mod_small by lia. lia.
Qed.

(** Text without letters has no other case: only itself folds to it. *)
Lemma EqualFold_caseless s t :
  Forall (fun c => byte_of c < 65) (chars t) -> strings_EqualFold s t = true -> s = t.
Proof.
  intros Ht. unfold strings_EqualFold. rewrite bool_decide_eq_true. intros H. apply chars_inj.
  revert H. generalize (chars s). induction Ht as [|d l Hd Hl IH]; intros [|c k]; try discriminate; [done|].
  cbn [map]. intros [= Hc Hk]. f_equal; [|by apply IH].
  assert (lower d = d) as Hld.
  { unfold lower. replace (65 <=? byte_of d) with false by (symmetry; apply Z.leb_gt; lia). done. }
  rewrite Hld in Hc. apply lower_fixed in Hc; [done|lia].
Qed.

Lemma formatIPv4_caseless v : Forall (fun c => byte_of c < 65) (chars (formatIPv4 v)).
Proof.
  unfold formatIPv4, be_PutUint32. rewrite chars_ip4_String.
  assert (forall b, Forall (fun c => byte_of c < 65) (chars (itoa (u8 b)))) as Hi.
  { intros b. unfold itoa. rewrite chars_str. pose proof (u8_range b).
    eapply Forall_impl; [apply digits_are_digits; lia|]. intros c Hc.
    apply is_digit_range in Hc. lia. }
  repeat (apply Forall_app; split; [apply Hi|]; apply Forall_cons; split; [vm_compute; done|]).
  apply Forall_app; split; [apply Hi|done].
Qed.

Lemma EqualFold_formatIPv4 s v : strings_EqualFold s (formatIPv4 v) = true -> s = formatIPv4 v.
Proof. apply EqualFold_caseless, formatIPv4_caseless. Qed.
