(* ===== verification/Reservation.v ===== *)
(** * What a static DHCP reservation guarantees

    [reserveMachineIP] and [releaseMachineIP] (machine_network.go) act on a
    libvirt network only through [networkOperations].  Class [NetworkLaws] says
    what the program relies on of that interface: the XML description parses to
    the network's configuration, and a successful update of the DHCP host
    section has the documented effect on it.  Under these laws the reservation
    functions keep the addresses of a network unique, are idempotent, and undo
    each other. *)

From stdpp Require Import base gmap list strings.
From Stdlib Require Import ZArith Lia.
From S2P Require Import Prelude GoStrings GoHash GoNet LibvirtXML RefXML MachineNetwork.

#[local] Arguments formatIPv4 : simpl never.
#[local] Arguments hostIPSet : simpl never.
#[local] Arguments search_order : simpl never.

Local Open Scope Z_scope.

(** ** The documented effect of [virNetworkUpdate] on DHCP hosts

    The program always passes parent index 0: the hosts of the first [<ip>]
    element.  MODIFY replaces the entry with the same MAC, DELETE removes the
    entry that matches the given one, ADD_LAST appends. *)

Definition same_mac (h : NetworkDHCPHost) (x : NetworkDHCPHost) : bool :=
  strings_EqualFold (host_MAC x) (host_MAC h).
Definition same_entry (h : NetworkDHCPHost) (x : NetworkDHCPHost) : bool :=
  same_mac h x && bool_decide (host_IP x = host_IP h).

Fixpoint replace_first (p : NetworkDHCPHost -> bool) (h : NetworkDHCPHost)
    (l : list NetworkDHCPHost) : option (list NetworkDHCPHost) :=
  match l with
  | [] => None
  | x :: k => if p x then Some (h :: k) else cons x <$> replace_first p h k
  end.

Fixpoint remove_first (p : NetworkDHCPHost -> bool) (l : list NetworkDHCPHost)
    : option (list NetworkDHCPHost) :=
  match l with
  | [] => None
  | x :: k => if p x then Some k else cons x <$> remove_first p k
  end.

Definition update_hosts (cmd : NetworkUpdateCommand) (h : NetworkDHCPHost)
    (hosts : list NetworkDHCPHost) : option (list NetworkDHCPHost) :=
  match cmd with
  | NETWORK_UPDATE_COMMAND_ADD_LAST => Some (hosts ++ [h])
  | NETWORK_UPDATE_COMMAND_MODIFY => replace_first (same_mac h) h hosts
  | NETWORK_UPDATE_COMMAND_DELETE => remove_first (same_entry h) hosts
  | NETWORK_UPDATE_COMMAND_NONE => None
  end.

Definition dhcp_ranges (ip : NetworkIP) : list NetworkDHCPRange :=
  match ip_DHCP ip with None => [] | Some d => dhcp_Ranges d end.

Definition set_hosts (ip : NetworkIP) (hosts : list NetworkDHCPHost) : NetworkIP :=
  mkNetworkIP (ip_Address ip) (ip_Family ip) (ip_Netmask ip) (Some (mkDHCP (dhcp_ranges ip) hosts)).

Definition update_network (cmd : NetworkUpdateCommand) (h : NetworkDHCPHost) (net : Network)
    : option Network :=
  match network_IPs net with
  | [] => None
  | ip :: rest =>
      (fun hosts => mkNetwork (network_Name net) (set_hosts ip hosts :: rest))
        <$> update_hosts cmd h (dhcp_hosts ip)
  end.

(** ** Laws of the interface *)

Class NetworkView (W N : Type) := net_view : W -> N -> Network.

Class NetworkLaws (W N : Type) `{LibvirtXML} `{!networkOperations W N} `{!NetworkView W N} : Prop := {
  GetXMLDesc_law n w xml w' :
    GetXMLDesc n 0 w = (Ok xml, w') ->
    Network_Unmarshal xml = Ok (net_view w n) /\ net_view w' = net_view w;
  Update_law n cmd h xml w w' :
    NetworkDHCPHost_Marshal h = Ok xml ->
    Update n cmd NETWORK_SECTION_IP_DHCP_HOST 0 xml 0 w = (Ok tt, w') ->
    update_network cmd h (net_view w n) = Some (net_view w' n);
}.

(** ** Host lists *)

Lemma find_host_Some hosts mac h :
  find_host hosts mac = Some h -> h ∈ hosts /\ strings_EqualFold (host_MAC h) mac = true.
Proof.
  induction hosts as [|x hosts IH]; cbn [find_host]; [discriminate|].
  destruct (strings_EqualFold (host_MAC x) mac) eqn:E.
  - intros [= <-]. split; [apply list_elem_of_here|done].
  - intros H. apply IH in H as [Hin ?]. split; [by apply list_elem_of_further|done].
Qed.

Lemma find_host_None hosts mac :
  find_host hosts mac = None <-> forall h, h ∈ hosts -> strings_EqualFold (host_MAC h) mac = false.
Proof.
  induction hosts as [|x hosts IH]; cbn [find_host].
  - split; [|done]. intros _ h Hin. by apply not_elem_of_nil in Hin.
  - destruct (strings_EqualFold (host_MAC x) mac) eqn:E.
    + split; [discriminate|]. intros H. rewrite H in E; [discriminate|apply list_elem_of_here].
    + rewrite IH. setoid_rewrite elem_of_cons. split; [by intros Hall h [->|Hin]; auto|auto].
Qed.

Lemma find_host_app l k mac :
  find_host (l ++ k) mac = match find_host l mac with Some h => Some h | None => find_host k mac end.
Proof. induction l as [|x l IH]; cbn; [done|]. by destruct (strings_EqualFold _ _). Qed.

(** MODIFY on the first hosts: the new entry takes the place of the first one
    with its MAC, so it is the one a lookup finds. *)
Lemma replace_first_spec h l l' :
  replace_first (same_mac h) h l = Some l' ->
  exists l1 x l2, l = l1 ++ x :: l2 /\ l' = l1 ++ h :: l2 /\
    find_host l1 (host_MAC h) = None /\ strings_EqualFold (host_MAC x) (host_MAC h) = true.
Proof.
  revert l'. induction l as [|x l IH]; intros l'; cbn [replace_first]; [discriminate|].
  unfold same_mac at 1. destruct (strings_EqualFold (host_MAC x) (host_MAC h)) eqn:E.
  - intros [= <-]. by exists [], x, l.
  - destruct (replace_first _ _ l) as [k|]; [|discriminate]. intros [= <-].
    destruct (IH k eq_refl) as (l1 & y & l2 & -> & -> & Hn & Hy).
    exists (x :: l1), y, l2. cbn [find_host]. by rewrite E.
Qed.

Lemma remove_first_spec p l l' :
  remove_first p l = Some l' ->
  exists l1 x l2, l = l1 ++ x :: l2 /\ l' = l1 ++ l2 /\ p x = true.
Proof.
  revert l'. induction l as [|x l IH]; intros l'; cbn [remove_first]; [discriminate|].
  destruct (p x) eqn:E; [intros [= <-]; by exists [], x, l|].
  destruct (remove_first p l) as [k|]; [|discriminate]. intros [= <-].
  destruct (IH k eq_refl) as (l1 & y & l2 & -> & -> & Hy). by exists (x :: l1), y, l2.
Qed.

(** An update changes the hosts in one place and nothing else. *)
Lemma update_network_hosts cmd h net net' :
  update_network cmd h net = Some net' ->
  exists hosts hosts' rest,
    update_hosts cmd h hosts = Some hosts' /\
    all_hosts net = hosts ++ rest /\ all_hosts net' = hosts' ++ rest.
Proof.
  unfold update_network, all_hosts. destruct (network_IPs net) as [|ip ips]; [discriminate|].
  destruct (update_hosts cmd h (dhcp_hosts ip)) as [hosts'|] eqn:E; [|discriminate].
  intros [= <-]. exists (dhcp_hosts ip), hosts', (concat (map dhcp_hosts ips)). done.
Qed.

Lemma update_network_candidates cmd h net net' :
  update_network cmd h net = Some net' -> allocationCandidates net' = allocationCandidates net.
Proof.
  unfold update_network, allocationCandidates. destruct (network_IPs net) as [|ip ips]; [discriminate|].
  destruct (update_hosts cmd h (dhcp_hosts ip)) as [hosts'|]; [|discriminate].
  intros [= <-]. cbn [network_IPs first_inet set_hosts ip_Family].
  destruct (decide (ip_Family ip = "inet")); [|done]. cbn [set_hosts ip_Address ip_Netmask ip_DHCP].
  unfold dhcp_ranges. by destruct (ip_DHCP ip).
Qed.

Lemma find_refine (p q : string -> bool) l x :
  List.find p l = Some x -> (forall y, y ∈ l -> p y = false -> q y = false) -> q x = true ->
  List.find q l = Some x.
Proof.
  induction l as [|y l IH]; cbn [List.find]; [discriminate|]. intros Hf Hpq Hx.
  destruct (p y) eqn:Ep; [injection Hf as ->; by rewrite Hx|].
  rewrite (Hpq y (list_elem_of_here _ _) Ep). apply IH; [done| |done].
  intros z Hz. apply Hpq. by apply list_elem_of_further.
Qed.

(** ** The effect of a planned update *)

Section Planned.
Context `{LX : LibvirtXML}.
Implicit Types (net : Network) (mac d ip : string).

(** What a plan says, with the search it came from. *)
Lemma planHostUpdate_inv net d mac p :
  planHostUpdate net d mac = Ok p ->
  exists cs c, allocationCandidates net = Ok cs /\ cs <> [] /\
    List.find (usable (hostIPSet net) mac) (search_order cs d) = Some (plan_ip p) /\
    plan_ip p = formatIPv4 c /\ c ∈ cs /\
    if plan_doUpdate p then
      NetworkDHCPHost_Marshal (mkHost mac d (plan_ip p)) = Ok (plan_xml p) /\
      plan_cmd p = match hostEntryInNetwork net mac with
                   | Some _ => NETWORK_UPDATE_COMMAND_MODIFY
                   | None => NETWORK_UPDATE_COMMAND_ADD_LAST
                   end
    else exists e, hostEntryInNetwork net mac = Some e /\ host_IP e = plan_ip p.
Proof.
  unfold planHostUpdate. destruct (allocateMachineIPIn net d mac) as [ip|e|] eqn:Ha; try discriminate.
  cbn [mbind result_bind]. intros H.
  destruct (allocationCandidates net) as [cs|e|] eqn:Hc;
    [|unfold allocateMachineIPIn in Ha; rewrite Hc in Ha; discriminate..].
  assert (cs <> []) as Hne by (intros ->; unfold allocateMachineIPIn in Ha; rewrite Hc in Ha; discriminate).
  rewrite (allocate_find _ _ _ _ Hc Hne) in Ha.
  destruct (List.find _ _) as [ip'|] eqn:Ef; [|discriminate]. injection Ha as ->.
  pose proof Ef as Hin. apply find_some in Hin as [Hin _].
  apply list_elem_of_In, elem_of_search_order in Hin as (c & Hin & ->).
  exists cs, c. unfold machineHostXML in H.
  destruct (hostEntryInNetwork net mac) as [e|] eqn:Eh.
  - destruct (bool_decide (host_IP e = "")) eqn:Eb; cbn [negb andb] in H.
    + destruct (NetworkDHCPHost_Marshal _) as [xml|?|] eqn:Em; cbn in H; try discriminate.
      injection H as <-. cbn. repeat split; try done.
    + destruct (strings_EqualFold (host_IP e) (formatIPv4 c)) eqn:Ee.
      * injection H as <-. cbn. repeat split; try done. exists e. split; [done|].
        by apply EqualFold_formatIPv4.
      * destruct (NetworkDHCPHost_Marshal _) as [xml|?|] eqn:Em; cbn in H; try discriminate.
        injection H as <-. cbn. repeat split; try done.
  - destruct (NetworkDHCPHost_Marshal _) as [xml|?|] eqn:Em; cbn in H; try discriminate.
    injection H as <-. cbn. repeat split; try done.
Qed.

(** The host list after the update: the new entry is the one found for the
    MAC, the entries of other MACs are the same. *)
Lemma planned_update_hosts net net' d mac ip :
  update_network (match hostEntryInNetwork net mac with
                  | Some _ => NETWORK_UPDATE_COMMAND_MODIFY
                  | None => NETWORK_UPDATE_COMMAND_ADD_LAST
                  end) (mkHost mac d ip) net = Some net' ->
  hostEntryInNetwork net' mac = Some (mkHost mac d ip) /\
  (forall h, h ∈ all_hosts net' -> h = mkHost mac d ip \/ h ∈ all_hosts net) /\
  (forall h, strings_EqualFold (host_MAC h) mac = false -> h ∈ all_hosts net -> h ∈ all_hosts net').
Proof.
  intros Hu. apply update_network_hosts in Hu as (hosts & hosts' & rest & Hu & Hall & Hall').
  unfold hostEntryInNetwork in *. rewrite Hall in *. rewrite Hall'.
  destruct (find_host (hosts ++ rest) mac) as [e|] eqn:Eh; cbn [update_hosts] in Hu.
  - apply replace_first_spec in Hu as (l1 & x & l2 & -> & -> & Hn & Hx). cbn [host_MAC] in *.
    rewrite <- !app_assoc. cbn [app]. repeat split.
    + rewrite find_host_app, Hn. cbn [find_host host_MAC]. by rewrite EqualFold_refl.
    + intros h. rewrite !elem_of_app, !elem_of_cons, !elem_of_app. tauto.
    + intros h Hm. rewrite !elem_of_app, !elem_of_cons, !elem_of_app.
      intros [?|[->|?]]; [tauto|congruence|tauto].
  - injection Hu as <-. rewrite find_host_app in Eh.
    destruct (find_host hosts mac) eqn:E1; [discriminate|]. repeat split.
    + rewrite <- app_assoc, find_host_app, E1. cbn [app find_host host_MAC]. by rewrite EqualFold_refl.
    + intros h. rewrite !elem_of_app, list_elem_of_singleton. tauto.
    + intros h _. rewrite !elem_of_app. tauto.
Qed.

Lemma planned_update_unique net net' d mac ip :
  ips_unique (all_hosts net) -> ip <> "" -> usable (hostIPSet net) mac ip = true ->
  (forall h, h ∈ all_hosts net' -> h = mkHost mac d ip \/ h ∈ all_hosts net) ->
  ips_unique (all_hosts net').
Proof.
  intros Hu Hne Hus Hsub h1 h2 H1 H2 Hip Hne1. rewrite usable_spec in Hus by done.
  destruct (Hsub h1 H1) as [->|H1'], (Hsub h2 H2) as [->|H2']; cbn in *.
  - apply EqualFold_refl.
  - rewrite EqualFold_sym. by apply Hus.
  - by apply Hus.
  - by apply Hu.
Qed.

(** After the update the same plan finds nothing left to do. *)
Lemma replan_done net net' d mac p h :
  ips_unique (all_hosts net) -> planHostUpdate net d mac = Ok p ->
  allocationCandidates net' = allocationCandidates net ->
  ips_unique (all_hosts net') ->
  hostEntryInNetwork net' mac = Some h -> host_IP h = plan_ip p ->
  (forall h, strings_EqualFold (host_MAC h) mac = false -> h ∈ all_hosts net -> h ∈ all_hosts net') ->
  planHostUpdate net' d mac = Ok (mkPlan (plan_ip p) "" NETWORK_UPDATE_COMMAND_NONE false).
Proof.
  intros Hu Hp Hc Hu' Hh Hip Hothers.
  apply planHostUpdate_inv in Hp as (cs & c & Hcs & Hne & Hf & Hpi & Hin & _).
  pose proof (formatIPv4_nonempty c) as Hn0. rewrite <- Hpi in Hn0.
  assert (allocateMachineIPIn net' d mac = Ok (plan_ip p)) as Ha.
  { rewrite <- Hc in Hcs. rewrite (allocate_find _ _ _ _ Hcs Hne).
    erewrite find_refine; [done|exact Hf| |].
    - intros a Ha Hus. apply elem_of_search_order in Ha as (c' & _ & ->).
      apply not_true_iff_false. intros Hus'. apply not_true_iff_false in Hus. apply Hus.
      rewrite usable_spec in Hus' |- * by (done || apply formatIPv4_nonempty).
      intros x Hx Hxip. destruct (strings_EqualFold (host_MAC x) mac) eqn:E; [done|].
      rewrite <- E. apply Hus'; [by apply Hothers|done].
    - apply usable_spec; [done..|]. intros x Hx Hxip.
      apply find_host_Some in Hh as [Hhin Hhm]. eapply EqualFold_trans; [|exact Hhm].
      apply Hu'; congruence. }
  unfold planHostUpdate. rewrite Ha. cbn [mbind result_bind]. rewrite Hh, Hip.
  rewrite bool_decide_eq_false_2 by done. rewrite EqualFold_refl. done.
Qed.
End Planned.

(** ** A reservation and its release, as steps of the network's configuration *)

Section Steps.
Context {LX : LibvirtXML}.
Implicit Types (net : Network) (mac d ip : string).

(** The configuration [net'] after reserving [ip] for [mac] on [net]. *)
Definition reserve_step d mac ip net net' : Prop :=
  exists p, planHostUpdate net d mac = Ok p /\ plan_ip p = ip /\
    if plan_doUpdate p then update_network (plan_cmd p) (mkHost mac d ip) net = Some net' else net' = net.

(** The configuration after releasing the reservation of [mac]. *)
Definition release_step d mac net net' : Prop :=
  match hostEntryInNetwork net mac with
  | None => net' = net
  | Some e => update_network NETWORK_UPDATE_COMMAND_DELETE (mkHost mac d (host_IP e)) net = Some net'
  end.

Lemma reserve_effect d mac ip net net' :
  ips_unique (all_hosts net) -> reserve_step d mac ip net net' ->
  allocationCandidates net' = allocationCandidates net /\
  (exists h, hostEntryInNetwork net' mac = Some h /\ host_IP h = ip) /\
  ips_unique (all_hosts net') /\
  (forall h, strings_EqualFold (host_MAC h) mac = false -> h ∈ all_hosts net -> h ∈ all_hosts net').
Proof.
  intros Hu (p & Hp & <- & He).
  apply planHostUpdate_inv in Hp as (cs & c & Hcs & Hne & Hf & Hpi & Hin & Hd).
  destruct (plan_doUpdate p);
    [|destruct Hd as (e & ? & ?); rewrite He; split; [done|]; split; [eauto|done]].
  destruct Hd as [_ Hcmd]. rewrite Hcmd in He.
  split; [by eapply update_network_candidates|].
  apply planned_update_hosts in He as (Hh & Hsub & Hoth). split; [eauto|]. split; [|done].
  eapply planned_update_unique; [done| | |exact Hsub].
  - rewrite Hpi. apply formatIPv4_nonempty.
  - by apply find_some in Hf as [_ Hus].
Qed.

(** Every MAC has at most one entry. *)
Definition folded_mac (h : NetworkDHCPHost) : list Ascii.ascii := map lower (chars (host_MAC h)).
Definition macs_unique (hosts : list NetworkDHCPHost) : Prop := NoDup (map folded_mac hosts).

(** The entries of the other MACs. *)
Definition other_macs (mac : string) (hosts : list NetworkDHCPHost) : list NetworkDHCPHost :=
  filter (fun h => strings_EqualFold (host_MAC h) mac = false) hosts.

Lemma other_macs_none hosts mac :
  find_host hosts mac = None -> other_macs mac hosts = hosts.
Proof.
  rewrite find_host_None. unfold other_macs. induction hosts as [|h hosts IH]; [done|]. intros Hall.
  rewrite filter_cons_True by (apply Hall, list_elem_of_here). f_equal. apply IH.
  intros x Hx. by apply Hall, list_elem_of_further.
Qed.

Lemma folded_mac_not_elem l x mac :
  strings_EqualFold (host_MAC x) mac = true ->
  folded_mac x ∉ map folded_mac l <-> find_host l mac = None.
Proof.
  unfold strings_EqualFold. rewrite bool_decide_eq_true, find_host_None. intros Hx.
  rewrite list_elem_of_fmap. unfold strings_EqualFold. setoid_rewrite bool_decide_eq_false.
  unfold folded_mac. rewrite Hx. split.
  - intros Hn h Hin Heq. apply Hn. by exists h.
  - intros Hall (h & Heq & Hin). by apply (Hall h Hin).
Qed.

Lemma macs_unique_middle l x k mac :
  strings_EqualFold (host_MAC x) mac = true ->
  macs_unique (l ++ x :: k) <->
  macs_unique (l ++ k) /\ find_host l mac = None /\ find_host k mac = None.
Proof.
  intros Hx. unfold macs_unique. rewrite !map_app. cbn [map].
  rewrite <- Permutation_middle, NoDup_cons, not_elem_of_app.
  rewrite !(folded_mac_not_elem _ _ _ Hx). tauto.
Qed.

(** What a release does to the host list. *)
Lemma release_hosts d mac net net' :
  macs_unique (all_hosts net) -> release_step d mac net net' ->
  (hostEntryInNetwork net mac = None /\ net' = net) \/
  exists l x k, strings_EqualFold (host_MAC x) mac = true /\
    all_hosts net = l ++ x :: k /\ all_hosts net' = l ++ k /\
    find_host l mac = None /\ find_host k mac = None.
Proof.
  intros Hu. unfold release_step. destruct (hostEntryInNetwork net mac) as [e|];
    intros Hr; [right|by left].
  apply update_network_hosts in Hr as (hosts & hosts' & rest & Hupd & Hall & Hall').
  apply remove_first_spec in Hupd as (l1 & x & l2 & -> & -> & Hsame).
  apply andb_true_iff in Hsame as [Hsame _]. unfold same_mac in Hsame. cbn [host_MAC] in Hsame.
  rewrite <- app_assoc in Hall, Hall'. cbn [app] in Hall. exists l1, x, (l2 ++ rest).
  repeat split; try done; rewrite Hall in Hu; by eapply macs_unique_middle in Hu as (_ & ? & ?).
Qed.

Lemma release_effect d mac net net' :
  macs_unique (all_hosts net) -> release_step d mac net net' ->
  all_hosts net' = other_macs mac (all_hosts net) /\
  hostEntryInNetwork net' mac = None /\
  (hostEntryInNetwork net mac = None -> net' = net).
Proof.
  intros Hu Hr. apply release_hosts in Hr as [[Hn ->]|(l & x & k & Hx & Hall & Hall' & Hl & Hk)];
    [| |done].
  - split; [symmetry; by apply other_macs_none|done].
  - unfold hostEntryInNetwork. rewrite Hall, Hall'. unfold other_macs.
    rewrite filter_app, filter_cons_False by congruence. fold (other_macs mac l) (other_macs mac k).
    rewrite !other_macs_none, !find_host_app by done. rewrite Hl. cbn [find_host]. rewrite Hx, Hk.
    split; [done|]. split; [done|discriminate].
Qed.

(** Reserving for a MAC without an entry adds one entry, at one place. *)
Lemma reserve_adds d mac ip net net' :
  hostEntryInNetwork net mac = None -> reserve_step d mac ip net net' ->
  exists l k, all_hosts net = l ++ k /\ all_hosts net' = l ++ mkHost mac d ip :: k /\
    find_host l mac = None /\ find_host k mac = None.
Proof.
  intros Hnone (p & Hp & Hip & He).
  apply planHostUpdate_inv in Hp as (cs & c & _ & _ & _ & _ & _ & Hdo).
  destruct (plan_doUpdate p); [|destruct Hdo as (e & ? & _); congruence].
  destruct Hdo as [_ Hcmd]. rewrite Hnone in Hcmd. rewrite Hcmd in He.
  apply update_network_hosts in He as (hosts & hosts' & rest & [= <-] & Hall & Hall').
  rewrite <- app_assoc in Hall'. cbn [app] in Hall'. unfold hostEntryInNetwork in Hnone.
  rewrite Hall, find_host_app in Hnone. destruct (find_host hosts mac) eqn:Hn1; [discriminate|].
  by exists hosts, rest.
Qed.
(** Whether the MAC had an entry or not, the other MACs keep theirs, in order. *)
Lemma update_others h hosts hosts' cmd :
  cmd = NETWORK_UPDATE_COMMAND_ADD_LAST \/ cmd = NETWORK_UPDATE_COMMAND_MODIFY ->
  update_hosts cmd h hosts = Some hosts' -> other_macs (host_MAC h) hosts' = other_macs (host_MAC h) hosts.
Proof.
  pose proof (EqualFold_refl (host_MAC h)) as Hh. unfold other_macs. intros [->| ->]; cbn [update_hosts].
  - intros [= <-]. rewrite filter_app, filter_cons_False by congruence. by rewrite filter_nil, app_nil_r.
  - intros (l1 & x & l2 & -> & -> & _ & Hx)%replace_first_spec. rewrite !filter_app, !filter_cons_False by congruence.
    done.
Qed.
Lemma reserve_others d mac ip net net' :
  reserve_step d mac ip net net' -> other_macs mac (all_hosts net') = other_macs mac (all_hosts net).
Proof.
  intros (p & Hp & Hip & He). apply planHostUpdate_inv in Hp as (cs & c & _ & _ & _ & _ & _ & Hdo).
  destruct (plan_doUpdate p); [|by subst]. destruct Hdo as [_ Hcmd].
  apply update_network_hosts in He as (hosts & hosts' & rest & Hu & -> & ->).
  apply update_others in Hu; [|rewrite Hcmd; destruct (hostEntryInNetwork net mac); auto].
  cbn [host_MAC] in Hu. unfold other_macs in *. by rewrite !filter_app, Hu.
Qed.

Lemma EqualFold_folded x mac : strings_EqualFold (host_MAC x) mac = true <-> folded_mac x = map lower (chars mac).
Proof. unfold strings_EqualFold. by rewrite bool_decide_eq_true. Qed.
Lemma modify_macs e net net' :
  update_network NETWORK_UPDATE_COMMAND_MODIFY e net = Some net' ->
  map folded_mac (all_hosts net') = map folded_mac (all_hosts net).
Proof.
  intros Hu. apply update_network_hosts in Hu as (l & l' & rest & Hu & -> & ->).
  apply replace_first_spec in Hu as (l1 & x & l2 & -> & -> & _ & Hx). apply EqualFold_folded in Hx.
  rewrite !map_app. cbn [map]. by rewrite Hx.
Qed.
Lemma reserve_macs_unique d mac ip net net' :
  macs_unique (all_hosts net) -> reserve_step d mac ip net net' -> macs_unique (all_hosts net').
Proof.
  intros Hmu Hr. destruct (hostEntryInNetwork net mac) as [e|] eqn:He.
  - destruct Hr as (p & Hp & <- & Hr). apply planHostUpdate_inv in Hp as (cs & c & _ & _ & _ & _ & _ & Hd).
    rewrite He in Hd. destruct (plan_doUpdate p); [|by subst]. destruct Hd as [_ Hcmd]. rewrite Hcmd in Hr.
    unfold macs_unique. by rewrite (modify_macs _ _ _ Hr).
  - destruct (reserve_adds _ _ _ _ _ He Hr) as (l & k & Hall & -> & Hl & Hk).
    apply (macs_unique_middle _ _ _ mac); [apply EqualFold_refl|]. by rewrite <- Hall.
Qed.

(** The entry that a lookup finds is the only one. *)
Lemma macs_unique_entry hosts mac h :
  macs_unique hosts -> find_host hosts mac = Some h ->
  filter (fun x => strings_EqualFold (host_MAC x) mac = true) hosts = [h].
Proof.
  assert (forall l, find_host l mac = None -> filter (fun x => strings_EqualFold (host_MAC x) mac = true) l = []) as Hnone.
  { intros l Hl. rewrite find_host_None in Hl. apply filter_nil_iff, Forall_forall. intros x Hx. by rewrite (Hl x Hx). }
  intros Hu Hf. apply find_host_Some in Hf as [(l & k & ->)%list_elem_of_split Hh].
  apply (macs_unique_middle _ _ _ mac Hh) in Hu as (_ & Hl & Hk).
  by rewrite filter_app, filter_cons_True, !Hnone.
Qed.

Lemma reserve_release_steps d mac ip net net1 net2 :
  macs_unique (all_hosts net) -> reserve_step d mac ip net net1 -> release_step d mac net1 net2 ->
  all_hosts net2 = other_macs mac (all_hosts net).
Proof.
  intros Hmu Hr Hd. pose proof (reserve_macs_unique _ _ _ _ _ Hmu Hr) as Hmu1.
  destruct (release_effect _ _ _ _ Hmu1 Hd) as (-> & _). by apply (reserve_others d _ ip).
Qed.
End Steps.

(** ** The reservation functions *)

Section Reserve.
  Context {W N : Type} {LX : LibvirtXML} {NO : networkOperations W N} {NV : NetworkView W N}.
  Context {NLaws : NetworkLaws W N}.
  Implicit Types (n : N) (w : W) (mac d ip nm : string).

Lemma networkXML_ok n w net w' :
  networkXML n w = (Ok net, w') -> net = net_view w n /\ net_view w' = net_view w.
Proof.
  unfold networkXML. intros Hx. go_inv1 Hx. go_inv1 Hm. apply GetXMLDesc_law in Hm as [Hp Hv].
  unfold lift in Hx. rewrite Hp in Hx. by injection Hx as <- <-.
Qed.

(** A successful reservation followed a plan for the configuration it read, and
    left the network with the planned update applied to it. *)
Lemma reserveMachineIP_inv n nm d mac w ip w' :
  reserveMachineIP n nm d mac w = (Ok ip, w') -> reserve_step d mac ip (net_view w n) (net_view w' n).
Proof.
  unfold reserveMachineIP. intros Hr. go_inv1 Hr. apply networkXML_ok in Hm as [-> Hv].
  go_inv1 Hr. unfold lift in Hm. injection Hm as Hp <-. exists a. split; [done|].
  destruct (plan_doUpdate a) eqn:Hd; cbn [negb] in Hr.
  - go_inv1 Hr. go_inv1 Hm. injection Hr as Hip <-. split; [done|]. subst ip.
    apply planHostUpdate_inv in Hp as (cs & c & _ & _ & _ & _ & _ & Hp). rewrite Hd in Hp.
    destruct Hp as [Hxml _]. destruct a0. eapply Update_law in Hm; [|exact Hxml]. by rewrite Hv in Hm.
  - injection Hr as Hip <-. split; [done|]. by rewrite Hv.
Qed.

Lemma releaseMachineIP_inv n nm d mac w w' :
  releaseMachineIP n nm d mac w = (Ok tt, w') -> release_step d mac (net_view w n) (net_view w' n).
Proof.
  unfold releaseMachineIP, release_step. intros Hr. go_inv1 Hr. apply networkXML_ok in Hm as [-> Hv].
  destruct (hostEntryInNetwork (net_view w n) mac) as [e|] eqn:He; [|injection Hr as <-; by rewrite Hv].
  go_inv1 Hr. unfold lift, machineHostXML in Hm. injection Hm as Hx <-.
  destruct (NetworkDHCPHost_Marshal _) as [xml|?|] eqn:Hx'; try discriminate Hx. injection Hx as ->.
  go_inv1 Hr. eapply Update_law in Hr; [|exact Hx']. by rewrite Hv in Hr.
Qed.

(** C12: a successful reservation leaves the network with an entry that binds the
    machine's MAC to the returned address, which is one of the network's candidates;
    it is the only entry for the MAC if the network had at most one entry for each;
    the entries of the other MACs are the same as before, in the same order; and the
    network still binds no address to two MACs. *)
Theorem reserveMachineIP_safe n nm d mac w ip w' :
  ips_unique (all_hosts (net_view w n)) ->
  reserveMachineIP n nm d mac w = (Ok ip, w') ->
  (exists h, hostEntryInNetwork (net_view w' n) mac = Some h /\ host_IP h = ip /\
     (macs_unique (all_hosts (net_view w n)) ->
      filter (fun x => strings_EqualFold (host_MAC x) mac = true) (all_hosts (net_view w' n)) = [h])) /\
  (exists cs c, allocationCandidates (net_view w n) = Ok cs /\ c ∈ cs /\ ip = formatIPv4 c) /\
  other_macs mac (all_hosts (net_view w' n)) = other_macs mac (all_hosts (net_view w n)) /\
  ips_unique (all_hosts (net_view w' n)).
Proof.
  intros Hu Hr. apply reserveMachineIP_inv in Hr.
  pose proof (reserve_effect _ _ _ _ _ Hu Hr) as (_ & (h & Hh & Hip) & Hu' & _). split_and!; [| | |done].
  - exists h. split_and!; [done..|]. intros Hmu. apply macs_unique_entry; [|done]. by eapply reserve_macs_unique.
  - destruct Hr as (p & Hp & <- & _).
    apply planHostUpdate_inv in Hp as (cs & c & Hcs & _ & _ & Hpi & Hin & _). by exists cs, c.
  - by eapply reserve_others.
Qed.

(** Reserving again after a successful reservation is a no-op: the new plan
    is the same address with no update, and the call returns it leaving the
    network as it is. *)
Theorem reserveMachineIP_idempotent n nm d mac w ip w' :
  ips_unique (all_hosts (net_view w n)) ->
  reserveMachineIP n nm d mac w = (Ok ip, w') ->
  planHostUpdate (net_view w' n) d mac = Ok (mkPlan ip "" NETWORK_UPDATE_COMMAND_NONE false) /\
  (forall r w'', reserveMachineIP n nm d mac w' = (Ok r, w'') ->
     r = ip /\ net_view w'' n = net_view w' n).
Proof.
  intros Hu Hr. apply reserveMachineIP_inv in Hr.
  pose proof (reserve_effect _ _ _ _ _ Hu Hr) as (Hc & (h & Hh & Hhip) & Hu' & Hoth).
  destruct Hr as (p & Hp & Hip & _).
  assert (planHostUpdate (net_view w' n) d mac = Ok (mkPlan ip "" NETWORK_UPDATE_COMMAND_NONE false)) as Hp'.
  { subst ip. by eapply (replan_done (net_view w n)). }
  split; [done|]. intros r w'' Hr. apply reserveMachineIP_inv in Hr as (p' & Hp2 & <- & He').
  rewrite Hp' in Hp2. injection Hp2 as <-. cbn in He'. done.
Qed.

(** A successful release of a machine's reservation on a network with one
    entry per MAC removes exactly the machine's entry: no entry for the MAC is
    left and all other entries remain in order.  A missing entry is not an error
    and changes nothing. *)
Theorem releaseMachineIP_spec n nm d mac w w' :
  macs_unique (all_hosts (net_view w n)) ->
  releaseMachineIP n nm d mac w = (Ok tt, w') ->
  all_hosts (net_view w' n) = other_macs mac (all_hosts (net_view w n)) /\
  hostEntryInNetwork (net_view w' n) mac = None /\
  (hostEntryInNetwork (net_view w n) mac = None -> net_view w' n = net_view w n).
Proof. intros Hu Hr. apply releaseMachineIP_inv in Hr. by eapply release_effect. Qed.

(** C30: releasing what was reserved leaves exactly the entries of the other MACs, in
    order, on a network that has at most one entry for each MAC: for a machine with
    no entry before, the same list as before the reservation; a machine that had one
    already has none. *)
Theorem reserve_release_roundtrip n nm d mac w ip w1 w2 :
  macs_unique (all_hosts (net_view w n)) ->
  reserveMachineIP n nm d mac w = (Ok ip, w1) ->
  releaseMachineIP n nm d mac w1 = (Ok tt, w2) ->
  all_hosts (net_view w2 n) = other_macs mac (all_hosts (net_view w n)) /\
  (hostEntryInNetwork (net_view w n) mac = None -> all_hosts (net_view w2 n) = all_hosts (net_view w n)).
Proof.
  intros Hmu Hr Hd. apply reserveMachineIP_inv in Hr. apply releaseMachineIP_inv in Hd.
  rewrite (reserve_release_steps _ _ _ _ _ _ Hmu Hr Hd). split; [done|]. by apply other_macs_none.
Qed.
End Reserve.

(** ** The laws hold of a network kept in memory *)

Module RefNetwork.

#[local] Existing Instance RefXML.

(** The world is the network itself, and there is one handle. *)
#[export] Instance ops : networkOperations Network unit := {|
  GetXMLDesc _ _ w := (Ok (write_doc w), w);
  Update _ cmd section _ xml _ w :=
    match section, read_doc xml with
    | NETWORK_SECTION_IP_DHCP_HOST, Some h =>
        match update_network cmd h w with
        | Some w' => (Ok tt, w')
        | None => (Err (LibvirtError (ERR_OTHER 55) "virError: no such entry"), w)
        end
    | _, _ => (Err (LibvirtError (ERR_OTHER 27) "virError: bad XML"), w)
    end;
  GetDHCPLeases _ w := (Ok [], w);
|}.

#[export] Instance view : NetworkView Network unit := fun w _ => w.

#[export] Instance laws : NetworkLaws Network unit.
Proof.
  split.
  - intros n w xml w' [= <- <-]. split; [|done]. cbn [Network_Unmarshal RefXML].
    by rewrite read_write_doc.
  - intros n cmd h xml w w' [= <-]. cbn [Update ops]. rewrite read_write_doc.
    unfold net_view, view. destruct (update_network cmd h w); [|discriminate]. by intros [= ->].
Qed.

End RefNetwork.

#[local] Existing Instance RefXML.
#[local] Existing Instance RefNetwork.ops.
#[local] Existing Instance RefNetwork.view.
#[local] Existing Instance RefNetwork.laws.

Lemma example_ips_unique : ips_unique (all_hosts example_network).
Proof.
  intros h1 h2 H1 H2 _ _. cbn in H1, H2. apply list_elem_of_singleton in H1, H2.
  subst. apply EqualFold_refl.
Qed.

Lemma example_macs_unique : macs_unique (all_hosts example_network).
Proof. apply NoDup_singleton. Qed.

Definition machine_a_mac : string := deriveDomainMAC "machine-a".
Definition reserved_a : Network :=
  mkNetwork "default"
    [mkNetworkIP "192.168.122.1" "inet" "255.255.255.0"
       (Some (mkDHCP [mkRange "192.168.122.10" "192.168.122.12"]
                     [mkHost "52:54:00:00:00:01" "other" "192.168.122.10";
                      mkHost "52:54:00:a8:a9:c8" "machine-a" "192.168.122.12"]))].

Lemma reserve_a :
  reserveMachineIP tt "default" "machine-a" machine_a_mac example_network
  = (Ok "192.168.122.12", reserved_a).
Proof. vm_compute. reflexivity. Qed.

Lemma release_a :
  releaseMachineIP tt "default" "machine-a" machine_a_mac reserved_a = (Ok tt, example_network).
Proof. vm_compute. reflexivity. Qed.

Lemma reserved_a_macs_unique : macs_unique (all_hosts reserved_a).
Proof. unfold macs_unique. apply (bool_decide_unpack _). vm_compute. exact I. Qed.

Lemma reserveMachineIP_safe_witness :
  filter (fun x => strings_EqualFold (host_MAC x) machine_a_mac = true) (all_hosts reserved_a) =
    [mkHost "52:54:00:a8:a9:c8" "machine-a" "192.168.122.12"] /\
  other_macs machine_a_mac (all_hosts reserved_a) = all_hosts example_network.
Proof.
  destruct (reserveMachineIP_safe tt "default" "machine-a" machine_a_mac example_network
              "192.168.122.12" reserved_a example_ips_unique reserve_a) as ((h & Hh & _ & Hone) & _ & Ho & _).
  specialize (Hone example_macs_unique). vm_compute in Hh. injection Hh as <-. split; [exact Hone|].
  etransitivity; [exact Ho|]. vm_compute. reflexivity.
Defined.

Lemma reserveMachineIP_idempotent_witness :
  planHostUpdate (net_view reserved_a tt) "machine-a" machine_a_mac
  = Ok (mkPlan "192.168.122.12" "" NETWORK_UPDATE_COMMAND_NONE false).
Proof.
  destruct (reserveMachineIP_idempotent tt "default" "machine-a" machine_a_mac example_network
              "192.168.122.12" reserved_a example_ips_unique reserve_a) as [H _].
  exact H.
Defined.

Lemma releaseMachineIP_witness :
  hostEntryInNetwork (net_view example_network tt) machine_a_mac = None.
Proof.
  destruct (releaseMachineIP_spec tt "default" "machine-a" machine_a_mac reserved_a example_network
              reserved_a_macs_unique release_a) as (_ & H & _).
  exact H.
Defined.

Lemma reserve_again_a :
  reserveMachineIP tt "default" "machine-a" machine_a_mac reserved_a = (Ok "192.168.122.12", reserved_a).
Proof. vm_compute. reflexivity. Qed.

(** From a network without an entry, and from one that has it already. *)
Lemma reserve_release_witness :
  all_hosts example_network = other_macs machine_a_mac (all_hosts example_network) /\
  all_hosts example_network = other_macs machine_a_mac (all_hosts reserved_a).
Proof.
  split.
  - exact (proj1 (reserve_release_roundtrip tt "default" "machine-a" machine_a_mac example_network
             "192.168.122.12" reserved_a example_network example_macs_unique reserve_a release_a)).
  - exact (proj1 (reserve_release_roundtrip tt "default" "machine-a" machine_a_mac reserved_a
             "192.168.122.12" reserved_a example_network reserved_a_macs_unique reserve_again_a release_a)).
Defined.
