(* ===== verification/Libvirt.v ===== *)
(** * The libvirt library (libvirt.org/go/libvirt)

    The calls the provider makes of libvirt, as operations on a world [W], and
    what the provider relies on of them, as laws about two observations of the
    world: the state of the host (its networks, pools, volumes and domains) and
    the number of handles that are open.  The laws describe one libvirt host,
    the one the connections lead to.

    A handle is a Go pointer returned by a lookup; [Free] and [Close] give it
    back and their results are ignored by the program. *)

From stdpp Require Import base gmap list strings.
From Stdlib Require Import ZArith Lia.
From S2P Require Import Prelude GoStrings LibvirtXML MachineNetwork Reservation.

Local Open Scope Z_scope.

(** ** Operations *)

(** [libvirt.DomainState] *)
Inductive virDomainState :=
  | DOMAIN_NOSTATE | DOMAIN_RUNNING | DOMAIN_BLOCKED | DOMAIN_PAUSED | DOMAIN_SHUTDOWN
  | DOMAIN_SHUTOFF | DOMAIN_CRASHED | DOMAIN_PMSUSPENDED.
#[global] Instance virDomainState_eq_dec : EqDecision virDomainState.
Proof. solve_decision. Defined.

(** A [bytes.Reader]: the bytes and the read position. *)
Record Reader := mkReader { reader_s : list Ascii.ascii; reader_i : nat }.

(** The callback type of [Stream.SendAll]: asked for at most [n] bytes, it returns
    some, none when it has finished, or an error; its captured variables are the
    reader. *)
Definition SourceFunc : Type := Z -> Reader -> result (list Ascii.ascii) * Reader.

Class Libvirt (W : Type) := {
  Connect : Type;
  virNetwork : Type;
  StoragePool : Type;
  StorageVol : Type;
  virDomain : Type;
  Stream : Type;

  NewConnect : string -> M W Connect;
  Connect_Close : Connect -> W -> W;

  LookupNetworkByName : Connect -> string -> M W virNetwork;
  Network_IsActive : virNetwork -> M W bool;
  Network_operations :: networkOperations W virNetwork;
  Network_Free : virNetwork -> W -> W;

  LookupStoragePoolByName : Connect -> string -> M W StoragePool;
  StoragePool_IsActive : StoragePool -> M W bool;
  StoragePool_Free : StoragePool -> W -> W;

  LookupStorageVolByName : StoragePool -> string -> M W StorageVol;
  StorageVolCreateXML : StoragePool -> string -> Z -> M W StorageVol;
  StorageVol_GetPath : StorageVol -> M W string;
  StorageVol_Delete : StorageVol -> Z -> M W unit;
  StorageVol_Upload : StorageVol -> Stream -> Z -> Z -> Z -> M W unit;
  StorageVol_Free : StorageVol -> W -> W;

  NewStream : Connect -> Z -> M W Stream;
  Stream_SendAll : Stream -> SourceFunc -> Reader -> M W unit;
  Stream_Abort : Stream -> W -> W;
  Stream_Finish : Stream -> M W unit;
  Stream_Free : Stream -> W -> W;

  LookupDomainByName : Connect -> string -> M W virDomain;
  DomainDefineXML : Connect -> string -> M W virDomain;
  Domain_SetAutostart : virDomain -> bool -> M W unit;
  Domain_Create : virDomain -> M W unit;
  Domain_Destroy : virDomain -> M W unit;
  Domain_Undefine : virDomain -> M W unit;
  Domain_IsActive : virDomain -> M W bool;
  Domain_GetState : virDomain -> M W virDomainState;
  Domain_Free : virDomain -> W -> W;
}.

(** [isLibvirtErr(err, code)] of infra.go *)
Definition isLibvirtErr (err : error) (code : ErrorNumber) : bool :=
  match errors_As sel_libvirt err with
  | Some c => bool_decide (c = code)
  | None => false
  end.

(** ** Open handles

    A call that returns a handle opens one, giving it back closes it. *)
Class HandleCount (W : Type) := handles : W -> Z.

Definition Acquires {W A} `{HandleCount W} (m : M W A) : Prop :=
  forall w, match (m w).1 with
            | Ok _ => handles (m w).2 = handles w + 1
            | Err _ => handles (m w).2 = handles w
            | Diverge => True
            end.
(** [m] returns with as many handles open as when it was called, whatever it
    returns. *)
Definition Balanced {W A} `{HandleCount W} (m : M W A) : Prop :=
  forall w, (m w).1 <> Diverge -> handles (m w).2 = handles w.
Definition Releases {W} `{HandleCount W} (f : W -> W) : Prop := forall w, handles (f w) = handles w - 1.

Class HandleLaws (W : Type) `{!Libvirt W} `{!HandleCount W} : Prop := {
  NewConnect_acquires uri : Acquires (NewConnect uri);
  Close_releases c : Releases (Connect_Close c);
  LookupNetwork_acquires c n : Acquires (LookupNetworkByName c n);
  Network_IsActive_balanced n : Balanced (Network_IsActive n);
  GetXMLDesc_balanced n f : Balanced (GetXMLDesc (N := virNetwork) n f);
  Update_balanced n cmd sec i xml f : Balanced (Update (N := virNetwork) n cmd sec i xml f);
  GetDHCPLeases_balanced n : Balanced (GetDHCPLeases (N := virNetwork) n);
  Network_Free_releases n : Releases (Network_Free n);
  LookupPool_acquires c n : Acquires (LookupStoragePoolByName c n);
  Pool_IsActive_balanced p : Balanced (StoragePool_IsActive p);
  Pool_Free_releases p : Releases (StoragePool_Free p);
  LookupVol_acquires p n : Acquires (LookupStorageVolByName p n);
  VolCreate_acquires p xml f : Acquires (StorageVolCreateXML p xml f);
  GetPath_balanced v : Balanced (StorageVol_GetPath v);
  VolDelete_balanced v f : Balanced (StorageVol_Delete v f);
  Upload_balanced v s o l f : Balanced (StorageVol_Upload v s o l f);
  Vol_Free_releases v : Releases (StorageVol_Free v);
  NewStream_acquires c f : Acquires (NewStream c f);
  SendAll_balanced s h r : Balanced (Stream_SendAll s h r);
  Abort_keeps s w : handles (Stream_Abort s w) = handles w;
  Finish_balanced s : Balanced (Stream_Finish s);
  Stream_Free_releases s : Releases (Stream_Free s);
  LookupDomain_acquires c n : Acquires (LookupDomainByName c n);
  Define_acquires c xml : Acquires (DomainDefineXML c xml);
  SetAutostart_balanced d b : Balanced (Domain_SetAutostart d b);
  Domain_Create_balanced d : Balanced (Domain_Create d);
  Domain_Destroy_balanced d : Balanced (Domain_Destroy d);
  Domain_Undefine_balanced d : Balanced (Domain_Undefine d);
  Domain_IsActive_balanced d : Balanced (Domain_IsActive d);
  Domain_GetState_balanced d : Balanced (Domain_GetState d);
  Domain_Free_releases d : Releases (Domain_Free d);
}.

Section BalancedLemmas.
Context {W : Type} `{HandleCount W}.
Lemma balanced_ret {A} (a : A) : Balanced (W := W) (mret a).
Proof. by intros w. Qed.
Lemma balanced_fail {A} e : Balanced (W := W) (fail (A := A) e).
Proof. by intros w. Qed.
Lemma balanced_lift {A} (r : result A) : Balanced (W := W) (lift r).
Proof. by intros w. Qed.
Lemma balanced_bind {A B} (m : M W A) (f : A -> M W B) :
  Balanced m -> (forall a, Balanced (f a)) -> Balanced (m ≫= f).
Proof.
  intros Hm Hf w. unfold mbind, M_bind. specialize (Hm w).
  destruct (m w) as [[a|e|] w1]; cbn in *; [|auto..].
  intros Hd. rewrite (Hf a w1 Hd). by apply Hm.
Qed.
Lemma balanced_wrap {A} g (m : M W A) : Balanced m -> Balanced (wrap_err g m).
Proof. intros Hm w. specialize (Hm w). unfold wrap_err. destruct (m w) as [[a|e|] w1]; cbn in *; auto. Qed.
Lemma balanced_try {A} (m : M W A) : Balanced m -> Balanced (try m).
Proof. intros Hm w. specialize (Hm w). unfold try. destruct (m w) as [[a|e|] w1]; cbn in *; auto. Qed.

Lemma acquires_wrap {A} g (m : M W A) : Acquires m -> Acquires (wrap_err g m).
Proof. intros Hm w. specialize (Hm w). unfold wrap_err. by destruct (m w) as [[a|e|] w1]. Qed.

(** A computation that opens a handle after one that is balanced. *)
Lemma acquires_bind {A B} (m : M W A) (f : A -> M W B) :
  Balanced m -> (forall a, Acquires (f a)) -> Acquires (m ≫= f).
Proof.
  intros Hm Hf w. unfold mbind, M_bind. specialize (Hm w).
  destruct (m w) as [[a|e|] w1]; cbn in *; [|auto..].
  specialize (Hf a w1). rewrite Hm in Hf by done. done.
Qed.
Lemma acquires_defer {A} (f : W -> W) (m : M W A) :
  (forall w, handles (f w) = handles w) -> Acquires m -> Acquires (defer f m).
Proof.
  intros Hf Hm w. specialize (Hm w). unfold defer.
  destruct (m w) as [[a|e|] w1]; cbn in *; by rewrite ?Hf.
Qed.
Lemma balanced_defer {A} (f : W -> W) (m : M W A) :
  (forall w, handles (f w) = handles w) -> Balanced m -> Balanced (defer f m).
Proof.
  intros Hf Hm w. specialize (Hm w). unfold defer.
  destruct (m w) as [[a|e|] w1]; cbn in *; rewrite ?Hf; auto.
Qed.

(** [h, err := acquire(); if err != nil {...}; defer h.Free(); body] *)
Lemma balanced_acquire {A B} (m : M W A) (free : A -> W -> W) (body : A -> M W B) :
  Acquires m -> (forall a, Releases (free a)) -> (forall a, Balanced (body a)) ->
  Balanced (h ← m ; defer (free h) (body h)).
Proof.
  intros Hm Hf Hb w. unfold mbind, M_bind. specialize (Hm w).
  destruct (m w) as [[a|e|] w1]; cbn in *; [|done..].
  unfold defer. specialize (Hb a w1). destruct (body a w1) as [[b|e|] w2]; cbn in *; [| |done];
    intros _; rewrite Hf, Hb by done; lia.
Qed.

(** The same when the error of [acquire] is looked at. *)
Lemma balanced_try_acquire {A B} (m : M W A) (free : A -> W -> W) (body : A -> M W B)
    (handle : error -> M W B) :
  Acquires m -> (forall a, Releases (free a)) -> (forall a, Balanced (body a)) ->
  (forall e, Balanced (handle e)) ->
  Balanced (r ← try m ; match r with inl e => handle e | inr h => defer (free h) (body h) end).
Proof.
  intros Hm Hf Hb Hh w. unfold mbind, M_bind, try. specialize (Hm w).
  destruct (m w) as [[a|e|] w1]; cbn in *; [| |done].
  - unfold defer. specialize (Hb a w1). destruct (body a w1) as [[b|e|] w2]; cbn in *; [| |done];
      intros _; rewrite Hf, Hb by done; lia.
  - intros Hd. by rewrite Hh.
Qed.
End BalancedLemmas.

Create HintDb handles.
#[export] Hint Resolve balanced_ret balanced_fail balanced_lift balanced_wrap balanced_try acquires_wrap : handles.
#[export] Hint Resolve NewConnect_acquires Close_releases LookupNetwork_acquires Network_IsActive_balanced
  GetXMLDesc_balanced Update_balanced GetDHCPLeases_balanced Network_Free_releases LookupPool_acquires
  Pool_IsActive_balanced Pool_Free_releases LookupVol_acquires VolCreate_acquires GetPath_balanced
  VolDelete_balanced Upload_balanced Vol_Free_releases NewStream_acquires SendAll_balanced Finish_balanced
  Stream_Free_releases LookupDomain_acquires Define_acquires SetAutostart_balanced Domain_Create_balanced
  Domain_Destroy_balanced Domain_Undefine_balanced Domain_IsActive_balanced Domain_GetState_balanced
  Domain_Free_releases : handles.
#[export] Hint Extern 1 (Balanced (_ ≫= fun h => defer _ _)) => apply balanced_acquire : handles.
#[export] Hint Extern 1 (Balanced (try _ ≫= fun r => match r with inl _ => _ | inr h => defer _ _ end)) =>
  apply balanced_try_acquire : handles.
#[export] Hint Extern 4 (Balanced (_ ≫= _)) => apply balanced_bind; [|intros ?] : handles.
#[export] Hint Extern 5 (Balanced (match ?x with _ => _ end)) => destruct x : handles.
