(* ===== verification/Host.v ===== *)
(** * The state of a libvirt host, and what the libvirt calls do to it

    [HostLaws] states the documented effect of each call the provider makes.  A
    call that only reads leaves the host as it is whatever it returns; for a call
    that changes the host the law covers the runs that succeed, and nothing is
    assumed of one that failed. *)

From stdpp Require Import base gmap list strings.
From Stdlib Require Import ZArith.
From S2P Require Import Prelude GoStrings LibvirtXML MachineNetwork Reservation Libvirt.

Local Open Scope Z_scope.

Record VolumeState := mkVolumeState {
  volume_path : string;
  volume_doc : StorageVolume;
  volume_data : list Ascii.ascii;
}.
Record PoolState := mkPoolState {
  pool_active : bool;
  pool_volumes : gmap string VolumeState;
}.
Record NetworkState := mkNetworkState {
  network_active : bool;
  network_doc : Network;
  network_leases : list NetworkDHCPLease;
}.
(** A domain that was undefined while it was running is transient: it is gone when
    it stops. *)
Record DomState := mkDomState {
  domain_doc : Domain;
  domain_active : bool;
  domain_state : virDomainState;
  domain_autostart : bool;
  domain_persistent : bool;
}.
Record HostState := mkHostState {
  host_networks : gmap string NetworkState;
  host_pools : gmap string PoolState;
  host_domains : gmap string DomState;
}.

Definition set_networks (h : HostState) (ns : gmap string NetworkState) : HostState :=
  mkHostState ns (host_pools h) (host_domains h).
Definition set_pools (h : HostState) (ps : gmap string PoolState) : HostState :=
  mkHostState (host_networks h) ps (host_domains h).
Definition set_domains (h : HostState) (ds : gmap string DomState) : HostState :=
  mkHostState (host_networks h) (host_pools h) ds.

(** The volume [name] of pool [pool]. *)
Definition host_volume (h : HostState) (id : string * string) : option VolumeState :=
  host_pools h !! id.1 ≫= fun p => pool_volumes p !! id.2.
Definition alter_volumes (f : gmap string VolumeState -> gmap string VolumeState) (pool : string)
    (h : HostState) : HostState :=
  set_pools h (alter (fun p => mkPoolState (pool_active p) (f (pool_volumes p))) pool (host_pools h)).
Definition alter_domain (f : DomState -> option DomState) (name : string) (h : HostState) : HostState :=
  set_domains h (partial_alter (fun o => o ≫= f) name (host_domains h)).
Definition set_network_doc (name : string) (doc : Network) (h : HostState) : HostState :=
  set_networks h (alter (fun n => mkNetworkState (network_active n) doc (network_leases n)) name (host_networks h)).

Definition domain_started (d : DomState) : option DomState :=
  Some (mkDomState (domain_doc d) true DOMAIN_RUNNING (domain_autostart d) (domain_persistent d)).
Definition domain_stopped (d : DomState) : option DomState :=
  if domain_persistent d
  then Some (mkDomState (domain_doc d) false DOMAIN_SHUTOFF (domain_autostart d) true)
  else None.
Definition domain_undefined (d : DomState) : option DomState :=
  if domain_active d
  then Some (mkDomState (domain_doc d) true (domain_state d) false false)
  else None.
Definition domain_defined (doc : Domain) (old : option DomState) : DomState :=
  match old with
  | None => mkDomState doc false DOMAIN_SHUTOFF false true
  | Some d => mkDomState doc (domain_active d) (domain_state d) (domain_autostart d) true
  end.

(** The data a callback hands to [SendAll], chunk by chunk, each for a positive
    request, until it returns an empty one. *)
Inductive sends (h : SourceFunc) : Reader -> list Ascii.ascii -> Prop :=
  | sends_done n r r' : 0 < n -> h n r = (Ok [], r') -> sends h r []
  | sends_chunk n r chunk r' rest :
      0 < n -> h n r = (Ok chunk, r') -> chunk <> [] -> sends h r' rest -> sends h r (chunk ++ rest).

(** An upload in progress: the volume, the announced length and what was sent. *)
Record UploadState := mkUpload {
  upload_target : string * string;
  upload_length : Z;
  upload_sent : list Ascii.ascii;
}.

Class HostView (W : Type) `{!Libvirt W} := {
  host : W -> HostState;
  stream_upload : W -> Stream -> option UploadState;
  net_name : virNetwork -> string;
  pool_name : StoragePool -> string;
  vol_id : StorageVol -> string * string;
  dom_name : virDomain -> string;
}.

(** The configuration behind a network handle, as [Reservation] sees it. *)
#[global] Instance Host_NetworkView {W} `{HostView W} : NetworkView W virNetwork := fun w n =>
  match host_networks (host w) !! net_name n with
  | Some s => network_doc s
  | None => mkNetwork "" []
  end.

(** A call that leaves the host, and the uploads in progress, as they are. *)
Definition ReadOnly {W A} `{HostView W} (m : M W A) : Prop :=
  forall w, host (m w).2 = host w /\ stream_upload (m w).2 = stream_upload w.
Definition Invisible {W} `{HostView W} (f : W -> W) : Prop :=
  forall w, host (f w) = host w /\ stream_upload (f w) = stream_upload w.

(** A lookup finds exactly what exists, and fails with a libvirt error, which has
    code [code] only when the thing does not exist. *)
Definition Lookup {W A} `{HostView W} (m : M W A) (code : ErrorNumber)
    (exists_ : HostState -> Prop) (found : A -> Prop) : Prop :=
  ReadOnly m /\
  (forall w x, (m w).1 = Ok x -> exists_ (host w) /\ found x) /\
  (forall w e, (m w).1 = Err e -> exists c t, e = LibvirtError c t /\ (c = code -> ~ exists_ (host w))).

Class HostLaws (W : Type) `{LX : LibvirtXML} `{L : !Libvirt W} `{HV : !HostView W} : Prop := {
  NewConnect_readonly uri : ReadOnly (NewConnect uri);
  Close_invisible c : Invisible (Connect_Close c);
  LookupNetwork_law c n :
    Lookup (LookupNetworkByName c n) ERR_NO_NETWORK (fun h => is_Some (host_networks h !! n))
      (fun x => net_name x = n);
  Network_IsActive_readonly n : ReadOnly (Network_IsActive n);
  Network_IsActive_law n w b :
    (Network_IsActive n w).1 = Ok b ->
    forall s, host_networks (host w) !! net_name n = Some s -> b = network_active s;
  Network_IsActive_err n w e :
    (Network_IsActive n w).1 = Err e -> exists c t, e = LibvirtError c t;
  Network_laws :: NetworkLaws W virNetwork;
  GetXMLDesc_readonly n f : ReadOnly (GetXMLDesc (N := virNetwork) n f);
  Update_frame n cmd sec i xml f w w' :
    Update (N := virNetwork) n cmd sec i xml f w = (Ok tt, w') ->
    host w' = set_network_doc (net_name n) (net_view w' n) (host w);
  GetDHCPLeases_readonly n : ReadOnly (GetDHCPLeases (N := virNetwork) n);
  GetDHCPLeases_law n w l :
    (GetDHCPLeases (N := virNetwork) n w).1 = Ok l ->
    forall s, host_networks (host w) !! net_name n = Some s -> l = network_leases s;
  Network_Free_invisible n : Invisible (Network_Free n);
  LookupPool_law c n :
    Lookup (LookupStoragePoolByName c n) ERR_NO_STORAGE_POOL (fun h => is_Some (host_pools h !! n))
      (fun x => pool_name x = n);
  Pool_IsActive_readonly p : ReadOnly (StoragePool_IsActive p);
  Pool_IsActive_law p w b :
    (StoragePool_IsActive p w).1 = Ok b ->
    forall s, host_pools (host w) !! pool_name p = Some s -> b = pool_active s;
  Pool_IsActive_err p w e :
    (StoragePool_IsActive p w).1 = Err e -> exists c t, e = LibvirtError c t;
  Pool_Free_invisible p : Invisible (StoragePool_Free p);
  LookupVol_law p n :
    Lookup (LookupStorageVolByName p n) ERR_NO_STORAGE_VOL
      (fun h => is_Some (host_volume h (pool_name p, n))) (fun x => vol_id x = (pool_name p, n));
  VolCreate_law p doc xml w v w' :
    StorageVolume_Marshal doc = Ok xml ->
    StorageVolCreateXML p xml 0 w = (Ok v, w') ->
    vol_id v = (pool_name p, vol_Name doc) /\
    is_Some (host_pools (host w) !! pool_name p) /\
    host_volume (host w) (pool_name p, vol_Name doc) = None /\
    exists path, path <> "" /\
      host w' = alter_volumes (insert (vol_Name doc) (mkVolumeState path doc [])) (pool_name p) (host w);
  GetPath_readonly v : ReadOnly (StorageVol_GetPath v);
  GetPath_law v w path :
    (StorageVol_GetPath v w).1 = Ok path ->
    path <> "" /\ forall s, host_volume (host w) (vol_id v) = Some s -> path = volume_path s;
  VolDelete_law v w w' :
    StorageVol_Delete v 0 w = (Ok tt, w') ->
    host w' = alter_volumes (delete (vol_id v).2) (vol_id v).1 (host w);
  Vol_Free_invisible v : Invisible (StorageVol_Free v);
  NewStream_readonly c f w : host (NewStream c f w).2 = host w;
  Upload_law v s len w w' :
    StorageVol_Upload v s 0 len 0 w = (Ok tt, w') ->
    host w' = host w /\ stream_upload w' s = Some (mkUpload (vol_id v) len []);
  SendAll_law s h r w w' u :
    Stream_SendAll s h r w = (Ok tt, w') -> stream_upload w s = Some u ->
    exists data, sends h r data /\ host w' = host w /\
      stream_upload w' s = Some (mkUpload (upload_target u) (upload_length u) (upload_sent u ++ data));
  Finish_law s w w' u :
    Stream_Finish s w = (Ok tt, w') -> stream_upload w s = Some u ->
    host w' = alter_volumes
      (alter (fun v => mkVolumeState (volume_path v) (volume_doc v) (upload_sent u)) (upload_target u).2)
      (upload_target u).1 (host w);
  Stream_Free_host s w : host (Stream_Free s w) = host w;
  LookupDomain_law c n :
    Lookup (LookupDomainByName c n) ERR_NO_DOMAIN (fun h => is_Some (host_domains h !! n))
      (fun x => dom_name x = n);
  Define_law c doc xml w d w' :
    Domain_Marshal doc = Ok xml ->
    DomainDefineXML c xml w = (Ok d, w') ->
    dom_name d = dom_Name doc /\
    host w' = set_domains (host w)
      (<[dom_Name doc := domain_defined doc (host_domains (host w) !! dom_Name doc)]> (host_domains (host w)));
  SetAutostart_law d b w w' :
    Domain_SetAutostart d b w = (Ok tt, w') ->
    host w' = alter_domain (fun s => Some (mkDomState (domain_doc s) (domain_active s) (domain_state s) b
                                             (domain_persistent s))) (dom_name d) (host w);
  Domain_Create_law d w w' :
    Domain_Create d w = (Ok tt, w') -> host w' = alter_domain domain_started (dom_name d) (host w);
  Domain_Destroy_law d w w' :
    Domain_Destroy d w = (Ok tt, w') -> host w' = alter_domain domain_stopped (dom_name d) (host w);
  Domain_Undefine_law d w w' :
    Domain_Undefine d w = (Ok tt, w') -> host w' = alter_domain domain_undefined (dom_name d) (host w);
  Domain_IsActive_readonly d : ReadOnly (Domain_IsActive d);
  Domain_IsActive_law d w b :
    (Domain_IsActive d w).1 = Ok b ->
    forall s, host_domains (host w) !! dom_name d = Some s -> b = domain_active s;
  Domain_GetState_readonly d : ReadOnly (Domain_GetState d);
  Domain_GetState_law d w st :
    (Domain_GetState d w).1 = Ok st ->
    forall s, host_domains (host w) !! dom_name d = Some s -> st = domain_state s;
  Domain_Free_invisible d : Invisible (Domain_Free d);
}.

(** ** Read-only computations *)

Section ReadOnlyLemmas.
Context {W : Type} `{HostView W}.
Lemma readonly_ret {A} (a : A) : ReadOnly (W := W) (mret a).
Proof. by intros w. Qed.
Lemma readonly_fail {A} e : ReadOnly (W := W) (fail (A := A) e).
Proof. by intros w. Qed.
Lemma readonly_lift {A} (r : result A) : ReadOnly (W := W) (lift r).
Proof. by intros w. Qed.
Lemma readonly_bind {A B} (m : M W A) (f : A -> M W B) :
  ReadOnly m -> (forall a, ReadOnly (f a)) -> ReadOnly (m ≫= f).
Proof.
  intros Hm Hf w. unfold mbind, M_bind. destruct (Hm w) as [Hh Hs].
  destruct (m w) as [[a|e|] w1]; cbn in *; [|done..].
  destruct (Hf a w1) as [Hh' Hs']. split; congruence.
Qed.
Lemma readonly_wrap {A} g (m : M W A) : ReadOnly m -> ReadOnly (wrap_err g m).
Proof. intros Hm w. specialize (Hm w). unfold wrap_err. by destruct (m w) as [[a|e|] w1]. Qed.
Lemma readonly_try {A} (m : M W A) : ReadOnly m -> ReadOnly (try m).
Proof. intros Hm w. specialize (Hm w). unfold try. by destruct (m w) as [[a|e|] w1]. Qed.
Lemma readonly_defer {A} f (m : M W A) : Invisible f -> ReadOnly m -> ReadOnly (defer f m).
Proof.
  intros Hf Hm w. specialize (Hm w). unfold defer.
  destruct (m w) as [[a|e|] w1]; cbn in *; [| |done]; destruct (Hf w1) as [-> ->]; done.
Qed.
Lemma lookup_readonly {A} (m : M W A) code ex found : Lookup m code ex found -> ReadOnly m.
Proof. by intros []. Qed.
Lemma readonly_run {A} (m : M W A) w r w' : ReadOnly m -> m w = (r, w') -> host w' = host w.
Proof. intros Hm Hr. destruct (Hm w) as [Hh _]. by rewrite Hr in Hh. Qed.
Lemma readonly_stream {A} (m : M W A) w r w' :
  ReadOnly m -> m w = (r, w') -> stream_upload w' = stream_upload w.
Proof. intros Hm Hr. destruct (Hm w) as [_ Hh]. by rewrite Hr in Hh. Qed.
(** What a lookup returned, in terms of the host. *)
Lemma lookup_ok {A} (m : M W A) code ex found w x w' :
  Lookup m code ex found -> m w = (Ok x, w') -> ex (host w) /\ found x /\ host w' = host w.
Proof.
  intros (Hro & Hok & _) Hm. destruct (Hok w x) as [He Hf]; [by rewrite Hm|].
  split; [done|]. split; [done|]. by eapply readonly_run.
Qed.
Lemma lookup_err {A} (m : M W A) code ex found w e w' :
  Lookup m code ex found -> m w = (Err e, w') ->
  host w' = host w /\ exists c t, e = LibvirtError c t /\ (c = code -> ~ ex (host w)).
Proof.
  intros (Hro & _ & Herr) Hm. split; [by eapply readonly_run|]. apply (Herr w). by rewrite Hm.
Qed.
End ReadOnlyLemmas.

Create HintDb readonly.
#[export] Hint Resolve readonly_ret readonly_fail readonly_lift readonly_wrap readonly_try readonly_defer
  lookup_readonly : readonly.
#[export] Hint Resolve NewConnect_readonly Close_invisible LookupNetwork_law Network_IsActive_readonly
  GetXMLDesc_readonly GetDHCPLeases_readonly Network_Free_invisible LookupPool_law Pool_IsActive_readonly
  Pool_Free_invisible LookupVol_law GetPath_readonly Vol_Free_invisible LookupDomain_law
  Domain_IsActive_readonly Domain_GetState_readonly Domain_Free_invisible : readonly.
#[export] Hint Extern 4 (ReadOnly (_ ≫= _)) => apply readonly_bind; [|intros ?] : readonly.
#[export] Hint Extern 5 (ReadOnly (match ?x with _ => _ end)) => destruct x : readonly.
