(* ===== verification/Infra.v ===== *)
(** * Infrastructure checks (internal/libvirtclient/infra.go) *)

From stdpp Require Import base gmap list strings.
From Stdlib Require Import ZArith.
From S2P Require Import Prelude GoStrings Config LibvirtXML MachineNetwork Reservation Libvirt Host.
From S2P Require Import Api Kube Credentials ProviderInterface ClusterController.

Definition InfraKindStoragePool : string := "storagePool".
Definition InfraKindNetwork : string := "network".

Definition infraCheckError (kind name : string) (exists_ active : bool) : result unit :=
  if negb exists_ then Err (InfraMissing (mkErrInfraMissing kind name))
  else if negb active then Err (InfraInactive (mkErrInfraInactive kind name))
  else Ok tt.

Section Infra.
Context {W : Type} `{!Libvirt W}.

Definition networkExists (conn : Connect) (name : string) : M W bool :=
  net ← try (LookupNetworkByName conn name) ;
  match net with
  | inl err =>
      if isLibvirtErr err ERR_NO_NETWORK then mret false
      else fail (WrapError ("lookup network " +:+ name) err)
  | inr net => defer (Network_Free net) (mret true)
  end.

Definition isNetworkActive (conn : Connect) (name : string) : M W bool :=
  net ← wrap_err (WrapError ("lookup network " +:+ name)) (LookupNetworkByName conn name) ;
  defer (Network_Free net)
    (wrap_err (WrapError ("check network active " +:+ quote name)) (Network_IsActive net)).

Definition storagePoolExists (conn : Connect) (name : string) : M W bool :=
  pool ← try (LookupStoragePoolByName conn name) ;
  match pool with
  | inl err =>
      if isLibvirtErr err ERR_NO_STORAGE_POOL then mret false
      else fail (WrapError ("lookup storage-pool " +:+ name) err)
  | inr pool => defer (StoragePool_Free pool) (mret true)
  end.

Definition isStoragePoolActive (conn : Connect) (name : string) : M W bool :=
  pool ← wrap_err (WrapError ("lookup storage-pool " +:+ name)) (LookupStoragePoolByName conn name) ;
  defer (StoragePool_Free pool)
    (wrap_err (WrapError ("check storage pool active " +:+ quote name)) (StoragePool_IsActive pool)).

Definition ensureNetwork (conn : Connect) (name : string) : M W unit :=
  netExists ← networkExists conn name ;
  netActive ← isNetworkActive conn name ;
  lift (infraCheckError InfraKindNetwork name netExists netActive).

Definition ensureBasePool (conn : Connect) (name : string) : M W unit :=
  basePoolExists ← storagePoolExists conn name ;
  basePoolActive ← isStoragePoolActive conn name ;
  lift (infraCheckError InfraKindStoragePool name basePoolExists basePoolActive).

Definition ensureDomainPool (conn : Connect) (name : string) : M W unit :=
  domainPoolExists ← storagePoolExists conn name ;
  domainPoolActive ← isStoragePoolActive conn name ;
  lift (infraCheckError InfraKindStoragePool name domainPoolExists domainPoolActive).
End Infra.

(** ** The checks agree with the host *)

Section InfraSpec.
Context {W : Type} {LX : LibvirtXML} {L : Libvirt W} {HV : HostView W} {HL : HostLaws W}.

Lemma networkExists_readonly conn name : ReadOnly (W := W) (networkExists conn name).
Proof. unfold networkExists. eauto 10 with readonly. Qed.
Lemma isNetworkActive_readonly conn name : ReadOnly (W := W) (isNetworkActive conn name).
Proof. unfold isNetworkActive. eauto 10 with readonly. Qed.
Lemma storagePoolExists_readonly conn name : ReadOnly (W := W) (storagePoolExists conn name).
Proof. unfold storagePoolExists. eauto 10 with readonly. Qed.
Lemma isStoragePoolActive_readonly conn name : ReadOnly (W := W) (isStoragePoolActive conn name).
Proof. unfold isStoragePoolActive. eauto 10 with readonly. Qed.
#[local] Hint Resolve networkExists_readonly isNetworkActive_readonly storagePoolExists_readonly
  isStoragePoolActive_readonly : readonly.
Lemma ensureNetwork_readonly conn name : ReadOnly (W := W) (ensureNetwork conn name).
Proof. unfold ensureNetwork. eauto 10 with readonly. Qed.
Lemma ensureBasePool_readonly conn name : ReadOnly (W := W) (ensureBasePool conn name).
Proof. unfold ensureBasePool. eauto 10 with readonly. Qed.
Lemma ensureDomainPool_readonly conn name : ReadOnly (W := W) (ensureDomainPool conn name).
Proof. unfold ensureDomainPool. eauto 10 with readonly. Qed.

(** An error that only libvirt and the wrapping of the checks made: no
    infrastructure error is inside. *)
Lemma not_infra_error p c t : getInfraError (WrapError p (LibvirtError c t)) = InfrastructureProvisioningFailedReason.
Proof. done. Qed.

(** What a check says, for a resource that exists or not ([st] tells whether it is
    active). *)
Definition check_outcome (kind name : string) (st : option bool) (r : result unit) : Prop :=
  match r with
  | Ok _ => st = Some true
  | Err e => (st = Some false /\ e = InfraInactive (mkErrInfraInactive kind name)) \/
             getInfraError e = InfrastructureProvisioningFailedReason
  | Diverge => True
  end.

Lemma isNetworkActive_spec conn name w r w' :
  isNetworkActive (W := W) conn name w = (r, w') ->
  match r with
  | Ok b => network_active <$> (host_networks (host w) !! name) = Some b
  | Err e => getInfraError e = InfrastructureProvisioningFailedReason
  | Diverge => True
  end.
Proof.
  unfold isNetworkActive, mbind, M_bind, wrap_err. intros H.
  destruct (LookupNetworkByName conn name w) as [[net|e|] w1] eqn:Hl; cbn [map_err] in H.
  - destruct (lookup_ok _ _ _ _ _ _ _ (LookupNetwork_law conn name) Hl) as ([s Hs] & Hn & Hh).
    unfold defer in H. destruct (Network_IsActive net w1) as [[b|e|] w2] eqn:Ha; cbn [map_err] in H;
      injection H as <- <-; [| |done].
    + rewrite Hs. cbn. f_equal. symmetry. apply (Network_IsActive_law net w1); [by rewrite Ha|].
      by rewrite Hh, Hn.
    + destruct (Network_IsActive_err net w1 e) as (c & t & ->); [by rewrite Ha|]. done.
  - destruct (lookup_err _ _ _ _ _ _ _ (LookupNetwork_law conn name) Hl) as (_ & c & t & -> & _).
    by injection H as <- <-.
  - by injection H as <- <-.
Qed.

Lemma isStoragePoolActive_spec conn name w r w' :
  isStoragePoolActive (W := W) conn name w = (r, w') ->
  match r with
  | Ok b => pool_active <$> (host_pools (host w) !! name) = Some b
  | Err e => getInfraError e = InfrastructureProvisioningFailedReason
  | Diverge => True
  end.
Proof.
  unfold isStoragePoolActive, mbind, M_bind, wrap_err. intros H.
  destruct (LookupStoragePoolByName conn name w) as [[pool|e|] w1] eqn:Hl; cbn [map_err] in H.
  - destruct (lookup_ok _ _ _ _ _ _ _ (LookupPool_law conn name) Hl) as ([s Hs] & Hn & Hh).
    unfold defer in H. destruct (StoragePool_IsActive pool w1) as [[b|e|] w2] eqn:Ha; cbn [map_err] in H;
      injection H as <- <-; [| |done].
    + rewrite Hs. cbn. f_equal. symmetry. apply (Pool_IsActive_law pool w1); [by rewrite Ha|].
      by rewrite Hh, Hn.
    + destruct (Pool_IsActive_err pool w1 e) as (c & t & ->); [by rewrite Ha|]. done.
  - destruct (lookup_err _ _ _ _ _ _ _ (LookupPool_law conn name) Hl) as (_ & c & t & -> & _).
    by injection H as <- <-.
  - by injection H as <- <-.
Qed.

Lemma networkExists_spec conn name w r w' :
  networkExists (W := W) conn name w = (r, w') ->
  match r with
  | Ok b => b = bool_decide (is_Some (host_networks (host w) !! name))
  | Err e => getInfraError e = InfrastructureProvisioningFailedReason
  | Diverge => True
  end.
Proof.
  unfold networkExists, mbind, M_bind, try. intros H.
  destruct (LookupNetworkByName conn name w) as [[net|e|] w1] eqn:Hl.
  - destruct (lookup_ok _ _ _ _ _ _ _ (LookupNetwork_law conn name) Hl) as (Hs & _ & _).
    injection H as <- <-. by rewrite bool_decide_eq_true_2.
  - destruct (lookup_err _ _ _ _ _ _ _ (LookupNetwork_law conn name) Hl) as (_ & c & t & -> & Hc).
    unfold isLibvirtErr in H. cbn in H. case_bool_decide as Hcode; injection H as <- <-; [|done].
    rewrite bool_decide_eq_false_2; auto.
  - by injection H as <- <-.
Qed.

Lemma storagePoolExists_spec conn name w r w' :
  storagePoolExists (W := W) conn name w = (r, w') ->
  match r with
  | Ok b => b = bool_decide (is_Some (host_pools (host w) !! name))
  | Err e => getInfraError e = InfrastructureProvisioningFailedReason
  | Diverge => True
  end.
Proof.
  unfold storagePoolExists, mbind, M_bind, try. intros H.
  destruct (LookupStoragePoolByName conn name w) as [[net|e|] w1] eqn:Hl.
  - destruct (lookup_ok _ _ _ _ _ _ _ (LookupPool_law conn name) Hl) as (Hs & _ & _).
    injection H as <- <-. by rewrite bool_decide_eq_true_2.
  - destruct (lookup_err _ _ _ _ _ _ _ (LookupPool_law conn name) Hl) as (_ & c & t & -> & Hc).
    unfold isLibvirtErr in H. cbn in H. case_bool_decide as Hcode; injection H as <- <-; [|done].
    rewrite bool_decide_eq_false_2; auto.
  - by injection H as <- <-.
Qed.

(** The three checks have this shape. *)
Lemma ensure_outcome (ex act : M W bool) kind name w r w' (st : W -> option bool) :
  ReadOnly ex -> (forall w1, host w1 = host w -> st w1 = st w) ->
  (forall r1 w1, ex w = (r1, w1) -> match r1 with
     | Ok b => b = bool_decide (is_Some (st w))
     | Err e => getInfraError e = InfrastructureProvisioningFailedReason | Diverge => True end) ->
  (forall r1 w0 w1, act w0 = (r1, w1) -> match r1 with
     | Ok b => st w0 = Some b
     | Err e => getInfraError e = InfrastructureProvisioningFailedReason | Diverge => True end) ->
  (e ← ex ; a ← act ; lift (infraCheckError kind name e a)) w = (r, w') ->
  check_outcome kind name (st w) r.
Proof.
  intros Hro Hst Hex Hact. unfold mbind, M_bind. intros H.
  destruct (ex w) as [[b|e|] w1] eqn:Hx; specialize (Hex _ _ eq_refl); cbn in Hex.
  2: { injection H as <- <-. by right. } 2: { by injection H as <- <-. }
  destruct (act w1) as [[a|e|] w2] eqn:Ha; pose proof (Hact _ _ _ Ha) as Hs; cbn in Hs.
  2: { injection H as <- <-. by right. } 2: { by injection H as <- <-. }
  rewrite (Hst w1) in Hs by (by eapply readonly_run). rewrite Hs in Hex |- *.
  unfold lift, infraCheckError in H. rewrite Hex in H. cbn in H. injection H as <- <-.
  destruct a; cbn; auto.
Qed.

Lemma ensureNetwork_spec conn name w r w' :
  ensureNetwork (W := W) conn name w = (r, w') ->
  check_outcome InfraKindNetwork name (network_active <$> (host_networks (host w) !! name)) r.
Proof.
  apply (ensure_outcome _ _ InfraKindNetwork name w r w'
           (fun w => network_active <$> (host_networks (host w) !! name))).
  - apply networkExists_readonly.
  - by intros w1 ->.
  - intros r1 w1 H1. apply networkExists_spec in H1. destruct r1; [|done..]. rewrite H1.
    apply bool_decide_ext. by rewrite fmap_is_Some.
  - intros r1 w0 w1 H1. by apply isNetworkActive_spec in H1.
Qed.

Lemma ensurePool_spec conn name w r w' :
  ensureBasePool (W := W) conn name w = (r, w') ->
  check_outcome InfraKindStoragePool name (pool_active <$> (host_pools (host w) !! name)) r.
Proof.
  apply (ensure_outcome _ _ InfraKindStoragePool name w r w'
           (fun w => pool_active <$> (host_pools (host w) !! name))).
  - apply storagePoolExists_readonly.
  - by intros w1 ->.
  - intros r1 w1 H1. apply storagePoolExists_spec in H1. destruct r1; [|done..]. rewrite H1.
    apply bool_decide_ext. by rewrite fmap_is_Some.
  - intros r1 w0 w1 H1. by apply isStoragePoolActive_spec in H1.
Qed.
End InfraSpec.
