(* ===== verification/OS.v ===== *)
(** * Files: path/filepath and the os calls the program makes

    [filepath.Join] and [filepath.Clean] are modelled for Unix paths.  The file
    system itself belongs to the world: class [OS] has the calls the program
    makes and [OSLaws] what it relies on, about two observations, the temporary
    directories that exist and the contents of files. *)

From stdpp Require Import base gmap list strings.
From Stdlib Require Import ZArith Lia Ascii.
From S2P Require Import Prelude GoStrings.

Local Open Scope Z_scope.

(** ** path/filepath *)

(** The elements between slashes. *)
Fixpoint split_slash (l cur : list ascii) : list (list ascii) :=
  match l with
  | [] => [rev cur]
  | c :: k => if decide (c = "/"%char) then rev cur :: split_slash k [] else split_slash k (c :: cur)
  end.

(** One element of [filepath.Clean], on the reversed list of elements kept. *)
Definition clean_step (rooted : bool) (out : list (list ascii)) (e : list ascii) : list (list ascii) :=
  if decide (e = []) then out
  else if decide (e = ["."%char]) then out
  else if decide (e = ["."%char; "."%char]) then
    match out with
    | [] => if rooted then [] else [e]
    | top :: rest => if decide (top = ["."%char; "."%char]) then e :: out else rest
    end
  else e :: out.

Definition filepath_Clean (path : string) : string :=
  match chars path with
  | [] => "."
  | c :: _ =>
      let rooted := bool_decide (c = "/"%char) in
      let out := rev (foldl (clean_step rooted) [] (split_slash (chars path) [])) in
      let joined := strings_Join (map str out) "/" in
      if rooted then "/" +:+ joined
      else if decide (out = []) then "." else joined
  end.

(** [filepath.Join(a, b)] *)
Definition filepath_Join (a b : string) : string :=
  if decide (a = "") then (if decide (b = "") then "" else filepath_Clean b)
  else filepath_Clean (a +:+ "/" +:+ b).

Example filepath_Join_ex1 : filepath_Join "/tmp/iso-1" "cloudinit-a.iso" = "/tmp/iso-1/cloudinit-a.iso".
Proof. reflexivity. Qed.
Example filepath_Join_ex2 : filepath_Join "/tmp//x/../y/" "./b" = "/tmp/y/b".
Proof. reflexivity. Qed.
Example filepath_Join_ex3 : filepath_Join "../a" "../../b" = "../../b".
Proof. reflexivity. Qed.

(** ** os *)

Class OS (W : Type) := {
  os_File : Type;
  MkdirTemp : string -> string -> M W string;
  RemoveAll : string -> M W unit;
  WriteFile : string -> string -> Z -> M W unit;
  os_Open : string -> M W os_File;
  (** [io.Copy] into a buffer: the bytes read. *)
  io_Copy : os_File -> M W string;
  (** The program ignores the error of [Close]. *)
  File_Close : os_File -> W -> W;
}.

Class FileView (W : Type) `{!OS W} := {
  temp_dirs : W -> gset string;
  file_at : W -> string -> option string;
  open_files : W -> Z;
  file_path : os_File -> string;
}.

Class OSLaws (W : Type) `{!OS W} `{!FileView W} : Prop := {
  MkdirTemp_law dir pattern w d w' :
    MkdirTemp dir pattern w = (Ok d, w') -> d ∉ temp_dirs w /\ temp_dirs w' = {[ d ]} ∪ temp_dirs w;
  MkdirTemp_err dir pattern w e w' :
    MkdirTemp dir pattern w = (Err e, w') -> temp_dirs w' = temp_dirs w;
  RemoveAll_law d w w' :
    RemoveAll d w = (Ok tt, w') -> temp_dirs w' = temp_dirs w ∖ {[ d ]};
  (** one that fails may leave the directory, and leaves the others alone *)
  RemoveAll_err d w : temp_dirs w ∖ {[ d ]} ⊆ temp_dirs (RemoveAll d w).2 ⊆ temp_dirs w;
  WriteFile_dirs path data mode w : temp_dirs (WriteFile path data mode w).2 = temp_dirs w;
  WriteFile_law path data mode w w' :
    WriteFile path data mode w = (Ok tt, w') ->
    file_at w' path = Some data /\ forall p, p <> path -> file_at w' p = file_at w p;
  os_Open_dirs path w : temp_dirs (os_Open path w).2 = temp_dirs w;
  os_Open_law path w f w' :
    os_Open path w = (Ok f, w') -> file_path f = path /\ forall p, file_at w' p = file_at w p;
  io_Copy_dirs f w : temp_dirs (io_Copy f w).2 = temp_dirs w;
  io_Copy_law f w data w' :
    io_Copy f w = (Ok data, w') -> file_at w (file_path f) = Some data;
  File_Close_dirs f w : temp_dirs (File_Close f w) = temp_dirs w;
}.

(** The file calls leave the observation [obs] of the rest of the world alone. *)
Class FilesKeep {W X : Type} `{!OS W} (obs : W -> X) : Prop := {
  MkdirTemp_keeps d p : Keeps obs (MkdirTemp d p);
  RemoveAll_keeps d : Keeps obs (RemoveAll d);
  WriteFile_keeps p d m : Keeps obs (WriteFile p d m);
  os_Open_keeps p : Keeps obs (os_Open p);
  io_Copy_keeps f : Keeps obs (io_Copy f);
  File_Close_keeps f w : obs (File_Close f w) = obs w;
}.
#[export] Hint Resolve MkdirTemp_keeps RemoveAll_keeps WriteFile_keeps os_Open_keeps io_Copy_keeps
  File_Close_keeps : keeps.

(** ** Joining a file name to a directory *)

(** A file name: one path element. *)
Definition simple_name (n : string) : bool :=
  negb (bool_decide ("/"%char ∈ chars n)) && negb (bool_decide (n = "")) &&
  negb (bool_decide (n = ".")) && negb (bool_decide (n = "..")).

Lemma split_slash_app l k cur :
  split_slash (l ++ "/"%char :: k) cur = split_slash l cur ++ split_slash k [].
Proof.
  revert cur. induction l as [|c l IH]; intros cur; cbn; [done|].
  case_decide; [by rewrite IH|]. by rewrite IH.
Qed.
Lemma split_slash_simple l cur : "/"%char ∉ l -> split_slash l cur = [rev cur ++ l].
Proof.
  revert cur. induction l as [|c l IH]; intros cur Hni; cbn; [by rewrite app_nil_r|].
  apply not_elem_of_cons in Hni as [Hne Hni]. rewrite decide_False by congruence.
  rewrite IH by done. cbn. by rewrite <- app_assoc.
Qed.

Lemma clean_step_simple rooted out n :
  simple_name n = true -> clean_step rooted out (chars n) = chars n :: out.
Proof.
  unfold simple_name. rewrite !andb_true_iff, !negb_true_iff, !bool_decide_eq_false.
  intros [[[_ Hne] Hdot] Hdd]. unfold clean_step.
  rewrite !decide_False; [done|intros H..].
  - apply Hdd. apply chars_inj. exact H.
  - apply Hdot. apply chars_inj. exact H.
  - apply Hne. apply chars_inj. exact H.
Qed.

Lemma Join_snoc (l : list string) :
  exists p, forall m, strings_Join (l ++ [m]) "/" = p +:+ m.
Proof.
  induction l as [|x l [p IH]]; [by exists ""|].
  destruct l as [|y l]; cbn [app] in *.
  - exists (x +:+ "/"). intros m. cbn. apply chars_inj. by rewrite !chars_app, <- app_assoc.
  - exists (x +:+ "/" +:+ p). intros m. change (strings_Join (x :: y :: l ++ [m]) "/")
      with (x +:+ "/" +:+ strings_Join (y :: l ++ [m]) "/"). rewrite IH.
    apply chars_inj. by rewrite !chars_app, <- !app_assoc.
Qed.

(** In one directory, different names give different paths. *)
Lemma filepath_Join_simple dir : dir <> "" ->
  exists p, forall n, simple_name n = true -> filepath_Join dir n = p +:+ n.
Proof.
  intros Hdir.
  destruct (chars dir) as [|c0 l0] eqn:Hd; [by apply (f_equal str) in Hd; rewrite str_chars in Hd|].
  set (rooted := bool_decide (c0 = "/"%char)).
  set (out := rev (foldl (clean_step rooted) [] (split_slash (chars dir) []))).
  destruct (Join_snoc (map str out)) as [p Hp].
  exists (if rooted then "/" +:+ p else p). intros n Hn.
  unfold filepath_Join. rewrite decide_False by done. unfold filepath_Clean.
  rewrite !chars_app. change (chars "/" ++ chars n) with ("/"%char :: chars n).
  rewrite Hd. cbn [app]. fold rooted. rewrite app_comm_cons, <- Hd.
  rewrite split_slash_app, foldl_app.
  assert ("/"%char ∉ chars n) as Hni.
  { unfold simple_name in Hn. rewrite !andb_true_iff, !negb_true_iff, bool_decide_eq_false in Hn. tauto. }
  rewrite (split_slash_simple (chars n) []) by done. cbn [foldl rev app].
  rewrite clean_step_simple by done. cbn [rev]. fold out.
  rewrite map_app. cbn [map]. rewrite str_chars, Hp.
  destruct rooted; [apply chars_inj; by rewrite !chars_app, <- app_assoc|].
  rewrite decide_False by (by destruct out). done.
Qed.

Lemma filepath_Join_inj dir n1 n2 :
  dir <> "" -> simple_name n1 = true -> simple_name n2 = true ->
  filepath_Join dir n1 = filepath_Join dir n2 -> n1 = n2.
Proof.
  intros Hdir H1 H2. destruct (filepath_Join_simple dir Hdir) as [p Hp]. rewrite !Hp by done.
  intros H. apply chars_inj. apply (f_equal chars) in H. rewrite !chars_app in H. by apply app_inv_head in H.
Qed.
