(* ===== verification/CloudInit.v ===== *)
(** * The cloud-init ISO (internal/libvirtclient/cloudinit.go)

    The image is written by go-diskfs and the meta-data document by sigs.k8s.io/yaml:
    both are operations of the class [CloudInitLib]. *)

From stdpp Require Import base gmap list strings.
From Stdlib Require Import ZArith.
From S2P Require Import Prelude GoStrings Config OS.

Local Open Scope Z_scope.

Definition userDataFileName : string := "user-data".
Definition metaDataFileName : string := "meta-data".
Definition isoLabel : string := "cidata".
Definition isoDiskSize : Z := 10 * 1024 * 1024.
Definition isoLogicalBlockSize : Z := 2048.

Record cloudInitMetaData := mkMetaData { InstanceID : string; LocalHostname : string }.

(** [diskfs.SectorSizeDefault] and [disk.FilesystemSpec] are given to the library
    as they are; [IsISO9660] is the type assertion of the file system to the
    library's ISO 9660 one. *)
Record FinalizeOptions := mkFinalize { VolumeIdentifier : string; RockRidge : bool }.

Class CloudInitLib (W : Type) := {
  Disk : Type;
  FileSystem : Type;
  FSFile : Type;
  yaml_Marshal : cloudInitMetaData -> result string;
  diskfs_Create : string -> Z -> M W Disk;
  set_LogicalBlocksize : Disk -> Z -> W -> W;
  CreateFilesystem_ISO9660 : Disk -> Z -> M W FileSystem;
  Disk_Close : Disk -> M W unit;
  OpenFile : FileSystem -> string -> M W FSFile;
  FSFile_Write : FSFile -> string -> M W unit;
  FSFile_Close : FSFile -> M W unit;
  IsISO9660 : FileSystem -> bool;
  Finalize : FileSystem -> FinalizeOptions -> M W unit;
  FileSystem_Close : FileSystem -> M W unit;
}.

Section CloudInit.
Context {W : Type} `{!CloudInitLib W} `{!OS W}.

(** [errors.Join(err, close())]: the call is made and its error joined to [err]. *)
Definition join_close {A} (err : error) (close : M W unit) : M W A :=
  closed ← try close ;
  match closed with
  | inl closeErr => fail (JoinError err closeErr)
  | inr _ => fail err
  end.

Definition writeISOFile (fs : FileSystem) (name data : string) : M W unit :=
  f ← wrap_err (WrapError ("open cloud-init " +:+ name +:+ " file")) (OpenFile fs name) ;
  written ← try (FSFile_Write f data) ;
  match written with
  | inl err => join_close (WrapError ("write cloud-init " +:+ name) err) (FSFile_Close f)
  | inr _ => wrap_err (WrapError ("close cloud-init " +:+ name +:+ " file")) (FSFile_Close f)
  end.

Definition populateISO (fs : FileSystem) (userData metaData : string) : M W unit :=
  writeISOFile fs userDataFileName userData ;;
  writeISOFile fs metaDataFileName metaData ;;
  if negb (IsISO9660 fs) then fail (ErrorString "not an iso9660 filesystem")
  else wrap_err (WrapError "finalize ISO") (Finalize fs (mkFinalize isoLabel true)).

(** The deferred close of the disk joins its error to the one being returned. *)
Definition defer_close (close : M W unit) (body : M W unit) : M W unit :=
  returned ← try body ;
  closed ← try close ;
  match returned, closed with
  | inr _, inr _ => mret tt
  | inl err, inr _ => fail err
  | inr _, inl closeErr => fail (WrapError "close ISO disk" closeErr)
  | inl err, inl closeErr => fail (JoinError err (WrapError "close ISO disk" closeErr))
  end.

Definition buildCloudInitISO (isoPath : string) (cfg : MachineConfig) : M W unit :=
  metadata ← wrap_err (WrapError "marshal cloud-init meta-data")
    (lift (yaml_Marshal (mkMetaData (instanceID cfg) (hostname cfg)))) ;
  cloudDisk ← wrap_err (WrapError "create ISO disk") (diskfs_Create isoPath isoDiskSize) ;
  defer_close (Disk_Close cloudDisk)
    ((fun w => (Ok tt, set_LogicalBlocksize cloudDisk isoLogicalBlockSize w)) ;;
     fs ← wrap_err (WrapError "create ISO filesystem") (CreateFilesystem_ISO9660 cloudDisk 0) ;
     populated ← try (populateISO fs (cfg_UserData cfg) metadata) ;
     match populated with
     | inl err => join_close err (FileSystem_Close fs)
     | inr _ => wrap_err (WrapError "close ISO filesystem") (FileSystem_Close fs)
     end).

Definition copyFile (path : string) : M W string :=
  src ← wrap_err (WrapError "open iso file") (os_Open path) ;
  defer (File_Close src) (wrap_err (WrapError "copy ISO data") (io_Copy src)).

(** The destination writer is the caller's empty buffer: its contents are returned. *)
Definition writeCloudInitISO (cfg : MachineConfig) : M W string :=
  tmpDir ← wrap_err (WrapError "create temporary dir for ISO file") (MkdirTemp "" "iso-*") ;
  defer (ignore_err (RemoveAll tmpDir))
    (let isoPath := filepath_Join tmpDir (isoDiskName cfg) in
     buildCloudInitISO isoPath cfg ;;
     copyFile isoPath).
End CloudInit.

(** The image calls leave the observation [obs] of the rest of the world alone. *)
Class DisksKeep {W X : Type} `{!CloudInitLib W} (obs : W -> X) : Prop := {
  diskfs_Create_keeps p n : Keeps obs (diskfs_Create p n);
  set_LogicalBlocksize_keeps d n w : obs (set_LogicalBlocksize d n w) = obs w;
  CreateFilesystem_keeps d n : Keeps obs (CreateFilesystem_ISO9660 d n);
  Disk_Close_keeps d : Keeps obs (Disk_Close d);
  OpenFile_keeps fs n : Keeps obs (OpenFile fs n);
  FSFile_Write_keeps f d : Keeps obs (FSFile_Write f d);
  FSFile_Close_keeps f : Keeps obs (FSFile_Close f);
  Finalize_keeps fs o : Keeps obs (Finalize fs o);
  FileSystem_Close_keeps fs : Keeps obs (FileSystem_Close fs);
}.
#[export] Hint Resolve diskfs_Create_keeps CreateFilesystem_keeps Disk_Close_keeps OpenFile_keeps
  FSFile_Write_keeps FSFile_Close_keeps Finalize_keeps FileSystem_Close_keeps : keeps.

Section CloudInitKeeps.
Context {W X : Type} {CI : CloudInitLib W} {O : OS W} (obs : W -> X).
Context {FK : FilesKeep obs} {DK : DisksKeep obs}.

Lemma join_close_keeps {A} e (c : M W unit) : Keeps obs c -> Keeps obs (join_close (A := A) e c).
Proof. intros Hc. unfold join_close. apply keeps_bind; [auto with keeps|intros [|]]; auto with keeps. Qed.
Lemma defer_close_keeps (c b : M W unit) : Keeps obs c -> Keeps obs b -> Keeps obs (defer_close c b).
Proof.
  intros Hc Hb. unfold defer_close. apply keeps_bind; [auto with keeps|intros r].
  apply keeps_bind; [auto with keeps|intros c']. destruct r, c'; auto with keeps.
Qed.
#[local] Hint Resolve join_close_keeps defer_close_keeps : keeps.
Lemma writeISOFile_keeps fs n d : Keeps obs (writeISOFile fs n d).
Proof.
  unfold writeISOFile. apply keeps_bind; [auto with keeps|intros f].
  apply keeps_bind; [auto with keeps|intros [e|[]]]; auto with keeps.
Qed.
#[local] Hint Resolve writeISOFile_keeps : keeps.
Lemma populateISO_keeps fs u md : Keeps obs (populateISO fs u md).
Proof. unfold populateISO. auto 8 with keeps. Qed.
#[local] Hint Resolve populateISO_keeps : keeps.
Lemma buildCloudInitISO_keeps p cfg : Keeps obs (buildCloudInitISO p cfg).
Proof.
  unfold buildCloudInitISO.
  apply keeps_bind; [auto with keeps|intros md]. apply keeps_bind; [auto with keeps|intros d].
  apply defer_close_keeps; [auto with keeps|]. apply keeps_bind.
  { intros w. apply set_LogicalBlocksize_keeps. }
  intros _. apply keeps_bind; [auto with keeps|intros fs].
  apply keeps_bind; [auto with keeps|intros [e|[]]]; auto with keeps.
Qed.
#[local] Hint Resolve buildCloudInitISO_keeps : keeps.
Lemma writeCloudInitISO_keeps cfg : Keeps obs (writeCloudInitISO cfg).
Proof. unfold writeCloudInitISO, copyFile. auto 12 with keeps. Qed.
End CloudInitKeeps.
#[export] Hint Resolve writeCloudInitISO_keeps : keeps.
