(* ===== verification/Volume.v ===== *)
(** * Volumes (internal/libvirtclient/volume.go) *)

From stdpp Require Import base gmap list strings.
From Stdlib Require Import ZArith Lia.
From S2P Require Import Prelude GoStrings Config LibvirtXML Builders MachineNetwork Reservation.
From S2P Require Import Libvirt Host OS CloudInit.

Local Open Scope Z_scope.

Definition isVolumeNotFound (err : error) : bool :=
  match errors_As sel_libvirt err with
  | Some code => bool_decide (code = ERR_NO_STORAGE_VOL)
  | None => false
  end.

(** [buffReader.Read(buf)] for a buffer of [n] bytes: the bytes copied, and whether
    the error is [io.EOF]. *)
Definition Reader_Read (n : Z) (r : Reader) : list Ascii.ascii * bool * Reader :=
  if decide (length (reader_s r) <= reader_i r)%nat then ([], true, r)
  else
    let b := take (Z.to_nat n) (drop (reader_i r) (reader_s r)) in
    (b, false, mkReader (reader_s r) (reader_i r + length b)).

(** The callback of [SendAll] in [storageVolUpload]. *)
Definition upload_source : SourceFunc := fun n r =>
  let '(buf, eof, r') := Reader_Read n r in
  if 0 <? Z.of_nat (length buf) then (Ok buf, r')
  else if (eof : bool) then (Ok [], r')
  else (Ok [], r').

Section Volume.
Context {W : Type} `{!LibvirtXML} `{!Libvirt W} `{!CloudInitLib W} `{!OS W}.

Definition getVolumePath (pool : StoragePool) (volumeName : string) : M W string :=
  vol ← try (LookupStorageVolByName pool volumeName) ;
  match vol with
  | inl err => if isVolumeNotFound err then mret "" else fail err
  | inr vol =>
      defer (StorageVol_Free vol)
        (wrap_err (WrapError ("get volume path for " +:+ volumeName)) (StorageVol_GetPath vol))
  end.

Definition createVolume (pool : StoragePool) (volumeXML : string) : M W string :=
  vol ← wrap_err (WrapError "create disk volume") (StorageVolCreateXML pool volumeXML 0) ;
  defer (StorageVol_Free vol) (wrap_err (WrapError "get VM disk path") (StorageVol_GetPath vol)).

Definition createRootDisk (basePool domainPool : StoragePool) (cfg : MachineConfig) : M W string :=
  volumePath ← getVolumePath domainPool (domainDiskName cfg) ;
  if negb (bool_decide (volumePath = "")) then mret volumePath
  else
    baseImagePath ← getVolumePath basePool (cfg_BaseImage cfg) ;
    if bool_decide (baseImagePath = "") then
      fail (ErrorString ("base image " +:+ quote (cfg_BaseImage cfg) +:+ " not found"))
    else
      volumeXML ← wrap_err (WrapError "marshal volume XML")
        (lift (VolumeBuilder_Marshal
           (WithBackingStore baseImagePath DefaultVolumeFormat
              (WithCapacity (diskSizeGiB cfg) "G" (NewVolume (domainDiskName cfg)))))) ;
      wrap_err (WrapError "create root disk") (createVolume domainPool volumeXML).

(** [_ = stream.Abort(); return err] *)
Definition abort_upload (stream : Stream) (err : error) : M W unit := fun w =>
  (Err err, Stream_Abort stream w).

Definition storageVolUpload (conn : Connect) (buff : string) (vol : StorageVol) : M W unit :=
  stream ← wrap_err (WrapError "create new stream") (NewStream conn 0) ;
  defer (Stream_Free stream)
    (wrap_err (WrapError "start volume upload") (StorageVol_Upload vol stream 0 (len buff) 0) ;;
     let buffReader := mkReader (chars buff) 0 in
     sent ← try (Stream_SendAll stream upload_source buffReader) ;
     match sent with
     | inl err => abort_upload stream (WrapError "send volume data" err)
     | inr _ => wrap_err (WrapError "finish volume upload") (Stream_Finish stream)
     end).

Definition createISODisk (conn : Connect) (domainPool : StoragePool) (cfg : MachineConfig) : M W string :=
  volumePath ← getVolumePath domainPool (isoDiskName cfg) ;
  if negb (bool_decide (volumePath = "")) then mret volumePath
  else
    buff ← wrap_err (WrapError "write cloud-init iso") (writeCloudInitISO cfg) ;
    volumeXML ← wrap_err (WrapError "marshal volume XML")
      (lift (VolumeBuilder_Marshal
         (WithRawType (WithCapacity (len buff) "bytes" (NewVolume (isoDiskName cfg)))))) ;
    volumePath ← wrap_err (WrapError "create cloudinit disk") (createVolume domainPool volumeXML) ;
    vol ← LookupStorageVolByName domainPool (isoDiskName cfg) ;
    defer (StorageVol_Free vol)
      (wrap_err (WrapError "upload data to volume") (storageVolUpload conn buff vol) ;;
       mret volumePath).

Definition deleteVolume (conn : Connect) (poolName volumeName : string) : M W unit :=
  pool ← try (LookupStoragePoolByName conn poolName) ;
  match pool with
  | inl err =>
      if isLibvirtErr err ERR_NO_STORAGE_POOL then mret tt
      else fail (WrapError ("lookup storage-pool " +:+ poolName) err)
  | inr pool =>
      defer (StoragePool_Free pool)
        (vol ← try (LookupStorageVolByName pool volumeName) ;
         match vol with
         | inl err =>
             if isVolumeNotFound err then mret tt
             else fail (WrapError ("lookup volume " +:+ volumeName +:+ " in pool " +:+ poolName) err)
         | inr vol =>
             defer (StorageVol_Free vol)
               (wrap_err (WrapError ("delete volume " +:+ volumeName +:+ " from pool " +:+ poolName))
                  (StorageVol_Delete vol 0))
         end)
  end.
End Volume.

(** ** The upload sends the buffer *)

Lemma upload_source_step n r :
  0 < n ->
  upload_source n r = (Ok (take (Z.to_nat n) (drop (reader_i r) (reader_s r))),
                       if decide (length (reader_s r) <= reader_i r)%nat then r
                       else mkReader (reader_s r)
                              (reader_i r + length (take (Z.to_nat n) (drop (reader_i r) (reader_s r))))).
Proof.
  intros Hn. unfold upload_source, Reader_Read. case_decide as Hle.
  - rewrite drop_ge by done. by rewrite take_nil.
  - destruct (Z.ltb_spec 0 (Z.of_nat (length (take (Z.to_nat n) (drop (reader_i r) (reader_s r))))))
      as [|Hz]; [done|].
    rewrite length_take, length_drop in Hz. lia.
Qed.

Lemma take_drop_length {A} n (l : list A) : take n l ++ drop (length (take n l)) l = l.
Proof.
  destruct (decide (n <= length l)%nat) as [Hn|Hn].
  - rewrite length_take, Nat.min_l by done. apply take_drop.
  - rewrite take_ge, drop_all by lia. apply app_nil_r.
Qed.

(** What a run of the callback hands over. *)
Lemma upload_data r data :
  sends upload_source r data -> (reader_i r <= length (reader_s r))%nat ->
  data = drop (reader_i r) (reader_s r).
Proof.
  intros Hs. induction Hs as [n r r' Hn Hh|n r chunk r' rest Hn Hh Hne Hs IH]; intros Hi.
  - rewrite upload_source_step in Hh by done. injection Hh as Hd _.
    destruct (drop (reader_i r) (reader_s r)) as [|c l] eqn:E; [done|].
    replace (Z.to_nat n) with (S (Z.to_nat n - 1))%nat in Hd by lia. done.
  - rewrite upload_source_step in Hh by done. injection Hh as <- <-. case_decide as Hle.
    { rewrite drop_ge, take_nil in Hne by done. done. }
    rewrite IH; cbn [reader_i reader_s].
    2: { rewrite length_take, length_drop. lia. }
    rewrite <- drop_drop. apply take_drop_length.
Qed.

(** Whatever chunk sizes libvirt asks for, what the upload callback hands over
    before it reports the end is exactly the rest of the buffer, in order; and it
    does report the end: for every buffer there is such a run. *)
Theorem upload_sends_all r data :
  (reader_i r <= length (reader_s r))%nat ->
  sends upload_source r data <-> data = drop (reader_i r) (reader_s r).
Proof.
  intros Hi. split.
  - intros Hs. by apply upload_data.
  - intros ->. destruct (decide (length (reader_s r) <= reader_i r)%nat) as [Hle|Hle].
    + rewrite drop_ge by done. apply (sends_done _ 1 _ r); [lia|]. rewrite upload_source_step by lia.
      rewrite decide_True by done. by rewrite drop_ge, take_nil by done.
    + set (k := (length (reader_s r) - reader_i r)%nat).
      rewrite <- (app_nil_r (drop _ _)).
      eapply (sends_chunk _ (Z.of_nat k)); [lia| | |].
      * rewrite upload_source_step by lia. rewrite decide_False by done.
        rewrite Nat2Z.id, take_ge by (rewrite length_drop; lia). reflexivity.
      * intros Hnil. apply (f_equal length) in Hnil. rewrite length_drop in Hnil. cbn in Hnil. lia.
      * apply (sends_done _ 1 _ (mkReader (reader_s r) (reader_i r + length (drop (reader_i r) (reader_s r)))));
          [lia|]. rewrite upload_source_step by lia. cbn [reader_i reader_s].
        rewrite decide_True by (rewrite length_drop; lia).
        by rewrite drop_ge, take_nil by (rewrite length_drop; lia).
Qed.

Lemma upload_sends_all_witness :
  sends upload_source (mkReader (chars "#cloud-config") 6) (chars "-config").
Proof. apply upload_sends_all; [cbn; lia|]. reflexivity. Defined.
