(* ===== verification/Domain.v ===== *)
(** * Domains (internal/libvirtclient/domain.go) *)

From stdpp Require Import base gmap list strings.
From Stdlib Require Import ZArith.
From S2P Require Import Prelude GoStrings Config LibvirtXML Builders MachineNetwork Reservation.
From S2P Require Import Libvirt Host OS CloudInit Volume Api Kube Credentials ProviderInterface.

Local Open Scope Z_scope.

(** The document [createDomain] defines. *)
Definition domain_document (cfg : MachineConfig) (diskPath cloudISOPath mac : string) : Domain :=
  WithSerialConsole
    (WithNetwork (cfg_Network cfg) mac
      (WithCloudInitISO cloudISOPath
        (WithDiskFile diskPath
          (WithVCPU (vCPU cfg)
            (WithMemoryMiB (memoryMiB cfg)
              (WithUUID (cfg_DomainUUID cfg)
                (NewDomain (MachineConfig_domainName cfg)))))))).

Section Domain.
Context {W : Type} `{!LibvirtXML} `{!Libvirt W} `{!CloudInitLib W} `{!OS W}.

Definition createDomain (conn : Connect) (cfg : MachineConfig) : M W unit :=
  domainPool ← wrap_err (WrapError ("lookup domain disk pool " +:+ cfg_DomainPool cfg))
    (LookupStoragePoolByName conn (cfg_DomainPool cfg)) ;
  defer (StoragePool_Free domainPool)
  (basePool ← wrap_err (WrapError ("lookup base disk pool " +:+ cfg_BasePool cfg))
     (LookupStoragePoolByName conn (cfg_BasePool cfg)) ;
   defer (StoragePool_Free basePool)
   (diskPath ← wrap_err (WrapError ("create base disk pool " +:+ cfg_BasePool cfg))
      (createRootDisk basePool domainPool cfg) ;
    cloudISOPath ← wrap_err (WrapError ("create iso disk " +:+ cfg_BasePool cfg))
      (createISODisk conn domainPool cfg) ;
    let mac := deriveDomainMAC (MachineConfig_domainName cfg) in
    network ← wrap_err (WrapError ("lookup network " +:+ cfg_Network cfg))
      (LookupNetworkByName conn (cfg_Network cfg)) ;
    defer (Network_Free network)
    (_ ← reserveMachineIP network (cfg_Network cfg) (MachineConfig_domainName cfg) mac ;
     domainXML ← wrap_err (WrapError "marshal domain XML")
       (lift (DomainBuilder_Marshal (domain_document cfg diskPath cloudISOPath mac))) ;
     domain ← wrap_err (WrapError ("define domain " +:+ MachineConfig_domainName cfg))
       (DomainDefineXML conn domainXML) ;
     defer (Domain_Free domain)
     (wrap_err (WrapError "set domain autostart") (Domain_SetAutostart domain true) ;;
      wrap_err (WrapError ("create domain " +:+ MachineConfig_domainName cfg)) (Domain_Create domain))))).

Definition deleteDomain (conn : Connect) (name : string) : M W unit :=
  dom ← try (LookupDomainByName conn name) ;
  match dom with
  | inl err =>
      if isLibvirtErr err ERR_NO_DOMAIN then mret tt
      else fail (WrapError ("lookup domain " +:+ name) err)
  | inr dom =>
      defer (Domain_Free dom)
        (active ← try (Domain_IsActive dom) ;
         (match active with
          | inr true => wrap_err (WrapError ("destroy domain " +:+ name)) (Domain_Destroy dom)
          | _ => mret tt
          end) ;;
         wrap_err (WrapError ("undefine domain " +:+ name)) (Domain_Undefine dom))
  end.

Definition domainStateOf (state : virDomainState) : DomainState :=
  match state with
  | DOMAIN_RUNNING => DomainStateRunning
  | DOMAIN_SHUTOFF | DOMAIN_SHUTDOWN | DOMAIN_CRASHED => DomainStateStopped
  | DOMAIN_PAUSED | DOMAIN_BLOCKED | DOMAIN_PMSUSPENDED => DomainStateUnknown
  | _ => DomainStateUnknown
  end.

Definition getDomainState (conn : Connect) (name : string) : M W DomainState :=
  dom ← try (LookupDomainByName conn name) ;
  match dom with
  | inl err =>
      if isLibvirtErr err ERR_NO_DOMAIN then mret DomainStateNotFound
      else fail (WrapError ("lookup domain " +:+ quote name) err)
  | inr dom =>
      defer (Domain_Free dom)
        (state ← wrap_err (WrapError ("get domain state " +:+ quote name)) (Domain_GetState dom) ;
         mret (domainStateOf state))
  end.
End Domain.
