(* ===== verification/RefHost.v ===== *)
(** * A reference libvirt host

    A libvirt host, a local file system and an image library kept in memory, with
    one kind of call that may be made to fail ([Fault]).  They
    satisfy [HandleLaws], [HostLaws] and [OSLaws] together, and give the provider's
    theorems concrete runs. *)

From stdpp Require Import base gmap list strings pretty.
From Stdlib Require Import ZArith Lia.
From S2P Require Import Prelude GoStrings Config LibvirtXML RefXML MachineNetwork Reservation.
From S2P Require Import Libvirt Host OS CloudInit.

Local Open Scope Z_scope.

(** One kind of call that fails, to exercise an error path: uploads, the question
    whether a domain is active, or the removal of a temporary directory. *)
Inductive Fault := UploadFault | ActivityFault | RemovalFault.
#[global] Instance Fault_eq_dec : EqDecision Fault.
Proof. solve_decision. Defined.
Record RefHost := mkRefHost {
  hw_host : HostState;
  hw_handles : Z;
  hw_streams : gmap nat UploadState;
  hw_next : nat;
  hw_dirs : gset string;
  hw_files : gmap string string;
  hw_fault : option Fault;
}.

Definition on_host (f : HostState -> HostState) (w : RefHost) : RefHost :=
  mkRefHost (f (hw_host w)) (hw_handles w) (hw_streams w) (hw_next w) (hw_dirs w) (hw_files w) (hw_fault w).
Definition add_handles (k : Z) (w : RefHost) : RefHost :=
  mkRefHost (hw_host w) (hw_handles w + k) (hw_streams w) (hw_next w) (hw_dirs w) (hw_files w) (hw_fault w).
Definition on_streams (f : gmap nat UploadState -> gmap nat UploadState) (w : RefHost) : RefHost :=
  mkRefHost (hw_host w) (hw_handles w) (f (hw_streams w)) (hw_next w) (hw_dirs w) (hw_files w) (hw_fault w).
Definition tick (w : RefHost) : RefHost :=
  mkRefHost (hw_host w) (hw_handles w) (hw_streams w) (S (hw_next w)) (hw_dirs w) (hw_files w) (hw_fault w).
Definition on_dirs (f : gset string -> gset string) (w : RefHost) : RefHost :=
  mkRefHost (hw_host w) (hw_handles w) (hw_streams w) (hw_next w) (f (hw_dirs w)) (hw_files w) (hw_fault w).
Definition on_files (f : gmap string string -> gmap string string) (w : RefHost) : RefHost :=
  mkRefHost (hw_host w) (hw_handles w) (hw_streams w) (hw_next w) (hw_dirs w) (f (hw_files w)) (hw_fault w).

Definition with_fault (f : option Fault) (w : RefHost) : RefHost :=
  mkRefHost (hw_host w) (hw_handles w) (hw_streams w) (hw_next w) (hw_dirs w) (hw_files w) f.
Definition has_fault (f : Fault) (w : RefHost) : bool := bool_decide (hw_fault w = Some f).
Definition other_error : error := LibvirtError (ERR_OTHER 1) "internal error".

(** A lookup of something that is there when [found] holds. *)
Definition ref_lookup {A} (found : HostState -> bool) (code : ErrorNumber) (x : A) : M RefHost A := fun w =>
  if found (hw_host w) then (Ok x, add_handles 1 w) else (Err (LibvirtError code "not found"), w).
Definition ref_read {A} (f : HostState -> option A) : M RefHost A := fun w =>
  match f (hw_host w) with Some a => (Ok a, w) | None => (Err other_error, w) end.

(** [SendAll]: ask the callback for chunks until it has none. *)
Fixpoint send_loop (fuel : nat) (h : SourceFunc) (r : Reader) : result (list Ascii.ascii) :=
  match fuel with
  | O => Diverge
  | S f =>
      match h 64 r with
      | (Ok [], _) => Ok []
      | (Ok chunk, r') =>
          match send_loop f h r' with Ok rest => Ok (chunk ++ rest) | e => e end
      | (Err e, _) => Err e
      | (Diverge, _) => Diverge
      end
  end.

Definition ref_update (n : string) (cmd : NetworkUpdateCommand) (section : NetworkUpdateSection) (xml : string)
    : M RefHost unit := fun w =>
  match section, host_networks (hw_host w) !! n, read_doc xml with
  | NETWORK_SECTION_IP_DHCP_HOST, Some s, Some h =>
      match update_network cmd h (network_doc s) with
      | Some doc => (Ok tt, on_host (set_network_doc n doc) w)
      | None => (Err other_error, w)
      end
  | _, _, _ => (Err other_error, w)
  end.

Definition ref_create_volume (p : string) (xml : string) : M RefHost (string * string) := fun w =>
  match read_doc xml with
  | Some doc =>
      if bool_decide (is_Some (host_pools (hw_host w) !! p)) &&
         bool_decide (host_volume (hw_host w) (p, vol_Name doc) = None)
      then (Ok (p, vol_Name doc),
            add_handles 1 (on_host (alter_volumes (insert (vol_Name doc)
              (mkVolumeState ("/pools/" +:+ p +:+ "/" +:+ vol_Name doc) doc [])) p) w))
      else (Err other_error, w)
  | None => (Err other_error, w)
  end.

Definition ref_finish (s : nat) : M RefHost unit := fun w =>
  match hw_streams w !! s with
  | Some u => (Ok tt, on_host (alter_volumes
      (alter (fun v => mkVolumeState (volume_path v) (volume_doc v) (upload_sent u)) (upload_target u).2)
      (upload_target u).1) w)
  | None => (Err other_error, w)
  end.

Definition ref_send (s : nat) (h : SourceFunc) (r : Reader) : M RefHost unit := fun w =>
  match hw_streams w !! s with
  | Some u =>
      match send_loop (S (length (reader_s r))) h r with
      | Ok data => (Ok tt, on_streams (insert s (mkUpload (upload_target u) (upload_length u)
                                                   (upload_sent u ++ data))) w)
      | Err e => (Err e, w)
      | Diverge => (Diverge, w)
      end
  | None => (Err other_error, w)
  end.

Definition ref_alter_domain (f : DomState -> option DomState) (d : string) : M RefHost unit := fun w =>
  (Ok tt, on_host (alter_domain f d) w).

#[global] Instance RefHost_networks : networkOperations RefHost string := {
  GetXMLDesc n _ := ref_read (fun h => (fun s => write_doc (network_doc s)) <$> (host_networks h !! n));
  Update n cmd section _ xml _ := ref_update n cmd section xml;
  GetDHCPLeases n := ref_read (fun h => network_leases <$> (host_networks h !! n));
}.

#[global] Instance RefHost_libvirt : Libvirt RefHost := {
  Connect := unit;
  virNetwork := string;
  StoragePool := string;
  StorageVol := (string * string);
  virDomain := string;
  Stream := nat;
  NewConnect _ := ref_lookup (fun _ => true) (ERR_OTHER 38) tt;
  Connect_Close _ := add_handles (-1);
  LookupNetworkByName _ n := ref_lookup (fun h => bool_decide (is_Some (host_networks h !! n))) ERR_NO_NETWORK n;
  Network_IsActive n := ref_read (fun h => network_active <$> (host_networks h !! n));
  Network_operations := RefHost_networks;
  Network_Free _ := add_handles (-1);
  LookupStoragePoolByName _ n := ref_lookup (fun h => bool_decide (is_Some (host_pools h !! n))) ERR_NO_STORAGE_POOL n;
  StoragePool_IsActive p := ref_read (fun h => pool_active <$> (host_pools h !! p));
  StoragePool_Free _ := add_handles (-1);
  LookupStorageVolByName p n :=
    ref_lookup (fun h => bool_decide (is_Some (host_volume h (p, n)))) ERR_NO_STORAGE_VOL (p, n);
  StorageVolCreateXML p xml _ := ref_create_volume p xml;
  StorageVol_GetPath v := ref_read (fun h =>
    match host_volume h v with
    | Some s => if bool_decide (volume_path s = "") then None else Some (volume_path s)
    | None => None
    end);
  StorageVol_Delete v _ := fun w => (Ok tt, on_host (alter_volumes (delete v.2) v.1) w);
  StorageVol_Upload v s _ len _ := fun w =>
    if has_fault UploadFault w then (Err other_error, w) else (Ok tt, on_streams (insert s (mkUpload v len [])) w);
  StorageVol_Free _ := add_handles (-1);
  NewStream _ _ := fun w => (Ok (hw_next w), tick (add_handles 1 w));
  Stream_SendAll := ref_send;
  Stream_Abort _ w := w;
  Stream_Finish := ref_finish;
  Stream_Free _ := add_handles (-1);
  LookupDomainByName _ n := ref_lookup (fun h => bool_decide (is_Some (host_domains h !! n))) ERR_NO_DOMAIN n;
  DomainDefineXML _ xml := fun w =>
    match read_doc xml with
    | Some doc => (Ok (dom_Name doc), add_handles 1 (on_host (fun h => set_domains h
        (<[dom_Name doc := domain_defined doc (host_domains h !! dom_Name doc)]> (host_domains h))) w))
    | None => (Err other_error, w)
    end;
  Domain_SetAutostart d b := ref_alter_domain (fun s =>
    Some (mkDomState (domain_doc s) (domain_active s) (domain_state s) b (domain_persistent s))) d;
  Domain_Create d := ref_alter_domain domain_started d;
  Domain_Destroy d := ref_alter_domain domain_stopped d;
  Domain_Undefine d := ref_alter_domain domain_undefined d;
  Domain_IsActive d := fun w =>
    if has_fault ActivityFault w then (Err other_error, w)
    else (Ok (match host_domains (hw_host w) !! d with Some s => domain_active s | None => false end), w);
  Domain_GetState d := ref_read (fun h => domain_state <$> (host_domains h !! d));
  Domain_Free _ := add_handles (-1);
}.

#[global] Instance RefHost_handles : HandleCount RefHost := hw_handles.
#[global] Instance RefHost_view : HostView RefHost := {
  host := hw_host;
  stream_upload w s := hw_streams w !! s;
  net_name n := n;
  pool_name p := p;
  vol_id v := v;
  dom_name d := d;
}.
#[global] Existing Instance RefXML.

(** ** The laws *)

Lemma ref_lookup_acquires {A} found code (x : A) : Acquires (ref_lookup found code x).
Proof. intros w. unfold ref_lookup. by destruct (found _). Qed.
Lemma ref_read_balanced {A} (f : HostState -> option A) : Balanced (ref_read f).
Proof. intros w _. unfold ref_read. by destruct (f _). Qed.
Lemma add_handles_releases : Releases (add_handles (-1)).
Proof. by intros w. Qed.
Create HintDb ref.
#[local] Hint Resolve ref_lookup_acquires ref_read_balanced add_handles_releases : ref.

#[global] Instance RefHost_handle_laws : HandleLaws RefHost.
Proof.
  split; cbn; auto with ref; try (by intros); unfold Balanced, Acquires.
  - intros n cmd sec i xml f w _. unfold ref_update.
    destruct sec, (host_networks (hw_host w) !! n) as [s|]; try done. destruct (read_doc _); [|done].
    by destruct (update_network _ _ _).
  - intros p xml _ w. unfold ref_create_volume. destruct (read_doc _); [|done]. by destruct (_ && _).
  - intros v s _ l _ w _. by destruct (has_fault UploadFault w).
  - intros s h r w _. unfold ref_send. destruct (hw_streams w !! s); [|done]. by destruct (send_loop _ _ _).
  - intros s w _. unfold ref_finish. by destruct (hw_streams w !! s).
  - intros c xml w. by destruct (read_doc _).
  - intros d w _. by destruct (has_fault ActivityFault w).
Qed.

Lemma ref_lookup_law {A} (found : HostState -> Prop) `{forall h, Decision (found h)} code (x : A) (P : A -> Prop) :
  P x -> Lookup (ref_lookup (fun h => bool_decide (found h)) code x) code found P.
Proof.
  intros HP. split_and!.
  - intros w. unfold ref_lookup. by case_bool_decide.
  - intros w y. unfold ref_lookup. case_bool_decide; [|done]. by intros [= <-].
  - intros w e. unfold ref_lookup. case_bool_decide; [done|]. intros [= <-]. eexists _, _. split; [done|]. done.
Qed.
Lemma ref_read_readonly {A} (f : HostState -> option A) : ReadOnly (ref_read f).
Proof. intros w. unfold ref_read. by destruct (f _). Qed.
Lemma ref_read_law {A} (f : HostState -> option A) w a : (ref_read f w).1 = Ok a -> f (hw_host w) = Some a.
Proof. unfold ref_read. destruct (f _); [|done]. by intros [= ->]. Qed.
Lemma ref_read_err {A} (f : HostState -> option A) w e :
  (ref_read f w).1 = Err e -> exists c t, e = LibvirtError c t.
Proof. unfold ref_read. destruct (f _); [done|]. intros [= <-]. by eexists _, _. Qed.

Lemma send_loop_sends fuel h r data : send_loop fuel h r = Ok data -> sends h r data.
Proof.
  revert r data. induction fuel as [|fuel IH]; intros r data; [done|]. cbn [send_loop].
  destruct (h 64 r) as [[[|c chunk]|e|] r'] eqn:Hh; try done.
  - intros [= <-]. by apply (sends_done _ 64 _ r').
  - destruct (send_loop fuel h r') as [rest|e|] eqn:Hl; try done. intros [= <-].
    change (c :: chunk ++ rest) with ((c :: chunk) ++ rest). apply (sends_chunk _ 64 _ _ r'); auto; lia.
Qed.

#[global] Instance RefHost_network_laws : NetworkLaws RefHost virNetwork.
Proof.
  split.
  - intros n w xml w' H. cbn in n, H. unfold ref_read in H. unfold net_view, Host_NetworkView. cbn.
    destruct (host_networks (hw_host w) !! n) as [s|]; [|done]. cbn in H. injection H as <- <-.
    by rewrite read_write_doc.
  - intros n cmd h xml w w' [= <-] H. cbn in n, H. unfold ref_update in H. unfold net_view, Host_NetworkView. cbn.
    destruct (host_networks (hw_host w) !! n) as [s|] eqn:Hs; [|done]. rewrite read_write_doc in H.
    destruct (update_network cmd h (network_doc s)) as [doc|]; [|done]. injection H as <-. cbn.
    by rewrite lookup_alter_eq, Hs.
Qed.

#[global] Instance RefHost_host_laws : HostLaws RefHost.
Proof.
  split; cbn -[RefHost_networks]; try (intros; apply ref_read_readonly); try (by intros; apply ref_lookup_law);
    try (by intros); try apply RefHost_network_laws.
  all: try (intros n w b H s Hs; apply ref_read_law in H; rewrite Hs in H; by injection H).
  all: try (intros n w e H; by apply ref_read_err in H).
  - (* Update_frame *)
    intros n cmd sec i xml f w w' H. cbn in n, H. unfold ref_update in H. unfold net_view, Host_NetworkView. cbn.
    destruct sec, (host_networks (hw_host w) !! n) as [s|] eqn:Hs; try done. destruct (read_doc _); [|done].
    destruct (update_network _ _ _) as [doc|]; [|done]. injection H as <-. cbn. by rewrite lookup_alter_eq, Hs.
  - (* GetDHCPLeases_law *)
    intros n w l H s Hs. cbn in H. apply ref_read_law in H. rewrite Hs in H. by injection H.
  - (* VolCreate_law *)
    intros p doc xml w v w' [= <-] H. unfold ref_create_volume in H. rewrite read_write_doc in H.
    destruct (bool_decide _ && _) eqn:Hb; [|done]. apply andb_true_iff in Hb as [H1 H2].
    apply bool_decide_eq_true in H1, H2. injection H as <- <-. split_and!; try done. eexists. split; [|reflexivity]. done.
  - (* GetPath_law *)
    intros v w path H. apply ref_read_law in H. destruct (host_volume (hw_host w) v) as [s|]; [|done].
    case_bool_decide; [done|]. injection H as <-. split; [done|]. by intros s' [= ->].
  - (* VolDelete_law *) by intros v w w' [= <-].
  - (* Upload_law *)
    intros v s len w w' H. destruct (has_fault UploadFault w); [done|]. injection H as <-. cbn.
    by rewrite lookup_insert_eq.
  - (* SendAll_law *)
    intros s h r w w' u H Hu. unfold ref_send in H. rewrite Hu in H.
    destruct (send_loop _ h r) as [data|e|] eqn:Hd; try done. injection H as <-. exists data.
    split; [by eapply send_loop_sends|]. cbn. by rewrite lookup_insert_eq.
  - (* Finish_law *)
    intros s w w' u H Hu. unfold ref_finish in H. rewrite Hu in H. by injection H as <-.
  - (* Define_law *)
    intros c doc xml w d w' [= <-] H. rewrite read_write_doc in H. by injection H as <- <-.
  - by intros d b w w' [= <-].
  - by intros d w w' [= <-].
  - by intros d w w' [= <-].
  - by intros d w w' [= <-].
  - intros d w. by destruct (has_fault _ w).
  - intros d w b H s Hs. destruct (has_fault _ w); [done|]. injection H as <-. by rewrite Hs.
Qed.

(** ** Files and images *)

Definition file_error : error := ErrorString "no such file or directory".

#[global] Instance RefHost_os : OS RefHost := {
  os_File := string;
  MkdirTemp _ pattern := fun w =>
    let d := "/tmp/" +:+ pattern +:+ pretty (hw_next w) in
    if bool_decide (d ∈ hw_dirs w) then (Err (ErrorString "file exists"), w)
    else (Ok d, tick (on_dirs (union {[ d ]}) w));
  RemoveAll d := fun w =>
    if has_fault RemovalFault w then (Err (ErrorString "permission denied"), w)
    else (Ok tt, on_dirs (fun ds => ds ∖ {[ d ]}) w);
  WriteFile path data _ := fun w => (Ok tt, on_files (insert path data) w);
  os_Open path := fun w =>
    if bool_decide (is_Some (hw_files w !! path)) then (Ok path, w) else (Err file_error, w);
  io_Copy f := fun w =>
    match hw_files w !! f with Some d => (Ok d, w) | None => (Err file_error, w) end;
  File_Close _ w := w;
}.
#[global] Instance RefHost_file_view : FileView RefHost := {
  temp_dirs := hw_dirs;
  file_at w p := hw_files w !! p;
  open_files _ := 0;
  file_path f := f;
}.

#[global] Instance RefHost_os_laws : OSLaws RefHost.
Proof.
  split; cbn; try done.
  - intros dir pattern w d w' H. case_bool_decide; [done|]. by injection H as <- <-.
  - intros dir pattern w e w' H. case_bool_decide; [|done]. by injection H as <- <-.
  - intros d w w' H. destruct (has_fault _ w); [done|]. by injection H as <-.
  - intros d w. destruct (has_fault _ w); set_solver.
  - intros path data mode w w' [= <-]. cbn. split; [apply lookup_insert_eq|]. intros p Hp.
    by apply lookup_insert_ne.
  - intros path w. by case_bool_decide.
  - intros path w f w' H. case_bool_decide; [|done]. by injection H as <- <-.
  - intros f w. by destruct (hw_files w !! f).
  - intros f w data w' H. destruct (hw_files w !! f); [|done]. by injection H as <- <-.
Qed.

(** An image file is a text of its label and its files. *)
Definition image_add (path text : string) (w : RefHost) : RefHost :=
  on_files (fun fs => <[path := default "" (fs !! path) +:+ text]> fs) w.

#[global] Instance RefHost_cloudinit : CloudInitLib RefHost := {
  Disk := string;
  FileSystem := string;
  FSFile := (string * string);
  yaml_Marshal m := Ok ("instance-id: " +:+ InstanceID m +:+ " local-hostname: " +:+ LocalHostname m);
  diskfs_Create path _ := fun w => (Ok path, on_files (insert path "") w);
  set_LogicalBlocksize _ _ w := w;
  CreateFilesystem_ISO9660 d _ := fun w => (Ok d, w);
  Disk_Close _ := fun w => (Ok tt, w);
  OpenFile fs name := fun w => (Ok (fs, name), w);
  FSFile_Write f data := fun w => (Ok tt, image_add f.1 ("[" +:+ f.2 +:+ "]" +:+ data) w);
  FSFile_Close _ := fun w => (Ok tt, w);
  IsISO9660 _ := true;
  Finalize fs o := fun w => (Ok tt, image_add fs (VolumeIdentifier o) w);
  FileSystem_Close _ := fun w => (Ok tt, w);
}.

(** An observation that does not look at the file system and the counter. *)
Definition not_files {X} (obs : RefHost -> X) : Prop :=
  (forall f w, obs (on_files f w) = obs w) /\ (forall f w, obs (on_dirs f w) = obs w) /\
  (forall w, obs (tick w) = obs w).
Lemma ref_files_keep {X} (obs : RefHost -> X) : not_files obs -> FilesKeep obs.
Proof.
  intros (Hf & Hd & Ht). split; cbn; unfold Keeps; cbn; auto.
  - intros _ p w. case_bool_decide; cbn; [done|]. by rewrite Ht, Hd.
  - intros d w. destruct (has_fault _ w); [done|apply Hd].
  - intros p w. by case_bool_decide.
  - intros f w. by destruct (hw_files w !! f).
Qed.
Lemma ref_disks_keep {X} (obs : RefHost -> X) : not_files obs -> DisksKeep obs.
Proof. intros (Hf & Hd & Ht). split; cbn; unfold Keeps, image_add; cbn; auto. Qed.

#[global] Instance RefHost_files_host : FilesKeep (W := RefHost) host.
Proof. apply ref_files_keep. by split_and!. Qed.
#[global] Instance RefHost_disks_host : DisksKeep (W := RefHost) host.
Proof. apply ref_disks_keep. by split_and!. Qed.
#[global] Instance RefHost_files_fault : FilesKeep hw_fault.
Proof. apply ref_files_keep. by split_and!. Qed.
#[global] Instance RefHost_files_handles : FilesKeep (W := RefHost) handles.
Proof. apply ref_files_keep. by split_and!. Qed.
#[global] Instance RefHost_disks_handles : DisksKeep (W := RefHost) handles.
Proof. apply ref_disks_keep. by split_and!. Qed.
