(* ===== verification/HostSpec.v ===== *)
(** * What the provider's operations do to a libvirt host: volumes and domains

    Functional specifications of the routines of volume.go and domain.go in
    terms of the host's state, under [HostLaws]. *)

From stdpp Require Import base gmap list strings.
From Stdlib Require Import ZArith Lia.
From S2P Require Import Prelude GoStrings Config LibvirtXML Builders MachineNetwork Reservation.
From S2P Require Import Libvirt Host OS CloudInit Volume Domain.
From S2P Require Import Api Kube Credentials ProviderInterface.

Local Open Scope Z_scope.

(** ** Updating the host *)

Lemma host_volume_alter f pool h p n :
  host_volume (alter_volumes f pool h) (p, n) =
  if decide (p = pool) then host_pools h !! p ≫= fun s => f (pool_volumes s) !! n else host_volume h (p, n).
Proof.
  unfold host_volume, alter_volumes. cbn. case_decide as Hp.
  - subst p. rewrite lookup_alter_eq. by destruct (host_pools h !! pool).
  - by rewrite lookup_alter_ne.
Qed.
Lemma host_volume_insert name v pool h :
  is_Some (host_pools h !! pool) ->
  host_volume (alter_volumes (insert name v) pool h) (pool, name) = Some v /\
  forall id, id <> (pool, name) -> host_volume (alter_volumes (insert name v) pool h) id = host_volume h id.
Proof.
  intros [s Hs]. split.
  - rewrite host_volume_alter, decide_True by done. rewrite Hs. cbn. apply lookup_insert_eq.
  - intros [p n] Hne. rewrite host_volume_alter. case_decide as Hp; [|done]. subst p.
    unfold host_volume. cbn. rewrite Hs. cbn. apply lookup_insert_ne. congruence.
Qed.
Lemma host_volume_delete name pool h :
  host_volume (alter_volumes (delete name) pool h) (pool, name) = None /\
  forall id, id <> (pool, name) -> host_volume (alter_volumes (delete name) pool h) id = host_volume h id.
Proof.
  split.
  - rewrite host_volume_alter, decide_True by done. destruct (host_pools h !! pool); [|done]. cbn.
    apply lookup_delete_eq.
  - intros [p n] Hne. rewrite host_volume_alter. case_decide as Hp; [|done]. subst p.
    unfold host_volume. cbn. destruct (host_pools h !! pool); [|done]. cbn. apply lookup_delete_ne. congruence.
Qed.
Lemma host_volume_alter_data g name pool h :
  host_volume (alter_volumes (alter g name) pool h) (pool, name) = g <$> host_volume h (pool, name) /\
  forall id, id <> (pool, name) -> host_volume (alter_volumes (alter g name) pool h) id = host_volume h id.
Proof.
  split.
  - rewrite host_volume_alter, decide_True by done. unfold host_volume. cbn.
    destruct (host_pools h !! pool); [|done]. cbn. apply lookup_alter_eq.
  - intros [p n] Hne. rewrite host_volume_alter. case_decide as Hp; [|done]. subst p.
    unfold host_volume. cbn. destruct (host_pools h !! pool); [|done]. cbn. apply lookup_alter_ne. congruence.
Qed.

(** [h'] differs from [h] at most in the volume [id]: networks, domains, the pools
    and their state, and every other volume are the same. *)
Definition only_volume (id : string * string) (h h' : HostState) : Prop :=
  host_networks h' = host_networks h /\ host_domains h' = host_domains h /\
  (forall p, pool_active <$> (host_pools h' !! p) = pool_active <$> (host_pools h !! p)) /\
  forall i, i <> id -> host_volume h' i = host_volume h i.

#[export] Instance only_volume_refl id : Reflexive (only_volume id).
Proof. intros h. done. Qed.
#[export] Instance only_volume_trans id : Transitive (only_volume id).
Proof.
  intros h1 h2 h3 (Hn1 & Hd1 & Hp1 & Hv1) (Hn2 & Hd2 & Hp2 & Hv2). split_and!; [congruence..| |].
  - intros p. by rewrite Hp2.
  - intros i Hi. by rewrite Hv2, Hv1.
Qed.
Lemma alter_volumes_active f pool h p :
  pool_active <$> (host_pools (alter_volumes f pool h) !! p) = pool_active <$> (host_pools h !! p).
Proof.
  unfold alter_volumes. cbn. destruct (decide (pool = p)) as [->|Hne].
  - rewrite lookup_alter_eq. by destruct (host_pools h !! p).
  - by rewrite lookup_alter_ne.
Qed.
Lemma only_volume_alter f pool name h :
  (forall id, id <> (pool, name) -> host_volume (alter_volumes f pool h) id = host_volume h id) ->
  only_volume (pool, name) h (alter_volumes f pool h).
Proof. intros Hv. split_and!; [done..|apply alter_volumes_active|exact Hv]. Qed.

(** ** Volumes *)

Section VolumeSpec.
Context {W : Type} {LX : LibvirtXML} {L : Libvirt W} {HV : HostView W} {HL : HostLaws W}.
Context {CI : CloudInitLib W} {O : OS W}.

Lemma invisible_host (f : W -> W) w : Invisible f -> host (f w) = host w.
Proof. intros Hf. by destruct (Hf w). Qed.

Lemma isVolumeNotFound_code c t : isVolumeNotFound (LibvirtError c t) = true -> c = ERR_NO_STORAGE_VOL.
Proof. unfold isVolumeNotFound. cbn. apply bool_decide_eq_true. Qed.
Lemma isLibvirtErr_code c t code : isLibvirtErr (LibvirtError c t) code = true -> c = code.
Proof. unfold isLibvirtErr. cbn. apply bool_decide_eq_true. Qed.

Lemma getVolumePath_ok pool name w path w' :
  getVolumePath (W := W) pool name w = (Ok path, w') ->
  host w' = host w /\
  match host_volume (host w) (pool_name pool, name) with
  | Some v => path = volume_path v /\ path <> ""
  | None => path = ""
  end.
Proof.
  unfold getVolumePath. intros H. go_inv1 H.
  apply try_ok_inv in Hm as [(vol & Hl & ->)|(e & Hl & ->)].
  - destruct (lookup_ok _ _ _ _ _ _ _ (LookupVol_law pool name) Hl) as ([v Hv] & Hid & Hh).
    go_inv1 H. go_inv1 H. subst w'. rewrite (invisible_host _ _ (Vol_Free_invisible vol)).
    rewrite (readonly_run _ _ _ _ (GetPath_readonly vol) H). split; [done|]. rewrite Hv.
    destruct (GetPath_law vol w0 path) as [Hne Hp]; [by rewrite H|].
    split; [|done]. apply Hp. by rewrite Hid, Hh.
  - destruct (lookup_err _ _ _ _ _ _ _ (LookupVol_law pool name) Hl) as (Hh & c & t & -> & Hc).
    destruct (isVolumeNotFound _) eqn:Hnf; [|discriminate H]. injection H as <- <-.
    split; [done|]. apply isVolumeNotFound_code in Hnf. specialize (Hc Hnf).
    destruct (host_volume _ _); [|done]. destruct Hc. eauto.
Qed.

Lemma createVolume_ok pool doc xml w path w' :
  StorageVolume_Marshal doc = Ok xml ->
  createVolume (W := W) pool xml w = (Ok path, w') ->
  path <> "" /\ is_Some (host_pools (host w) !! pool_name pool) /\
  host_volume (host w) (pool_name pool, vol_Name doc) = None /\
  host w' = alter_volumes (insert (vol_Name doc) (mkVolumeState path doc [])) (pool_name pool) (host w).
Proof.
  intros Hx H. unfold createVolume in H. go_inv1 H. go_inv1 Hm. go_inv1 H. go_inv1 H.
  destruct (VolCreate_law pool doc xml w a w0 Hx Hm) as (Hid & Hpool & Hnone & p & Hp & Hh).
  destruct (GetPath_law a w0 path) as [Hne Hpath]; [by rewrite H|].
  assert (host_volume (host w0) (vol_id a) = Some (mkVolumeState p doc [])) as Hv.
  { rewrite Hh, Hid. by apply host_volume_insert. }
  rewrite (Hpath _ Hv). cbn. split; [done|]. split; [done|]. split; [done|].
  subst w'. rewrite (invisible_host _ _ (Vol_Free_invisible a)).
  by rewrite (readonly_run _ _ _ _ (GetPath_readonly a) H).
Qed.

(** The root disk's document: a copy-on-write image over the base image. *)
Definition root_disk_document (cfg : MachineConfig) (baseImagePath : string) : StorageVolume :=
  WithBackingStore baseImagePath DefaultVolumeFormat
    (WithCapacity (diskSizeGiB cfg) "G" (NewVolume (domainDiskName cfg))).

(** After [createRootDisk] the root volume is in the domain pool at the path
    returned: the one that was there, or a new one over the base image. *)
Definition root_disk_made (base pool : string) (cfg : MachineConfig) (h h' : HostState) (path : string) : Prop :=
  let id := (pool, domainDiskName cfg) in
  path <> "" /\ only_volume id h h' /\
  match host_volume h id with
  | Some v => path = volume_path v /\ host_volume h' id = Some v
  | None => exists b, host_volume h (base, cfg_BaseImage cfg) = Some b /\
      host_volume h' id = Some (mkVolumeState path (root_disk_document cfg (volume_path b)) [])
  end.

Lemma createRootDisk_ok base pool cfg w path w' :
  createRootDisk (W := W) base pool cfg w = (Ok path, w') ->
  root_disk_made (pool_name base) (pool_name pool) cfg (host w) (host w') path.
Proof.
  unfold createRootDisk. intros H. go_inv1 H. apply getVolumePath_ok in Hm as [Hh Hp].
  unfold root_disk_made. destruct (host_volume (host w) (pool_name pool, domainDiskName cfg)) as [v|] eqn:Hv.
  - destruct Hp as [-> Hne]. rewrite bool_decide_eq_false_2 in H by done. injection H as <- <-.
    rewrite Hh. by split_and!.
  - rewrite bool_decide_eq_true_2 in H by done. cbn [negb] in H. go_inv1 H. apply getVolumePath_ok in Hm as [Hh1 Hb].
    rewrite Hh in Hb. destruct (host_volume (host w) (pool_name base, cfg_BaseImage cfg)) as [b|] eqn:Hbv.
    + destruct Hb as [-> Hne]. rewrite bool_decide_eq_false_2 in H by done.
      go_inv1 H. go_inv1 Hm. injection Hm as Hx <-. go_inv1 H.
      destruct (createVolume_ok pool (root_disk_document cfg (volume_path b)) _ _ _ _ Hx H)
        as (Hpath & Hpool & Hnone & Hh2).
      rewrite Hh1, Hh in Hh2, Hpool. rewrite Hh2.
      destruct (host_volume_insert (domainDiskName cfg)
                  (mkVolumeState path (root_disk_document cfg (volume_path b)) []) _ _ Hpool) as [Hi Ho].
      split_and!; [done|by apply only_volume_alter|]. exists b. by split.
    + by rewrite bool_decide_eq_true_2 in H by done.
Qed.

(** A successful upload makes the buffer the data of the volume. *)
Lemma storageVolUpload_ok conn buff vol w w' :
  storageVolUpload (W := W) conn buff vol w = (Ok tt, w') ->
  host w' = alter_volumes
    (alter (fun v => mkVolumeState (volume_path v) (volume_doc v) (chars buff)) (vol_id vol).2)
    (vol_id vol).1 (host w).
Proof.
  unfold storageVolUpload. intros H. go_inv1 H. go_inv1 Hm. go_inv1 H. subst w'. rewrite Stream_Free_host.
  pose proof (NewStream_readonly conn 0 w) as Hs. rewrite Hm in Hs. cbn in Hs.
  go_inv1 H. go_inv1 Hm0. destruct a0. apply Upload_law in Hm0 as [Hh1 Hu1].
  go_inv1 H. apply try_ok_inv in Hm0 as [([] & Hsend & ->)|(e & Hsend & ->)]; [|discriminate H].
  go_inv1 H. destruct (SendAll_law _ _ _ _ _ _ Hsend Hu1) as (data & Hdata & Hh2 & Hu2).
  apply upload_data in Hdata; [|cbn; lia]. cbn in Hdata. subst data. cbn in Hu2.
  rewrite (Finish_law _ _ _ _ H Hu2). cbn. by rewrite Hh2, Hh1, Hs.
Qed.

(** The ISO volume: raw, of the size of the image. *)
Definition iso_disk_document (cfg : MachineConfig) (buff : string) : StorageVolume :=
  WithRawType (WithCapacity (len buff) "bytes" (NewVolume (isoDiskName cfg))).

(** After [createISODisk] the cloud-init volume is in the domain pool at the path
    returned: the one that was there, or a new one that holds the image built. *)
Definition iso_disk_made (pool : string) (cfg : MachineConfig) (h h' : HostState) (path : string) : Prop :=
  let id := (pool, isoDiskName cfg) in
  path <> "" /\ only_volume id h h' /\
  match host_volume h id with
  | Some v => path = volume_path v /\ host_volume h' id = Some v
  | None => exists buff w1 w2, writeCloudInitISO (W := W) cfg w1 = (Ok buff, w2) /\
      host_volume h' id = Some (mkVolumeState path (iso_disk_document cfg buff) (chars buff))
  end.

Context {FK : FilesKeep (W := W) host} {DK : DisksKeep (W := W) host}.

Lemma createISODisk_ok conn pool cfg w path w' :
  createISODisk (W := W) conn pool cfg w = (Ok path, w') ->
  iso_disk_made (pool_name pool) cfg (host w) (host w') path.
Proof.
  unfold createISODisk. intros H. go_inv1 H. apply getVolumePath_ok in Hm as [Hh Hp].
  unfold iso_disk_made. destruct (host_volume (host w) (pool_name pool, isoDiskName cfg)) as [v|] eqn:Hv.
  { destruct Hp as [-> Hne]. rewrite bool_decide_eq_false_2 in H by done. injection H as <- <-.
    rewrite Hh. by split_and!. }
  rewrite bool_decide_eq_true_2 in H by done. cbn [negb] in H. go_inv1 H. go_inv1 Hm.
  pose proof (keeps_run _ _ _ _ (writeCloudInitISO_keeps host cfg) Hm) as Hh1. rename Hm into Hbuff.
  rename a0 into buff. go_inv1 H. go_inv1 Hm. injection Hm as Hx <-. go_inv1 H. go_inv1 Hm.
  destruct (createVolume_ok pool (iso_disk_document cfg buff) _ _ _ _ Hx Hm) as (Hpath & Hpool & Hnone & Hh2).
  rewrite Hh1, Hh in Hh2, Hpool. change (vol_Name (iso_disk_document cfg buff)) with (isoDiskName cfg) in Hh2.
  clear Hm. go_inv1 H. destruct (lookup_ok _ _ _ _ _ _ _ (LookupVol_law pool _) Hm) as (_ & Hid & Hh3).
  clear Hm. go_inv1 H. go_inv1 H. go_inv1 Hm. destruct a3. apply storageVolUpload_ok in Hm.
  injection H as -> ->. subst w'. rewrite (invisible_host _ _ (Vol_Free_invisible _)), Hm, Hid. cbn [fst snd].
  rewrite Hh3, Hh2.
  destruct (host_volume_insert (isoDiskName cfg) (mkVolumeState path (iso_disk_document cfg buff) []) _ _ Hpool)
    as [Hi Ho].
  set (h1 := alter_volumes (insert _ _) _ _) in *.
  destruct (host_volume_alter_data (fun v => mkVolumeState (volume_path v) (volume_doc v) (chars buff))
              (isoDiskName cfg) (pool_name pool) h1) as [Hi' Ho'].
  split; [done|]. split.
  - transitivity h1; by apply only_volume_alter.
  - exists buff, w0. eexists. split; [exact Hbuff|]. rewrite Hi', Hi. done.
Qed.

(** After [deleteVolume] the volume does not exist, and nothing else changed. *)
Lemma deleteVolume_ok conn pool name w w' :
  deleteVolume (W := W) conn pool name w = (Ok tt, w') ->
  only_volume (pool, name) (host w) (host w') /\ host_volume (host w') (pool, name) = None.
Proof.
  unfold deleteVolume. intros H. go_inv1 H. apply try_ok_inv in Hm as [(p & Hl & ->)|(e & Hl & ->)].
  2: { destruct (lookup_err _ _ _ _ _ _ _ (LookupPool_law conn pool) Hl) as (Hh & c & t & -> & Hc).
       destruct (isLibvirtErr _ _) eqn:Hnf; [|discriminate H]. injection H as <-. rewrite Hh.
       split; [done|]. apply isLibvirtErr_code in Hnf. specialize (Hc Hnf).
       unfold host_volume. cbn. destruct (host_pools (host w) !! pool); [|done]. destruct Hc. eauto. }
  destruct (lookup_ok _ _ _ _ _ _ _ (LookupPool_law conn pool) Hl) as (_ & Hn & Hh).
  go_inv1 H. subst w'. rewrite (invisible_host _ _ (Pool_Free_invisible p)).
  go_inv1 H. apply try_ok_inv in Hm as [(v & Hlv & ->)|(e & Hlv & ->)].
  2: { destruct (lookup_err _ _ _ _ _ _ _ (LookupVol_law p name) Hlv) as (Hh2 & c & t & -> & Hc).
       destruct (isVolumeNotFound _) eqn:Hnf; [|discriminate H]. injection H as <-. rewrite Hh2, Hh.
       split; [done|]. apply isVolumeNotFound_code in Hnf. specialize (Hc Hnf). rewrite Hh, Hn in Hc.
       destruct (host_volume (host w) (pool, name)); [|done]. destruct Hc. eauto. }
  destruct (lookup_ok _ _ _ _ _ _ _ (LookupVol_law p name) Hlv) as (_ & Hid & Hh2).
  go_inv1 H. go_inv1 H. subst w1. rewrite (invisible_host _ _ (Vol_Free_invisible v)).
  rewrite (VolDelete_law _ _ _ H), Hid, Hn, Hh2, Hh. cbn [fst snd].
  destruct (host_volume_delete name pool (host w)) as [Hd Ho]. split; [by apply only_volume_alter|done].
Qed.
End VolumeSpec.

(** ** Networks *)

(** [h'] differs from [h] at most in the configuration of the network [name]. *)
Definition only_network (name : string) (h h' : HostState) : Prop :=
  host_pools h' = host_pools h /\ host_domains h' = host_domains h /\
  (forall m, m <> name -> host_networks h' !! m = host_networks h !! m) /\
  (fun s => (network_active s, network_leases s)) <$> (host_networks h' !! name) =
  (fun s => (network_active s, network_leases s)) <$> (host_networks h !! name).

Lemma set_network_doc_id name s h :
  host_networks h !! name = Some s -> set_network_doc name (network_doc s) h = h.
Proof.
  intros Hs. unfold set_network_doc, set_networks. destruct h as [ns ps ds]. cbn in *. f_equal.
  apply map_eq. intros m. destruct (decide (m = name)) as [->|Hm].
  - rewrite lookup_alter_eq, Hs. by destruct s.
  - by rewrite lookup_alter_ne.
Qed.
Lemma set_network_doc_lookup name doc s h :
  host_networks h !! name = Some s ->
  host_networks (set_network_doc name doc h) !! name =
  Some (mkNetworkState (network_active s) doc (network_leases s)).
Proof. intros Hs. unfold set_network_doc. cbn. by rewrite lookup_alter_eq, Hs. Qed.
Lemma only_network_doc name doc h : only_network name h (set_network_doc name doc h).
Proof.
  unfold set_network_doc. split_and!; [done..| |]; cbn.
  - intros m Hm. by rewrite lookup_alter_ne.
  - rewrite lookup_alter_eq. by destruct (host_networks h !! name).
Qed.

Section NetworkSpec.
Context {W : Type} {LX : LibvirtXML} {L : Libvirt W} {HV : HostView W} {HL : HostLaws W}.

Lemma networkXML_host (n : virNetwork) w r w' : networkXML (W := W) n w = (r, w') -> host w' = host w.
Proof.
  assert (ReadOnly (W := W) (networkXML n)) as Hro by (unfold networkXML; eauto 10 with readonly).
  intros H. by apply (readonly_run _ _ _ _ Hro H).
Qed.

Lemma host_net_view w (n : virNetwork) s :
  host_networks (host w) !! net_name n = Some s -> net_view w n = network_doc s.
Proof. unfold net_view, Host_NetworkView. by intros ->. Qed.

(** A reservation on the network [n] of the host. *)
Lemma reserveMachineIP_host (n : virNetwork) nm d mac w s ip w' :
  host_networks (host w) !! net_name n = Some s ->
  reserveMachineIP (W := W) n nm d mac w = (Ok ip, w') ->
  exists doc, reserve_step d mac ip (network_doc s) doc /\ host w' = set_network_doc (net_name n) doc (host w).
Proof.
  intros Hs H. exists (net_view w' n). pose proof (reserveMachineIP_inv _ _ _ _ _ _ _ H) as Hstep.
  rewrite (host_net_view w n s Hs) in Hstep. split; [done|].
  unfold reserveMachineIP in H. go_inv1 H. apply networkXML_host in Hm. go_inv1 H. injection Hm0 as Hp <-.
  destruct (plan_doUpdate a0); cbn [negb] in H.
  - go_inv1 H. go_inv1 Hm0. destruct a1. apply Update_frame in Hm0. injection H as _ <-. by rewrite Hm0, Hm.
  - injection H as _ <-. rewrite (host_net_view w0 n s) by (by rewrite Hm).
    by rewrite set_network_doc_id, Hm.
Qed.

Lemma releaseMachineIP_host (n : virNetwork) nm d mac w s w' :
  host_networks (host w) !! net_name n = Some s ->
  releaseMachineIP (W := W) n nm d mac w = (Ok tt, w') ->
  exists doc, release_step d mac (network_doc s) doc /\ host w' = set_network_doc (net_name n) doc (host w).
Proof.
  intros Hs H. exists (net_view w' n). pose proof (releaseMachineIP_inv _ _ _ _ _ _ H) as Hstep.
  rewrite (host_net_view w n s Hs) in Hstep. split; [done|].
  unfold releaseMachineIP in H. go_inv1 H. apply networkXML_host in Hm.
  destruct (hostEntryInNetwork a mac).
  - go_inv1 H. injection Hm0 as _ <-. go_inv1 H. apply Update_frame in H. by rewrite H, Hm.
  - injection H as <-. rewrite (host_net_view w0 n s) by (by rewrite Hm).
    by rewrite set_network_doc_id, Hm.
Qed.
End NetworkSpec.

(** ** Domains *)

(** [h'] differs from [h] at most in the domain [name]. *)
Definition only_domain (name : string) (h h' : HostState) : Prop :=
  host_pools h' = host_pools h /\ host_networks h' = host_networks h /\
  forall m, m <> name -> host_domains h' !! m = host_domains h !! m.

#[export] Instance only_domain_refl name : Reflexive (only_domain name).
Proof. by intros h. Qed.
#[export] Instance only_domain_trans name : Transitive (only_domain name).
Proof.
  intros h1 h2 h3 (Hp1 & Hn1 & Hd1) (Hp2 & Hn2 & Hd2). split_and!; [congruence..|].
  intros m Hm. by rewrite Hd2, Hd1.
Qed.
Lemma alter_domain_lookup f name h :
  host_domains (alter_domain f name h) !! name = host_domains h !! name ≫= f.
Proof. unfold alter_domain. cbn. by rewrite lookup_partial_alter_eq. Qed.
Lemma only_domain_alter f name h : only_domain name h (alter_domain f name h).
Proof.
  unfold alter_domain. split_and!; [done..|]. intros m Hm. cbn. by rewrite lookup_partial_alter_ne.
Qed.

Section DomainSpec.
Context {W : Type} {LX : LibvirtXML} {L : Libvirt W} {HV : HostView W} {HL : HostLaws W}.

(** What is left of the domain [name] when it was deleted: nothing, or, when the
    domain was running and libvirt could not tell, a transient domain that runs until
    it stops. *)
Lemma deleteDomain_ok conn name w w' :
  deleteDomain (W := W) conn name w = (Ok tt, w') ->
  only_domain name (host w) (host w') /\
  (host_domains (host w') !! name = None \/
   (exists d w1 e, LookupDomainByName conn name w = (Ok d, w1) /\ (Domain_IsActive (W := W) d w1).1 = Err e) /\
   (exists s, host_domains (host w) !! name = Some s /\ domain_active s = true) /\
   exists s, host_domains (host w') !! name = Some s /\ domain_active s = true /\ domain_persistent s = false).
Proof.
  unfold deleteDomain. intros H. go_inv1 H. apply try_ok_inv in Hm as [(d & Hl & ->)|(e & Hl & ->)].
  2: { destruct (lookup_err _ _ _ _ _ _ _ (LookupDomain_law conn name) Hl) as (Hh & c & t & -> & Hc).
       destruct (isLibvirtErr _ _) eqn:Hnf; [|discriminate H]. injection H as <-. rewrite Hh.
       split; [done|]. left. apply isLibvirtErr_code in Hnf. specialize (Hc Hnf).
       destruct (host_domains (host w) !! name); [|done]. destruct Hc. eauto. }
  destruct (lookup_ok _ _ _ _ _ _ _ (LookupDomain_law conn name) Hl) as ([s Hs] & Hn & Hh).
  go_inv1 H. subst w'. rewrite (invisible_host _ _ (Domain_Free_invisible d)).
  go_inv1 H. apply try_ok_inv in Hm as [(b & Ha & ->)|(e & Ha & ->)].
  - pose proof (readonly_run _ _ _ _ (Domain_IsActive_readonly d) Ha) as Hh2.
    pose proof (Domain_IsActive_law d w0 b ltac:(by rewrite Ha) s ltac:(by rewrite Hn, Hh)) as Hb.
    go_inv1 H. go_inv1 H. apply Domain_Undefine_law in H. rewrite Hn in H. rewrite H.
    destruct b.
    + go_inv1 Hm. destruct a. apply Domain_Destroy_law in Hm. rewrite Hn, Hh2, Hh in Hm. rewrite Hm.
      split; [etransitivity; apply only_domain_alter|]. left.
      rewrite !alter_domain_lookup, Hs. cbn. unfold domain_stopped. by destruct (domain_persistent s).
    + injection Hm as _ <-. rewrite Hh2, Hh. split; [apply only_domain_alter|]. left.
      rewrite alter_domain_lookup, Hs. cbn. unfold domain_undefined. by rewrite <- Hb.
  - pose proof (readonly_run _ _ _ _ (Domain_IsActive_readonly d) Ha) as Hh2.
    go_inv1 H. injection Hm as _ <-. go_inv1 H. apply Domain_Undefine_law in H. rewrite Hn, Hh2, Hh in H.
    rewrite H. split; [apply only_domain_alter|]. rewrite alter_domain_lookup, Hs. cbn.
    unfold domain_undefined. destruct (domain_active s) eqn:Hs'; [|by left]. right.
    split_and!; [exists d, w0, e; by rewrite Ha|by exists s|by eexists].
Qed.

Lemma getDomainState_ok conn name w st w' :
  getDomainState (W := W) conn name w = (Ok st, w') ->
  host w' = host w /\
  st = match host_domains (host w) !! name with
       | None => DomainStateNotFound
       | Some s => domainStateOf (domain_state s)
       end.
Proof.
  unfold getDomainState. intros H. go_inv1 H. apply try_ok_inv in Hm as [(d & Hl & ->)|(e & Hl & ->)].
  - destruct (lookup_ok _ _ _ _ _ _ _ (LookupDomain_law conn name) Hl) as ([s Hs] & Hn & Hh).
    go_inv1 H. go_inv1 H. go_inv1 Hm. injection H as <- <-. subst w'.
    rewrite (invisible_host _ _ (Domain_Free_invisible d)).
    rewrite (readonly_run _ _ _ _ (Domain_GetState_readonly d) Hm). split; [done|]. rewrite Hs. f_equal.
    apply (Domain_GetState_law d w0); [by rewrite Hm|by rewrite Hn, Hh].
  - destruct (lookup_err _ _ _ _ _ _ _ (LookupDomain_law conn name) Hl) as (Hh & c & t & -> & Hc).
    destruct (isLibvirtErr _ _) eqn:Hnf; [|discriminate H]. injection H as <- <-. split; [done|].
    apply isLibvirtErr_code in Hnf. specialize (Hc Hnf).
    destruct (host_domains (host w) !! name); [|done]. destruct Hc. eauto.
Qed.

(** Defining, marking for autostart and starting a domain, as [createDomain] ends. *)
Lemma define_and_start_ok conn doc xml w d w1 w2 w' :
  Domain_Marshal doc = Ok xml ->
  DomainDefineXML conn xml w = (Ok d, w1) ->
  Domain_SetAutostart d true w1 = (Ok tt, w2) ->
  Domain_Create d w2 = (Ok tt, w') ->
  host w' = set_domains (host w)
    (<[dom_Name doc := mkDomState doc true DOMAIN_RUNNING true true]> (host_domains (host w))).
Proof.
  intros Hx Hd Ha Hc. destruct (Define_law _ _ _ _ _ _ Hx Hd) as [Hn H1].
  apply SetAutostart_law in Ha. apply Domain_Create_law in Hc. rewrite Hn in Ha, Hc.
  rewrite Hc, Ha, H1. unfold alter_domain, set_domains. cbn. f_equal. apply map_eq. intros m.
  destruct (decide (m = dom_Name doc)) as [->|Hm].
  - rewrite !lookup_partial_alter_eq, !lookup_insert_eq. cbn. by destruct (host_domains (host w) !! _).
  - by rewrite !lookup_partial_alter_ne, !lookup_insert_ne by congruence.
Qed.
End DomainSpec.
