(* ===== verification/Connect.v ===== *)
(** * Opening a connection (internal/libvirtclient/credentials.go and [connect] of
    config.go) *)

From stdpp Require Import base gmap list strings.
From Stdlib Require Import ZArith Lia Ascii.
From S2P Require Import Prelude GoStrings GoNet GoUrl Config LibvirtXML MachineNetwork Reservation Libvirt OS.

Local Open Scope Z_scope.

Definition credentialsDirPattern : string := "libvirt-credentials-".
(** [0o600] *)
Definition credentialsFileMode : Z := 384.

Definition transportTLS : string := "tls".
Definition transportLibSSH : string := "libssh".
Definition transportLibSSH2 : string := "libssh2".

Definition tlsCACertFile : string := "cacert.pem".
Definition tlsClientCertFile : string := "clientcert.pem".
Definition tlsClientKeyFile : string := "clientkey.pem".
Definition sshPrivateKeyFile : string := "id_key".
Definition sshKnownHostsFile : string := "known_hosts".

Definition uriParamPKIPath : string := "pkipath".
Definition uriParamKeyFile : string := "keyfile".
Definition uriParamKnownHosts : string := "known_hosts".
Definition uriParamSSHAuth : string := "sshauth".
Definition sshAuthPrivateKey : string := "privkey".

Definition errNoTLSCredentials : error :=
  ErrorString "the URI uses TLS but the credentials have no TLS keys".
Definition errNoSSHCredentials : error :=
  ErrorString "the URI uses SSH but the credentials have no SSH keys".

Record credentialFile := mkCredentialFile { cfile_name : string; cfile_data : string }.

Definition TLSCredentials_files (t : TLSCredentials) : list credentialFile := [
  mkCredentialFile tlsCACertFile (tls_CACert t);
  mkCredentialFile tlsClientCertFile (tls_ClientCert t);
  mkCredentialFile tlsClientKeyFile (tls_ClientKey t)].

Definition SSHCredentials_files (s : SSHCredentials) : list credentialFile := [
  mkCredentialFile sshPrivateKeyFile (ssh_PrivateKey s);
  mkCredentialFile sshKnownHostsFile (ssh_KnownHosts s)].

Definition transport (scheme : string) : string :=
  match strings_Cut scheme "+"%char with
  | None => ""
  | Some (_, after) => after
  end.

Section Connect.
Context {W : Type} `{!OS W} `{!Libvirt W}.

Fixpoint writeCredentialFiles (dir : string) (files : list credentialFile) : M W unit :=
  match files with
  | [] => mret tt
  | f :: rest =>
      wrap_err (WrapError ("write credential file " +:+ cfile_name f))
        (WriteFile (filepath_Join dir (cfile_name f)) (cfile_data f) credentialsFileMode) ;;
      writeCredentialFiles dir rest
  end.

Definition connectionURI (c : Credentials) (uri dir : string) : M W string :=
  parsed ← lift (map_err (WrapError "parse libvirt URI") (url_Parse uri)) ;
  let params := ParseQuery (url_RawQuery parsed) in
  let t := transport (str (url_Scheme parsed)) in
  params ←
    (if bool_decide (t = transportTLS) then
       match creds_TLS c with
       | None => fail errNoTLSCredentials
       | Some tls =>
           writeCredentialFiles dir (TLSCredentials_files tls) ;;
           mret (Values_Set params uriParamPKIPath dir)
       end
     else if bool_decide (t = transportLibSSH) || bool_decide (t = transportLibSSH2) then
       match creds_SSH c with
       | None => fail errNoSSHCredentials
       | Some ssh =>
           writeCredentialFiles dir (SSHCredentials_files ssh) ;;
           mret (Values_Set
                   (Values_Set
                      (Values_Set params uriParamKeyFile (filepath_Join dir sshPrivateKeyFile))
                      uriParamKnownHosts (filepath_Join dir sshKnownHostsFile))
                   uriParamSSHAuth sshAuthPrivateKey)
       end
     else
       fail (ErrorString ("credentials are not supported for URI scheme " +:+
               quote (str (url_Scheme parsed)) +:+ ", use qemu+tls, qemu+libssh or qemu+libssh2"))) ;
  mret (URL_String (set_RawQuery parsed (Values_Encode params))).

Definition openConnection (uri : string) : M W Connect :=
  wrap_err (WrapError "connect to libvirt") (NewConnect uri).

Definition connect (cfg : InfraConfig) : M W Connect :=
  match infra_Credentials cfg with
  | None => openConnection (infra_URI cfg)
  | Some creds =>
      dir ← wrap_err (WrapError "create credentials dir") (MkdirTemp "" credentialsDirPattern) ;
      defer (ignore_err (RemoveAll dir))
        (uri ← connectionURI creds (infra_URI cfg) dir ;
         openConnection uri)
  end.
End Connect.

Section ConnectKeeps.
Context {W X : Type} {O : OS W} {L : Libvirt W} (obs : W -> X) {FK : FilesKeep obs}.
Lemma writeCredentialFiles_keeps dir files : Keeps obs (writeCredentialFiles dir files).
Proof. induction files; cbn; auto with keeps. Qed.
#[local] Hint Resolve writeCredentialFiles_keeps : keeps.
Lemma connectionURI_keeps c uri dir : Keeps obs (connectionURI c uri dir).
Proof. unfold connectionURI. auto 20 with keeps. Qed.
End ConnectKeeps.
#[export] Hint Resolve connectionURI_keeps : keeps.

(** ** What the connection URI points to *)

(** [dir] holds the given files. *)
Definition files_in {W} `{FileView W} (w : W) (dir : string) (files : list credentialFile) : Prop :=
  Forall (fun f => file_at w (filepath_Join dir (cfile_name f)) = Some (cfile_data f)) files.

(** The parameters [params] of a query, with [extra] set. *)
Definition only_adds (params params' : Values) (extra : list (string * string)) : Prop :=
  Forall (fun kv => params' !! kv.1 = Some [kv.2]) extra /\
  forall k, k ∉ extra.*1 -> params' !! k = params !! k.

Lemma ParseQuery_nonempty q k vs : ParseQuery q !! k = Some vs -> vs <> [].
Proof.
  unfold ParseQuery. case_decide; [done|]. generalize (omap query_pair (split_on "&" q [])) as l.
  intros l. assert (forall (m : Values), (forall k vs, m !! k = Some vs -> vs <> []) ->
    forall k vs, foldl add_value m l !! k = Some vs -> vs <> []) as Hgen.
  { induction l as [|[k' v'] l IH]; intros m Hm; [done|]. cbn. apply IH. intros k'' vs''.
    unfold add_value. cbn. destruct (decide (k' = k'')) as [->|Hne].
    - rewrite lookup_insert_eq. intros [= <-]. by destruct (default _ _).
    - rewrite lookup_insert_ne by done. apply Hm. }
  apply Hgen. intros k' vs'. by rewrite lookup_empty.
Qed.

Lemma Values_Set_nonempty (v : Values) k x :
  (forall k' vs, v !! k' = Some vs -> vs <> []) -> forall k' vs, Values_Set v k x !! k' = Some vs -> vs <> [].
Proof.
  intros Hv k' vs. unfold Values_Set. destruct (decide (k = k')) as [->|Hne].
  - rewrite lookup_insert_eq. by intros [= <-].
  - rewrite lookup_insert_ne by done. apply Hv.
Qed.

Section ConnectSpec.
Context {W : Type} `{!OS W} `{!Libvirt W} `{!FileView W} `{!OSLaws W}.

(** Names of files that are written one after the other. *)
Definition distinct_names (files : list credentialFile) : Prop :=
  NoDup (map cfile_name files) /\ Forall (fun f => simple_name (cfile_name f) = true) files.

Lemma writeCredentialFiles_keep dir files w w' p :
  writeCredentialFiles dir files w = (Ok tt, w') ->
  Forall (fun f => p <> filepath_Join dir (cfile_name f)) files -> file_at w' p = file_at w p.
Proof.
  revert w. induction files as [|f files IH]; intros w H Hp; [by injection H as <-|].
  cbn in H. apply Forall_cons in Hp as [Hpf Hp]. go_inv1 H. go_inv1 Hm. destruct a.
  rewrite (IH _ H Hp). by apply (WriteFile_law _ _ _ _ _ Hm).
Qed.

Lemma writeCredentialFiles_ok dir files w w' :
  dir <> "" -> distinct_names files ->
  writeCredentialFiles dir files w = (Ok tt, w') -> files_in w' dir files.
Proof.
  intros Hdir [Hnd Hs]. revert w. induction files as [|f files IH]; intros w H; [constructor|].
  cbn in H. apply NoDup_cons in Hnd as [Hni Hnd]. apply Forall_cons in Hs as [Hsf Hs].
  go_inv1 H. go_inv1 Hm. destruct a. constructor; [|by eapply IH].
  rewrite (writeCredentialFiles_keep _ _ _ _ _ H); [by apply (WriteFile_law _ _ _ _ _ Hm)|].
  apply Forall_forall. intros g Hg Heq. apply filepath_Join_inj in Heq; [|done|done|].
  - apply Hni. rewrite Heq. by apply (list_elem_of_fmap_2 cfile_name).
  - rewrite Forall_forall in Hs. by apply Hs.
Qed.

Lemma tls_distinct t : distinct_names (TLSCredentials_files t).
Proof. split; [repeat constructor; set_solver|repeat constructor]. Qed.
Lemma ssh_distinct s : distinct_names (SSHCredentials_files s).
Proof. split; [repeat constructor; set_solver|repeat constructor]. Qed.

(** C28: a connection URI built from credentials is the given URI with the query
    parameters libvirt needs set and every other parameter kept; what those
    parameters point to is on disk: for a TLS URI the three PEM files in the
    directory [pkipath] names, for an SSH URI the private key and the known hosts
    at the paths [keyfile] and [known_hosts] name.  Credentials of the wrong kind,
    and transports other than tls, libssh and libssh2, never give a URI. *)
Theorem connectionURI_spec c uri dir w s w' :
  dir <> "" ->
  connectionURI c uri dir w = (Ok s, w') ->
  exists u params, url_Parse uri = Ok u /\
    s = URL_String (set_RawQuery u (Values_Encode params)) /\
    (Z.of_nat (length (pairs_of params)) <= urlMaxQueryParams -> ParseQuery (Values_Encode params) = params) /\
    ((transport (str (url_Scheme u)) = transportTLS /\
      exists t, creds_TLS c = Some t /\ files_in w' dir (TLSCredentials_files t) /\
        only_adds (ParseQuery (url_RawQuery u)) params [(uriParamPKIPath, dir)]) \/
     (transport (str (url_Scheme u)) ∈ [transportLibSSH; transportLibSSH2] /\
      exists ssh, creds_SSH c = Some ssh /\ files_in w' dir (SSHCredentials_files ssh) /\
        only_adds (ParseQuery (url_RawQuery u)) params
          [(uriParamKeyFile, filepath_Join dir sshPrivateKeyFile);
           (uriParamKnownHosts, filepath_Join dir sshKnownHostsFile);
           (uriParamSSHAuth, sshAuthPrivateKey)])).
Proof.
  intros Hdir H. unfold connectionURI in H. go_inv1 H. unfold lift in Hm.
  destruct (url_Parse uri) as [u|e|] eqn:Hu; try discriminate Hm. injection Hm as <- <-.
  go_inv1 H. injection H as <- <-.
  exists u, a. split; [done|]. split; [done|].
  pose proof (ParseQuery_nonempty (url_RawQuery u)) as Hq.
  case_bool_decide as Htls; [|destruct (bool_decide (_ = transportLibSSH) || _) eqn:Hssh; [|discriminate Hm]].
  - destruct (creds_TLS c) as [t|]; [|discriminate Hm]. go_inv1 Hm. destruct a0. injection Hm as <- <-.
    split; [intros Hl; apply query_roundtrip; [by apply Values_Set_nonempty|done]|].
    left. split; [done|]. exists t. split; [done|].
    split; [by eapply writeCredentialFiles_ok; eauto using tls_distinct|].
    split; [apply Forall_singleton; apply lookup_insert_eq|].
    intros k Hk. apply lookup_insert_ne. intros <-. apply Hk, list_elem_of_here.
  - destruct (creds_SSH c) as [ssh|]; [|discriminate Hm]. go_inv1 Hm. destruct a0. injection Hm as <- <-.
    split; [intros Hl; apply query_roundtrip; [by do 3 apply Values_Set_nonempty|done]|].
    right. split.
    { apply orb_true_iff in Hssh as [Hs|Hs]; apply bool_decide_eq_true in Hs; rewrite Hs; set_solver. }
    exists ssh. split; [done|].
    split; [by eapply writeCredentialFiles_ok; eauto using ssh_distinct|].
    split.
    { unfold Values_Set. repeat apply Forall_cons_2; [..|constructor]; cbn [fst snd];
        (rewrite ?lookup_insert_ne by done; apply lookup_insert_eq). }
    intros k Hk. unfold Values_Set. rewrite !lookup_insert_ne; [done|..]; intros <-; set_solver.
Qed.

Lemma writeCredentialFiles_dirs dir files w :
  temp_dirs (writeCredentialFiles dir files w).2 = temp_dirs w.
Proof.
  revert w. induction files as [|f files IH]; intros w; [done|]. cbn.
  unfold mbind, M_bind, wrap_err. pose proof (WriteFile_dirs (filepath_Join dir (cfile_name f)) (cfile_data f)
    credentialsFileMode w) as Hd.
  destruct (WriteFile _ _ _ w) as [[[]|e|] w1]; cbn in *; [|done..]. by rewrite IH.
Qed.

Lemma connectionURI_dirs c uri dir w : temp_dirs (connectionURI c uri dir w).2 = temp_dirs w.
Proof.
  unfold connectionURI, mbind, M_bind, lift. destruct (url_Parse uri) as [u|e|]; cbn [map_err]; [|done..].
  pose proof (fun files => writeCredentialFiles_dirs dir files w) as Hd.
  case_bool_decide; [|destruct (_ || _)]; [destruct (creds_TLS c)|destruct (creds_SSH c)|]; try done;
    (match goal with |- context [writeCredentialFiles _ ?f _] => specialize (Hd f);
       destruct (writeCredentialFiles dir f w) as [[[]|e|] w1]; done end).
Qed.

(** The directory [dir], new since [w], is removed, or is still there because the
    removal failed. *)
Lemma RemoveAll_cleans dir w w1 :
  dir ∉ temp_dirs w -> temp_dirs w1 = {[ dir ]} ∪ temp_dirs w ->
  let w' := ignore_err (RemoveAll dir) w1 in
  temp_dirs w' = temp_dirs w \/
  exists dir w1 r, dir ∉ temp_dirs w /\ RemoveAll dir w1 = (r, w') /\ r <> Ok tt /\
    temp_dirs w' = {[ dir ]} ∪ temp_dirs w.
Proof.
  intros Hfresh Hdirs. unfold ignore_err. pose proof (RemoveAll_err dir w1) as He.
  destruct (RemoveAll dir w1) as [r w2] eqn:Hr. cbn [snd] in *.
  destruct (decide (dir ∈ temp_dirs w2)) as [Hin|Hni]; [right|left; set_solver].
  exists dir, w1, r. split_and!; [done..| |set_solver].
  intros ->. rewrite (RemoveAll_law _ _ _ Hr) in Hin. set_solver.
Qed.

(** C29: the credential files live only while the connection is being opened: when
    [connect] returns, with a connection or with an error at any point, the
    temporary directories are the ones there were before; unless the removal of the
    one it made, which is the last thing it does and whose error it ignores, failed,
    and then that one is the only one more.  (Opening a connection is taken to make
    no temporary directories of its own.) *)
Theorem connect_cleanup cfg w :
  (forall uri w, temp_dirs (NewConnect uri w).2 = temp_dirs w) ->
  (connect cfg w).1 <> Diverge ->
  temp_dirs (connect cfg w).2 = temp_dirs w \/
  exists dir w1 r, dir ∉ temp_dirs w /\ RemoveAll dir w1 = (r, (connect cfg w).2) /\ r <> Ok tt /\
    temp_dirs (connect cfg w).2 = {[ dir ]} ∪ temp_dirs w.
Proof.
  intros Hnew. assert (forall uri w, temp_dirs (openConnection uri w).2 = temp_dirs w) as Hopen.
  { intros uri w0. unfold openConnection, wrap_err. specialize (Hnew uri w0). by destruct (NewConnect uri w0). }
  unfold connect. destruct (infra_Credentials cfg) as [creds|]; [|left; apply Hopen].
  unfold mbind, M_bind, wrap_err. destruct (MkdirTemp "" credentialsDirPattern w) as [[dir|e|] w1] eqn:Hmk;
    cbn [map_err fst snd]; [|intros _; left; by eapply MkdirTemp_err|done].
  apply MkdirTemp_law in Hmk as [Hfresh Hdirs].
  pose proof (connectionURI_dirs creds (infra_URI cfg) dir w1) as Huri.
  unfold defer. destruct (connectionURI creds (infra_URI cfg) dir w1) as [[uri|e|] w2]; cbn [fst snd] in *;
    [|intros _; apply RemoveAll_cleans; [done|congruence]|done].
  specialize (Hopen uri w2). destruct (openConnection uri w2) as [[c|e|] w3]; cbn [fst snd] in *; [| |done];
    intros _; apply RemoveAll_cleans; congruence.
Qed.
End ConnectSpec.
