(* ===== verification/Provider.v ===== *)
(** * The libvirt provider (internal/libvirtclient/provider.go)

    The implementation of the [provider] interface the controllers use: one
    connection per call, closed when the call returns. *)

From stdpp Require Import base gmap list strings.
From Stdlib Require Import ZArith Lia.
From S2P Require Import Prelude GoStrings Config LibvirtXML Builders MachineNetwork Reservation.
From S2P Require Import Libvirt Host OS CloudInit Volume Domain Connect Infra.
From S2P Require Import Api Kube Credentials ProviderInterface ClusterController.

Local Open Scope Z_scope.

Section Provider.
Context {W : Type} `{!LibvirtXML} `{!Libvirt W} `{!CloudInitLib W} `{!OS W}.

(** [conn, err := connect(cfg); if err != nil { return ... }; defer conn.Close()] *)
Definition with_connection {A} (cfg : InfraConfig) (body : Connect -> M W A) : M W A :=
  conn ← wrap_err (WrapError "connect to libvirt host") (connect cfg) ;
  defer (Connect_Close conn) (body conn).

Definition Provider_EnsureInfra (cfg : InfraConfig) : M W unit :=
  with_connection cfg (fun conn =>
    ensureNetwork conn (networkName cfg) ;;
    ensureBasePool conn (basePoolName cfg) ;;
    ensureDomainPool conn (domainPoolName cfg)).

Definition Provider_CreateMachine (cfg : MachineConfig) : M W unit :=
  with_connection (cfg_InfraConfig cfg) (fun conn => createDomain conn cfg).

(** The domain handle is not freed. *)
Definition Provider_StartMachine (cfg : MachineConfig) : M W unit :=
  with_connection (cfg_InfraConfig cfg) (fun conn =>
    domain ← wrap_err (WrapError ("lookup domain " +:+ cfg_DomainName cfg))
      (LookupDomainByName conn (MachineConfig_domainName cfg)) ;
    wrap_err (WrapError ("start domain " +:+ cfg_DomainName cfg)) (Domain_Create domain)).

Definition Provider_GetMachineState (cfg : MachineConfig) : M W DomainState :=
  with_connection (cfg_InfraConfig cfg) (fun conn => getDomainState conn (MachineConfig_domainName cfg)).

Definition releaseMachineReservation (conn : Connect) (cfg : MachineConfig) : M W unit :=
  network ← try (LookupNetworkByName conn (cfg_Network cfg)) ;
  match network with
  | inl err =>
      if isLibvirtErr err ERR_NO_NETWORK then mret tt
      else fail (WrapError ("lookup network " +:+ cfg_Network cfg) err)
  | inr network =>
      defer (Network_Free network)
        (releaseMachineIP network (cfg_Network cfg) (MachineConfig_domainName cfg)
           (deriveDomainMAC (MachineConfig_domainName cfg)))
  end.

Definition Provider_DeleteMachine (cfg : MachineConfig) : M W unit :=
  with_connection (cfg_InfraConfig cfg) (fun conn =>
    deleteDomain conn (MachineConfig_domainName cfg) ;;
    deleteVolume conn (domainPoolName (cfg_InfraConfig cfg)) (domainDiskName cfg) ;;
    deleteVolume conn (domainPoolName (cfg_InfraConfig cfg)) (isoDiskName cfg) ;;
    releaseMachineReservation conn cfg).

Definition Provider_GetMachineAddress (cfg : MachineConfig) : M W string :=
  with_connection (cfg_InfraConfig cfg) (fun conn =>
    network ← wrap_err (WrapError ("lookup network " +:+ cfg_Network cfg))
      (LookupNetworkByName conn (cfg_Network cfg)) ;
    defer (Network_Free network)
      (machineAddress network (cfg_Network cfg) (deriveDomainMAC (MachineConfig_domainName cfg)))).

Definition Provider_provider : provider W := {|
  EnsureInfra := Provider_EnsureInfra;
  GetMachineState := Provider_GetMachineState;
  CreateMachine := Provider_CreateMachine;
  StartMachine := Provider_StartMachine;
  DeleteMachine := Provider_DeleteMachine;
  GetMachineAddress := Provider_GetMachineAddress;
|}.
End Provider.

(** ** Handles *)

Section HandlesSpec.
Context {W : Type} {LX : LibvirtXML} {L : Libvirt W} {CI : CloudInitLib W} {O : OS W}.
Context {HC : HandleCount W} {HLaws : HandleLaws W} {FKeep : FilesKeep (W := W) handles} {DKeep : DisksKeep (W := W) handles}.
#[local] Hint Resolve balanced_defer acquires_defer acquires_bind : handles.

(** Local files and the ISO library do not touch libvirt handles. *)
Lemma keeps_balanced {A} (m : M W A) : Keeps handles m -> Balanced m.
Proof. intros Hm w _. apply Hm. Qed.
#[local] Hint Resolve keeps_balanced : handles.
#[local] Hint Resolve MkdirTemp_keeps RemoveAll_keeps keeps_ignore connectionURI_keeps writeCloudInitISO_keeps : handles.

Lemma connect_acquires cfg : Acquires (W := W) (connect cfg).
Proof.
  unfold connect, openConnection. destruct (infra_Credentials cfg) as [creds|]; [|auto with handles].
  apply acquires_bind; [auto with handles|intros dir].
  apply acquires_defer; [auto with handles|]. apply acquires_bind; auto with handles.
Qed.
#[local] Hint Resolve connect_acquires : handles.

Lemma with_connection_balanced {A} cfg (body : Connect -> M W A) :
  (forall conn, Balanced (body conn)) -> Balanced (with_connection cfg body).
Proof. intros Hb. unfold with_connection. auto with handles. Qed.

#[local] Hint Resolve with_connection_balanced : handles.

Lemma infra_balanced conn cfg :
  Balanced (W := W) (ensureNetwork conn (networkName cfg) ;; ensureBasePool conn (basePoolName cfg) ;;
                     ensureDomainPool conn (domainPoolName cfg)).
Proof.
  unfold ensureNetwork, ensureBasePool, ensureDomainPool, networkExists, isNetworkActive,
    storagePoolExists, isStoragePoolActive. auto 20 with handles.
Qed.
Lemma getVolumePath_balanced pool name : Balanced (W := W) (getVolumePath pool name).
Proof. unfold getVolumePath. auto 8 with handles. Qed.
Lemma createVolume_balanced pool xml : Balanced (W := W) (createVolume pool xml).
Proof. unfold createVolume. auto 8 with handles. Qed.
#[local] Hint Resolve getVolumePath_balanced createVolume_balanced : handles.
Lemma createRootDisk_balanced base pool cfg : Balanced (W := W) (createRootDisk base pool cfg).
Proof. unfold createRootDisk. auto 12 with handles. Qed.
Lemma abort_upload_balanced s e : Balanced (W := W) (abort_upload s e).
Proof. intros w _. cbn. apply Abort_keeps. Qed.
#[local] Hint Resolve createRootDisk_balanced abort_upload_balanced : handles.
Lemma storageVolUpload_balanced conn buff vol : Balanced (W := W) (storageVolUpload conn buff vol).
Proof.
  unfold storageVolUpload. apply balanced_acquire; [auto with handles..|intros stream].
  apply balanced_bind; [auto with handles|intros _].
  apply balanced_bind; [auto with handles|intros [e|[]]]; auto with handles.
Qed.
#[local] Hint Resolve storageVolUpload_balanced : handles.
Lemma createISODisk_balanced conn pool cfg : Balanced (W := W) (createISODisk conn pool cfg).
Proof. unfold createISODisk. auto 20 with handles. Qed.
Lemma deleteVolume_balanced conn pool name : Balanced (W := W) (deleteVolume conn pool name).
Proof. unfold deleteVolume. auto 20 with handles. Qed.
Lemma networkXML_balanced (n : virNetwork) : Balanced (W := W) (networkXML n).
Proof. unfold networkXML. auto 8 with handles. Qed.
#[local] Hint Resolve createISODisk_balanced deleteVolume_balanced networkXML_balanced : handles.
Lemma reserveMachineIP_balanced (n : virNetwork) nn d mac : Balanced (W := W) (reserveMachineIP n nn d mac).
Proof. unfold reserveMachineIP. auto 12 with handles. Qed.
Lemma releaseMachineIP_balanced (n : virNetwork) nn d mac : Balanced (W := W) (releaseMachineIP n nn d mac).
Proof. unfold releaseMachineIP. auto 12 with handles. Qed.
Lemma machineAddress_balanced (n : virNetwork) nn mac : Balanced (W := W) (machineAddress n nn mac).
Proof. unfold machineAddress. auto 12 with handles. Qed.
#[local] Hint Resolve reserveMachineIP_balanced releaseMachineIP_balanced machineAddress_balanced : handles.

Lemma createDomain_balanced conn cfg : Balanced (W := W) (createDomain conn cfg).
Proof.
  unfold createDomain. apply balanced_acquire; [auto with handles..|intros dp].
  apply balanced_acquire; [auto with handles..|intros bp].
  auto 20 with handles.
Qed.
Lemma deleteDomain_balanced conn name : Balanced (W := W) (deleteDomain conn name).
Proof.
  unfold deleteDomain. apply balanced_try_acquire; [auto with handles..| |auto with handles]. intros d.
  apply balanced_bind; [auto with handles|intros [e|[]]]; auto with handles.
Qed.
Lemma getDomainState_balanced conn name : Balanced (W := W) (getDomainState conn name).
Proof. unfold getDomainState. auto 12 with handles. Qed.
Lemma releaseMachineReservation_balanced conn cfg : Balanced (W := W) (releaseMachineReservation conn cfg).
Proof. unfold releaseMachineReservation. auto 12 with handles. Qed.
#[local] Hint Resolve infra_balanced createDomain_balanced deleteDomain_balanced getDomainState_balanced
  releaseMachineReservation_balanced : handles.

(** C19: a provider call that returns, with a value or with an error at any of the
    libvirt, file or image calls it makes, has given back every libvirt handle it
    opened, the connection included: [EnsureInfra], [CreateMachine],
    [GetMachineState], [DeleteMachine] and [GetMachineAddress]. *)
Theorem provider_releases_handles infra cfg :
  Balanced (W := W) (Provider_EnsureInfra infra) /\
  Balanced (W := W) (Provider_CreateMachine cfg) /\
  Balanced (W := W) (Provider_GetMachineState cfg) /\
  Balanced (W := W) (Provider_DeleteMachine cfg) /\
  Balanced (W := W) (Provider_GetMachineAddress cfg).
Proof.
  unfold Provider_EnsureInfra, Provider_CreateMachine, Provider_GetMachineState, Provider_DeleteMachine,
    Provider_GetMachineAddress.
  split_and!; apply with_connection_balanced; intros conn; auto 12 with handles.
Qed.

(** [StartMachine] is the exception: every call that finds the domain returns
    with one handle more open than when it was called, whether the start succeeds
    or fails; when the connection or the lookup fails none is left. *)
Theorem StartMachine_leaks_domain cfg w :
  (Provider_StartMachine cfg w).1 <> Diverge ->
  handles (Provider_StartMachine cfg w).2 =
  handles w +
  match connect (cfg_InfraConfig cfg) w with
  | (Ok conn, w1) => if is_ok (LookupDomainByName conn (MachineConfig_domainName cfg) w1).1 then 1 else 0
  | _ => 0
  end.
Proof.
  unfold Provider_StartMachine, with_connection, defer, wrap_err, mbind, M_bind.
  pose proof (connect_acquires (cfg_InfraConfig cfg) w) as Hc.
  destruct (connect _ w) as [[conn|e|] w1]; cbn in *; [|lia|done].
  pose proof (LookupDomain_acquires conn (MachineConfig_domainName cfg) w1) as Hl.
  destruct (LookupDomainByName _ _ w1) as [[d|e|] w2]; cbn in *; [|rewrite Close_releases; lia|done].
  pose proof (Domain_Create_balanced d w2) as Hs. destruct (Domain_Create d w2) as [[u|e|] w3]; cbn in *;
    [| |done]; intros _; rewrite Close_releases, Hs by done; lia.
Qed.
End HandlesSpec.
