(* ===== verification/ProviderSpec.v ===== *)
(** * What a provider call does to the libvirt host

    The postconditions of the provider's operations (provider.go), under
    [HostLaws] and with a file system and an image library that leave the host
    alone. *)

From stdpp Require Import base gmap list strings.
From Stdlib Require Import ZArith Lia.
From S2P Require Import Prelude GoStrings Config LibvirtXML Builders MachineNetwork Reservation.
From S2P Require Import Libvirt Host OS CloudInit Volume Domain HostSpec Connect Infra Provider.
From S2P Require Import Api Kube Credentials ProviderInterface ClusterController.

Local Open Scope Z_scope.

Section ProviderSpec.
Context {W : Type} {LX : LibvirtXML} {L : Libvirt W} {HV : HostView W} {HL : HostLaws W}.
Context {CI : CloudInitLib W} {O : OS W}.
Context {FK : FilesKeep (W := W) host} {DK : DisksKeep (W := W) host}.

Lemma connect_keeps_host cfg : Keeps (W := W) host (connect cfg).
Proof.
  assert (forall uri, Keeps (W := W) host (openConnection uri)) as Hopen.
  { intros uri. apply keeps_wrap. intros w. apply NewConnect_readonly. }
  unfold connect. destruct (infra_Credentials cfg) as [c|]; [|done]. auto 10 with keeps.
Qed.

(** A call that succeeded ran its body on an unchanged host. *)
Lemma with_connection_ok {A} cfg (body : Connect -> M W A) w a w' :
  with_connection cfg body w = (Ok a, w') ->
  exists conn w1 w2, connect cfg w = (Ok conn, w1) /\ host w1 = host w /\ body conn w1 = (Ok a, w2) /\ host w' = host w2.
Proof.
  unfold with_connection. intros H. go_inv1 H. go_inv1 Hm. pose proof (keeps_run _ _ _ _ (connect_keeps_host cfg) Hm).
  go_inv1 H. exists a0, w0, w1. split_and!; [done..|]. subst w'. apply Close_invisible.
Qed.

(** ** EnsureInfra *)

Definition network_ready (h : HostState) (name : string) : Prop :=
  network_active <$> (host_networks h !! name) = Some true.
Definition pool_ready (h : HostState) (name : string) : Prop :=
  pool_active <$> (host_pools h !! name) = Some true.

(** The resource an [ErrInfraInactive] names exists and is not active. *)
Definition inactive_resource (cfg : InfraConfig) (h : HostState) (e : error) : Prop :=
  (e = InfraInactive (mkErrInfraInactive InfraKindNetwork (infra_Network cfg)) /\
   network_active <$> (host_networks h !! infra_Network cfg) = Some false) \/
  exists p, p ∈ [infra_BasePool cfg; infra_DomainPool cfg] /\
    e = InfraInactive (mkErrInfraInactive InfraKindStoragePool p) /\
    pool_active <$> (host_pools h !! p) = Some false.

Lemma EnsureInfra_run cfg w r w' :
  Provider_EnsureInfra (W := W) cfg w = (r, w') ->
  host w' = host w /\
  match r with
  | Ok _ => network_ready (host w) (infra_Network cfg) /\ pool_ready (host w) (infra_BasePool cfg) /\
            pool_ready (host w) (infra_DomainPool cfg)
  | Err e => (exists ce, (connect cfg w).1 = Err ce) \/ inactive_resource cfg (host w) e \/
             getInfraError e = InfrastructureProvisioningFailedReason
  | Diverge => True
  end.
Proof.
  unfold Provider_EnsureInfra, with_connection, mbind, M_bind, wrap_err. intros H.
  pose proof (connect_keeps_host cfg w) as Hh. destruct (connect cfg w) as [[conn|e|] w1]; cbn in *;
    [|injection H as <- <-; eauto..].
  unfold defer in H. destruct (ensureNetwork conn (networkName cfg) w1) as [r1 w2] eqn:H1.
  pose proof (readonly_run _ _ _ _ (ensureNetwork_readonly conn _) H1) as Hh1.
  apply ensureNetwork_spec in H1. rewrite Hh in H1, Hh1.
  destruct r1 as [[]|e|]; cbn in H1;
    [|injection H as <- <-; rewrite (invisible_host _ _ (Close_invisible conn)); split; [done|];
      destruct H1 as [[Hs ->]|Hf]; [right; left; by left|by auto]|by injection H as <- <-].
  destruct (ensureBasePool conn (basePoolName cfg) w2) as [r2 w3] eqn:H2.
  pose proof (readonly_run _ _ _ _ (ensureBasePool_readonly conn _) H2) as Hh2.
  apply ensurePool_spec in H2. rewrite Hh1 in H2, Hh2.
  destruct r2 as [[]|e|]; cbn in H2;
    [|injection H as <- <-; rewrite (invisible_host _ _ (Close_invisible conn)); split; [done|];
      destruct H2 as [[Hs ->]|Hf]; [right; left; right; eexists; split; [apply list_elem_of_here|by auto]|by auto]
     |by injection H as <- <-].
  destruct (ensureDomainPool conn (domainPoolName cfg) w3) as [r3 w4] eqn:H3.
  pose proof (readonly_run _ _ _ _ (ensureDomainPool_readonly conn _) H3) as Hh3.
  apply ensurePool_spec in H3. rewrite Hh2 in H3, Hh3.
  destruct r3 as [[]|e|]; cbn in H3; injection H as <- <-; rewrite ?(invisible_host _ _ (Close_invisible conn));
    split; try done.
  destruct H3 as [[Hs ->]|Hf]; [right; left; right; eexists|by auto].
  split; [apply list_elem_of_further, list_elem_of_here|by auto].
Qed.

(** C17: [EnsureInfra] never changes the host; when it succeeds the network and both
    pools exist and are active; when it reports an inactive resource, that resource
    is one of the three, exists and is inactive. *)
Theorem EnsureInfra_sound cfg w r w' :
  Provider_EnsureInfra (W := W) cfg w = (r, w') ->
  host w' = host w /\
  (r = Ok tt -> network_ready (host w) (infra_Network cfg) /\ pool_ready (host w) (infra_BasePool cfg) /\
                pool_ready (host w) (infra_DomainPool cfg)) /\
  (forall e, r = Err e -> getInfraError e = InfrastructureInactiveReason ->
     (exists ce, (connect cfg w).1 = Err ce) \/ inactive_resource cfg (host w) e).
Proof.
  intros H. apply EnsureInfra_run in H as [Hh H]. split; [done|]. split; [by intros ->|].
  intros e -> He. destruct H as [|[|Hf]]; [by auto..|]. by rewrite Hf in He.
Qed.

(** C35: a network or pool that does not exist is never reported as missing: once
    connected, no error of [EnsureInfra] is classified as InfrastructureMissing;
    a missing resource gives the generic provisioning failure. *)
Theorem EnsureInfra_never_missing cfg w e w' conn w1 :
  connect cfg w = (Ok conn, w1) ->
  Provider_EnsureInfra (W := W) cfg w = (Err e, w') ->
  getInfraError e <> InfrastructureMissingReason /\
  (host_networks (host w) !! infra_Network cfg = None ->
   getInfraError e = InfrastructureProvisioningFailedReason).
Proof.
  intros Hc H. pose proof H as H'. apply EnsureInfra_run in H as [_ H].
  split.
  - destruct H as [[ce Hce]|[[[-> _]|(p & _ & -> & _)]|Hf]]; [by rewrite Hc in Hce|done..|]. by rewrite Hf.
  - intros Hnone. unfold Provider_EnsureInfra, with_connection, mbind, M_bind, wrap_err in H'.
    pose proof (connect_keeps_host cfg w) as Hh. rewrite Hc in H', Hh. cbn in H', Hh. unfold defer in H'.
    destruct (ensureNetwork conn (networkName cfg) w1) as [r1 w2] eqn:H1. apply ensureNetwork_spec in H1.
    rewrite Hh in H1. unfold networkName in H1. rewrite Hnone in H1. destruct r1 as [|e1|]; [done| |done].
    injection H' as <- <-. by destruct H1 as [[? _]|].
Qed.

(** The handle freed at the end of a run that succeeded does not show. *)
Ltac peel H inv :=
  let w := fresh "w" in
  apply defer_ok_inv in H as (w & H & ->); rewrite (invisible_host _ _ (inv _)).

(** ** CreateMachine *)

(** The host after a successful [createDomain]: the two volumes, the reservation
    and the domain, one after the other. *)
Record machine_created (cfg : MachineConfig) (h h' : HostState) (h1 h2 : HostState)
    (diskPath isoPath ip : string) (net : NetworkState) (doc : Network) : Prop := {
  created_disk : root_disk_made (cfg_BasePool cfg) (cfg_DomainPool cfg) cfg h h1 diskPath;
  created_iso : iso_disk_made (W := W) (cfg_DomainPool cfg) cfg h1 h2 isoPath;
  created_net : host_networks h2 !! cfg_Network cfg = Some net;
  created_reservation :
    reserve_step (cfg_DomainName cfg) (deriveDomainMAC (cfg_DomainName cfg)) ip (network_doc net) doc;
  created_domain :
    h' = set_domains (set_network_doc (cfg_Network cfg) doc h2)
           (<[cfg_DomainName cfg :=
               mkDomState (domain_document cfg diskPath isoPath (deriveDomainMAC (cfg_DomainName cfg)))
                 true DOMAIN_RUNNING true true]> (host_domains h2));
}.

Lemma createDomain_ok conn cfg w w' :
  createDomain (W := W) conn cfg w = (Ok tt, w') ->
  exists h1 h2 diskPath isoPath ip net doc,
    machine_created cfg (host w) (host w') h1 h2 diskPath isoPath ip net doc.
Proof.
  unfold createDomain. intros H. go_inv1 H. go_inv1 Hm.
  destruct (lookup_ok _ _ _ _ _ _ _ (LookupPool_law conn _) Hm) as (_ & Hdp & Hh1). clear Hm.
  peel H Pool_Free_invisible. go_inv1 H. go_inv1 Hm.
  destruct (lookup_ok _ _ _ _ _ _ _ (LookupPool_law conn _) Hm) as (_ & Hbp & Hh2). clear Hm.
  peel H Pool_Free_invisible. go_inv1 H. go_inv1 Hm.
  apply createRootDisk_ok in Hm. rewrite Hdp, Hbp, Hh2, Hh1 in Hm. rename Hm into Hdisk.
  go_inv1 H. go_inv1 Hm. apply createISODisk_ok in Hm. rewrite Hdp in Hm. rename Hm into Hiso.
  go_inv1 H. go_inv1 Hm.
  destruct (lookup_ok _ _ _ _ _ _ _ (LookupNetwork_law conn _) Hm) as ([net Hnet] & Hn & Hh3). clear Hm.
  peel H Network_Free_invisible. go_inv1 H.
  rewrite <- Hh3, <- Hn in Hnet.
  destruct (reserveMachineIP_host _ _ _ _ _ _ _ _ Hnet Hm) as (doc & Hstep & Hh4). clear Hm.
  go_inv1 H. go_inv1 Hm. injection Hm as Hx <-. go_inv1 H. go_inv1 Hm. peel H Domain_Free_invisible. go_inv1 H. go_inv1 Hm0. destruct a7. go_inv1 H.
  pose proof (define_and_start_ok _ _ _ _ _ _ _ _ Hx Hm Hm0 H) as Hh5.
  exists (host w1), (host w4), a1, a2, a4, net, doc.
  rewrite Hh3, Hn in Hnet. split; [done..|]. rewrite Hh5, Hh4, Hh3, Hn. done.
Qed.

(** [h'] differs from [h] at most in what belongs to the machine [cfg]: its domain,
    its two volumes and the configuration of its network. *)
Definition machine_frame (cfg : MachineConfig) (h h' : HostState) : Prop :=
  (forall m, m <> cfg_DomainName cfg -> host_domains h' !! m = host_domains h !! m) /\
  (forall id, id <> (cfg_DomainPool cfg, domainDiskName cfg) -> id <> (cfg_DomainPool cfg, isoDiskName cfg) ->
     host_volume h' id = host_volume h id) /\
  (forall p, pool_active <$> (host_pools h' !! p) = pool_active <$> (host_pools h !! p)) /\
  (forall m, m <> cfg_Network cfg -> host_networks h' !! m = host_networks h !! m).

Lemma disk_iso_distinct (pool : string) cfg : (pool, domainDiskName cfg) <> (pool, isoDiskName cfg).
Proof. intros [= H]. by apply root_iso_distinct in H. Qed.

Lemma created_frame cfg h h' h1 h2 diskPath isoPath ip net doc :
  machine_created cfg h h' h1 h2 diskPath isoPath ip net doc -> machine_frame cfg h h'.
Proof.
  intros [(_ & (Hn1 & Hd1 & Hp1 & Hv1) & _) (_ & (Hn2 & Hd2 & Hp2 & Hv2) & _) _ _ ->].
  unfold set_domains, set_network_doc, set_networks. split_and!; cbn.
  - intros m Hm. rewrite lookup_insert_ne by congruence. by rewrite Hd2, Hd1.
  - intros id H1 H2. rewrite <- Hv1, <- Hv2 by done. done.
  - intros p. by rewrite Hp2, Hp1.
  - intros m Hm. rewrite lookup_alter_ne by congruence. by rewrite Hn2, Hn1.
Qed.

(** The two volumes of a machine that was created. *)
Lemma created_volumes cfg h h' h1 h2 diskPath isoPath ip net doc :
  machine_created cfg h h' h1 h2 diskPath isoPath ip net doc ->
  (exists v, host_volume h' (cfg_DomainPool cfg, domainDiskName cfg) = Some v /\ volume_path v = diskPath /\
     (host_volume h (cfg_DomainPool cfg, domainDiskName cfg) = None ->
      exists b, host_volume h (cfg_BasePool cfg, cfg_BaseImage cfg) = Some b /\
        v = mkVolumeState diskPath (root_disk_document cfg (volume_path b)) [])) /\
  (exists v, host_volume h' (cfg_DomainPool cfg, isoDiskName cfg) = Some v /\ volume_path v = isoPath /\
     (host_volume h (cfg_DomainPool cfg, isoDiskName cfg) = None ->
      exists buff w1 w2, writeCloudInitISO (W := W) cfg w1 = (Ok buff, w2) /\
        v = mkVolumeState isoPath (iso_disk_document cfg buff) (chars buff))).
Proof.
  intros [(_ & (_ & _ & _ & Hv1) & Hdisk) (_ & (_ & _ & _ & Hv2) & Hiso) _ _ ->].
  change (host_volume (set_domains _ _)) with (host_volume h2).
  rewrite (Hv2 _ (disk_iso_distinct _ _)). rewrite (Hv1 _ (not_eq_sym (disk_iso_distinct _ _))) in Hiso.
  split.
  - destruct (host_volume h (cfg_DomainPool cfg, domainDiskName cfg)) as [v|].
    + destruct Hdisk as [-> Hv]. exists v. by split_and!.
    + destruct Hdisk as (b & Hb & Hv). eexists. split; [exact Hv|]. split; [done|]. eauto.
  - destruct (host_volume h (cfg_DomainPool cfg, isoDiskName cfg)) as [v|].
    + destruct Hiso as [-> Hv]. exists v. by split_and!.
    + destruct Hiso as (buff & w1 & w2 & Hb & Hv). eexists. split; [exact Hv|]. split; [done|]. intros _.
      by exists buff, w1, w2.
Qed.

(** The network before and after. *)
Lemma created_network cfg h h' h1 h2 diskPath isoPath ip net doc :
  machine_created cfg h h' h1 h2 diskPath isoPath ip net doc ->
  host_networks h !! cfg_Network cfg = Some net /\
  host_networks h' !! cfg_Network cfg =
    Some (mkNetworkState (network_active net) doc (network_leases net)).
Proof.
  intros [(_ & (Hn1 & _) & _) (_ & (Hn2 & _) & _) Hnet _ ->]. split; [by rewrite <- Hn1, <- Hn2|].
  by apply set_network_doc_lookup.
Qed.

(** C9: after a successful [CreateMachine] the domain is defined with the document
    built from the configuration, running, persistent and marked for autostart; its
    disks are the two volumes of the domain pool, where a volume that was not there
    is new: the root disk a copy-on-write image over the base image, the ISO volume
    holding the whole cloud-init image; the MAC of its interface has a reservation
    on its network; and nothing else on the host has changed. *)
Theorem CreateMachine_post cfg w w' :
  Provider_CreateMachine (W := W) cfg w = (Ok tt, w') ->
  let mac := deriveDomainMAC (cfg_DomainName cfg) in
  exists diskPath isoPath ip net doc,
    host_domains (host w') !! cfg_DomainName cfg =
      Some (mkDomState (domain_document cfg diskPath isoPath mac) true DOMAIN_RUNNING true true) /\
    (exists v, host_volume (host w') (cfg_DomainPool cfg, domainDiskName cfg) = Some v /\
       volume_path v = diskPath /\
       (host_volume (host w) (cfg_DomainPool cfg, domainDiskName cfg) = None ->
        exists b, host_volume (host w) (cfg_BasePool cfg, cfg_BaseImage cfg) = Some b /\
          v = mkVolumeState diskPath (root_disk_document cfg (volume_path b)) [])) /\
    (exists v, host_volume (host w') (cfg_DomainPool cfg, isoDiskName cfg) = Some v /\
       volume_path v = isoPath /\
       (host_volume (host w) (cfg_DomainPool cfg, isoDiskName cfg) = None ->
        exists buff w1 w2, writeCloudInitISO (W := W) cfg w1 = (Ok buff, w2) /\
          v = mkVolumeState isoPath (iso_disk_document cfg buff) (chars buff))) /\
    host_networks (host w) !! cfg_Network cfg = Some net /\
    host_networks (host w') !! cfg_Network cfg =
      Some (mkNetworkState (network_active net) doc (network_leases net)) /\
    reserve_step (cfg_DomainName cfg) mac ip (network_doc net) doc /\
    machine_frame cfg (host w) (host w').
Proof.
  intros H mac. apply with_connection_ok in H as (conn & w1 & w2 & _ & Hh1 & H & Hh2). rewrite Hh2.
  apply createDomain_ok in H as (h1 & h2 & diskPath & isoPath & ip & net & doc & Hc). rewrite Hh1 in Hc.
  exists diskPath, isoPath, ip, net, doc. destruct (created_volumes _ _ _ _ _ _ _ _ _ _ Hc) as [Hv1 Hv2].
  destruct (created_network _ _ _ _ _ _ _ _ _ _ Hc) as [Hn1 Hn2].
  split; [rewrite (created_domain _ _ _ _ _ _ _ _ _ _ Hc); apply lookup_insert_eq|].
  split; [done|]. split; [done|]. split; [done|]. split; [done|].
  split; [apply (created_reservation _ _ _ _ _ _ _ _ _ _ Hc)|by eapply created_frame].
Qed.

(** ** DeleteMachine *)

(** The network after the reservation was released; a network that does not exist
    is not an error. *)
Definition reservation_released (cfg : MachineConfig) (h h' : HostState) : Prop :=
  match host_networks h !! cfg_Network cfg with
  | None => host_networks h' !! cfg_Network cfg = None
  | Some s => exists doc,
      release_step (cfg_DomainName cfg) (deriveDomainMAC (cfg_DomainName cfg)) (network_doc s) doc /\
      host_networks h' !! cfg_Network cfg = Some (mkNetworkState (network_active s) doc (network_leases s))
  end.

Lemma releaseMachineReservation_ok conn cfg w w' :
  releaseMachineReservation (W := W) conn cfg w = (Ok tt, w') ->
  only_network (cfg_Network cfg) (host w) (host w') /\ reservation_released cfg (host w) (host w').
Proof.
  unfold releaseMachineReservation, reservation_released. intros H. go_inv1 H.
  apply try_ok_inv in Hm as [(n & Hl & ->)|(e & Hl & ->)].
  - destruct (lookup_ok _ _ _ _ _ _ _ (LookupNetwork_law conn _) Hl) as ([s Hs] & Hn & Hh).
    peel H Network_Free_invisible. rewrite <- Hh, <- Hn in Hs.
    destruct (releaseMachineIP_host _ _ _ _ _ _ _ Hs H) as (doc & Hstep & Hh2). rewrite Hn, Hh in Hs.
    rewrite Hh2, Hh, Hn, Hs. split; [apply only_network_doc|]. exists doc. split; [done|].
    by apply set_network_doc_lookup.
  - destruct (lookup_err _ _ _ _ _ _ _ (LookupNetwork_law conn _) Hl) as (Hh & c & t & -> & Hc).
    destruct (isLibvirtErr _ _) eqn:Hnf; [|discriminate H]. injection H as <-.
    apply isLibvirtErr_code in Hnf. specialize (Hc Hnf). rewrite Hh.
    destruct (host_networks (host w) !! cfg_Network cfg); [destruct Hc; eauto|done].
Qed.

(** The domain is running, and libvirt fails when a call of [DeleteMachine] that
    begins in [w] asks whether it is active. *)
Definition activity_unknown (cfg : MachineConfig) (w : W) : Prop :=
  exists conn w1 d w2 e s,
    connect (cfg_InfraConfig cfg) w = (Ok conn, w1) /\
    LookupDomainByName conn (cfg_DomainName cfg) w1 = (Ok d, w2) /\
    (Domain_IsActive d w2).1 = Err e /\
    host_domains (host w) !! cfg_DomainName cfg = Some s /\ domain_active s = true.

(** What is left of the machine by a call of [DeleteMachine] that began in [w]. *)
Definition machine_gone (cfg : MachineConfig) (w : W) (h' : HostState) : Prop :=
  (host_domains h' !! cfg_DomainName cfg = None \/
   activity_unknown cfg w /\
   exists s, host_domains h' !! cfg_DomainName cfg = Some s /\ domain_active s = true /\
     domain_persistent s = false) /\
  host_volume h' (cfg_DomainPool cfg, domainDiskName cfg) = None /\
  host_volume h' (cfg_DomainPool cfg, isoDiskName cfg) = None /\
  reservation_released cfg (host w) h'.

Lemma DeleteMachine_run cfg w w' :
  Provider_DeleteMachine (W := W) cfg w = (Ok tt, w') ->
  machine_frame cfg (host w) (host w') /\ machine_gone cfg w (host w').
Proof.
  intros H. apply with_connection_ok in H as (conn & w1 & w2 & Hconn & Hh1 & H & Hh2). unfold machine_gone.
  rewrite Hh2, <- Hh1. clear Hh2. go_inv1 H. destruct a. apply deleteDomain_ok in Hm as [(Hp1 & Hn1 & Hd1) Hdom].
  go_inv1 H. destruct a. apply deleteVolume_ok in Hm as [(Hn2 & Hd2 & Hp2 & Hv2) Hdisk].
  go_inv1 H. destruct a. apply deleteVolume_ok in Hm as [(Hn3 & Hd3 & Hp3 & Hv3) Hiso].
  apply releaseMachineReservation_ok in H as [(Hp4 & Hd4 & Hn4 & _) Hres].
  assert (forall id, host_volume (host w2) id = host_volume (host w4) id) as Hv4.
  { intros id. unfold host_volume. by rewrite Hp4. }
  assert (forall id, host_volume (host w0) id = host_volume (host w1) id) as Hv1.
  { intros id. unfold host_volume. by rewrite Hp1. }
  split; [split_and!|split_and!].
  - intros m Hm. rewrite Hd4, Hd3, Hd2. by apply Hd1.
  - intros id Hi1 Hi2. rewrite Hv4, Hv3, Hv2 by done. apply Hv1.
  - intros p. by rewrite Hp4, Hp3, Hp2, Hp1.
  - intros m Hm. by rewrite Hn4, Hn3, Hn2, Hn1.
  - rewrite Hd4, Hd3, Hd2. destruct Hdom as [|((d & w5 & e & Hl & He) & (s & Hs & Ha) & Hleft)]; [by left|right].
    split; [|done]. rewrite Hh1 in Hs. by exists conn, w1, d, w5, e, s.
  - rewrite Hv4, Hv3; [done|]. apply disk_iso_distinct.
  - by rewrite Hv4.
  - unfold reservation_released in *. by rewrite Hn3, Hn2, Hn1 in Hres.
Qed.

(** C10: after a successful [DeleteMachine] neither of the machine's volumes exists;
    no persistent domain of that name is left, and none at all unless the domain was
    running and libvirt failed to tell this very call whether it was active, when a
    transient one is still running; nothing else on the host has changed; and its
    network, if it exists and has at most one entry for each MAC, has no entry for
    the machine's MAC and keeps the others in order. *)
Theorem DeleteMachine_post cfg w w' :
  Provider_DeleteMachine (W := W) cfg w = (Ok tt, w') ->
  let mac := deriveDomainMAC (cfg_DomainName cfg) in
  (host_domains (host w') !! cfg_DomainName cfg = None \/
   activity_unknown cfg w /\
   exists s, host_domains (host w') !! cfg_DomainName cfg = Some s /\ domain_active s = true /\
     domain_persistent s = false) /\
  host_volume (host w') (cfg_DomainPool cfg, domainDiskName cfg) = None /\
  host_volume (host w') (cfg_DomainPool cfg, isoDiskName cfg) = None /\
  (forall s, host_networks (host w) !! cfg_Network cfg = Some s -> macs_unique (all_hosts (network_doc s)) ->
     exists s', host_networks (host w') !! cfg_Network cfg = Some s' /\
       hostEntryInNetwork (network_doc s') mac = None /\
       all_hosts (network_doc s') = other_macs mac (all_hosts (network_doc s))) /\
  machine_frame cfg (host w) (host w').
Proof.
  intros H mac. apply DeleteMachine_run in H as (Hf & Hdom & Hdisk & Hiso & Hres). split_and!; try done.
  intros s Hs Hmu. unfold reservation_released in Hres. rewrite Hs in Hres.
  destruct Hres as (doc & Hstep & Hs'). eexists. split; [exact Hs'|]. cbn.
  destruct (release_effect _ _ _ _ Hmu Hstep) as (Hall & Hnone & _). done.
Qed.

(** What is seen of a network: whether it is active, its DHCP entries, its leases. *)
Definition network_seen (s : NetworkState) : bool * list NetworkDHCPHost * list NetworkDHCPLease :=
  (network_active s, all_hosts (network_doc s), network_leases s).

(** [h'] is [h] without the machine: its domain, its volumes and the DHCP entries of
    its MAC are not there, and everything else is as in [h]. *)
Definition without_machine (cfg : MachineConfig) (h h' : HostState) : Prop :=
  host_domains h' = delete (cfg_DomainName cfg) (host_domains h) /\
  (forall id, host_volume h' id =
     if decide (id = (cfg_DomainPool cfg, domainDiskName cfg) \/ id = (cfg_DomainPool cfg, isoDiskName cfg))
     then None else host_volume h id) /\
  (forall m, network_seen <$> (host_networks h' !! m) =
     (fun s => let '(a, entries, leases) := network_seen s in
               (a, if decide (m = cfg_Network cfg)
                   then other_macs (deriveDomainMAC (cfg_DomainName cfg)) entries else entries, leases))
       <$> (host_networks h !! m)).

(** There is nothing of the machine on [h]. *)
Definition machine_absent (cfg : MachineConfig) (h : HostState) : Prop :=
  host_domains h !! cfg_DomainName cfg = None /\
  host_volume h (cfg_DomainPool cfg, domainDiskName cfg) = None /\
  host_volume h (cfg_DomainPool cfg, isoDiskName cfg) = None /\
  forall s, host_networks h !! cfg_Network cfg = Some s ->
    hostEntryInNetwork (network_doc s) (deriveDomainMAC (cfg_DomainName cfg)) = None.

Lemma without_absent cfg h h' :
  machine_absent cfg h -> without_machine cfg h h' ->
  host_domains h' = host_domains h /\ (forall id, host_volume h' id = host_volume h id) /\
  (forall m, network_seen <$> (host_networks h' !! m) = network_seen <$> (host_networks h !! m)).
Proof.
  intros (Hd & Hv1 & Hv2 & Hn) (Hd' & Hv' & Hn'). split_and!.
  - by rewrite Hd', delete_id.
  - intros id. rewrite Hv'. case_decide as Hid; [|done]. by destruct Hid as [->| ->].
  - intros m. rewrite Hn'. destruct (host_networks h !! m) as [s|] eqn:Hs; [|done]. cbn. unfold network_seen.
    case_decide as Hm; [|done]. subst m. by rewrite other_macs_none by (by apply Hn).
Qed.

(** C16: deleting a machine undoes its creation: on a host whose networks have at
    most one entry for each MAC, a successful [CreateMachine] followed by a
    successful [DeleteMachine] leaves the host as it was but without the machine:
    what there was of it before, say by an earlier creation that failed, is gone
    too, and a host that had nothing of it has the same domains, volumes and DHCP
    entries as before.  The one exception is that libvirt failed to tell the
    deletion whether the running domain is active, when it is left as a transient
    one. *)
Theorem create_delete_roundtrip cfg w w1 w2 :
  (forall s, host_networks (host w) !! cfg_Network cfg = Some s -> macs_unique (all_hosts (network_doc s))) ->
  Provider_CreateMachine (W := W) cfg w = (Ok tt, w1) ->
  Provider_DeleteMachine (W := W) cfg w1 = (Ok tt, w2) ->
  (without_machine cfg (host w) (host w2) /\
   (machine_absent cfg (host w) ->
    host_domains (host w2) = host_domains (host w) /\
    (forall id, host_volume (host w2) id = host_volume (host w) id) /\
    (forall m, network_seen <$> (host_networks (host w2) !! m) = network_seen <$> (host_networks (host w) !! m)))) \/
  activity_unknown cfg w1 /\
  exists s, host_domains (host w2) !! cfg_DomainName cfg = Some s /\ domain_persistent s = false /\
    without_machine cfg (host w) (set_domains (host w2) (delete (cfg_DomainName cfg) (host_domains (host w2)))).
Proof.
  intros Hmu Hc Hdel. apply with_connection_ok in Hc as (conn & wa & wb & _ & Ha & Hc & Hb).
  apply createDomain_ok in Hc as (h1 & h2 & diskPath & isoPath & ip & net & doc & Hc). rewrite Ha, <- Hb in Hc.
  destruct (created_frame _ _ _ _ _ _ _ _ _ _ Hc) as (Fd & Fv & _ & Fn).
  destruct (created_network _ _ _ _ _ _ _ _ _ _ Hc) as [Hn Hn1]. apply created_reservation in Hc.
  apply DeleteMachine_run in Hdel as ((Gd & Gv & _ & Gn) & Hdom & Hdisk & Hiso & Hres).
  assert (without_machine cfg (host w) (set_domains (host w2) (delete (cfg_DomainName cfg) (host_domains (host w2)))))
    as Hwithout.
  { split_and!.
    - apply map_eq. intros m. cbn. destruct (decide (m = cfg_DomainName cfg)) as [->|Hm];
        [by rewrite !lookup_delete_eq|]. rewrite !lookup_delete_ne by done. by rewrite Gd, Fd.
    - intros id. change (host_volume (set_domains (host w2) _)) with (host_volume (host w2)).
      case_decide as Hid; [by destruct Hid as [->| ->]|]. rewrite Gv, Fv; tauto.
    - intros m. cbn [set_domains host_networks]. case_decide as Hm; [subst m|by rewrite Gn, Fn; [destruct (host_networks (host w) !! m)|..]].
      unfold reservation_released in Hres. rewrite Hn1 in Hres. destruct Hres as (doc2 & Hrel & Hs2).
      rewrite Hs2, Hn. cbn in *. unfold network_seen. cbn.
      by rewrite (reserve_release_steps _ _ _ _ _ _ (Hmu net Hn) Hc Hrel). }
  destruct Hdom as [Hnone|[Hact (s & Hs & _ & Hp)]]; [left|right; split; [done|]; by exists s].
  assert (set_domains (host w2) (delete (cfg_DomainName cfg) (host_domains (host w2))) = host w2) as Heq.
  { rewrite delete_id by done. by destruct (host w2). }
  rewrite Heq in Hwithout. split; [done|]. intros Habs. by apply (without_absent cfg).
Qed.

(** ** Reading the machine *)

(** C27: [GetMachineState] changes nothing and reports the domain's state on the
    host: NotFound exactly when there is no domain, Running exactly for a running
    one, Stopped for one that is shut off, shutting down or crashed, and Unknown
    otherwise. *)
Theorem GetMachineState_spec cfg w st w' :
  Provider_GetMachineState (W := W) cfg w = (Ok st, w') ->
  host w' = host w /\
  (st = DomainStateNotFound <-> host_domains (host w) !! cfg_DomainName cfg = None) /\
  forall s, host_domains (host w) !! cfg_DomainName cfg = Some s ->
    (st = DomainStateRunning <-> domain_state s = DOMAIN_RUNNING) /\
    (st = DomainStateStopped <-> domain_state s ∈ [DOMAIN_SHUTOFF; DOMAIN_SHUTDOWN; DOMAIN_CRASHED]) /\
    (st = DomainStateUnknown <->
       domain_state s ∈ [DOMAIN_NOSTATE; DOMAIN_BLOCKED; DOMAIN_PAUSED; DOMAIN_PMSUSPENDED]).
Proof.
  intros H. apply with_connection_ok in H as (conn & w1 & w2 & _ & Hh1 & H & Hh2).
  apply getDomainState_ok in H as [Hh3 Hst]. split; [congruence|]. rewrite Hh1 in Hst.
  unfold MachineConfig_domainName in Hst. split.
  - destruct (host_domains (host w) !! cfg_DomainName cfg) as [s|]; [|by subst st].
    subst st. destruct (domain_state s); done.
  - intros s Hs. rewrite Hs in Hst. subst st.
    rewrite !elem_of_cons, !elem_of_nil.
    destruct (domain_state s); cbn; (split_and!; split; intros Hx; try done; try tauto; destruct_or!; done).
Qed.

(** [GetMachineAddress] changes nothing and returns the address of the first
    lease of the machine's network with its MAC (the case of the letters ignored)
    and an address; the empty string when there is none. *)
Theorem GetMachineAddress_spec cfg w a w' :
  Provider_GetMachineAddress (W := W) cfg w = (Ok a, w') ->
  host w' = host w /\
  exists s, host_networks (host w) !! cfg_Network cfg = Some s /\
    a = match List.find (fun l => strings_EqualFold (lease_Mac l) (deriveDomainMAC (cfg_DomainName cfg)) &&
                             negb (bool_decide (lease_IPaddr l = ""))) (network_leases s) with
        | Some l => lease_IPaddr l
        | None => ""
        end.
Proof.
  intros H. apply with_connection_ok in H as (conn & w1 & w2 & _ & Hh1 & H & Hh2). rewrite Hh2, <- Hh1.
  go_inv1 H. go_inv1 Hm. destruct (lookup_ok _ _ _ _ _ _ _ (LookupNetwork_law conn _) Hm) as ([s Hs] & Hn & Hh).
  peel H Network_Free_invisible. unfold machineAddress in H. go_inv1 H. go_inv1 Hm0. injection H as <- <-.
  rewrite (readonly_run _ _ _ _ (GetDHCPLeases_readonly _) Hm0). split; [done|]. exists s. split; [done|].
  rewrite (GetDHCPLeases_law a0 w0 a1 ltac:(by rewrite Hm0) s) by (by rewrite Hn, Hh).
  generalize (network_leases s). intros l. induction l as [|x l IH]; [done|].
  cbn [leaseAddressForMac List.find]. by destruct (_ && _).
Qed.

(** A cloud-init volume that exists is used as it is: [createISODisk] builds and
    uploads nothing, whatever the volume holds, so that a volume left empty by an
    upload that failed is what a later successful [CreateMachine] attaches. *)
Theorem createISODisk_reuses conn pool cfg w v path w' :
  host_volume (host w) (pool_name pool, isoDiskName cfg) = Some v ->
  createISODisk (W := W) conn pool cfg w = (Ok path, w') ->
  path = volume_path v /\ host_volume (host w') (pool_name pool, isoDiskName cfg) = Some v.
Proof.
  intros Hv H. apply createISODisk_ok in H as (_ & _ & Hm). by rewrite Hv in Hm.
Qed.
End ProviderSpec.
