(* ===== verification/Isolation.v ===== *)
(** * Machines do not disturb each other

    The postconditions of ProviderSpec are about calls that succeed.  Here is what
    every call of the provider leaves alone, whatever it returns and wherever it
    stopped: everything on the host that does not belong to its machine. *)

From stdpp Require Import base gmap list strings.
From Stdlib Require Import ZArith.
From S2P Require Import Prelude GoStrings Config LibvirtXML Builders MachineNetwork Reservation.
From S2P Require Import Libvirt Host OS CloudInit Volume Domain HostSpec Connect Infra Provider ProviderSpec.

(** ** What a libvirt call can change

    A call acts on the object it is made on, or on the one its document names,
    also when it fails half way: on one domain, on one volume, on the DHCP entries
    of one MAC.  What was announced for a stream tells which volume it writes. *)

Definition only_entries (name mac : string) (h h' : HostState) : Prop :=
  only_network name h h' /\
  (fun s => other_macs mac (all_hosts (network_doc s))) <$> (host_networks h' !! name) =
  (fun s => other_macs mac (all_hosts (network_doc s))) <$> (host_networks h !! name).

Class CallFootprint (W : Type) `{LX : LibvirtXML} `{L : !Libvirt W} `{HV : !HostView W} : Prop := {
  Update_only n cmd e xml w :
    NetworkDHCPHost_Marshal e = Ok xml ->
    only_entries (net_name n) (host_MAC e) (host w)
      (host (Update (N := virNetwork) n cmd NETWORK_SECTION_IP_DHCP_HOST 0 xml 0 w).2);
  VolCreate_only p doc xml w :
    StorageVolume_Marshal doc = Ok xml ->
    only_volume (pool_name p, vol_Name doc) (host w) (host (StorageVolCreateXML p xml 0 w).2);
  VolDelete_only v w : only_volume (vol_id v) (host w) (host (StorageVol_Delete v 0 w).2);
  Upload_only v s n w : only_volume (vol_id v) (host w) (host (StorageVol_Upload v s 0 n 0 w).2);
  SendAll_only s h r w u :
    stream_upload w s = Some u ->
    only_volume (upload_target u) (host w) (host (Stream_SendAll s h r w).2) /\
    forall u', stream_upload (Stream_SendAll s h r w).2 s = Some u' -> upload_target u' = upload_target u;
  Finish_only s w u :
    stream_upload w s = Some u -> only_volume (upload_target u) (host w) (host (Stream_Finish s w).2);
  Abort_only s w :
    match stream_upload w s with
    | Some u => only_volume (upload_target u) (host w) (host (Stream_Abort s w))
    | None => host (Stream_Abort s w) = host w
    end;
  Define_only c doc xml w :
    Domain_Marshal doc = Ok xml -> only_domain (dom_Name doc) (host w) (host (DomainDefineXML c xml w).2);
  SetAutostart_only d b w : only_domain (dom_name d) (host w) (host (Domain_SetAutostart d b w).2);
  Domain_Create_only d w : only_domain (dom_name d) (host w) (host (Domain_Create d w).2);
  Domain_Destroy_only d w : only_domain (dom_name d) (host w) (host (Domain_Destroy d w).2);
  Domain_Undefine_only d w : only_domain (dom_name d) (host w) (host (Domain_Undefine d w).2);
}.

(** ** What belongs to a machine *)

Definition machine_mac (cfg : MachineConfig) : string := deriveDomainMAC (cfg_DomainName cfg).

(** [h'] differs from [h] at most in the machine's domain, its two volumes and the
    DHCP entries of its MAC on its network. *)
Definition isolated (cfg : MachineConfig) (h h' : HostState) : Prop :=
  machine_frame cfg h h' /\
  (fun s => (network_active s, network_leases s, other_macs (machine_mac cfg) (all_hosts (network_doc s)))) <$>
    (host_networks h' !! cfg_Network cfg) =
  (fun s => (network_active s, network_leases s, other_macs (machine_mac cfg) (all_hosts (network_doc s)))) <$>
    (host_networks h !! cfg_Network cfg).

#[export] Instance isolated_refl cfg : Reflexive (isolated cfg).
Proof. intros h. by split_and!. Qed.
#[export] Instance isolated_trans cfg : Transitive (isolated cfg).
Proof.
  intros h1 h2 h3 [(Hd1 & Hv1 & Hp1 & Hn1) He1] [(Hd2 & Hv2 & Hp2 & Hn2) He2]. split; [split_and!|congruence].
  - intros m Hm. by rewrite Hd2, Hd1.
  - intros id Hi1 Hi2. by rewrite Hv2, Hv1.
  - intros p. by rewrite Hp2, Hp1.
  - intros m Hm. by rewrite Hn2, Hn1.
Qed.

(** The volumes of a machine. *)
Definition machine_volume (cfg : MachineConfig) (id : string * string) : Prop :=
  id = (cfg_DomainPool cfg, domainDiskName cfg) \/ id = (cfg_DomainPool cfg, isoDiskName cfg).

Lemma isolated_volume cfg id h h' : machine_volume cfg id -> only_volume id h h' -> isolated cfg h h'.
Proof.
  intros Hid (Hn & Hd & Hp & Hv). unfold isolated, machine_frame. rewrite Hn, Hd. split_and!; try done.
  intros i Hi1 Hi2. apply Hv. intros ->. by destruct Hid.
Qed.
Lemma isolated_domain cfg h h' : only_domain (cfg_DomainName cfg) h h' -> isolated cfg h h'.
Proof.
  intros (Hp & Hn & Hd). unfold isolated, machine_frame, host_volume. rewrite Hn, Hp. by split_and!.
Qed.
Lemma isolated_entries cfg h h' : only_entries (cfg_Network cfg) (machine_mac cfg) h h' -> isolated cfg h h'.
Proof.
  intros [(Hp & Hd & Hn & Hs) He]. unfold isolated, machine_frame, host_volume. rewrite Hp, Hd. split_and!; try done.
  destruct (host_networks h' !! _), (host_networks h !! _); simplify_eq/=; congruence.
Qed.

(** ** Computations that relate the host before to the host after

    [Within R m Q]: whatever [m] returns, the host after it is related by [R] to the
    host before, and a value it returns satisfies [Q]. *)
Definition Within {W A} `{HostView W} (R : relation HostState) (m : M W A) (Q : A -> Prop) : Prop :=
  forall w, R (host w) (host (m w).2) /\ forall a, (m w).1 = Ok a -> Q a.

(** A relation that changes to the machine's domain, or to its volumes, keep: [R] is
    [isolated cfg], or that an invariant of the networks is not lost. *)
Class DomainRel (cfg : MachineConfig) (R : relation HostState) : Prop := {
  rel_preorder : PreOrder R;
  rel_domain h h' : only_domain (cfg_DomainName cfg) h h' -> R h h';
}.
Class VolumeRel (cfg : MachineConfig) (R : relation HostState) : Prop :=
  rel_volume id h h' : machine_volume cfg id -> only_volume id h h' -> R h h'.

#[export] Instance isolated_pre cfg : PreOrder (isolated cfg).
Proof. split; apply _. Qed.
#[export] Instance isolated_domains cfg : DomainRel cfg (isolated cfg).
Proof. split; [apply _|apply isolated_domain]. Qed.
#[export] Instance isolated_volumes cfg : VolumeRel cfg (isolated cfg).
Proof. exact (isolated_volume cfg). Qed.

Section Within.
Context {W : Type} `{HostView W} (R : relation HostState) {PR : PreOrder R}.

Lemma within_ret {A} (a : A) (Q : A -> Prop) : Q a -> Within (W := W) R (mret a) Q.
Proof. intros Ha w. split; [reflexivity|]. by intros x [= <-]. Qed.
Lemma within_fail {A} e (Q : A -> Prop) : Within (W := W) R (fail e) Q.
Proof. intros w. split; [reflexivity|done]. Qed.
Lemma within_lift {A} (r : result A) : Within (W := W) R (lift r) (fun a => r = Ok a).
Proof. intros w. split; [reflexivity|done]. Qed.
Lemma within_keeps {A} (m : M W A) : Keeps host m -> Within R m (fun _ => True).
Proof. intros Hm w. rewrite (Hm w). split; [reflexivity|done]. Qed.
Lemma within_readonly {A} (m : M W A) : ReadOnly m -> Within R m (fun _ => True).
Proof. intros Hm. apply within_keeps. intros w. apply Hm. Qed.
Lemma within_lookup {A} (m : M W A) code ex found : Lookup m code ex found -> Within R m found.
Proof.
  intros (Hro & Hok & _) w. destruct (Hro w) as [-> _]. split; [reflexivity|]. intros a Ha. by apply (Hok w).
Qed.
Lemma within_bind {A B} (m : M W A) (f : A -> M W B) Q S :
  Within R m Q -> (forall a, Q a -> Within R (f a) S) -> Within R (m ≫= f) S.
Proof.
  intros Hm Hf w. destruct (Hm w) as [Hi Hq]. unfold mbind, M_bind. destruct (m w) as [[a|e|] w1]; [|done..].
  cbn in Hi. destruct (Hf a (Hq a eq_refl) w1) as [Hi' Hr]. split; [by etrans|done].
Qed.
Lemma within_wrap {A} g (m : M W A) Q : Within R m Q -> Within R (wrap_err g m) Q.
Proof.
  intros Hm w. destruct (Hm w) as [Hi Hq]. unfold wrap_err. destruct (m w) as [[a|e|] w1]; cbn in *; by split.
Qed.
Lemma within_try {A} (m : M W A) Q :
  Within R m Q -> Within R (try m) (fun r => match r with inl _ => True | inr a => Q a end).
Proof.
  intros Hm w. destruct (Hm w) as [Hi Hq]. unfold try. destruct (m w) as [[a|e|] w1]; cbn in *; split; try done.
  - intros r [= <-]. by apply Hq.
  - by intros r [= <-].
Qed.
Lemma within_defer {A} f (m : M W A) Q : (forall w, host (f w) = host w) -> Within R m Q -> Within R (defer f m) Q.
Proof.
  intros Hf Hm w. destruct (Hm w) as [Hi Hq]. unfold defer. destruct (m w) as [[a|e|] w1]; cbn in *; by rewrite ?Hf.
Qed.
Lemma within_any {A} (m : M W A) : (forall w, R (host w) (host (m w).2)) -> Within R m (fun _ => True).
Proof. intros Hm w. split; [apply Hm|done]. Qed.
End Within.

(** ** The operations of the provider *)

Section Provider.
Context {W : Type} {LX : LibvirtXML} {L : Libvirt W} {HV : HostView W} {HL : HostLaws W} {CF : CallFootprint W}.
Context {CI : CloudInitLib W} {O : OS W}.
Context {FK : FilesKeep (W := W) host} {DK : DisksKeep (W := W) host}.
Context (cfg : MachineConfig) (R : relation HostState) {DR : DomainRel cfg R}.
#[local] Instance rel_pre : PreOrder R := rel_preorder (cfg := cfg).

Local Ltac free_law :=
  intros ?; first [ apply Stream_Free_host | apply Close_invisible | apply Network_Free_invisible
                  | apply Pool_Free_invisible | apply Vol_Free_invisible | apply Domain_Free_invisible ].
(** One step through a computation whose result is of no interest. *)
Local Ltac within_step :=
  lazymatch goal with
  | |- Within _ (mret _) _ => by apply (within_ret R)
  | |- Within _ (fail _) _ => apply (within_fail R)
  | |- Within _ (wrap_err _ _) _ => apply within_wrap
  | |- Within _ (defer _ _) _ => apply within_defer; [free_law|]
  | |- Within _ (if ?b then _ else _) _ => destruct b
  end.
Local Ltac within_look H :=
  eapply (within_bind R); [apply within_wrap; eapply (within_lookup R); eauto with readonly|]; intros ? H; cbv beta in H.
Local Ltac within_try_look H :=
  eapply (within_bind R); [apply within_try; eapply (within_lookup R); eauto with readonly|]; intros [?|?] H; cbv beta in H.

(** An upload writes to its volume, however it ends. *)
Lemma storageVolUpload_only conn buff vol w :
  only_volume (vol_id vol) (host w) (host (storageVolUpload (W := W) conn buff vol w).2).
Proof.
  unfold storageVolUpload, mbind, M_bind, wrap_err, defer, try, abort_upload.
  pose proof (NewStream_readonly conn 0 w) as Hn. destruct (NewStream conn 0 w) as [[s|e|] w1]; cbn in *;
    [|by rewrite Hn..].
  pose proof (Upload_only vol s (len buff) w1) as Hu. rewrite Hn in Hu.
  destruct (StorageVol_Upload vol s 0 (len buff) 0 w1) as [[[]|e|] w2] eqn:Eu; cbn in *;
    rewrite ?Stream_Free_host; [|done..].
  apply Upload_law in Eu as [_ Es].
  destruct (SendAll_only s upload_source (mkReader (chars buff) 0) w2 _ Es) as [Hs Ht]. cbn in Hs, Ht.
  destruct (Stream_SendAll s _ _ w2) as [[[]|e|] w3] eqn:Esend; cbn in *; rewrite ?Stream_Free_host.
  - destruct (SendAll_law _ _ _ _ _ _ Esend Es) as (data & _ & _ & Es'). pose proof (Finish_only s w3 _ Es') as Hf.
    cbn in Hf. destruct (Stream_Finish s w3) as [[[]|e|] w4]; cbn in *; rewrite ?Stream_Free_host;
      (etrans; [exact Hu|]; by etrans).
  - pose proof (Abort_only s w3) as Ha. destruct (stream_upload w3 s) as [u|].
    + rewrite (Ht u eq_refl) in Ha. etrans; [exact Hu|]. by etrans.
    + rewrite Ha. by etrans.
  - by etrans.
Qed.

Lemma getVolumePath_within pool name : Within (W := W) R (getVolumePath pool name) (fun _ => True).
Proof.
  apply (within_readonly R). unfold getVolumePath. apply readonly_bind; [eauto with readonly|].
  intros [e|v]; [destruct (isVolumeNotFound e)|]; eauto 6 with readonly.
Qed.

(** What the deletion of a volume does to [R]. *)
Definition removes_within : Prop := forall v,
  machine_volume cfg (vol_id v) -> Within (W := W) R (StorageVol_Delete v 0) (fun _ => True).

Lemma deleteVolume_within conn name :
  removes_within -> machine_volume cfg (cfg_DomainPool cfg, name) ->
  Within (W := W) R (deleteVolume conn (cfg_DomainPool cfg) name) (fun _ => True).
Proof.
  intros Hrm Hid. unfold deleteVolume. within_try_look Hp; [repeat within_step|]. within_step.
  within_try_look Hv; [repeat within_step|]. repeat within_step. apply Hrm. by rewrite Hv, Hp.
Qed.

Lemma networkXML_within (n : virNetwork) : Within (W := W) R (networkXML n) (fun _ => True).
Proof. apply (within_readonly R). unfold networkXML. eauto 10 with readonly. Qed.

Lemma deleteDomain_within conn :
  Within (W := W) R (deleteDomain conn (cfg_DomainName cfg)) (fun _ => True).
Proof.
  unfold deleteDomain. within_try_look Hd; [repeat within_step|]. within_step.
  eapply (within_bind R); [apply within_try, (within_readonly R), Domain_IsActive_readonly|]. intros active _.
  apply (within_bind R _ _ (fun _ => True)).
  - destruct active as [?|[]]; [by apply (within_ret R)| |by apply (within_ret R)].
    apply within_wrap, within_any. intros w. apply (rel_domain (cfg := cfg)). rewrite <- Hd. apply Domain_Destroy_only.
  - intros _ _. apply within_wrap, within_any. intros w. apply (rel_domain (cfg := cfg)). rewrite <- Hd.
    apply Domain_Undefine_only.
Qed.

Lemma with_connection_within {A} icfg (body : Connect -> M W A) :
  (forall conn, Within R (body conn) (fun _ => True)) -> Within R (with_connection icfg body) (fun _ => True).
Proof.
  intros Hb. unfold with_connection. eapply (within_bind R); [apply within_wrap, (within_keeps R), connect_keeps_host|].
  intros conn _. within_step. apply Hb.
Qed.

Lemma StartMachine_within : Within (W := W) R (Provider_StartMachine cfg) (fun _ => True).
Proof.
  apply with_connection_within. intros conn. within_look Hd. apply within_wrap, within_any. intros w.
  apply (rel_domain (cfg := cfg)). unfold MachineConfig_domainName in Hd. rewrite <- Hd. apply Domain_Create_only.
Qed.
(** What the reservation and its release do to [R]. *)
Definition reserves_within : Prop := forall (n : virNetwork) nm,
  net_name n = cfg_Network cfg ->
  Within (W := W) R (reserveMachineIP n nm (cfg_DomainName cfg) (machine_mac cfg)) (fun _ => True).
Definition releases_within : Prop := forall (n : virNetwork) nm,
  net_name n = cfg_Network cfg ->
  Within (W := W) R (releaseMachineIP n nm (cfg_DomainName cfg) (machine_mac cfg)) (fun _ => True).

Lemma DeleteMachine_within :
  removes_within -> releases_within -> Within (W := W) R (Provider_DeleteMachine cfg) (fun _ => True).
Proof.
  intros Hrm Hrel. apply with_connection_within. intros conn.
  eapply (within_bind R); [apply deleteDomain_within|]. intros _ _.
  do 2 (eapply (within_bind R); [apply deleteVolume_within; [done|by (left + right)]|]; intros _ _).
  unfold releaseMachineReservation. within_try_look Hn; [repeat within_step|]. within_step. by apply Hrel.
Qed.

(** With a relation that any change of the machine's volumes keeps. *)
Context {VR : VolumeRel cfg R}.

Lemma volumes_removes : removes_within.
Proof. intros v Hid. apply within_any. intros w. by eapply (rel_volume (cfg := cfg)), VolDelete_only. Qed.

Lemma createVolume_within pool doc xml :
  StorageVolume_Marshal doc = Ok xml -> machine_volume cfg (pool_name pool, vol_Name doc) ->
  Within (W := W) R (createVolume pool xml) (fun _ => True).
Proof.
  intros Hx Hid. unfold createVolume. eapply (within_bind R).
  - apply within_wrap, within_any. intros w. eapply (rel_volume (cfg := cfg)); [exact Hid|]. by apply VolCreate_only.
  - intros v _. within_step. apply within_wrap, (within_readonly R), GetPath_readonly.
Qed.

Lemma createRootDisk_within base pool :
  pool_name pool = cfg_DomainPool cfg -> Within (W := W) R (createRootDisk base pool cfg) (fun _ => True).
Proof.
  intros Hp. unfold createRootDisk. eapply (within_bind R); [apply getVolumePath_within|]. intros path _.
  within_step; [within_step|]. eapply (within_bind R); [apply getVolumePath_within|]. intros image _.
  within_step; [within_step|]. eapply (within_bind R); [apply within_wrap, (within_lift R)|]. intros xml Hx. cbv beta in Hx.
  apply within_wrap. eapply createVolume_within; [exact Hx|]. rewrite Hp. by left.
Qed.

Lemma createISODisk_within conn pool :
  pool_name pool = cfg_DomainPool cfg -> Within (W := W) R (createISODisk conn pool cfg) (fun _ => True).
Proof.
  intros Hp. unfold createISODisk. eapply (within_bind R); [apply getVolumePath_within|]. intros path _.
  within_step; [within_step|].
  eapply (within_bind R); [apply within_wrap, (within_keeps R), writeCloudInitISO_keeps; apply _|]. intros buff _.
  eapply (within_bind R); [apply within_wrap, (within_lift R)|]. intros xml Hx. cbv beta in Hx.
  eapply (within_bind R); [apply within_wrap; eapply createVolume_within; [exact Hx|rewrite Hp; by right]|]. intros p' _.
  eapply (within_bind R); [eapply (within_lookup R); eauto with readonly|]. intros v Hv. cbv beta in Hv.
  within_step. apply (within_bind R _ _ (fun _ => True)); [|intros ? _; by apply (within_ret R)].
  apply within_wrap, within_any. intros w. eapply (rel_volume (cfg := cfg)); [|apply storageVolUpload_only].
  rewrite Hv, Hp. by right.
Qed.

Lemma createDomain_within conn :
  reserves_within -> Within (W := W) R (createDomain conn cfg) (fun _ => True).
Proof.
  intros Hres. unfold createDomain. within_look Hdp. within_step. within_look Hbp. within_step.
  eapply (within_bind R); [apply within_wrap; by apply createRootDisk_within|]. intros disk _.
  eapply (within_bind R); [apply within_wrap; by apply createISODisk_within|]. intros iso _.
  within_look Hn. within_step. eapply (within_bind R); [by apply Hres|]. intros ip _.
  eapply (within_bind R); [apply within_wrap, (within_lift R)|]. intros xml Hx. cbv beta in Hx.
  apply (within_bind R _ _ (fun d => dom_name d = cfg_DomainName cfg)).
  - apply within_wrap. intros w. split.
    + apply (rel_domain (cfg := cfg)). exact (Define_only _ _ _ _ Hx).
    + intros d Hd. destruct (DomainDefineXML _ xml w) as [r w'] eqn:E. cbn in Hd. subst r.
      by destruct (Define_law _ _ _ _ _ _ Hx E).
  - intros d Hd. within_step. apply (within_bind R _ _ (fun _ => True)); [|intros _ _]; apply within_wrap, within_any;
      intros w; apply (rel_domain (cfg := cfg)); rewrite <- Hd; [apply SetAutostart_only|apply Domain_Create_only].
Qed.

Lemma CreateMachine_within :
  reserves_within -> Within (W := W) R (Provider_CreateMachine cfg) (fun _ => True).
Proof. intros Hres. apply with_connection_within. intros conn. by apply createDomain_within. Qed.
End Provider.

(** ** Isolation *)

Section Isolation.
Context {W : Type} {LX : LibvirtXML} {L : Libvirt W} {HV : HostView W} {HL : HostLaws W} {CF : CallFootprint W}.
Context {CI : CloudInitLib W} {O : OS W}.
Context {FK : FilesKeep (W := W) host} {DK : DisksKeep (W := W) host}.

Lemma Update_within cfg (n : virNetwork) cmd e xml :
  net_name n = cfg_Network cfg -> host_MAC e = machine_mac cfg -> NetworkDHCPHost_Marshal e = Ok xml ->
  Within (W := W) (isolated cfg) (Update n cmd NETWORK_SECTION_IP_DHCP_HOST 0 xml 0) (fun _ => True).
Proof.
  intros Hn Hm Hx. apply within_any. intros w. apply isolated_entries. rewrite <- Hn, <- Hm. by apply Update_only.
Qed.

Lemma reserveMachineIP_within cfg (n : virNetwork) nm :
  net_name n = cfg_Network cfg ->
  Within (W := W) (isolated cfg) (reserveMachineIP n nm (cfg_DomainName cfg) (machine_mac cfg)) (fun _ => True).
Proof.
  intros Hn. unfold reserveMachineIP. eapply (within_bind (isolated cfg)); [apply (networkXML_within cfg (isolated cfg))|].
  intros net _.
  eapply (within_bind (isolated cfg)); [apply (within_lift (isolated cfg))|]. intros plan Hplan. cbv beta in Hplan.
  apply planHostUpdate_inv in Hplan as (cs & c & _ & _ & _ & _ & _ & Hplan).
  destruct (plan_doUpdate plan); cbn [negb]; [|by apply (within_ret (isolated cfg))]. destruct Hplan as [Hx _].
  apply (within_bind (isolated cfg) _ _ (fun _ => True)); [|intros ? _; by apply (within_ret (isolated cfg))].
  apply within_wrap. eapply Update_within; [exact Hn| |eassumption]; done.
Qed.

Lemma releaseMachineIP_within cfg (n : virNetwork) nm :
  net_name n = cfg_Network cfg ->
  Within (W := W) (isolated cfg) (releaseMachineIP n nm (cfg_DomainName cfg) (machine_mac cfg)) (fun _ => True).
Proof.
  intros Hn. unfold releaseMachineIP. eapply (within_bind (isolated cfg)); [apply (networkXML_within cfg (isolated cfg))|].
  intros net _.
  destruct (hostEntryInNetwork net _); [|by apply (within_ret (isolated cfg))].
  eapply (within_bind (isolated cfg)); [apply (within_lift (isolated cfg))|]. intros xml Hx.
  cbv beta in Hx. unfold machineHostXML in Hx.
  destruct (NetworkDHCPHost_Marshal _) as [x|?|] eqn:Hm; cbn in Hx; try discriminate. injection Hx as <-.
  apply within_wrap. eapply Update_within; [exact Hn| |eassumption]; done.
Qed.

Lemma CreateMachine_isolated cfg : Within (W := W) (isolated cfg) (Provider_CreateMachine cfg) (fun _ => True).
Proof. apply (CreateMachine_within cfg (isolated cfg)). exact (reserveMachineIP_within cfg). Qed.
Lemma StartMachine_isolated cfg : Within (W := W) (isolated cfg) (Provider_StartMachine cfg) (fun _ => True).
Proof. apply (StartMachine_within cfg (isolated cfg)). Qed.
Lemma DeleteMachine_isolated cfg : Within (W := W) (isolated cfg) (Provider_DeleteMachine cfg) (fun _ => True).
Proof. apply (DeleteMachine_within cfg (isolated cfg)); [apply volumes_removes, _|exact (releaseMachineIP_within cfg)]. Qed.

(** ** Other machines *)

(** Two domain names with nothing in common: they differ, and so do their MACs (a
    MAC is a hash of the name). *)
Definition unrelated (n n' : string) : Prop :=
  n <> n' /\ strings_EqualFold (deriveDomainMAC n) (deriveDomainMAC n') = false.

(** All a machine has on a host: domain, root disk, cloud-init disk, and the state
    of its network with the machine's reservation on it. *)
Definition machine_on_host (cfg : MachineConfig) (h : HostState) :=
  (host_domains h !! cfg_DomainName cfg,
   host_volume h (cfg_DomainPool cfg, domainDiskName cfg),
   host_volume h (cfg_DomainPool cfg, isoDiskName cfg),
   (fun s => (network_active s, hostEntryInNetwork (network_doc s) (machine_mac cfg))) <$>
     (host_networks h !! cfg_Network cfg)).

Lemma find_host_other hosts mac mac' :
  strings_EqualFold mac mac' = false -> find_host (other_macs mac hosts) mac' = find_host hosts mac'.
Proof.
  intros Hm. unfold other_macs. induction hosts as [|x hosts IH]; [done|].
  destruct (strings_EqualFold (host_MAC x) mac) eqn:E.
  - rewrite filter_cons_False by congruence. cbn [find_host].
    destruct (strings_EqualFold (host_MAC x) mac') eqn:E'; [|done].
    rewrite EqualFold_sym in E. by rewrite (EqualFold_trans _ _ _ E E') in Hm.
  - rewrite filter_cons_True by done. cbn [find_host]. by rewrite IH.
Qed.

Lemma isolated_other cfg other h h' :
  unrelated (cfg_DomainName cfg) (cfg_DomainName other) -> isolated cfg h h' ->
  machine_on_host other h' = machine_on_host other h.
Proof.
  intros [Hne Hmac] [(Hd & Hv & _ & Hn) He]. unfold machine_on_host. f_equal; [f_equal; [f_equal|]|].
  - apply Hd. congruence.
  - apply Hv; intros E%(f_equal snd); [by apply (volume_names_disjoint other cfg) in E|].
    by apply root_iso_distinct in E.
  - apply Hv; intros E%(f_equal snd); [by apply eq_sym, root_iso_distinct in E|].
    by apply (volume_names_disjoint other cfg) in E.
  - destruct (decide (cfg_Network other = cfg_Network cfg)) as [->|Hnet]; [|by rewrite Hn].
    destruct (host_networks h' !! _) as [s'|], (host_networks h !! _) as [s|]; try done.
    injection He as Ha _ Ho. cbn [fmap option_fmap option_map]. do 2 f_equal; [done|]. unfold hostEntryInNetwork, machine_mac in *.
    rewrite <- (find_host_other (all_hosts (network_doc s')) _ _ Hmac). rewrite Ho.
    by apply find_host_other.
Qed.

(** C13: whatever [CreateMachine], [StartMachine] and [DeleteMachine] return, and
    wherever they stopped, the host differs from what it was at most in the
    machine's domain, its two volumes and the DHCP entries of its MAC; what a
    machine with another domain name and another MAC has on the host is the same. *)
Theorem provider_isolated cfg other w w' :
  w' ∈ [(Provider_CreateMachine (W := W) cfg w).2; (Provider_StartMachine cfg w).2;
        (Provider_DeleteMachine cfg w).2] ->
  isolated cfg (host w) (host w') /\
  (unrelated (cfg_DomainName cfg) (cfg_DomainName other) ->
   machine_on_host other (host w') = machine_on_host other (host w)).
Proof.
  intros Hin. assert (isolated cfg (host w) (host w')) as Hi.
  { rewrite !elem_of_cons, elem_of_nil in Hin. destruct Hin as [->|[->|[->|[]]]];
      [apply CreateMachine_isolated|apply StartMachine_isolated|apply DeleteMachine_isolated]. }
  split; [done|]. intros Hu. by apply isolated_other with cfg.
Qed.
End Isolation.
