(* ===== verification/System.v ===== *)
(** * The controllers on the libvirt provider

    The libvirt provider keeps the contract of [ProviderContract], so the
    controllers' promises become statements about the libvirt host. *)

From stdpp Require Import base gmap list strings.
From Stdlib Require Import ZArith Lia.
From S2P Require Import Prelude GoStrings Config LibvirtXML Builders MachineNetwork Reservation.
From S2P Require Import Libvirt Host OS CloudInit Volume Domain HostSpec Connect Infra Provider ProviderSpec.
From S2P Require Import Api Kube Credentials ProviderInterface ClusterController MachineController Contract.

Section System.
Context {W : Type} {LX : LibvirtXML} {L : Libvirt W} {HV : HostView W} {HL : HostLaws W}.
Context {CI : CloudInitLib W} {O : OS W}.
Context {FK : FilesKeep (W := W) host} {DK : DisksKeep (W := W) host}.
#[local] Existing Instance Provider_provider.

Definition domain_runs (h : HostState) (name : string) : Prop :=
  exists s, host_domains h !! name = Some s /\ domain_state s = DOMAIN_RUNNING.

(** Both volumes are gone and no persistent domain is left; none at all where
    libvirt always answers whether a domain is active. *)
Definition machine_left_nothing (h : HostState) (cfg : MachineConfig) : Prop :=
  host_volume h (cfg_DomainPool cfg, domainDiskName cfg) = None /\
  host_volume h (cfg_DomainPool cfg, isoDiskName cfg) = None /\
  (forall s, host_domains h !! cfg_DomainName cfg = Some s -> domain_persistent s = false) /\
  ((forall d w1 e, (Domain_IsActive (W := W) d w1).1 <> Err e) -> host_domains h !! cfg_DomainName cfg = None).

Definition infra_active (h : HostState) (cfg : InfraConfig) : Prop :=
  network_ready h (infra_Network cfg) /\ pool_ready h (infra_BasePool cfg) /\ pool_ready h (infra_DomainPool cfg).

#[local] Instance Host_facts : MachineFacts W := {
  infra_ready w cfg := infra_active (host w) cfg;
  machine_running w cfg := domain_runs (host w) (cfg_DomainName cfg);
  machine_removed w cfg := machine_left_nothing (host w) cfg;
}.

Lemma StartMachine_ok cfg w w' :
  Provider_StartMachine (W := W) cfg w = (Ok tt, w') -> domain_runs (host w') (cfg_DomainName cfg).
Proof.
  intros H. apply with_connection_ok in H as (conn & w1 & w2 & _ & _ & H & ->). go_inv1 H. go_inv1 Hm.
  destruct (lookup_ok _ _ _ _ _ _ _ (LookupDomain_law conn _) Hm) as ([s Hs] & Hn & Hh).
  go_inv1 H. apply Domain_Create_law in H. unfold domain_runs. rewrite H, Hn, Hh.
  unfold MachineConfig_domainName in *. rewrite alter_domain_lookup, Hs. by eexists.
Qed.

Lemma readonly_keeps {A} (m : M W A) : ReadOnly m -> Keeps host m.
Proof. intros Hm w. apply Hm. Qed.
Lemma GetMachineAddress_keeps cfg : Keeps host (Provider_GetMachineAddress (W := W) cfg).
Proof.
  unfold Provider_GetMachineAddress, with_connection. apply keeps_bind.
  { apply keeps_wrap, connect_keeps_host. }
  intros conn. apply readonly_keeps. unfold machineAddress. eauto 12 with readonly.
Qed.

#[local] Instance Provider_contract : ProviderContract W.
Proof.
  split; cbn [EnsureInfra GetMachineState CreateMachine StartMachine DeleteMachine GetMachineAddress
              Provider_provider infra_ready machine_running machine_removed Host_facts].
  - intros cfg w w' H. apply EnsureInfra_run in H as [-> H]. exact H.
  - intros cfg w st w' H. apply with_connection_ok in H as (conn & w1 & w2 & _ & Hh1 & H & ->).
    apply getDomainState_ok in H as [-> ->]. unfold MachineConfig_domainName, domain_runs.
    destruct (host_domains (host w1) !! cfg_DomainName cfg) as [s|].
    + rewrite !elem_of_cons. split; [destruct (domain_state s); cbn; tauto|].
      exists s. split; [done|]. by destruct (domain_state s).
    + rewrite !elem_of_cons. split; [tauto|done].
  - intros cfg w w' H. apply with_connection_ok in H as (conn & w1 & w2 & _ & _ & H & ->).
    apply createDomain_ok in H as (h1 & h2 & dp & ip & a & net & doc & Hc). unfold domain_runs.
    rewrite (created_domain _ _ _ _ _ _ _ _ _ _ Hc). eexists. split; [apply lookup_insert_eq|done].
  - exact StartMachine_ok.
  - intros cfg w w' H. apply DeleteMachine_run in H as (_ & Hdom & Hdisk & Hiso & _).
    split_and!; [done..| |].
    + intros s Hs. destruct Hdom as [Hn|[_ (s' & Hs' & _ & Hp)]]; congruence.
    + intros Hact. destruct Hdom as [|[(c & w1 & d & w2 & e & s & _ & _ & He & _) _]]; [done|]. by destruct (Hact d w2 e).
  - intros cfg cfg' w r w' H. by rewrite (keeps_run _ _ _ _ (GetMachineAddress_keeps cfg) H).
  - done.
  - done.
Qed.

Context {KL : KubeLib W} {KLaws : KubeLibLaws W} {GS : Getter W Secret}.

(** C7: a machine is ready only while its domain runs: when a reconcile of a machine
    that is not being deleted succeeds and leaves it Ready, the libvirt host has the
    machine's domain, in state running, at that moment. *)
Theorem machine_ready_on_host scope w lm res w' lm' :
  MachineController.reconcileNormal (W := W) scope (w, lm) = (Ok res, (w', lm')) ->
  Time_IsZero (meta_DeletionTimestamp (lm_ObjectMeta lm)) = true ->
  mstatus_Ready (lm_Status lm') = true ->
  domain_runs (host w') (cfg_DomainName (mscope_MachineConfig scope)).
Proof. intros H Hz Hr. exact (machine_ready_runs scope w lm res w' lm' H Hz Hr). Qed.

(** C8: a machine's finalizer is removed only when nothing of it is left on the host:
    neither volume and no persistent domain (and none at all where libvirt answers
    whether a domain is active). *)
Theorem machine_finalizer_on_host scope w lm r w' lm' :
  MachineController.reconcileDelete (W := W) scope (w, lm) = (r, (w', lm')) ->
  LibvirtMachineFinalizer ∈ meta_Finalizers (lm_ObjectMeta lm) ->
  LibvirtMachineFinalizer ∉ meta_Finalizers (lm_ObjectMeta lm') ->
  machine_left_nothing (host w') (mscope_MachineConfig scope).
Proof. intros H Hin Hnot. exact (finalizer_removed scope w lm r w' lm' H Hin Hnot). Qed.

(** C18: a cluster becomes ready only on a host whose network and both pools exist and
    are active at that moment. *)
Theorem cluster_ready_on_host l scope w lc r w' lc' :
  ClusterController.reconcileNormal (W := W) l scope (w, lc) = (r, (w', lc')) ->
  cstatus_Ready (lc_Status lc) = false -> cstatus_Ready (lc_Status lc') = true ->
  infra_active (host w') (scope_InfraConfig scope).
Proof. intros H Hf Ht. exact (cluster_ready_infra l scope w lc r w' lc' H Hf Ht). Qed.
End System.
