(* ===== verification/Footprint.v ===== *)
(** * The domains the provider leaves on the host, failed calls included

    [HostLaws] says nothing about the effect of a call that failed.  For the
    domains on the host [DefineLaws] does: libvirt has a new domain, or makes one
    persistent, only when it is given the document of one.  [World] is the host next to
    the rest of the world, with the history of the calls, on which the histories of
    [Orphans] run. *)

From stdpp Require Import base gmap propset list strings relations.
From Stdlib Require Import ZArith.
From S2P Require Import Prelude GoStrings Config LibvirtXML Builders MachineNetwork Reservation.
From S2P Require Import Libvirt Host OS CloudInit Volume Domain HostSpec Connect Infra Provider ProviderSpec.
From S2P Require Import Api Kube Credentials ProviderInterface ClusterController MachineController.
From S2P Require Import History Orphans System.

Definition persistent_domains (h : HostState) : gset string :=
  dom (filter (fun kv => domain_persistent kv.2 = true) (host_domains h)).

Lemma elem_of_persistent h n :
  n ∈ persistent_domains h <-> exists s, host_domains h !! n = Some s /\ domain_persistent s = true.
Proof.
  unfold persistent_domains. rewrite elem_of_dom. unfold is_Some. setoid_rewrite map_lookup_filter_Some. done.
Qed.

Definition domain_names (h : HostState) : gset string := dom (host_domains h).

(** From [h] to [h'] no domain with a name outside [S] was made, or made persistent. *)
Definition defines_only (S : gset string) (h h' : HostState) : Prop :=
  domain_names h' ⊆ S ∪ domain_names h /\ persistent_domains h' ⊆ S ∪ persistent_domains h.
#[export] Instance defines_only_pre S : PreOrder (defines_only S).
Proof. split; [intros h; split; set_solver|]. intros h1 h2 h3 [] []. split; set_solver. Qed.
Lemma defines_only_weaken S h h' : defines_only ∅ h h' -> defines_only S h h'.
Proof. intros []. split; set_solver. Qed.

(** [m] defines no domain with a name outside [S], whatever it returns. *)
Definition Defines {W A} `{HostView W} (S : gset string) (m : M W A) : Prop :=
  forall w, defines_only S (host w) (host (m w).2).

Class DefineLaws (W : Type) `{LX : LibvirtXML} `{L : !Libvirt W} `{HV : !HostView W} : Prop := {
  Update_defines n cmd sec i xml f : Defines ∅ (Update (N := virNetwork) n cmd sec i xml f);
  VolCreate_defines p xml f : Defines ∅ (StorageVolCreateXML p xml f);
  VolDelete_defines v f : Defines ∅ (StorageVol_Delete v f);
  Upload_defines v s o n f : Defines ∅ (StorageVol_Upload v s o n f);
  SendAll_defines s h r : Defines ∅ (Stream_SendAll s h r);
  Abort_defines s w : defines_only ∅ (host w) (host (Stream_Abort s w));
  Finish_defines s : Defines ∅ (Stream_Finish s);
  Define_defines c doc xml :
    Domain_Marshal doc = Ok xml -> Defines {[ dom_Name doc ]} (DomainDefineXML c xml);
  SetAutostart_defines d b : Defines ∅ (Domain_SetAutostart d b);
  Domain_Create_defines d : Defines ∅ (Domain_Create d);
  Domain_Destroy_defines d : Defines ∅ (Domain_Destroy d);
  Domain_Undefine_defines d : Defines ∅ (Domain_Undefine d);
}.

Section Defines.
Context {W : Type} `{HostView W}.
Lemma defines_weaken {A} S (m : M W A) : Defines ∅ m -> Defines S m.
Proof. intros Hm w. by apply defines_only_weaken. Qed.
Lemma defines_keeps {A} S (m : M W A) : Keeps host m -> Defines S m.
Proof. intros Hm w. by rewrite (Hm w). Qed.
Lemma defines_readonly {A} S (m : M W A) : ReadOnly m -> Defines S m.
Proof. intros Hm. apply defines_keeps. intros w. apply Hm. Qed.
Lemma defines_bind {A B} S (m : M W A) (f : A -> M W B) :
  Defines S m -> (forall a, Defines S (f a)) -> Defines S (m ≫= f).
Proof.
  intros Hm Hf w. specialize (Hm w). unfold mbind, M_bind. destruct (m w) as [[a|e|] w1]; [|done..].
  etransitivity; [exact Hm|]. apply Hf.
Qed.
(** The same when what [m] returns matters. *)
Lemma defines_lift {A B} S g (r : result A) (f : A -> M W B) :
  (forall a, r = Ok a -> Defines S (f a)) -> Defines S (wrap_err g (lift r) ≫= f).
Proof.
  intros Hf w. unfold mbind, M_bind, wrap_err, lift. destruct r as [a|e|]; cbn; [by apply Hf|done..].
Qed.
Lemma defines_ret {A} S (a : A) : Defines (W := W) S (mret a).
Proof. by apply defines_keeps. Qed.
Lemma defines_fail {A} S e : Defines (W := W) S (fail (A := A) e).
Proof. by apply defines_keeps. Qed.
Lemma defines_lift_ret {A} S (r : result A) : Defines (W := W) S (lift r).
Proof. by apply defines_keeps. Qed.
Lemma defines_wrap {A} S g (m : M W A) : Defines S m -> Defines S (wrap_err g m).
Proof. intros Hm w. specialize (Hm w). unfold wrap_err. by destruct (m w). Qed.
Lemma defines_try {A} S (m : M W A) : Defines S m -> Defines S (try m).
Proof. intros Hm w. specialize (Hm w). unfold try. by destruct (m w) as [[] ?]. Qed.
Lemma defines_defer {A} S f (m : M W A) :
  (forall w, host (f w) = host w) -> Defines S m -> Defines S (defer f m).
Proof.
  intros Hf Hm w. specialize (Hm w). unfold defer. destruct (m w) as [[a|e|] w1]; cbn in *; by rewrite ?Hf.
Qed.
End Defines.

Create HintDb defines.
#[export] Hint Resolve defines_ret defines_fail defines_lift_ret defines_wrap defines_try defines_defer : defines.
#[export] Hint Extern 4 (Defines _ (_ ≫= _)) => apply defines_bind; [|intros ?] : defines.
#[export] Hint Extern 5 (Defines _ (match ?x with _ => _ end)) => destruct x : defines.

(** ** The operations of the provider *)

Section Provider.
Context {W : Type} {LX : LibvirtXML} {L : Libvirt W} {HV : HostView W} {HL : HostLaws W} {DL : DefineLaws W}.
Context {CI : CloudInitLib W} {O : OS W}.
Context {FK : FilesKeep (W := W) host} {DK : DisksKeep (W := W) host}.
#[local] Existing Instance Provider_provider.

(** A libvirt call: one that reads, or one of [DefineLaws]. *)
Local Ltac defines_law :=
  first
    [ apply defines_weaken;
      first [ apply Update_defines | apply VolCreate_defines | apply VolDelete_defines | apply Upload_defines
            | apply SendAll_defines | apply Finish_defines | apply SetAutostart_defines
            | apply Domain_Create_defines | apply Domain_Destroy_defines | apply Domain_Undefine_defines ]
    | apply defines_readonly; solve [eauto 4 with readonly]
    | apply defines_keeps, writeCloudInitISO_keeps; apply _
    | apply defines_keeps, connect_keeps_host
    | apply defines_keeps; intros w; apply NewStream_readonly ].
#[local] Hint Extern 2 (Defines _ _) => solve [defines_law] : defines.
Local Ltac free_law :=
  intros ?; first [ apply Stream_Free_host | apply Close_invisible | apply Network_Free_invisible
                  | apply Pool_Free_invisible | apply Vol_Free_invisible | apply Domain_Free_invisible ].
#[local] Hint Extern 2 (forall w, host _ = host _) => free_law : defines.

Lemma with_connection_defines {A} S cfg (body : Connect -> M W A) :
  (forall conn, Defines S (body conn)) -> Defines S (with_connection cfg body).
Proof. intros Hb. unfold with_connection. auto 8 with defines. Qed.

Lemma abort_upload_defines S s e : Defines (W := W) S (abort_upload s e).
Proof. intros w. apply defines_only_weaken, Abort_defines. Qed.
#[local] Hint Resolve abort_upload_defines : defines.

Lemma createRootDisk_defines S base pool cfg : Defines (W := W) S (createRootDisk base pool cfg).
Proof. unfold createRootDisk, getVolumePath, createVolume. auto 20 with defines. Qed.
Lemma createISODisk_defines S conn pool cfg : Defines (W := W) S (createISODisk conn pool cfg).
Proof. unfold createISODisk, getVolumePath, createVolume, storageVolUpload. auto 20 with defines. Qed.
Lemma deleteVolume_defines S conn pool name : Defines (W := W) S (deleteVolume conn pool name).
Proof. unfold deleteVolume. auto 20 with defines. Qed.
Lemma deleteDomain_defines S conn name : Defines (W := W) S (deleteDomain conn name).
Proof. unfold deleteDomain. auto 20 with defines. Qed.
Lemma reserveMachineIP_defines S n net name mac : Defines (W := W) S (reserveMachineIP (N := virNetwork) n net name mac).
Proof. unfold reserveMachineIP, networkXML. auto 20 with defines. Qed.
Lemma releaseMachineIP_defines S n net name mac : Defines (W := W) S (releaseMachineIP (N := virNetwork) n net name mac).
Proof. unfold releaseMachineIP, networkXML. auto 20 with defines. Qed.
#[local] Hint Resolve createRootDisk_defines createISODisk_defines deleteVolume_defines deleteDomain_defines
  reserveMachineIP_defines releaseMachineIP_defines : defines.

Lemma createDomain_defines conn cfg : Defines (W := W) {[ cfg_DomainName cfg ]} (createDomain conn cfg).
Proof.
  unfold createDomain. do 2 (apply defines_bind; [auto with defines|intros ?]; apply defines_defer; [auto with defines|]).
  do 3 (apply defines_bind; [auto with defines|intros ?]). apply defines_defer; [auto with defines|].
  apply defines_bind; [auto with defines|intros ip]. apply defines_lift. intros xml Hxml.
  apply defines_bind; [apply defines_wrap; exact (Define_defines _ _ _ Hxml)|intros d]. auto 8 with defines.
Qed.

(** What each operation defines. *)
Lemma EnsureInfra_defines cfg : Defines (W := W) ∅ (Provider_EnsureInfra cfg).
Proof.
  apply with_connection_defines. intros conn.
  apply defines_readonly, readonly_bind; [apply ensureNetwork_readonly|intros _].
  apply readonly_bind; [apply ensureBasePool_readonly|intros _]. apply ensureDomainPool_readonly.
Qed.
Lemma GetMachineState_defines cfg : Defines (W := W) ∅ (Provider_GetMachineState cfg).
Proof. apply with_connection_defines. intros conn. unfold getDomainState. auto 12 with defines. Qed.
Lemma CreateMachine_defines cfg : Defines (W := W) {[ cfg_DomainName cfg ]} (Provider_CreateMachine cfg).
Proof. apply with_connection_defines. intros conn. apply createDomain_defines. Qed.
Lemma StartMachine_defines cfg : Defines (W := W) ∅ (Provider_StartMachine cfg).
Proof. apply with_connection_defines. intros conn. auto 12 with defines. Qed.
Lemma DeleteMachine_defines cfg : Defines (W := W) ∅ (Provider_DeleteMachine cfg).
Proof. apply with_connection_defines. intros conn. unfold releaseMachineReservation. auto 12 with defines. Qed.
Lemma GetMachineAddress_defines cfg : Defines (W := W) ∅ (Provider_GetMachineAddress cfg).
Proof. apply defines_keeps, GetMachineAddress_keeps. Qed.
Lemma DeleteMachine_undefines cfg w w' :
  Provider_DeleteMachine (W := W) cfg w = (Ok tt, w') -> cfg_DomainName cfg ∉ persistent_domains (host w').
Proof.
  intros Hd. apply DeleteMachine_run in Hd as (_ & Hdom & _). rewrite elem_of_persistent. intros (s & Hs & Hp).
  destruct Hdom as [Hn|[_ (s' & Hs' & _ & Hp')]]; congruence.
Qed.
End Provider.

(** ** The provider next to the rest of the world

    The libvirt host is the first component of a world; the second is anything
    else, the API server for one. *)
Section Beside.
Context {W A X K : Type} {P : provider W} {obs : W -> X} {I : Inventory X K} {spared : MachineConfig -> W -> propset K}.
Definition beside_provider : provider (W * A) := {|
  EnsureInfra cfg := call (EnsureInfra cfg);
  GetMachineState cfg := call (GetMachineState cfg);
  CreateMachine cfg := call (CreateMachine cfg);
  StartMachine cfg := call (StartMachine cfg);
  DeleteMachine cfg := call (DeleteMachine cfg);
  GetMachineAddress cfg := call (GetMachineAddress cfg);
|}.

Lemma call_world {B} (m : M W B) (s : W * A) : (call m s).2.1 = (m s.1).2 /\ (call m s).1 = (m s.1).1.
Proof. unfold call. by destruct (m s.1). Qed.
Lemma beside_footprint :
  Footprint obs I spared ->
  Footprint (provider0 := beside_provider) (fun s : W * A => obs s.1) I (fun cfg s => spared cfg s.1).
Proof.
  intros FP. split; cbn.
  all: try (intros cfg s; rewrite (proj1 (call_world _ s)); apply FP).
  intros cfg s s' Hs Hd. destruct (call_world (DeleteMachine cfg) s) as [Hw Hr]. rewrite Hd in Hw, Hr. cbn in Hw, Hr.
  rewrite Hw. apply (DeleteMachine_frees (obs := obs) (I := I) (spared := spared) cfg s.1 _ Hs).
  rewrite (surjective_pairing (DeleteMachine cfg s.1)). f_equal. by symmetry.
Qed.

Lemma record_world {B} c (m : M W B) (s : Traced W) : (record c m s).2.1 = (m s.1).2 /\ (record c m s).1 = (m s.1).1.
Proof. unfold record. by destruct (m s.1). Qed.
Lemma Traced_footprint :
  Footprint obs I spared -> Footprint (fun s : Traced W => obs s.1) I (fun cfg s => spared cfg s.1).
Proof.
  intros FP. split; cbn.
  all: try (intros cfg s; rewrite (proj1 (record_world _ _ s)); apply FP).
  intros cfg s s' Hs Hd. destruct (record_world (CallDeleteMachine cfg) (DeleteMachine cfg) s) as [Hw Hr].
  rewrite Hd in Hw, Hr. cbn in Hw, Hr. rewrite Hw. apply (DeleteMachine_frees (obs := obs) (I := I) (spared := spared) cfg s.1 _ Hs).
  rewrite (surjective_pairing (DeleteMachine cfg s.1)). f_equal. by symmetry.
Qed.
End Beside.

(** ** Histories on a libvirt host *)

Section Histories.
Context {H A : Type} {LX : LibvirtXML} {L : Libvirt H} {HV : HostView H} {HL : HostLaws H}.
Context {CI : CloudInitLib H} {O : OS H}.

(** A host, the state of the API server, and the history of the provider's calls. *)
Definition World : Type := Traced (H * A).
#[local] Instance World_provider : provider World := Traced_provider (H := beside_provider (P := Provider_provider)).

Lemma World_footprint {K} (I : Inventory HostState K) (spared : MachineConfig -> H -> propset K) :
  Footprint (provider0 := Provider_provider) (host (W := H)) I spared ->
  Footprint (fun w : World => host w.1.1) I (fun cfg w => spared cfg w.1.1).
Proof.
  intros FP. apply (Traced_footprint (P := beside_provider) (obs := fun s : H * A => host s.1)
                      (spared := fun cfg s => spared cfg s.1)).
  exact (beside_footprint (obs := host) FP).
Qed.
End Histories.
Arguments World : clear implicits.
