(* ===== verification/Interference.v ===== *)
(** * A reconciliation touches one machine

    The controllers on top of Isolation: a run of [Reconcile], failed calls and all,
    changes on the host nothing that belongs to a machine with another domain name
    and another MAC.  [KeepsOthers] is what this takes of a provider. *)

From stdpp Require Import base gmap list strings.
From Stdlib Require Import ZArith.
From S2P Require Import Prelude GoStrings Config LibvirtXML Builders MachineNetwork Reservation.
From S2P Require Import Libvirt Host OS CloudInit Volume Domain HostSpec Connect Infra Provider ProviderSpec Isolation.
From S2P Require Import Api Kube Credentials ProviderInterface ClusterController MachineController.
From S2P Require Import History Orphans System Footprint.

(** The calls that only read keep [obs], and so do the others when they are for a
    domain unrelated to [n]. *)
Class KeepsOthers {W X} `{!provider W} (n : string) (obs : W -> X) : Prop := {
  EnsureInfra_others cfg : Keeps obs (EnsureInfra cfg);
  GetMachineState_others cfg : Keeps obs (GetMachineState cfg);
  GetMachineAddress_others cfg : Keeps obs (GetMachineAddress cfg);
  CreateMachine_others cfg : unrelated (cfg_DomainName cfg) n -> Keeps obs (CreateMachine cfg);
  StartMachine_others cfg : unrelated (cfg_DomainName cfg) n -> Keeps obs (StartMachine cfg);
  DeleteMachine_others cfg : unrelated (cfg_DomainName cfg) n -> Keeps obs (DeleteMachine cfg);
}.

(** ** The controllers *)

Section Controllers.
Context {W : Type} {KL : KubeLib W} {P : provider W}.
Context {GC : Getter W LibvirtCluster} {GM : Getter W LibvirtMachine} {GS : Getter W Secret}.
Context {CU : ClusterAPIUtil W} {PM : Patcher W LibvirtMachine} {PCl : Patcher W LibvirtCluster}.
Context {AV : ApiView (W := W)} {PT : ProviderTrace W} {ALaws : ApiLaws (W := W)}.
Context {X : Type} (n : string) (obs : W -> X) {RK : ReadsKeep obs} {KO : KeepsOthers n obs}.
Context (Patch_machine_obs : forall h o, Keeps obs (Patch (T := LibvirtMachine) h o)).

Local Ltac others_law :=
  first [ apply (EnsureInfra_others (n := n)) | apply (GetMachineState_others (n := n)) | apply (GetMachineAddress_others (n := n))
        | apply (CreateMachine_others (n := n)); assumption | apply (StartMachine_others (n := n)); assumption
        | apply (DeleteMachine_others (n := n)); assumption ].
#[local] Hint Extern 1 (Keeps _ _) => solve [others_law] : keeps.
#[local] Hint Extern 1 (Keeps _ (Load _ _)) => apply Load_keeps; apply _ : keeps.

Lemma reconcileNormal_others scope :
  unrelated (cfg_DomainName (mscope_MachineConfig scope)) n ->
  Keeps (fun s => obs s.1) (MachineController.reconcileNormal (W := W) scope).
Proof.
  intros Hu. assert (forall m, Keeps obs (getCloudInitData scope m)) as Hdata.
  { intros m. unfold getCloudInitData. auto 8 with keeps. }
  unfold MachineController.reconcileNormal, reconcileLostDomain, createMissingDomain, startStoppedDomain,
    observeRunningDomain, observeMachineAddress.
  auto 30 with keeps.
Qed.
Lemma reconcileDelete_others scope :
  unrelated (cfg_DomainName (mscope_MachineConfig scope)) n ->
  Keeps (fun s => obs s.1) (MachineController.reconcileDelete (W := W) scope).
Proof.
  intros Hu. unfold MachineController.reconcileDelete. do 2 (apply keeps_bind; [auto with keeps|intros ?]).
  destruct (RemoveFinalizer _ _). auto 8 with keeps.
Qed.

Lemma reconcileOwned_others l lm :
  unrelated (domainName lm) n -> Keeps (fun s => obs s.1) (reconcileOwned (W := W) l lm).
Proof.
  intros Hu. unfold reconcileOwned. apply keeps_bind; [auto with keeps|intros [machine|]]; [|auto with keeps].
  apply keeps_bind; [auto with keeps|intros [cluster|]]; [|auto with keeps].
  do 2 (apply keeps_bind; [auto with keeps|intros ?]). destruct (Time_IsZero _); cbn [negb].
  - by apply reconcileNormal_others.
  - by apply reconcileDelete_others.
Qed.

Lemma machine_Reconcile_others l k w :
  (forall lm, stored_machines w !! k = Some lm -> unrelated (domainName lm) n) ->
  obs (MachineController.Reconcile (W := W) l k w).2 = obs w.
Proof.
  intros Hu. unfold MachineController.Reconcile. unfold mbind at 1, M_bind at 1, try at 1.
  pose proof (Get_machine_keeps (obs := obs) k w) as Hg.
  destruct (Get k w) as [[lm|e|] w1] eqn:Hget; cbn [snd] in Hg; [| |done].
  - apply Get_machine_stored in Hget. rewrite <- Hg. revert w1 Hg. intros w1 _.
    match goal with |- obs (?m w1).2 = obs w1 => change (obs (m w1).2 = obs w1); enough (Keeps obs m) as Hk by apply Hk end.
    apply keeps_bind; [auto with keeps|intros h].
    apply deferred_patch_keeps; [done|]. apply reconcileOwned_others. by apply Hu.
  - destruct (apierrors_IsNotFound e); exact Hg.
Qed.

Lemma cluster_Reconcile_others l k : Keeps obs (ClusterController.Reconcile (W := W) l k).
Proof.
  unfold ClusterController.Reconcile. apply keeps_bind; [auto with keeps|intros [e|lc]]; [auto with keeps|].
  do 2 (apply keeps_bind; [auto with keeps|intros ?]). apply deferred_patch_keeps; [apply Patch_cluster_keeps|].
  destruct a as [c|]; [|auto with keeps]. destruct (Time_IsZero _); cbn [negb].
  - unfold ClusterController.reconcileNormal. auto 30 with keeps.
  - unfold ClusterController.reconcileDelete. apply keeps_bind; [auto with keeps|intros ?].
    destruct (RemoveFinalizer _ _). auto 8 with keeps.
Qed.
End Controllers.

(** ** The libvirt provider keeps others *)

Section Provider.
Context {W : Type} {LX : LibvirtXML} {L : Libvirt W} {HV : HostView W} {HL : HostLaws W} {CF : CallFootprint W}.
Context {CI : CloudInitLib W} {O : OS W}.
Context {FK : FilesKeep (W := W) host} {DK : DisksKeep (W := W) host}.
#[local] Existing Instance Provider_provider.

Lemma within_keeps_other {A} cfg other (m : M W A) Q :
  Within (isolated cfg) m Q -> unrelated (cfg_DomainName cfg) (cfg_DomainName other) ->
  Keeps (fun w => machine_on_host other (host w)) m.
Proof. intros Hm Hu w. eapply isolated_other; [exact Hu|]. apply Hm. Qed.
Lemma keeps_host_other {A} other (m : M W A) : Keeps host m -> Keeps (fun w => machine_on_host other (host w)) m.
Proof. intros Hm w. by rewrite (Hm w). Qed.

Lemma GetMachineState_keeps_host cfg : Keeps host (Provider_GetMachineState (W := W) cfg).
Proof.
  unfold Provider_GetMachineState, with_connection. apply keeps_bind; [apply keeps_wrap, connect_keeps_host|].
  intros conn. apply readonly_keeps, readonly_defer; [eauto with readonly|]. unfold getDomainState.
  apply readonly_bind; [eauto with readonly|]. intros [e|d]; [destruct (isLibvirtErr e _)|]; eauto 8 with readonly.
Qed.

Lemma Provider_others other :
  KeepsOthers (W := W) (cfg_DomainName other) (fun w => machine_on_host other (host w)).
Proof.
  split; cbn; intros cfg.
  - apply keeps_host_other. intros w. destruct (Provider_EnsureInfra cfg w) as [r w'] eqn:E.
    by apply EnsureInfra_run in E as [? _].
  - apply keeps_host_other, GetMachineState_keeps_host.
  - apply keeps_host_other, GetMachineAddress_keeps.
  - intros Hu. eapply within_keeps_other, Hu. apply CreateMachine_isolated.
  - intros Hu. eapply within_keeps_other, Hu. apply StartMachine_isolated.
  - intros Hu. eapply within_keeps_other, Hu. apply DeleteMachine_isolated.
Qed.
End Provider.

(** The same next to the rest of the world, and with the history of calls. *)
Section Beside.
Context {W A X : Type} {P : provider W} (n : string) (obs : W -> X).
Lemma beside_others : KeepsOthers n obs -> KeepsOthers (provider0 := beside_provider (A := A)) n (fun s => obs s.1).
Proof.
  intros KO. split; cbn; intros; refine (keeps_call (obs := obs) _ _); by apply KO.
Qed.
Lemma record_keeps {B} c (m : M W B) : Keeps obs m -> Keeps (fun s : Traced W => obs s.1) (record c m).
Proof. intros Hm [w t]. specialize (Hm w). unfold record. cbn. by destruct (m w). Qed.
Lemma Traced_others : KeepsOthers n obs -> KeepsOthers (provider0 := Traced_provider) n (fun s : Traced W => obs s.1).
Proof. intros KO. split; cbn; intros; apply record_keeps; by apply KO. Qed.
End Beside.

(** ** Runs on a libvirt host *)

Section World.
Context {H A : Type} {LX : LibvirtXML} {L : Libvirt H} {HV : HostView H} {HL : HostLaws H} {CF : CallFootprint H}.
Context {CI : CloudInitLib H} {O : OS H}.
Context {FK : FilesKeep (W := H) host} {DK : DisksKeep (W := H) host}.
#[local] Existing Instance World_provider.
Context {KL : KubeLib (World H A)} {GC : Getter (World H A) LibvirtCluster} {GM : Getter (World H A) LibvirtMachine}.
Context {GS : Getter (World H A) Secret} {CU : ClusterAPIUtil (World H A)}.
Context {PM : Patcher (World H A) LibvirtMachine} {PCl : Patcher (World H A) LibvirtCluster}.
Context {AV : ApiView (W := World H A)} {ALaws : ApiLaws (W := World H A)}.
(** The API server is not the libvirt host. *)
Context {RK : ReadsKeep (W := World H A) (fun w => host w.1.1)}.
Context (Patch_machine_host : forall h o, Keeps (fun w : World H A => host w.1.1) (Patch (T := LibvirtMachine) h o)).

Lemma keeps_on_host {B} other (m : M (World H A) B) :
  Keeps (fun w => host w.1.1) m -> Keeps (fun w => machine_on_host other (host w.1.1)) m.
Proof. intros Hm w. exact (f_equal (machine_on_host other) (Hm w)). Qed.
#[local] Instance World_reads_other other : ReadsKeep (W := World H A) (fun w => machine_on_host other (host w.1.1)).
Proof. split; intros; apply keeps_on_host, RK. Qed.
#[local] Instance World_others other :
  KeepsOthers (W := World H A) (cfg_DomainName other) (fun w => machine_on_host other (host w.1.1)).
Proof.
  apply (Traced_others (P := beside_provider (P := Provider_provider)) _ (fun s : H * A => machine_on_host other (host s.1))).
  apply (beside_others (P := Provider_provider) _ (fun w : H => machine_on_host other (host w))), Provider_others.
Qed.

(** C14: a run of either controller, whatever fails in it, leaves alone all that
    another machine has on the host (its domain, its disks, its reservation and the
    state of its network): the cluster controller always, the machine controller
    when the LibvirtMachine it is run for, if there is one, has another domain name
    and another MAC. *)
Theorem reconcile_isolated l k other (w : World H A) :
  machine_on_host other (host (ClusterController.Reconcile l k w).2.1.1) = machine_on_host other (host w.1.1) /\
  ((forall lm, stored_machines w !! k = Some lm -> unrelated (domainName lm) (cfg_DomainName other)) ->
   machine_on_host other (host (MachineController.Reconcile l k w).2.1.1) = machine_on_host other (host w.1.1)).
Proof.
  split.
  - apply (cluster_Reconcile_others (cfg_DomainName other) (fun w : World H A => machine_on_host other (host w.1.1))).
  - intros Hu. apply (machine_Reconcile_others (cfg_DomainName other)
      (fun w : World H A => machine_on_host other (host w.1.1))); [|done].
    intros h o. apply keeps_on_host, Patch_machine_host.
Qed.
End World.
