(* ===== verification/Addresses.v ===== *)
(** * No address is reserved twice

    An invariant of the host over whole histories: no network binds one address to
    two MACs.  [UpdateAtomic] is what this takes of libvirt beyond [HostLaws] and
    [CallFootprint]: an update of the DHCP hosts is applied as documented or not at
    all, whatever the call reports. *)

From stdpp Require Import base gmap list strings relations.
From Stdlib Require Import ZArith.
From S2P Require Import Prelude GoStrings Config LibvirtXML Builders MachineNetwork Reservation.
From S2P Require Import Libvirt Host OS CloudInit Volume Domain HostSpec Connect Infra Provider ProviderSpec Isolation.
From S2P Require Import Api Kube Credentials ProviderInterface ClusterController MachineController.
From S2P Require Import History Maintains Interleaving Orphans System Footprint Interference.

Class UpdateAtomic (W : Type) `{LX : LibvirtXML} `{L : !Libvirt W} `{HV : !HostView W} : Prop :=
  Update_atomic n cmd e xml w :
    NetworkDHCPHost_Marshal e = Ok xml ->
    let w' := (Update (N := virNetwork) n cmd NETWORK_SECTION_IP_DHCP_HOST 0 xml 0 w).2 in
    host w' = host w \/
    exists doc, update_network cmd e (net_view w n) = Some doc /\
      host w' = set_network_doc (net_name n) doc (host w).

(** ** Invariants of the DHCP entries of a network *)

(** [P] holds of the entries of every network. *)
Definition entries_hold (P : list NetworkDHCPHost -> Prop) (h : HostState) : Prop :=
  forall n s, host_networks h !! n = Some s -> P (all_hosts (network_doc s)).
Definition keeps_entries (P : list NetworkDHCPHost -> Prop) (h h' : HostState) : Prop :=
  entries_hold P h -> entries_hold P h'.

(** A reservation keeps [P], and so does the deletion of an entry. *)
Class EntryInvariant `{LX : LibvirtXML} (P : list NetworkDHCPHost -> Prop) : Prop := {
  reserve_invariant d mac ip net net' :
    P (all_hosts net) -> reserve_step d mac ip net net' -> P (all_hosts net');
  delete_invariant l x k : P (l ++ x :: k) -> P (l ++ k);
}.

#[export] Instance keeps_entries_pre P : PreOrder (keeps_entries P).
Proof. split; [by intros h Hu|]. intros h1 h2 h3 H1 H2 Hu. by apply H2, H1. Qed.
#[export] Instance keeps_entries_domains P cfg : DomainRel cfg (keeps_entries P).
Proof. split; [apply _|]. intros h h' (_ & Hn & _) Hu. unfold entries_hold. by rewrite Hn. Qed.
#[export] Instance keeps_entries_volumes P cfg : VolumeRel cfg (keeps_entries P).
Proof. intros id h h' _ (Hn & _) Hu. unfold entries_hold. by rewrite Hn. Qed.

Lemma delete_entry e net net' :
  update_network NETWORK_UPDATE_COMMAND_DELETE e net = Some net' ->
  exists l x k, all_hosts net = l ++ x :: k /\ all_hosts net' = l ++ k.
Proof.
  intros Hu. apply update_network_hosts in Hu as (l & l' & rest & Hu & -> & ->).
  apply remove_first_spec in Hu as (l1 & y & l2 & -> & -> & _). exists l1, y, (l2 ++ rest).
  by rewrite <- !app_assoc.
Qed.
Lemma entries_hold_doc P name doc h :
  entries_hold P h ->
  (forall s, host_networks h !! name = Some s -> P (all_hosts doc)) ->
  entries_hold P (set_network_doc name doc h).
Proof.
  intros Hu Hd m s. unfold set_network_doc. cbn. destruct (decide (m = name)) as [->|Hm].
  - rewrite lookup_alter_eq. destruct (host_networks h !! name) as [s0|]; [|done]. intros [= <-]. by eapply Hd.
  - rewrite lookup_alter_ne by done. apply Hu.
Qed.

(** ** The provider *)

Section Provider.
Context {W : Type} {LX : LibvirtXML} {L : Libvirt W} {HV : HostView W} {HL : HostLaws W}.
Context {CF : CallFootprint W} {UA : UpdateAtomic W} {CI : CloudInitLib W} {O : OS W}.
Context {FK : FilesKeep (W := W) host} {DK : DisksKeep (W := W) host}.

(** [networkXML] and what follows it, which sees the configuration it read. *)
Lemma networkXML_then {A} (R : relation HostState) {PR : PreOrder R} (n : virNetwork) (f : Network -> M W A) :
  (forall net w, net = net_view w n -> R (host w) (host (f net w).2)) ->
  Within R (networkXML n ≫= f) (fun _ => True).
Proof.
  intros Hf w. split; [|done]. unfold mbind, M_bind. destruct (networkXML n w) as [[net|e|] w1] eqn:Hx;
    pose proof (networkXML_host _ _ _ _ Hx) as Hh; cbn; rewrite <- Hh; [|done..].
  apply networkXML_ok in Hx as [-> Hv]. apply Hf. by rewrite Hv.
Qed.

(** A release, in terms of the update it makes. *)
Lemma releaseMachineIP_then (R : relation HostState) {PR : PreOrder R} (n : virNetwork) nm d mac :
  (forall e xml w, NetworkDHCPHost_Marshal e = Ok xml ->
     R (host w) (host (Update n NETWORK_UPDATE_COMMAND_DELETE NETWORK_SECTION_IP_DHCP_HOST 0 xml 0 w).2)) ->
  Within (W := W) R (releaseMachineIP n nm d mac) (fun _ => True).
Proof.
  intros Hk. apply networkXML_then; [done|]. intros net w Hnet. destruct (hostEntryInNetwork net mac) as [x|]; [|done].
  unfold mbind, M_bind, lift, machineHostXML. destruct (NetworkDHCPHost_Marshal _) as [xml|e|] eqn:Hx; cbn; [|done..].
  unfold wrap_err. specialize (Hk _ xml w Hx). by destruct (Update _ _ _ _ _ _ w) as [[[]|e|] w1].
Qed.

Context (P : list NetworkDHCPHost -> Prop) {EI : EntryInvariant P}.

(** An update of a network whose result has [P], if the network had. *)
Lemma Update_invariant (n : virNetwork) cmd e xml net :
  NetworkDHCPHost_Marshal e = Ok xml ->
  (forall doc, P (all_hosts net) -> update_network cmd e net = Some doc -> P (all_hosts doc)) ->
  forall w, net = net_view w n ->
  keeps_entries P (host w) (host (Update n cmd NETWORK_SECTION_IP_DHCP_HOST 0 xml 0 w).2).
Proof.
  intros Hx Hstep w -> Hu. destruct (Update_atomic n cmd e xml w Hx) as [->|(doc & Hdoc & ->)]; [done|].
  apply entries_hold_doc; [done|]. intros s Hs. apply (Hstep doc); [|done]. rewrite (host_net_view w n s Hs).
  by eapply Hu.
Qed.

Lemma reserveMachineIP_invariant (n : virNetwork) nm d mac :
  Within (W := W) (keeps_entries P) (reserveMachineIP n nm d mac) (fun _ => True).
Proof.
  apply networkXML_then; [apply _|]. intros net w Hnet. unfold mbind, M_bind, lift.
  destruct (planHostUpdate net d mac) as [p|e|] eqn:Hp; [|done..].
  destruct (plan_doUpdate p) eqn:Hdo; cbn [negb]; [|done].
  pose proof (planHostUpdate_inv _ _ _ _ Hp) as (cs & c & _ & _ & _ & _ & _ & Hx). rewrite Hdo in Hx.
  destruct Hx as [Hx _].
  assert (keeps_entries P (host w) (host (Update n (plan_cmd p) NETWORK_SECTION_IP_DHCP_HOST 0 (plan_xml p) 0 w).2)) as Hk.
  { eapply Update_invariant; [exact Hx| |exact Hnet]. intros doc Hu Hd. eapply reserve_invariant; [exact Hu|].
    exists p. by rewrite Hdo. }
  unfold wrap_err. by destruct (Update _ _ _ _ _ _ w) as [[[]|e|] w1].
Qed.

Lemma releaseMachineIP_invariant (n : virNetwork) nm d mac :
  Within (W := W) (keeps_entries P) (releaseMachineIP n nm d mac) (fun _ => True).
Proof.
  apply releaseMachineIP_then; [apply _|]. intros e xml w Hx. eapply Update_invariant; [exact Hx| |done].
  intros doc Hu (l & x & k & Hl & ->)%delete_entry. rewrite Hl in Hu. by eapply delete_invariant.
Qed.

Lemma CreateMachine_invariant cfg : Within (W := W) (keeps_entries P) (Provider_CreateMachine cfg) (fun _ => True).
Proof. apply (CreateMachine_within cfg (keeps_entries P)). intros n nm _. apply reserveMachineIP_invariant. Qed.
Lemma StartMachine_invariant cfg : Within (W := W) (keeps_entries P) (Provider_StartMachine cfg) (fun _ => True).
Proof. apply (StartMachine_within cfg (keeps_entries P)). Qed.
Lemma DeleteMachine_invariant cfg : Within (W := W) (keeps_entries P) (Provider_DeleteMachine cfg) (fun _ => True).
Proof.
  apply (DeleteMachine_within cfg (keeps_entries P)); [apply volumes_removes, _|].
  intros n nm _. apply releaseMachineIP_invariant.
Qed.
End Provider.

(** ** Addresses *)

Definition addresses_unique (h : HostState) : Prop := entries_hold ips_unique h.
Definition keeps_unique (h h' : HostState) : Prop := keeps_entries ips_unique h h'.

#[export] Instance ips_invariant {LX : LibvirtXML} : EntryInvariant ips_unique.
Proof.
  split.
  - intros d mac ip net net' Hu Hr. by destruct (reserve_effect _ _ _ _ _ Hu Hr) as (_ & _ & ? & _).
  - intros l x k Hu h1 h2. rewrite !elem_of_app. intros H1 H2. apply Hu; rewrite elem_of_app, elem_of_cons; tauto.
Qed.

(** ** Histories on a libvirt host *)

Section World.
Context {H A : Type} {LX : LibvirtXML} {L : Libvirt H} {HV : HostView H} {HL : HostLaws H}.
Context {CF : CallFootprint H} {UA : UpdateAtomic H} {CI : CloudInitLib H} {O : OS H}.
Context {FK : FilesKeep (W := H) host} {DK : DisksKeep (W := H) host}.
#[local] Existing Instance World_provider.
Context {KL : KubeLib (World H A)} {GC : Getter (World H A) LibvirtCluster} {GM : Getter (World H A) LibvirtMachine}.
Context {GS : Getter (World H A) Secret} {CU : ClusterAPIUtil (World H A)}.
Context {PM : Patcher (World H A) LibvirtMachine} {PCl : Patcher (World H A) LibvirtCluster}.
(** The API server is not the libvirt host. *)
Context {AV : ApiView (W := World H A)} {RK : ReadsKeep (W := World H A) (fun w => host w.1.1)}.
Context (Patch_machine_host : forall h o, Keeps (fun w : World H A => host w.1.1) (Patch (T := LibvirtMachine) h o)).

(** The host of a later world has unique addresses if that of an earlier one had. *)
Definition stays_unique (w w' : World H A) : Prop := keeps_unique (host w.1.1) (host w'.1.1).

#[local] Instance stays_unique_pre : PreOrder stays_unique.
Proof. split; [by intros w Hu|]. intros w1 w2 w3 H1 H2 Hu. by apply H2, H1. Qed.

(** A call of the libvirt provider, made in the world, and one of the API server. *)
Lemma world_maintains {B} u c (m : M H B) :
  Within (keeps_entries ips_unique) m (fun _ => True) -> Maintains (stays_unique u) (record c (call (T := A) m)).
Proof.
  intros Hm [[h a] t] Hw Hu. destruct (Hm h) as [Hk _]. specialize (Hw Hu). unfold record, call in *. cbn in *.
  destruct (m h) as [r h']. by apply Hk.
Qed.
Lemma api_maintains {B} u (m : M (World H A) B) : Keeps (fun w => host w.1.1) m -> Maintains (stays_unique u) m.
Proof. apply (maintains_keeps (fun w : World H A => host w.1.1) (keeps_unique (host u.1.1))). Qed.

#[local] Instance World_maintains u : ProviderMaintains (W := World H A) (stays_unique u).
Proof.
  split; intros cfg; apply world_maintains.
  - apply (within_keeps (keeps_entries ips_unique)). intros w. cbn. destruct (Provider_EnsureInfra cfg w) as [r w'] eqn:E.
    by apply EnsureInfra_run in E as [? _].
  - apply (within_keeps (keeps_entries ips_unique)), GetMachineState_keeps_host.
  - apply (CreateMachine_invariant ips_unique).
  - apply (StartMachine_invariant ips_unique).
  - apply (DeleteMachine_invariant ips_unique).
  - apply (within_keeps (keeps_entries ips_unique)), GetMachineAddress_keeps.
Qed.
#[local] Instance World_reads_maintain u : ReadsMaintain (stays_unique u) := reads_keep_maintain _ (keeps_unique (host u.1.1)) RK.

(** C15: through any execution of workers of both controllers on the libvirt
    provider, interleaved call by call, some cut off, with failures of libvirt, of
    the API server and of patches at any point, no network on the host binds an
    address to two MACs, if none did before and others on the host keep to that. *)
Theorem addresses_stay_unique l jobs tr (w w' : World H A) n s h1 h2 :
  addresses_unique (host w.1.1) -> execution stays_unique l jobs w tr w' ->
  host_networks (host w'.1.1) !! n = Some s ->
  h1 ∈ all_hosts (network_doc s) -> h2 ∈ all_hosts (network_doc s) ->
  host_IP h1 = host_IP h2 -> host_IP h1 <> "" -> strings_EqualFold (host_MAC h1) (host_MAC h2) = true.
Proof.
  intros Hu Hex. enough (stays_unique w w') as Hk by (intros Hs; apply (Hk Hu n s Hs)).
  eapply (execution_related stays_unique); [|done|exact Hex]. intros u h o. apply api_maintains, Patch_machine_host.
Qed.
End World.
