(* ===== verification/Leftovers.v ===== *)
(** * Nothing is left behind on the host

    The histories of Orphans on the libvirt provider, for everything a machine has
    on the host: its domain, its two volumes and its DHCP reservation.  What this
    takes of libvirt beyond the laws of Isolation, Footprint and Addresses is
    [VolumeDeleteLaw]: deleting a volume, also when it fails, does not make one. *)

From stdpp Require Import base gmap propset list strings relations.
From Stdlib Require Import ZArith.
From S2P Require Import Prelude GoStrings Config LibvirtXML Builders MachineNetwork Reservation.
From S2P Require Import Libvirt Host OS CloudInit Volume Domain HostSpec Connect Infra Provider ProviderSpec Isolation.
From S2P Require Import Api Kube Credentials ProviderInterface ClusterController MachineController.
From S2P Require Import History Maintains Interleaving Orphans System Footprint Interference Addresses.

Class VolumeDeleteLaw (W : Type) `{LX : LibvirtXML} `{L : !Libvirt W} `{HV : !HostView W} : Prop :=
  VolDelete_makes_none v w :
    host_volume (host w) (vol_id v) = None -> host_volume (host (StorageVol_Delete v 0 w).2) (vol_id v) = None.

(** ** What machines leave on a host *)

(** A domain that is there, running or not; the definition that makes one
    persistent; a volume; a DHCP entry. *)
Inductive Leftover : Type :=
  | LeftDomain (name : string)
  | LeftDefinition (name : string)
  | LeftVolume (id : string * string)
  | LeftEntry (network : string) (mac : list Ascii.ascii).

(** The case of a MAC does not matter. *)
Definition on_host (h : HostState) (x : Leftover) : Prop :=
  match x with
  | LeftDomain n => n ∈ domain_names h
  | LeftDefinition n => n ∈ persistent_domains h
  | LeftVolume id => is_Some (host_volume h id)
  | LeftEntry n mac => exists s, host_networks h !! n = Some s /\ mac ∈ map folded_mac (all_hosts (network_doc s))
  end.
Definition belongs (cfg : MachineConfig) (x : Leftover) : Prop :=
  match x with
  | LeftDomain n | LeftDefinition n => n = cfg_DomainName cfg
  | LeftVolume id => machine_volume cfg id
  | LeftEntry n mac => n = cfg_Network cfg /\ mac = map lower (chars (machine_mac cfg))
  end.
#[export] Instance belongs_dec cfg x : Decision (belongs cfg x).
Proof. destruct x; cbn; unfold machine_volume; apply _. Defined.

(** The count needs that no network has two entries for one MAC, which the
    reservations keep. *)
Definition leftovers : Inventory HostState Leftover :=
  mkInventory (fun h => {[ x | on_host h x ]}) (entries_hold macs_unique) (fun cfg => {[ x | belongs cfg x ]}).

(** Whether it is about the domain. *)
Definition of_domain (x : Leftover) : Prop :=
  match x with LeftDomain _ | LeftDefinition _ => True | _ => False end.

(** ** One entry for each MAC *)

#[export] Instance macs_invariant {LX : LibvirtXML} : EntryInvariant macs_unique.
Proof.
  split.
  - intros d mac ip net net' Hu Hr. by eapply reserve_macs_unique.
  - unfold macs_unique. intros l x k. rewrite !map_app. cbn [map]. rewrite <- Permutation_middle, NoDup_cons. tauto.
Qed.

(** ** Everything but the domain *)

(** No volume and no entry came into being. *)
Definition shrinks (h h' : HostState) : Prop :=
  forall x, ~ of_domain x -> on_host h' x -> on_host h x.

#[export] Instance shrinks_pre : PreOrder shrinks.
Proof. split; [by intros h x|]. intros h1 h2 h3 H1 H2 x Hx Hon. apply H1, H2; done. Qed.
#[export] Instance shrinks_domains cfg : DomainRel cfg shrinks.
Proof.
  split; [apply _|]. intros h h' (Hp & Hn & _) [n|n|id|n mac] Hx; [by destruct Hx|by destruct Hx|..]; cbn.
  - unfold host_volume. by rewrite Hp.
  - by rewrite Hn.
Qed.

(** A change within the machine adds at most what belongs to it. *)
Lemma isolated_leftover cfg h h' x :
  isolated cfg h h' -> ~ of_domain x -> on_host h' x -> on_host h x \/ belongs cfg x.
Proof.
  intros [(_ & Hv & _ & Hn) He] Hx. destruct x as [n|n|id|n mac]; [by destruct Hx|by destruct Hx|..]; cbn.
  - unfold machine_volume. destruct (decide (id = (cfg_DomainPool cfg, domainDiskName cfg))); [tauto|].
    destruct (decide (id = (cfg_DomainPool cfg, isoDiskName cfg))); [tauto|]. rewrite Hv by done. by left.
  - destruct (decide (n = cfg_Network cfg)) as [->|Hne]; [|rewrite Hn by done; by left].
    intros (s' & Hs' & Hmac). rewrite Hs' in He. cbn [fmap option_fmap option_map] in He.
    destruct (host_networks h !! cfg_Network cfg) as [s|]; [|done]. injection He as _ _ He.
    apply list_elem_of_fmap in Hmac as (e & -> & Hin).
    destruct (strings_EqualFold (host_MAC e) (machine_mac cfg)) eqn:Ee.
    { right. split; [done|]. by apply EqualFold_folded. }
    left. exists s. split; [done|]. apply list_elem_of_fmap_2.
    assert (e ∈ other_macs (machine_mac cfg) (all_hosts (network_doc s'))) as Ho by (by apply list_elem_of_filter).
    rewrite He in Ho. by apply list_elem_of_filter in Ho as [_ ?].
Qed.

Section Provider.
Context {W : Type} {LX : LibvirtXML} {L : Libvirt W} {HV : HostView W} {HL : HostLaws W} {DL : DefineLaws W}.
Context {CF : CallFootprint W} {UA : UpdateAtomic W} {VD : VolumeDeleteLaw W} {CI : CloudInitLib W} {O : OS W}.
Context {FK : FilesKeep (W := W) host} {DK : DisksKeep (W := W) host}.
#[local] Existing Instance Provider_provider.

Lemma VolDelete_shrinks v w : shrinks (host w) (host (StorageVol_Delete (W := W) v 0 w).2).
Proof.
  destruct (VolDelete_only v w) as (Hn & _ & _ & Hv). intros [n|n|id|n mac] Hx; [by destruct Hx|by destruct Hx|..]; cbn.
  - destruct (decide (id = vol_id v)) as [->|Hne]; [|by rewrite Hv]. intros [s Hs].
    destruct (host_volume (host w) (vol_id v)) as [s'|] eqn:E; [done|]. apply VolDelete_makes_none in E. congruence.
  - by rewrite Hn.
Qed.

Lemma Update_shrinks (n : virNetwork) e xml w :
  NetworkDHCPHost_Marshal e = Ok xml ->
  shrinks (host w) (host (Update (W := W) n NETWORK_UPDATE_COMMAND_DELETE NETWORK_SECTION_IP_DHCP_HOST 0 xml 0 w).2).
Proof.
  intros Hx. destruct (Update_atomic n NETWORK_UPDATE_COMMAND_DELETE e xml w Hx) as [->|(doc & Hdoc & ->)]; [done|].
  intros [m|m|id|m mac] Hne; [by destruct Hne|by destruct Hne|done|]. cbn. intros (s & Hs & Hmac).
  destruct (decide (m = net_name n)) as [->|Hm]; [|rewrite lookup_alter_ne in Hs by done; by exists s].
  rewrite lookup_alter_eq in Hs. destruct (host_networks (host w) !! net_name n) as [s0|] eqn:E; [|done].
  injection Hs as <-. exists s0. split; [done|]. rewrite (host_net_view w n s0 E) in Hdoc.
  apply delete_entry in Hdoc as (l & x & k & -> & Hk). cbn in Hmac. rewrite Hk in Hmac.
  rewrite !map_app, !elem_of_app in *. cbn [map]. rewrite elem_of_cons. tauto.
Qed.

Lemma StartMachine_shrinks cfg : Within (W := W) shrinks (Provider_StartMachine cfg) (fun _ => True).
Proof. apply (StartMachine_within cfg shrinks). Qed.
Lemma DeleteMachine_shrinks cfg : Within (W := W) shrinks (Provider_DeleteMachine cfg) (fun _ => True).
Proof.
  apply (DeleteMachine_within cfg shrinks).
  - intros v _. apply within_any, VolDelete_shrinks.
  - intros n nm _. apply releaseMachineIP_then; [apply _|]. intros e xml w. apply Update_shrinks.
Qed.

(** ** The footprint of the provider *)

(** Nothing new, given the domains a computation defines. *)
Lemma uses_none {A} (m : M W A) w :
  Defines ∅ m -> shrinks (host w) (host (m w).2) -> keeps_entries macs_unique (host w) (host (m w).2) ->
  uses leftovers ∅ (host w) (host (m w).2).
Proof.
  intros Hd Hs Hm Hw. split; [by apply Hm|]. intros x Hx. right. change (on_host (host (m w).2) x) in Hx. change (on_host (host w) x).
  destruct (Hd w) as [Hd1 Hd2]. specialize (Hs x).
  destruct x as [n|n|id|n mac]; [cbn in *; set_solver|cbn in *; set_solver|apply Hs; [by intros []|done]..].
Qed.
Lemma uses_keeps {A} (m : M W A) w : Keeps host m -> uses leftovers ∅ (host w) (host (m w).2).
Proof. intros Hm. rewrite (Hm w). reflexivity. Qed.

Lemma CreateMachine_leaves cfg w :
  uses leftovers (keys leftovers cfg) (host w) (host (Provider_CreateMachine (W := W) cfg w).2).
Proof.
  intros Hw. destruct (CreateMachine_isolated cfg w) as [Hi _].
  destruct (CreateMachine_invariant macs_unique cfg w) as [Hk _]. split; [by apply Hk|].
  intros x Hx. apply elem_of_union. change (belongs cfg x \/ on_host (host w) x).
  change (on_host (host (Provider_CreateMachine cfg w).2) x) in Hx.
  destruct (CreateMachine_defines cfg w) as [Hd1 Hd2].
  pose proof (isolated_leftover _ _ _ x Hi) as Hiso.
  destruct x as [n|n|id|n mac]; [cbn in *; set_solver|cbn in *; set_solver|apply or_comm, Hiso; [by intros []|done]..].
Qed.

(** A deletion leaves the domain, and only that, when it runs and libvirt does not
    say so. *)
Definition spared_by (cfg : MachineConfig) (w : W) : propset Leftover :=
  {[ x | x = LeftDomain (cfg_DomainName cfg) /\ activity_unknown cfg w ]}.

Lemma DeleteMachine_leaves_none cfg w w' x :
  entries_hold macs_unique (host w) -> Provider_DeleteMachine (W := W) cfg w = (Ok tt, w') ->
  belongs cfg x -> on_host (host w') x -> x ∈ spared_by cfg w.
Proof.
  intros Hw Hd. pose proof (DeleteMachine_undefines cfg w w' Hd) as Hdef.
  apply DeleteMachine_run in Hd as (_ & Hdom & Hdisk & Hiso & Hres).
  destruct x as [n|n|id|n mac]; cbn [belongs on_host]; [|intros Hb Hon; exfalso; revert Hb Hon..].
  - intros -> Hon. split; [done|]. destruct Hdom as [Hn|[Hact _]]; [|done].
    by apply not_elem_of_dom in Hn.
  - by intros ->.
  - intros [->| ->]; rewrite ?Hdisk, ?Hiso; apply is_Some_None.
  - intros [-> ->] (s' & Hs' & Hin). unfold reservation_released in Hres.
    destruct (host_networks (host w) !! cfg_Network cfg) as [s|] eqn:Hs; [|congruence].
    destruct Hres as (doc & Hstep & Hs''). rewrite Hs'' in Hs'. injection Hs' as <-. cbn [network_doc] in Hin.
    destruct (release_effect _ _ _ _ (Hw _ _ Hs) Hstep) as (_ & Hnone & _).
    apply list_elem_of_fmap in Hin as (e & He & Hin).
    unfold hostEntryInNetwork in Hnone. rewrite find_host_None in Hnone.
    specialize (Hnone e Hin). symmetry in He. apply EqualFold_folded in He. unfold machine_mac in He. congruence.
Qed.

#[export] Instance leftovers_footprint : Footprint (host (W := W)) leftovers spared_by.
Proof.
  split; cbn [EnsureInfra GetMachineState CreateMachine StartMachine DeleteMachine GetMachineAddress Provider_provider].
  - intros cfg w. apply uses_keeps. intros w0. destruct (Provider_EnsureInfra cfg w0) as [r w'] eqn:E.
    by apply EnsureInfra_run in E as [? _].
  - intros cfg w. apply uses_keeps, GetMachineState_keeps_host.
  - apply CreateMachine_leaves.
  - intros cfg w. apply uses_none; [apply StartMachine_defines|apply StartMachine_shrinks|].
    apply (StartMachine_invariant macs_unique).
  - intros cfg w. apply uses_none; [apply DeleteMachine_defines|apply DeleteMachine_shrinks|].
    apply (DeleteMachine_invariant macs_unique).
  - intros cfg w w' Hw Hd x Hon. destruct (decide (belongs cfg x)) as [Hb|Hb]; [right|by left].
    split; [exact Hb|]. exact (DeleteMachine_leaves_none cfg w w' x Hw Hd Hb Hon).
  - intros cfg w. apply uses_keeps, GetMachineAddress_keeps.
Qed.
End Provider.

(** ** Histories on a libvirt host *)

Section World.
Context {H A : Type} {LX : LibvirtXML} {L : Libvirt H} {HV : HostView H} {HL : HostLaws H} {DL : DefineLaws H}.
Context {CF : CallFootprint H} {UA : UpdateAtomic H} {VD : VolumeDeleteLaw H} {CI : CloudInitLib H} {O : OS H}.
Context {FK : FilesKeep (W := H) host} {DK : DisksKeep (W := H) host}.
#[local] Existing Instance World_provider.
Context {KL : KubeLib (World H A)} {KLaws : KubeLibLaws (World H A)}.
Context {GC : Getter (World H A) LibvirtCluster} {GM : Getter (World H A) LibvirtMachine}.
Context {GS : Getter (World H A) Secret} {CU : ClusterAPIUtil (World H A)}.
Context {PM : Patcher (World H A) LibvirtMachine} {PCl : Patcher (World H A) LibvirtCluster}.
Context {AV : ApiView (W := World H A)} {ALaws : ApiLaws (W := World H A)} {PMg : PatchMerges (W := World H A)}.
(** The API server is not the libvirt host. *)
Context {RK : ReadsKeep (W := World H A) (fun w => host w.1.1)}.
Context (Patch_machine_host : forall h o, Keeps (fun w : World H A => host w.1.1) (Patch (T := LibvirtMachine) h o)).

(** What others may do: keep to the rules of History, and add only what is in [F]. *)
Definition outside_adds (F : propset Leftover) : relation (World H A) :=
  outside_uses (fun w : World H A => host w.1.1) leftovers F.

(** C3: nothing is left behind: after any execution of workers of both controllers
    on the libvirt provider, from a host whose networks have at most one entry for
    each MAC, interleaved call by call with each other and with
    others, some cut off, with failures of libvirt, of the API server and of patches
    at any point, every domain on the host, running or not, every definition of one,
    every volume and every DHCP entry was there at the start, is one that others put
    there, or belongs to a machine whose LibvirtMachine is still stored with the
    controller's finalizer.  There are two exceptions: a volume or an entry of a
    machine that was deleted with another pool or network in its configuration than
    the one it was created with; and a domain that a call of [DeleteMachine] in this
    execution left running, undefined, because libvirt failed to tell that call
    whether it was active. *)
Theorem nothing_left_behind F l jobs tr (w w' : World H A) x :
  provider_trace w = [] -> entries_hold macs_unique (host w.1.1) ->
  execution (outside_adds F) l jobs w tr w' -> on_host (host w'.1.1) x ->
  on_host (host w.1.1) x \/ x ∈ F \/
  exists cfg, belongs cfg x /\
    ((exists k lm, stored_machines w' !! k = Some lm /\ domainName lm = cfg_DomainName cfg /\
        LibvirtMachineFinalizer ∈ meta_Finalizers (lm_ObjectMeta lm)) \/
     (exists cfg', CallDeleteMachine cfg' (Ok tt) ∈ provider_trace w' /\
        cfg_DomainName cfg' = cfg_DomainName cfg /\
        match x with
        | LeftDomain _ | LeftDefinition _ => False
        | LeftVolume _ => cfg_DomainPool cfg' <> cfg_DomainPool cfg
        | LeftEntry _ _ => cfg_Network cfg' <> cfg_Network cfg
        end) \/
     x = LeftDomain (cfg_DomainName cfg) /\
     exists a u u', (a, (u, u')) ∈ tr /\ CallDeleteMachine cfg (Ok tt) ∈ calls_of (u, u') /\
       activity_unknown cfg u.1.1).
Proof.
  intros Hinit Hw Hex Hx.
  destruct (host_orphans (FP := World_footprint _ _ leftovers_footprint) _ leftovers _ Patch_machine_host F l jobs w tr w' x
              Hinit Hw Hex Hx) as [Hold|[HF|[Hleft|(cfg & res & _ & Hb & Hwho)]]]; [by left|by right; left|..].
  { destruct Hleft as (a & u & u' & Hin & cfg & Hd & Hb & -> & Hact). right; right. exists cfg. split; [exact Hb|].
    right; right. split; [done|]. by exists a, u, u'. }
  right; right. exists cfg. split; [exact Hb|]. destruct Hwho as [(k & lm & Hk & Hp & Hn)|(cfg' & Hin & Hn & Hnot)].
  - left. by exists k, lm.
  - right; left. exists cfg'. split_and!; [done..|]. change (belongs cfg x) in Hb. change (~ belongs cfg' x) in Hnot.
    destruct x as [n|n|id|n mac]; cbn in *.
    + apply Hnot. congruence.
    + apply Hnot. congruence.
    + intros Hpool. apply Hnot. revert Hb. unfold machine_volume, domainDiskName, isoDiskName. by rewrite Hn, Hpool.
    + intros Hnet. apply Hnot. destruct Hb as [-> ->]. unfold machine_mac. by rewrite Hn, Hnet.
Qed.
End World.
