(* ===== verification/ProviderWitnesses.v ===== *)
(** * Concrete runs of the provider

    Each lemma applies one of the provider's theorems to a run on the reference
    host: a machine is created, started, read and deleted. *)

From stdpp Require Import base gmap list strings.
From Stdlib Require Import ZArith Lia.
From S2P Require Import Prelude GoStrings GoUrl Config LibvirtXML RefXML MachineNetwork Reservation.
From S2P Require Import Libvirt Host OS CloudInit Volume Domain RefHost HostSpec Connect Infra Provider ProviderSpec.
From S2P Require Import Api Kube Credentials ProviderInterface ClusterController.

Local Open Scope Z_scope.

Definition example_infra : InfraConfig :=
  mkInfraConfig "qemu+tls://host/system?no_verify=1" "base" "vms" "default"
    (Some (mkCredentials (Some (mkTLS "CA" "CERT" "KEY")) None)).
Definition example_cfg : MachineConfig :=
  mkMachineConfig example_infra "machine-a" "3f1c0a52-6b3e-4c51-9a0e-8d7f4e2b1c90" "m1" "jammy.qcow2"
    2048 2 20 "#cloud-config".

Definition base_image : VolumeState :=
  mkVolumeState "/pools/base/jammy.qcow2" (mkStorageVolume "jammy.qcow2" 3 "G" "qcow2" None) (chars "QFI").
Definition example_host : HostState :=
  mkHostState
    {[ "default" := mkNetworkState true example_network [mkLease "52:54:00:A8:A9:C8" "192.168.122.12"] ]}
    (list_to_map [("base", mkPoolState true {[ "jammy.qcow2" := base_image ]}); ("vms", mkPoolState true ∅)])
    ∅.
Definition world_of (h : HostState) (fault : option Fault) : RefHost := mkRefHost h 0 ∅ 0 ∅ ∅ fault.
Definition world0 : RefHost := world_of example_host None.

Lemma run_pair {A B} (x : A * B) a : x.1 = a -> x = (a, x.2).
Proof. destruct x. cbn. by intros ->. Qed.

Lemma ok_returns {A} (a : A) : Ok a <> Diverge.
Proof. discriminate. Qed.

(** The machine is created, and then deleted. *)
Definition world1 : RefHost := (Provider_CreateMachine example_cfg world0).2.
Lemma create_run_returns : (Provider_CreateMachine example_cfg world0).1 = Ok tt.
Proof. vm_compute. reflexivity. Qed.
Lemma create_run :
  Provider_CreateMachine example_cfg world0 =
  (Ok tt, world1).
Proof. exact (run_pair _ _ create_run_returns). Qed.
Definition world2 : RefHost := (Provider_DeleteMachine example_cfg world1).2.
Lemma delete_run_returns : (Provider_DeleteMachine example_cfg world1).1 = Ok tt.
Proof. vm_compute. reflexivity. Qed.
Lemma delete_run :
  Provider_DeleteMachine example_cfg world1 =
  (Ok tt, world2).
Proof. exact (run_pair _ _ delete_run_returns). Qed.
#[local] Opaque world1 world2.
Definition example_mac : string := deriveDomainMAC "machine-a".

Example created_example :
  domain_active <$> (host_domains (hw_host world1) !! "machine-a") = Some true /\
  (fun v => str (volume_data v)) <$> host_volume (hw_host world1) ("vms", "cloudinit-machine-a.iso") =
    Some ("[user-data]#cloud-config[meta-data]instance-id: 3f1c0a52-6b3e-4c51-9a0e-8d7f4e2b1c90" +:+
          " local-hostname: m1cidata") /\
  hw_dirs world1 = ∅.
Proof. split_and!; vm_compute; reflexivity. Qed.

(** ** Handles *)

Lemma provider_releases_handles_witness : handles world1 = 0.
Proof.
  destruct (provider_releases_handles (W := RefHost) example_infra example_cfg) as (_ & H & _).
  specialize (H world0). rewrite create_run in H. exact (H (ok_returns tt)).
Defined.

Lemma start_returns : (Provider_StartMachine example_cfg world1).1 = Ok tt.
Proof. vm_compute. reflexivity. Qed.
Lemma start_handles :
  match connect (W := RefHost) (cfg_InfraConfig example_cfg) world1 with
  | (Ok conn, w1) =>
      if is_ok (LookupDomainByName conn (MachineConfig_domainName example_cfg) w1).1 then 1 else 0
  | _ => 0
  end = 1.
Proof. vm_compute. reflexivity. Qed.
Lemma StartMachine_leaks_domain_witness :
  handles (Provider_StartMachine example_cfg world1).2 = handles world1 + 1.
Proof.
  rewrite (StartMachine_leaks_domain (W := RefHost) example_cfg world1); [by rewrite start_handles|].
  rewrite start_returns. apply ok_returns.
Defined.

(** ** Infrastructure *)

Lemma ensure_returns : (Provider_EnsureInfra example_infra world0).1 = Ok tt.
Proof. vm_compute. reflexivity. Qed.
Lemma EnsureInfra_sound_witness : network_ready example_host "default".
Proof.
  destruct (EnsureInfra_sound (W := RefHost) example_infra world0 _ _ (run_pair _ _ ensure_returns)) as (_ & H & _).
  apply (H eq_refl).
Defined.

(** A host on which nothing exists. *)
Definition empty_world : RefHost := world_of (mkHostState ∅ ∅ ∅) None.
Definition missing_error : error :=
  WrapError "lookup network default" (LibvirtError ERR_NO_NETWORK "not found").
Lemma missing_returns : (Provider_EnsureInfra example_infra empty_world).1 = Err missing_error.
Proof. vm_compute. reflexivity. Qed.
Lemma empty_connect_returns : (connect (W := RefHost) example_infra empty_world).1 = Ok tt.
Proof. vm_compute. reflexivity. Qed.
Lemma EnsureInfra_never_missing_witness :
  getInfraError missing_error = InfrastructureProvisioningFailedReason.
Proof.
  destruct (EnsureInfra_never_missing (W := RefHost) example_infra empty_world missing_error _ _ _
              (run_pair _ _ empty_connect_returns) (run_pair _ _ missing_returns)) as [_ H].
  apply H. reflexivity.
Defined.

(** ** Machines *)

Lemma CreateMachine_post_witness :
  exists diskPath isoPath, host_domains (hw_host world1) !! "machine-a" =
    Some (mkDomState (domain_document example_cfg diskPath isoPath example_mac) true DOMAIN_RUNNING true true).
Proof.
  destruct (CreateMachine_post (W := RefHost) example_cfg world0 world1 create_run)
    as (diskPath & isoPath & ip & net & doc & H & _).
  exists diskPath, isoPath. exact H.
Defined.

(** A host without a fault answers whether a domain is active. *)
Lemma connect_fault cfg : Keeps hw_fault (connect cfg).
Proof.
  assert (forall uri, Keeps hw_fault (openConnection uri)) as Hopen by (intros uri; by apply keeps_wrap).
  pose proof RefHost_files_fault. unfold connect. destruct (infra_Credentials cfg); auto 10 with keeps.
Qed.
Lemma activity_known cfg (w : RefHost) : hw_fault w = None -> ~ activity_unknown cfg w.
Proof.
  intros Hw (c & w1 & d & w2 & e & s & Hc & Hl & He & _).
  apply (keeps_run _ _ _ _ (connect_fault _)) in Hc.
  assert (Keeps hw_fault (LookupDomainByName c (cfg_DomainName cfg))) as Hk.
  { intros w0. cbn. unfold ref_lookup. by case_bool_decide. }
  apply (keeps_run _ _ _ _ Hk) in Hl. cbn in He. unfold has_fault in He. by rewrite Hl, Hc, Hw in He.
Qed.

Lemma world1_fault : hw_fault world1 = None.
Proof. vm_compute. reflexivity. Qed.

Lemma DeleteMachine_post_witness :
  host_domains (hw_host world2) !! "machine-a" = None /\
  host_volume (hw_host world2) ("vms", "cloudinit-machine-a.iso") = None.
Proof.
  destruct (DeleteMachine_post (W := RefHost) example_cfg world1 world2 delete_run) as (H & _ & Hv & _).
  split; [|exact Hv]. destruct H as [H|[H _]]; [exact H|]. destruct (activity_known _ _ world1_fault H).
Defined.

Lemma example_reservations s :
  host_networks example_host !! "default" = Some s -> macs_unique (all_hosts (network_doc s)).
Proof. intros [= <-]. apply example_macs_unique. Qed.
Lemma example_absent : machine_absent example_cfg (hw_host world0).
Proof. split_and!; [reflexivity..|]. intros s [= <-]. vm_compute. reflexivity. Qed.

Lemma create_delete_roundtrip_witness : host_domains (hw_host world2) = ∅.
Proof.
  destruct (create_delete_roundtrip (W := RefHost) example_cfg world0 world1 world2) as [[_ H]|[H _]];
    [exact example_reservations|exact create_run|exact delete_run|..].
  - destruct (H example_absent) as (Hd & _). exact Hd.
  - destruct (activity_known _ _ world1_fault H).
Defined.

(** When libvirt cannot say whether the domain is active, it is left running. *)
Definition unknown_world : RefHost := with_fault (Some ActivityFault) world1.
Example unknown_activity_leaks :
  (Provider_DeleteMachine example_cfg unknown_world).1 = Ok tt /\
  (fun s => (domain_active s, domain_persistent s)) <$>
    (host_domains (hw_host (Provider_DeleteMachine example_cfg unknown_world).2) !! "machine-a") = Some (true, false).
Proof. split; vm_compute; reflexivity. Qed.

Lemma state_returns : (Provider_GetMachineState example_cfg world1).1 = Ok DomainStateRunning.
Proof. vm_compute. reflexivity. Qed.
Lemma GetMachineState_spec_witness : host_domains (hw_host world1) !! "machine-a" <> None.
Proof.
  destruct (GetMachineState_spec (W := RefHost) example_cfg world1 _ _ (run_pair _ _ state_returns)) as (_ & H & _).
  intros Hn. apply H in Hn. discriminate Hn.
Defined.

Lemma address_returns : (Provider_GetMachineAddress example_cfg world1).1 = Ok "192.168.122.12".
Proof. vm_compute. reflexivity. Qed.
Lemma GetMachineAddress_spec_witness :
  host (Provider_GetMachineAddress example_cfg world1).2 = host world1.
Proof.
  destruct (GetMachineAddress_spec (W := RefHost) example_cfg world1 _ _ (run_pair _ _ address_returns)) as [H _].
  exact H.
Defined.

(** A host that refuses the upload: the call fails and leaves the volume empty; once
    uploads work again the next call succeeds with the empty volume. *)
Definition failed_world : RefHost := (Provider_CreateMachine example_cfg (world_of example_host (Some UploadFault))).2.
Definition retry_world : RefHost := with_fault None failed_world.
Example empty_iso_attached :
  is_ok (Provider_CreateMachine example_cfg (world_of example_host (Some UploadFault))).1 = false /\
  (Provider_CreateMachine example_cfg retry_world).1 = Ok tt /\
  volume_data <$> host_volume (hw_host (Provider_CreateMachine example_cfg retry_world).2)
                    ("vms", "cloudinit-machine-a.iso") = Some [].
Proof. split_and!; vm_compute; reflexivity. Qed.

(** A machine deleted with another pool in its configuration: the call succeeds, the
    domain is gone, and the disk stays in the pool it was created in. *)
Definition moved_cfg : MachineConfig :=
  mkMachineConfig
    (mkInfraConfig (infra_URI example_infra) (infra_BasePool example_infra) "other-pool" (infra_Network example_infra)
       (infra_Credentials example_infra))
    (cfg_DomainName example_cfg) (cfg_DomainUUID example_cfg) (cfg_Hostname example_cfg) (cfg_BaseImage example_cfg)
    (cfg_MemoryMiB example_cfg) (cfg_VCPU example_cfg) (cfg_DiskSize example_cfg) (cfg_UserData example_cfg).
Example moved_pool_leaks :
  let run := Provider_DeleteMachine moved_cfg world1 in
  (is_ok run.1, bool_decide (is_Some (host_domains (hw_host run.2) !! "machine-a")),
   bool_decide (is_Some (host_volume (hw_host run.2) ("vms", "machine-a.qcow2")))) = (true, false, true).
Proof. vm_compute. reflexivity. Qed.

Definition empty_iso : VolumeState :=
  mkVolumeState "/pools/vms/cloudinit-machine-a.iso"
    (mkStorageVolume "cloudinit-machine-a.iso" 109 "bytes" "raw" None) [].
Definition example_conn : @Connect RefHost _ := tt.
Definition vms_pool : @StoragePool RefHost _ := "vms".
Lemma reuse_volume :
  host_volume (host retry_world) (pool_name vms_pool, isoDiskName example_cfg) = Some empty_iso.
Proof. vm_compute. reflexivity. Qed.
Lemma reuse_returns :
  (createISODisk (W := RefHost) example_conn vms_pool example_cfg retry_world).1 = Ok "/pools/vms/cloudinit-machine-a.iso".
Proof. vm_compute. reflexivity. Qed.
#[local] Opaque failed_world.
Lemma createISODisk_reuses_witness :
  host_volume (host (createISODisk (W := RefHost) example_conn vms_pool example_cfg retry_world).2)
    (pool_name vms_pool, isoDiskName example_cfg) = Some empty_iso.
Proof.
  destruct (createISODisk_reuses (W := RefHost) example_conn vms_pool example_cfg retry_world empty_iso _ _
              reuse_volume (run_pair _ _ reuse_returns)) as [_ H].
  exact H.
Defined.

(** ** Connections *)

Definition example_tls : Config.Credentials := mkCredentials (Some (mkTLS "CA" "CERT" "KEY")) None.
Definition example_uri : string := "qemu+tls://host/system?no_verify=1".
Lemma uri_returns :
  (connectionURI (W := RefHost) example_tls example_uri "/tmp/d1" world0).1 =
  Ok "qemu+tls://host/system?no_verify=1&pkipath=%2Ftmp%2Fd1".
Proof. vm_compute. reflexivity. Qed.
Lemma example_dir : "/tmp/d1" <> "".
Proof. discriminate. Qed.
Lemma connectionURI_spec_witness : exists u, url_Parse example_uri = Ok u.
Proof.
  destruct (connectionURI_spec (W := RefHost) example_tls example_uri "/tmp/d1"
              world0 _ _ example_dir (run_pair _ _ uri_returns)) as (u & params & Hu & _).
  exists u. exact Hu.
Defined.

Lemma NewConnect_dirs uri (w : RefHost) : temp_dirs (NewConnect uri w).2 = temp_dirs w.
Proof. reflexivity. Qed.
Lemma connect_returns : (connect (W := RefHost) example_infra world0).1 = Ok tt.
Proof. vm_compute. reflexivity. Qed.
(** The directory is gone; with a removal that fails it is not. *)
Lemma connect_cleanup_witness :
  temp_dirs (connect (W := RefHost) example_infra world0).2 = temp_dirs world0.
Proof.
  destruct (connect_cleanup example_infra world0 NewConnect_dirs) as [H|(dir & w1 & r & _ & Hr & Hne & _)];
    [rewrite connect_returns; apply ok_returns|exact H|].
  exfalso. apply (f_equal (fun x => hw_fault x.2)) in Hr as Hf. cbn [snd] in Hf.
  rewrite (connect_fault example_infra world0), (RemoveAll_keeps dir w1) in Hf.
  apply (f_equal fst) in Hr. cbn in Hr. unfold has_fault in Hr. rewrite Hf in Hr. by destruct Hne.
Defined.
Example removal_fails_leaks :
  is_ok (connect (W := RefHost) example_infra (with_fault (Some RemovalFault) world0)).1 = true /\
  size (temp_dirs (connect (W := RefHost) example_infra (with_fault (Some RemovalFault) world0)).2) = 1%nat.
Proof. split; vm_compute; reflexivity. Qed.
