(* ===== verification/SystemWitnesses.v ===== *)
(** * Concrete runs of the controllers on the libvirt provider

    The reference host, with one Secret for every name, and the objects of
    Witnesses: a machine is reconciled until its domain runs, and deleted; a
    cluster becomes ready. *)

From stdpp Require Import base gmap list strings.
From Stdlib Require Import ZArith Lia.
From S2P Require Import Prelude GoStrings Config LibvirtXML RefXML MachineNetwork Reservation.
From S2P Require Import Libvirt Host OS CloudInit Volume Domain RefHost HostSpec Connect Infra Provider ProviderSpec.
From S2P Require Import Api Kube Credentials ProviderInterface ClusterController MachineController Contract.
From S2P Require Import RefKube Witnesses System ProviderWitnesses.

#[local] Existing Instance Provider_provider.

(** The Secret holds bootstrap data and TLS credentials. *)
Definition any_secret : Secret :=
  mkSecret (example_meta "any" "u-s" [])
    (list_to_map [("ca.crt", "CA"); ("tls.crt", "CERT"); ("tls.key", "KEY"); ("value", "#cloud-config")]).
#[local] Instance RefHost_secrets : Getter RefHost Secret := fun _ w => (Ok any_secret, w).

Lemma run_split {A B C} (x : A * (B * C)) a : x.1 = a -> x = (a, (x.2.1, x.2.2)).
Proof. destruct x as [? []]. cbn. by intros ->. Qed.

(** ** A machine *)

Definition machine_run := MachineController.reconcileNormal (W := RefHost)
  (example_mscope None) (world0, example_LibvirtMachine None).
Definition machine_world : RefHost := machine_run.2.1.
Definition machine_object : LibvirtMachine := machine_run.2.2.
Lemma machine_run_returns : machine_run.1 = Ok noRequeue.
Proof. vm_compute. reflexivity. Qed.
Lemma machine_run_ready : mstatus_Ready (lm_Status machine_object) = true.
Proof. vm_compute. reflexivity. Qed.
Lemma machine_run_eq :
  MachineController.reconcileNormal (W := RefHost) (example_mscope None) (world0, example_LibvirtMachine None)
  = (Ok noRequeue, (machine_world, machine_object)).
Proof. exact (run_split machine_run _ machine_run_returns). Qed.
Lemma machine_not_deleted :
  Time_IsZero (meta_DeletionTimestamp (lm_ObjectMeta (example_LibvirtMachine None))) = true.
Proof. reflexivity. Qed.

Definition delete_machine_run := MachineController.reconcileDelete (W := RefHost)
  (example_mscope None) (machine_world, example_LibvirtMachine None).
Definition deleted_world : RefHost := delete_machine_run.2.1.
Definition deleted_object : LibvirtMachine := delete_machine_run.2.2.
Lemma delete_machine_returns : delete_machine_run.1 = Ok noRequeue.
Proof. vm_compute. reflexivity. Qed.
Lemma delete_machine_eq :
  MachineController.reconcileDelete (W := RefHost) (example_mscope None) (machine_world, example_LibvirtMachine None)
  = (Ok noRequeue, (deleted_world, deleted_object)).
Proof. exact (run_split delete_machine_run _ delete_machine_returns). Qed.
Lemma finalizer_before : meta_Finalizers (lm_ObjectMeta (example_LibvirtMachine None)) = [LibvirtMachineFinalizer].
Proof. reflexivity. Qed.
Lemma finalizer_after : meta_Finalizers (lm_ObjectMeta deleted_object) = [].
Proof. vm_compute. reflexivity. Qed.

Definition cluster_host_run := ClusterController.reconcileNormal (W := RefHost)
  example_loader example_cscope (world0, example_LibvirtCluster).
Definition cluster_world : RefHost := cluster_host_run.2.1.
Definition cluster_object : LibvirtCluster := cluster_host_run.2.2.
Lemma cluster_host_returns : cluster_host_run.1 = Ok noRequeue.
Proof. vm_compute. reflexivity. Qed.
Lemma cluster_host_eq :
  ClusterController.reconcileNormal (W := RefHost) example_loader example_cscope (world0, example_LibvirtCluster)
  = (Ok noRequeue, (cluster_world, cluster_object)).
Proof. exact (run_split cluster_host_run _ cluster_host_returns). Qed.
Lemma cluster_not_ready : cstatus_Ready (lc_Status example_LibvirtCluster) = false.
Proof. reflexivity. Qed.
Lemma cluster_host_ready : cstatus_Ready (lc_Status cluster_object) = true.
Proof. vm_compute. reflexivity. Qed.

#[local] Opaque machine_run machine_world machine_object delete_machine_run deleted_world deleted_object
  cluster_host_run cluster_world cluster_object world0 example_LibvirtMachine example_mscope example_LibvirtCluster
  example_cscope example_loader.

Lemma machine_ready_on_host_witness :
  domain_runs (host machine_world) (cfg_DomainName (mscope_MachineConfig (example_mscope None))).
Proof.
  apply (machine_ready_on_host (W := RefHost) (example_mscope None) world0 (example_LibvirtMachine None)
           noRequeue machine_world machine_object).
  - exact machine_run_eq.
  - exact machine_not_deleted.
  - exact machine_run_ready.
Defined.

Lemma machine_finalizer_on_host_witness :
  machine_left_nothing (W := RefHost) (host deleted_world) (mscope_MachineConfig (example_mscope None)).
Proof.
  apply (machine_finalizer_on_host (W := RefHost) (example_mscope None) machine_world
           (example_LibvirtMachine None) (Ok noRequeue) deleted_world deleted_object).
  - exact delete_machine_eq.
  - rewrite finalizer_before. apply list_elem_of_here.
  - rewrite finalizer_after. apply not_elem_of_nil.
Defined.

(** ** A cluster *)

Lemma cluster_ready_on_host_witness :
  infra_active (host cluster_world) (scope_InfraConfig example_cscope).
Proof.
  apply (cluster_ready_on_host (W := RefHost) example_loader example_cscope world0 example_LibvirtCluster
           (Ok noRequeue) cluster_world cluster_object).
  - exact cluster_host_eq.
  - exact cluster_not_ready.
  - exact cluster_host_ready.
Defined.
