(* ===== verification/HistoryWitnesses.v ===== *)
(** * The reference host next to the reference API server

    The world on which the witnesses run histories of both controllers, and the
    laws it keeps. *)

From stdpp Require Import base gmap list strings relations.
From Stdlib Require Import ZArith Lia.
From S2P Require Import Prelude GoStrings Config LibvirtXML RefXML MachineNetwork Reservation.
From S2P Require Import Libvirt Host OS CloudInit Volume Domain RefHost HostSpec Connect Infra Provider ProviderSpec.
From S2P Require Import Api Kube Credentials ProviderInterface ClusterController MachineController Contract.
From S2P Require Import History Maintains Interleaving Orphans RefKube Witnesses RefApi System Footprint ProviderWitnesses.

Local Open Scope Z_scope.

(** ** The host defines what it is told to *)

Lemma persistent_alter f n h :
  (forall d d', f d = Some d' -> domain_persistent d' = true -> domain_persistent d = true) ->
  persistent_domains (alter_domain f n h) ⊆ persistent_domains h.
Proof.
  intros Hf m. rewrite !elem_of_persistent. intros (s & Hs & Hp). unfold alter_domain in Hs. cbn in Hs.
  destruct (decide (n = m)) as [->|Hne].
  - rewrite lookup_partial_alter_eq in Hs. destruct (host_domains h !! m) as [d|] eqn:Hd; [|done].
    exists d. split; [done|]. by apply (Hf d s).
  - rewrite lookup_partial_alter_ne in Hs by done. by exists s.
Qed.
Lemma names_alter f n h : domain_names (alter_domain f n h) ⊆ domain_names h.
Proof.
  intros m. unfold domain_names, alter_domain. rewrite !elem_of_dom. cbn. intros [s Hs].
  destruct (decide (n = m)) as [->|Hne].
  - rewrite lookup_partial_alter_eq in Hs. by destruct (host_domains h !! m).
  - rewrite lookup_partial_alter_ne in Hs by done. by exists s.
Qed.
Lemma ref_alter_defines f d :
  (forall s s', f s = Some s' -> domain_persistent s' = true -> domain_persistent s = true) ->
  Defines ∅ (ref_alter_domain f d).
Proof.
  intros Hf w. pose proof (persistent_alter f d (hw_host w) Hf). pose proof (names_alter f d (hw_host w)).
  split; cbn; set_solver.
Qed.
Lemma same_domains_defines {A} (m : M RefHost A) :
  Keeps (fun w => host_domains (hw_host w)) m -> Defines ∅ m.
Proof.
  intros Hm w. specialize (Hm w). cbn in *. unfold defines_only, domain_names, persistent_domains. rewrite Hm.
  split; set_solver.
Qed.

#[global] Instance RefHost_define_laws : DefineLaws RefHost.
Proof.
  split; cbn.
  - intros n cmd sec i xml f. apply same_domains_defines. intros w. unfold ref_update.
    destruct sec, (host_networks (hw_host w) !! n) as [s|]; try done. destruct (read_doc _); [|done].
    by destruct (update_network _ _ _).
  - intros p xml _. apply same_domains_defines. intros w. unfold ref_create_volume. destruct (read_doc _); [|done].
    by destruct (_ && _).
  - intros v _. by apply same_domains_defines.
  - intros v s o n f. apply same_domains_defines. intros w. by destruct (has_fault UploadFault w).
  - intros s h r. apply same_domains_defines. intros w. unfold ref_send. destruct (hw_streams w !! s); [|done].
    by destruct (send_loop _ _ _).
  - done.
  - intros s. apply same_domains_defines. intros w. unfold ref_finish. by destruct (hw_streams w !! s).
  - intros c doc xml [= <-] w. cbn. rewrite read_write_doc. cbn. split; intros m; [unfold domain_names; set_solver|].
    rewrite elem_of_union, !elem_of_persistent. cbn. intros (s & Hs & Hp). destruct (decide (dom_Name doc = m)) as [->|Hne]; [left; by apply elem_of_singleton|].
    right. rewrite lookup_insert_ne in Hs by done. by exists s.
  - intros d b. apply ref_alter_defines. intros s s' Hs. injection Hs as <-. done.
  - intros d. apply ref_alter_defines. intros s s' Hs. injection Hs as <-. done.
  - intros d. apply ref_alter_defines. intros s s'. unfold domain_stopped. destruct (domain_persistent s) eqn:Hp; by intros [= <-].
  - intros d. apply ref_alter_defines. intros s s'. unfold domain_undefined. by destruct (domain_active s); intros [= <-].
Qed.

(** ** The host and the API server *)

#[local] Existing Instance World_provider.

Definition on_api {X} (m : M RefWorld X) : M (World RefHost RefWorld) X := fun s =>
  let '(r, a) := m s.1.2 in (r, ((s.1.1, a), s.2)).

#[global] Instance World_get {T} `{!Getter RefWorld T} : Getter (World RefHost RefWorld) T := fun k => on_api (Get k).
#[global] Instance World_util : ClusterAPIUtil (World RefHost RefWorld) := {
  GetOwnerCluster m := on_api (GetOwnerCluster m);
  GetOwnerMachine m := on_api (GetOwnerMachine m);
  GetClusterFromMetadata m := on_api (GetClusterFromMetadata m);
}.
#[global] Instance World_Patcher {T} `{!Patcher RefWorld T} : Patcher (World RefHost RefWorld) T := {
  Helper := Helper (W := RefWorld) (T := T);
  NewHelper o := on_api (NewHelper o);
  Patch h o := on_api (Patch h o);
}.
#[global] Instance World_view : ApiView (W := World RefHost RefWorld) := {
  stored_machines w := ref_machines w.1.2;
  helper_object h := h;
}.

(** An observation that the API server's LibvirtClusters do not show in. *)
Lemma World_reads {X} (obs : World RefHost RefWorld -> X) :
  (forall h cs a t, obs ((h, mkRefWorld cs (rw_machines a) (rw_secrets a) (rw_cluster a) (rw_machine a)
                                (rw_provider a)), t) = obs ((h, a), t)) ->
  ReadsKeep obs.
Proof.
  intros Hc. split.
  1,2,3: intros k [[h a] t]; unfold Get, World_get, on_api; cbn [fst snd];
         match goal with |- context [match ?g a with _ => _ end] => destruct (g a) as [r a'] eqn:Hg end;
         cbn [fst snd]; assert (a' = a) as -> by exact (keeps_run _ _ _ _ (ref_get_keeps _ id k) Hg); done.
  all: try by intros ? [[h a] t].
  intros h o [[w a] t]. apply Hc.
Qed.

Lemma provider_keeps_api {B} c (m : M RefHost B) (s : World RefHost RefWorld) :
  (record c (call (T := RefWorld) m) s).2.1.2 = s.1.2.
Proof. destruct s as [[h a] t]. unfold record, call. cbn. by destruct (m h). Qed.

#[global] Instance World_laws : ApiLaws (W := World RefHost RefWorld).
Proof.
  split.
  - by apply World_reads.
  - by apply World_reads.
  - split; intros cfg s; exact (f_equal ref_machines (provider_keeps_api _ _ s)).
  - intros [[h a] t] k lm Hk. by apply map_lookup_filter_Some in Hk as [_ Hk].
  - intros k [[h a] t] lm w'. unfold Get, World_get, on_api, Get, RefWorld_machines, ref_get.
    cbn [fst snd stored_machines World_view]. destruct (ref_machines a !! k) eqn:Hk; intros [= <- _]. done.
  - by intros o [[h a] t] x w' [= <- <-].
  - by intros h o [[w a] t].
  - intros h o [[x a] t] r w' H k Hk. exists o. split; [by right|]. split; [done|].
    injection H as <- <-. by apply ref_patch_law.
Qed.
#[global] Instance World_merges : PatchMerges (W := World RefHost RefWorld).
Proof. intros h o [[x a] t] r w' H. injection H as _ <-. apply ref_patch_merges. Qed.

Lemma host_keeps : ReadsKeep (W := World RefHost RefWorld) (fun w => host w.1.1).
Proof. by apply World_reads. Qed.
Lemma host_patch_keeps (h o : LibvirtMachine) :
  Keeps (fun w => host w.1.1) (Patch (W := World RefHost RefWorld) (T := LibvirtMachine) h o).
Proof. by intros [[x a] t]. Qed.
