(* ===== verification/IsolationWitnesses.v ===== *)
(** * Two machines on one host

    The reference host keeps the laws of Isolation, and the theorems are applied to
    runs on a host that has another machine: a creation that fails half way, and
    runs of [Reconcile]. *)

From stdpp Require Import base gmap list strings relations.
From Stdlib Require Import ZArith.
From S2P Require Import Prelude GoStrings Config LibvirtXML RefXML MachineNetwork Reservation.
From S2P Require Import Libvirt Host OS CloudInit Volume Domain RefHost HostSpec Connect Infra Provider ProviderSpec.
From S2P Require Import Isolation Api Kube Credentials ProviderInterface ClusterController MachineController.
From S2P Require Import History Maintains Interleaving Orphans RefKube Witnesses RefApi System Footprint Interference Addresses Leftovers.
From S2P Require Import ProviderWitnesses HistoryWitnesses.

Local Open Scope Z_scope.

(** ** The reference host *)

Lemma other_macs_app mac l k : other_macs mac (l ++ k) = other_macs mac l ++ other_macs mac k.
Proof. apply filter_app. Qed.
Lemma other_macs_same mac x l : strings_EqualFold (host_MAC x) mac = true -> other_macs mac (x :: l) = other_macs mac l.
Proof. intros Hx. unfold other_macs. by rewrite filter_cons_False by congruence. Qed.

(** An update keeps the entries of the other MACs. *)
Lemma update_hosts_other cmd e l l' :
  update_hosts cmd e l = Some l' -> other_macs (host_MAC e) l' = other_macs (host_MAC e) l.
Proof.
  destruct cmd; cbn; intros Hu.
  - discriminate Hu.
  - apply replace_first_spec in Hu as (l1 & x & l2 & -> & -> & _ & Hx).
    rewrite !other_macs_app, !other_macs_same by (done || apply EqualFold_refl). done.
  - apply remove_first_spec in Hu as (l1 & x & l2 & -> & -> & Hx). apply andb_true_iff in Hx as [Hx _].
    by rewrite !other_macs_app, other_macs_same.
  - injection Hu as <-. rewrite other_macs_app, other_macs_same by apply EqualFold_refl. apply app_nil_r.
Qed.
Lemma update_network_other cmd e net net' :
  update_network cmd e net = Some net' ->
  other_macs (host_MAC e) (all_hosts net') = other_macs (host_MAC e) (all_hosts net).
Proof.
  intros Hu. apply update_network_hosts in Hu as (l & l' & rest & Hu & -> & ->).
  by rewrite !other_macs_app, (update_hosts_other _ _ _ _ Hu).
Qed.

Lemma only_volume_host id h h' : h' = h -> only_volume id h h'.
Proof. by intros ->. Qed.

#[global] Instance RefHost_footprint : CallFootprint RefHost.
Proof.
  split; cbn.
  - intros n cmd e xml w [= <-]. unfold ref_update. rewrite read_write_doc.
    destruct (host_networks (hw_host w) !! n) as [s|] eqn:Hs; [|by split_and!].
    destruct (update_network cmd e (network_doc s)) as [doc|] eqn:Hu; [|by split_and!]. cbn.
    split; [apply only_network_doc|]. rewrite (set_network_doc_lookup _ _ _ _ Hs), Hs. cbn.
    by rewrite (update_network_other _ _ _ _ Hu).
  - intros p doc xml w [= <-]. unfold ref_create_volume. rewrite read_write_doc.
    destruct (bool_decide _ && _) eqn:Hb; [|done]. apply andb_true_iff in Hb as [Hp _].
    apply bool_decide_eq_true in Hp. cbn. apply only_volume_alter. by apply host_volume_insert.
  - intros [p v] w. cbn. apply only_volume_alter. apply host_volume_delete.
  - intros v s n w. by destruct (has_fault UploadFault w).
  - intros s h r w u Hu. unfold ref_send. rewrite Hu. destruct (send_loop _ _ _); cbn.
    + split; [done|]. rewrite lookup_insert_eq. by intros u' [= <-].
    + split; [done|]. rewrite Hu. by intros u' [= <-].
    + split; [done|]. rewrite Hu. by intros u' [= <-].
  - intros s w u Hu. unfold ref_finish. rewrite Hu. cbn. destruct (upload_target u) as [p v].
    apply only_volume_alter. apply host_volume_alter_data.
  - intros s w. by destruct (hw_streams w !! s).
  - intros c doc xml w [= <-]. rewrite read_write_doc. cbn. split_and!; [done..|]. intros m Hm. cbn.
    by rewrite lookup_insert_ne.
  - intros d b w. apply only_domain_alter.
  - intros d w. apply only_domain_alter.
  - intros d w. apply only_domain_alter.
  - intros d w. apply only_domain_alter.
Qed.

#[global] Instance RefHost_atomic : UpdateAtomic RefHost.
Proof.
  intros n cmd e xml w [= <-]. cbn in *. unfold ref_update. rewrite read_write_doc.
  destruct (host_networks (hw_host w) !! n) as [s|] eqn:Hs; [|by left].
  destruct (update_network cmd e (network_doc s)) as [doc|] eqn:Hu; [|by left]. right. exists doc.
  split; [|done]. unfold net_view, Host_NetworkView. cbn. by rewrite Hs.
Qed.

(** ** A creation that fails next to another machine *)

Definition other_cfg : MachineConfig :=
  mkMachineConfig (set_Credentials example_infra None) "machine-b" "9b3de0c4-54c5-4c7c-8f0c-1c1f3c0f6f11" "m2" "jammy.qcow2"
    2048 2 20 "#cloud-config".
Definition two_good : RefHost := (Provider_CreateMachine other_cfg world0).2.
Definition two_world : RefHost := with_fault (Some UploadFault) two_good.
Lemma example_unrelated : unrelated (cfg_DomainName example_cfg) (cfg_DomainName other_cfg).
Proof. split; [discriminate|vm_compute; reflexivity]. Qed.

Example creation_fails :
  let run := Provider_CreateMachine example_cfg two_world in
  (is_ok run.1, bool_decide (is_Some (host_volume (hw_host run.2) ("vms", "cloudinit-machine-a.iso"))),
   bool_decide (is_Some (host_domains (hw_host run.2) !! "machine-b"))) = (false, true, true).
Proof. vm_compute. reflexivity. Qed.

#[local] Opaque two_world.
Lemma provider_isolated_witness :
  machine_on_host other_cfg (host (Provider_CreateMachine example_cfg two_world).2) =
  machine_on_host other_cfg (host two_world).
Proof.
  destruct (provider_isolated (W := RefHost) example_cfg other_cfg two_world
              (Provider_CreateMachine example_cfg two_world).2 (list_elem_of_here _ _)) as [_ H].
  exact (H example_unrelated).
Defined.

(** ** A run of Reconcile next to another machine *)

#[local] Existing Instance World_provider.

Definition two_host_world : World RefHost RefWorld := ((two_world, api_world.1), []).
Definition stored_name : string := default "" (domainName <$> (stored_machines two_host_world !! machine_req)).
Lemma stored_unrelated : unrelated stored_name (cfg_DomainName other_cfg).
Proof. split; [vm_compute; discriminate|vm_compute; reflexivity]. Qed.
Lemma two_stored lm :
  stored_machines two_host_world !! machine_req = Some lm -> unrelated (domainName lm) (cfg_DomainName other_cfg).
Proof.
  intros Hlm. pose proof stored_unrelated as Hu. unfold stored_name in Hu. rewrite Hlm in Hu. exact Hu.
Qed.

Lemma reconcile_isolated_witness :
  machine_on_host other_cfg (host (MachineController.Reconcile example_loader machine_req two_host_world).2.1.1) =
  machine_on_host other_cfg (host two_world).
Proof.
  destruct (reconcile_isolated (RK := host_keeps) host_patch_keeps example_loader machine_req other_cfg
              two_host_world) as [_ H].
  exact (H two_stored).
Defined.

(** ** A history next to another machine *)

Definition net_world0 : World RefHost RefWorld := ((two_good, api_world.1), []).
(** Two runs of [Reconcile]: the finalizer, then the domain. *)
Definition net_world : World RefHost RefWorld := in_turn example_loader machine_req net_world0 2.
Lemma net_history : exists tr, execution stays_unique example_loader (fun _ => MachineJob machine_req) net_world0 tr net_world.
Proof. destruct (execution_in_turn stays_unique example_loader machine_req net_world0 2) as (tr & Hex & _). by exists tr. Qed.
Lemma net_world_entries :
  (fun s => length (all_hosts (network_doc s))) <$> (host_networks (host net_world.1.1) !! "default") = Some 3%nat.
Proof. vm_compute. reflexivity. Qed.
Lemma example_unique : addresses_unique (host world0).
Proof.
  intros n s Hs. destruct (decide (n = "default")) as [->|Hn].
  - injection Hs as <-. apply example_ips_unique.
  - cbn in Hs. rewrite lookup_singleton_ne in Hs by congruence. discriminate Hs.
Qed.
Lemma two_good_unique : addresses_unique (host two_good).
Proof.
  unfold two_good. destruct (CreateMachine_invariant (W := RefHost) ips_unique other_cfg world0) as [Hk _].
  exact (Hk example_unique).
Qed.
Lemma net_world0_unique : addresses_unique (host net_world0.1.1).
Proof. exact two_good_unique. Qed.
#[local] Opaque net_world0 net_world.

Lemma addresses_stay_unique_witness :
  exists s, host_networks (host net_world.1.1) !! "default" = Some s /\
    length (all_hosts (network_doc s)) = 3%nat /\ ips_unique (all_hosts (network_doc s)).
Proof.
  destruct (host_networks (host net_world.1.1) !! "default") as [s|] eqn:Hs.
  - exists s. pose proof net_world_entries as He. rewrite Hs in He. injection He as He.
    split; [reflexivity|]. split; [exact He|]. intros h1 h2. destruct net_history as [tr Htr].
    exact (addresses_stay_unique (RK := host_keeps) host_patch_keeps example_loader (fun _ => MachineJob machine_req) tr
             net_world0 net_world "default" s h1 h2 net_world0_unique Htr Hs).
  - pose proof net_world_entries as He. rewrite Hs in He. discriminate He.
Defined.

(** ** A history that fails half way *)

#[global] Instance RefHost_delete : VolumeDeleteLaw RefHost.
Proof. intros [p v] w _. cbn. by apply host_volume_delete. Qed.

(** The upload of the cloud-init image fails, and there is no domain, but there is
    the volume that was to hold it. *)
Definition fail_world0 : World RefHost RefWorld :=
  ((with_fault (Some UploadFault) world0, api_world.1), []).
Definition fail_world : World RefHost RefWorld := in_turn example_loader machine_req fail_world0 2.
Definition fail_domain : string := domainName fresh_LibvirtMachine.
Definition fail_volume : string * string := ("vms", "cloudinit-" +:+ fail_domain +:+ ".iso").

Lemma fail_history :
  exists tr, execution (outside_adds ∅) example_loader (fun _ => MachineJob machine_req) fail_world0 tr fail_world.
Proof.
  destruct (execution_in_turn (outside_adds ∅) example_loader machine_req fail_world0 2) as (tr & Hex & _). by exists tr.
Qed.
Lemma fail_world0_volume : bool_decide (is_Some (host_volume (host fail_world0.1.1) fail_volume)) = false.
Proof. vm_compute. reflexivity. Qed.
(** The volume is there, the domain is not, and [DeleteMachine] was not called. *)
Lemma fail_world_volume :
  bool_decide (is_Some (host_volume (host fail_world.1.1) fail_volume)) &&
  bool_decide (host_domains (host fail_world.1.1) !! fail_domain = None) &&
  forallb (fun c => match c with CallDeleteMachine _ _ => false | _ => true end) (provider_trace fail_world) = true.
Proof. vm_compute. reflexivity. Qed.
Lemma fail_world0_macs : entries_hold macs_unique (host fail_world0.1.1).
Proof.
  intros n s Hs. destruct (decide (n = "default")) as [->|Hn].
  - injection Hs as <-. apply example_macs_unique.
  - cbn in Hs. rewrite lookup_singleton_ne in Hs by congruence. discriminate Hs.
Qed.
Lemma fail_world0_empty : provider_trace fail_world0 = [].
Proof. reflexivity. Qed.
#[local] Opaque fail_world0 fail_world fail_volume.

Lemma nothing_left_behind_witness :
  is_Some (host_volume (host fail_world.1.1) fail_volume) /\
  exists cfg k lm, machine_volume cfg fail_volume /\ stored_machines fail_world !! k = Some lm /\
    domainName lm = cfg_DomainName cfg /\ LibvirtMachineFinalizer ∈ meta_Finalizers (lm_ObjectMeta lm).
Proof.
  destruct (proj1 (andb_true_iff _ _) fail_world_volume) as [H1%andb_true_iff Hc].
  destruct H1 as [H1%bool_decide_eq_true _]. split; [exact H1|].
  destruct fail_history as [tr Htr].
  destruct (nothing_left_behind (RK := host_keeps) host_patch_keeps ∅ example_loader (fun _ => MachineJob machine_req) tr
              fail_world0 fail_world (LeftVolume fail_volume) fail_world0_empty fail_world0_macs Htr H1)
    as [Hin|[Hin|(cfg & Hb & [(k & lm & Hk & Hn & Hf)|[(cfg' & Hin & _)|[Hx _]]])]].
  - destruct (proj1 (bool_decide_eq_false _) fail_world0_volume Hin).
  - destruct (not_elem_of_empty _ Hin).
  - exists cfg, k, lm. split_and!; assumption.
  - apply list_elem_of_In in Hin. rewrite forallb_forall in Hc.
    specialize (Hc _ Hin). discriminate Hc.
  - discriminate Hx.
Defined.
